(* ===== verification/_CoqProject ===== *)
-Q . S2P
Prelude.v
HuffmanMem.v
HuffmanSpec.v
HuffmanQueue.v
HuffmanTree.v
HuffmanWalk.v
HuffmanBits.v
HuffmanDecode.v
HuffmanLib.v
HuffmanTyped.v
Avr.v
Stdio.v
HuffmanDot.v
Board.v
I2cMaster.v
I2cWire.v
Fram.v
Stations.v
Store.v
Leds.v
Buttons.v
Controller.v
ControllerFiles.v
ControllerPoll.v
ControllerJobs.v
Slave.v
SlaveJobs.v
SlaveState.v
Cluster.v
ClusterJobs.v
SlaveAddress.v
UsbRegs.v
UsbEndpoint.v
UsbController.v
UsbStream.v
UsbDescriptors.v
UsbRequests.v
UsbCdc.v
UsbHw.v
UsbSerial.v
UsbStdio.v
UsbControl.v
UsbTransfers.v
UsbState.v
Console.v
HuffmanTool.v
HidParser.v
HidItems.v
HidLayout.v
HidValues.v
HidReports.v
HidDevices.v
RingBuffer.v
HidClass.v
