(* ===== verification/Prelude.v ===== *)
(** * Distributed Huffman compression on AVR boards: verification development

    ** The program

    A controller board (src/main) holds two files on an I2C FRAM chip, talks to
    a host over a USB serial port and hands blocks of the input file to worker
    boards (src/slave) on the I2C bus; a worker compresses or inflates a block
    with the Huffman library and the controller collects the results.  Both
    images are linked with the virtual serial port (src/virtualserial), which
    runs on the device side of the USB stack LUFA (src/lufa/LUFA/Drivers/USB).
    src/huffman is a desktop program around the Huffman library.

    ** How C becomes Rocq

    A C function is a function into [res] (this file: a value or a [fault]:
    access out of bounds, null pointer, failed assertion, signed overflow, bad
    shift, fuel used up) or, where it touches hardware, a program of the state
    and error monad [IO] of [Avr.v].  Integers are [Z] with [u8], [u16] and the
    like at the places where C truncates; [int] has 16 bits, and its overflow
    is a fault.  Arrays are lists, accessed with [load] and [store], which fail
    out of bounds; pointers into an array are indices.  Uninitialised memory is
    an argument.  Hardware is a parameter: a class of register operations
    ([Mcu], [Ucu]) for the definitions, and a class of laws with the documented
    behaviour ([Board], [I2cBus], [Stations], [ByteRegs], [SlaveRegs],
    [SlaveUnit], [AfterFault], [UsbHw], [CtrlHw]) for the theorems, each with an executable
    instance on which the witnesses run.  [printf] is the C library's
    ([Stdio]): a program records its calls, and [Stdio] says what they print.
    Interrupts are taken where the code reads the volatile variable they write.

    ** The parts

    - Huffman library (slave/huffman.c; the copies in main/ and huffman/ are the
      same code).  [HuffmanMem]: the code, over the arrays of nodes and queue
      cells.  [HuffmanSpec]: trees, codes and decoding as mathematics.
      [HuffmanQueue], [HuffmanTree], [HuffmanWalk], [HuffmanBits],
      [HuffmanDecode]: each layer of the code implements its specification.
      [HuffmanLib]: compression and inflation are inverse, the layout of a
      block, the inputs on which compression fails (31 distinct bytes, codes of
      more than eight bits, a single symbol; the bytes 0, asterisk and hyphen,
      which mark nodes), inflation ends on every input.
      [HuffmanTyped]: whatever the input, the output is a buffer of bytes of
      the same size.  [HuffmanDot]: the drawing of a tree shows that tree.
    - Microcontroller and board.  [Avr]: registers, [IO] and refinement of
      programs.  [Board]: the two-wire unit, ports and stdio.
    - I2C master library (main/i2c_master.c).  [I2cMaster]: the code.
      [I2cWire]: it refines transactions on the bus.  [Fram]: the storage chip
      and the interface [Storage].  [Stations]: devices that answer to an
      address, alone, in pairs and in rows, and what a probe of an address
      tells.  [Store]: what is written is read back, the
      layout after formatting, and the timeout that never ends the wait.
    - LEDs and buttons (main/leds.c, main/buttons.c): [Leds], [Buttons].
    - Controller image (main/main.c).  [Controller]: the code.
      [ControllerFiles]: a text read from the serial line is stored, printed
      back and survives a restart.  [ControllerPoll]: the state machine of the
      buttons and what a click or a held button does.  [ControllerJobs]: the
      search for workers, the number of blocks, and the loops and buffers that
      go wrong when jobs are distributed: without a worker the loop over the
      blocks never ends.
    - Worker image (slave/i2c_slave.c, slave/main.c).  [Slave]: the code.
      [SlaveJobs]: the protocol on the bus and the results of the jobs, which
      are inverse to each other; the Huffman theorems say what the block in the
      output buffer is.  [SlaveState]: the types of the worker's globals as an
      invariant over all sequences of its interrupts.  [SlaveAddress]: the
      worker takes the first free address.
    - The two images together.  [Cluster]: the worker image as a device on the
      bus of the controller, and what becomes of a register write and a
      register read between the two.  [ClusterJobs]: a row of workers beside
      the chip discharges the interfaces of the controller's theorems; the
      status request of the controller makes a worker that comes from a reset
      access memory out of bounds.  What a board does after a fault is not in
      the code: it is a parameter ([AfterFault]), any device on the bus that does
      not hold the clock for ever, and the theorems hold whatever it answers.
    - USB stack.  [UsbRegs]: registers and globals.  [UsbEndpoint]:
      Endpoint_AVR8.h/.c.  [UsbController]: USBController_AVR8, Device_AVR8,
      USBInterrupt_AVR8.  [UsbStream]: waiting and the stream templates.
      [UsbDescriptors]: the descriptors of the firmware (virtualserial/
      Descriptors.c) and ConfigDescriptors.c.  [UsbRequests]:
      DeviceStandardReq.c and USBTask.c.  [UsbCdc]: CDCClassDevice.c and
      virtualserial/VirtualSerial.c.
    - USB theorems.  [UsbHw] and [UsbSerial]: over the data endpoints the host
      receives what was printed and the firmware reads what was sent.
      [UsbStdio]: a file the controller prints arrives at the host.
      [UsbControl] and [UsbTransfers]: over the control endpoint the host gets
      its descriptors, addresses and configures the device, sets and reads the
      line coding, and unknown requests are stalled.  [UsbState]: an invariant
      of the stack's globals over all sequences of its entry points, on any
      hardware.
    - Library code of LUFA.  HIDParser.c, which virtualserial/makefile compiles
      into the library of the firmware, reads the report descriptors of HID
      devices.  [HidParser]: the code and the macros that write descriptors.
      [HidItems]: the parser runs the items of a descriptor, one after the
      other.  [HidLayout]: it stays inside its tables, but for a PUSH.
      [HidValues]: reading and writing of item values.  [HidReports]: the items
      lie side by side in their reports and can be read from them.
      [HidDevices]: the descriptors of HIDClassCommon.h.  [HidClass]
      (HIDClassDevice.c): the class driver of such a device sends its reports
      when they change or an idle period is over, over the data endpoints of
      [UsbHw], and keeps the settings of the host, over the control endpoint of
      [UsbControl].  [RingBuffer]
      (Misc/RingBuffer.h): over all interleavings of the accesses of two
      threads a bounded queue, from which everything that was inserted can be
      removed.
    - Serial console (main/lufa.c): [Console].  Desktop program
      (huffman/main.c): [HuffmanTool].

    ** Fuel

    Loops whose length is bounded by data are structural recursions.  Polling
    loops take fuel; a theorem says how much is enough, in terms of the bound
    of the hardware class on the answering time ([latency], [ulat], [clat]) and
    of the number of bytes or packets, so it proves that the code returns.
    The theorems about loops that never return state it for every fuel.  The
    fuel of the Huffman walks is the size of the node array, which no tree
    exceeds.

    ** Not modelled

    - The rest of LUFA: host mode, other classes, architectures, bootloaders,
      demos and projects, which the firmware does not use.  Of
      ConfigDescriptors.c, the host function, which is not compiled for the
      controller of the boards.
    - The C library below printf and fgetc: the images record their calls of
      printf and read characters through [Mcu]; [UsbStdio] carries the recorded
      calls out on the serial port.  Input is not composed: when a character
      that the host has sent is there for fgetc depends on the timing.
    - Interrupts between two accesses of a function other than at the reads of
      the volatile variables, time in seconds, and the electrical side of the
      buses.  In particular nothing arrives between the read and the write of a
      read-modify-write of a USB register, and an interrupt that the stack lets
      in while it serves a control request (USB_COM_vect) is taken afterwards.
      What a board does after a fault is left open, as said above. *)

From stdpp Require Export base tactics numbers option sets list.

(** ** C execution results

    Every C function of the firmware is a function into [res]: it returns a
    value, or it stops on one of the faults C leaves undefined (or aborts on),
    or a loop exceeds the fuel of the model. *)

Inductive fault :=
  | OutOfBounds       (* access outside of an array object *)
  | NullDeref         (* dereference of a null pointer *)
  | AssertFail        (* a failed assert() *)
  | SignedOverflow    (* overflow of a (16-bit) int *)
  | BadShift          (* shift by a negative amount *)
  | NoFuel.           (* the loop did not finish within the model's fuel *)

#[export] Instance fault_eq_dec : EqDecision fault.
Proof. solve_decision. Defined.

Inductive res (A : Type) :=
  | Ok (a : A)
  | Err (e : fault).
Arguments Ok {_} _.
Arguments Err {_} _.

#[export] Instance res_ret : MRet res := λ A a, Ok a.
#[export] Instance res_bind : MBind res := λ A B f m,
  match m with Ok a => f a | Err e => Err e end.

Lemma res_bind_Ok {A B} (a : A) (f : A → res B) : (Ok a ≫= f) = f a.
Proof. reflexivity. Qed.

Lemma res_bind_Err {A B} (e : fault) (f : A → res B) : (Err e ≫= f) = Err e.
Proof. reflexivity. Qed.

Lemma res_bind_Ok_inv {A B} (m : res A) (f : A → res B) b :
  (m ≫= f) = Ok b ↔ ∃ a, m = Ok a ∧ f a = Ok b.
Proof.
  destruct m as [a|e]; split.
  - intros H. exists a. done.
  - intros (a' & [= <-] & H). done.
  - intros H. discriminate H.
  - intros (a' & H & _). discriminate H.
Qed.

Lemma res_bind_assoc {A B C} (m : res A) (f : A → res B) (g : B → res C) :
  ((m ≫= f) ≫= g) = (m ≫= λ a, f a ≫= g).
Proof. by destruct m. Qed.

Create Rewrite HintDb cres.
#[export] Hint Rewrite @res_bind_Ok @res_bind_Err : cres.

(** ** Machine integers

    [uint8_t] and [uint16_t] values are integers in range, arithmetic on them
    wraps; [int] has the 16 bits of the AVR target. *)

Definition u8 (z : Z) : Z := (z `mod` 256)%Z.
Definition u16 (z : Z) : Z := (z `mod` 65536)%Z.
Definition u32 (z : Z) : Z := (z `mod` 4294967296)%Z.
Definition INT_MAX : Z := 32767.

Definition is_u8 (z : Z) : Prop := (0 ≤ z < 256)%Z.
Definition is_u16 (z : Z) : Prop := (0 ≤ z < 65536)%Z.

Lemma u8_range z : is_u8 (u8 z).
Proof. apply Z.mod_pos_bound. lia. Qed.

Lemma u16_range z : is_u16 (u16 z).
Proof. apply Z.mod_pos_bound. lia. Qed.

Lemma u8_small z : is_u8 z → u8 z = z.
Proof. apply Z.mod_small. Qed.

Lemma u16_small z : is_u16 z → u16 z = z.
Proof. apply Z.mod_small. Qed.

(** A value from its bytes, the lowest first: the unions of the C code on a
    little-endian machine. *)
Fixpoint le_value (l : list Z) : Z :=
  match l with [] => 0 | b :: l' => b + 256 * le_value l' end%Z.

Create HintDb cint.
#[export] Hint Resolve u8_range u16_range : cint.

(** ** Arrays

    An array object is the list of its elements.  Reading or writing outside
    of it is the fault [OutOfBounds] (stdpp's own insert ignores such a
    write, so the bound is checked here). *)

Definition load {A} (m : list A) (i : nat) : res A :=
  match m !! i with Some x => Ok x | None => Err OutOfBounds end.

Definition store {A} (m : list A) (i : nat) (x : A) : res (list A) :=
  match m !! i with Some _ => Ok (<[i := x]> m) | None => Err OutOfBounds end.

Lemma load_Ok {A} (m : list A) i x : load m i = Ok x ↔ m !! i = Some x.
Proof. unfold load. destruct (m !! i); naive_solver. Qed.

Lemma store_Ok {A} (m : list A) i x : i < length m → store m i x = Ok (<[i := x]> m).
Proof. intros H. unfold store. destruct (lookup_lt_is_Some_2 m i H) as [y ->]. done. Qed.

Lemma store_Ok_inv {A} (m m' : list A) i x :
  store m i x = Ok m' → i < length m ∧ m' = <[i := x]> m.
Proof.
  unfold store. destruct (m !! i) eqn:E; [|discriminate].
  intros [= <-]. split; [by eapply lookup_lt_Some|done].
Qed.

Lemma store_OutOfBounds {A} (m : list A) i x :
  length m ≤ i → store m i x = Err OutOfBounds.
Proof. intros H. unfold store. by rewrite lookup_ge_None_2. Qed.

(** ** Counted loops

    [for_int n body] is [for (int i = 0; i < n; i++) body]: [i] is a 16-bit
    [int], so incrementing it past [INT_MAX] is an overflow.  [for_u16] is the
    same loop with a [uint16_t] counter, which cannot overflow below its
    [uint16_t] bound. *)

Fixpoint for_int_from {S} (n i : nat) (body : nat → S → res S) (s : S) : res S :=
  match n with
  | O => Ok s
  | Datatypes.S n' =>
      s' ← body i s;
      if bool_decide (Z.of_nat i = INT_MAX) then Err SignedOverflow
      else for_int_from n' (Datatypes.S i) body s'
  end.

Definition for_int {S} (n : Z) (body : nat → S → res S) (s : S) : res S :=
  for_int_from (Z.to_nat n) 0 body s.

Fixpoint for_u16_from {S} (n i : nat) (body : nat → S → res S) (s : S) : res S :=
  match n with
  | O => Ok s
  | Datatypes.S n' => s' ← body i s; for_u16_from n' (Datatypes.S i) body s'
  end.

Definition for_u16 {S} (n : Z) (body : nat → S → res S) (s : S) : res S :=
  for_u16_from (Z.to_nat n) 0 body s.

(** A loop establishes an invariant indexed by the iteration count. *)
Lemma for_int_from_inv {S} (I : nat → S → Prop) n body : ∀ i s,
  I i s →
  (Z.of_nat (i + n) ≤ INT_MAX)%Z →
  (∀ j s, i ≤ j < i + n → I j s → ∃ s', body j s = Ok s' ∧ I (Datatypes.S j) s') →
  ∃ s', for_int_from n i body s = Ok s' ∧ I (i + n) s'.
Proof.
  induction n as [|n IH]; intros i s Hi Hn Hb; simpl.
  - exists s. by rewrite Nat.add_0_r.
  - destruct (Hb i s) as (s1 & -> & H1); [lia|done|]. rewrite res_bind_Ok.
    rewrite bool_decide_false by lia.
    destruct (IH (Datatypes.S i) s1) as (s2 & -> & H2); [done|lia| |].
    + intros j s' Hj. apply Hb. lia.
    + exists s2. split; [done|]. by replace (i + Datatypes.S n) with (Datatypes.S i + n) by lia.
Qed.

Lemma for_u16_from_inv {S} (I : nat → S → Prop) n body : ∀ i s,
  I i s →
  (∀ j s, i ≤ j < i + n → I j s → ∃ s', body j s = Ok s' ∧ I (Datatypes.S j) s') →
  ∃ s', for_u16_from n i body s = Ok s' ∧ I (i + n) s'.
Proof.
  induction n as [|n IH]; intros i s Hi Hb; simpl.
  - exists s. by rewrite Nat.add_0_r.
  - destruct (Hb i s) as (s1 & -> & H1); [lia|done|]. rewrite res_bind_Ok.
    destruct (IH (Datatypes.S i) s1) as (s2 & -> & H2); [done| |].
    + intros j s' Hj. apply Hb. lia.
    + exists s2. split; [done|]. by replace (i + Datatypes.S n) with (Datatypes.S i + n) by lia.
Qed.

(** Addition of two 16-bit [int]s. *)
Definition int_add (a b : Z) : res Z :=
  if bool_decide (- INT_MAX - 1 ≤ a + b ≤ INT_MAX)%Z then Ok (a + b)%Z
  else Err SignedOverflow.

Lemma int_add_Ok a b :
  (0 ≤ a)%Z → (0 ≤ b)%Z → (a + b ≤ INT_MAX)%Z → int_add a b = Ok (a + b)%Z.
Proof. intros. unfold int_add. rewrite bool_decide_true; [done|]. unfold INT_MAX in *. lia. Qed.

(** A loop whose body keeps the invariant or stops on one given fault. *)
Lemma for_int_from_inv_or {S} (I : nat → S → Prop) e n body : ∀ i s,
  I i s →
  (Z.of_nat (i + n) ≤ INT_MAX)%Z →
  (∀ j s, i ≤ j < i + n → I j s →
     (∃ s', body j s = Ok s' ∧ I (Datatypes.S j) s') ∨ body j s = Err e) →
  (∃ s', for_int_from n i body s = Ok s' ∧ I (i + n) s') ∨
  for_int_from n i body s = Err e.
Proof.
  induction n as [|n IH]; intros i s Hi Hn Hb; simpl.
  - left. exists s. by rewrite Nat.add_0_r.
  - destruct (Hb i s) as [(s1 & -> & H1)| ->]; [lia|done| |by right].
    rewrite res_bind_Ok. rewrite bool_decide_false by lia.
    replace (i + Datatypes.S n) with (Datatypes.S i + n) in * by lia.
    apply IH; [done|lia|]. intros j s' Hj. apply Hb. lia.
Qed.

(** ** Consecutive writes *)

(** [write_at m pos k]: the elements of [k] stored from index [pos] on. *)
Fixpoint write_at {A} (m : list A) (pos : nat) (k : list A) : list A :=
  match k with [] => m | x :: k' => write_at (<[pos := x]> m) (S pos) k' end.

Lemma write_at_app {A} (m : list A) pos k1 k2 :
  write_at m pos (k1 ++ k2) = write_at (write_at m pos k1) (pos + length k1) k2.
Proof.
  revert m pos. induction k1 as [|x k1 IH]; intros m pos; simpl.
  - by rewrite Nat.add_0_r.
  - rewrite IH. f_equal. lia.
Qed.

Lemma length_write_at {A} (m : list A) pos k : length (write_at m pos k) = length m.
Proof.
  revert m pos. induction k as [|x k IH]; intros m pos; simpl; [done|].
  by rewrite IH, length_insert.
Qed.

Lemma lookup_write_at_lt {A} (m : list A) pos k i :
  i < pos → write_at m pos k !! i = m !! i.
Proof.
  revert m pos. induction k as [|x k IH]; intros m pos Hi; simpl; [done|].
  rewrite IH by lia. apply list_lookup_insert_ne. lia.
Qed.

Lemma lookup_write_at_ge {A} (m : list A) pos k i :
  pos + length k ≤ i → write_at m pos k !! i = m !! i.
Proof.
  revert m pos. induction k as [|x k IH]; intros m pos Hi; simpl in *; [done|].
  rewrite IH by lia. apply list_lookup_insert_ne. lia.
Qed.

Lemma lookup_write_at_in {A} (m : list A) pos k i :
  pos + length k ≤ length m → i < length k →
  write_at m pos k !! (pos + i) = k !! i.
Proof.
  revert m pos i. induction k as [|x k IH]; intros m pos i Hm Hi; simpl in *; [lia|].
  destruct i as [|i].
  - rewrite lookup_write_at_lt by lia. rewrite Nat.add_0_r.
    apply list_lookup_insert_eq. lia.
  - replace (pos + S i) with (S pos + i) by lia.
    rewrite IH; [done|rewrite length_insert; lia|lia].
Qed.

Lemma write_at_all {A} (m k : list A) : length m = length k → write_at m 0 k = k.
Proof.
  intros H. apply list_eq. intros i.
  destruct (decide (i < length k)) as [Hi|Hi].
  - apply (lookup_write_at_in m 0 k i); lia.
  - rewrite !lookup_ge_None_2; [done|lia|rewrite length_write_at; lia].
Qed.

Lemma drop_write_at {A} (m : list A) pos k :
  pos + length k ≤ length m →
  drop pos (write_at m pos k) = k ++ drop (pos + length k) m.
Proof.
  intros H. apply list_eq. intros i. rewrite lookup_drop.
  destruct (decide (i < length k)) as [Hi|Hi].
  - rewrite lookup_write_at_in by lia. by rewrite lookup_app_l.
  - rewrite lookup_write_at_ge by lia. rewrite lookup_app_r, lookup_drop by lia.
    f_equal. lia.
Qed.

Lemma drop_write_at_after {A} (m : list A) pos k n :
  pos + length k ≤ n → drop n (write_at m pos k) = drop n m.
Proof.
  intros H. apply list_eq. intros i. rewrite !lookup_drop. apply lookup_write_at_ge. lia.
Qed.

Lemma take_write_at_before {A} (m : list A) pos k n :
  n ≤ pos → take n (write_at m pos k) = take n m.
Proof.
  intros H. apply list_eq. intros i. destruct (decide (i < n)).
  - rewrite !lookup_take_lt by done. apply lookup_write_at_lt. lia.
  - by rewrite !lookup_take_ge by lia.
Qed.

Lemma take_write_at_within {A} (m : list A) pos k n :
  pos + length k ≤ n → take n (write_at m pos k) = write_at (take n m) pos k.
Proof.
  revert m pos. induction k as [|x k IH]; intros m pos H; simpl in *; [done|].
  rewrite IH by lia. f_equal. apply take_insert_lt. lia.
Qed.

Lemma for_u16_from_inv_or {S} (I : nat → S → Prop) e n body : ∀ i s,
  I i s →
  (∀ j s, i ≤ j < i + n → I j s →
     (∃ s', body j s = Ok s' ∧ I (Datatypes.S j) s') ∨ body j s = Err e) →
  (∃ s', for_u16_from n i body s = Ok s' ∧ I (i + n) s') ∨
  for_u16_from n i body s = Err e.
Proof.
  induction n as [|n IH]; intros i s Hi Hb; simpl.
  - left. exists s. by rewrite Nat.add_0_r.
  - destruct (Hb i s) as [(s1 & -> & H1)| ->]; [lia|done| |by right].
    rewrite res_bind_Ok. replace (i + Datatypes.S n) with (Datatypes.S i + n) in * by lia.
    apply IH; [done|]. intros j s' Hj. apply Hb. lia.
Qed.

Lemma Forall_write_at {A} (P : A → Prop) (m : list A) pos k :
  Forall P m → Forall P k → Forall P (write_at m pos k).
Proof.
  intros Hm Hk. revert m pos Hm. induction Hk as [|x k Hx Hk IH]; intros m pos Hm; [done|].
  simpl. by apply IH, Forall_insert.
Qed.
