(* ===== verification/HuffmanMem.v ===== *)
(** * The Huffman library at the level of its memory

    Translation of [slave/huffman.c] (the copies in [main/] and [huffman/] are
    the same code).  A [node_t*] or [queue_t*] is an index into the array
    object it points into ([tree_memory], [queue_memory]); [None] is [NULL].
    The arrays live on the stack and start uninitialised: their first contents
    are the arguments [junk_node], [junk_queue] and [junk_info].  Byte buffers
    are lists of bytes and a pointer into one is an offset. *)

From S2P Require Import Prelude.

Module Huffman.

Definition ptr := option nat.

Record node_t := mk_node {
  left : ptr; right : ptr; weight : Z; byte : Z }.

Record queue_t := mk_queue { next : ptr; el : ptr }.

Record encoding_info_t := mk_info {
  info_byte : Z; encoded_byte : Z; num_bits : Z }.

(** [buff] is the offset of the stream's first byte in the buffer object. *)
Record bitstream_t := mk_stream { buff : nat; buff_index : Z; bitnum : Z }.

Definition ALPHABET_SIZE : nat := 26 + 26 + 7.
Definition TREE_MAX_SIZE : nat := ALPHABET_SIZE * 2 - 1.
Definition QUEUE_MAX_SIZE : nat := ALPHABET_SIZE.

Record huffman_t := mk_huffman {
  tree_memory : list node_t;
  tree_ptr : nat;
  allocated_tree_size : Z;
  queue_memory : list queue_t;
  queue_ptr : nat;
  allocated_queue_size : Z }.

(** ** Memory accesses through the pointers *)

Definition get_node (h : huffman_t) (p : ptr) : res node_t :=
  match p with None => Err NullDeref | Some i => load (tree_memory h) i end.

Definition with_tree_memory (h : huffman_t) (tm : list node_t) : huffman_t :=
  mk_huffman tm (tree_ptr h) (allocated_tree_size h)
             (queue_memory h) (queue_ptr h) (allocated_queue_size h).

Definition set_node (h : huffman_t) (p : ptr) (n : node_t) : res huffman_t :=
  match p with
  | None => Err NullDeref
  | Some i => tm ← store (tree_memory h) i n; Ok (with_tree_memory h tm)
  end.

Definition get_queue (h : huffman_t) (p : ptr) : res queue_t :=
  match p with None => Err NullDeref | Some i => load (queue_memory h) i end.

Definition with_queue_memory (h : huffman_t) (qm : list queue_t) : huffman_t :=
  mk_huffman (tree_memory h) (tree_ptr h) (allocated_tree_size h)
             qm (queue_ptr h) (allocated_queue_size h).

(** [p->next = n] *)
Definition set_next (h : huffman_t) (p n : ptr) : res huffman_t :=
  q ← get_queue h p;
  match p with
  | None => Err NullDeref
  | Some i =>
      qm ← store (queue_memory h) i (mk_queue n (el q));
      Ok (with_queue_memory h qm)
  end.

#[global] Arguments get_node : simpl never.
#[global] Arguments set_node : simpl never.
#[global] Arguments get_queue : simpl never.
#[global] Arguments set_next : simpl never.

(** ** Allocation *)

Definition tree_alloc (h : huffman_t) (w : Z) : res (ptr * huffman_t) :=
  let n := tree_ptr h in
  tm ← store (tree_memory h) n (mk_node None None w 0);
  Ok (Some n,
      mk_huffman tm (S n) (u16 (allocated_tree_size h + 1))
                 (queue_memory h) (queue_ptr h) (allocated_queue_size h)).

Definition queue_alloc (h : huffman_t) (e : ptr) : res (ptr * huffman_t) :=
  let n := queue_ptr h in
  qm ← store (queue_memory h) n (mk_queue None e);
  Ok (Some n,
      mk_huffman (tree_memory h) (tree_ptr h) (allocated_tree_size h)
                 qm (S n) (u16 (allocated_queue_size h + 1))).

Definition queue_clear (h : huffman_t) : huffman_t :=
  mk_huffman (tree_memory h) (tree_ptr h) (allocated_tree_size h)
             (queue_memory h) 0 (allocated_queue_size h).

(** Fuel for a walk along the queue: its cells are distinct array elements. *)
Definition qfuel (h : huffman_t) : nat := S (length (queue_memory h)).

(** Fuel for a descent into the tree: its nodes are distinct array elements. *)
Definition tfuel (h : huffman_t) : nat := S (length (tree_memory h)).

(** ** The priority queue *)

(** The [while (curr->next != NULL)] loop of [queue_add_element]. *)
Fixpoint queue_add_loop (fuel : nat) (h : huffman_t) (curr new e : ptr) : res huffman_t :=
  match fuel with
  | O => Err NoFuel
  | S fuel' =>
      c ← get_queue h curr;
      match next c with
      | None => set_next h curr new
      | Some _ =>
          cn ← get_queue h (next c);
          ne ← get_node h (el cn);
          ee ← get_node h e;
          if bool_decide (weight ne > weight ee)%Z then
            h1 ← set_next h new (next c);
            set_next h1 curr new
          else queue_add_loop fuel' h (next c) new e
      end
  end.

Definition queue_add_element (h : huffman_t) (head e : ptr) : res (ptr * huffman_t) :=
  '(new, h1) ← queue_alloc h e;
  match head with
  | None => Ok (new, h1)
  | Some _ =>
      c ← get_queue h1 head;
      ce ← get_node h1 (el c);
      ee ← get_node h1 e;
      if bool_decide (weight ce > weight ee)%Z then
        h2 ← set_next h1 new head;
        Ok (new, h2)
      else
        h2 ← queue_add_loop (qfuel h1) h1 head new e;
        Ok (head, h2)
  end.

(** [queue_remove_element] (called nowhere): [head->next] is what the loop
    moves on to, whatever [curr] is. *)
Fixpoint queue_remove_loop (fuel : nat) (h : huffman_t) (head curr prev e : ptr)
    : res (ptr * huffman_t) :=
  match fuel with
  | O => Err NoFuel
  | S fuel' =>
      match curr with
      | None => Ok (head, h)
      | Some _ =>
          c ← get_queue h curr;
          if bool_decide (e = el c) then
            match prev with
            | None => Ok (curr, h)
            | Some _ => h1 ← set_next h prev (next c); Ok (head, h1)
            end
          else
            hd ← get_queue h head;
            queue_remove_loop fuel' h head (next hd) curr e
      end
  end.

Definition queue_remove_element (fuel : nat) (h : huffman_t) (head e : ptr)
    : res (ptr * huffman_t) :=
  queue_remove_loop fuel h head head None e.

(** The two elements popped and the rest of the queue. *)
Definition queue_pop2 (h : huffman_t) (head : ptr) : res (ptr * ptr * ptr) :=
  c ← get_queue h head;
  match next c with
  | None => Ok (el c, None, None)
  | Some _ => cn ← get_queue h (next c); Ok (el c, el cn, next cn)
  end.

Fixpoint queue_size_loop (fuel : nat) (h : huffman_t) (curr : ptr) (size : Z) : res Z :=
  match fuel with
  | O => Err NoFuel
  | S fuel' =>
      match curr with
      | None => Ok size
      | Some _ => c ← get_queue h curr; queue_size_loop fuel' h (next c) (u16 (size + 1))
      end
  end.

Definition queue_size (h : huffman_t) (head : ptr) : res Z :=
  queue_size_loop (qfuel h) h head 0.

(** ** Building the queue and the tree *)

(** The inner [while] loop of [build_queue]: look for a queued node of this
    byte and count it; the flag is [found]. *)
Fixpoint build_queue_search (fuel : nat) (h : huffman_t) (curr : ptr) (b : Z)
    : res (bool * huffman_t) :=
  match fuel with
  | O => Err NoFuel
  | S fuel' =>
      match curr with
      | None => Ok (false, h)
      | Some _ =>
          c ← get_queue h curr;
          n ← get_node h (el c);
          if bool_decide (byte n = b) then
            h1 ← set_node h (el c) (mk_node (left n) (right n) (u16 (weight n + 1)) (byte n));
            Ok (true, h1)
          else build_queue_search fuel' h (next c) b
      end
  end.

(** One iteration of the [for] loop of [build_queue]. *)
Definition build_queue_step (data : list Z) (i : nat) (s : ptr * huffman_t)
    : res (ptr * huffman_t) :=
  let '(head, h) := s in
  b ← load data i;
  '(found, h1) ← build_queue_search (qfuel h) h head b;
  if (found : bool) then Ok (head, h1)
  else
    '(new_node, h2) ← tree_alloc h1 1;
    n ← get_node h2 new_node;
    h3 ← set_node h2 new_node (mk_node (left n) (right n) (weight n) b);
    queue_add_element h3 head new_node.

Definition build_queue (h : huffman_t) (data : list Z) (data_size : Z)
    : res (ptr * huffman_t) :=
  for_int data_size (build_queue_step data) (None, h).

Fixpoint build_tree_loop (fuel : nat) (h : huffman_t) (head : ptr)
    : res (ptr * huffman_t) :=
  match fuel with
  | O => Err NoFuel
  | S fuel' =>
      sz ← queue_size h head;
      if bool_decide (2 ≤ sz)%Z then
        '(a, b, rest) ← queue_pop2 h head;
        na ← get_node h a;
        nb ← get_node h b;
        '(internal_node, h1) ← tree_alloc h (u16 (weight na + weight nb));
        n ← get_node h1 internal_node;
        h2 ← set_node h1 internal_node (mk_node a b (weight n) 0);
        '(head', h3) ← queue_add_element h2 rest internal_node;
        build_tree_loop fuel' h3 head'
      else
        (match head with
         | None => Err AssertFail
         | Some _ => c ← get_queue h head; Ok (el c, h)
         end)
  end.

Definition build_tree (h : huffman_t) (head : ptr) : res (ptr * huffman_t) :=
  build_tree_loop (qfuel h) h head.

(** ** Walks over the tree *)

Fixpoint tree_get_size (fuel : nat) (h : huffman_t) (tree : ptr) : res Z :=
  match fuel with
  | O => Err NoFuel
  | S fuel' =>
      n ← get_node h tree;
      s1 ← (match left n with
            | None => Ok 0%Z
            | Some _ => sz ← tree_get_size fuel' h (left n); int_add 0 sz
            end);
      s2 ← (match right n with
            | None => Ok s1
            | Some _ => sz ← tree_get_size fuel' h (right n); int_add s1 sz
            end);
      int_add s2 1
  end.

Fixpoint tree_count_leaves (fuel : nat) (h : huffman_t) (tree : ptr) : res Z :=
  match fuel with
  | O => Err NoFuel
  | S fuel' =>
      n ← get_node h tree;
      if bool_decide (byte n ≠ 0%Z) then Ok 1%Z
      else
        s1 ← (match left n with
              | None => Ok 0%Z
              | Some _ => sz ← tree_count_leaves fuel' h (left n); Ok (u16 sz)
              end);
        match right n with
        | None => Ok s1
        | Some _ => sz ← tree_count_leaves fuel' h (right n); Ok (u16 (s1 + sz))
        end
  end.

(** The output pointer [*out_data] is an offset threaded with the buffer. *)
Fixpoint serialize_tree_node (fuel : nat) (h : huffman_t) (tree : ptr)
    (out : list Z * nat) : res (list Z * nat) :=
  match fuel with
  | O => Err NoFuel
  | S fuel' =>
      let '(mem, pos) := out in
      match tree with
      | None => mem1 ← store mem pos 45%Z; Ok (mem1, S pos)
      | Some _ =>
          n ← get_node h tree;
          if bool_decide (byte n ≠ 0%Z) then
            mem1 ← store mem pos (byte n); Ok (mem1, S pos)
          else
            mem1 ← store mem pos 42%Z;
            out1 ← serialize_tree_node fuel' h (left n) (mem1, S pos);
            serialize_tree_node fuel' h (right n) out1
      end
  end.

Definition serialize_tree (h : huffman_t) (tree : ptr) (mem : list Z) (pos : nat)
    : res (list Z) :=
  '(mem1, _) ← serialize_tree_node (tfuel h) h tree (mem, pos); Ok mem1.

Fixpoint build_encoding_table (fuel : nat) (h : huffman_t) (node : ptr)
    (enc nbits : Z) (info_arr : list encoding_info_t * nat)
    : res (list encoding_info_t * nat) :=
  match fuel with
  | O => Err NoFuel
  | S fuel' =>
      n ← get_node h node;
      if bool_decide (byte n ≠ 0%Z) then
        let '(arr, pos) := info_arr in
        arr1 ← store arr pos (mk_info (byte n) enc nbits);
        Ok (arr1, S pos)
      else
        ia1 ← (match left n with
               | None => Ok info_arr
               | Some _ =>
                   build_encoding_table fuel' h (left n)
                     (u8 (Z.lor (Z.shiftl enc 1) 0)) (u8 (nbits + 1)) info_arr
               end);
        match right n with
        | None => Ok ia1
        | Some _ =>
            build_encoding_table fuel' h (right n)
              (u8 (Z.lor (Z.shiftl enc 1) 1)) (u8 (nbits + 1)) ia1
        end
  end.

(** ** Encoding *)

(** The loop of [find_encoded_byte]; the result is [( *out_num_bits, code)]. *)
Fixpoint find_encoded_loop (n i : nat) (info_arr : list encoding_info_t) (b : Z)
    : res (Z * Z) :=
  match n with
  | O => Ok (0, 0)%Z
  | S n' =>
      e ← load info_arr i;
      if bool_decide (info_byte e = b) then Ok (num_bits e, encoded_byte e)
      else if bool_decide (Z.of_nat i = INT_MAX) then Err SignedOverflow
      else find_encoded_loop n' (S i) info_arr b
  end.

Definition find_encoded_byte (info_arr : list encoding_info_t) (info_arr_size b : Z)
    : res (Z * Z) :=
  find_encoded_loop (Z.to_nat info_arr_size) 0 info_arr b.

Definition bitstream_next (bs : bitstream_t) : bitstream_t :=
  let bn := u16 (bitnum bs + 1) in
  if bool_decide (bn = 8%Z)
  then mk_stream (buff bs) (u16 (buff_index bs + 1)) 0
  else mk_stream (buff bs) (buff_index bs) bn.

Definition bitstream_put_bit (mem : list Z) (bs : bitstream_t) (bit : Z)
    : res (list Z * bitstream_t) :=
  let i := buff bs + Z.to_nat (buff_index bs) in
  current_byte ← load mem i;
  let bit1 := Z.land bit 1 in
  mem1 ← store mem i (u8 (Z.lor (Z.shiftl bit1 (bitnum bs)) current_byte));
  Ok (mem1, bitstream_next bs).

(** The loop state is the buffer, the stream and the remaining [byte]. *)
Definition bitstream_put_bits (mem : list Z) (bs : bitstream_t) (b nbits : Z)
    : res (list Z * bitstream_t) :=
  '(mem', bs', _) ← for_int nbits (λ _ s,
     let '(m, t, c) := s in
     '(m1, t1) ← bitstream_put_bit m t (u8 (Z.land c 1));
     Ok (m1, t1, Z.shiftr c 1)) (mem, bs, b);
  Ok (mem', bs').

Definition reverse_bits (b nbits : Z) : res Z :=
  let b1 := u8 (Z.lor (Z.shiftr (Z.land b 0xF0) 4) (Z.shiftl (Z.land b 0x0F) 4)) in
  let b2 := u8 (Z.lor (Z.shiftr (Z.land b1 0xCC) 2) (Z.shiftl (Z.land b1 0x33) 2)) in
  let b3 := u8 (Z.lor (Z.shiftr (Z.land b2 0xAA) 1) (Z.shiftl (Z.land b2 0x55) 1)) in
  if bool_decide (8 - nbits < 0)%Z then Err BadShift
  else Ok (u8 (Z.shiftr b3 (8 - nbits))).

(** One iteration of the loop of [compress_data]. *)
Definition compress_step (info_arr : list encoding_info_t) (info_arr_size : Z)
    (data : list Z) (i : nat) (s : list Z * bitstream_t * Z)
    : res (list Z * bitstream_t * Z) :=
  let '(mem, bs, total_bits) := s in
  b ← load data i;
  '(nbits, enc) ← find_encoded_byte info_arr info_arr_size b;
  enc1 ← reverse_bits enc nbits;
  '(mem1, bs1) ← bitstream_put_bits mem bs enc1 nbits;
  Ok (mem1, bs1, u16 (total_bits + nbits)).

(** Writes the code bits into [mem] from offset [out_data]; the result is the
    new buffer and [total_bits]. *)
Definition compress_data (info_arr : list encoding_info_t) (info_arr_size : Z)
    (data : list Z) (data_size : Z) (mem : list Z) (out_data : nat)
    : res (list Z * Z) :=
  '(mem1, _, total_bits) ←
     for_u16 data_size (compress_step info_arr info_arr_size data)
             (mem, mk_stream out_data 0 0, 0%Z);
  Ok (mem1, total_bits).

Section Entry.
(** Contents of the uninitialised stack arrays. *)
Context (junk_node : nat → node_t) (junk_queue : nat → queue_t)
        (junk_info : nat → encoding_info_t).

Definition huffman_init (tree_size queue_size : nat) : huffman_t :=
  mk_huffman (junk_node <$> seq 0 tree_size) 0 0
             (junk_queue <$> seq 0 queue_size) 0 0.

Definition huffman_compress (data : list Z) (data_size : Z) (out_data : list Z)
    : res (list Z) :=
  '(queue_head, h1) ←
     build_queue (huffman_init TREE_MAX_SIZE QUEUE_MAX_SIZE) data data_size;
  '(tree, h) ← build_tree h1 queue_head;
  tree_sz ← tree_get_size (tfuel h) h tree;
  out1 ← store out_data 0 (u8 tree_sz);
  out2 ← serialize_tree h tree out1 3;
  encoding_table_size ← tree_count_leaves (tfuel h) h tree;
  '(encoding_table, _) ←
     build_encoding_table (tfuel h) h tree 0 0
       (junk_info <$> seq 0 (Z.to_nat encoding_table_size), 0);
  '(out3, nbits) ←
     compress_data encoding_table encoding_table_size data data_size out2
                   (3 + Z.to_nat tree_sz);
  out4 ← store out3 1 (u8 (Z.land (Z.shiftr nbits 8) 0xFF));
  store out4 2 (u8 (Z.land nbits 0xFF)).

(** ** Decoding *)

(** [data_ptr] is an offset into [data]; every call reads a byte there. *)
Fixpoint deserialize_tree_node (fuel : nat) (h : huffman_t) (data : list Z)
    (data_ptr : nat) : res (ptr * huffman_t * nat) :=
  match fuel with
  | O => Err NoFuel
  | S fuel' =>
      c ← load data data_ptr;
      if bool_decide (c = 45%Z) then Ok (None, h, S data_ptr)
      else if bool_decide (c ≠ 42%Z) then
        '(node, h1) ← tree_alloc h 0;
        n ← get_node h1 node;
        h2 ← set_node h1 node (mk_node (left n) (right n) (weight n) c);
        Ok (node, h2, S data_ptr)
      else
        '(internal_node, h1) ← tree_alloc h 0;
        n ← get_node h1 internal_node;
        h2 ← set_node h1 internal_node (mk_node (left n) (right n) (weight n) 0);
        '(l, h3, p1) ← deserialize_tree_node fuel' h2 data (S data_ptr);
        nl ← get_node h3 internal_node;
        h4 ← set_node h3 internal_node (mk_node l (right nl) (weight nl) (byte nl));
        '(r, h5, p2) ← deserialize_tree_node fuel' h4 data p1;
        nr ← get_node h5 internal_node;
        h6 ← set_node h5 internal_node (mk_node (left nr) r (weight nr) (byte nr));
        Ok (internal_node, h6, p2)
  end.

(** The tree and [*out_bytes_read]; every level of the recursion reads at
    least one byte, so the length of the buffer is enough fuel. *)
Definition deserialize_tree (h : huffman_t) (data : list Z) (start : nat)
    : res (ptr * huffman_t * Z) :=
  '(tree, h1, p) ← deserialize_tree_node (S (length data)) h data start;
  Ok (tree, h1, u16 (Z.of_nat p - Z.of_nat start)).

Definition bitstream_read_bit (mem : list Z) (bs : bitstream_t)
    : res (Z * bitstream_t) :=
  b ← load mem (buff bs + Z.to_nat (buff_index bs));
  let bit := Z.land (u8 (Z.shiftr b (bitnum bs))) 1 in
  Ok (bit, bitstream_next bs).

(** The [while (1)] loop; the result is the character, the stream and
    [*num_bits]. *)
Fixpoint deserialize_next_char (fuel : nat) (h : huffman_t) (curr : ptr)
    (mem : list Z) (bs : bitstream_t) (nbits : Z) : res (Z * bitstream_t * Z) :=
  match fuel with
  | O => Err NoFuel
  | S fuel' =>
      '(next_bit, bs1) ← bitstream_read_bit mem bs;
      let nbits1 := u8 (nbits + 1) in
      n ← get_node h curr;
      let curr1 := if bool_decide (next_bit = 0%Z) then left n else right n in
      match curr1 with
      | None => Ok (63%Z, bs1, nbits1)
      | Some _ =>
          n1 ← get_node h curr1;
          if bool_decide (byte n1 ≠ 0%Z) then Ok (byte n1, bs1, nbits1)
          else deserialize_next_char fuel' h curr1 mem bs1 nbits1
      end
  end.

Fixpoint inflate_loop (fuel : nat) (h : huffman_t) (tree : ptr) (mem : list Z)
    (data_size total_bits : Z) (bs : bitstream_t) (bits_read : Z)
    (out : list Z * nat) : res (list Z * nat) :=
  match fuel with
  | O => Err NoFuel
  | S fuel' =>
      if bool_decide (bits_read < total_bits ∧ buff_index bs < data_size)%Z then
        '(next_char, bs1, nread) ←
           deserialize_next_char (tfuel h) h tree mem bs 0;
        let '(o, pos) := out in
        o1 ← store o pos next_char;
        inflate_loop fuel' h tree mem data_size total_bits bs1
                     (u16 (bits_read + nread)) (o1, S pos)
      else Ok out
  end.

(** Decodes [data] from offset [base] into [out_data]; the result is the
    output buffer and the number of bytes written.  Every iteration reads
    at least one bit of [data]: eight per byte are enough fuel. *)
Definition inflate_data (h : huffman_t) (tree : ptr) (data : list Z) (base : nat)
    (data_size total_bits : Z) (out_data : list Z) : res (list Z * nat) :=
  inflate_loop (S (8 * length data)) h tree data data_size total_bits
               (mk_stream base 0 0) 0 (out_data, 0).

Definition huffman_inflate (data : list Z) (data_size : Z) (out_data : list Z)
    : res (list Z * nat) :=
  tree_size ← load data 0;
  d1 ← load data 1;
  d2 ← load data 2;
  let nbits := u16 (Z.lor (Z.shiftl d1 8) d2) in
  '(tree, h, bytes_read) ←
     deserialize_tree (huffman_init (Z.to_nat tree_size) 0) data 3;
  encoding_table_size ← tree_count_leaves (tfuel h) h tree;
  _ ← build_encoding_table (tfuel h) h tree 0 0
        (junk_info <$> seq 0 (Z.to_nat encoding_table_size), 0);
  inflate_data h tree data (3 + Z.to_nat bytes_read) data_size nbits out_data.
End Entry.

End Huffman.
