(* ===== verification/HuffmanSpec.v ===== *)
(** * Abstract Huffman trees, queues and codes

    The specification the memory-level library is proved to implement: weighted
    trees, the queue as a list of trees, the code of a byte as its path in the
    tree, and the decoder as a walk down the tree.  Nothing here mentions
    pointers or arrays. *)

From S2P Require Import Prelude.

Inductive htree :=
  | Leaf (w b : Z)
  | Node (w : Z) (l r : htree).

#[export] Instance htree_eq_dec : EqDecision htree.
Proof. solve_decision. Defined.

Definition wt (t : htree) : Z :=
  match t with Leaf w _ => w | Node w _ _ => w end.

(** The [byte] field of the root node: inner nodes carry 0. *)
Definition root_byte (t : htree) : Z :=
  match t with Leaf _ b => b | Node _ _ _ => 0%Z end.

Definition is_leaf (t : htree) : Prop :=
  match t with Leaf _ _ => True | Node _ _ _ => False end.

Fixpoint size (t : htree) : nat :=
  match t with Leaf _ _ => 1 | Node _ l r => S (size l + size r) end.

Fixpoint leaves (t : htree) : list Z :=
  match t with Leaf _ b => [b] | Node _ l r => leaves l ++ leaves r end.

Fixpoint depth (t : htree) : nat :=
  match t with Leaf _ _ => 0 | Node _ l r => S (max (depth l) (depth r)) end.

(** What the serialised form keeps of a tree: weights are not transmitted. *)
Fixpoint forget (t : htree) : htree :=
  match t with Leaf _ b => Leaf 0 b | Node _ l r => Node 0 (forget l) (forget r) end.

(** ** The queue *)

(** Insertion before the first tree of a larger weight. *)
Fixpoint q_insert (t : htree) (q : list htree) : list htree :=
  match q with
  | [] => [t]
  | x :: q' => if bool_decide (wt x > wt t)%Z then t :: x :: q' else x :: q_insert t q'
  end.

Definition bump (t : htree) : htree :=
  match t with
  | Leaf w b => Leaf (u16 (w + 1)) b
  | Node w l r => Node (u16 (w + 1)) l r
  end.

(** Count one more occurrence of [b], in place. *)
Fixpoint q_bump (b : Z) (q : list htree) : option (list htree) :=
  match q with
  | [] => None
  | t :: q' =>
      if bool_decide (root_byte t = b) then Some (bump t :: q')
      else cons t <$> q_bump b q'
  end.

Definition q_count (q : list htree) (b : Z) : list htree :=
  match q_bump b q with Some q' => q' | None => q_insert (Leaf 1 b) q end.

(** The queue after reading [data]. *)
Definition queue_of (data : list Z) : list htree := foldl q_count [] data.

(** Repeatedly join the first two trees, [n] times at most. *)
Fixpoint q_merge (n : nat) (q : list htree) : list htree :=
  match n, q with
  | S n', a :: b :: q' => q_merge n' (q_insert (Node (u16 (wt a + wt b)) a b) q')
  | _, _ => q
  end.

(** The tree of [data]: what remains when one tree is left. *)
Definition tree_of (data : list Z) : option htree :=
  let q := queue_of data in head (q_merge (length q) q).

(** ** Codes *)

(** All bytes with their paths ([true] is right), leftmost first. *)
Fixpoint codes (t : htree) (path : list bool) : list (Z * list bool) :=
  match t with
  | Leaf _ b => [(b, path)]
  | Node _ l r => codes l (path ++ [false]) ++ codes r (path ++ [true])
  end.

Definition code (t : htree) (b : Z) : list bool :=
  match list_find (λ e, e.1 = b) (codes t []) with Some (_, (_, p)) => p | None => [] end.

Definition encode (t : htree) (data : list Z) : list bool := mjoin (code t <$> data).

(** One symbol: descend from [t] along [bits]. *)
Fixpoint walk (t : htree) (bits : list bool) : option (Z * list bool) :=
  match t with
  | Leaf _ b => Some (b, bits)
  | Node _ l r =>
      match bits with
      | [] => None
      | x :: bits' => walk (if (x : bool) then r else l) bits'
      end
  end.

(** ** Serialised form *)

Fixpoint ser (t : htree) : list Z :=
  match t with Leaf _ b => [b] | Node _ l r => 42%Z :: ser l ++ ser r end.

(** Bytes that the format can carry: 0 marks inner nodes in memory, ['*']
    and ['-'] mark inner and absent nodes in the serialised tree. *)
Definition ok_byte (b : Z) : Prop := is_u8 b ∧ b ≠ 0%Z ∧ b ≠ 42%Z ∧ b ≠ 45%Z.

#[export] Instance ok_byte_dec b : Decision (ok_byte b).
Proof. unfold ok_byte, is_u8. apply _. Defined.

(** * Facts about the specification *)

Lemma size_pos t : 1 ≤ size t.
Proof. destruct t; simpl; lia. Qed.

Lemma size_leaves t : size t + 1 = 2 * length (leaves t).
Proof. induction t; simpl; [done|]. rewrite length_app. lia. Qed.

Lemma depth_leaves t : depth t < length (leaves t).
Proof. induction t; simpl; [lia|]. rewrite length_app. lia. Qed.

Lemma depth_size t : depth t < size t.
Proof. induction t; simpl; lia. Qed.

Lemma size_forget t : size (forget t) = size t.
Proof. induction t; simpl; lia. Qed.

Lemma leaves_forget t : leaves (forget t) = leaves t.
Proof. induction t as [|w l IHl r IHr]; simpl; [done|]. by rewrite IHl, IHr. Qed.

Lemma depth_forget t : depth (forget t) = depth t.
Proof. induction t as [|w l IHl r IHr]; simpl; [done|]. by rewrite IHl, IHr. Qed.

Lemma ser_length t : length (ser t) = size t.
Proof. induction t; simpl; [done|]. rewrite length_app. lia. Qed.

Lemma walk_forget t bits : walk (forget t) bits = walk t bits.
Proof.
  revert bits. induction t as [|w l IHl r IHr]; intros bits; simpl; [done|].
  destruct bits as [|[] bits]; auto.
Qed.

(** ** Queue facts *)

Lemma q_insert_perm t q : q_insert t q ≡ₚ t :: q.
Proof.
  induction q as [|x q IH]; simpl; [done|].
  case_bool_decide; [done|]. rewrite IH. apply Permutation_swap.
Qed.

Lemma q_insert_length t q : length (q_insert t q) = S (length q).
Proof. by rewrite q_insert_perm. Qed.

Lemma q_bump_None b q : q_bump b q = None ↔ b ∉ root_byte <$> q.
Proof.
  induction q as [|t q IH]; simpl; [split; [intros _; apply not_elem_of_nil|done]|].
  rewrite not_elem_of_cons. case_bool_decide as E; [naive_solver|].
  rewrite fmap_None, IH. naive_solver.
Qed.

Lemma root_byte_bump t : root_byte (bump t) = root_byte t.
Proof. by destruct t. Qed.

Lemma q_bump_bytes b q q' : q_bump b q = Some q' → root_byte <$> q' = root_byte <$> q.
Proof.
  revert q'. induction q as [|t q IH]; intros q'; simpl; [done|].
  case_bool_decide as E.
  - intros [= <-]. rewrite !fmap_cons. by rewrite root_byte_bump.
  - rewrite fmap_Some. intros (q1 & H1 & ->). rewrite !fmap_cons. by rewrite (IH _ H1).
Qed.

Lemma q_bump_leaves b q q' : q_bump b q = Some q' → Forall is_leaf q → Forall is_leaf q'.
Proof.
  revert q'. induction q as [|t q IH]; intros q'; simpl; [done|].
  case_bool_decide as E.
  - intros [= <-] [Ht Hq]%Forall_cons_1. constructor; [by destruct t|done].
  - rewrite fmap_Some. intros (q1 & H1 & ->) [Ht Hq]%Forall_cons_1. constructor; eauto.
Qed.

Lemma q_count_leaves q b : Forall is_leaf q → Forall is_leaf (q_count q b).
Proof.
  intros H. unfold q_count. destruct (q_bump b q) eqn:E.
  - eapply q_bump_leaves; eauto.
  - rewrite q_insert_perm. by constructor.
Qed.

Lemma q_count_bytes q b :
  root_byte <$> q_count q b ≡ₚ
  if bool_decide (b ∈ root_byte <$> q) then root_byte <$> q else b :: (root_byte <$> q).
Proof.
  unfold q_count. destruct (q_bump b q) as [q'|] eqn:E.
  - rewrite (q_bump_bytes _ _ _ E). case_bool_decide as H; [done|].
    apply q_bump_None in H. congruence.
  - apply q_bump_None in E. rewrite bool_decide_false by done.
    by rewrite q_insert_perm.
Qed.

(** The queue of [data] holds one leaf per distinct byte. *)
Lemma queue_of_snoc data b : queue_of (data ++ [b]) = q_count (queue_of data) b.
Proof. unfold queue_of. by rewrite foldl_app. Qed.

Lemma queue_of_leaves data : Forall is_leaf (queue_of data).
Proof.
  induction data as [|b data IH] using rev_ind; [constructor|].
  rewrite queue_of_snoc. by apply q_count_leaves.
Qed.

Lemma queue_of_NoDup data : NoDup (root_byte <$> queue_of data).
Proof.
  induction data as [|b data IH] using rev_ind; [constructor|].
  rewrite queue_of_snoc, q_count_bytes.
  case_bool_decide; [done|]. by constructor.
Qed.

Lemma elem_of_queue_of data b : b ∈ root_byte <$> queue_of data ↔ b ∈ data.
Proof.
  induction data as [|c data IH] using rev_ind; [done|].
  rewrite queue_of_snoc, q_count_bytes, elem_of_app, list_elem_of_singleton, <- IH.
  case_bool_decide; [|rewrite elem_of_cons]; naive_solver.
Qed.

Definition distinct (data : list Z) : nat := length (remove_dups data).

Lemma queue_of_distinct data : length (queue_of data) = distinct data.
Proof.
  rewrite <- (length_fmap root_byte). unfold distinct.
  apply Permutation_length, NoDup_Permutation;
    [apply queue_of_NoDup|apply NoDup_remove_dups|].
  intros b. by rewrite elem_of_queue_of, elem_of_remove_dups.
Qed.

(** ** Merging facts *)

Definition forest_leaves (q : list htree) : list Z := mjoin (leaves <$> q).

Lemma forest_leaves_cons t q : forest_leaves (t :: q) = leaves t ++ forest_leaves q.
Proof. done. Qed.

#[export] Instance forest_leaves_proper : Proper ((≡ₚ) ==> (≡ₚ)) forest_leaves.
Proof. intros q1 q2 H. unfold forest_leaves. by rewrite H. Qed.

Lemma q_merge_leaves n q : forest_leaves (q_merge n q) ≡ₚ forest_leaves q.
Proof.
  revert q. induction n as [|n IH]; intros q; [done|].
  destruct q as [|a [|b q]]; [done..|].
  simpl. rewrite IH, q_insert_perm, !forest_leaves_cons. simpl. by rewrite app_assoc.
Qed.

Lemma q_merge_nil n : q_merge n [] = [].
Proof. by destruct n. Qed.

Lemma q_merge_length n q :
  q ≠ [] → length q ≤ S n → length (q_merge n q) = 1.
Proof.
  revert q. induction n as [|n IH]; intros q Hq Hn.
  - destruct q as [|a [|b q]]; simpl in *; [done|done|lia].
  - destruct q as [|a [|b q]]; simpl in *; [done..|].
    apply IH.
    + intros E%(f_equal length). rewrite q_insert_length in E. done.
    + rewrite q_insert_length. lia.
Qed.

Lemma forest_leaves_of_leaves q :
  Forall is_leaf q → forest_leaves q = root_byte <$> q.
Proof.
  induction 1 as [|t q Ht Hq IH]; [done|].
  rewrite forest_leaves_cons, fmap_cons, IH. by destruct t.
Qed.

Lemma q_merge_tree_of data :
  data ≠ [] → ∃ t, q_merge (length (queue_of data)) (queue_of data) = [t]
                   ∧ tree_of data = Some t.
Proof.
  intros Hd. unfold tree_of.
  assert (queue_of data ≠ []) as Hq.
  { destruct data as [|b data]; [done|]. intros E.
    assert (b ∈ root_byte <$> queue_of (b :: data)) as H
      by (apply elem_of_queue_of; left).
    rewrite E in H. by apply not_elem_of_nil in H. }
  pose proof (q_merge_length (length (queue_of data)) _ Hq) as HL.
  destruct (q_merge _ _) as [|t [|]]; simpl in HL; [lia| |lia].
  by exists t.
Qed.

Lemma tree_of_leaves data t :
  tree_of data = Some t → leaves t ≡ₚ root_byte <$> queue_of data.
Proof.
  intros Ht. destruct (decide (data = [])) as [->|Hd]; [done|].
  destruct (q_merge_tree_of data Hd) as (t' & Hm & Ht').
  assert (t' = t) as -> by congruence.
  rewrite <- forest_leaves_of_leaves by apply queue_of_leaves.
  rewrite <- (q_merge_leaves (length (queue_of data))), Hm.
  unfold forest_leaves. simpl. by rewrite app_nil_r.
Qed.

Lemma tree_of_NoDup data t : tree_of data = Some t → NoDup (leaves t).
Proof. intros H. rewrite (tree_of_leaves _ _ H). apply queue_of_NoDup. Qed.

Lemma elem_of_tree_of data t b : tree_of data = Some t → b ∈ leaves t ↔ b ∈ data.
Proof. intros H. rewrite (tree_of_leaves _ _ H). apply elem_of_queue_of. Qed.

Lemma tree_of_distinct data t : tree_of data = Some t → length (leaves t) = distinct data.
Proof.
  intros H. rewrite (tree_of_leaves _ _ H), length_fmap. apply queue_of_distinct.
Qed.

Lemma tree_of_size data t : tree_of data = Some t → size t = 2 * distinct data - 1.
Proof.
  intros H. pose proof (size_leaves t). rewrite (tree_of_distinct _ _ H) in *. lia.
Qed.

(** ** Code facts *)

Lemma codes_bytes t p : (codes t p).*1 = leaves t.
Proof.
  revert p. induction t as [|w l IHl r IHr]; intros p; simpl; [done|].
  by rewrite fmap_app, IHl, IHr.
Qed.

Lemma codes_path t p b q :
  (b, q) ∈ codes t p →
  ∃ s, q = p ++ s ∧ length s ≤ depth t ∧ ∀ rest, walk t (s ++ rest) = Some (b, rest).
Proof.
  revert p. induction t as [w c|w l IHl r IHr]; intros p; simpl.
  - rewrite list_elem_of_singleton. intros [= -> ->]. exists []. rewrite app_nil_r. done.
  - rewrite elem_of_app. intros [H|H].
    + apply IHl in H as (s & -> & Hs & Hw). exists (false :: s).
      rewrite <- app_assoc. simpl. split_and!; [done|lia|done].
    + apply IHr in H as (s & -> & Hs & Hw). exists (true :: s).
      rewrite <- app_assoc. simpl. split_and!; [done|lia|done].
Qed.

Lemma code_elem t b : b ∈ leaves t → (b, code t b) ∈ codes t [].
Proof.
  intros Hb. unfold code. rewrite <- (codes_bytes t []) in Hb.
  apply list_elem_of_fmap in Hb as ([b' p] & Hbp & Hin). simpl in Hbp. subst b'.
  destruct (list_find (λ e : Z * list bool, e.1 = b) (codes t [])) as [[i [b' q]]|] eqn:E.
  - apply list_find_Some in E as (Hi & Hb & _). simpl in Hb. subst.
    eapply list_elem_of_lookup_2; eauto.
  - rewrite list_find_None in E. rewrite list.Forall_forall in E.
    by destruct (E _ Hin).
Qed.

Lemma code_walk t b rest : b ∈ leaves t → walk t (code t b ++ rest) = Some (b, rest).
Proof. intros H%code_elem. apply codes_path in H as (s & -> & _ & Hw). apply Hw. Qed.

Lemma code_length t b : length (code t b) ≤ depth t.
Proof.
  destruct (decide (b ∈ leaves t)) as [H|H].
  - apply code_elem, codes_path in H as (s & -> & Hs & _). done.
  - unfold code. destruct (list_find _ _) as [[i [b' q]]|] eqn:E; [|simpl; lia].
    apply list_find_Some in E as (Hi & Hb & _). simpl in Hb. subst.
    destruct H. rewrite <- (codes_bytes t []).
    apply list_elem_of_fmap. eexists (_, _). split; [done|]. by eapply list_elem_of_lookup_2.
Qed.

Lemma code_nonempty t b : ¬ is_leaf t → b ∈ leaves t → 1 ≤ length (code t b).
Proof.
  intros Ht Hb. pose proof (code_walk t b [] Hb) as Hw.
  destruct t; [done|]. destruct (code _ b) eqn:E; simpl in *; [discriminate|lia].
Qed.

Lemma encode_cons t b data : encode t (b :: data) = code t b ++ encode t data.
Proof. done. Qed.

Lemma encode_app t d1 d2 : encode t (d1 ++ d2) = encode t d1 ++ encode t d2.
Proof. unfold encode. by rewrite fmap_app, join_app. Qed.

Lemma encode_length t data : length (encode t data) ≤ depth t * length data.
Proof.
  induction data as [|b data IH]; [simpl; lia|].
  rewrite encode_cons, length_app. pose proof (code_length t b). simpl. lia.
Qed.

Lemma distinct_app_le d1 d2 : distinct d1 ≤ distinct (d1 ++ d2).
Proof.
  apply NoDup_incl_length; [apply NoDup_ListNoDup, NoDup_remove_dups|].
  intros b. rewrite <- !list_elem_of_In, !elem_of_remove_dups, elem_of_app. by left.
Qed.

Lemma distinct_take_le n data : distinct (take n data) ≤ distinct data.
Proof. rewrite <- (take_drop n data) at 2. apply distinct_app_le. Qed.

Lemma distinct_le_length data : distinct data ≤ length data.
Proof.
  apply NoDup_incl_length; [apply NoDup_ListNoDup, NoDup_remove_dups|].
  intros b. by rewrite <- !list_elem_of_In, elem_of_remove_dups.
Qed.

(** The deepest leaf. *)
Lemma codes_deepest t p : ∃ b s, (b, p ++ s) ∈ codes t p ∧ length s = depth t.
Proof.
  revert p. induction t as [w b|w l IHl r IHr]; intros p; simpl.
  - exists b, []. rewrite app_nil_r. split; [by left|done].
  - destruct (decide (depth r ≤ depth l)).
    + destruct (IHl (p ++ [false])) as (b & s & Hin & Hs). exists b, (false :: s).
      rewrite <- app_assoc in Hin. split; [apply elem_of_app; by left|simpl; lia].
    + destruct (IHr (p ++ [true])) as (b & s & Hin & Hs). exists b, (true :: s).
      rewrite <- app_assoc in Hin. split; [apply elem_of_app; by right|simpl; lia].
Qed.

Lemma code_unique t b p : NoDup (leaves t) → (b, p) ∈ codes t [] → code t b = p.
Proof.
  intros Hnd Hin.
  assert (b ∈ leaves t) as Hb.
  { rewrite <- (codes_bytes t []). apply list_elem_of_fmap. by exists (b, p). }
  apply code_elem in Hb. rewrite <- (codes_bytes t []) in Hnd.
  apply list_elem_of_lookup in Hin as [i Hi]. apply list_elem_of_lookup in Hb as [j Hj].
  assert (i = j) as <-.
  { eapply (NoDup_lookup _ _ _ b Hnd); rewrite list_lookup_fmap; by rewrite ?Hi, ?Hj. }
  congruence.
Qed.

Lemma depth_code t : NoDup (leaves t) → ∃ b, b ∈ leaves t ∧ length (code t b) = depth t.
Proof.
  intros Hnd. destruct (codes_deepest t []) as (b & s & Hin & Hs).
  exists b. rewrite (code_unique _ _ _ Hnd Hin). split; [|done].
  rewrite <- (codes_bytes t []). apply list_elem_of_fmap. by exists (b, [] ++ s).
Qed.

(** ** Weights are occurrence counts *)

Definition occurrences (b : Z) (data : list Z) : nat := length (filter (λ c, c = b) data).

Lemma occurrences_snoc b data c :
  occurrences b (data ++ [c]) = occurrences b data + (if decide (c = b) then 1 else 0).
Proof.
  unfold occurrences. rewrite filter_app, length_app. f_equal.
  destruct (decide (c = b)) as [->|H]; [by rewrite filter_cons_True|].
  by rewrite filter_cons_False.
Qed.

Lemma q_bump_elem b q q' w c :
  Forall is_leaf q → NoDup (root_byte <$> q) → q_bump b q = Some q' → Leaf w c ∈ q' →
  (c = b ∧ ∃ w0, Leaf w0 c ∈ q ∧ w = u16 (w0 + 1)) ∨ (c ≠ b ∧ Leaf w c ∈ q).
Proof.
  intros Hl. revert q'. induction Hl as [|t q Ht Hl IH]; intros q' Hnd Hb Hin; [done|].
  rewrite fmap_cons in Hnd. apply NoDup_cons in Hnd as [Hn Hnd].
  destruct t as [w1 b1|]; [|done]. simpl in Hb, Hn. case_bool_decide as E.
  - subst b1. injection Hb as <-. apply elem_of_cons in Hin as [[= -> ->]|Hin].
    + left. split; [done|]. exists w1. split; [by left|done].
    + right. split; [|by right]. intros ->. apply Hn.
      apply list_elem_of_fmap. by exists (Leaf w b).
  - apply fmap_Some in Hb as (q1 & Hb & ->). apply elem_of_cons in Hin as [[= -> ->]|Hin].
    + right. split; [done|by left].
    + destruct (IH q1 Hnd Hb Hin) as [(-> & w0 & ? & ->)|[? ?]].
      * left. split; [done|]. exists w0. split; [by right|done].
      * right. split; [done|by right].
Qed.

Lemma queue_of_weights data w b :
  Leaf w b ∈ queue_of data → w = u16 (Z.of_nat (occurrences b data)).
Proof.
  revert w b. induction data as [|c data IH] using rev_ind; intros w b Hin.
  { by apply not_elem_of_nil in Hin. }
  rewrite queue_of_snoc in Hin. rewrite occurrences_snoc. unfold q_count in Hin.
  destruct (q_bump c (queue_of data)) as [q'|] eqn:E.
  - destruct (q_bump_elem c (queue_of data) q' w b) as [(-> & w0 & Hw0 & ->)|[Hne Hw0]];
      [apply queue_of_leaves|apply queue_of_NoDup|done|done|..].
    + apply IH in Hw0 as ->. rewrite decide_True by done. unfold u16.
      rewrite Zplus_mod_idemp_l. f_equal. lia.
    + apply IH in Hw0 as ->. rewrite decide_False by done. by rewrite Nat.add_0_r.
  - rewrite q_insert_perm in Hin. apply elem_of_cons in Hin as [[= -> ->]|Hin].
    + rewrite decide_True by done. apply q_bump_None in E.
      assert (occurrences c data = 0) as ->; [|done].
      unfold occurrences.
      destruct (filter (λ x, x = c) data) as [|x l] eqn:Ef; [done|].
      destruct E. apply elem_of_queue_of.
      assert (x ∈ filter (λ x, x = c) data) as [-> Hx]%list_elem_of_filter by (rewrite Ef; left).
      done.
    + rewrite decide_False; [rewrite Nat.add_0_r; by apply IH|].
      intros ->. apply q_bump_None in E. destruct E.
      apply list_elem_of_fmap. by exists (Leaf w b).
Qed.
