(* ===== verification/HuffmanQueue.v ===== *)
(** * The linked priority queue implements the abstract queue

    [tree_at] and [chain] relate the arrays of [HuffmanMem] to the trees and
    lists of [HuffmanSpec]; the lemmas show that each queue operation, run on
    a represented queue, terminates without a fault and represents the result
    of the abstract operation. *)

From S2P Require Import Prelude HuffmanMem HuffmanSpec.
Import Huffman.

(** [tree_at tm P p t]: the node at index [p] of [tm] is the root of [t], all
    of whose nodes lie at indices satisfying [P]. *)
Fixpoint tree_at (tm : list node_t) (P : nat → Prop) (p : nat) (t : htree) : Prop :=
  match t with
  | Leaf w b => P p ∧ tm !! p = Some (mk_node None None w b)
  | Node w l r =>
      P p ∧ ∃ pl pr, tm !! p = Some (mk_node (Some pl) (Some pr) w 0) ∧
                     tree_at tm P pl l ∧ tree_at tm P pr r
  end.

(** A queue cell: its index, the index of its node and the tree there. *)
Record cell := mk_cell { c_idx : nat; c_el : nat; c_tree : htree }.

Fixpoint chain (qm : list queue_t) (hd : ptr) (l : list cell) : Prop :=
  match l with
  | [] => hd = None
  | x :: l' =>
      hd = Some (c_idx x) ∧
      ∃ nx, qm !! c_idx x = Some (mk_queue nx (Some (c_el x))) ∧ chain qm nx l'
  end.

Fixpoint c_insert (x : cell) (l : list cell) : list cell :=
  match l with
  | [] => [x]
  | y :: l' =>
      if bool_decide (wt (c_tree y) > wt (c_tree x))%Z then x :: y :: l'
      else y :: c_insert x l'
  end.

(** The state between two queue operations: [hd] is the queue of the trees
    [q], of which all cells and nodes have been allocated. *)
Record queue_inv (h : huffman_t) (hd : ptr) (l : list cell) : Prop := {
  qi_chain : chain (queue_memory h) hd l;
  qi_cells : NoDup (c_idx <$> l);
  qi_cells_alloc : Forall (λ x, c_idx x < queue_ptr h) l;
  qi_els : NoDup (c_el <$> l);
  qi_trees : Forall (λ x, tree_at (tree_memory h) (λ i, i < tree_ptr h)
                                  (c_el x) (c_tree x)) l;
  qi_qlen : queue_ptr h ≤ length (queue_memory h);
  qi_tlen : tree_ptr h ≤ length (tree_memory h) }.

(** ** Representation lemmas *)

Lemma tree_at_root tm P p t :
  tree_at tm P p t → P p ∧ ∃ n, tm !! p = Some n ∧ weight n = wt t ∧ byte n = root_byte t.
Proof. destruct t; simpl; [|intros (? & pl & pr & ? & _ & _)]; naive_solver. Qed.

Lemma tree_at_mono tm tm' (P Q : nat → Prop) p t :
  (∀ i, P i → Q i ∧ tm' !! i = tm !! i) → tree_at tm P p t → tree_at tm' Q p t.
Proof.
  intros HPQ. revert p. induction t as [w b|w l IHl r IHr]; intros p; simpl.
  - intros [Hp Ht]. destruct (HPQ p Hp) as [? ->]. done.
  - intros (Hp & pl & pr & Ht & Hl & Hr). destruct (HPQ p Hp) as [? ->].
    split; [done|]. exists pl, pr. auto.
Qed.

Lemma chain_frame qm qm' hd l :
  (∀ i, i ∈ c_idx <$> l → qm' !! i = qm !! i) → chain qm hd l → chain qm' hd l.
Proof.
  revert hd. induction l as [|x l IH]; intros hd Hf; simpl; [done|].
  intros (-> & nx & Hx & Hc). split; [done|]. exists nx. split.
  - rewrite Hf; [done|]. rewrite fmap_cons. left.
  - apply IH; [|done]. intros i Hi. apply Hf. rewrite fmap_cons. by right.
Qed.

Lemma c_insert_perm x l : c_insert x l ≡ₚ x :: l.
Proof.
  induction l as [|y l IH]; simpl; [done|].
  case_bool_decide; [done|]. rewrite IH. apply Permutation_swap.
Qed.

Lemma c_insert_trees x l : c_tree <$> c_insert x l = q_insert (c_tree x) (c_tree <$> l).
Proof.
  induction l as [|y l IH]; [done|]. simpl.
  case_bool_decide; [done|]. rewrite !fmap_cons. by rewrite IH.
Qed.

Lemma length_cells_le l n :
  NoDup (c_idx <$> l) → Forall (λ x, c_idx x < n) l → length l ≤ n.
Proof.
  intros Hnd Hlt. rewrite <- (length_fmap c_idx), <- (length_seq n 0) at 1.
  apply NoDup_incl_length.
  - by apply NoDup_ListNoDup.
  - intros i Hi%list_elem_of_In. apply in_seq.
    apply list_elem_of_fmap in Hi as (x & -> & Hx).
    rewrite list.Forall_forall in Hlt. specialize (Hlt x Hx). lia.
Qed.

(** ** Small steps *)

Lemma get_node_Some h p n : tree_memory h !! p = Some n → get_node h (Some p) = Ok n.
Proof. intros H. unfold get_node. by apply load_Ok. Qed.

Lemma get_queue_Some h p c : queue_memory h !! p = Some c → get_queue h (Some p) = Ok c.
Proof. intros H. unfold get_queue. by apply load_Ok. Qed.

Lemma set_next_Some h p c n :
  queue_memory h !! p = Some c →
  set_next h (Some p) n =
  Ok (with_queue_memory h (<[p := mk_queue n (el c)]> (queue_memory h))).
Proof.
  intros H. unfold set_next. rewrite (get_queue_Some _ _ _ H), res_bind_Ok.
  rewrite store_Ok by (by eapply lookup_lt_Some). done.
Qed.

Lemma set_node_Some h p n0 n :
  tree_memory h !! p = Some n0 →
  set_node h (Some p) n = Ok (with_tree_memory h (<[p := n]> (tree_memory h))).
Proof.
  intros H. unfold set_node. rewrite store_Ok by (by eapply lookup_lt_Some). done.
Qed.

(** The weight the code reads for a cell is that of its tree. *)
Definition weighs (h : huffman_t) (p : nat) (w : Z) : Prop :=
  ∃ n, get_node h (Some p) = Ok n ∧ weight n = w.

Lemma tree_at_weighs h P p t : tree_at (tree_memory h) P p t → weighs h p (wt t).
Proof.
  intros (_ & n & Hn & Hw & _)%tree_at_root. exists n.
  split; [by apply get_node_Some|done].
Qed.

(** ** Insertion *)

Lemma queue_add_loop_spec fuel : ∀ h x0 l x,
  length l < fuel →
  chain (queue_memory h) (Some (c_idx x0)) (x0 :: l) →
  NoDup (c_idx <$> x0 :: l) →
  c_idx x ∉ c_idx <$> x0 :: l →
  queue_memory h !! c_idx x = Some (mk_queue None (Some (c_el x))) →
  Forall (λ y, weighs h (c_el y) (wt (c_tree y))) (x :: l) →
  ∃ qm', queue_add_loop fuel h (Some (c_idx x0)) (Some (c_idx x)) (Some (c_el x))
         = Ok (with_queue_memory h qm') ∧
         chain qm' (Some (c_idx x0)) (x0 :: c_insert x l) ∧
         length qm' = length (queue_memory h) ∧
         (∀ i, i ∉ c_idx <$> x0 :: x :: l → qm' !! i = queue_memory h !! i).
Proof.
  induction fuel as [|fuel IH]; intros h x0 l x Hf Hc Hnd Hx Hqx Hw; [lia|].
  destruct Hc as (_ & nx & Hx0 & Hc). simpl queue_add_loop.
  rewrite (get_queue_Some _ _ _ Hx0), res_bind_Ok. simpl next.
  rewrite fmap_cons in Hnd, Hx. apply NoDup_cons in Hnd as [Hx0l Hnd].
  rewrite not_elem_of_cons in Hx. destruct Hx as [Hne Hxl].
  apply Forall_cons_1 in Hw as [(ne & Hne' & Hwe) Hw].
  assert (c_idx x0 < length (queue_memory h)) by (by eapply lookup_lt_Some).
  assert (c_idx x < length (queue_memory h)) by (by eapply lookup_lt_Some).
  destruct l as [|y l]; simpl in Hc.
  - subst nx. rewrite (set_next_Some _ _ _ _ Hx0). simpl.
    eexists. split; [done|]. rewrite length_insert. split_and!; [done| |done|].
    + exists (Some (c_idx x)). split; [by apply list_lookup_insert_eq|].
      split; [done|]. exists None. by rewrite list_lookup_insert_ne.
    + intros i Hi. rewrite list_lookup_insert_ne; [done|set_solver].
  - destruct Hc as (-> & ny & Hy & Hc).
    rewrite (get_queue_Some _ _ _ Hy), res_bind_Ok. simpl el.
    apply Forall_cons_1 in Hw as [(n & Hn & Hwn) Hw].
    rewrite Hn, res_bind_Ok, Hne', res_bind_Ok, Hwe, Hwn.
    rewrite fmap_cons in Hnd, Hxl, Hx0l.
    apply NoDup_cons in Hnd as [Hyl Hnd].
    rewrite not_elem_of_cons in Hxl, Hx0l. destruct Hxl as [Hxy Hxl], Hx0l as [Hx0y Hx0l].
    simpl c_insert. case_bool_decide as Hgt.
    + rewrite (set_next_Some _ _ _ _ Hqx), res_bind_Ok.
      erewrite set_next_Some by (simpl; rewrite list_lookup_insert_ne; done).
      simpl. eexists. split; [done|]. rewrite !length_insert. split_and!; [done| |done|].
      * exists (Some (c_idx x)).
        split; [apply list_lookup_insert_eq; by rewrite length_insert|].
        split; [done|]. exists (Some (c_idx y)).
        split; [rewrite list_lookup_insert_ne by done; by apply list_lookup_insert_eq|].
        split; [done|]. exists ny. split; [by rewrite !list_lookup_insert_ne|].
        apply (chain_frame (queue_memory h)); [|done].
        intros i Hi. rewrite !list_lookup_insert_ne; [done|set_solver..].
      * intros i Hi. rewrite !list_lookup_insert_ne; [done|set_solver..].
    + destruct (IH h y l x) as (qm' & Heq & Hch & Hlen & Hfr).
      * simpl in Hf. lia.
      * split; [done|]. eauto.
      * rewrite fmap_cons. by constructor.
      * rewrite fmap_cons, not_elem_of_cons. done.
      * done.
      * constructor; [by exists ne|done].
      * exists qm'. split_and!; [done| |done|].
        -- split; [done|]. exists (Some (c_idx y)). split; [|done]. rewrite Hfr; [done|set_solver].
        -- intros i Hi. apply Hfr. set_solver.
Qed.

Lemma queue_alloc_spec h e :
  queue_ptr h < length (queue_memory h) →
  queue_alloc h e =
  Ok (Some (queue_ptr h),
      mk_huffman (tree_memory h) (tree_ptr h) (allocated_tree_size h)
        (<[queue_ptr h := mk_queue None e]> (queue_memory h))
        (S (queue_ptr h)) (u16 (allocated_queue_size h + 1))).
Proof. intros H. unfold queue_alloc. by rewrite store_Ok. Qed.

(** What an insertion changes: only the queue array and its counters. *)
Definition same_tree (h h' : huffman_t) : Prop :=
  tree_memory h' = tree_memory h ∧ tree_ptr h' = tree_ptr h ∧
  allocated_tree_size h' = allocated_tree_size h.

(** [queue_add_element] implements [q_insert]. *)
Lemma queue_add_element_spec h hd l e t :
  queue_inv h hd l →
  queue_ptr h < length (queue_memory h) →
  tree_at (tree_memory h) (λ i, i < tree_ptr h) e t →
  e ∉ c_el <$> l →
  ∃ hd' h' l',
    queue_add_element h hd (Some e) = Ok (hd', h') ∧
    queue_inv h' hd' l' ∧ c_tree <$> l' = q_insert t (c_tree <$> l) ∧
    same_tree h h' ∧ queue_ptr h' = S (queue_ptr h) ∧
    length (queue_memory h') = length (queue_memory h).
Proof.
  intros [Hc Hnd Hal Hel Htr Hq Ht] Hlt Hat He.
  unfold queue_add_element. rewrite queue_alloc_spec by done. rewrite res_bind_Ok.
  set (new := queue_ptr h). set (x := mk_cell new e t).
  set (h1 := mk_huffman _ _ _ _ _ _).
  assert (new ∉ c_idx <$> l) as Hnew.
  { intros (y & Hy & Hin)%list_elem_of_fmap. rewrite list.Forall_forall in Hal.
    specialize (Hal y Hin). unfold new in Hy. lia. }
  assert (chain (queue_memory h1) hd l) as Hc1.
  { apply (chain_frame (queue_memory h)); [|done]. intros i Hi. simpl.
    apply list_lookup_insert_ne. set_solver. }
  assert (queue_memory h1 !! new = Some (mk_queue None (Some e))) as Hnew1
    by (by apply list_lookup_insert_eq).
  assert (length (queue_memory h1) = length (queue_memory h)) as Hlen1
    by apply length_insert.
  assert (∀ hd' qm', chain qm' hd' (c_insert x l) → length qm' = length (queue_memory h1) →
    queue_inv (with_queue_memory h1 qm') hd' (c_insert x l)) as Hinv.
  { intros hd' qm' Hch Hlen. split; simpl; [done|..].
    - rewrite c_insert_perm, fmap_cons. by constructor.
    - rewrite c_insert_perm. constructor; [simpl; lia|].
      eapply Forall_impl; [exact Hal|]. intros z Hz. simpl in *. lia.
    - rewrite c_insert_perm, fmap_cons. by constructor.
    - rewrite c_insert_perm. by constructor.
    - lia.
    - done. }
  destruct l as [|y l].
  - simpl in Hc. subst hd.
    exists (Some new), h1, [x]. split; [done|]. split; [|done].
    apply (Hinv (Some new) (queue_memory h1)); [|done]. simpl. eauto.
  - assert (hd = Some (c_idx y)) as -> by apply Hc.
    destruct Hc1 as (_ & nx & Hy & Hcl).
    rewrite (get_queue_Some _ _ _ Hy), res_bind_Ok. simpl el.
    assert (Forall (λ z, weighs h1 (c_el z) (wt (c_tree z))) (x :: y :: l)) as Hw.
    { constructor; [by eapply (tree_at_weighs h1 (λ i, i < tree_ptr h))|].
      eapply Forall_impl; [exact Htr|]. intros z Hz. by eapply (tree_at_weighs h1 (λ i, i < tree_ptr h)). }
    pose proof Hw as Hw'.
    apply Forall_cons_1 in Hw' as [(ne & Hne & Hwe) Hw'].
    apply Forall_cons_1 in Hw' as [(ny & Hny & Hwy) Hw'].
    change (c_el x) with e in Hne.
    rewrite Hny, res_bind_Ok, Hne, res_bind_Ok, Hwe, Hwy. simpl c_tree in *.
    rewrite <- (c_insert_trees x). simpl c_insert in *.
    case_bool_decide as Hgt.
    + rewrite (set_next_Some _ _ _ _ Hnew1), res_bind_Ok.
      exists (Some new). eexists _, _. split; [done|]. split; [|done || split_and!; try done].
      * apply Hinv; [|by rewrite length_insert]. split; [done|].
        eexists. split; [apply list_lookup_insert_eq; simpl in *; lia|].
        apply (chain_frame (queue_memory h1)); [|by simpl; eauto].
        intros i Hi. apply list_lookup_insert_ne. set_solver.
      * simpl. by rewrite !length_insert.
    + destruct (queue_add_loop_spec (qfuel h1) h1 y l x) as (qm' & Heq & Hch & Hlen & _).
      * unfold qfuel. rewrite Hlen1.
        assert (length (y :: l) ≤ queue_ptr h) by (by apply length_cells_le).
        simpl in *. lia.
      * split; [done|]. eauto.
      * done.
      * done.
      * done.
      * apply Forall_cons_1 in Hw as [? [? ?]%Forall_cons_1]. by constructor.
      * change (c_idx x) with new in Heq. change (c_el x) with e in Heq.
        rewrite Heq, res_bind_Ok. exists (Some (c_idx y)). eexists _, _. split; [done|].
        split; [by apply Hinv|]. split_and!; [done..|]. simpl in *. lia.
Qed.

(** ** Size and removal of two elements *)

Lemma queue_size_loop_spec fuel : ∀ h hd l s,
  length l < fuel → chain (queue_memory h) hd l →
  (0 ≤ s)%Z → (s + Z.of_nat (length l) < 65536)%Z →
  queue_size_loop fuel h hd s = Ok (s + Z.of_nat (length l))%Z.
Proof.
  induction fuel as [|fuel IH]; intros h hd l s Hf Hc Hs Hb; [lia|].
  destruct l as [|x l]; simpl in Hc.
  - subst hd. simpl. f_equal. lia.
  - destruct Hc as (-> & nx & Hx & Hc). simpl queue_size_loop.
    rewrite (get_queue_Some _ _ _ Hx), res_bind_Ok. simpl next. simpl length in *.
    rewrite (IH h nx l); [|lia|done|pose proof (u16_range (s + 1)); unfold is_u16 in *; lia|].
    + rewrite u16_small by (unfold is_u16; lia). f_equal. lia.
    + rewrite u16_small by (unfold is_u16; lia). lia.
Qed.

Lemma queue_size_spec h hd l :
  queue_inv h hd l → (Z.of_nat (length (queue_memory h)) < 65536)%Z →
  queue_size h hd = Ok (Z.of_nat (length l)).
Proof.
  intros [Hc Hnd Hal _ _ Hq _] Hb. unfold queue_size.
  pose proof (length_cells_le _ _ Hnd Hal).
  rewrite (queue_size_loop_spec _ _ _ l); [done|unfold qfuel; lia|done|lia|lia].
Qed.

Lemma queue_pop2_spec h hd x y l :
  queue_inv h hd (x :: y :: l) →
  ∃ rest, queue_pop2 h hd = Ok (Some (c_el x), Some (c_el y), rest) ∧
          queue_inv h rest l.
Proof.
  intros [(-> & nx & Hx & -> & ny & Hy & Hc) Hnd Hal Hel Htr Hq Ht].
  unfold queue_pop2. rewrite (get_queue_Some _ _ _ Hx), res_bind_Ok. simpl next.
  rewrite (get_queue_Some _ _ _ Hy), res_bind_Ok. simpl.
  exists ny. split; [done|].
  rewrite !fmap_cons in Hnd, Hel. rewrite !NoDup_cons in Hnd, Hel.
  rewrite !Forall_cons in Hal, Htr. split; try done; naive_solver.
Qed.

(** ** Counting a byte *)

Lemma chain_retree qm hd l l' :
  Forall2 (λ x y, c_idx x = c_idx y ∧ c_el x = c_el y) l l' →
  chain qm hd l → chain qm hd l'.
Proof.
  intros HF. revert hd. induction HF as [|x y l l' [Hi He] HF IH]; intros hd; [done|].
  simpl. rewrite Hi, He. intros (-> & nx & Hx & Hc). eauto.
Qed.

Lemma build_queue_search_spec fuel h b : ∀ hd l,
  length l < fuel → chain (queue_memory h) hd l →
  Forall (λ x, tree_at (tree_memory h) (λ i, i < tree_ptr h) (c_el x) (c_tree x)) l →
  (q_bump b (c_tree <$> l) = None ∧ build_queue_search fuel h hd b = Ok (false, h)) ∨
  (∃ l1 x l2 n, l = l1 ++ x :: l2 ∧
     q_bump b (c_tree <$> l) =
       Some ((c_tree <$> l1) ++ bump (c_tree x) :: (c_tree <$> l2)) ∧
     tree_memory h !! c_el x = Some n ∧
     build_queue_search fuel h hd b =
       Ok (true, with_tree_memory h
             (<[c_el x := mk_node (left n) (right n) (u16 (weight n + 1)) (byte n)]>
                (tree_memory h)))).
Proof.
  induction fuel as [|fuel IH]; intros hd l Hf Hc Ht; [lia|].
  destruct l as [|x l]; simpl in Hc.
  - subst hd. by left.
  - destruct Hc as (-> & nx & Hx & Hc). simpl build_queue_search.
    rewrite (get_queue_Some _ _ _ Hx), res_bind_Ok. simpl el.
    apply Forall_cons in Ht as [Hat Ht].
    apply tree_at_root in Hat as (_ & n & Hn & Hw & Hb).
    rewrite (get_node_Some _ _ _ Hn), res_bind_Ok, Hb.
    rewrite fmap_cons. simpl q_bump. case_bool_decide as E.
    + right. exists [], x, l, n. split_and!; [done..|].
      rewrite (set_node_Some _ _ _ _ Hn), res_bind_Ok. by rewrite Hb.
    + simpl in Hf. simpl next. destruct (IH nx l) as [[-> ->]|(l1 & y & l2 & m & -> & -> & Hm & ->)];
        [lia|done|done|by left|].
      right. exists (x :: l1), y, l2, m. by rewrite fmap_cons.
Qed.

(** Rewriting one leaf in place keeps the queue represented. *)
Lemma queue_inv_bump h hd l1 x l2 n :
  queue_inv h hd (l1 ++ x :: l2) → Forall is_leaf (c_tree <$> l1 ++ x :: l2) →
  tree_memory h !! c_el x = Some n →
  queue_inv
    (with_tree_memory h
       (<[c_el x := mk_node (left n) (right n) (u16 (weight n + 1)) (byte n)]>
          (tree_memory h)))
    hd (l1 ++ mk_cell (c_idx x) (c_el x) (bump (c_tree x)) :: l2).
Proof.
  intros [Hc Hnd Hal Hel Htr Hq Ht] Hleaf Hn.
  assert (∀ l, c_el x ∉ c_el <$> l → Forall is_leaf (c_tree <$> l) →
    Forall (λ y, tree_at (tree_memory h) (λ i, i < tree_ptr h) (c_el y) (c_tree y)) l →
    Forall (λ y, tree_at (<[c_el x := mk_node (left n) (right n) (u16 (weight n + 1)) (byte n)]>
       (tree_memory h)) (λ i, i < tree_ptr h) (c_el y) (c_tree y)) l) as Hframe.
  { intros l Hx Hl Hat. rewrite Forall_fmap in Hl. rewrite list.Forall_forall in Hat, Hl |- *.
    intros y Hy. specialize (Hat y Hy). specialize (Hl y Hy). simpl in Hl.
    destruct (c_tree y); [|done]. simpl in *. rewrite list_lookup_insert_ne; [done|].
    intros E. apply Hx. rewrite E. by apply list_elem_of_fmap_2. }
  rewrite fmap_app, fmap_cons in Hnd. rewrite fmap_app, fmap_cons in Hel.
  rewrite fmap_app, fmap_cons in Hleaf. apply Forall_app in Hleaf as [Hl1 [Hlx Hl2]%Forall_cons].
  apply Forall_app in Htr as [Htr1 [Htx Htr2]%Forall_cons].
  apply NoDup_app in Hel as (Hel1 & Hdis & Hel2). apply NoDup_cons in Hel2 as [Hxl2 Hel2].
  assert (c_el x ∉ c_el <$> l1) as Hxl1 by set_solver.
  split; simpl; try done.
  - eapply chain_retree; [|exact Hc]. apply Forall2_app; [by apply Forall_Forall2_diag, Forall_true|].
    constructor; [done|]. by apply Forall_Forall2_diag, Forall_true.
  - by rewrite fmap_app, fmap_cons.
  - apply Forall_app in Hal as [? [? ?]%Forall_cons]. apply Forall_app. by split; [|constructor].
  - rewrite fmap_app, fmap_cons. apply NoDup_app. split_and!; [done|done|]. by constructor.
  - apply Forall_app. split; [by apply Hframe|]. constructor; [|by apply Hframe].
    simpl in *. destruct (c_tree x) as [w b|]; [|done]. simpl in *.
    destruct Htx as [? Htx]. split; [done|].
    rewrite list_lookup_insert_eq by (by eapply lookup_lt_Some).
    rewrite Hn in Htx. by injection Htx as [= ->].
  - by rewrite length_insert.
Qed.
