(* ===== verification/HuffmanTree.v ===== *)
(** * Building the Huffman tree

    [build_queue] implements [queue_of] and [build_tree] implements [tree_of]
    whenever the queue array is large enough; with 31 distinct bytes or more it
    is not, and the run ends in an out-of-bounds write. *)

From S2P Require Import Prelude HuffmanMem HuffmanSpec HuffmanQueue.
Import Huffman.

(** The state after allocating a node and filling it with [n]. *)
Definition h_alloc (h : huffman_t) (n : node_t) : huffman_t :=
  mk_huffman (<[tree_ptr h := n]> (tree_memory h)) (S (tree_ptr h))
             (u16 (allocated_tree_size h + 1))
             (queue_memory h) (queue_ptr h) (allocated_queue_size h).

Section Alloc.
Context (h : huffman_t) (Hlt : tree_ptr h < length (tree_memory h)).

Lemma tree_alloc_spec w :
  tree_alloc h w = Ok (Some (tree_ptr h), h_alloc h (mk_node None None w 0)).
Proof using Hlt. unfold tree_alloc. by rewrite store_Ok. Qed.

Lemma get_h_alloc n : get_node (h_alloc h n) (Some (tree_ptr h)) = Ok n.
Proof using Hlt. apply get_node_Some. simpl. by apply list_lookup_insert_eq. Qed.

Lemma set_h_alloc n n' :
  set_node (h_alloc h n) (Some (tree_ptr h)) n' = Ok (h_alloc h n').
Proof using Hlt.
  erewrite set_node_Some by (simpl; by apply list_lookup_insert_eq).
  unfold h_alloc, with_tree_memory. simpl. by rewrite list_insert_insert_eq.
Qed.

(** Allocation keeps every represented tree and queue. *)
Lemma tree_at_alloc n p t :
  tree_at (tree_memory h) (λ i, i < tree_ptr h) p t →
  tree_at (tree_memory (h_alloc h n)) (λ i, i < S (tree_ptr h)) p t.
Proof.
  apply tree_at_mono. intros i Hi. split; [lia|]. simpl.
  apply list_lookup_insert_ne. lia.
Qed.

Lemma queue_inv_alloc n hd l : queue_inv h hd l → queue_inv (h_alloc h n) hd l.
Proof using Hlt.
  intros [Hc Hnd Hal Hel Htr Hq Ht]. split; simpl; try done.
  - eapply Forall_impl; [exact Htr|]. intros x. apply tree_at_alloc.
  - rewrite length_insert. lia.
Qed.

Lemma fresh_el hd l : queue_inv h hd l → tree_ptr h ∉ c_el <$> l.
Proof.
  intros [_ _ _ _ Htr _ _] (x & Hx & Hin)%list_elem_of_fmap.
  rewrite list.Forall_forall in Htr. apply Htr, tree_at_root in Hin as [Hin _]. lia.
Qed.
End Alloc.

(** ** build_queue *)

(** After [i] bytes: the queue represents [queue_of] of them and exactly its
    cells and nodes have been allocated. *)
Definition bq_inv (T Q : nat) (data : list Z) (i : nat) (s : ptr * huffman_t) : Prop :=
  let '(hd, h) := s in
  ∃ l, queue_inv h hd l ∧ c_tree <$> l = queue_of (take i data) ∧
       tree_ptr h = length l ∧ queue_ptr h = length l ∧
       length (tree_memory h) = T ∧ length (queue_memory h) = Q.

Lemma bq_inv_distinct T Q data i s : bq_inv T Q data i s → distinct (take i data) ≤ Q.
Proof.
  destruct s as [hd h]. intros (l & Hinv & Hl & _ & Hq & _ & HQ).
  rewrite <- queue_of_distinct, <- Hl, length_fmap, <- Hq, <- HQ. apply Hinv.
Qed.

(** One iteration either keeps the invariant or overruns the queue array. *)
Lemma build_queue_step_spec T Q data i s :
  Q < T → i < length data → bq_inv T Q data i s →
  (∃ s', build_queue_step data i s = Ok s' ∧ bq_inv T Q data (S i) s') ∨
  (build_queue_step data i s = Err OutOfBounds ∧ Q < distinct (take (S i) data)).
Proof.
  intros HQT Hi. destruct s as [hd h]. intros (l & Hinv & Hl & Htp & Hqp & HT & HQ).
  destruct (lookup_lt_is_Some_2 data i Hi) as [b Hb].
  assert (queue_of (take (S i) data) = q_count (c_tree <$> l) b) as Hnext.
  { rewrite (take_S_r _ _ _ Hb), queue_of_snoc. by rewrite Hl. }
  unfold build_queue_step. rewrite (proj2 (load_Ok _ _ _) Hb), res_bind_Ok.
  assert (length l ≤ queue_ptr h) as Hlen by lia.
  destruct (build_queue_search_spec (qfuel h) h b hd l)
    as [[Hbump ->]|(l1 & x & l2 & n & -> & Hbump & Hn & ->)];
    [unfold qfuel; pose proof (qi_qlen _ _ _ Hinv); lia|apply Hinv|apply Hinv|..];
    rewrite res_bind_Ok; unfold q_count in Hnext; rewrite Hbump in Hnext.
  - assert (tree_ptr h < length (tree_memory h)) as Hlt
      by (pose proof (qi_qlen _ _ _ Hinv); lia).
    rewrite tree_alloc_spec, res_bind_Ok by done.
    rewrite get_h_alloc, res_bind_Ok by done.
    rewrite set_h_alloc, res_bind_Ok by done. simpl.
    set (h3 := h_alloc h (mk_node None None 1 b)).
    destruct (decide (queue_ptr h < Q)) as [HqQ|HqQ].
    + left. destruct (queue_add_element_spec h3 hd l (tree_ptr h) (Leaf 1 b))
        as (hd' & h' & l' & -> & Hinv' & Hl' & (Htm & Htp' & _) & Hqp' & Hql').
      * by apply queue_inv_alloc.
      * simpl. lia.
      * simpl. split; [lia|]. by apply list_lookup_insert_eq.
      * by eapply fresh_el.
      * eexists. split; [done|]. exists l'. rewrite Hnext, <- Hl'. split; [done|]. split; [done|].
        assert (length l' = S (length l)) as ->.
        { rewrite <- (length_fmap c_tree), Hl', q_insert_length, length_fmap. done. }
        rewrite Htp', Hqp', Htm, Hql'. simpl. rewrite length_insert. lia.
    + right. unfold queue_add_element, queue_alloc. simpl.
      rewrite store_OutOfBounds by lia. split; [done|].
      rewrite <- queue_of_distinct, Hnext, q_insert_length, length_fmap. lia.
  - left. eexists. split; [done|].
    eexists. split; [by apply queue_inv_bump; [|rewrite Hl; apply queue_of_leaves|]|].
    rewrite Hnext, fmap_app, fmap_cons. simpl. rewrite length_insert.
    rewrite !length_app in *. simpl in *. done.
Qed.

Lemma bq_inv_init T Q data h :
  tree_ptr h = 0 → queue_ptr h = 0 →
  length (tree_memory h) = T → length (queue_memory h) = Q →
  bq_inv T Q data 0 (None, h).
Proof. intros Ht Hq HT HQ. exists []. split; [|done]. split; simpl; try done; try constructor; lia. Qed.

Lemma build_queue_spec T Q data h :
  Q < T → (Z.of_nat (length data) ≤ INT_MAX)%Z →
  tree_ptr h = 0 → queue_ptr h = 0 →
  length (tree_memory h) = T → length (queue_memory h) = Q →
  (∃ s, build_queue h data (Z.of_nat (length data)) = Ok s ∧
        bq_inv T Q data (length data) s) ∨
  (build_queue h data (Z.of_nat (length data)) = Err OutOfBounds ∧ Q < distinct data).
Proof.
  intros HQT Hlen Ht Hq HT HQ. unfold build_queue, for_int. rewrite Nat2Z.id.
  destruct (decide (Q < distinct data)) as [Hd|Hd].
  - destruct (for_int_from_inv_or (bq_inv T Q data) OutOfBounds (length data)
      (build_queue_step data) 0 (None, h)) as [(s & Hs & Hi)|E].
    + by apply bq_inv_init.
    + done.
    + intros j s Hj Hs. destruct (build_queue_step_spec T Q data j s); [done|lia|done|by left|].
      right. naive_solver.
    + apply bq_inv_distinct in Hi. rewrite take_ge in Hi by lia. lia.
    + by right.
  - left. apply (for_int_from_inv (bq_inv T Q data)); [by apply bq_inv_init|done|].
    intros j s Hj Hs. destruct (build_queue_step_spec T Q data j s) as [?|[_ Hdj]];
      [done|lia|done|done|].
    pose proof (distinct_take_le (S j) data). lia.
Qed.

(** ** build_tree *)

(** One iteration of the loop, with room in both arrays, is one [q_merge]
    step. *)
Lemma build_tree_loop_merge fuel h hd x y l :
  queue_inv h hd (x :: y :: l) →
  tree_ptr h < length (tree_memory h) → queue_ptr h < length (queue_memory h) →
  (Z.of_nat (length (queue_memory h)) < 65536)%Z →
  ∃ hd' h' l',
    build_tree_loop (S fuel) h hd = build_tree_loop fuel h' hd' ∧
    queue_inv h' hd' l' ∧
    c_tree <$> l' = q_insert (Node (u16 (wt (c_tree x) + wt (c_tree y)))
                                   (c_tree x) (c_tree y)) (c_tree <$> l) ∧
    tree_ptr h' = S (tree_ptr h) ∧ queue_ptr h' = S (queue_ptr h) ∧
    length (tree_memory h') = length (tree_memory h) ∧
    length (queue_memory h') = length (queue_memory h).
Proof.
  intros Hinv Hlt Hqlt Hb. simpl build_tree_loop.
  rewrite (queue_size_spec _ _ _ Hinv) by done. rewrite res_bind_Ok.
  rewrite bool_decide_true by (simpl length; lia).
  destruct (queue_pop2_spec _ _ _ _ _ Hinv) as (rest & -> & Hrest). rewrite res_bind_Ok.
  pose proof (qi_trees _ _ _ Hinv) as [Hx [Hy _]%Forall_cons]%Forall_cons.
  destruct (tree_at_weighs _ _ _ _ Hx) as (na & -> & Ha).
  destruct (tree_at_weighs _ _ _ _ Hy) as (nb & -> & Hbw).
  rewrite !res_bind_Ok, Ha, Hbw.
  rewrite tree_alloc_spec, res_bind_Ok by done.
  rewrite get_h_alloc, res_bind_Ok by done.
  rewrite set_h_alloc, res_bind_Ok by done. simpl weight.
  set (w := u16 _). set (h2 := h_alloc h _).
  destruct (queue_add_element_spec h2 rest l (tree_ptr h) (Node w (c_tree x) (c_tree y)))
    as (hd' & h' & l' & -> & Hinv' & Hl' & (Htm & Htp & _) & Hqp & Hql).
  - by apply queue_inv_alloc.
  - done.
  - simpl. split; [lia|]. exists (c_el x), (c_el y).
    split; [by apply list_lookup_insert_eq|].
    split; by apply (tree_at_alloc h).
  - by eapply (fresh_el h).
  - rewrite res_bind_Ok. exists hd', h', l'. split; [done|]. split; [done|].
    split; [done|]. rewrite Htp, Hqp, Htm, Hql. simpl. by rewrite length_insert.
Qed.

(** With one tree left the loop returns its root. *)
Lemma build_tree_loop_done fuel h hd x :
  queue_inv h hd [x] → (Z.of_nat (length (queue_memory h)) < 65536)%Z →
  build_tree_loop (S fuel) h hd = Ok (Some (c_el x), h).
Proof.
  intros Hinv Hb. simpl build_tree_loop.
  rewrite (queue_size_spec _ _ _ Hinv) by done. rewrite res_bind_Ok.
  rewrite bool_decide_false by (simpl length; lia).
  destruct (qi_chain _ _ _ Hinv) as (-> & nx & Hx & _).
  by rewrite (get_queue_Some _ _ _ Hx).
Qed.

Lemma build_tree_loop_spec fuel : ∀ h hd l n,
  queue_inv h hd l → l ≠ [] →
  length l ≤ fuel → length l ≤ S n →
  queue_ptr h + (length l - 1) ≤ length (queue_memory h) →
  tree_ptr h + (length l - 1) ≤ length (tree_memory h) →
  (Z.of_nat (length (queue_memory h)) < 65536)%Z →
  ∃ p h' t, build_tree_loop fuel h hd = Ok (Some p, h') ∧
    q_merge n (c_tree <$> l) = [t] ∧
    tree_at (tree_memory h') (λ i, i < tree_ptr h') p t ∧
    tree_ptr h' = tree_ptr h + (length l - 1) ∧
    length (tree_memory h') = length (tree_memory h).
Proof.
  induction fuel as [|fuel IH]; intros h hd l n Hinv Hne Hf Hn HQ HT Hb.
  { destruct l; [done|simpl in Hf; lia]. }
  destruct l as [|x [|y l]]; [done|..].
  - exists (c_el x), h, (c_tree x). rewrite (build_tree_loop_done _ _ _ x) by done.
    pose proof (qi_trees _ _ _ Hinv) as [Hx _]%Forall_cons.
    split_and!; [done|by destruct n|done|simpl; lia|done].
  - simpl length in *. destruct n as [|n]; [lia|].
    destruct (build_tree_loop_merge fuel h hd x y l)
      as (hd' & h' & l' & -> & Hinv' & Hl' & Htp & Hqp & Htl & Hql); [done|lia|lia|done|].
    assert (length l' = S (length l)) as HL.
    { rewrite <- (length_fmap c_tree), Hl', q_insert_length, length_fmap. done. }
    destruct (IH h' hd' l' n) as (p & h'' & t & -> & Hm & Hat & Htp'' & Htl'');
      [done|by destruct l'|lia..|].
    exists p, h'', t. rewrite !fmap_cons. simpl q_merge. rewrite <- Hl'.
    split_and!; [done|done|done|lia|lia].
Qed.

(** When the merged cells do not fit, the loop ends in an overrun. *)
Lemma build_tree_loop_overflow fuel : ∀ h hd l,
  queue_inv h hd l → 2 ≤ length l → length l ≤ fuel →
  length (queue_memory h) < queue_ptr h + (length l - 1) →
  length (queue_memory h) < length (tree_memory h) →
  tree_ptr h ≤ queue_ptr h →
  (Z.of_nat (length (queue_memory h)) < 65536)%Z →
  build_tree_loop fuel h hd = Err OutOfBounds.
Proof.
  induction fuel as [|fuel IH]; intros h hd l Hinv H2 Hf HQ HT Hle Hb; [lia|].
  destruct l as [|x [|y l]]; simpl length in *; [lia..|].
  pose proof (qi_qlen _ _ _ Hinv) as Hqlen.
  destruct (decide (queue_ptr h < length (queue_memory h))) as [Hqlt|Hqlt].
  - destruct (build_tree_loop_merge fuel h hd x y l)
      as (hd' & h' & l' & -> & Hinv' & Hl' & Htp & Hqp & Htl & Hql); [done|lia|lia|done|].
    assert (length l' = S (length l)) as HL.
    { rewrite <- (length_fmap c_tree), Hl', q_insert_length, length_fmap. done. }
    eapply IH; [done|lia..].
  - simpl build_tree_loop.
    rewrite (queue_size_spec _ _ _ Hinv) by done. rewrite res_bind_Ok.
    rewrite bool_decide_true by (simpl length; lia).
    destruct (queue_pop2_spec _ _ _ _ _ Hinv) as (rest & -> & _). rewrite res_bind_Ok.
    pose proof (qi_trees _ _ _ Hinv) as [Hx [Hy _]%Forall_cons]%Forall_cons.
    destruct (tree_at_weighs _ _ _ _ Hx) as (na & -> & _).
    destruct (tree_at_weighs _ _ _ _ Hy) as (nb & -> & _). rewrite !res_bind_Ok.
    rewrite tree_alloc_spec, res_bind_Ok by lia.
    rewrite get_h_alloc, res_bind_Ok by lia.
    rewrite set_h_alloc, res_bind_Ok by lia.
    unfold queue_add_element, queue_alloc. simpl.
    by rewrite store_OutOfBounds by lia.
Qed.

(** The two phases together, on arrays of the library's sizes. *)
Definition fits (h : huffman_t) : Prop :=
  tree_ptr h = 0 ∧ queue_ptr h = 0 ∧
  length (tree_memory h) = TREE_MAX_SIZE ∧ length (queue_memory h) = QUEUE_MAX_SIZE.

Lemma build_spec h data :
  fits h → data ≠ [] → (Z.of_nat (length data) ≤ INT_MAX)%Z → distinct data ≤ 30 →
  ∃ hd h1 p h2 t,
    build_queue h data (Z.of_nat (length data)) = Ok (hd, h1) ∧
    build_tree h1 hd = Ok (Some p, h2) ∧
    tree_of data = Some t ∧
    tree_at (tree_memory h2) (λ i, i < tree_ptr h2) p t ∧
    length (tree_memory h2) = TREE_MAX_SIZE.
Proof.
  intros (Ht & Hq & HT & HQ) Hd Hlen H30.
  destruct (build_queue_spec TREE_MAX_SIZE QUEUE_MAX_SIZE data h)
    as [([hd h1] & Hbq & l & Hinv & Hl & Htp & Hqp & HT1 & HQ1)|[_ E]];
    [vm_compute; lia|done..| |unfold QUEUE_MAX_SIZE, ALPHABET_SIZE in E; lia].
  rewrite take_ge in Hl by lia.
  assert (length l = distinct data) as HL.
  { by rewrite <- (length_fmap c_tree), Hl, queue_of_distinct. }
  destruct (q_merge_tree_of data Hd) as (t & Hm & Htree).
  assert (QUEUE_MAX_SIZE = 59) as EQ by done. assert (TREE_MAX_SIZE = 117) as ET by done.
  destruct (build_tree_loop_spec (qfuel h1) h1 hd l (length (queue_of data)))
    as (p & h2 & t' & Hbt & Hm' & Hat & Htp2 & HT2);
    [done| |unfold qfuel; lia|rewrite queue_of_distinct; lia|lia..|].
  { intros ->. simpl in HL. rewrite <- queue_of_distinct in HL.
    destruct (queue_of data); [|done]. by rewrite q_merge_nil in Hm. }
  rewrite Hl, Hm in Hm'. injection Hm' as <-.
  exists hd, h1, p, h2, t. split_and!; [done..|]. by rewrite HT2.
Qed.

Lemma build_overflow h data :
  fits h → (Z.of_nat (length data) ≤ INT_MAX)%Z → 31 ≤ distinct data →
  ('(hd, h1) ← build_queue h data (Z.of_nat (length data)); build_tree h1 hd)
  = Err OutOfBounds.
Proof.
  intros (Ht & Hq & HT & HQ) Hlen H31.
  destruct (build_queue_spec TREE_MAX_SIZE QUEUE_MAX_SIZE data h)
    as [([hd h1] & -> & l & Hinv & Hl & Htp & Hqp & HT1 & HQ1)|[-> _]];
    [vm_compute; lia|done..| |done].
  rewrite res_bind_Ok. rewrite take_ge in Hl by lia.
  assert (length l = distinct data) as HL.
  { by rewrite <- (length_fmap c_tree), Hl, queue_of_distinct. }
  assert (QUEUE_MAX_SIZE = 59) as EQ by done. assert (TREE_MAX_SIZE = 117) as ET by done.
  pose proof (qi_qlen _ _ _ Hinv).
  apply (build_tree_loop_overflow _ _ _ l); [done|unfold qfuel; lia..].
Qed.
