(* ===== verification/HuffmanWalk.v ===== *)
(** * Walks over trees in memory

    [dtree] is the shape of any tree the library can hold, including the
    incomplete ones that a corrupted buffer deserialises to.  Each recursive
    walk of [HuffmanMem] is characterised on it; the trees of [HuffmanSpec] are
    the special case [embed]. *)

From S2P Require Import Prelude HuffmanMem HuffmanSpec HuffmanQueue HuffmanTree.
Import Huffman.

Inductive dtree :=
  | DNull
  | DNode (b : Z) (l r : dtree).

#[export] Instance dtree_eq_dec : EqDecision dtree.
Proof. solve_decision. Defined.

Fixpoint ptr_at (tm : list node_t) (P : nat → Prop) (p : ptr) (d : dtree) : Prop :=
  match d with
  | DNull => p = None
  | DNode b l r =>
      ∃ i pl pr w, p = Some i ∧ P i ∧ tm !! i = Some (mk_node pl pr w b) ∧
                   ptr_at tm P pl l ∧ ptr_at tm P pr r
  end.

Fixpoint dnodes (d : dtree) : nat :=
  match d with DNull => 0 | DNode _ l r => S (dnodes l + dnodes r) end.

Fixpoint dheight (d : dtree) : nat :=
  match d with DNull => 0 | DNode _ l r => S (max (dheight l) (dheight r)) end.

(** The bytes with their paths; a node with a byte is a leaf for the code
    even if it has children. *)
Fixpoint dcodes (d : dtree) (path : list bool) : list (Z * list bool) :=
  match d with
  | DNull => []
  | DNode b l r =>
      if bool_decide (b ≠ 0%Z) then [(b, path)]
      else dcodes l (path ++ [false]) ++ dcodes r (path ++ [true])
  end.

Fixpoint dser (d : dtree) : list Z :=
  match d with
  | DNull => [45%Z]
  | DNode b l r => if bool_decide (b ≠ 0%Z) then [b] else 42%Z :: dser l ++ dser r
  end.

Fixpoint embed (t : htree) : dtree :=
  match t with
  | Leaf _ b => DNode b DNull DNull
  | Node _ l r => DNode 0 (embed l) (embed r)
  end.

(** ** Representation *)

Lemma tree_at_embed tm P p t : tree_at tm P p t → ptr_at tm P (Some p) (embed t).
Proof.
  revert p. induction t as [w b|w l IHl r IHr]; intros p; simpl.
  - intros [HP Hp]. exists p, None, None, w. done.
  - intros (HP & pl & pr & Hp & Hl & Hr). exists p, (Some pl), (Some pr), w. split_and!; auto.
Qed.

Lemma ptr_at_mono tm tm' (P Q : nat → Prop) p d :
  (∀ i, P i → Q i ∧ tm' !! i = tm !! i) → ptr_at tm P p d → ptr_at tm' Q p d.
Proof.
  intros HPQ. revert p. induction d as [|b l IHl r IHr]; intros p; simpl; [done|].
  intros (i & pl & pr & w & -> & Hi & Ht & Hl & Hr). destruct (HPQ i Hi) as [? E].
  exists i, pl, pr, w. rewrite E. split_and!; auto.
Qed.

Lemma dheight_dnodes d : dheight d ≤ dnodes d.
Proof. induction d; simpl; lia. Qed.

Lemma dnodes_embed t : dnodes (embed t) = size t.
Proof. induction t; simpl; lia. Qed.

Lemma dcodes_embed t path :
  Forall (λ b, b ≠ 0%Z) (leaves t) → dcodes (embed t) path = codes t path.
Proof.
  revert path. induction t as [w b|w l IHl r IHr]; intros path Hnz; simpl in *.
  - rewrite Forall_singleton in Hnz. by rewrite bool_decide_true.
  - apply Forall_app in Hnz as [Hl Hr].
    by rewrite IHl, IHr.
Qed.

Lemma dser_embed t : Forall (λ b, b ≠ 0%Z) (leaves t) → dser (embed t) = ser t.
Proof.
  induction t as [w b|w l IHl r IHr]; intros Hnz; simpl in *.
  - rewrite Forall_singleton in Hnz. by rewrite bool_decide_true.
  - apply Forall_app in Hnz as [Hl Hr].
    by rewrite IHl, IHr.
Qed.

(** ** Size and number of leaves *)

Lemma tree_get_size_spec fuel h P : ∀ p d,
  ptr_at (tree_memory h) P p d → d ≠ DNull → dheight d ≤ fuel →
  (Z.of_nat (dnodes d) ≤ INT_MAX)%Z →
  tree_get_size fuel h p = Ok (Z.of_nat (dnodes d)).
Proof.
  induction fuel as [|fuel IH]; intros p d Hp Hd Hf Hb;
    destruct d as [|b l r]; simpl in Hf, Hb; [done|lia|done|].
  destruct Hp as (i & pl & pr & w & -> & _ & Hi & Hl & Hr).
  simpl. rewrite (get_node_Some _ _ _ Hi), res_bind_Ok. simpl.
  assert ((match pl with
           | None => Ok 0%Z
           | Some _ => sz ← tree_get_size fuel h pl; int_add 0 sz
           end) = Ok (Z.of_nat (dnodes l))) as ->.
  { destruct l as [|bl ll lr]; [by rewrite Hl|].
    rewrite (IH pl _ Hl) by (done || lia).
    destruct Hl as (il & ? & ? & ? & -> & _). rewrite res_bind_Ok.
    by rewrite int_add_Ok by lia. }
  rewrite res_bind_Ok.
  assert ((match pr with
           | None => Ok (Z.of_nat (dnodes l))
           | Some _ => sz ← tree_get_size fuel h pr; int_add (Z.of_nat (dnodes l)) sz
           end) = Ok (Z.of_nat (dnodes l) + Z.of_nat (dnodes r))%Z) as ->.
  { destruct r as [|br rl rr]; [rewrite Hr; f_equal; simpl; lia|].
    rewrite (IH pr _ Hr) by (done || lia).
    destruct Hr as (ir & ? & ? & ? & -> & _). rewrite res_bind_Ok.
    by rewrite int_add_Ok by lia. }
  rewrite res_bind_Ok, int_add_Ok by lia. f_equal. lia.
Qed.

Lemma length_dcodes d path path' : length (dcodes d path) = length (dcodes d path').
Proof.
  revert path path'. induction d as [|b l IHl r IHr]; intros path path'; simpl; [done|].
  case_bool_decide; [done|]. rewrite !length_app. by erewrite IHl, IHr.
Qed.

Lemma length_dcodes_nodes d path : length (dcodes d path) ≤ dnodes d.
Proof.
  revert path. induction d as [|b l IHl r IHr]; intros path; simpl; [done|].
  case_bool_decide; simpl; [lia|]. rewrite length_app.
  specialize (IHl (path ++ [false])). specialize (IHr (path ++ [true])). lia.
Qed.

(** The number of leaves, as [tree_count_leaves] counts them. *)
Definition dleaves (d : dtree) : nat := length (dcodes d []).

Lemma dleaves_inner l r : dleaves (DNode 0 l r) = dleaves l + dleaves r.
Proof.
  unfold dleaves. simpl.
  rewrite length_app. by erewrite (length_dcodes l), (length_dcodes r).
Qed.

Lemma tree_count_leaves_spec fuel h P : ∀ p d,
  ptr_at (tree_memory h) P p d → d ≠ DNull → dheight d ≤ fuel →
  (Z.of_nat (dnodes d) < 65536)%Z →
  tree_count_leaves fuel h p = Ok (Z.of_nat (dleaves d)).
Proof.
  induction fuel as [|fuel IH]; intros p d Hp Hd Hf Hb;
    destruct d as [|b l r]; simpl in Hf, Hb; [done|lia|done|].
  destruct Hp as (i & pl & pr & w & -> & _ & Hi & Hl & Hr).
  simpl. rewrite (get_node_Some _ _ _ Hi), res_bind_Ok. simpl.
  case_bool_decide as Hbz.
  { unfold dleaves. simpl. by rewrite bool_decide_true. }
  assert (b = 0%Z) as -> by (destruct (decide (b = 0%Z)); tauto).
  pose proof (length_dcodes_nodes l []) as HLl. pose proof (length_dcodes_nodes r []) as HLr.
  rewrite dleaves_inner. change (dleaves l ≤ dnodes l) in HLl. change (dleaves r ≤ dnodes r) in HLr.
  assert ((match pl with
           | None => Ok 0%Z
           | Some _ => sz ← tree_count_leaves fuel h pl; Ok (u16 sz)
           end) = Ok (Z.of_nat (dleaves l))) as ->.
  { destruct l as [|bl ll lr]; [by rewrite Hl|].
    rewrite (IH pl _ Hl) by (done || lia).
    destruct Hl as (il & ? & ? & ? & -> & _). rewrite res_bind_Ok.
    by rewrite u16_small by (unfold is_u16; lia). }
  rewrite res_bind_Ok.
  destruct r as [|br rl rr].
  { rewrite Hr. change (dleaves DNull) with 0. by rewrite Nat.add_0_r. }
  rewrite (IH pr _ Hr) by (done || lia).
  destruct Hr as (ir & ? & ? & ? & -> & _). rewrite res_bind_Ok.
  rewrite u16_small by (unfold is_u16; lia). f_equal. lia.
Qed.

(** ** Serialisation *)

Lemma serialize_tree_node_spec fuel h P : ∀ p d mem pos,
  ptr_at (tree_memory h) P p d → dheight d < fuel →
  pos + length (dser d) ≤ length mem →
  serialize_tree_node fuel h p (mem, pos) =
  Ok (write_at mem pos (dser d), pos + length (dser d)).
Proof.
  induction fuel as [|fuel IH]; intros p d mem pos Hp Hf Hm; [lia|].
  destruct d as [|b l r]; simpl in Hp.
  { subst p. simpl in *. rewrite store_Ok by lia. rewrite res_bind_Ok. by rewrite Nat.add_1_r. }
  destruct Hp as (i & pl & pr & w & -> & _ & Hi & Hl & Hr).
  simpl. rewrite (get_node_Some _ _ _ Hi), res_bind_Ok. simpl in *.
  case_bool_decide as Hb; simpl in *.
  { rewrite store_Ok by lia. rewrite res_bind_Ok. by rewrite Nat.add_1_r. }
  rewrite length_app in *. rewrite store_Ok by lia. rewrite res_bind_Ok.
  rewrite (IH pl l) by (done || rewrite ?length_insert; lia). rewrite res_bind_Ok.
  rewrite (IH pr r) by (done || rewrite ?length_write_at, ?length_insert; lia).
  rewrite write_at_app. do 2 f_equal. lia.
Qed.

(** ** The encoding table *)

(** The byte [build_encoding_table] computes along a path: the last eight
    steps, the latest in the lowest bit. *)
Definition bits_val (path : list bool) : Z :=
  foldl (λ v x, u8 (Z.lor (Z.shiftl v 1) (Z.b2z x))) 0%Z path.

Definition info_of (e : Z * list bool) : encoding_info_t :=
  mk_info e.1 (bits_val e.2) (u8 (Z.of_nat (length e.2))).

Lemma bits_val_snoc path x :
  bits_val (path ++ [x]) = u8 (Z.lor (Z.shiftl (bits_val path) 1) (Z.b2z x)).
Proof. unfold bits_val. by rewrite foldl_app. Qed.

Lemma u8_length_snoc (path : list bool) x :
  u8 (u8 (Z.of_nat (length path)) + 1) = u8 (Z.of_nat (length (path ++ [x]))).
Proof.
  rewrite length_app. simpl. unfold u8. rewrite Zplus_mod_idemp_l. f_equal. lia.
Qed.

Lemma build_encoding_table_spec fuel h P : ∀ p d path arr pos,
  ptr_at (tree_memory h) P p d → d ≠ DNull → dheight d ≤ fuel →
  pos + length (dcodes d path) ≤ length arr →
  build_encoding_table fuel h p (bits_val path) (u8 (Z.of_nat (length path))) (arr, pos) =
  Ok (write_at arr pos (info_of <$> dcodes d path), pos + length (dcodes d path)).
Proof.
  induction fuel as [|fuel IH]; intros p d path arr pos Hp Hd Hf Hm;
    destruct d as [|b l r]; simpl in Hf; [done|lia|done|].
  destruct Hp as (i & pl & pr & w & -> & _ & Hi & Hl & Hr).
  simpl. rewrite (get_node_Some _ _ _ Hi), res_bind_Ok. simpl in *.
  case_bool_decide as Hb; simpl in *.
  { rewrite store_Ok by lia. rewrite res_bind_Ok. by rewrite Nat.add_1_r. }
  rewrite length_app in *.
  pose proof (λ q e a k, IH q e (path ++ [false]) a k) as IHl.
  pose proof (λ q e a k, IH q e (path ++ [true]) a k) as IHr.
  setoid_rewrite bits_val_snoc in IHl. setoid_rewrite <- u8_length_snoc in IHl.
  setoid_rewrite bits_val_snoc in IHr. setoid_rewrite <- u8_length_snoc in IHr.
  simpl Z.b2z in IHl, IHr. rewrite fmap_app, write_at_app, length_fmap.
  assert ((match pl with
           | None => Ok (arr, pos)
           | Some _ => build_encoding_table fuel h pl (u8 (Z.lor (Z.shiftl (bits_val path) 1) 0))
                         (u8 (u8 (Z.of_nat (length path)) + 1)) (arr, pos)
           end) = Ok (write_at arr pos (info_of <$> dcodes l (path ++ [false])),
                      pos + length (dcodes l (path ++ [false])))) as ->.
  { destruct l as [|bl ll lr]; [by rewrite Hl; simpl; rewrite Nat.add_0_r|].
    rewrite (IHl pl _ _ _ Hl) by (done || simpl in *; lia).
    by destruct Hl as (il & ? & ? & ? & -> & _). }
  rewrite res_bind_Ok.
  destruct r as [|br rl rr]; [rewrite Hr; simpl; do 2 f_equal; lia|].
  rewrite (IHr pr _ _ _ Hr); [|done|simpl in *; lia|rewrite length_write_at; lia].
  destruct Hr as (ir & ? & ? & ? & -> & _). do 2 f_equal. lia.
Qed.

(** ** Deserialisation *)

(** [parses s d rest]: the prefix of [s] before [rest] is a serialised tree. *)
Inductive parses : list Z → dtree → list Z → Prop :=
  | parses_null s : parses (45%Z :: s) DNull s
  | parses_leaf c s : c ≠ 45%Z → c ≠ 42%Z → parses (c :: s) (DNode c DNull DNull) s
  | parses_node s l s1 r s2 :
      parses s l s1 → parses s1 r s2 → parses (42%Z :: s) (DNode 0 l r) s2.

Lemma parses_det s d1 r1 d2 r2 : parses s d1 r1 → parses s d2 r2 → d1 = d2 ∧ r1 = r2.
Proof.
  intros H. revert d2 r2. induction H as [s|c s ? ?|s l s1 r s2 H1 IH1 H2 IH2];
    intros d2 r2 H'; inversion H'; subst; try congruence; [done..|].
  destruct (IH1 _ _ ltac:(eassumption)) as [-> ->].
  by destruct (IH2 _ _ ltac:(eassumption)) as [-> ->].
Qed.

Lemma parses_embed t rest :
  Forall ok_byte (leaves t) → parses (ser t ++ rest) (embed t) rest.
Proof.
  revert rest. induction t as [w b|w l IHl r IHr]; intros rest Hb; simpl in *.
  - rewrite Forall_singleton in Hb. destruct Hb as (? & ? & ? & ?). by constructor.
  - apply Forall_app in Hb as [Hl Hr]. econstructor; [|by apply IHr].
    rewrite <- app_assoc. by apply IHl.
Qed.

Lemma parses_drop data pos d rest :
  parses (drop pos data) d rest →
  ∃ pos', pos < pos' ≤ length data ∧ rest = drop pos' data.
Proof.
  intros H. remember (drop pos data) as s eqn:Hs. revert pos Hs.
  assert (∀ pos c s, c :: s = drop pos data → pos < S pos ≤ length data ∧ s = drop (S pos) data) as Hd.
  { intros pos c s' E. assert (pos < length data).
    { destruct (decide (pos < length data)); [done|].
      rewrite drop_ge in E by lia. done. }
    destruct (lookup_lt_is_Some_2 data pos) as [x Hx]; [done|].
    rewrite (drop_S _ _ _ Hx) in E. injection E as -> ->. split; [lia|done]. }
  induction H as [s|c s ? ?|s l s1 r s2 H1 IH1 H2 IH2]; intros pos Hs;
    apply Hd in Hs as [Hpos ->]; eauto.
  destruct (IH1 _ eq_refl) as (p1 & ? & ->).
  destruct (IH2 _ eq_refl) as (p2 & ? & ->). exists p2. split; [lia|done].
Qed.

(** What a run of [deserialize_tree_node] from [h] at [pos] may end in: a tree
    built in fresh nodes above [tree_ptr h], the older nodes untouched, or an
    access out of bounds, when the text is not a tree or the nodes do not fit. *)
Definition deser_post (h : huffman_t) (data : list Z) (pos : nat)
    (o : res (ptr * huffman_t * nat)) : Prop :=
  (∃ p h' pos' d, o = Ok (p, h', pos') ∧ pos < pos' ≤ length data ∧
     parses (drop pos data) d (drop pos' data) ∧
     ptr_at (tree_memory h') (λ i, tree_ptr h ≤ i < tree_ptr h') p d ∧
     (∀ i, i < tree_ptr h → tree_memory h' !! i = tree_memory h !! i) ∧
     tree_ptr h' = tree_ptr h + dnodes d ∧ tree_ptr h' ≤ length (tree_memory h') ∧
     length (tree_memory h') = length (tree_memory h)) ∨
  (o = Err OutOfBounds ∧
   ∀ d rest, parses (drop pos data) d rest → length (tree_memory h) < tree_ptr h + dnodes d).

Lemma ptr_at_insert tm i n (P Q : nat → Prop) p d :
  (∀ j, P j → Q j ∧ j ≠ i) → ptr_at tm P p d → ptr_at (<[i := n]> tm) Q p d.
Proof.
  intros HP. apply ptr_at_mono. intros j Hj. split; [by apply HP|].
  apply list_lookup_insert_ne. destruct (HP j Hj). congruence.
Qed.

(** The two children of an inner node, read one after the other. *)
Section Children.
Context (fuel : nat) (data : list Z).
Context (IH : ∀ h pos, tree_ptr h ≤ length (tree_memory h) → length data - pos < fuel →
                deser_post h data pos (deserialize_tree_node fuel h data pos)).
Context (h : huffman_t) (pos : nat).
Context (Hlt : tree_ptr h < length (tree_memory h))
        (Hpos : pos < length data) (Hc : data !! pos = Some 42%Z)
        (Hf : length data - pos ≤ fuel).

Let i := tree_ptr h.
Let h2 := h_alloc h (mk_node None None 0 0).

Definition children : res (ptr * huffman_t * nat) :=
  '(l, h3, p1) ← deserialize_tree_node fuel h2 data (S pos);
  nl ← get_node h3 (Some i);
  h4 ← set_node h3 (Some i) (mk_node l (right nl) (weight nl) (byte nl));
  '(r, h5, p2) ← deserialize_tree_node fuel h4 data p1;
  nr ← get_node h5 (Some i);
  h6 ← set_node h5 (Some i) (mk_node (left nr) r (weight nr) (byte nr));
  Ok (Some i, h6, p2).

Lemma drop_pos : drop pos data = 42%Z :: drop (S pos) data.
Proof using Hc. by apply drop_S. Qed.

Lemma children_spec : deser_post h data pos children.
Proof using All.
  unfold children. assert (i < length (tree_memory h2)) as Hi2
    by (simpl; rewrite length_insert; done).
  destruct (IH h2 (S pos))
    as [(l & h3 & p1 & dl & -> & Hp1 & Hpl & Hl & Hfr3 & Htp3 & Hle3 & Hlen3)|[-> Hno]];
    [simpl in *; lia|lia|..]; simpl in Hi2.
  2: { right. split; [done|]. rewrite drop_pos. intros d rest Hd.
       inversion Hd as [|c' s' H45 H42|s' l' s1 r' s2 Ha Hb]; subst; [done|].
       apply Hno in Ha. simpl in *.
       rewrite length_insert in *. lia. }
  rewrite res_bind_Ok. simpl in Htp3, Hlen3.
  assert (tree_memory h3 !! i = Some (mk_node None None 0 0)) as Hn3.
  { rewrite Hfr3 by (simpl; lia). by apply list_lookup_insert_eq. }
  rewrite (get_node_Some _ _ _ Hn3), res_bind_Ok.
  rewrite (set_node_Some _ _ _ _ Hn3), res_bind_Ok. simpl.
  set (h4 := with_tree_memory h3 _).
  destruct (IH h4 p1)
    as [(r & h5 & p2 & dr & -> & Hp2 & Hpr & Hr & Hfr5 & Htp5 & Hle5 & Hlen5)|[-> Hno]];
    [simpl; rewrite length_insert; lia|lia|..].
  2: { right. split; [done|]. rewrite drop_pos. intros d rest Hd.
       inversion Hd as [|c' s' H45 H42|s' l' s1 r' s2 Ha Hb]; subst; [done|].
       destruct (parses_det _ _ _ _ _ Hpl Ha) as [<- <-]. apply Hno in Hb. simpl in *.
       rewrite !length_insert in *. lia. }
  rewrite res_bind_Ok. simpl in Htp5, Hlen5. rewrite length_insert in Hlen5.
  assert (tree_memory h5 !! i = Some (mk_node l None 0 0)) as Hn5.
  { rewrite Hfr5 by (simpl; lia). simpl. apply list_lookup_insert_eq.
    rewrite Hlen3. simpl. rewrite length_insert. done. }
  rewrite (get_node_Some _ _ _ Hn5), res_bind_Ok.
  rewrite (set_node_Some _ _ _ _ Hn5), res_bind_Ok. simpl.
  left. exists (Some i). eexists _, p2, (DNode 0 dl dr). split; [done|].
  rewrite length_insert in Hlen3. simpl.
  split_and!; [lia|lia| | | |lia| |].
  - rewrite drop_pos. by econstructor.
  - exists i, l, r, 0%Z. split_and!; [done|lia|lia| | |].
    + apply list_lookup_insert_eq. by eapply lookup_lt_Some.
    + apply (ptr_at_insert _ i _ (λ j, S i ≤ j < tree_ptr h3));
        [intros j Hj; unfold i in *; lia|].
      apply (ptr_at_mono (tree_memory h3) _ (λ j, S i ≤ j < tree_ptr h3)); [|done].
      intros j Hj. split; [done|]. rewrite Hfr5 by (simpl; lia). simpl.
      apply list_lookup_insert_ne. lia.
    + apply (ptr_at_insert _ i _ (λ j, tree_ptr h3 ≤ j < tree_ptr h5));
        [intros j Hj; unfold i in *; lia|done].
  - intros j Hj. rewrite list_lookup_insert_ne by (unfold i; lia).
    rewrite Hfr5 by (simpl; lia). simpl. rewrite list_lookup_insert_ne by (unfold i; lia).
    rewrite Hfr3 by (simpl; lia). simpl. apply list_lookup_insert_ne. lia.
  - rewrite length_insert. lia.
  - rewrite length_insert. lia.
Qed.
End Children.

Lemma deserialize_tree_node_spec fuel : ∀ h data pos,
  tree_ptr h ≤ length (tree_memory h) → length data - pos < fuel →
  deser_post h data pos (deserialize_tree_node fuel h data pos).
Proof.
  induction fuel as [|fuel IH]; intros h data pos Hle Hf; [lia|].
  simpl. destruct (data !! pos) as [c|] eqn:Hc; unfold load; rewrite Hc.
  2: { right. split; [done|]. intros d rest Hd.
       rewrite drop_ge in Hd by (by apply lookup_ge_None). inversion Hd. }
  pose proof (lookup_lt_Some _ _ _ Hc) as Hpos. rewrite res_bind_Ok.
  case_bool_decide as H45.
  { subst c. left. exists None, h, (S pos), DNull. split; [done|].
    split_and!; try done; try (simpl; lia). rewrite (drop_S _ _ _ Hc). constructor. }
  destruct (decide (tree_ptr h < length (tree_memory h))) as [Hlt|Hlt].
  2: { assert (∀ w, tree_alloc h w = Err OutOfBounds) as Ha.
       { intros w. unfold tree_alloc. by rewrite store_OutOfBounds by lia. }
       right. split; [by case_bool_decide; rewrite Ha|].
       intros d rest Hd. rewrite (drop_S _ _ _ Hc) in Hd.
       inversion Hd; subst; simpl; [done|lia..]. }
  case_bool_decide as H42; rewrite tree_alloc_spec, res_bind_Ok by done;
    rewrite get_h_alloc, res_bind_Ok by done;
    rewrite set_h_alloc, res_bind_Ok by done; simpl.
  - left. eexists _, _, (S pos), (DNode c DNull DNull). split; [done|].
    simpl. rewrite length_insert. split_and!; try done; try lia.
    + rewrite (drop_S _ _ _ Hc). by constructor.
    + exists (tree_ptr h), None, None, 0%Z. split_and!; try done; try lia.
      by apply list_lookup_insert_eq.
    + intros j Hj. apply list_lookup_insert_ne. lia.
  - assert (c = 42%Z) as -> by (destruct (decide (c = 42%Z)); tauto).
    apply (children_spec fuel data); [|done..|lia].
    intros h' pos'. apply IH.
Qed.

(** A buffer holding a serialised tree of at most as many nodes as there are
    free is read back as that tree. *)
Lemma deserialize_tree_spec h data start t rest :
  tree_ptr h + size t ≤ length (tree_memory h) →
  (Z.of_nat (length data) < 65536)%Z →
  Forall ok_byte (leaves t) → drop start data = ser t ++ rest →
  ∃ p h', deserialize_tree h data start = Ok (p, h', Z.of_nat (size t)) ∧
    ptr_at (tree_memory h') (λ i, i < tree_ptr h') p (embed t) ∧
    length (tree_memory h') = length (tree_memory h).
Proof.
  intros Hle Hlen Hok Hdrop. unfold deserialize_tree.
  pose proof (parses_embed t rest Hok) as Hp. rewrite <- Hdrop in Hp.
  destruct (deserialize_tree_node_spec (S (length data)) h data start)
    as [(p & h' & pos' & d & -> & Hpos & Hd & Hat & _ & Htp & Hle' & Hlen')|[_ Hno]];
    [lia|lia| |apply Hno in Hp; rewrite dnodes_embed in Hp; lia].
  destruct (parses_det _ _ _ _ _ Hp Hd) as [<- Hrest].
  assert (length (drop start data) = size t + length rest) as HL
    by (rewrite Hdrop, length_app, ser_length; done).
  rewrite Hrest, !length_drop in HL.
  rewrite res_bind_Ok. exists p, h'. split_and!; [|by eapply ptr_at_mono; [|exact Hat]; naive_solver lia|done].
  rewrite u16_small by (unfold is_u16; lia). do 2 f_equal. lia.
Qed.
