(* ===== verification/HuffmanBits.v ===== *)
(** * Bit streams

    The bits a [bitstream_t] writes and reads, least significant bit of each
    byte first; [reverse_bits] turns the code bytes of the encoding table into
    that order. *)

From S2P Require Import Prelude HuffmanMem HuffmanSpec HuffmanWalk.
Import Huffman.

#[local] Arguments Nat.div : simpl never.
#[local] Arguments Nat.modulo : simpl never.

(** The stream at bit position [k] of the buffer part starting at [base]. *)
Definition stream_pos (base k : nat) : bitstream_t :=
  mk_stream base (Z.of_nat (k / 8)) (Z.of_nat (k mod 8)).

(** Bit [i] of the stream. *)
Definition sbit (mem : list Z) (base i : nat) : option bool :=
  (λ c, Z.testbit c (Z.of_nat (i mod 8))) <$> mem !! (base + i / 8).

(** The stream reads [bits] at its start. *)
Definition holds (mem : list Z) (base : nat) (bits : list bool) : Prop :=
  ∀ i x, bits !! i = Some x → sbit mem base i = Some x.

(** The stream holds [bits] and zeros after them, up to the end of the
    buffer. *)
Definition written (mem : list Z) (base : nat) (bits : list bool) : Prop :=
  ∀ i, base + i / 8 < length mem → sbit mem base i = Some (nth i bits false).

(** ** Positions *)

Lemma mod8_lt k : k mod 8 < 8.
Proof. apply Nat.mod_upper_bound. lia. Qed.

Lemma bitstream_next_pos base k :
  (Z.of_nat (S k / 8) < 65536)%Z → bitstream_next (stream_pos base k) = stream_pos base (S k).
Proof.
  intros Hb. unfold bitstream_next, stream_pos. simpl bitnum. simpl buff_index. simpl buff.
  pose proof (mod8_lt k). rewrite u16_small by (unfold is_u16; lia).
  pose proof (Nat.div_mod_eq k 8). pose proof (Nat.div_mod_eq (S k) 8).
  pose proof (mod8_lt (S k)).
  case_bool_decide as E.
  - rewrite u16_small by (unfold is_u16; lia). f_equal; lia.
  - f_equal; lia.
Qed.

Lemma pos_div_mod_inj i k : i / 8 = k / 8 → i mod 8 = k mod 8 → i = k.
Proof. intros H1 H2. rewrite (Nat.div_mod_eq i 8), (Nat.div_mod_eq k 8). lia. Qed.

(** ** Writing *)

Lemma testbit_byte_high c i : is_u8 c → (8 ≤ i)%Z → Z.testbit c i = false.
Proof.
  intros Hc Hi. destruct (decide (c = 0%Z)) as [->|Hz]; [apply Z.bits_0|].
  unfold is_u8 in Hc. apply Z.bits_above_log2; [lia|].
  apply Z.log2_lt_pow2; [lia|]. assert (2 ^ 8 ≤ 2 ^ i)%Z by (apply Z.pow_le_mono_r; lia). lia.
Qed.

Lemma is_u8_bits c : (0 ≤ c)%Z → (∀ i, (8 ≤ i)%Z → Z.testbit c i = false) → is_u8 c.
Proof.
  intros Hc Hb. split; [done|]. destruct (decide (c = 0%Z)) as [->|Hz]; [lia|].
  assert (Z.log2 c < 8)%Z as Hl.
  { destruct (decide (Z.log2 c < 8)%Z) as [|Hge]; [done|].
    assert (Z.testbit c (Z.log2 c) = true) as E by (apply Z.bit_log2; lia).
    rewrite Hb in E by lia. discriminate E. }
  apply Z.log2_lt_pow2 in Hl; lia.
Qed.

(** Oring bit [n] of value [x] into a byte. *)
Lemma or_bit c x n :
  is_u8 c → (0 ≤ n < 8)%Z →
  is_u8 (Z.lor (Z.shiftl (Z.b2z x) n) c) ∧
  ∀ i, (0 ≤ i)%Z → Z.testbit (Z.lor (Z.shiftl (Z.b2z x) n) c) i
                   = (x && bool_decide (i = n)) || Z.testbit c i.
Proof.
  intros Hc Hn.
  assert (∀ i, (0 ≤ i)%Z → Z.testbit (Z.lor (Z.shiftl (Z.b2z x) n) c) i
                   = (x && bool_decide (i = n)) || Z.testbit c i) as Hb.
  { intros i Hi. rewrite Z.lor_spec, Z.shiftl_spec by done. f_equal.
    case_bool_decide as E.
    - subst. rewrite Z.sub_diag. by destruct x.
    - destruct x; simpl; [|apply Z.bits_0].
      destruct (decide (i < n)%Z); [by rewrite Z.testbit_neg_r by lia|].
      change 1%Z with (2 ^ 0)%Z. apply Z.pow2_bits_false. lia. }
  split; [|done]. apply is_u8_bits.
  - apply Z.lor_nonneg. split; [apply Z.shiftl_nonneg; destruct x; simpl; lia|apply Hc].
  - intros i Hi. rewrite Hb by lia. rewrite bool_decide_false by lia.
    rewrite testbit_byte_high by done. by destruct x.
Qed.

Lemma bitstream_put_bit_spec mem base bits x :
  Forall is_u8 mem → written mem base bits →
  base + length bits / 8 < length mem → (Z.of_nat (S (length bits) / 8) < 65536)%Z →
  ∃ mem', bitstream_put_bit mem (stream_pos base (length bits)) (Z.b2z x)
          = Ok (mem', stream_pos base (S (length bits))) ∧
    written mem' base (bits ++ [x]) ∧ Forall is_u8 mem' ∧
    length mem' = length mem ∧ (∀ i, i < base → mem' !! i = mem !! i).
Proof.
  intros Hu Hw Hlt Hb. set (k := length bits) in *.
  unfold bitstream_put_bit. simpl buff. simpl buff_index. simpl bitnum. rewrite Nat2Z.id.
  destruct (lookup_lt_is_Some_2 _ _ Hlt) as [c Hc].
  rewrite (proj2 (load_Ok _ _ _) Hc), res_bind_Ok.
  replace (Z.land (Z.b2z x) 1) with (Z.b2z x) by by destruct x.
  assert (is_u8 c) as Hcu by (rewrite list.Forall_forall in Hu; by eapply Hu, list_elem_of_lookup_2).
  pose proof (mod8_lt k) as Hm.
  destruct (or_bit c x (Z.of_nat (k mod 8)) Hcu) as [Hou Hob]; [lia|].
  rewrite u8_small, store_Ok, res_bind_Ok by done. rewrite bitstream_next_pos by done.
  eexists. split; [done|]. rewrite length_insert. split_and!; [|by apply Forall_insert|done|].
  - intros i. rewrite length_insert. intros Hi. unfold sbit.
    specialize (Hw i Hi). unfold sbit in Hw.
    assert (∀ y, nth i (bits ++ [x]) y = if decide (i = k) then x else nth i bits y) as Hnth.
    { intros y. destruct (decide (i = k)) as [->|Hne].
      - unfold k. rewrite app_nth2 by lia. by rewrite Nat.sub_diag.
      - destruct (decide (i < k)); [by rewrite app_nth1|].
        rewrite !nth_overflow; [done|fold k; lia|rewrite length_app; fold k; simpl; lia]. }
    rewrite Hnth. destruct (decide (i / 8 = k / 8)) as [Hd|Hd].
    + rewrite Hd in *. rewrite list_lookup_insert_eq by done. rewrite Hc in Hw. simpl in *.
      f_equal. injection Hw as Hw. rewrite Hob by lia. rewrite Hw.
      destruct (decide (i = k)) as [->|Hne].
      * rewrite bool_decide_true by done. rewrite nth_overflow by (fold k; lia). by destruct x.
      * rewrite bool_decide_false; [by destruct x|].
        intros E. apply Hne, pos_div_mod_inj; lia.
    + rewrite list_lookup_insert_ne by lia. rewrite Hw.
      by destruct (decide (i = k)) as [->|].
  - intros i Hi. apply list_lookup_insert_ne. lia.
Qed.

(** The bits of a byte, first one lowest. *)
Definition lsb_val (path : list bool) : Z :=
  foldr (λ x v, Z.b2z x + 2 * v)%Z 0%Z path.

Lemma lsb_val_range path : (0 ≤ lsb_val path)%Z.
Proof. induction path as [|[] path IH]; simpl; lia. Qed.

Lemma lsb_val_cons x path :
  u8 (Z.land (lsb_val (x :: path)) 1) = Z.b2z x ∧
  Z.shiftr (lsb_val (x :: path)) 1 = lsb_val path.
Proof.
  split.
  - change 1%Z with (Z.ones 1) at 1. rewrite Z.land_ones by lia. simpl foldr.
    change (lsb_val (x :: path)) with (Z.b2z x + 2 * lsb_val path)%Z.
    replace ((Z.b2z x + 2 * lsb_val path) `mod` 2 ^ 1)%Z with (Z.b2z x); [by destruct x|].
    change (2 ^ 1)%Z with 2%Z. rewrite Z.mul_comm, Z_mod_plus_full. by destruct x.
  - change (lsb_val (x :: path)) with (Z.b2z x + 2 * lsb_val path)%Z.
    rewrite Z.shiftr_div_pow2 by lia. change (2 ^ 1)%Z with 2%Z.
    rewrite Z.mul_comm, Z_div_plus_full by lia. by destruct x.
Qed.

Lemma put_bits_loop n : ∀ i path mem base bits,
  length path = n → (Z.of_nat (i + n) ≤ INT_MAX)%Z →
  Forall is_u8 mem → written mem base bits →
  base * 8 + length bits + n ≤ length mem * 8 →
  (Z.of_nat (length bits + n) < 65536 * 8)%Z →
  ∃ mem', for_int_from n i (λ _ s,
     let '(m, t, c) := s in
     '(m1, t1) ← bitstream_put_bit m t (u8 (Z.land c 1));
     Ok (m1, t1, Z.shiftr c 1)) (mem, stream_pos base (length bits), lsb_val path)
   = Ok (mem', stream_pos base (length (bits ++ path)), 0%Z) ∧
    written mem' base (bits ++ path) ∧ Forall is_u8 mem' ∧
    length mem' = length mem ∧ (∀ i, i < base → mem' !! i = mem !! i).
Proof.
  induction n as [|n IH]; intros i path mem base bits Hp Hi Hu Hw Hlen Hb.
  - destruct path; [|done]. exists mem. rewrite app_nil_r. done.
  - destruct path as [|x path]; [done|]. injection Hp as Hp.
    cbn [for_int_from]. destruct (lsb_val_cons x path) as [-> ->].
    destruct (bitstream_put_bit_spec mem base bits x) as (m1 & -> & Hw1 & Hu1 & Hl1 & Hf1);
      [done|done| | |].
    { pose proof (Nat.div_mod_eq (length bits) 8). lia. }
    { pose proof (Nat.div_mod_eq (S (length bits)) 8). lia. }
    rewrite !res_bind_Ok. rewrite bool_decide_false by lia.
    replace (S (length bits)) with (length (bits ++ [x])) by (rewrite length_app; simpl; lia).
    destruct (IH (S i) path m1 base (bits ++ [x])) as (m2 & -> & Hw2 & Hu2 & Hl2 & Hf2);
      [done|lia|done|done|rewrite length_app; simpl; lia..|].
    exists m2. rewrite <- app_assoc in *. split_and!; [done..|lia|].
    intros j Hj. rewrite Hf2, Hf1 by done. done.
Qed.

Lemma bitstream_put_bits_spec mem base bits path :
  length path ≤ 8 → Forall is_u8 mem → written mem base bits →
  base * 8 + length bits + length path ≤ length mem * 8 →
  (Z.of_nat (length bits + length path) < 65536 * 8)%Z →
  ∃ mem', bitstream_put_bits mem (stream_pos base (length bits)) (lsb_val path)
            (Z.of_nat (length path))
          = Ok (mem', stream_pos base (length (bits ++ path))) ∧
    written mem' base (bits ++ path) ∧ Forall is_u8 mem' ∧
    length mem' = length mem ∧ (∀ i, i < base → mem' !! i = mem !! i).
Proof.
  intros Hp Hu Hw Hlen Hb. unfold bitstream_put_bits, for_int. rewrite Nat2Z.id.
  destruct (put_bits_loop (length path) 0 path mem base bits) as (m & -> & H);
    [done|unfold INT_MAX; lia|done..|]. by exists m.
Qed.

(** ** Bit reversal *)

Fixpoint all_paths (n : nat) : list (list bool) :=
  match n with
  | O => [[]]
  | S n' => (cons false <$> all_paths n') ++ (cons true <$> all_paths n')
  end.

Lemma elem_of_all_paths path : path ∈ all_paths (length path).
Proof.
  induction path as [|x path IH]; simpl; [by left|].
  apply elem_of_app. destruct x; [right|left]; by apply list_elem_of_fmap_2.
Qed.

(** On codes of at most eight bits [reverse_bits] puts the first step of the
    path in the lowest bit. *)
Lemma reverse_bits_spec path :
  length path ≤ 8 →
  reverse_bits (bits_val path) (Z.of_nat (length path)) = Ok (lsb_val path).
Proof.
  intros Hlen.
  assert (forallb (λ n, forallb (λ p,
            match reverse_bits (bits_val p) (Z.of_nat n) with
            | Ok v => Z.eqb v (lsb_val p)
            | Err _ => false
            end) (all_paths n)) (seq 0 9) = true) as Hall by (vm_compute; reflexivity).
  rewrite forallb_forall in Hall. specialize (Hall (length path)).
  rewrite forallb_forall in Hall. specialize (Hall ltac:(apply in_seq; lia) path).
  specialize (Hall ltac:(apply list_elem_of_In, elem_of_all_paths)).
  destruct (reverse_bits _ _); [|done]. by apply Z.eqb_eq in Hall as ->.
Qed.

(** ** Looking a byte up in the encoding table *)

Lemma find_encoded_loop_spec cs b : ∀ pre,
  (Z.of_nat (length pre + length cs) ≤ INT_MAX)%Z →
  find_encoded_loop (length cs) (length pre) (pre ++ (info_of <$> cs)) b =
  Ok (match list_find (λ e, e.1 = b) cs with
      | Some (_, (_, p)) => (u8 (Z.of_nat (length p)), bits_val p)
      | None => (0, 0)%Z
      end).
Proof.
  induction cs as [|[c p] cs IH]; intros pre Hlen; [done|].
  simpl find_encoded_loop. unfold load. rewrite lookup_app_r by done.
  rewrite Nat.sub_diag. simpl.
  case_bool_decide as E.
  - rewrite decide_True by done. done.
  - simpl in Hlen. rewrite decide_False by done.
    rewrite bool_decide_false by lia.
    change (list_fmap (Z * list bool)%type encoding_info_t info_of cs) with (info_of <$> cs).
    specialize (IH (pre ++ [info_of (c, p)])). rewrite length_app in IH. simpl in IH.
    replace (length pre + 1) with (S (length pre)) in IH by lia.
    rewrite <- app_assoc in IH. simpl in IH. rewrite IH by lia.
    by destruct (list_find _ cs) as [[i [c' p']]|].
Qed.

Lemma find_encoded_byte_spec t b :
  Forall (λ c, c ≠ 0%Z) (leaves t) → b ∈ leaves t → depth t < 256 →
  (Z.of_nat (length (leaves t)) ≤ INT_MAX)%Z →
  find_encoded_byte (info_of <$> codes t []) (Z.of_nat (length (leaves t))) b
  = Ok (Z.of_nat (length (code t b)), bits_val (code t b)).
Proof.
  intros Hnz Hb Hd Hlen. unfold find_encoded_byte. rewrite Nat2Z.id.
  assert (length (leaves t) = length (codes t [])) as HL
    by (by rewrite <- (codes_bytes t []), length_fmap).
  pose proof (find_encoded_loop_spec (codes t []) b []) as Hfind.
  simpl in Hfind. rewrite HL, Hfind by lia. clear Hfind.
  pose proof (code_elem t b Hb) as Hin. pose proof (code_length t b) as Hcl.
  unfold code in *. destruct (list_find _ _) as [[i [c p]]|] eqn:E.
  - rewrite u8_small by (unfold is_u8; lia). done.
  - rewrite list_find_None, list.Forall_forall in E. by apply E in Hin.
Qed.

(** ** Compressing *)

Section Compress.
Context (t : htree) (data : list Z).
Context (Hnz : Forall (λ c, c ≠ 0%Z) (leaves t)) (Hin : ∀ b, b ∈ data → b ∈ leaves t)
        (Hdepth : depth t < 256) (Hsize : (Z.of_nat (length (leaves t)) ≤ INT_MAX)%Z).

(** After [i] bytes the stream holds their codes. *)
Definition compress_inv (mem0 : list Z) (base i : nat)
    (s : list Z * bitstream_t * Z) : Prop :=
  let '(mem, bs, total) := s in
  let bits := encode t (take i data) in
  bs = stream_pos base (length bits) ∧ total = u16 (Z.of_nat (length bits)) ∧
  written mem base bits ∧ Forall is_u8 mem ∧ length mem = length mem0 ∧
  (∀ j, j < base → mem !! j = mem0 !! j) ∧
  (∀ b, b ∈ take i data → length (code t b) ≤ 8).

Lemma compress_step_spec mem0 base i s :
  base * 8 + length (encode t data) ≤ length mem0 * 8 →
  (Z.of_nat (length (encode t data)) < 65536)%Z →
  i < length data → compress_inv mem0 base i s →
  (∃ s', compress_step (info_of <$> codes t []) (Z.of_nat (length (leaves t))) data i s
         = Ok s' ∧ compress_inv mem0 base (S i) s') ∨
  (compress_step (info_of <$> codes t []) (Z.of_nat (length (leaves t))) data i s
   = Err BadShift ∧ ∃ b, b ∈ data ∧ 8 < length (code t b)).
Proof using All.
  intros Hroom Hbits Hi. destruct s as [[mem bs] total].
  intros (-> & -> & Hw & Hu & Hl & Hfr & Hshort).
  destruct (lookup_lt_is_Some_2 data i Hi) as [b Hb].
  assert (b ∈ leaves t) as Hbl by (eapply Hin, list_elem_of_lookup_2; done).
  unfold compress_step. rewrite (proj2 (load_Ok _ _ _) Hb), res_bind_Ok.
  rewrite find_encoded_byte_spec, res_bind_Ok by done.
  destruct (decide (length (code t b) ≤ 8)) as [Hcl|Hcl].
  2: { right. split; [|exists b; split; [by eapply list_elem_of_lookup_2|lia]].
       unfold reverse_bits. by rewrite bool_decide_true by lia. }
  left. rewrite reverse_bits_spec, res_bind_Ok by lia.
  assert (encode t (take (S i) data) = encode t (take i data) ++ code t b) as Henc.
  { rewrite (take_S_r _ _ _ Hb), encode_app. f_equal. unfold encode. simpl.
    apply app_nil_r. }
  assert (length (encode t (take (S i) data)) ≤ length (encode t data)) as Hle.
  { rewrite <- (take_drop (S i) data) at 2. rewrite encode_app, length_app. lia. }
  rewrite Henc, length_app in Hle.
  destruct (bitstream_put_bits_spec mem base (encode t (take i data)) (code t b))
    as (mem' & -> & Hw' & Hu' & Hl' & Hfr'); [lia|done|done|lia|lia|].
  rewrite res_bind_Ok. eexists. split; [done|].
  unfold compress_inv. rewrite Henc. split_and!; [done| |done|done|lia| |].
  - rewrite length_app. unfold u16. rewrite Zplus_mod_idemp_l. f_equal. lia.
  - intros j Hj. rewrite Hfr', Hfr; done.
  - rewrite (take_S_r _ _ _ Hb). intros c [?| ->%list_elem_of_singleton]%elem_of_app; auto.
Qed.

(** The codes are written out one after the other; a code of more than
    eight bits ends the run on a negative shift. *)
Lemma compress_data_spec mem base :
  Forall is_u8 mem → written mem base [] →
  base * 8 + length (encode t data) ≤ length mem * 8 →
  (Z.of_nat (length (encode t data)) < 65536)%Z →
  (∃ mem', compress_data (info_of <$> codes t []) (Z.of_nat (length (leaves t)))
             data (Z.of_nat (length data)) mem base
           = Ok (mem', Z.of_nat (length (encode t data))) ∧
     written mem' base (encode t data) ∧ Forall is_u8 mem' ∧
     length mem' = length mem ∧ (∀ j, j < base → mem' !! j = mem !! j) ∧
     ∀ b, b ∈ data → length (code t b) ≤ 8) ∨
  (compress_data (info_of <$> codes t []) (Z.of_nat (length (leaves t)))
     data (Z.of_nat (length data)) mem base = Err BadShift ∧
   ∃ b, b ∈ data ∧ 8 < length (code t b)).
Proof using All.
  intros Hu Hw Hroom Hbits. unfold compress_data, for_u16. rewrite Nat2Z.id.
  destruct (for_u16_from_inv_or (compress_inv mem base) BadShift (length data)
    (compress_step (info_of <$> codes t []) (Z.of_nat (length (leaves t))) data)
    0 (mem, mk_stream base 0 0, 0%Z)) as [([[mem' bs] total] & -> & Hinv)|E].
  - simpl. split_and!; try done. intros b Hb. by apply not_elem_of_nil in Hb.
  - intros j s Hj Hs. destruct (compress_step_spec mem base j s) as [?|[? _]];
      [done|done|lia|done|by left|by right].
  - left. simpl in Hinv. rewrite take_ge in Hinv by lia.
    destruct Hinv as (_ & -> & Hw' & Hu' & Hl' & Hfr' & Hsh).
    exists mem'. rewrite res_bind_Ok.
    rewrite u16_small by (unfold is_u16; lia). done.
  - right. split; [by rewrite E|].
    destruct (decide (Forall (λ b, length (code t b) ≤ 8) data)) as [Hall|Hex].
    + exfalso. rewrite list.Forall_forall in Hall.
      destruct (for_u16_from_inv (compress_inv mem base) (length data)
        (compress_step (info_of <$> codes t []) (Z.of_nat (length (leaves t))) data)
        0 (mem, mk_stream base 0 0, 0%Z)) as (s & E' & _); [..|congruence].
      * simpl. split_and!; try done. intros b Hb. by apply not_elem_of_nil in Hb.
      * intros j s Hj Hs. destruct (compress_step_spec mem base j s) as [?|(_ & b & Hb & Hlong)];
          [done|done|lia|done|done|]. apply Hall in Hb. lia.
    + apply not_Forall_Exists in Hex; [|apply _]. apply Exists_exists in Hex as (b & Hb & Hlong).
      exists b. split; [done|]. simpl in Hlong. lia.
Qed.
End Compress.
