(* ===== verification/HuffmanDecode.v ===== *)
(** * Decoding

    Reading bits, decoding one symbol as a walk down the tree, and the loop of
    [inflate_data]; and, for arbitrary input, that decoding always comes to an
    end. *)

From S2P Require Import Prelude HuffmanMem HuffmanSpec HuffmanQueue HuffmanTree.
From S2P Require Import HuffmanWalk HuffmanBits.
Import Huffman.

#[local] Arguments Nat.div : simpl never.
#[local] Arguments Nat.modulo : simpl never.

Lemma low_bit c n : Z.land (u8 (Z.shiftr c n)) 1 = Z.b2z (Z.testbit c n).
Proof.
  change 1%Z with (Z.ones 1). rewrite Z.land_ones by lia. unfold u8.
  change (2 ^ 1)%Z with 2%Z. rewrite Z.mod_mod_divide by (by exists 128%Z).
  rewrite <- Z.bit0_mod, Z.shiftr_spec by lia. done.
Qed.

Lemma bitstream_read_bit_spec mem base k x :
  sbit mem base k = Some x → (Z.of_nat (S k / 8) < 65536)%Z →
  bitstream_read_bit mem (stream_pos base k) = Ok (Z.b2z x, stream_pos base (S k)).
Proof.
  unfold sbit. rewrite fmap_Some. intros (c & Hc & ->) Hb.
  unfold bitstream_read_bit. cbn [buff buff_index bitnum stream_pos]. rewrite Nat2Z.id.
  rewrite (proj2 (load_Ok _ _ _) Hc), res_bind_Ok.
  by rewrite low_bit, bitstream_next_pos.
Qed.

Lemma bitstream_read_bit_end mem base k :
  length mem ≤ base + k / 8 →
  bitstream_read_bit mem (stream_pos base k) = Err OutOfBounds.
Proof.
  intros H. unfold bitstream_read_bit, load. cbn [buff buff_index stream_pos].
  rewrite Nat2Z.id. by rewrite lookup_ge_None_2.
Qed.

Lemma b2z_eq_0 x : bool_decide (Z.b2z x = 0%Z) = negb x.
Proof. by destruct x. Qed.

(** ** One symbol *)

Lemma holds_drop mem base bits k x bits' :
  holds mem base bits → drop k bits = x :: bits' →
  sbit mem base k = Some x ∧ bits' = drop (S k) bits ∧ k < length bits.
Proof.
  intros Hh Hd. assert (bits !! k = Some x) as Hk.
  { rewrite <- (Nat.add_0_r k), <- lookup_drop, Hd. done. }
  split; [by apply Hh|]. split; [|by eapply lookup_lt_Some].
  rewrite (drop_S _ _ _ Hk) in Hd. by injection Hd.
Qed.

Lemma deserialize_next_char_spec fuel h P : ∀ t p mem base bits k nb b rest,
  ptr_at (tree_memory h) P p (embed t) → ¬ is_leaf t →
  Forall (λ c, c ≠ 0%Z) (leaves t) → depth t ≤ fuel →
  holds mem base bits → (Z.of_nat (length bits) < 65536)%Z →
  walk t (drop k bits) = Some (b, rest) →
  ∃ k', k < k' ≤ length bits ∧ rest = drop k' bits ∧
    deserialize_next_char fuel h p mem (stream_pos base k) nb =
    Ok (b, stream_pos base k', u8 (nb + Z.of_nat (k' - k))).
Proof.
  induction fuel as [|fuel IH];
    intros t p mem base bits k nb b rest Hp Ht Hnz Hf Hh Hlen Hw;
    destruct t as [w c|w l r]; simpl in Hf; [done|lia|done|].
  destruct Hp as (i & pl & pr & w' & -> & _ & Hi & Hl & Hr).
  simpl in Hw. destruct (drop k bits) as [|x bits'] eqn:Hd; [done|].
  destruct (holds_drop _ _ _ _ _ _ Hh Hd) as (Hs & -> & Hk).
  simpl. rewrite (bitstream_read_bit_spec _ _ _ _ Hs), res_bind_Ok
    by (pose proof (Nat.div_mod_eq (S k) 8); lia).
  rewrite (get_node_Some _ _ _ Hi), res_bind_Ok, b2z_eq_0. simpl in Hnz |- *.
  apply Forall_app in Hnz as [Hnl Hnr].
  assert (∀ s q, ptr_at (tree_memory h) P q (embed s) →
            Forall (λ c, c ≠ 0%Z) (leaves s) → depth s ≤ fuel →
            walk s (drop (S k) bits) = Some (b, rest) →
            ∃ k', k < k' ≤ length bits ∧ rest = drop k' bits ∧
            (match q with
             | Some _ =>
                 n1 ← get_node h q;
                 if bool_decide (byte n1 ≠ 0%Z)
                 then Ok (byte n1, stream_pos base (S k), u8 (nb + 1))
                 else deserialize_next_char fuel h q mem (stream_pos base (S k)) (u8 (nb + 1))
             | None => Ok (63%Z, stream_pos base (S k), u8 (nb + 1))
             end) = Ok (b, stream_pos base k', u8 (nb + Z.of_nat (k' - k)))) as Hchild.
  { intros s q Hq Hns Hds Hws. destruct s as [w1 c|w1 sl sr].
    - destruct Hq as (j & ? & ? & ? & -> & _ & Hj & _ & _).
      rewrite (get_node_Some _ _ _ Hj), res_bind_Ok. simpl.
      simpl in Hns. rewrite Forall_singleton in Hns. rewrite bool_decide_true by done.
      simpl in Hws. injection Hws as <- <-.
      exists (S k). split_and!; [lia|lia|done|]. do 3 f_equal. lia.
    - destruct (IH (Node w1 sl sr) q mem base bits (S k) (u8 (nb + 1)) b rest)
        as (k' & Hk' & -> & E); [done|tauto|done|done|done|done|done|].
      destruct Hq as (j & ? & ? & ? & -> & _ & Hj & _ & _).
      rewrite (get_node_Some _ _ _ Hj), res_bind_Ok. simpl byte.
      rewrite bool_decide_false by tauto. rewrite E.
      exists k'. split_and!; [lia|lia|done|]. do 2 f_equal.
      unfold u8. rewrite Zplus_mod_idemp_l. f_equal. lia. }
  destruct x; simpl; by eapply Hchild; [..|exact Hw]; first [done|lia].
Qed.

(** ** The decoding loop *)

Lemma inflate_loop_spec h p P t mem base dsize data :
  ptr_at (tree_memory h) P p (embed t) → ¬ is_leaf t →
  Forall (λ c, c ≠ 0%Z) (leaves t) → depth t ≤ length (tree_memory h) →
  depth t < 256 → (∀ b, b ∈ data → b ∈ leaves t) →
  holds mem base (encode t data) →
  (Z.of_nat (length (encode t data)) < 65536)%Z →
  (Z.of_nat (length (encode t data)) ≤ 8 * dsize)%Z →
  ∀ fuel rem dn out pos,
    data = dn ++ rem → length rem < fuel → pos + length rem ≤ length out →
    inflate_loop fuel h p mem dsize (Z.of_nat (length (encode t data)))
      (stream_pos base (length (encode t dn))) (Z.of_nat (length (encode t dn))) (out, pos)
    = Ok (write_at out pos rem, pos + length rem).
Proof.
  intros Hp Ht Hnz Hd Hd256 Hin Hh Hlen Hds. set (bits := encode t data) in *.
  induction fuel as [|fuel IH]; intros rem dn out pos Hdata Hf Hout; [lia|].
  cbn [inflate_loop]. destruct rem as [|b rem].
  - rewrite app_nil_r in Hdata. subst dn. rewrite bool_decide_false by (fold bits; lia).
    simpl. by rewrite Nat.add_0_r.
  - assert (b ∈ leaves t) as Hb by (apply Hin; subst; apply elem_of_app; right; left).
    pose proof (code_nonempty t b Ht Hb) as Hne. pose proof (code_length t b) as Hcl.
    assert (bits = encode t dn ++ code t b ++ encode t rem) as Hbits.
    { unfold bits. by rewrite Hdata, encode_app, encode_cons. }
    assert (length bits = length (encode t dn) + (length (code t b) + length (encode t rem)))
      as Hbl by (rewrite Hbits, !length_app; done).
    rewrite bool_decide_true.
    2: { split; [lia|]. simpl. pose proof (Nat.div_mod_eq (length (encode t dn)) 8). lia. }
    destruct (deserialize_next_char_spec (tfuel h) h P t p mem base bits
                (length (encode t dn)) 0 b (encode t rem))
      as (k' & Hk' & Hrest & E); [done|done|done|unfold tfuel; lia|done|done| |].
    { rewrite Hbits, drop_app_length. by apply code_walk. }
    rewrite E, res_bind_Ok. simpl in Hout, Hf. rewrite store_Ok, res_bind_Ok by lia.
    assert (k' = length (encode t (dn ++ [b]))) as ->.
    { rewrite encode_app, length_app. unfold encode at 2. simpl. rewrite app_nil_r.
      apply (f_equal length) in Hrest. rewrite length_drop in Hrest. lia. }
    rewrite encode_app, length_app in E, Hk' |- *.
    assert (length (encode t [b]) = length (code t b)) as Hb1
      by (unfold encode; simpl; by rewrite app_nil_r).
    rewrite (u8_small (0 + _)) by (unfold is_u8; lia).
    rewrite u16_small by (unfold is_u16; lia).
    specialize (IH rem (dn ++ [b]) (<[pos := b]> out) (S pos)).
    rewrite encode_app, length_app in IH.
    replace (Z.of_nat (length (encode t dn)) +
             (0 + Z.of_nat (length (encode t dn) + length (encode t [b]) - length (encode t dn))))%Z
      with (Z.of_nat (length (encode t dn) + length (encode t [b]))) by lia.
    rewrite IH; [|by rewrite <- app_assoc|lia|rewrite length_insert; lia].
    simpl. do 2 f_equal. lia.
Qed.

(** ** Decoding ends on every input *)

(** A result that is a value or an access out of bounds. *)
Definition ok_or_oob {A} (Q : A → Prop) (o : res A) : Prop :=
  (∃ a, o = Ok a ∧ Q a) ∨ o = Err OutOfBounds.

Lemma next_char_total fuel h P mem base : ∀ d p k nb,
  ptr_at (tree_memory h) P p d → d ≠ DNull → dheight d ≤ fuel →
  (Z.of_nat (length mem) < 65536)%Z →
  ok_or_oob (λ r, ∃ c k' n, r = (c, stream_pos base k', n) ∧
                            k < k' ≤ 8 * (length mem - base))
    (deserialize_next_char fuel h p mem (stream_pos base k) nb).
Proof.
  induction fuel as [|fuel IH]; intros d p k nb Hp Hd Hf Hlen;
    destruct d as [|b l r]; simpl in Hf; [done|lia|done|].
  destruct Hp as (i & pl & pr & w & -> & _ & Hi & Hl & Hr).
  simpl. destruct (decide (base + k / 8 < length mem)) as [Hk|Hk].
  2: { right. by rewrite bitstream_read_bit_end by lia. }
  assert (∃ x, sbit mem base k = Some x) as [x Hx].
  { destruct (lookup_lt_is_Some_2 _ _ Hk) as [c Hc]. unfold sbit. rewrite Hc. by eexists. }
  pose proof (Nat.div_mod_eq k 8). pose proof (mod8_lt k).
  rewrite (bitstream_read_bit_spec _ _ _ _ Hx), res_bind_Ok
    by (pose proof (Nat.div_mod_eq (S k) 8); lia).
  rewrite (get_node_Some _ _ _ Hi), res_bind_Ok. simpl.
  assert (∀ q e, ptr_at (tree_memory h) P q e → dheight e ≤ fuel →
    ok_or_oob (λ r, ∃ c k' n, r = (c, stream_pos base k', n) ∧ k < k' ≤ 8 * (length mem - base))
      (match q with
       | Some _ =>
           n1 ← get_node h q;
           if bool_decide (byte n1 ≠ 0%Z)
           then Ok (byte n1, stream_pos base (S k), u8 (nb + 1))
           else deserialize_next_char fuel h q mem (stream_pos base (S k)) (u8 (nb + 1))
       | None => Ok (63%Z, stream_pos base (S k), u8 (nb + 1))
       end)) as Hchild.
  { intros q e Hq He. destruct e as [|c el er].
    - rewrite Hq. left. eexists. split; [done|]. eexists _, _, _. split; [done|lia].
    - pose proof Hq as (j & ? & ? & ? & -> & _ & Hj & _ & _).
      rewrite (get_node_Some _ _ _ Hj), res_bind_Ok. simpl. case_bool_decide.
      + left. eexists. split; [done|]. eexists _, _, _. split; [done|lia].
      + destruct (IH _ (Some j) (S k) (u8 (nb + 1)) Hq) as [(r' & -> & c' & k' & n & -> & Hk')| ->];
          [done|done|done| |by right].
        left. eexists. split; [done|]. eexists _, _, _. split; [done|lia]. }
  destruct (bool_decide (Z.b2z x = 0%Z)); eapply Hchild; eauto; lia.
Qed.

Lemma inflate_loop_total h P p d mem base dsize total :
  ptr_at (tree_memory h) P p d → d ≠ DNull → dheight d ≤ length (tree_memory h) →
  (Z.of_nat (length mem) < 65536)%Z →
  ∀ fuel k nread out,
    8 * length mem < fuel + k → k ≤ 8 * length mem →
    ok_or_oob (λ _, True)
      (inflate_loop fuel h p mem dsize total (stream_pos base k) nread out).
Proof.
  intros Hp Hd Hh Hlen. induction fuel as [|fuel IH]; intros k nread [out pos] Hf Hk; [lia|].
  cbn [inflate_loop]. case_bool_decide; [|by left; eauto].
  destruct (next_char_total (tfuel h) h P mem base d p k 0 Hp Hd)
    as [(r & -> & c & k' & n & -> & Hk')| ->]; [unfold tfuel; lia|done| |by right].
  rewrite res_bind_Ok. destruct (decide (pos < length out)).
  - rewrite store_Ok, res_bind_Ok by done. apply IH; lia.
  - right. by rewrite store_OutOfBounds by lia.
Qed.
