(* ===== verification/HuffmanLib.v ===== *)
(** * The Huffman library: its two entry points

    [huffman_compress] and [huffman_inflate] put together: the layout of the
    compressed block, the round trip, every way compression can fail, and the
    termination of decompression on arbitrary input. *)

From S2P Require Import Prelude HuffmanMem HuffmanSpec HuffmanQueue HuffmanTree.
From S2P Require Import HuffmanWalk HuffmanBits HuffmanDecode.
Import Huffman.

#[local] Arguments Nat.div : simpl never.
#[local] Arguments Nat.modulo : simpl never.

(** A compressed block: header, serialised tree, code bits. *)
Record block_of (data : list Z) (t : htree) (out : list Z) : Prop := {
  bl_size : out !! 0 = Some (Z.of_nat (size t));
  bl_hi : out !! 1 = Some (Z.of_nat (length (encode t data)) `div` 256)%Z;
  bl_lo : out !! 2 = Some (Z.of_nat (length (encode t data)) `mod` 256)%Z;
  bl_tree : ∃ rest, drop 3 out = ser t ++ rest;
  bl_bits : holds out (3 + size t) (encode t data) }.

(** The bytes that an alphabet of [n] distinct characters and the code bits of
    [data] take. *)
Definition block_bits (data : list Z) (t : htree) : nat :=
  (3 + size t) * 8 + length (encode t data).

Lemma fits_init jn jq :
  fits (huffman_init jn jq TREE_MAX_SIZE QUEUE_MAX_SIZE).
Proof.
  unfold fits, huffman_init. cbn [tree_ptr queue_ptr tree_memory queue_memory].
  by rewrite !length_fmap, !length_seq.
Qed.

Lemma written_zeros n base : written (replicate n 0%Z) base [].
Proof.
  intros i Hi. rewrite length_replicate in Hi. unfold sbit.
  rewrite lookup_replicate_2 by done. simpl. rewrite Z.bits_0. by destruct i.
Qed.

Lemma written_frame m m' base bits :
  written m base bits → length m' = length m →
  (∀ i, base ≤ i → m' !! i = m !! i) → written m' base bits.
Proof.
  intros Hw Hl Hf i Hi. unfold sbit. rewrite Hf by lia. apply Hw. lia.
Qed.

Lemma written_holds m base bits :
  written m base bits → base * 8 + length bits ≤ length m * 8 → holds m base bits.
Proof.
  intros Hw Hl i x Hx. pose proof (lookup_lt_Some _ _ _ Hx).
  rewrite Hw; [by rewrite (nth_lookup_Some _ _ _ _ Hx)|].
  pose proof (Nat.div_mod_eq i 8). lia.
Qed.

Lemma header_hi z : is_u16 z → u8 (Z.land (Z.shiftr z 8) 255) = (z `div` 256)%Z.
Proof.
  intros Hz. change 255%Z with (Z.ones 8). rewrite Z.land_ones, Z.shiftr_div_pow2 by lia.
  change (2 ^ 8)%Z with 256%Z. unfold u8. rewrite Z.mod_mod by lia.
  apply Z.mod_small. unfold is_u16 in Hz. split; [apply Z.div_pos; lia|].
  apply Z.div_lt_upper_bound; lia.
Qed.

Lemma header_lo z : u8 (Z.land z 255) = (z `mod` 256)%Z.
Proof.
  change 255%Z with (Z.ones 8). rewrite Z.land_ones by lia.
  change (2 ^ 8)%Z with 256%Z. unfold u8. by rewrite Z.mod_mod by lia.
Qed.

Lemma lor_shift8 a b : (0 ≤ a)%Z → is_u8 b → Z.lor (Z.shiftl a 8) b = (a * 256 + b)%Z.
Proof.
  intros Ha Hb. assert (Z.land (Z.shiftl a 8) b = 0%Z) as H0.
  { apply Z.bits_inj'. intros i Hi. rewrite Z.land_spec, Z.bits_0.
    destruct (decide (i < 8)%Z).
    - by rewrite Z.shiftl_spec_low by lia.
    - rewrite (testbit_byte_high b) by (done || lia). apply andb_false_r. }
  pose proof (Z.add_lor_land (Z.shiftl a 8) b) as H. rewrite H0 in H.
  rewrite Z.add_0_r in H. rewrite H. by rewrite Z.shiftl_mul_pow2 by lia.
Qed.

Lemma header_value z :
  is_u16 z → u16 (Z.lor (Z.shiftl (z `div` 256) 8) (z `mod` 256)) = z.
Proof.
  intros Hz. unfold is_u16 in Hz. rewrite lor_shift8.
  - rewrite Z.mul_comm, <- Z.div_mod by lia. by apply u16_small.
  - apply Z.div_pos; lia.
  - apply Z.mod_pos_bound. lia.
Qed.

Section Compress.
Context (jn : nat → node_t) (jq : nat → queue_t) (ji : nat → encoding_info_t).

(** What compression needs of its arguments: a non-empty block of bytes the
    format can carry, short enough for the [int] counters, and a zeroed
    output buffer with room for the result. *)
Record compressible (data : list Z) (t : htree) (n : nat) : Prop := {
  cp_tree : tree_of data = Some t;
  cp_bytes : Forall ok_byte data;
  cp_len : (Z.of_nat (length data) ≤ INT_MAX)%Z;
  cp_distinct : distinct data ≤ 30;
  cp_room : block_bits data t ≤ n * 8;
  cp_bits : (Z.of_nat (length (encode t data)) < 65536)%Z }.

Lemma compressible_leaves data t n : compressible data t n → Forall ok_byte (leaves t).
Proof.
  intros [Ht Hb _ _ _ _]. rewrite list.Forall_forall in *. intros b Hin.
  apply Hb. by apply (elem_of_tree_of data t).
Qed.

Lemma compressible_size data t n :
  compressible data t n → size t ≤ 59 ∧ length (leaves t) ≤ 30 ∧ depth t < 30.
Proof.
  intros [Ht _ _ Hd _ _]. pose proof (tree_of_size _ _ Ht).
  pose proof (tree_of_distinct _ _ Ht). pose proof (depth_leaves t). lia.
Qed.

(** The buffer when the header's first byte and the tree are written. *)
Definition with_tree (t : htree) (n : nat) : list Z :=
  write_at (<[0 := Z.of_nat (size t)]> (replicate n 0%Z)) 3 (ser t).

(** Everything up to the encoding of the data. *)
Lemma huffman_compress_prefix data t n :
  compressible data t n →
  huffman_compress jn jq ji data (Z.of_nat (length data)) (replicate n 0%Z) =
  '(out3, nbits) ←
     compress_data (info_of <$> codes t []) (Z.of_nat (length (leaves t))) data
       (Z.of_nat (length data)) (with_tree t n) (3 + size t);
  out4 ← store out3 1 (u8 (Z.land (Z.shiftr nbits 8) 0xFF));
  store out4 2 (u8 (Z.land nbits 0xFF)).
Proof.
  intros Hc. pose proof (compressible_leaves _ _ _ Hc) as Hok.
  destruct (compressible_size _ _ _ Hc) as (Hsz & Hlv & Hdp).
  destruct Hc as [Ht Hb Hlen Hd Hroom Hbits]. unfold block_bits in Hroom.
  assert (Forall (λ c, c ≠ 0%Z) (leaves t)) as Hnz
    by (eapply Forall_impl; [exact Hok|]; intros c (_ & ? & _); done).
  assert (data ≠ []) as Hne by (intros ->; done).
  destruct (build_spec (huffman_init jn jq TREE_MAX_SIZE QUEUE_MAX_SIZE) data)
    as (hd & h1 & p & h & t' & Hbq & Hbt & Ht' & Hat & HT);
    [apply fits_init|done..|].
  assert (t' = t) as -> by congruence.
  apply tree_at_embed in Hat. unfold huffman_compress.
  rewrite Hbq, res_bind_Ok, Hbt, res_bind_Ok.
  pose proof (dheight_dnodes (embed t)) as Hdh. pose proof (dnodes_embed t) as Hdn.
  assert (TREE_MAX_SIZE = 117) as ET by done.
  assert (embed t ≠ DNull) as Hnn by by destruct t.
  rewrite (tree_get_size_spec _ _ _ _ _ Hat), res_bind_Ok
    by (first [done|unfold tfuel, INT_MAX; lia]).
  rewrite Hdn, store_Ok, res_bind_Ok by (rewrite length_replicate; lia).
  rewrite u8_small by (unfold is_u8; lia). unfold serialize_tree.
  pose proof (dser_embed t Hnz) as Hser. pose proof (ser_length t) as Hserl.
  rewrite (serialize_tree_node_spec _ _ _ _ _ _ _ Hat)
    by (rewrite ?Hser, ?length_insert, ?length_replicate, ?Hserl; unfold tfuel; lia).
  rewrite !res_bind_Ok, Hser. fold (with_tree t n).
  pose proof (codes_bytes t []) as Hcb. pose proof (dcodes_embed t [] Hnz) as Hdc.
  assert (length (codes t []) = length (leaves t)) as Hcl by (by rewrite <- Hcb, length_fmap).
  rewrite (tree_count_leaves_spec _ _ _ _ _ Hat), res_bind_Ok
    by (first [done|unfold tfuel; lia]).
  unfold dleaves. rewrite Hdc, Hcl, !Nat2Z.id.
  pose proof (build_encoding_table_spec (tfuel h) h _ _ _ []
    (ji <$> seq 0 (length (leaves t))) 0 Hat Hnn) as Htab.
  rewrite Hdc, Hcl, length_fmap, length_seq in Htab.
  change (bits_val []) with 0%Z in Htab. change (u8 (Z.of_nat (length []))) with 0%Z in Htab.
  rewrite Htab, res_bind_Ok by (unfold tfuel; lia).
  by rewrite write_at_all by (by rewrite !length_fmap, length_seq).
Qed.

Lemma with_tree_length t n : length (with_tree t n) = n.
Proof. unfold with_tree. by rewrite length_write_at, length_insert, length_replicate. Qed.

Lemma with_tree_u8 t n :
  3 + size t ≤ n → size t < 256 → Forall ok_byte (leaves t) → Forall is_u8 (with_tree t n).
Proof.
  intros Hn Hsz Hok. unfold with_tree. apply Forall_write_at.
  - apply Forall_insert; [|unfold is_u8; lia].
    apply Forall_replicate. unfold is_u8. lia.
  - clear Hn Hsz. induction t as [w b|w l IHl r IHr]; simpl in *.
    + rewrite Forall_singleton in *. apply Hok.
    + apply Forall_app in Hok as [Hl Hr]. constructor; [unfold is_u8; lia|].
      apply Forall_app. auto.
Qed.

Lemma with_tree_written t n : written (with_tree t n) (3 + size t) [].
Proof.
  eapply (written_frame (replicate n 0%Z)); [apply written_zeros| |].
  - by rewrite with_tree_length, length_replicate.
  - intros i Hi. unfold with_tree. rewrite lookup_write_at_ge by (rewrite ser_length; lia).
    apply list_lookup_insert_ne. lia.
Qed.

(** Filling in the bit count completes the block. *)
Lemma block_complete data t n out :
  3 + size t ≤ n → is_u16 (Z.of_nat (length (encode t data))) →
  block_bits data t ≤ n * 8 → length out = n →
  (∀ j, j < 3 + size t → out !! j = with_tree t n !! j) →
  written out (3 + size t) (encode t data) →
  block_of data t
    (<[2 := (Z.of_nat (length (encode t data)) `mod` 256)%Z]>
       (<[1 := (Z.of_nat (length (encode t data)) `div` 256)%Z]> out)).
Proof.
  intros Hn Hb Hroom Hl Hfr Hw. split.
  - rewrite !list_lookup_insert_ne by done. rewrite Hfr by lia. unfold with_tree.
    rewrite lookup_write_at_lt by lia. apply list_lookup_insert_eq.
    rewrite length_replicate. lia.
  - rewrite list_lookup_insert_ne by done. apply list_lookup_insert_eq. lia.
  - apply list_lookup_insert_eq. rewrite length_insert. lia.
  - rewrite !drop_insert_lt by lia. exists (drop (3 + size t) out).
    rewrite <- (take_drop (size t) (drop 3 out)), drop_drop. f_equal.
    apply list_eq. intros i. destruct (decide (i < size t)) as [Hi|Hi].
    + rewrite lookup_take_lt by done. rewrite lookup_drop, Hfr by lia.
      unfold with_tree. apply lookup_write_at_in; rewrite ser_length;
        [rewrite length_insert, length_replicate|]; lia.
    + rewrite lookup_take_ge by lia. symmetry. apply lookup_ge_None.
      rewrite ser_length. lia.
  - apply written_holds; [|rewrite !length_insert, Hl; done].
    eapply written_frame; [exact Hw|by rewrite !length_insert|].
    intros i Hi. by rewrite !list_lookup_insert_ne by lia.
Qed.

(** With all its inputs in order compression produces the block of [data],
    unless a code is longer than a byte. *)
Lemma huffman_compress_spec data t n :
  compressible data t n →
  (depth t ≤ 8 ∧
   ∃ out, huffman_compress jn jq ji data (Z.of_nat (length data)) (replicate n 0%Z) = Ok out ∧
          block_of data t out ∧ Forall is_u8 out ∧ length out = n) ∨
  (8 < depth t ∧
   huffman_compress jn jq ji data (Z.of_nat (length data)) (replicate n 0%Z) = Err BadShift).
Proof.
  intros Hc. rewrite (huffman_compress_prefix _ _ _ Hc).
  pose proof (compressible_leaves _ _ _ Hc) as Hok.
  destruct (compressible_size _ _ _ Hc) as (Hsz & Hlv & Hdp).
  destruct Hc as [Ht Hb Hlen Hd Hroom Hbits]. pose proof Hroom as Hroom'.
  unfold block_bits in Hroom.
  assert (Forall (λ c, c ≠ 0%Z) (leaves t)) as Hnz
    by (eapply Forall_impl; [exact Hok|]; intros c (_ & ? & _); done).
  assert (is_u16 (Z.of_nat (length (encode t data)))) as Hu16 by (unfold is_u16; lia).
  destruct (compress_data_spec t data Hnz) with (mem := with_tree t n) (base := 3 + size t)
    as [(o3 & -> & Hw & Hu3 & Hl3 & Hfr & Hshort)|(-> & b & Hbin & Hlong)].
  - intros b. apply (elem_of_tree_of _ _ _ Ht).
  - lia.
  - unfold INT_MAX. lia.
  - apply with_tree_u8; [lia|lia|done].
  - apply with_tree_written.
  - rewrite with_tree_length. lia.
  - done.
  - left. rewrite with_tree_length in Hl3. split.
    { destruct (depth_code t (tree_of_NoDup _ _ Ht)) as (b & Hbl & <-).
      by apply Hshort, (elem_of_tree_of _ _ _ Ht). }
    rewrite res_bind_Ok, header_hi, header_lo by done.
    rewrite store_Ok, res_bind_Ok by lia. rewrite store_Ok by (rewrite length_insert; lia).
    eexists. split; [done|]. split_and!.
    + by apply (block_complete data t n o3); [lia|..].
    + pose proof (Z.mod_pos_bound (Z.of_nat (length (encode t data))) 256).
      unfold is_u16 in Hu16. apply Forall_insert; [apply Forall_insert; [done|]|unfold is_u8; lia].
      split; [apply Z.div_pos; lia|apply Z.div_lt_upper_bound; lia].
    + by rewrite !length_insert.
  - right. split; [pose proof (code_length t b); lia|done].
Qed.

(** ** Inflating a block *)

(** Up to the decoding loop: the header and the tree are read back. *)
Lemma huffman_inflate_prefix data t out dsize buf :
  block_of data t out → Forall ok_byte (leaves t) → size t < 256 →
  is_u16 (Z.of_nat (length (encode t data))) → (Z.of_nat (length out) < 65536)%Z →
  ∃ p h, ptr_at (tree_memory h) (λ i, i < tree_ptr h) p (embed t) ∧
    length (tree_memory h) = size t ∧
    huffman_inflate jn jq ji out dsize buf =
    inflate_data h p out (3 + size t) dsize (Z.of_nat (length (encode t data))) buf.
Proof.
  intros [Hs Hhi Hlo (rest & Htree) Hbits] Hok Hsz Hu16 Hlen.
  assert (Forall (λ c, c ≠ 0%Z) (leaves t)) as Hnz
    by (eapply Forall_impl; [exact Hok|]; intros c (_ & ? & _); done).
  unfold huffman_inflate.
  rewrite (proj2 (load_Ok _ _ _) Hs), res_bind_Ok.
  rewrite (proj2 (load_Ok _ _ _) Hhi), res_bind_Ok.
  rewrite (proj2 (load_Ok _ _ _) Hlo), res_bind_Ok.
  rewrite Nat2Z.id, header_value by done.
  destruct (deserialize_tree_spec (huffman_init jn jq (size t) 0) out 3 t rest)
    as (p & h & -> & Hat & HT); [|done..|].
  { simpl. by rewrite length_fmap, length_seq. }
  simpl in HT. rewrite length_fmap, length_seq in HT. rewrite res_bind_Ok.
  pose proof (dheight_dnodes (embed t)) as Hdh. pose proof (dnodes_embed t) as Hdn.
  assert (embed t ≠ DNull) as Hnn by by destruct t.
  rewrite (tree_count_leaves_spec _ _ _ _ _ Hat), res_bind_Ok
    by (first [done|unfold tfuel; lia]).
  rewrite !Nat2Z.id.
  pose proof (build_encoding_table_spec (tfuel h) h _ _ _ []
    (ji <$> seq 0 (dleaves (embed t))) 0 Hat Hnn) as Htab.
  change (bits_val []) with 0%Z in Htab. change (u8 (Z.of_nat (length []))) with 0%Z in Htab.
  rewrite length_fmap, length_seq in Htab. rewrite Htab, res_bind_Ok
    by (unfold dleaves, tfuel; lia).
  by exists p, h.
Qed.

Lemma huffman_inflate_block data t out dsize buf :
  block_of data t out → Forall ok_byte (leaves t) → size t < 256 →
  (∀ b, b ∈ data → b ∈ leaves t) →
  is_u16 (Z.of_nat (length (encode t data))) → (Z.of_nat (length out) < 65536)%Z →
  ¬ is_leaf t → (Z.of_nat (length (encode t data)) ≤ 8 * dsize)%Z →
  (3 + size t) * 8 + length (encode t data) ≤ length out * 8 →
  length data ≤ length buf →
  huffman_inflate jn jq ji out dsize buf = Ok (write_at buf 0 data, length data).
Proof.
  intros Hbl Hok Hsz Hin Hu16 Hlen Hleaf Hds Hroom Hbuf.
  destruct (huffman_inflate_prefix data t out dsize buf) as (p & h & Hat & HT & ->); [done..|].
  assert (Forall (λ c, c ≠ 0%Z) (leaves t)) as Hnz
    by (eapply Forall_impl; [exact Hok|]; intros c (_ & ? & _); done).
  pose proof (depth_size t). unfold inflate_data.
  change (mk_stream (3 + size t) 0 0) with (stream_pos (3 + size t) (length (encode t []))).
  change 0%Z with (Z.of_nat (length (encode t []))) at 1.
  apply (inflate_loop_spec _ _ (λ i, i < tree_ptr h) t out (3 + size t) dsize data);
    try done; try lia.
  - apply Hbl.
  - apply Hu16.
  - assert (length data ≤ length (encode t data)); [|lia].
    clear - Hin Hleaf. induction data as [|b data IH]; [done|].
    rewrite encode_cons, length_app. simpl.
    pose proof (code_nonempty t b Hleaf (Hin b ltac:(left))).
    specialize (IH (λ c Hc, Hin c (list_elem_of_further _ _ _ Hc))). lia.
Qed.
End Compress.

(** * Properties *)

Section Properties.
Context (jn : nat → node_t) (jq : nat → queue_t) (ji : nat → encoding_info_t).

(** C1: compressing a block and inflating the result gives the block back.
    The block has at least two and at most 30 distinct bytes, none of them 0,
    an asterisk or a hyphen, and no code of its tree is longer than eight
    bits; the output buffer is zeroed and large enough; [dsize], the size
    passed to [huffman_inflate], covers the code bits. *)
Theorem huffman_roundtrip data t n dsize buf :
  compressible data t n → 2 ≤ distinct data → depth t ≤ 8 →
  (Z.of_nat n < 65536)%Z →
  (Z.of_nat (length (encode t data)) ≤ 8 * dsize)%Z →
  length data ≤ length buf →
  ∃ out,
    huffman_compress jn jq ji data (Z.of_nat (length data)) (replicate n 0%Z) = Ok out ∧
    huffman_inflate jn jq ji out dsize buf = Ok (write_at buf 0 data, length data).
Proof.
  intros Hc H2 Hd Hn Hds Hbuf.
  destruct (huffman_compress_spec jn jq ji data t n Hc)
    as [(_ & out & Hout & Hbl & Hu & Hlen)|[? _]]; [|lia].
  pose proof (compressible_leaves _ _ _ Hc). pose proof (compressible_size _ _ _ Hc).
  destruct Hc as [Ht Hb Hl H30 Hroom Hbits].
  exists out. split; [done|]. rewrite <- Hlen in *.
  apply (huffman_inflate_block jn jq ji data t); try done; try lia.
  - intros b. apply (elem_of_tree_of _ _ _ Ht).
  - unfold is_u16. lia.
  - intros Hleaf. apply tree_of_distinct in Ht. destruct t; [simpl in Ht; lia|done].
Qed.

(** For a block of two to nine distinct bytes the round trip holds with
    no condition on the tree: the codes have at most eight bits. *)
Theorem huffman_roundtrip_nine data n buf :
  2 ≤ distinct data ≤ 9 → Forall ok_byte data → length data ≤ 1000 →
  20 + length data ≤ n ≤ 2000 → length data ≤ length buf →
  ∃ out,
    huffman_compress jn jq ji data (Z.of_nat (length data)) (replicate n 0%Z) = Ok out ∧
    huffman_inflate jn jq ji out (Z.of_nat (length data)) buf
    = Ok (write_at buf 0 data, length data).
Proof.
  intros Hd Hb Hl Hn Hbuf.
  assert (data ≠ []) as Hne by (intros ->; vm_compute in Hd; lia).
  destruct (q_merge_tree_of data Hne) as (t & _ & Ht).
  pose proof (tree_of_size _ _ Ht). pose proof (tree_of_distinct _ _ Ht).
  pose proof (depth_leaves t). pose proof (encode_length t data).
  assert (length (encode t data) ≤ 8 * length data) by nia.
  destruct (huffman_compress_spec jn jq ji data t n)
    as [(_ & out & Hout & Hbl & Hu & Hlen)|[? _]]; [|..|lia].
  { split; [done|done|unfold INT_MAX; lia|lia|unfold block_bits; lia|lia]. }
  exists out. split; [done|].
  apply (huffman_inflate_block jn jq ji data t); try done; try lia.
  - rewrite list.Forall_forall in *. intros b Hin. by apply Hb, (elem_of_tree_of data t).
  - intros b. apply (elem_of_tree_of _ _ _ Ht).
  - unfold is_u16. lia.
  - intros Hleaf. destruct t; [simpl in *; lia|done].
Qed.

(** C2: a successful compression has the documented layout: the number of
    tree nodes, the number of code bits high byte first, the serialised tree
    and the code bits of the data from the first free byte on. *)
Theorem huffman_compress_layout data t n :
  compressible data t n → depth t ≤ 8 →
  ∃ out, huffman_compress jn jq ji data (Z.of_nat (length data)) (replicate n 0%Z) = Ok out ∧
         block_of data t out ∧ Forall is_u8 out ∧ length out = n.
Proof.
  intros Hc Hd. destruct (huffman_compress_spec jn jq ji data t n Hc) as [(_ & H)|[? _]];
    [exact H|lia].
Qed.

(** C33: a block with 31 distinct bytes or more overruns the queue array,
    although the alphabet of the library has 59. *)
Theorem huffman_compress_31_symbols data out :
  31 ≤ distinct data → (Z.of_nat (length data) ≤ INT_MAX)%Z →
  huffman_compress jn jq ji data (Z.of_nat (length data)) out = Err OutOfBounds.
Proof.
  intros Hd Hl. unfold huffman_compress.
  pose proof (build_overflow _ _ (fits_init jn jq) Hl Hd) as H.
  destruct (build_queue _ _ _) as [[hd h1]|e]; [|by injection H as ->].
  rewrite res_bind_Ok in H. rewrite res_bind_Ok. by rewrite H.
Qed.

(** C34: when a code of the tree of a block without the bytes 0, asterisk and
    hyphen is longer than eight bits, compression shifts by a negative
    amount. *)
Theorem huffman_compress_deep data t n :
  compressible data t n → 8 < depth t →
  huffman_compress jn jq ji data (Z.of_nat (length data)) (replicate n 0%Z) = Err BadShift.
Proof.
  intros Hc Hd. destruct (huffman_compress_spec jn jq ji data t n Hc) as [[? _]|[_ H]];
    [lia|exact H].
Qed.

(** C35: a block that repeats a single byte other than 0, an asterisk and a
    hyphen is compressed to a block without code bits, which inflates to
    nothing. *)
Theorem huffman_single_symbol_lost data t n dsize buf :
  compressible data t n → distinct data = 1 → (Z.of_nat n < 65536)%Z →
  ∃ out,
    huffman_compress jn jq ji data (Z.of_nat (length data)) (replicate n 0%Z) = Ok out ∧
    huffman_inflate jn jq ji out dsize buf = Ok (buf, 0).
Proof.
  intros Hc H1 Hn. pose proof (compressible_leaves _ _ _ Hc).
  pose proof (compressible_size _ _ _ Hc). pose proof (cp_tree _ _ _ Hc) as Ht.
  pose proof (tree_of_distinct _ _ Ht) as Hl. rewrite H1 in Hl.
  pose proof (depth_leaves t). pose proof (encode_length t data) as He.
  replace (depth t) with 0 in He by lia.
  destruct (huffman_compress_spec jn jq ji data t n Hc)
    as [(_ & out & Hout & Hbl & Hu & Hlen)|[? _]]; [|lia].
  exists out. split; [done|].
  destruct (huffman_inflate_prefix jn jq ji data t out dsize buf)
    as (p & h & _ & _ & ->); [done|done|lia|unfold is_u16; lia|lia|].
  replace (length (encode t data)) with 0 by lia. done.
Qed.

(** C36: decompression ends on every input: it returns, or stops on an access
    out of bounds or on a missing root; no loop or recursion runs on. *)
Theorem huffman_inflate_total data dsize buf :
  Forall is_u8 data → (Z.of_nat (length data) < 65536)%Z →
  (∃ r, huffman_inflate jn jq ji data dsize buf = Ok r) ∨
  huffman_inflate jn jq ji data dsize buf = Err OutOfBounds ∨
  huffman_inflate jn jq ji data dsize buf = Err NullDeref.
Proof.
  intros Hu Hlen. unfold huffman_inflate, load.
  destruct (data !! 0) as [c0|] eqn:E0; [|by auto]. rewrite res_bind_Ok.
  destruct (data !! 1) as [c1|] eqn:E1; [|by auto]. rewrite res_bind_Ok.
  destruct (data !! 2) as [c2|] eqn:E2; [|by auto]. rewrite res_bind_Ok.
  assert (is_u8 c0) as H0 by (rewrite list.Forall_forall in Hu; by eapply Hu, list_elem_of_lookup_2).
  set (h0 := huffman_init _ _ _ _).
  assert (length (tree_memory h0) = Z.to_nat c0) as Hl0
    by (simpl; by rewrite length_fmap, length_seq).
  unfold deserialize_tree, is_u8 in *.
  destruct (deserialize_tree_node_spec (S (length data)) h0 data 3)
    as [(p & h & pos & d & -> & Hpos & _ & Hat & _ & Htp & Hle & Hl)|[-> _]];
    [simpl; lia|lia| |by auto].
  rewrite !res_bind_Ok. simpl in Htp.
  destruct (decide (d = DNull)) as [->|Hd].
  { simpl in Hat. subst p. right. right. done. }
  pose proof (dheight_dnodes d). pose proof (length_dcodes_nodes d []).
  rewrite (tree_count_leaves_spec _ _ _ _ _ Hat), res_bind_Ok
    by (first [done|unfold tfuel; lia]).
  rewrite Nat2Z.id.
  pose proof (build_encoding_table_spec (tfuel h) h _ _ _ []
    (ji <$> seq 0 (dleaves d)) 0 Hat Hd) as Htab.
  change (bits_val []) with 0%Z in Htab. change (u8 (Z.of_nat (length []))) with 0%Z in Htab.
  rewrite length_fmap, length_seq in Htab. rewrite Htab, res_bind_Ok
    by (unfold dleaves, tfuel; lia).
  unfold inflate_data. change (mk_stream _ 0 0) with (stream_pos (3 + Z.to_nat (u16 (Z.of_nat pos - Z.of_nat 3))) 0).
  destruct (inflate_loop_total h _ p d data
    (3 + Z.to_nat (u16 (Z.of_nat pos - Z.of_nat 3))) dsize
    (u16 (Z.lor (Z.shiftl c1 8) c2)) Hat Hd) with (fuel := S (8 * length data)) (k := 0)
    (nread := 0%Z) (out := (buf, 0)) as [(r & -> & _)| ->]; [lia|done|lia|lia|eauto|auto].
Qed.
End Properties.

(** ** Concrete blocks for the witnesses *)

Definition zero_node (_ : nat) : node_t := mk_node None None 0 0.
Definition zero_queue (_ : nat) : queue_t := mk_queue None None.
Definition zero_info (_ : nat) : encoding_info_t := mk_info 0 0 0.

(** "ABCDDFDDDDDDFEEEEE", the block of [huffman/main.c]. *)
Definition demo_data : list Z :=
  [65; 66; 67; 68; 68; 70; 68; 68; 68; 68; 68; 68; 70; 69; 69; 69; 69; 69]%Z.

Definition demo_tree : htree :=
  default (Leaf 0 0) (tree_of demo_data).

(** A 122-byte block of ten symbols whose tree has a nine-bit code. *)
Definition deep_data : list Z :=
  mjoin (imap (λ i n, replicate n (Z.of_nat (65 + i))) [1; 1; 1; 1; 1; 1; 1; 1; 1; 1])
  ++ mjoin (imap (λ i n, replicate n (Z.of_nat (65 + i))) [0; 0; 0; 2; 3; 6; 10; 17; 28; 46]).

Definition deep_tree : htree := default (Leaf 0 0) (tree_of deep_data).

(** 31 different letters. *)
Definition wide_data : list Z := (λ i, Z.of_nat (65 + i)) <$> seq 0 31.

Lemma demo_compressible : compressible demo_data demo_tree 64.
Proof.
  split; [reflexivity|by apply (bool_decide_unpack _)|unfold INT_MAX; simpl; lia
         |vm_compute; lia|vm_compute; lia|vm_compute; done].
Defined.

Lemma deep_compressible : compressible deep_data deep_tree 254.
Proof.
  split; [reflexivity|by apply (bool_decide_unpack _)|vm_compute; done
         |vm_compute; lia|vm_compute; lia|vm_compute; done].
Defined.

Lemma huffman_roundtrip_witness :
  ∃ out,
    huffman_compress zero_node zero_queue zero_info demo_data 18 (replicate 64 0%Z) = Ok out ∧
    huffman_inflate zero_node zero_queue zero_info out 18 (replicate 64 0%Z)
    = Ok (write_at (replicate 64 0%Z) 0 demo_data, 18).
Proof.
  apply (huffman_roundtrip zero_node zero_queue zero_info demo_data demo_tree 64);
    [exact demo_compressible|vm_compute; lia|vm_compute; lia|lia|vm_compute; done|vm_compute; lia].
Defined.

Lemma huffman_roundtrip_nine_witness :
  ∃ out,
    huffman_compress zero_node zero_queue zero_info demo_data 18 (replicate 64 0%Z) = Ok out ∧
    huffman_inflate zero_node zero_queue zero_info out 18 (replicate 64 0%Z)
    = Ok (write_at (replicate 64 0%Z) 0 demo_data, 18).
Proof.
  apply (huffman_roundtrip_nine zero_node zero_queue zero_info demo_data 64);
    [vm_compute; lia|by apply (bool_decide_unpack _)|simpl; lia|simpl; lia|vm_compute; lia].
Defined.

Lemma huffman_compress_layout_witness :
  ∃ out,
    huffman_compress zero_node zero_queue zero_info demo_data 18 (replicate 64 0%Z) = Ok out ∧
    block_of demo_data demo_tree out ∧ Forall is_u8 out ∧ length out = 64.
Proof.
  apply (huffman_compress_layout zero_node zero_queue zero_info demo_data demo_tree 64);
    [exact demo_compressible|vm_compute; lia].
Defined.

Lemma huffman_compress_31_symbols_witness :
  huffman_compress zero_node zero_queue zero_info wide_data 31 (replicate 254 0%Z)
  = Err OutOfBounds.
Proof.
  apply (huffman_compress_31_symbols zero_node zero_queue zero_info wide_data);
    [vm_compute; lia|vm_compute; done].
Defined.

Lemma huffman_compress_deep_witness :
  huffman_compress zero_node zero_queue zero_info deep_data 122 (replicate 254 0%Z)
  = Err BadShift.
Proof.
  apply (huffman_compress_deep zero_node zero_queue zero_info deep_data deep_tree 254);
    [exact deep_compressible|vm_compute; lia].
Defined.

Lemma huffman_single_symbol_lost_witness :
  ∃ out,
    huffman_compress zero_node zero_queue zero_info [65; 65; 65]%Z 3 (replicate 64 0%Z) = Ok out ∧
    huffman_inflate zero_node zero_queue zero_info out 64 [0; 0; 0]%Z = Ok ([0; 0; 0]%Z, 0).
Proof.
  apply (huffman_single_symbol_lost zero_node zero_queue zero_info [65; 65; 65]%Z (Leaf 3 65) 64);
    [|reflexivity|lia].
  split; [reflexivity|by apply (bool_decide_unpack _)|vm_compute; done
         |vm_compute; lia|vm_compute; lia|vm_compute; done].
Defined.

Lemma huffman_inflate_total_witness :
  (∃ r, huffman_inflate zero_node zero_queue zero_info [3; 0; 8; 42; 65]%Z 5 [] = Ok r) ∨
  huffman_inflate zero_node zero_queue zero_info [3; 0; 8; 42; 65]%Z 5 [] = Err OutOfBounds ∨
  huffman_inflate zero_node zero_queue zero_info [3; 0; 8; 42; 65]%Z 5 [] = Err NullDeref.
Proof.
  apply (huffman_inflate_total zero_node zero_queue zero_info);
    [repeat constructor; vm_compute; done|vm_compute; done].
Defined.

(** ** Bytes that mark nodes *)

(** A block inflated after it was compressed. *)
Definition inflated_again (data : list Z) : res (list Z * nat) :=
  out ← huffman_compress zero_node zero_queue zero_info data (Z.of_nat (length data)) (replicate 16 0%Z);
  huffman_inflate zero_node zero_queue zero_info out 3 [0; 0; 0]%Z.

(** The serialised tree does not tell a leaf from its marks: a leaf of a
    hyphen is read back as a missing node, a leaf of an asterisk as an inner
    node, and the byte 0 marks an inner node in the tree itself.  Of "A-A", "A*A"
    and "A\0A" none comes back, and the last loses a byte. *)
Theorem huffman_marker_bytes :
  inflated_again [65; 66; 65]%Z = Ok ([65; 66; 65]%Z, 3) ∧
  inflated_again [65; 45; 65]%Z = Ok ([65; 63; 65]%Z, 3) ∧
  inflated_again [65; 42; 65]%Z = Err OutOfBounds ∧
  inflated_again [65; 0; 65]%Z = Ok ([65; 65; 0]%Z, 2) ∧
  inflated_again [45; 45; 45]%Z = Err NullDeref ∧
  inflated_again [42; 42; 42]%Z = Err OutOfBounds.
Proof. split_and!; vm_compute; reflexivity. Qed.

(** ** The queue *)

(** [build_queue] leaves a queue of one leaf per distinct byte of the
    block, whose weight is the number of its occurrences. *)
Theorem build_queue_counts h data :
  fits h → (Z.of_nat (length data) ≤ INT_MAX)%Z → distinct data ≤ 59 →
  ∃ hd h' l, build_queue h data (Z.of_nat (length data)) = Ok (hd, h') ∧
    queue_inv h' hd l ∧ length l = distinct data ∧
    (∀ b, b ∈ root_byte <$> (c_tree <$> l) ↔ b ∈ data) ∧
    (∀ x, x ∈ l → ∃ w b, c_tree x = Leaf w b ∧ w = Z.of_nat (occurrences b data)).
Proof.
  intros (Ht & Hq & HT & HQ) Hlen Hd.
  destruct (build_queue_spec TREE_MAX_SIZE QUEUE_MAX_SIZE data h)
    as [([hd h1] & -> & l & Hinv & Hl & _)|[_ E]];
    [vm_compute; lia|done..| |change QUEUE_MAX_SIZE with 59 in E; lia].
  rewrite take_ge in Hl by lia. exists hd, h1, l. split_and!; [done|done| | |].
  - by rewrite <- (length_fmap c_tree), Hl, queue_of_distinct.
  - intros b. rewrite Hl. apply elem_of_queue_of.
  - intros x Hx. assert (c_tree x ∈ queue_of data) as Hin
      by (rewrite <- Hl; by apply list_elem_of_fmap_2).
    pose proof (queue_of_leaves data) as Hlv. rewrite list.Forall_forall in Hlv.
    specialize (Hlv _ Hin). destruct (c_tree x) as [w b|]; [|done].
    exists w, b. split; [done|]. rewrite (queue_of_weights _ _ _ Hin).
    apply u16_small. pose proof (length_filter (λ c, c = b) data).
    unfold is_u16, occurrences, INT_MAX in *. lia.
Qed.

(** C3: the two phases of the compressor build, in the node array, the tree of
    the specification, with 2n-1 nodes for n distinct bytes. *)
Theorem build_tree_refines h data :
  fits h → data ≠ [] → (Z.of_nat (length data) ≤ INT_MAX)%Z → distinct data ≤ 30 →
  ∃ hd h1 p h2 t,
    build_queue h data (Z.of_nat (length data)) = Ok (hd, h1) ∧
    build_tree h1 hd = Ok (Some p, h2) ∧
    tree_of data = Some t ∧ size t = 2 * distinct data - 1 ∧
    tree_at (tree_memory h2) (λ i, i < tree_ptr h2) p t.
Proof.
  intros Hf Hne Hlen Hd.
  destruct (build_spec h data Hf Hne Hlen Hd) as (hd & h1 & p & h2 & t & H1 & H2 & H3 & H4 & _).
  exists hd, h1, p, h2, t. split_and!; [done..| |done]. by apply tree_of_size.
Qed.

(** The tree is not always an optimal one: the queue is not kept sorted
    while bytes are counted, and there is a block that another tree over the
    same bytes encodes in fewer bits than the compressed block takes. *)
Theorem huffman_not_optimal :
  ∃ data out t hi lo,
    huffman_compress zero_node zero_queue zero_info data (Z.of_nat (length data))
      (replicate 64 0%Z) = Ok out ∧
    out !! 1 = Some hi ∧ out !! 2 = Some lo ∧
    (∀ b, b ∈ leaves t ↔ b ∈ data) ∧ NoDup (leaves t) ∧
    (Z.of_nat (length (encode t data)) < hi * 256 + lo)%Z.
Proof.
  exists [65; 66; 67; 65; 65; 65; 65; 65]%Z. eexists.
  exists (Node 0 (Leaf 0 65) (Node 0 (Leaf 0 66) (Leaf 0 67))). eexists _, _.
  split; [vm_compute; reflexivity|]. split; [reflexivity|]. split; [reflexivity|].
  split; [intros b; simpl; set_solver|]. split; [|vm_compute; done].
  by apply (bool_decide_unpack _).
Qed.

(** [queue_remove_element] never returns for an element that is in
    neither of the first two cells of the queue. *)
Theorem queue_remove_diverges h c0 c1 nx e0 e1 e fuel :
  queue_memory h !! c0 = Some (mk_queue (Some c1) e0) →
  queue_memory h !! c1 = Some (mk_queue nx e1) →
  e ≠ e0 → e ≠ e1 →
  queue_remove_element fuel h (Some c0) e = Err NoFuel.
Proof.
  intros H0 H1 Hne0 Hne1. unfold queue_remove_element.
  assert (∀ fuel prev, queue_remove_loop fuel h (Some c0) (Some c1) prev e = Err NoFuel) as Hloop.
  { clear fuel. induction fuel as [|fuel IH]; intros prev; [done|]. simpl.
    rewrite (get_queue_Some _ _ _ H1), res_bind_Ok, bool_decide_false by done.
    rewrite (get_queue_Some _ _ _ H0), res_bind_Ok. apply IH. }
  destruct fuel as [|fuel]; [done|]. simpl.
  rewrite (get_queue_Some _ _ _ H0), res_bind_Ok, bool_decide_false by done.
  rewrite res_bind_Ok. apply Hloop.
Qed.

Lemma build_queue_counts_witness :
  ∃ hd h' l,
    build_queue (huffman_init zero_node zero_queue TREE_MAX_SIZE QUEUE_MAX_SIZE) demo_data 18
    = Ok (hd, h') ∧ queue_inv h' hd l ∧ length l = 6 ∧
    (∀ b, b ∈ root_byte <$> (c_tree <$> l) ↔ b ∈ demo_data) ∧
    (∀ x, x ∈ l → ∃ w b, c_tree x = Leaf w b ∧ w = Z.of_nat (occurrences b demo_data)).
Proof.
  apply (build_queue_counts (huffman_init zero_node zero_queue TREE_MAX_SIZE QUEUE_MAX_SIZE)
           demo_data); [apply fits_init|vm_compute; done|vm_compute; lia].
Defined.

Lemma build_tree_refines_witness :
  ∃ hd h1 p h2 t,
    build_queue (huffman_init zero_node zero_queue TREE_MAX_SIZE QUEUE_MAX_SIZE) demo_data 18
    = Ok (hd, h1) ∧ build_tree h1 hd = Ok (Some p, h2) ∧
    tree_of demo_data = Some t ∧ size t = 11 ∧
    tree_at (tree_memory h2) (λ i, i < tree_ptr h2) p t.
Proof.
  apply (build_tree_refines (huffman_init zero_node zero_queue TREE_MAX_SIZE QUEUE_MAX_SIZE)
           demo_data); [apply fits_init|done|vm_compute; done|vm_compute; lia].
Defined.

Lemma queue_remove_diverges_witness :
  queue_remove_element 1000
    (mk_huffman [] 0 0 [mk_queue (Some 1) (Some 0); mk_queue (Some 2) (Some 1);
                        mk_queue None (Some 2)] 3 3) (Some 0) (Some 2) = Err NoFuel.
Proof.
  by apply (queue_remove_diverges _ 0 1 (Some 2) (Some 0) (Some 1)).
Defined.
