(* ===== verification/HuffmanTyped.v ===== *)
(** * The types of the Huffman library's data

    The C types say that a node's weight is a [uint16_t], its byte and the
    bytes of the buffers [uint8_t].  The model keeps them as unbounded
    integers, truncated where the code truncates; here the ranges are proved:
    whatever the input, a run of the library that returns leaves the output
    buffer an array of the same size whose elements are bytes. *)

From S2P Require Import Prelude HuffmanMem.
Import Huffman.

(** ** Partial correctness of [res] programs *)

(** [yields P m]: where [m] returns, its value satisfies [P]. *)
Definition yields {A} (P : A → Prop) (m : res A) : Prop := ∀ a, m = Ok a → P a.

Lemma yields_ret {A} (P : A → Prop) a : P a → yields P (Ok a).
Proof. by intros H ? [= <-]. Qed.

Lemma yields_err {A} (P : A → Prop) e : yields P (Err e).
Proof. done. Qed.

Lemma yields_bind {A B} (Q : A → Prop) (P : B → Prop) m (f : A → res B) :
  yields Q m → (∀ a, Q a → yields P (f a)) → yields P (m ≫= f).
Proof.
  intros Hm Hf b E. apply res_bind_Ok_inv in E as (a & Ea & Eb).
  exact (Hf a (Hm a Ea) b Eb).
Qed.

Lemma yields_any {A} (m : res A) : yields (λ _, True) m.
Proof. done. Qed.

Lemma yields_mono {A} (P Q : A → Prop) (m : res A) :
  yields P m → (∀ a, P a → Q a) → yields Q m.
Proof. intros Hm HPQ a E. by apply HPQ, Hm. Qed.

Lemma yields_for_int_from {S} (I : S → Prop) body n : ∀ i s,
  I s → (∀ j s, I s → yields I (body j s)) → yields I (for_int_from n i body s).
Proof.
  induction n as [|n IH]; intros i s Hs Hb; [by apply yields_ret|].
  cbn [for_int_from]. eapply yields_bind; [by apply Hb|]. intros s' Hs'.
  case_bool_decide; [apply yields_err|by apply IH].
Qed.

Lemma yields_for_u16_from {S} (I : S → Prop) body n : ∀ i s,
  I s → (∀ j s, I s → yields I (body j s)) → yields I (for_u16_from n i body s).
Proof.
  induction n as [|n IH]; intros i s Hs Hb; [by apply yields_ret|].
  cbn [for_u16_from]. eapply yields_bind; [by apply Hb|]. intros s' Hs'. by apply IH.
Qed.

Lemma yields_load {A} (P : A → Prop) m i : Forall P m → yields P (load m i).
Proof. intros Hm x E%load_Ok. by eapply Forall_lookup_1. Qed.

Lemma yields_store {A} (P : A → Prop) m i x :
  Forall P m → P x → yields (λ m', Forall P m' ∧ length m' = length m) (store m i x).
Proof.
  intros Hm Hx m' E. apply store_Ok_inv in E as [_ ->]. split.
  - by apply Forall_insert.
  - apply length_insert.
Qed.

(** ** The node array *)

Definition typed_node (n : node_t) : Prop := is_u16 (weight n) ∧ is_u8 (byte n).

Definition typed (h : huffman_t) : Prop :=
  Forall typed_node (tree_memory h) ∧
  is_u16 (allocated_tree_size h) ∧ is_u16 (allocated_queue_size h).

Definition typed_buffer (k : nat) (mem : list Z) : Prop := Forall is_u8 mem ∧ length mem = k.

Lemma yields_get_node h p : typed h → yields typed_node (get_node h p).
Proof. intros (Ht & _). destruct p; [by apply yields_load|apply yields_err]. Qed.

Lemma yields_set_node h p n : typed h → typed_node n → yields typed (set_node h p n).
Proof.
  intros (Ht & Ha & Hq) Hn. destruct p as [i|]; [|apply yields_err]. unfold set_node.
  eapply yields_bind; [by apply yields_store|]. intros tm [Htm _]. by apply yields_ret.
Qed.

Lemma yields_set_next h p n : typed h → yields typed (set_next h p n).
Proof.
  intros Ht. unfold set_next. eapply yields_bind; [apply yields_any|]. intros q _.
  destruct p as [i|]; [|apply yields_err]. eapply yields_bind; [apply yields_any|].
  intros qm _. by apply yields_ret.
Qed.

Lemma yields_tree_alloc h w : typed h → is_u16 w → yields (λ r, typed r.2) (tree_alloc h w).
Proof.
  intros (Ht & Ha & Hq) Hw. unfold tree_alloc. eapply yields_bind.
  - apply yields_store; [done|]. split; [done|]. simpl. unfold is_u8. lia.
  - intros tm [Htm _]. apply yields_ret. split_and!; simpl; auto with cint.
Qed.

Lemma yields_queue_alloc h e : typed h → yields (λ r, typed r.2) (queue_alloc h e).
Proof.
  intros (Ht & Ha & Hq). unfold queue_alloc. eapply yields_bind; [apply yields_any|].
  intros qm _. apply yields_ret. split_and!; simpl; auto with cint.
Qed.

Create HintDb typed.
#[export] Hint Resolve yields_ret yields_err yields_get_node yields_set_node yields_set_next
  yields_tree_alloc yields_queue_alloc : typed.

(** One bind: the hint database gives the postcondition of the first program,
    or nothing is known of its value. *)
Ltac ybind x Hx :=
  eapply yields_bind; [first [solve [eauto 2 with typed] | apply yields_any]|];
  intros x Hx.


Lemma yields_queue_add_loop fuel : ∀ h curr new e,
  typed h → yields typed (queue_add_loop fuel h curr new e).
Proof.
  induction fuel as [|fuel IH]; intros h curr new e Ht; [apply yields_err|]. simpl.
  ybind c Hc. destruct (next c) as [p|]; [|auto with typed].
  ybind cn Hcn. ybind ne Hne. ybind ee Hee. case_bool_decide; [|by apply IH].
  ybind h1 Hh1. auto with typed.
Qed.
#[export] Hint Resolve yields_queue_add_loop : typed.

Lemma yields_queue_add_element h head e :
  typed h → yields (λ r, typed r.2) (queue_add_element h head e).
Proof.
  intros Ht. unfold queue_add_element. ybind r Hr. destruct r as [new h1]. simpl in Hr.
  destruct head as [p|]; [|auto with typed].
  ybind c Hc. ybind ce Hce. ybind ee Hee. case_bool_decide; ybind h2 Hh2; auto with typed.
Qed.

Lemma yields_build_queue_search fuel : ∀ h curr b,
  typed h → yields (λ r, typed r.2) (build_queue_search fuel h curr b).
Proof.
  induction fuel as [|fuel IH]; intros h curr b Ht; [apply yields_err|]. simpl.
  destruct curr as [p|]; [|auto with typed]. ybind c Hc. ybind n Hn. destruct Hn as [Hw Hb].
  case_bool_decide; [|by apply IH].
  eapply yields_bind; [apply yields_set_node; [done|by split; simpl; auto with cint]|].
  auto with typed.
Qed.
#[export] Hint Resolve yields_queue_add_element yields_build_queue_search : typed.

Lemma yields_build_queue h data n :
  typed h → Forall is_u8 data → yields (λ r, typed r.2) (build_queue h data n).
Proof.
  intros Ht Hd. apply yields_for_int_from; [done|]. clear h Ht. intros j [head h] Ht. simpl in Ht.
  unfold build_queue_step. eapply yields_bind; [by apply (yields_load is_u8)|]. intros b Hb.
  ybind r Hr. destruct r as [found h1]. destruct found; [by apply yields_ret|].
  eapply yields_bind; [apply yields_tree_alloc; [done|unfold is_u16; lia]|].
  intros [new h2] Ht2. ybind m Hm. destruct Hm as [Hw _].
  eapply yields_bind; [by apply yields_set_node|]. auto with typed.
Qed.

Lemma yields_build_tree_loop fuel : ∀ h head,
  typed h → yields (λ r, typed r.2) (build_tree_loop fuel h head).
Proof.
  induction fuel as [|fuel IH]; intros h head Ht; [apply yields_err|]. simpl.
  ybind sz Hsz. case_bool_decide.
  - ybind r Hr. destruct r as [[a b] rest]. ybind na Hna. ybind nb Hnb.
    eapply yields_bind; [apply yields_tree_alloc; auto with cint|]. intros [p h1] Ht1.
    ybind n Hn. destruct Hn as [Hw _].
    eapply yields_bind; [apply yields_set_node; [done|]|].
    { split; simpl; [done|unfold is_u8; lia]. }
    intros h2 Ht2. ybind r Hr'. destruct r as [hd h3]. by apply IH.
  - destruct head as [p|]; [|apply yields_err]. ybind c Hc. auto with typed.
Qed.

(** ** The output buffer *)

Lemma yields_put k mem i x :
  typed_buffer k mem → is_u8 x → yields (typed_buffer k) (store mem i x).
Proof.
  intros [Hm Hk] Hx. eapply yields_mono; [by apply yields_store|].
  intros m' [Hm' Hk']. split; [done|congruence].
Qed.

Lemma yields_put_u8 k mem i x : typed_buffer k mem → yields (typed_buffer k) (store mem i (u8 x)).
Proof. intros Hm. apply yields_put; auto with cint. Qed.
#[export] Hint Resolve yields_put yields_put_u8 : typed.

Lemma yields_serialize_tree_node k fuel : ∀ h tree out,
  typed h → typed_buffer k out.1 →
  yields (λ r, typed_buffer k r.1) (serialize_tree_node fuel h tree out).
Proof.
  induction fuel as [|fuel IH]; intros h tree [mem pos] Ht Hm; [apply yields_err|]. simpl in *.
  destruct tree as [p|].
  - ybind n Hn. destruct Hn as [_ Hb]. case_bool_decide.
    + ybind m1 Hm1. auto with typed.
    + eapply yields_bind; [by apply (yields_put k); [|unfold is_u8; lia]|]. intros m1 Hm1.
      eapply yields_bind; [by apply IH|]. intros out1 Ho. by apply IH.
  - eapply yields_bind; [by apply (yields_put k); [|unfold is_u8; lia]|]. auto with typed.
Qed.

Lemma yields_put_bit k mem bs x :
  typed_buffer k mem → yields (λ r, typed_buffer k r.1) (bitstream_put_bit mem bs x).
Proof.
  intros Hm. unfold bitstream_put_bit. ybind c Hc. ybind m1 Hm1. auto with typed.
Qed.
#[export] Hint Resolve yields_put_bit : typed.

Lemma yields_compress_data k tab n data len mem base :
  typed_buffer k mem →
  yields (λ r, typed_buffer k r.1 ∧ is_u16 r.2) (compress_data tab n data len mem base).
Proof.
  intros Hm. unfold compress_data, for_u16. eapply yields_bind.
  - apply (yields_for_u16_from (λ s, typed_buffer k s.1.1 ∧ is_u16 s.2)).
    { split; [done|]. simpl. unfold is_u16. lia. }
    clear mem Hm. intros j [[mem bs] tot] [Hm _]. simpl in Hm. unfold compress_step.
    ybind b Hb. ybind r Hr. destruct r as [nb enc]. ybind enc1 He.
    eapply yields_bind.
    { unfold bitstream_put_bits, for_int. eapply yields_bind.
      - apply (yields_for_int_from (λ s, typed_buffer k s.1.1)); [done|].
        clear mem bs Hm. intros i [[m t] c] Hm. simpl in Hm. ybind r Hr'.
        destruct r as [m1 t1]. auto with typed.
      - intros [[m1 t1] c] Hm1. by apply (yields_ret (λ r, typed_buffer k r.1)). }
    intros [m1 t1] Hm1. apply yields_ret. split; simpl; auto with cint.
  - intros [[m1 t1] tot] Hm1. by apply yields_ret.
Qed.

Section Entry.
Context (jn : nat → node_t) (jq : nat → queue_t) (ji : nat → encoding_info_t).
Hypothesis junk_typed : ∀ i, typed_node (jn i).

Lemma typed_init n q : typed (huffman_init jn jq n q).
Proof.
  split_and!; [|done..]. apply Forall_fmap, list.Forall_forall. intros i _. apply junk_typed.
Qed.

Lemma yields_compress k data len out :
  Forall is_u8 data → typed_buffer k out →
  yields (typed_buffer k) (huffman_compress jn jq ji data len out).
Proof.
  intros Hd Ho. unfold huffman_compress.
  eapply yields_bind; [apply yields_build_queue; [apply typed_init|done]|].
  intros [hd h1] Ht1. eapply yields_bind; [by apply yields_build_tree_loop|].
  intros [tree h] Ht. ybind sz Hsz. ybind o1 Ho1.
  eapply yields_bind.
  { unfold serialize_tree. eapply yields_bind; [by apply (yields_serialize_tree_node k)|].
    intros [m p] Hm. by apply (yields_ret (typed_buffer k)). }
  intros o2 Ho2. ybind cl Hcl. ybind tab Htab. destruct tab as [tab p].
  eapply yields_bind; [by apply (yields_compress_data k)|]. intros [o3 nb] [Ho3 _].
  ybind o4 Ho4. auto with typed.
Qed.

Lemma yields_deserialize_tree_node fuel data : ∀ h p,
  typed h → Forall is_u8 data →
  yields (λ r, typed r.1.2) (deserialize_tree_node fuel h data p).
Proof.
  induction fuel as [|fuel IH]; intros h p Ht Hd; [apply yields_err|]. simpl.
  assert (is_u16 0) as H0 by (unfold is_u16; lia). assert (is_u8 0) as H8 by (unfold is_u8; lia).
  eapply yields_bind; [by apply (yields_load is_u8)|]. intros c Hc.
  case_bool_decide; [by apply (yields_ret (λ r, typed r.1.2))|]. case_bool_decide.
  - eapply yields_bind; [by apply yields_tree_alloc|]. intros [node h1] Ht1.
    ybind n Hn. destruct Hn as [Hw _]. eapply yields_bind; [by apply yields_set_node|].
    intros h2 Ht2. by apply yields_ret.
  - eapply yields_bind; [by apply yields_tree_alloc|]. intros [node h1] Ht1.
    ybind n Hn. destruct Hn as [Hw _]. eapply yields_bind; [by apply yields_set_node|].
    intros h2 Ht2. eapply yields_bind; [by apply IH|]. intros [[l h3] p1] Ht3. simpl in Ht3.
    ybind nl Hnl. destruct Hnl as [Hwl Hbl]. eapply yields_bind; [by apply yields_set_node|].
    intros h4 Ht4. eapply yields_bind; [by apply IH|]. intros [[r h5] p2] Ht5. simpl in Ht5.
    ybind nr Hnr. destruct Hnr as [Hwr Hbr]. eapply yields_bind; [by apply yields_set_node|].
    intros h6 Ht6. by apply yields_ret.
Qed.

Lemma yields_next_char fuel : ∀ h curr mem bs nb,
  typed h → yields (λ r, is_u8 r.1.1) (deserialize_next_char fuel h curr mem bs nb).
Proof.
  induction fuel as [|fuel IH]; intros h curr mem bs nb Ht; [apply yields_err|]. simpl.
  ybind r Hr. destruct r as [x bs1]. ybind n Hn. destruct (if bool_decide _ then _ else _) as [q|].
  - ybind n1 Hn1. destruct Hn1 as [_ Hb]. case_bool_decide; [by apply yields_ret|by apply IH].
  - apply yields_ret. simpl. unfold is_u8. lia.
Qed.

Lemma yields_inflate_loop k fuel : ∀ h tree mem size tot bs rd out,
  typed h → typed_buffer k out.1 →
  yields (λ r, typed_buffer k r.1) (inflate_loop fuel h tree mem size tot bs rd out).
Proof.
  induction fuel as [|fuel IH]; intros h tree mem size tot bs rd [o pos] Ht Ho; [apply yields_err|].
  cbn [inflate_loop fst] in *. case_bool_decide; [|by apply yields_ret].
  eapply yields_bind; [by apply yields_next_char|]. intros [[x bs1] nr] Hx. simpl in Hx.
  eapply yields_bind; [by apply (yields_put k)|]. intros o1 Ho1. by apply IH.
Qed.

Lemma yields_inflate k data len out :
  Forall is_u8 data → typed_buffer k out →
  yields (λ r, typed_buffer k r.1) (huffman_inflate jn jq ji data len out).
Proof.
  intros Hd Ho. unfold huffman_inflate. ybind ts Hts. ybind d1 Hd1. ybind d2 Hd2.
  unfold deserialize_tree. eapply yields_bind.
  { eapply yields_bind; [apply yields_deserialize_tree_node; [apply typed_init|done]|].
    intros [[tree h] p] Ht. by apply (yields_ret (λ r, typed r.1.2)). }
  intros [[tree h] br] Ht. simpl in Ht. ybind cl Hcl. ybind tab Htab.
  by apply yields_inflate_loop.
Qed.
End Entry.
