(* ===== verification/Avr.v ===== *)
(** * The microcontroller as the firmware sees it

    The firmware reads and writes memory-mapped registers of the ATmega32u4,
    waits with [_delay_ms], prints with [printf] and reads characters with
    [fgetc].  The class [Mcu] lists those operations over an arbitrary hardware
    state [D]: the hardware and the C library below them are parameters of the
    models of the source.  [IO] is the state and error monad the C functions
    are translated into. *)

From S2P Require Import Prelude.
From stdpp Require Import strings.

(** The registers the firmware uses. *)
Inductive reg :=
  | TWBR | TWCR | TWSR | TWDR | TWAR
  | DDRB | PORTB | PINB | DDRC | PORTC | PINC | DDRD | PORTD | PIND
  | PCICR | PCMSK0 | USBCON.

#[export] Instance reg_eq_dec : EqDecision reg.
Proof. solve_decision. Defined.

(** C string literals: the bytes of a Rocq string; [crlf] is "\r\n". *)
Fixpoint str (s : string) : list Z :=
  match s with
  | EmptyString => []
  | String a s' => Z.of_nat (Ascii.nat_of_ascii a) :: str s'
  end.

Definition crlf : list Z := [13; 10]%Z.

(** What the code uses of the hardware and of stdio.  [mcu_print] gets the
    format string and the arguments of a [printf]; [mcu_getc] is
    [fgetc(stdin)], with -1 for [EOF]; [mcu_usb_setup] and [mcu_usb_task] are
    [SetupHardware()] and [USB_Mainloop_Handler()] as the application sees
    them; [mcu_irqs] is the number of pin-change interrupts taken since it was
    last asked. *)
Class Mcu (D : Type) := {
  mcu_read : reg → D → Z * D;
  mcu_write : reg → Z → D → D;
  mcu_delay : Z → D → D;
  mcu_print : list Z → list Z → D → D;
  mcu_getc : D → Z * D;
  mcu_usb_setup : D → D;
  mcu_usb_task : D → D;
  mcu_irqs : D → nat * D }.

(** ** The monad *)

Definition IO (D A : Type) : Type := D → res (A * D).

#[export] Instance IO_ret {D} : MRet (IO D) := λ A a d, Ok (a, d).
#[export] Instance IO_bind {D} : MBind (IO D) := λ A B f m d,
  match m d with Ok (a, d') => f a d' | Err e => Err e end.

Definition fail {D A} (e : fault) : IO D A := λ _, Err e.

(** A computation without effects on the hardware. *)
Definition pure {D A} (m : res A) : IO D A := λ d,
  match m with Ok a => Ok (a, d) | Err e => Err e end.

Lemma io_bind_Ok {D A B} (m : IO D A) (f : A → IO D B) d a d' :
  m d = Ok (a, d') → (m ≫= f) d = f a d'.
Proof. intros H. unfold mbind, IO_bind. by rewrite H. Qed.

Lemma io_bind_Err {D A B} (m : IO D A) (f : A → IO D B) d e :
  m d = Err e → (m ≫= f) d = Err e.
Proof. intros H. unfold mbind, IO_bind. by rewrite H. Qed.

Lemma io_bind_ret {D A B} (a : A) (f : A → IO D B) d : (mret a ≫= f) d = f a d.
Proof. done. Qed.

Lemma io_bind_pure {D A B} (a : A) (f : A → IO D B) d : (pure (Ok a) ≫= f) d = f a d.
Proof. done. Qed.

Lemma io_bind_assoc {D A B C} (m : IO D A) (f : A → IO D B) (g : B → IO D C) d :
  ((m ≫= f) ≫= g) d = (m ≫= λ a, f a ≫= g) d.
Proof. unfold mbind, IO_bind. by destruct (m d) as [[a d']|e]. Qed.

Lemma io_bind_Ok_inv {D A B} (m : IO D A) (f : A → IO D B) d b d' :
  (m ≫= f) d = Ok (b, d') ↔ ∃ a d1, m d = Ok (a, d1) ∧ f a d1 = Ok (b, d').
Proof.
  unfold mbind, IO_bind. destruct (m d) as [[a d1]|e]; split.
  - intros H. by exists a, d1.
  - intros (a' & d2 & [= <- <-] & H). done.
  - discriminate.
  - intros (? & ? & ? & _). done.
Qed.

(** ** Register accesses *)

Section Access.
Context `{Mcu D}.

Definition read (r : reg) : IO D Z := λ d, Ok (mcu_read r d).
Definition write (r : reg) (v : Z) : IO D unit := λ d, Ok (tt, mcu_write r (u8 v) d).
Definition delay_ms (n : Z) : IO D unit := λ d, Ok (tt, mcu_delay n d).
Definition printf (fmt args : list Z) : IO D unit := λ d, Ok (tt, mcu_print fmt args d).
Definition fgetc : IO D Z := λ d, Ok (mcu_getc d).
Definition usb_setup : IO D unit := λ d, Ok (tt, mcu_usb_setup d).
Definition usb_task : IO D unit := λ d, Ok (tt, mcu_usb_task d).
Definition irqs : IO D nat := λ d, Ok (mcu_irqs d).

(** [*r |= v], [*r &= v] and [*r ^= v]. *)
Definition or_reg (r : reg) (v : Z) : IO D unit := x ← read r; write r (Z.lor x v).
Definition and_reg (r : reg) (v : Z) : IO D unit := x ← read r; write r (Z.land x v).
Definition xor_reg (r : reg) (v : Z) : IO D unit := x ← read r; write r (Z.lxor x v).

(** [1 << n] *)
Definition bit (n : Z) : Z := Z.shiftl 1 n.

(** [SET_BIT], [CLEAR_BIT] and [TOGGLE_BIT] of [common.h]; [~(1 << pin)] is
    taken on the low byte, which is all that reaches an 8-bit register. *)
Definition SET_BIT (r : reg) (pin : Z) : IO D unit := or_reg r (bit pin).
Definition CLEAR_BIT (r : reg) (pin : Z) : IO D unit := and_reg r (Z.ldiff 255 (bit pin)).
Definition TOGGLE_BIT (r : reg) (pin : Z) : IO D unit := xor_reg r (bit pin).

(** [while (!( *r & mask ));] and [while ( *r & mask );]. *)
Fixpoint wait_set (fuel : nat) (r : reg) (mask : Z) : IO D unit :=
  match fuel with
  | O => fail NoFuel
  | S fuel' =>
      v ← read r;
      if bool_decide (Z.land v mask ≠ 0%Z) then mret tt else wait_set fuel' r mask
  end.

Fixpoint wait_clear (fuel : nat) (r : reg) (mask : Z) : IO D unit :=
  match fuel with
  | O => fail NoFuel
  | S fuel' =>
      v ← read r;
      if bool_decide (Z.land v mask ≠ 0%Z) then wait_clear fuel' r mask else mret tt
  end.
End Access.

(** ** Refinement between two levels of state

    [refines R m g]: whatever the abstract program [g] does on a state related
    to the concrete one, [m] does too.  Where [g] fails nothing is claimed. *)

Definition refines {D V A} (R : D → V → Prop) (m : IO D A) (g : IO V A) : Prop :=
  ∀ d v a v', R d v → g v = Ok (a, v') → ∃ d', m d = Ok (a, d') ∧ R d' v'.

Lemma refines_ret {D V A} (R : D → V → Prop) (a : A) : refines R (mret a) (mret a).
Proof. intros d v a' v' HR [= <- <-]. by exists d. Qed.

Lemma refines_pure {D V A} (R : D → V → Prop) (m : res A) : refines R (pure m) (pure m).
Proof. intros d v a v' HR. unfold pure. destruct m; intros [= <- <-]. by exists d. Qed.

Lemma refines_bind {D V A B} (R : D → V → Prop) (m : IO D A) (g : IO V A)
    (f : A → IO D B) (h : A → IO V B) :
  refines R m g → (∀ a, refines R (f a) (h a)) →
  refines R (m ≫= f) (g ≫= h).
Proof.
  intros Hm Hf d v b v' HR H. apply io_bind_Ok_inv in H as (a & v1 & H1 & H2).
  destruct (Hm _ _ _ _ HR H1) as (d1 & E1 & HR1).
  destruct (Hf a _ _ _ _ HR1 H2) as (d2 & E2 & HR2).
  exists d2. split; [|done]. by rewrite (io_bind_Ok _ _ _ _ _ E1).
Qed.

Lemma refines_if {D V A} (R : D → V → Prop) (b : bool) (m1 m2 : IO D A) (g1 g2 : IO V A) :
  refines R m1 g1 → refines R m2 g2 →
  refines R (if b then m1 else m2) (if b then g1 else g2).
Proof. by destruct b. Qed.

(** Concrete steps the abstract program does not take. *)
Lemma refines_skip {D V A B} (R : D → V → Prop) (m : IO D A) (f : A → IO D B) (g : IO V B) :
  (∀ d v, R d v → ∃ a d', m d = Ok (a, d') ∧ R d' v) →
  (∀ a, refines R (f a) g) → refines R (m ≫= f) g.
Proof.
  intros Hm Hf d v b v' HR H. destruct (Hm _ _ HR) as (a & d1 & E1 & HR1).
  rewrite (io_bind_Ok _ _ _ _ _ E1). by eapply Hf.
Qed.

Lemma refines_pure_l {D V A B} (R : D → V → Prop) (x : A) (f : A → IO D B) (g : IO V B) :
  refines R (f x) g → refines R (pure (Ok x) ≫= f) g.
Proof. done. Qed.

(** Equality of programs, state by state. *)
Definition io_eq {D A} (m1 m2 : IO D A) : Prop := ∀ d, m1 d = m2 d.

#[export] Instance io_eq_equivalence {D A} : Equivalence (@io_eq D A).
Proof.
  split; unfold io_eq; [done|by intros x y E d|].
  intros x y z E1 E2 d. by rewrite E1.
Qed.

#[export] Instance refines_proper {D V A} (R : D → V → Prop) :
  Proper (io_eq ==> io_eq ==> iff) (@refines D V A R).
Proof.
  intros m1 m2 Em g1 g2 Eg. unfold refines.
  split; intros H d v a v' HR E.
  - rewrite <- Em. apply (H d v); [done|]. by rewrite Eg.
  - rewrite Em. apply (H d v); [done|]. by rewrite <- Eg.
Qed.

(** One step of a refinement proof: the abstract run [Hw] does its first
    operation, lemma [L] gives the concrete one. *)
Ltac refine_step L :=
  lazymatch goal with
  | Hw : ?m ?w = Ok (?a, ?w'), HR : ?R ?d ?w |- ∃ _, _ =>
      let x := fresh "x" in let w1 := fresh "w" in let Hx := fresh "Hx" in
      let d1 := fresh "d" in let E := fresh "E" in let HR1 := fresh "HR" in
      repeat rewrite io_bind_assoc in Hw;
      apply io_bind_Ok_inv in Hw as (x & w1 & Hx & Hw);
      destruct (L _ _ _ _ HR Hx) as (d1 & E & HR1);
      rewrite (io_bind_Ok _ _ _ _ _ E); clear E
  end.

Create HintDb refine.
#[export] Hint Resolve refines_ret refines_pure refines_bind refines_if : refine.
