(* ===== verification/Stdio.v ===== *)
(** * Formatted output

    [printf] of the C library for the conversions the sources use: [%d], [%u],
    [%x], [%c], [%s], [%p] and [%%], the flag [0], a width and the length
    [hh]; [int] has 16 bits.  [vprintf] is the text a call prints, [None] where
    C leaves the call undefined (a conversion without an argument of its type,
    an unknown or unfinished one). *)

From S2P Require Import Prelude Avr.
From stdpp Require Import strings.

(** The arguments of a call: integers, strings and pointers. *)
Inductive arg := AInt (z : Z) | AStr (s : list Z) | APtr (z : Z).

(** ** Numbers *)

Definition digit (k : Z) : Z := (if bool_decide (k < 10) then 48 + k else 87 + k)%Z.

(** The digits of [n] in front of [acc], least significant first. *)
Fixpoint digits_loop (fuel : nat) (base n : Z) (acc : list Z) : list Z :=
  match fuel with
  | O => acc
  | S fuel' =>
      let acc' := digit (n `mod` base) :: acc in
      if bool_decide (n `div` base = 0)%Z then acc' else digits_loop fuel' base (n `div` base) acc'
  end.

(** A 16-bit number has at most 16 digits. *)
Definition digits (base n : Z) : list Z := digits_loop 16 base n [].

Definition int16 (z : Z) : Z := ((z + 32768) `mod` 65536 - 32768)%Z.

(** The text padded on the left to width [w]. *)
Definition pad (zero : bool) (w : nat) (t : list Z) : list Z :=
  replicate (w - length t) (if zero then 48 else 32)%Z ++ t.

(** A signed number keeps its sign in front of the zeros. *)
Definition pad_signed (zero : bool) (w : nat) (z : Z) : list Z :=
  if bool_decide (0 ≤ z)%Z then pad zero w (digits 10 z)
  else if zero then 45%Z :: pad true (pred w) (digits 10 (- z))
  else pad false w (45%Z :: digits 10 (- z)).

(** ** The format *)

Section Format.
(** How a pointer is printed is up to the implementation. *)
Context (pointer_text : Z → list Z).

Definition unsigned (h : nat) (z : Z) : Z := if bool_decide (h = 2) then u8 z else u16 z.

(** One conversion: flag 0, width, number of [h]s and conversion letter. *)
Definition convert (zero : bool) (w h : nat) (c : Z) (a : arg) : option (list Z) :=
  match a with
  | AInt z =>
      if bool_decide (c = 100%Z) then Some (pad_signed zero w (int16 z))
      else if bool_decide (c = 117%Z) then Some (pad zero w (digits 10 (unsigned h z)))
      else if bool_decide (c = 120%Z) then Some (pad zero w (digits 16 (unsigned h z)))
      else if bool_decide (c = 99%Z) then Some (pad false w [u8 z])
      else None
  | AStr s => if bool_decide (c = 115%Z) then Some (pad false w s) else None
  | APtr z => if bool_decide (c = 112%Z) then Some (pad false w (pointer_text z)) else None
  end.

(** Outside of a conversion, or in one with what was read of it. *)
Inductive pstate := Plain | Conversion (zero : bool) (w h : nat).

Fixpoint vprintf (st : pstate) (fmt : list Z) (args : list arg) : option (list Z) :=
  match fmt with
  | [] => match st with Plain => Some [] | _ => None end
  | c :: fmt' =>
      match st with
      | Plain =>
          if bool_decide (c = 0%Z) then Some []
          else if bool_decide (c = 37%Z) then vprintf (Conversion false 0 0) fmt' args
          else cons c <$> vprintf Plain fmt' args
      | Conversion zero w h =>
          if bool_decide (c = 37%Z) then
            if bool_decide ((zero, w, h) = (false, 0, 0)) then cons c <$> vprintf Plain fmt' args else None
          else if bool_decide (c = 48%Z ∧ w = 0 ∧ h = 0) then vprintf (Conversion true w h) fmt' args
          else if bool_decide ((48 ≤ c ≤ 57)%Z ∧ h = 0) then vprintf (Conversion zero (10 * w + Z.to_nat (c - 48)) h) fmt' args
          else if bool_decide (c = 104%Z) then vprintf (Conversion zero w (S h)) fmt' args
          else match args with
               | [] => None
               | a :: args' => t ← convert zero w h c a; app t <$> vprintf Plain fmt' args'
               end
      end
  end.

Definition sprintf (fmt : list Z) (args : list arg) : option (list Z) := vprintf Plain fmt args.

(** What a sequence of calls prints. *)
Fixpoint print_calls (l : list (list Z * list arg)) : option (list Z) :=
  match l with
  | [] => Some []
  | (fmt, args) :: l' => t ← sprintf fmt args; app t <$> print_calls l'
  end.
End Format.

(** ** What is printed *)

Definition plain_char (c : Z) : Prop := c ≠ 0%Z ∧ c ≠ 37%Z.

(** A format without conversions prints itself. *)
Lemma vprintf_plain pt t fmt args : Forall plain_char t →
  vprintf pt Plain (t ++ fmt) args = app t <$> vprintf pt Plain fmt args.
Proof.
  induction 1 as [|c t [H0 H37] _ IH]; [simpl; by destruct (vprintf pt Plain fmt args)|].
  cbn [app vprintf]. rewrite !bool_decide_false, IH by done.
  by destruct (vprintf pt Plain fmt args).
Qed.

Lemma sprintf_plain pt t : Forall plain_char t → sprintf pt t [] = Some t.
Proof.
  intros Ht. pose proof (vprintf_plain pt t [] [] Ht) as E. rewrite app_nil_r in E.
  unfold sprintf. rewrite E. cbn. by rewrite app_nil_r.
Qed.

Lemma print_calls_app pt l1 l2 :
  print_calls pt (l1 ++ l2) = t1 ← print_calls pt l1; app t1 <$> print_calls pt l2.
Proof.
  induction l1 as [|[fmt args] l1 IH]; cbn [app print_calls].
  - by destruct (print_calls pt l2).
  - rewrite IH. destruct (sprintf pt fmt args) as [t|]; [|done]. cbn [mbind option_bind].
    destruct (print_calls pt l1) as [t1|]; [|done]. cbn.
    destruct (print_calls pt l2) as [t2|]; [|done]. cbn. by rewrite app_assoc.
Qed.

(** The value of a text of digits. *)
Definition digit_value (c : Z) : Z := (if bool_decide (c < 58) then c - 48 else c - 87)%Z.
Definition number (base : Z) (t : list Z) : Z := foldl (λ v c, v * base + digit_value c)%Z 0%Z t.

Lemma digit_value_digit k : (0 ≤ k < 16)%Z → digit_value (digit k) = k.
Proof.
  intros Hk. unfold digit_value, digit. case_bool_decide; case_bool_decide; lia.
Qed.

Lemma number_from base t : ∀ v,
  foldl (λ v c, v * base + digit_value c)%Z v t =
  (v * base ^ Z.of_nat (length t) + number base t)%Z.
Proof.
  unfold number. induction t as [|c t IH] using rev_ind; intros v; [simpl; lia|].
  rewrite !foldl_app. cbn [foldl]. rewrite IH, length_app. cbn [length].
  replace (Z.of_nat (length t + 1)) with (Z.of_nat (length t) + 1)%Z by lia.
  rewrite Z.pow_add_r by lia. lia.
Qed.

Lemma digits_loop_number base fuel : ∀ n acc, (2 ≤ base ≤ 16)%Z → (0 ≤ n < 2 ^ Z.of_nat fuel)%Z → 0 < fuel →
  number base (digits_loop fuel base n acc) = (n * base ^ Z.of_nat (length acc) + number base acc)%Z.
Proof.
  induction fuel as [|fuel IH]; intros n acc Hb Hn Hf; [lia|]. cbn [digits_loop].
  pose proof (Z.mod_pos_bound n base ltac:(lia)). pose proof (Z.div_mod n base ltac:(lia)).
  assert (∀ acc, number base (digit (n `mod` base) :: acc) =
    ((n `mod` base) * base ^ Z.of_nat (length acc) + number base acc)%Z) as Hc.
  { intros l. unfold number at 1. cbn [foldl]. rewrite number_from, digit_value_digit by lia. lia. }
  case_bool_decide as Hz.
  - rewrite Hc. nia.
  - assert (0 < fuel).
    { destruct fuel; [|lia]. change (2 ^ Z.of_nat 1)%Z with 2%Z in Hn.
      assert (n `div` base = 0)%Z by (apply Z.div_small; lia). done. }
    assert (0 ≤ n `div` base < 2 ^ Z.of_nat fuel)%Z.
    { split; [apply Z.div_pos; lia|]. rewrite Nat2Z.inj_succ, Z.pow_succ_r in Hn by lia.
      apply Z.div_lt_upper_bound; nia. }
    rewrite IH, Hc by done. cbn [length]. rewrite Nat2Z.inj_succ, Z.pow_succ_r by lia. nia.
Qed.

(** The digits of a number are the number. *)
Lemma digits_number base n : (2 ≤ base ≤ 16)%Z → is_u16 n → number base (digits base n) = n.
Proof.
  intros Hb Hn. unfold digits. rewrite digits_loop_number; [|done|exact Hn|lia].
  change (number base []) with 0%Z. change (length []) with 0. simpl. lia.
Qed.

Lemma digits_loop_u8 base fuel : ∀ n acc, (2 ≤ base ≤ 16)%Z →
  Forall is_u8 acc → Forall is_u8 (digits_loop fuel base n acc).
Proof.
  induction fuel as [|fuel IH]; intros n acc Hb Ha; [done|]. cbn [digits_loop].
  assert (Forall is_u8 (digit (n `mod` base) :: acc)) as Ha'.
  { constructor; [|done]. pose proof (Z.mod_pos_bound n base ltac:(lia)).
    unfold digit, is_u8. case_bool_decide; lia. }
  case_bool_decide; [done|by apply IH].
Qed.

Lemma digits_u8 base n : (2 ≤ base ≤ 16)%Z → Forall is_u8 (digits base n).
Proof. intros Hb. by apply digits_loop_u8. Qed.
