(* ===== verification/HuffmanDot.v ===== *)
(** * Drawing a tree

    Translation of the functions of [slave/huffman.c] that print a tree in the
    language of Graphviz (a debugging aid; the call in [huffman_compress] is
    commented out).  A function is the list of its calls of [fprintf] on the
    stream, and they are shown to draw the tree that is in memory. *)

From S2P Require Import Prelude HuffmanMem HuffmanSpec HuffmanQueue HuffmanTree HuffmanLib Avr Stdio.
From stdpp Require Import strings.
Import Huffman.

Module Dot.

Definition call : Type := list Z * list arg.

(** String literals with their quotes and newlines written as bytes. *)
Definition quote : list Z := [34%Z].
Definition newline : list Z := [10%Z].

Definition bst_print_dot_null (key nullcount : Z) : list call :=
  [(str "    null%d [shape=point];" ++ newline, [AInt nullcount]);
   (str "    %c -> null%d;" ++ newline, [AInt key; AInt nullcount])].

Section Print.
(** The address of a node of the array. *)
Context (address : nat → Z).

Definition node_ptr (p : ptr) : Z := match p with Some i => address i | None => 0%Z end.

Definition bst_print_byte (h : huffman_t) (node : ptr) : res (list call) :=
  n ← get_node h node;
  if bool_decide (byte n = 0%Z)
  then Ok [(quote ++ str "I%p %d" ++ quote, [APtr (node_ptr node); AInt (weight n)])]
  else Ok [(quote ++ str "%c %d" ++ quote, [AInt (byte n); AInt (weight n)])].

(** The lines of one edge and of the subtree below it; [label] is the text of
    the label. *)
Definition print_edge (h : huffman_t) (node child : ptr) (label : list Z) (below : res (list call))
    : res (list call) :=
  a ← bst_print_byte h node;
  b ← bst_print_byte h child;
  c ← below;
  Ok ([(str "    ", [])] ++ a ++ [(str " -> ", [])] ++ b ++
      [(str " [ label=" ++ quote ++ label ++ quote ++ str " ];" ++ newline, [])] ++ c).

Fixpoint bst_print_dot_aux (fuel : nat) (h : huffman_t) (node : ptr) : res (list call) :=
  match fuel with
  | O => Err NoFuel
  | S fuel' =>
      n ← get_node h node;
      l ← (match left n with
           | Some _ => print_edge h node (left n) (str "0") (bst_print_dot_aux fuel' h (left n))
           | None => Ok []
           end);
      r ← (match right n with
           | Some _ => print_edge h node (right n) (str "1") (bst_print_dot_aux fuel' h (right n))
           | None => Ok []
           end);
      Ok (l ++ r)
  end.

Definition bst_print_dot (name : list Z) (h : huffman_t) (tree : ptr) : res (list call) :=
  body ← (match tree with
          | None => Ok [(newline, [])]
          | Some _ =>
              n ← get_node h tree;
              if bool_decide (right n = None ∧ left n = None) then
                b ← bst_print_byte h tree;
                Ok ([(str "    ", [])] ++ b ++ [(str ";" ++ newline, [])])
              else bst_print_dot_aux (tfuel h) h tree
          end);
  Ok ([(str "digraph %s {" ++ newline, [AStr name]);
       (str "    node [fontname=" ++ quote ++ str "Arial" ++ quote ++ str "];" ++ newline, [])] ++
      body ++ [(str "}" ++ newline, [])]).
End Print.

End Dot.
Import Dot.

(** ** The drawing *)

(** What is printed of a node, but for its address. *)
Definition node_label (t : htree) : call :=
  if bool_decide (root_byte t = 0%Z) then (quote ++ str "I%p %d" ++ quote, [APtr 0; AInt (wt t)])
  else (quote ++ str "%c %d" ++ quote, [AInt (root_byte t); AInt (wt t)]).

(** One line from [t] to its child [c]. *)
Definition edge (t c : htree) (label : list Z) : list call :=
  [(str "    ", []); node_label t; (str " -> ", []); node_label c;
   (str " [ label=" ++ quote ++ label ++ quote ++ str " ];" ++ newline, [])].

(** The edges of a tree, every one labelled with the bit of the code it
    stands for, in preorder. *)
Fixpoint edges (t : htree) : list (htree * htree * bool) :=
  match t with
  | Leaf _ _ => []
  | Node _ l r => (t, l, false) :: edges l ++ (t, r, true) :: edges r
  end.

Definition draw_edge (x : htree * htree * bool) : list call :=
  let '(t, c, b) := x in edge t c (if b : bool then str "1" else str "0").

Definition drawing (name : list Z) (t : htree) : list call :=
  [(str "digraph %s {" ++ newline, [AStr name]);
   (str "    node [fontname=" ++ quote ++ str "Arial" ++ quote ++ str "];" ++ newline, [])] ++
  (match t with
   | Leaf _ _ => [(str "    ", []); node_label t; (str ";" ++ newline, [])]
   | Node _ _ _ => edges t ≫= draw_edge
   end) ++ [(str "}" ++ newline, [])].

(** The calls without the addresses of the nodes. *)
Definition erase_arg (a : arg) : arg := match a with APtr _ => APtr 0 | _ => a end.
Definition erase (c : call) : call := (c.1, erase_arg <$> c.2).

Lemma print_byte_label address h P p t : tree_at (tree_memory h) P p t →
  ∃ c, bst_print_byte address h (Some p) = Ok [c] ∧ erase c = node_label t.
Proof.
  intros (_ & n & Hn & Hw & Hb)%tree_at_root. unfold bst_print_byte, get_node, node_label.
  rewrite (proj2 (load_Ok _ _ _) Hn), res_bind_Ok, Hw, Hb.
  case_bool_decide; by eexists.
Qed.

Lemma print_edge_draws address h P p t q c label below out :
  tree_at (tree_memory h) P p t → tree_at (tree_memory h) P q c → below = Ok out →
  ∃ l, print_edge address h (Some p) (Some q) label below = Ok l ∧
    erase <$> l = edge t c label ++ (erase <$> out).
Proof.
  intros Ht Hc ->. destruct (print_byte_label address _ _ _ _ Ht) as (x & Ex & Hx).
  destruct (print_byte_label address _ _ _ _ Hc) as (y & Ey & Hy).
  unfold print_edge. rewrite Ex, Ey, !res_bind_Ok. eexists. split; [done|].
  rewrite !fmap_app. cbn [fmap list_fmap]. rewrite Hx, Hy. done.
Qed.

Lemma print_aux_draws address h P t : ∀ fuel p, tree_at (tree_memory h) P p t → depth t < fuel →
  ∃ l, bst_print_dot_aux address fuel h (Some p) = Ok l ∧ erase <$> l = edges t ≫= draw_edge.
Proof.
  induction t as [w b|w l IHl r IHr]; intros fuel p Ht Hf; (destruct fuel as [|fuel]; [lia|]).
  - destruct Ht as [_ Hp]. cbn [bst_print_dot_aux]. unfold get_node.
    rewrite (proj2 (load_Ok _ _ _) Hp), res_bind_Ok. by eexists.
  - pose proof Ht as (_ & pl & pr & Hp & Hl & Hr). cbn [depth] in Hf. cbn [bst_print_dot_aux]. unfold get_node.
    rewrite (proj2 (load_Ok _ _ _) Hp), res_bind_Ok. cbn [left right].
    destruct (IHl fuel pl Hl ltac:(lia)) as (ol & El & Dl).
    destruct (IHr fuel pr Hr ltac:(lia)) as (or & Er & Dr).
    destruct (print_edge_draws address h P p _ pl l (str "0") _ ol Ht Hl El) as (xl & -> & Dxl).
    destruct (print_edge_draws address h P p _ pr r (str "1") _ or Ht Hr Er) as (xr & -> & Dxr).
    rewrite !res_bind_Ok. eexists. split; [done|]. rewrite fmap_app, Dxl, Dxr, Dl, Dr.
    cbn [edges mbind list_bind]. change (list_bind _ _ draw_edge ?x) with (x ≫= draw_edge).
    rewrite bind_app. cbn [mbind list_bind]. by rewrite <- !app_assoc.
Qed.

(** A drawing has an edge for every node but the root. *)
Lemma edges_length t : length (edges t) = pred (HuffmanSpec.size t).
Proof.
  induction t as [|w l IHl r IHr]; [done|]. cbn [edges HuffmanSpec.size]. cbn [length].
  rewrite length_app. cbn [length]. rewrite IHl, IHr.
  assert (∀ t, 0 < HuffmanSpec.size t) as Hs by (intros []; simpl; lia). pose proof (Hs l). pose proof (Hs r). lia.
Qed.

(** [bst_print_dot] draws the tree: for a tree in memory it returns and
    prints, up to the addresses of inner nodes, the heading and one line for
    every edge in preorder, from the parent to the child and labelled with the
    bit of the code, or the root alone for a tree of one node. *)
Theorem bst_print_dot_draws address name h P p t :
  tree_at (tree_memory h) P p t → depth t < tfuel h →
  ∃ l, bst_print_dot address name h (Some p) = Ok l ∧ erase <$> l = drawing name t.
Proof.
  intros Ht Hf. unfold bst_print_dot, drawing. destruct t as [w b|w l r].
  - destruct (print_byte_label address _ _ _ _ Ht) as (x & Ex & Hx). destruct Ht as [_ Hp]. unfold get_node.
    rewrite (proj2 (load_Ok _ _ _) Hp), res_bind_Ok, bool_decide_true, Ex by done. cbn [left right].
    rewrite !res_bind_Ok. eexists. split; [done|]. rewrite !fmap_app. cbn [fmap list_fmap]. by rewrite Hx.
  - destruct (print_aux_draws address h P _ (tfuel h) p Ht Hf) as (o & Eo & Do).
    destruct Ht as (_ & pl & pr & Hp & _). unfold get_node.
    rewrite (proj2 (load_Ok _ _ _) Hp), res_bind_Ok, bool_decide_false, Eo by (by intros [? ?]).
    rewrite !res_bind_Ok. eexists. split; [done|]. by rewrite !fmap_app, Do.
Qed.

(** The text of a small drawing, with the pointers printed as their number. *)
Example small_drawing :
  let h := mk_huffman [mk_node None None 1 97; mk_node None None 2 98; mk_node (Some 0) (Some 1) 3 0]
             3 3 [] 0 0 in
  (l ← (match bst_print_dot (λ i, Z.of_nat i) (str "t") h (Some 2) with Ok l => Some l | Err _ => None end);
   print_calls (digits 16) l) =
  Some (str "digraph t {" ++ newline ++
        str "    node [fontname=" ++ quote ++ str "Arial" ++ quote ++ str "];" ++ newline ++
        str "    " ++ quote ++ str "I2 3" ++ quote ++ str " -> " ++ quote ++ str "a 1" ++ quote ++
        str " [ label=" ++ quote ++ str "0" ++ quote ++ str " ];" ++ newline ++
        str "    " ++ quote ++ str "I2 3" ++ quote ++ str " -> " ++ quote ++ str "b 2" ++ quote ++
        str " [ label=" ++ quote ++ str "1" ++ quote ++ str " ];" ++ newline ++
        str "}" ++ newline).
Proof. vm_compute. reflexivity. Qed.
