(* ===== verification/Board.v ===== *)
(** * The board: the two-wire unit, the ports and stdio

    [twi] is the documented behaviour of the ATmega32u4 two-wire unit in
    master mode, over an I2C bus [B] whose devices answer through the class
    [I2cBus].  [io] is the rest of the board the firmware touches.  The class
    [Board] says that a hardware state [D] behaves like that: its fields are
    laws relating every operation of [Mcu] to the view [hview].  The time the
    unit takes is not fixed: a command completes after at most [latency]
    reads of the control register.  [sim_board] is an executable board. *)

From S2P Require Import Prelude Avr.
From stdpp Require Import gmap.

(** ** The bus *)

(** [bus_start] says whether the START condition went through, [bus_addr] and
    [bus_put] whether the byte was acknowledged, [bus_get ack] is the byte the
    selected device sends, answered with an ACK or a NACK. *)
Class I2cBus (B : Type) := {
  bus_start : B → bool * B;
  bus_addr : Z → B → bool * B;
  bus_put : Z → B → bool * B;
  bus_get : bool → B → Z * B;
  bus_stop : B → B }.

#[export] Hint Mode I2cBus ! : typeclass_instances.

(** A bus without devices. *)
#[export] Instance unit_bus : I2cBus unit := {|
  bus_start _ := (true, tt); bus_addr _ _ := (false, tt); bus_put _ _ := (false, tt);
  bus_get _ _ := (255%Z, tt); bus_stop _ := tt |}.

(** ** The two-wire unit *)

Definition TWINT : Z := 7.
Definition TWEA : Z := 6.
Definition TWSTA : Z := 5.
Definition TWSTO : Z := 4.
Definition TWEN : Z := 2.
Definition TWIE : Z := 0.

Definition TW_START : Z := 0x08.
Definition TW_REP_START : Z := 0x10.
Definition TW_MT_SLA_ACK : Z := 0x18.
Definition TW_MT_SLA_NACK : Z := 0x20.
Definition TW_MT_DATA_ACK : Z := 0x28.
Definition TW_MT_DATA_NACK : Z := 0x30.
Definition TW_MR_SLA_ACK : Z := 0x40.
Definition TW_MR_SLA_NACK : Z := 0x48.
Definition TW_MR_DATA_ACK : Z := 0x50.
Definition TW_MR_DATA_NACK : Z := 0x58.
Definition TW_NO_INFO : Z := 0xF8.
Definition TW_BUS_ERROR : Z := 0x00.

Inductive phase := Released | Addressing | Writing | Reading.

#[export] Instance phase_eq_dec : EqDecision phase.
Proof. solve_decision. Defined.

(** [tw_pend]: reads of the control register until the command is complete;
    [tw_int]: the command ends by raising TWINT; [tw_sto]: it is a STOP. *)
Record twi (B : Type) := mk_twi {
  tw_phase : phase; tw_status : Z; tw_data : Z;
  tw_int : bool; tw_sto : bool; tw_pend : nat; tw_bus : B }.
Arguments mk_twi {_} _ _ _ _ _ _ _.
Arguments tw_phase {_} _.
Arguments tw_status {_} _.
Arguments tw_data {_} _.
Arguments tw_int {_} _.
Arguments tw_sto {_} _.
Arguments tw_pend {_} _.
Arguments tw_bus {_} _.

Definition with_pend {B} (n : nat) (t : twi B) : twi B :=
  mk_twi (tw_phase t) (tw_status t) (tw_data t) (tw_int t) (tw_sto t) n (tw_bus t).

Definition with_data {B} (x : Z) (t : twi B) : twi B :=
  mk_twi (tw_phase t) (tw_status t) x (tw_int t) (tw_sto t) (tw_pend t) (tw_bus t).

(** The commands, as the value written to TWCR. *)
Inductive command := Off | Start | Stop | Go (ack : bool).

Definition twcr (c : command) : Z :=
  match c with
  | Off => 0
  | Start => Z.lor (Z.lor (bit TWINT) (bit TWSTA)) (bit TWEN)
  | Stop => Z.lor (Z.lor (bit TWINT) (bit TWEN)) (bit TWSTO)
  | Go false => Z.lor (bit TWINT) (bit TWEN)
  | Go true => Z.lor (Z.lor (bit TWINT) (bit TWEN)) (bit TWEA)
  end.

Section Twi.
Context `{I2cBus B}.

(** The state the unit reaches when the command is complete. *)
Definition twi_command (c : command) (t : twi B) : twi B :=
  match c, tw_phase t with
  | Off, _ => mk_twi Released TW_NO_INFO (tw_data t) false false 0 (tw_bus t)
  | Start, p =>
      let '(ok, b) := bus_start (tw_bus t) in
      if (ok : bool)
      then mk_twi Addressing (if bool_decide (p = Released) then TW_START else TW_REP_START)
                  (tw_data t) true false 0 b
      else mk_twi Released TW_BUS_ERROR (tw_data t) true false 0 b
  | Stop, _ =>
      mk_twi Released TW_NO_INFO (tw_data t) false true 0 (bus_stop (tw_bus t))
  | Go _, Released => mk_twi Released (tw_status t) (tw_data t) false false 0 (tw_bus t)
  | Go _, Addressing =>
      let '(ack, b) := bus_addr (tw_data t) (tw_bus t) in
      if Z.testbit (tw_data t) 0
      then mk_twi Reading (if (ack : bool) then TW_MR_SLA_ACK else TW_MR_SLA_NACK)
                  (tw_data t) true false 0 b
      else mk_twi Writing (if (ack : bool) then TW_MT_SLA_ACK else TW_MT_SLA_NACK)
                  (tw_data t) true false 0 b
  | Go _, Writing =>
      let '(ack, b) := bus_put (tw_data t) (tw_bus t) in
      mk_twi Writing (if (ack : bool) then TW_MT_DATA_ACK else TW_MT_DATA_NACK)
             (tw_data t) true false 0 b
  | Go a, Reading =>
      let '(x, b) := bus_get a (tw_bus t) in
      mk_twi Reading (if a then TW_MR_DATA_ACK else TW_MR_DATA_NACK) x true false 0 b
  end.
End Twi.

(** ** Ports and stdio *)

Definition reg_index (r : reg) : nat :=
  match r with
  | TWBR => 0 | TWCR => 1 | TWSR => 2 | TWDR => 3 | TWAR => 4
  | DDRB => 5 | PORTB => 6 | PINB => 7 | DDRC => 8 | PORTC => 9 | PINC => 10
  | DDRD => 11 | PORTD => 12 | PIND => 13 | PCICR => 14 | PCMSK0 => 15 | USBCON => 16
  end.

Definition reg_at (n : nat) : reg :=
  nth n [TWBR; TWCR; TWSR; TWDR; TWAR; DDRB; PORTB; PINB; DDRC; PORTC; PINC;
         DDRD; PORTD; PIND; PCICR; PCMSK0; USBCON] TWBR.

#[export] Instance reg_countable : Countable reg.
Proof. apply (inj_countable' reg_index reg_at). by intros []. Defined.

(** The registers that hold what was last written to them. *)
Definition latch (r : reg) : bool :=
  match r with
  | DDRB | PORTB | DDRC | PORTC | DDRD | PORTD | PCICR | PCMSK0 => true
  | _ => false
  end.

(** [io_in] are the characters stdin delivers, [None] for a read that finds
    none; [io_pins] the levels at port B, one per read of PINB; [io_irqs] the
    numbers of interrupts, one per question. *)
Record io := mk_io {
  io_gpio : gmap reg Z;
  io_out : list (list Z * list Z);
  io_in : list (option Z);
  io_pins : list Z;
  io_irqs : list nat }.

Definition gpio (i : io) (r : reg) : Z := default 0%Z (io_gpio i !! r).

Definition set_gpio (r : reg) (v : Z) (i : io) : io :=
  mk_io (<[r := v]> (io_gpio i)) (io_out i) (io_in i) (io_pins i) (io_irqs i).

Definition io_print (fmt args : list Z) (i : io) : io :=
  mk_io (io_gpio i) (io_out i ++ [(fmt, args)]) (io_in i) (io_pins i) (io_irqs i).

Definition EOF : Z := -1.

Definition io_getc (i : io) : Z * io :=
  match io_in i with
  | Some c :: l => (c, mk_io (io_gpio i) (io_out i) l (io_pins i) (io_irqs i))
  | None :: l => (EOF, mk_io (io_gpio i) (io_out i) l (io_pins i) (io_irqs i))
  | [] => (EOF, i)
  end.

Definition io_pinb (i : io) : Z * io :=
  match io_pins i with
  | v :: l => (v, mk_io (io_gpio i) (io_out i) (io_in i) l (io_irqs i))
  | [] => (255%Z, i)
  end.

Definition io_irq (i : io) : nat * io :=
  match io_irqs i with
  | n :: l => (n, mk_io (io_gpio i) (io_out i) (io_in i) (io_pins i) l)
  | [] => (0, i)
  end.

(** ** The laws *)

Record hw (B : Type) := mk_hw { h_twi : twi B; h_io : io }.
Arguments mk_hw {_} _ _.
Arguments h_twi {_} _.
Arguments h_io {_} _.

Class Board (D B : Type) `{Mcu D, I2cBus B} := {
  hview : D → hw B;
  latency : nat;
  (* the control register shows TWINT and TWSTO once the command is complete *)
  twcr_read d v d' :
    mcu_read TWCR d = (v, d') →
    let t := h_twi (hview d) in
    Z.testbit v TWINT = (tw_int t && (tw_pend t =? 0)) ∧
    Z.testbit v TWSTO = (tw_sto t && negb (tw_pend t =? 0)) ∧
    hview d' = mk_hw (with_pend (pred (tw_pend t)) t) (h_io (hview d));
  twcr_write d c :
    ∃ n, n ≤ latency ∧
      hview (mcu_write TWCR (twcr c) d) =
      mk_hw (with_pend n (twi_command c (h_twi (hview d)))) (h_io (hview d));
  (* clearing TWEN switches the unit off at once *)
  twcr_off d x :
    Z.testbit x TWEN = false →
    hview (mcu_write TWCR x d) = mk_hw (twi_command Off (h_twi (hview d))) (h_io (hview d));
  (* status and data are valid when the unit is not busy *)
  twsr_read d v d' :
    tw_pend (h_twi (hview d)) = 0 → mcu_read TWSR d = (v, d') →
    Z.land v 0xF8 = Z.land (tw_status (h_twi (hview d))) 0xF8 ∧ hview d' = hview d;
  twdr_read d v d' :
    tw_pend (h_twi (hview d)) = 0 → mcu_read TWDR d = (v, d') →
    v = tw_data (h_twi (hview d)) ∧ hview d' = hview d;
  twdr_write d x :
    tw_pend (h_twi (hview d)) = 0 → is_u8 x →
    hview (mcu_write TWDR x d) = mk_hw (with_data x (h_twi (hview d))) (h_io (hview d));
  twbr_write d x : hview (mcu_write TWBR x d) = hview d;
  (* ports keep what is written to them *)
  latch_read d r v d' :
    latch r = true → mcu_read r d = (v, d') →
    v = gpio (h_io (hview d)) r ∧ hview d' = hview d;
  latch_write d r x :
    latch r = true → is_u8 x →
    hview (mcu_write r x d) = mk_hw (h_twi (hview d)) (set_gpio r x (h_io (hview d)));
  pinb_read d v d' :
    mcu_read PINB d = (v, d') →
    v = fst (io_pinb (h_io (hview d))) ∧
    hview d' = mk_hw (h_twi (hview d)) (snd (io_pinb (h_io (hview d))));
  (* waiting lets the unit go on *)
  delay_law d ms :
    ∃ n, n ≤ tw_pend (h_twi (hview d)) ∧
      hview (mcu_delay ms d) = mk_hw (with_pend n (h_twi (hview d))) (h_io (hview d));
  print_law d fmt args :
    hview (mcu_print fmt args d) = mk_hw (h_twi (hview d)) (io_print fmt args (h_io (hview d)));
  getc_law d c d' :
    mcu_getc d = (c, d') →
    c = fst (io_getc (h_io (hview d))) ∧
    hview d' = mk_hw (h_twi (hview d)) (snd (io_getc (h_io (hview d))));
  usb_setup_law d : hview (mcu_usb_setup d) = hview d;
  usb_task_law d : hview (mcu_usb_task d) = hview d;
  irqs_law d n d' :
    mcu_irqs d = (n, d') →
    n = fst (io_irq (h_io (hview d))) ∧
    hview d' = mk_hw (h_twi (hview d)) (snd (io_irq (h_io (hview d)))) }.

(** ** An executable board *)

Section Sim.
Context `{I2cBus B}.

Definition sim_twcr (t : twi B) : Z :=
  Z.lor (if tw_int t && (tw_pend t =? 0) then bit TWINT else 0)
        (if tw_sto t && negb (tw_pend t =? 0) then bit TWSTO else 0).

Definition sim_read (r : reg) (d : hw B) : Z * hw B :=
  let t := h_twi d in
  match r with
  | TWCR => (sim_twcr t, mk_hw (with_pend (pred (tw_pend t)) t) (h_io d))
  | TWSR => (tw_status t, d)
  | TWDR => (tw_data t, d)
  | PINB => let '(v, i) := io_pinb (h_io d) in (v, mk_hw t i)
  | _ => (gpio (h_io d) r, d)
  end.

Definition sim_command (v : Z) : option command :=
  if bool_decide (v = twcr Start) then Some Start
  else if bool_decide (v = twcr Stop) then Some Stop
  else if bool_decide (v = twcr (Go false)) then Some (Go false)
  else if bool_decide (v = twcr (Go true)) then Some (Go true)
  else None.

(** Every command takes two reads of the control register; switching the unit
    off takes none. *)
Definition sim_write (r : reg) (x : Z) (d : hw B) : hw B :=
  let t := h_twi d in
  match r with
  | TWCR => if negb (Z.testbit x TWEN) then mk_hw (twi_command Off t) (h_io d)
            else match sim_command x with
                 | Some c => mk_hw (with_pend 2 (twi_command c t)) (h_io d)
                 | None => d
                 end
  | TWDR => mk_hw (with_data x t) (h_io d)
  | _ => if latch r then mk_hw t (set_gpio r x (h_io d)) else d
  end.

#[export] Instance sim_mcu : Mcu (hw B) := {|
  mcu_read := sim_read;
  mcu_write := sim_write;
  mcu_delay _ d := mk_hw (with_pend (pred (tw_pend (h_twi d))) (h_twi d)) (h_io d);
  mcu_print fmt args d := mk_hw (h_twi d) (io_print fmt args (h_io d));
  mcu_getc d := let '(c, i) := io_getc (h_io d) in (c, mk_hw (h_twi d) i);
  mcu_usb_setup d := d;
  mcu_usb_task d := d;
  mcu_irqs d := let '(n, i) := io_irq (h_io d) in (n, mk_hw (h_twi d) i) |}.

#[export] Program Instance sim_board : Board (hw B) B := {| hview d := d; latency := 2 |}.
Next Obligation.
  intros d v d' [= <- <-]. unfold sim_twcr.
  repeat match goal with |- context [if ?b then _ else _] => destruct b end; done.
Qed.
Next Obligation.
  intros d c. exists (match c with Off => 0 | _ => 2 end). by destruct c as [| | |[]]; split; [lia|..].
Qed.
Next Obligation. intros d x Hx. cbn [sim_write mcu_write sim_mcu]. by rewrite Hx. Qed.
Next Obligation. by intros d v d' _ [= <- <-]. Qed.
Next Obligation. by intros d v d' _ [= <- <-]. Qed.
Next Obligation. by intros d x _ _. Qed.
Next Obligation. by intros d x. Qed.
Next Obligation.
  intros d r v d' Hr E. destruct r; try discriminate Hr; injection E as <- <-; done.
Qed.
Next Obligation. by intros d [] x Hr _. Qed.
Next Obligation.
  intros d v d'. simpl. destruct (io_pinb (h_io d)) as [x i]. by intros [= <- <-].
Qed.
Next Obligation. intros d ms. exists (pred (tw_pend (h_twi d))). split; [lia|done]. Qed.
Next Obligation. by intros d fmt args. Qed.
Next Obligation.
  intros d c d'. simpl. destruct (io_getc (h_io d)) as [x i]. by intros [= <- <-].
Qed.
Next Obligation. by intros d. Qed.
Next Obligation. by intros d. Qed.
Next Obligation.
  intros d n d'. simpl. destruct (io_irq (h_io d)) as [x i]. by intros [= <- <-].
Qed.
End Sim.

(** The executable board at power-up, with nothing on the bus. *)
Definition bare_board (i : io) : hw unit :=
  mk_hw (mk_twi Released TW_NO_INFO 0 false false 0 tt) i.
