(* ===== verification/I2cMaster.v ===== *)
(** * The I2C master library

    Translation of [main/i2c_master.c] (the copy in [slave/] differs in the
    metadata [format_storage] writes).  Every polling loop takes [fuel]
    iterations at most.  A [uint8_t *data] argument is a buffer and the
    position the pointer points to. *)

From S2P Require Import Prelude Avr Board.
From stdpp Require Import strings.

Module I2c.

Definition F_CPU : Z := 16000000.
Definition F_SCL : Z := 100000.
Definition Prescaler : Z := 1.
Definition TWBR_val : Z := (((F_CPU `div` F_SCL) `div` Prescaler) - 16) `div` 2.

Definition I2C_READ : Z := 1.
Definition I2C_WRITE : Z := 0.
Definition MB85RC_DEFAULT_ADDRESS : Z := 0x50.
Definition I2C_SLAVE_BASE_ID : Z := 0x20.
Definition I2C_READY : Z := 1.
Definition JOB_BIT : Z := 1.
Definition ENCODE : Z := Z.shiftl 1 JOB_BIT.
Definition DECODE : Z := Z.shiftl 0 JOB_BIT.

Section Master.
Context `{Mcu D} (fuel : nat).

Definition i2c_init : IO D unit := write TWBR (u8 TWBR_val).

(** [while ((ms_timeout--) || (!(TWCR & (1 << TWINT)))) _delay_ms(1);] *)
Fixpoint timeout_loop (n : nat) (ms_timeout : Z) : IO D unit :=
  match n with
  | O => fail NoFuel
  | S n' =>
      if bool_decide (ms_timeout ≠ 0%Z) then
        delay_ms 1;; timeout_loop n' (u8 (ms_timeout - 1))
      else
        v ← read TWCR;
        if bool_decide (Z.land v (bit TWINT) ≠ 0%Z) then mret tt
        else delay_ms 1;; timeout_loop n' (u8 (ms_timeout - 1))
  end.

Definition i2c_start_timeout (address ms_timeout : Z) : IO D Z :=
  write TWCR 0;;
  write TWCR (Z.lor (Z.lor (bit TWINT) (bit TWSTA)) (bit TWEN));;
  wait_set fuel TWCR (bit TWINT);;
  s ← read TWSR;
  if bool_decide (Z.land s 0xF8 ≠ TW_START) then
    printf (str "Error: start condition transmission did not succeed" ++ crlf) [];;
    mret 1%Z
  else
    write TWDR address;;
    write TWCR (Z.lor (bit TWINT) (bit TWEN));;
    (if bool_decide (0 < ms_timeout)%Z
     then timeout_loop fuel ms_timeout
     else wait_set fuel TWCR (bit TWINT));;
    s1 ← read TWSR;
    if bool_decide (Z.land s1 0xF8 ≠ TW_MT_SLA_ACK) then
      s2 ← read TWSR;
      if bool_decide (Z.land s2 0xF8 ≠ TW_MR_SLA_ACK) then mret 1%Z else mret 0%Z
    else mret 0%Z.

Definition i2c_start (address : Z) : IO D Z := i2c_start_timeout address 0.

(** One round of the [while (1)] loop per unit of [n]. *)
Fixpoint start_wait_loop (n : nat) (address : Z) : IO D Z :=
  match n with
  | O => fail NoFuel
  | S n' =>
      write TWCR (Z.lor (Z.lor (bit TWINT) (bit TWSTA)) (bit TWEN));;
      wait_set fuel TWCR (bit TWINT);;
      s1 ← read TWSR;
      again ← (if bool_decide (Z.land s1 0xF8 ≠ TW_START)
               then s2 ← read TWSR; mret (bool_decide (Z.land s2 0xF8 ≠ TW_REP_START))
               else mret false);
      if (again : bool) then start_wait_loop n' address
      else
        write TWDR address;;
        write TWCR (Z.lor (bit TWINT) (bit TWEN));;
        wait_set fuel TWCR (bit TWINT);;
        s3 ← read TWSR;
        busy ← (if bool_decide (Z.land s3 0xF8 = TW_MT_SLA_NACK) then mret true
                else s4 ← read TWSR; mret (bool_decide (Z.land s4 0xF8 = TW_MR_DATA_NACK)));
        if (busy : bool) then
          write TWCR (Z.lor (Z.lor (bit TWINT) (bit TWEN)) (bit TWSTO));;
          wait_clear fuel TWCR (bit TWSTO);;
          start_wait_loop n' address
        else
          s5 ← read TWSR;
          if bool_decide (Z.land s5 0xF8 ≠ TW_MT_SLA_ACK) then mret 1%Z else mret 0%Z
  end.

Definition i2c_start_wait (address : Z) : IO D Z := start_wait_loop fuel address.

Definition i2c_read_ack : IO D Z :=
  write TWCR (Z.lor (Z.lor (bit TWINT) (bit TWEN)) (bit TWEA));;
  wait_set fuel TWCR (bit TWINT);;
  read TWDR.

Definition i2c_write (data : Z) : IO D Z :=
  write TWDR data;;
  write TWCR (Z.lor (bit TWINT) (bit TWEN));;
  wait_set fuel TWCR (bit TWINT);;
  s ← read TWSR;
  if bool_decide (Z.land s 0xF8 ≠ TW_MT_DATA_ACK) then
    s1 ← read TWSR;
    printf (str "TWSR & 0xF8 : %04x" ++ crlf ++ str "TW_MT_DATA_ACK : %04x" ++ crlf)
           [Z.land s1 0xF8; TW_MT_DATA_ACK];;
    mret 1%Z
  else mret 0%Z.

Definition i2c_read_nack : IO D Z :=
  write TWCR (Z.lor (bit TWINT) (bit TWEN));;
  wait_set fuel TWCR (bit TWINT);;
  read TWDR.

Definition i2c_stop : IO D unit :=
  write TWCR (Z.lor (Z.lor (bit TWINT) (bit TWEN)) (bit TWSTO));;
  wait_clear fuel TWCR (bit TWSTO).

Definition i2c_rep_start (address : Z) : IO D Z := i2c_start address.

(** [for (uint16_t i ...) if (i2c_write(data[i])) return 1;] *)
Fixpoint write_loop (n i : nat) (data : list Z) : IO D Z :=
  match n with
  | O => mret 0%Z
  | S n' =>
      x ← pure (load data i);
      c ← i2c_write x;
      if bool_decide (c ≠ 0%Z) then mret 1%Z else write_loop n' (S i) data
  end.

(** [for (uint16_t i ...) data[i] = i2c_read_ack();] *)
Fixpoint read_loop (n i : nat) (data : list Z) : IO D (list Z) :=
  match n with
  | O => mret data
  | S n' =>
      x ← i2c_read_ack;
      data1 ← pure (store data i x);
      read_loop n' (S i) data1
  end.

Definition i2c_transmit (address : Z) (data : list Z) (pos : nat) (length : Z) : IO D Z :=
  c ← i2c_start (Z.lor address I2C_WRITE);
  if bool_decide (c ≠ 0%Z) then mret 1%Z
  else
    c1 ← write_loop (Z.to_nat length) pos data;
    if bool_decide (c1 ≠ 0%Z) then mret 1%Z else i2c_stop;; mret 0%Z.

(** The bytes received, the last one not acknowledged; [length - 1] is
    computed as [unsigned int]. *)
Definition receive_bytes (data : list Z) (pos : nat) (length : Z) : IO D (list Z) :=
  let last := Z.to_nat (u16 (length - 1)) in
  data1 ← read_loop last pos data;
  x ← i2c_read_nack;
  data2 ← pure (store data1 (pos + last) x);
  i2c_stop;;
  mret data2.

Definition i2c_receive (address : Z) (data : list Z) (pos : nat) (length : Z)
    : IO D (Z * list Z) :=
  c ← i2c_start (Z.lor address I2C_READ);
  if bool_decide (c ≠ 0%Z) then mret (1%Z, data)
  else data1 ← receive_bytes data pos length; mret (0%Z, data1).

Definition i2c_write_start (devaddr offset_addr : Z) : IO D Z :=
  i2c_init;;
  c ← i2c_start (u8 (Z.lor (Z.shiftl devaddr 1) I2C_WRITE));
  if bool_decide (c ≠ 0%Z) then
    printf (str "i2c_start error" ++ crlf) [];; mret 1%Z
  else
    wait_set fuel TWCR (bit TWINT);;
    i2c_write (u8 (Z.shiftr offset_addr 8));;
    i2c_write (Z.land offset_addr 0xFF);;
    mret 0%Z.

Definition i2c_writeReg (devaddr offset_addr : Z) (data : list Z) (pos : nat) (length : Z)
    : IO D Z :=
  c ← i2c_write_start devaddr offset_addr;
  if bool_decide (c ≠ 0%Z) then printf (str "write_start failed") [];; mret 1%Z
  else
    c1 ← write_loop (Z.to_nat length) pos data;
    if bool_decide (c1 ≠ 0%Z) then
      printf (str "i2c_write error" ++ crlf) [];; mret 1%Z
    else i2c_stop;; mret 0%Z.

Definition i2c_readReg (devaddr offset_addr : Z) (data : list Z) (pos : nat) (length : Z)
    : IO D (Z * list Z) :=
  i2c_init;;
  c ← i2c_start (u8 (Z.shiftl devaddr 1));
  if bool_decide (Z.lor c I2C_WRITE ≠ 0%Z) then
    printf (str "Error: readReg::start(devaddr)" ++ crlf) [];; mret (1%Z, data)
  else
    i2c_write (u8 (Z.shiftr offset_addr 8));;
    i2c_write (Z.land offset_addr 0xFF);;
    c1 ← i2c_start (u8 (Z.lor (Z.shiftl devaddr 1) I2C_READ));
    if bool_decide (c1 ≠ 0%Z) then
      printf (str "Error in readingReg::start(devaddr | 0x%02x)" ++ crlf) [I2C_READ];;
      mret (1%Z, data)
    else
      data1 ← receive_bytes data pos length; mret (0%Z, data1).

(** The bytes of an array of [uint16_t] (little-endian target). *)
Definition le16 (l : list Z) : list Z := l ≫= λ x, [x `mod` 256; x `div` 256]%Z.

(** The first loop of [format_storage], [n] iterations from [i] on. *)
Fixpoint format_loop (n : nat) (i devaddr : Z) : IO D unit :=
  match n with
  | O => mret tt
  | S n' =>
      i2c_writeReg devaddr (i * 4) [0; 0; 0; 0]%Z 0 4;;
      format_loop n' (i + 1) devaddr
  end.

Definition format_storage (devaddr : Z) : IO D unit :=
  format_loop (Z.to_nat 8000) 0 devaddr;;
  i2c_writeReg devaddr 0 (le16 [8; 8; 16004; 16004]%Z) 0 8;;
  mret tt.
End Master.

End I2c.
