(* ===== verification/I2cWire.v ===== *)
(** * What the I2C master library does on the wire

    [wire] is the bus as a transaction-level program sees it: whether the
    master holds it and in which direction, the devices and the rest of the
    board.  [w_start], [w_write], [w_read] and [w_stop] are the four
    operations; the library's routines refine programs made of them, on every
    board that satisfies the laws of [Board]. *)

From S2P Require Import Prelude Avr Board I2cMaster.
From stdpp Require Import strings.
Import I2c.

#[local] Arguments Z.testbit : simpl never.
#[local] Arguments Z.land : simpl never.

Record wire (B : Type) := mk_wire { w_link : phase; w_bus : B; w_io : io }.
Arguments mk_wire {_} _ _ _.
Arguments w_link {_} _.
Arguments w_bus {_} _.
Arguments w_io {_} _.

Section Wire.
Context `{I2cBus B}.

Definition w_print (fmt args : list Z) : IO (wire B) unit := λ w,
  Ok (tt, mk_wire (w_link w) (w_bus w) (io_print fmt args (w_io w))).

(** START and the address byte. *)
Definition w_start (a : Z) : IO (wire B) Z := λ w,
  let '(ok, b) := bus_start (w_bus w) in
  if (ok : bool) then
    let '(ack, b1) := bus_addr a b in
    Ok (if (ack : bool) then 0%Z else 1%Z,
        mk_wire (if Z.testbit a 0 then Reading else Writing) b1 (w_io w))
  else
    Ok (1%Z, mk_wire Released b
      (io_print (str "Error: start condition transmission did not succeed" ++ crlf) [] (w_io w))).

(** One byte to the addressed device; a NACK is reported on stdout. *)
Definition w_write (x : Z) : IO (wire B) Z := λ w,
  if bool_decide (w_link w = Writing) then
    let '(ack, b) := bus_put x (w_bus w) in
    if (ack : bool) then Ok (0%Z, mk_wire Writing b (w_io w))
    else Ok (1%Z, mk_wire Writing b
      (io_print (str "TWSR & 0xF8 : %04x" ++ crlf ++ str "TW_MT_DATA_ACK : %04x" ++ crlf)
                [TW_MT_DATA_NACK; TW_MT_DATA_ACK] (w_io w)))
  else Err NoFuel.

Definition w_read (ack : bool) : IO (wire B) Z := λ w,
  if bool_decide (w_link w = Reading) then
    let '(x, b) := bus_get ack (w_bus w) in Ok (x, mk_wire Reading b (w_io w))
  else Err NoFuel.

Definition w_stop : IO (wire B) unit := λ w,
  Ok (tt, mk_wire Released (bus_stop (w_bus w)) (w_io w)).

(** The bytes of [l], up to the first that is not acknowledged. *)
Fixpoint w_send (l : list Z) : IO (wire B) Z :=
  match l with
  | [] => mret 0%Z
  | x :: l' => c ← w_write x; if bool_decide (c ≠ 0%Z) then mret 1%Z else w_send l'
  end.

(** [n] bytes that are acknowledged and one that is not. *)
Fixpoint w_receive (n : nat) : IO (wire B) (list Z) :=
  match n with
  | O => x ← w_read false; mret [x]
  | S n' => x ← w_read true; l ← w_receive n'; mret (x :: l)
  end.

(** The transaction that writes [data] at offset [off] of device [dev]. *)
Definition w_writeReg (dev off : Z) (data : list Z) : IO (wire B) Z :=
  c ← w_start (u8 (2 * dev));
  if bool_decide (c ≠ 0%Z) then
    w_print (str "i2c_start error" ++ crlf) [];; w_print (str "write_start failed") [];;
    mret 1%Z
  else
    w_write (u8 (off `div` 256));; w_write (off `mod` 256)%Z;;
    c1 ← w_send data;
    if bool_decide (c1 ≠ 0%Z) then w_print (str "i2c_write error" ++ crlf) [];; mret 1%Z
    else w_stop;; mret 0%Z.

(** The transaction that reads [n] bytes at offset [off] of device [dev]. *)
Definition w_readReg (dev off : Z) (n : nat) : IO (wire B) (option (list Z)) :=
  c ← w_start (u8 (2 * dev));
  if bool_decide (c ≠ 0%Z) then
    w_print (str "Error: readReg::start(devaddr)" ++ crlf) [];; mret None
  else
    w_write (u8 (off `div` 256));; w_write (off `mod` 256)%Z;;
    c1 ← w_start (u8 (2 * dev + 1));
    if bool_decide (c1 ≠ 0%Z) then
      w_print (str "Error in readingReg::start(devaddr | 0x%02x)" ++ crlf) [I2C_READ];;
      mret None
    else l ← w_receive (pred n); w_stop;; mret (Some l).
End Wire.

(** ** Bits *)

Lemma land_bit v n : (0 ≤ n)%Z → Z.land v (bit n) ≠ 0%Z ↔ Z.testbit v n = true.
Proof.
  intros Hn. unfold bit. rewrite Z.shiftl_1_l. split.
  - intros Hne. apply not_false_is_true. intros Hf. apply Hne. apply Z.bits_inj'.
    intros i Hi. rewrite Z.land_spec, Z.pow2_bits_eqb, Z.bits_0 by done.
    destruct (Z.eqb_spec n i) as [<-|]; [by rewrite Hf|apply andb_false_r].
  - intros Ht E. assert (Z.testbit (Z.land v (2 ^ n)) n = false) as Hx
      by (by rewrite E, Z.bits_0).
    by rewrite Z.land_spec, Ht, Z.pow2_bits_true in Hx.
Qed.

Lemma twint_test v : bool_decide (Z.land v (bit TWINT) ≠ 0%Z) = Z.testbit v TWINT.
Proof.
  pose proof (land_bit v TWINT ltac:(unfold TWINT; lia)) as E.
  destruct (Z.testbit v TWINT); [by apply bool_decide_true, E|].
  apply bool_decide_false. intros Hc%E. done.
Qed.

Lemma twsto_test v : bool_decide (Z.land v (bit TWSTO) ≠ 0%Z) = Z.testbit v TWSTO.
Proof.
  pose proof (land_bit v TWSTO ltac:(unfold TWSTO; lia)) as E.
  destruct (Z.testbit v TWSTO); [by apply bool_decide_true, E|].
  apply bool_decide_false. intros Hc%E. done.
Qed.

Lemma dev_write_addr dev : Z.lor (Z.shiftl dev 1) I2C_WRITE = (2 * dev)%Z.
Proof. unfold I2C_WRITE. rewrite Z.lor_0_r, Z.shiftl_mul_pow2 by lia. lia. Qed.

Lemma dev_read_addr dev : Z.lor (Z.shiftl dev 1) I2C_READ = (2 * dev + 1)%Z.
Proof.
  unfold I2C_READ. pose proof (Z.add_lor_land (Z.shiftl dev 1) 1) as E.
  rewrite Z.shiftl_mul_pow2, Z.pow_1_r in * by lia.
  assert (Z.land (dev * 2) 1 = 0)%Z as Hz; [|lia].
  rewrite (Z.land_ones _ 1), Z.pow_1_r by lia. apply Z.mod_mul. lia.
Qed.

Lemma off_hi off : u8 (u8 (Z.shiftr off 8)) = u8 (off `div` 256).
Proof.
  rewrite (u8_small (u8 _)) by apply u8_range. by rewrite Z.shiftr_div_pow2 by lia.
Qed.

Lemma off_lo off : u8 (Z.land off 0xFF) = (off `mod` 256)%Z.
Proof.
  change 0xFF%Z with (Z.ones 8). rewrite Z.land_ones by lia. apply u8_small, u8_range.
Qed.

Lemma read_addr_bit dev : Z.testbit (u8 (2 * dev + 1)) 0 = true.
Proof.
  rewrite Z.bit0_odd. unfold u8. rewrite Z.odd_spec. exists (dev `mod` 128)%Z.
  Z.to_euclidean_division_equations. lia.
Qed.

Section Refinement.
Context `{Board D B} (fuel : nat).

Definition on_wire (d : D) (w : wire B) : Prop :=
  let t := h_twi (hview d) in
  tw_pend t = 0 ∧ tw_phase t = w_link w ∧ tw_bus t = w_bus w ∧
  h_io (hview d) = w_io w ∧ (w_link w ≠ Released → tw_int t = true).

(** ** Waiting *)

Lemma wait_set_done d t i : ∀ n, hview d = mk_hw t i → tw_int t = true → tw_pend t < n →
  ∃ d', wait_set n TWCR (bit TWINT) d = Ok (tt, d') ∧ hview d' = mk_hw (with_pend 0 t) i.
Proof.
  intros n. revert d t. induction n as [|n IH]; intros d t Hv Hi Hn; [lia|]. simpl.
  destruct (mcu_read TWCR d) as [v d1] eqn:E.
  rewrite (io_bind_Ok (read TWCR) _ d v d1) by (unfold read; by rewrite E).
  destruct (twcr_read _ _ _ E) as (Hb & _ & Hd1). rewrite Hv in Hb, Hd1. simpl in Hb, Hd1.
  rewrite Hi in Hb. simpl in Hb.
  rewrite twint_test, Hb.
  destruct (Nat.eqb_spec (tw_pend t) 0) as [Hp|Hp].
  - exists d1. split; [done|]. by rewrite Hd1, Hp.
  - destruct (IH d1 (with_pend (pred (tw_pend t)) t)) as (d' & -> & Hd'); [done|done|simpl; lia|].
    by exists d'.
Qed.

Lemma wait_clear_done d t i : ∀ n, hview d = mk_hw t i → tw_sto t = true → tw_pend t < n →
  ∃ d', wait_clear n TWCR (bit TWSTO) d = Ok (tt, d') ∧ hview d' = mk_hw (with_pend 0 t) i.
Proof.
  intros n. revert d t. induction n as [|n IH]; intros d t Hv Hi Hn; [lia|]. simpl.
  destruct (mcu_read TWCR d) as [v d1] eqn:E.
  rewrite (io_bind_Ok (read TWCR) _ d v d1) by (unfold read; by rewrite E).
  destruct (twcr_read _ _ _ E) as (_ & Hb & Hd1). rewrite Hv in Hb, Hd1. simpl in Hb, Hd1.
  rewrite Hi in Hb. simpl in Hb.
  rewrite twsto_test, Hb.
  destruct (Nat.eqb_spec (tw_pend t) 0) as [Hp|Hp]; simpl.
  - exists d1. split; [done|]. by rewrite Hd1, Hp.
  - destruct (IH d1 (with_pend (pred (tw_pend t)) t)) as (d' & -> & Hd'); [done|done|simpl; lia|].
    by exists d'.
Qed.

(** The loop with the "timeout" ends like the one without: after TWINT. *)
Lemma timeout_loop_done d t i : ∀ n ms, hview d = mk_hw t i → tw_int t = true → is_u8 ms →
  tw_pend t * 257 + Z.to_nat ms < n →
  ∃ d', timeout_loop n ms d = Ok (tt, d') ∧ hview d' = mk_hw (with_pend 0 t) i.
Proof.
  intros n. revert d t. induction n as [|n IH]; intros d t ms Hv Hi Hms Hn; [lia|].
  cbn [timeout_loop]. unfold is_u8 in Hms.
  destruct (decide (ms = 0%Z)) as [->|Hne].
  - rewrite bool_decide_false by (intros Hc; done).
    destruct (mcu_read TWCR d) as [v d1] eqn:E.
    rewrite (io_bind_Ok (read TWCR) _ d v d1) by (unfold read; by rewrite E).
    destruct (twcr_read _ _ _ E) as (Hb & _ & Hd1). rewrite Hv in Hb, Hd1. simpl in Hb, Hd1.
    rewrite Hi in Hb. simpl in Hb.
    rewrite twint_test, Hb.
    destruct (Nat.eqb_spec (tw_pend t) 0) as [Hp|Hp].
    + exists d1. split; [done|]. by rewrite Hd1, Hp.
    + destruct (delay_law d1 1) as (k & Hk & Hd2). rewrite Hd1 in Hk, Hd2. simpl in Hk, Hd2.
      rewrite (io_bind_Ok (delay_ms 1) _ d1 tt (mcu_delay 1 d1)) by done.
      change (u8 (0 - 1)) with 255%Z.
      destruct (IH _ (with_pend k (with_pend (pred (tw_pend t)) t)) 255%Z Hd2)
        as (d' & -> & Hd'); [done|unfold is_u8; lia|simpl; lia|].
      by exists d'.
  - rewrite bool_decide_true by done.
    destruct (delay_law d 1) as (k & Hk & Hd2). rewrite Hv in Hk, Hd2. simpl in Hk, Hd2.
    rewrite (io_bind_Ok (delay_ms 1) _ d tt (mcu_delay 1 d)) by done.
    rewrite u8_small by (unfold is_u8; lia).
    destruct (IH _ (with_pend k t) (ms - 1)%Z Hd2) as (d' & -> & Hd');
      [done|unfold is_u8; lia|simpl; nia|].
    by exists d'.
Qed.

(** ** Commands *)

Context (Hfuel : latency * 257 + 256 < fuel).

Lemma twcr_step d t i c : hview d = mk_hw t i →
  ∃ d' n, write TWCR (twcr c) d = Ok (tt, d') ∧ n ≤ latency ∧
          hview d' = mk_hw (with_pend n (twi_command c t)) i.
Proof.
  intros Hv. destruct (twcr_write d c) as (n & Hn & Hd'). rewrite Hv in Hd'.
  exists (mcu_write TWCR (twcr c) d), n. split; [|done].
  unfold write. by replace (u8 (twcr c)) with (twcr c) by (by destruct c as [| | |[]]).
Qed.

Lemma twi_command_pend c (t : twi B) : with_pend 0 (twi_command c t) = twi_command c t.
Proof.
  unfold twi_command. destruct c, (tw_phase t); try done;
    repeat case_match; done.
Qed.

(** A command that ends with TWINT, and the wait for it. *)
Lemma command_wait d t i c : hview d = mk_hw t i → tw_int (twi_command c t) = true →
  ∃ d', hview d' = mk_hw (twi_command c t) i ∧
    ∀ A (k : unit → IO D A),
      (write TWCR (twcr c);; x ← wait_set fuel TWCR (bit TWINT); k x) d = k tt d'.
Proof.
  intros Hv Hi. destruct (twcr_step d t i c Hv) as (d1 & n & E1 & Hn & Hd1).
  destruct (wait_set_done d1 _ i fuel Hd1) as (d2 & E2 & Hd2); [done|simpl; lia|].
  exists d2. split; [by rewrite Hd2, <- (twi_command_pend c t)|].
  intros A k. rewrite (io_bind_Ok _ _ _ _ _ E1). by rewrite (io_bind_Ok _ _ _ _ _ E2).
Qed.

Lemma command_timeout d t i c ms : hview d = mk_hw t i → tw_int (twi_command c t) = true →
  is_u8 ms →
  ∃ d', hview d' = mk_hw (twi_command c t) i ∧
    ∀ A (k : unit → IO D A),
      (write TWCR (twcr c);;
       x ← (if bool_decide (0 < ms)%Z then timeout_loop fuel ms
            else wait_set fuel TWCR (bit TWINT)); k x) d = k tt d'.
Proof.
  intros Hv Hi Hms. case_bool_decide; [|by apply command_wait].
  destruct (twcr_step d t i c Hv) as (d1 & n & E1 & Hn & Hd1).
  unfold is_u8 in Hms.
  destruct (timeout_loop_done d1 _ i fuel ms Hd1) as (d2 & E2 & Hd2);
    [done|done|simpl; nia|].
  exists d2. split; [by rewrite Hd2, <- (twi_command_pend c t)|].
  intros A k. rewrite (io_bind_Ok _ _ _ _ _ E1). by rewrite (io_bind_Ok _ _ _ _ _ E2).
Qed.

Lemma twsr_step d t i : hview d = mk_hw t i → tw_pend t = 0 →
  ∃ v d', Z.land v 0xF8 = Z.land (tw_status t) 0xF8 ∧ hview d' = mk_hw t i ∧
    ∀ A (k : Z → IO D A), (x ← read TWSR; k x) d = k v d'.
Proof.
  intros Hv Hp. destruct (mcu_read TWSR d) as [v d'] eqn:E.
  destruct (twsr_read d v d') as [Hs Hd']; [by rewrite Hv|done|].
  rewrite Hv in Hs. exists v, d'. split_and!; [done|congruence|].
  intros A k. rewrite (io_bind_Ok (read TWSR) _ d v d'); [done|]. unfold read. by rewrite E.
Qed.

Lemma twdr_step d t i x : hview d = mk_hw t i → tw_pend t = 0 →
  ∃ d', hview d' = mk_hw (with_data (u8 x) t) i ∧
    ∀ A (k : unit → IO D A), (y ← write TWDR x; k y) d = k tt d'.
Proof.
  intros Hv Hp. exists (mcu_write TWDR (u8 x) d). split; [|done].
  rewrite twdr_write, Hv; [done|by rewrite Hv|apply u8_range].
Qed.

Lemma print_step d t i fmt args : hview d = mk_hw t i →
  ∃ d', hview d' = mk_hw t (io_print fmt args i) ∧
    ∀ A (k : unit → IO D A), (y ← printf fmt args; k y) d = k tt d'.
Proof.
  intros Hv. exists (mcu_print fmt args d). split; [|done]. by rewrite print_law, Hv.
Qed.

(** ** The four operations *)

Lemma i2c_start_timeout_refines a ms : is_u8 ms →
  refines on_wire (i2c_start_timeout fuel a ms) (w_start (u8 a)).
Proof.
  intros Hms d [l b io0] c w' (Hp & Hph & Hb & Hio & Hint) Hw. simpl in *.
  unfold w_start in Hw. simpl in Hw. unfold i2c_start_timeout.
  destruct (hview d) as [t i] eqn:Hv. simpl in *. subst.
  destruct (twcr_step d t _ Off Hv) as (d1 & n & E1 & _ & Hd1).
  change (write TWCR 0) with (write (D := D) TWCR (twcr Off)).
  rewrite (io_bind_Ok _ _ _ _ _ E1).
  change (Z.lor (Z.lor (bit TWINT) (bit TWSTA)) (bit TWEN)) with (twcr Start).
  destruct (bus_start (tw_bus t)) as [ok b0] eqn:Eb.
  destruct (command_wait d1 _ _ Start Hd1) as (d2 & Hd2 & E2);
    [simpl; rewrite Eb; by destruct ok|].
  rewrite E2. clear E2. simpl in Hd2. rewrite Eb in Hd2. destruct ok.
  - destruct (twsr_step d2 _ _ Hd2 eq_refl) as (v & d3 & Hst & Hd3 & E3).
    rewrite E3, Hst, bool_decide_false by (intros Hc; by apply Hc). clear E3.
    destruct (twdr_step d3 _ _ a Hd3 eq_refl) as (d4 & Hd4 & E4). rewrite E4. clear E4.
    change (Z.lor (bit TWINT) (bit TWEN)) with (twcr (Go false)).
    destruct (bus_addr (u8 a) b0) as [ack b1] eqn:Ea.
    destruct (command_timeout d4 _ _ (Go false) ms Hd4) as (d5 & Hd5 & E5);
      [simpl; rewrite Ea; by destruct (Z.testbit (u8 a) 0)|done|].
    rewrite E5. clear E5. simpl in Hd5. rewrite Ea in Hd5.
    set (t5 := if Z.testbit (u8 a) 0 then _ else _) in Hd5.
    assert (tw_pend t5 = 0) as Hp5 by (unfold t5; by destruct (Z.testbit _ _)).
    destruct (twsr_step d5 _ _ Hd5 Hp5) as (v1 & d6 & Hst1 & Hd6 & E6).
    destruct (twsr_step d6 _ _ Hd6 Hp5) as (v2 & d7 & Hst2 & Hd7 & E7).
    rewrite E6, Hst1. injection Hw as <- <-.
    unfold on_wire, t5 in *. simpl in *.
    destruct (Z.testbit (u8 a) 0), ack; simpl in *;
      repeat (rewrite ?E7, ?Hst2; case_bool_decide; simpl in *; try done);
      eexists; (split; [done|]); rewrite ?Hd6, ?Hd7; done.
  - destruct (twsr_step d2 _ _ Hd2 eq_refl) as (v & d3 & Hst & Hd3 & E3).
    rewrite E3, Hst, bool_decide_true by done. clear E3.
    destruct (print_step d3 _ _ (str "Error: start condition transmission did not succeed" ++ crlf) [] Hd3)
      as (d4 & Hd4 & E4). rewrite E4. injection Hw as <- <-.
    exists d4. split; [done|]. unfold on_wire. by rewrite Hd4.
Qed.

Lemma i2c_write_refines x : refines on_wire (i2c_write fuel x) (w_write (u8 x)).
Proof.
  intros d [l b io0] c w' (Hp & Hph & Hb & Hio & Hint) Hw. simpl in *.
  unfold w_write in Hw. simpl in Hw. case_bool_decide as Hl; [|done].
  rewrite Hl in Hph.
  unfold i2c_write. destruct (hview d) as [t i] eqn:Hv. simpl in *. subst.
  destruct (twdr_step d _ _ x Hv Hp) as (d1 & Hd1 & E1). rewrite E1. clear E1.
  change (Z.lor (bit TWINT) (bit TWEN)) with (twcr (Go false)).
  destruct (bus_put (u8 x) (tw_bus t)) as [ack b1] eqn:Ea.
  destruct (command_wait d1 _ _ (Go false) Hd1) as (d2 & Hd2 & E2);
    [simpl; by rewrite Hph, Ea|].
  rewrite E2. clear E2. simpl in Hd2. rewrite Hph, Ea in Hd2.
  destruct (twsr_step d2 _ _ Hd2 eq_refl) as (v & d3 & Hst & Hd3 & E3). rewrite E3, Hst. clear E3.
  destruct ack.
  - rewrite bool_decide_false by (intros Hc; by apply Hc). injection Hw as <- <-.
    exists d3. split; [done|]. unfold on_wire. by rewrite Hd3.
  - rewrite bool_decide_true by done. injection Hw as <- <-.
    destruct (twsr_step d3 _ _ Hd3 eq_refl) as (v4 & d4 & Hst4 & Hd4 & E4).
    rewrite E4, Hst4. clear E4. simpl.
    match goal with |- context [printf ?f ?a] =>
      destruct (print_step d4 _ _ f a Hd4) as (d5 & Hd5 & E5); rewrite E5 end.
    exists d5. split; [done|]. unfold on_wire. by rewrite Hd5.
Qed.

Lemma i2c_read_refines (ack : bool) :
  refines on_wire (if ack then i2c_read_ack fuel else i2c_read_nack fuel) (w_read ack).
Proof.
  intros d [l b io0] x w' (Hp & Hph & Hb & Hio & Hint) Hw. simpl in *.
  unfold w_read in Hw. simpl in Hw. case_bool_decide as Hl; [|done].
  rewrite Hl in Hph.
  destruct (hview d) as [t i] eqn:Hv. simpl in *. subst.
  destruct (bus_get ack (tw_bus t)) as [y b1] eqn:Eg.
  destruct (command_wait d _ _ (Go ack) Hv) as (d2 & Hd2 & E2); [simpl; by rewrite Hph, Eg|].
  simpl in Hd2. rewrite Hph, Eg in Hd2. injection Hw as <- <-.
  destruct (mcu_read TWDR d2) as [v d3] eqn:E3.
  destruct (twdr_read d2 v d3) as [-> Hd3]; [by rewrite Hd2|done|].
  exists d3. split; [|unfold on_wire; by rewrite Hd3, Hd2].
  unfold i2c_read_ack, i2c_read_nack. rewrite Hd2 in E3. simpl in E3.
  destruct ack; simpl in E2; (etrans; [apply (E2 Z (λ _, read TWDR))|]);
    unfold read; by rewrite E3.
Qed.

Lemma i2c_stop_refines : refines on_wire (i2c_stop fuel) w_stop.
Proof.
  intros d [l b io0] [] w' (Hp & Hph & Hb & Hio & Hint) [= <-]. simpl in *.
  destruct (hview d) as [t i] eqn:Hv. simpl in *. subst. unfold i2c_stop.
  change (Z.lor (Z.lor (bit TWINT) (bit TWEN)) (bit TWSTO)) with (twcr Stop).
  destruct (twcr_step d t _ Stop Hv) as (d1 & n & E1 & Hn & Hd1).
  rewrite (io_bind_Ok _ _ _ _ _ E1).
  destruct (wait_clear_done d1 _ _ fuel Hd1) as (d2 & E2 & Hd2); [done|simpl; lia|].
  exists d2. split; [exact E2|]. unfold on_wire. by rewrite Hd2.
Qed.

(** ** The routines *)

Lemma printf_refines fmt args : refines on_wire (printf fmt args) (w_print fmt args).
Proof.
  intros d w [] w' (Hp & Hph & Hb & Hio & Hint) [= <-]. eexists. split; [done|].
  unfold on_wire. rewrite print_law. simpl. by rewrite Hio.
Qed.

Lemma i2c_init_skip d w : on_wire d w → ∃ a d', i2c_init d = Ok (a, d') ∧ on_wire d' w.
Proof.
  intros HR. eexists _, _. split; [done|]. unfold on_wire. by rewrite twbr_write.
Qed.

(** The wait [i2c_write_start] repeats is over at once. *)
Lemma wait_again_skip d w :
  on_wire d w → w_link w ≠ Released →
  ∃ a d', wait_set fuel TWCR (bit TWINT) d = Ok (a, d') ∧ on_wire d' w.
Proof.
  intros (Hp & Hph & Hb & Hio & Hint) Hl. destruct (hview d) as [t i] eqn:Hv. simpl in *.
  destruct (wait_set_done d t i fuel Hv) as (d' & E & Hd'); [by apply Hint|lia|].
  exists tt, d'. split; [done|]. unfold on_wire. by rewrite Hd'.
Qed.

Lemma i2c_start_refines a : refines on_wire (i2c_start fuel a) (w_start (u8 a)).
Proof. apply i2c_start_timeout_refines. unfold is_u8. lia. Qed.

Lemma write_loop_refines n : ∀ i data, i + n ≤ length data → Forall is_u8 data →
  refines on_wire (write_loop fuel n i data) (w_send (take n (drop i data))).
Proof.
  induction n as [|n IH]; intros i data Hn Hu; [apply refines_ret|].
  destruct (lookup_lt_is_Some_2 data i ltac:(lia)) as [x Hx].
  rewrite (drop_S _ _ _ Hx). simpl. rewrite (proj2 (load_Ok _ _ _) Hx).
  apply refines_pure_l. rewrite <- (u8_small x) at 2 by (by eapply Forall_lookup_1).
  apply refines_bind; [apply i2c_write_refines|]. intros c.
  apply refines_if; [apply refines_ret|]. apply IH; [lia|done].
Qed.

Lemma w_receive_length n (w w' : wire B) l : w_receive n w = Ok (l, w') → length l = S n.
Proof.
  revert w w' l. induction n as [|n IH]; intros w w' l; simpl; intros Hw;
    apply io_bind_Ok_inv in Hw as (x & w1 & _ & Hw).
  - by injection Hw as <- <-.
  - apply io_bind_Ok_inv in Hw as (l1 & w2 & Hw & [= <- <-]). simpl. by rewrite (IH _ _ _ Hw).
Qed.

Lemma read_loop_done n : ∀ pos data d w l w',
  pos + n < length data → on_wire d w → w_receive n w = Ok (l, w') →
  ∃ data1 d1 x d2, read_loop fuel n pos data d = Ok (data1, d1) ∧
    i2c_read_nack fuel d1 = Ok (x, d2) ∧ on_wire d2 w' ∧
    length data1 = length data ∧ <[pos + n := x]> data1 = write_at data pos l.
Proof.
  induction n as [|n IH]; intros pos data d w l w' Hn HR Hw; simpl in Hw;
    apply io_bind_Ok_inv in Hw as (x & w1 & Hx & Hw).
  - injection Hw as <- <-. destruct (i2c_read_refines false _ _ _ _ HR Hx) as (d2 & E2 & HR2).
    exists data, d, x, d2. split_and!; [done..|]. by rewrite Nat.add_0_r.
  - apply io_bind_Ok_inv in Hw as (l1 & w2 & Hw & [= <- <-]).
    destruct (i2c_read_refines true _ _ _ _ HR Hx) as (d1 & E1 & HR1).
    destruct (IH (S pos) (<[pos := x]> data) _ _ _ _ ltac:(rewrite length_insert; lia) HR1 Hw)
      as (data1 & d2 & y & d3 & E2 & E3 & HR3 & Hl & Hd).
    exists data1, d2, y, d3. split_and!; [|done|done| |].
    + simpl. rewrite (io_bind_Ok _ _ _ _ _ E1), store_Ok by lia. exact E2.
    + by rewrite Hl, length_insert.
    + simpl. by replace (pos + S n) with (S pos + n) by lia.
Qed.

Lemma receive_bytes_refines data pos len :
  (0 < len < 65536)%Z → pos + Z.to_nat len ≤ length data →
  refines on_wire (receive_bytes fuel data pos len)
    (l ← w_receive (pred (Z.to_nat len)); w_stop;; mret (write_at data pos l)).
Proof.
  intros Hlen Hpos d w a w' HR Hw. unfold receive_bytes.
  rewrite u16_small by (unfold is_u16; lia).
  replace (Z.to_nat (len - 1)) with (pred (Z.to_nat len)) by lia.
  apply io_bind_Ok_inv in Hw as (l & w1 & Hr & Hw).
  apply io_bind_Ok_inv in Hw as ([] & w2 & Hs & [= <- <-]).
  destruct (read_loop_done (pred (Z.to_nat len)) pos data _ _ _ _ ltac:(lia) HR Hr)
    as (data1 & d1 & x & d2 & E1 & E2 & HR2 & Hl & Hd).
  rewrite (io_bind_Ok _ _ _ _ _ E1), (io_bind_Ok _ _ _ _ _ E2).
  rewrite store_Ok, Hd by lia.
  destruct (i2c_stop_refines _ _ _ _ HR2 Hs) as (d3 & E3 & HR3).
  exists d3. split; [|done]. etrans; [apply (io_bind_Ok (i2c_stop fuel) _ d2 tt d3 E3)|]. done.
Qed.

Lemma offset_refines {A} off (k : IO D A) (g : IO (wire B) A) :
  refines on_wire k g →
  refines on_wire
    (i2c_write fuel (u8 (Z.shiftr off 8));; i2c_write fuel (Z.land off 0xFF);; k)
    (w_write (u8 (off `div` 256));; w_write (off `mod` 256)%Z;; g).
Proof.
  intros Hk. rewrite <- off_hi, <- off_lo.
  apply refines_bind; [apply i2c_write_refines|intros _].
  by apply refines_bind; [apply i2c_write_refines|intros _].
Qed.

Lemma w_start_ack a (w w' : wire B) c :
  w_start a w = Ok (c, w') → c = 0%Z → w_link w' ≠ Released.
Proof.
  unfold w_start. destruct (bus_start (w_bus w)) as [[] b0].
  - destruct (bus_addr a b0) as [ack b1]. intros [= <- <-] _. simpl.
    by destruct (Z.testbit a 0).
  - by intros [= <- <-].
Qed.

Lemma start_dev_refines a : is_u8 a → refines on_wire (i2c_start fuel a) (w_start a).
Proof. intros Ha. rewrite <- (u8_small a) at 2 by done. apply i2c_start_refines. Qed.

Lemma i2c_write_start_refines dev off :
  refines on_wire (i2c_write_start fuel dev off)
    (c ← w_start (u8 (2 * dev));
     if bool_decide (c ≠ 0%Z) then w_print (str "i2c_start error" ++ crlf) [];; mret 1%Z
     else w_write (u8 (off `div` 256));; w_write (off `mod` 256)%Z;; mret 0%Z).
Proof.
  unfold i2c_write_start. apply refines_skip; [apply i2c_init_skip|]. intros _.
  rewrite dev_write_addr. intros d w a w' HR Hw.
  apply io_bind_Ok_inv in Hw as (c & w1 & Hs & Hw).
  destruct (start_dev_refines _ (u8_range _) _ _ _ _ HR Hs) as (d1 & E1 & HR1).
  rewrite (io_bind_Ok _ _ _ _ _ E1). case_bool_decide as Hc.
  - revert Hw. apply (refines_bind on_wire); [apply printf_refines|intros []; apply refines_ret|done].
  - destruct (wait_again_skip d1 w1 HR1 (w_start_ack _ _ _ _ Hs Hc)) as (a2 & d2 & E2 & HR2).
    rewrite (io_bind_Ok _ _ _ _ _ E2). revert Hw.
    apply (offset_refines off); [apply refines_ret|done].
Qed.

(** [i2c_writeReg] is the write transaction. *)
Lemma i2c_writeReg_refines dev off data pos len :
  pos + Z.to_nat len ≤ length data → Forall is_u8 data →
  refines on_wire (i2c_writeReg fuel dev off data pos len)
    (w_writeReg dev off (take (Z.to_nat len) (drop pos data))).
Proof.
  intros Hl Hu d w a w' HR Hw. unfold i2c_writeReg, w_writeReg in *.
  apply io_bind_Ok_inv in Hw as (c & w1 & Hs & Hw).
  destruct (decide (c = 0%Z)) as [->|Hc].
  - rewrite bool_decide_false in Hw by naive_solver.
    apply io_bind_Ok_inv in Hw as (c1 & w2 & Hw1 & Hw).
    apply io_bind_Ok_inv in Hw as (c2 & w3 & Hw2 & Hw).
    destruct (i2c_write_start_refines dev off d w 0%Z w3 HR) as (d1 & E1 & HR1).
    { rewrite (io_bind_Ok _ _ _ _ _ Hs), bool_decide_false by naive_solver.
      by rewrite (io_bind_Ok _ _ _ _ _ Hw1), (io_bind_Ok _ _ _ _ _ Hw2). }
    rewrite (io_bind_Ok _ _ _ _ _ E1), bool_decide_false by naive_solver.
    revert Hw. eapply (refines_bind on_wire); [by apply write_loop_refines| |done].
    intros c3. apply refines_if; (apply refines_bind; [|intros []; apply refines_ret]).
    + apply printf_refines.
    + apply i2c_stop_refines.
  - rewrite bool_decide_true in Hw by done.
    apply io_bind_Ok_inv in Hw as ([] & w2 & Hp1 & Hw).
    destruct (i2c_write_start_refines dev off d w 1%Z w2 HR) as (d1 & E1 & HR1).
    { by rewrite (io_bind_Ok _ _ _ _ _ Hs), bool_decide_true, (io_bind_Ok _ _ _ _ _ Hp1). }
    rewrite (io_bind_Ok _ _ _ _ _ E1), bool_decide_true by done. revert Hw.
    apply (refines_bind on_wire); [apply printf_refines|intros []; apply refines_ret|done].
Qed.

(** [i2c_readReg] is the read transaction, with the bytes stored in the
    caller's buffer. *)
Lemma i2c_readReg_refines dev off data pos len :
  (0 < len < 65536)%Z → pos + Z.to_nat len ≤ length data →
  refines on_wire (i2c_readReg fuel dev off data pos len)
    (r ← w_readReg dev off (Z.to_nat len);
     mret (match r with Some l => (0%Z, write_at data pos l) | None => (1%Z, data) end)).
Proof.
  intros Hlen Hl. unfold i2c_readReg. apply refines_skip; [apply i2c_init_skip|]. intros _.
  rewrite dev_read_addr. replace (Z.shiftl dev 1) with (2 * dev)%Z
    by (rewrite Z.shiftl_mul_pow2; lia).
  unfold w_readReg. intros d w a w' HR Hw.
  refine_step (start_dev_refines _ (u8_range (2 * dev))).
  unfold I2C_WRITE. rewrite Z.lor_0_r. case_bool_decide.
  { refine_step (printf_refines (str "Error: readReg::start(devaddr)" ++ crlf) []).
    injection Hw as <- <-. eauto. }
  pose proof (off_hi off) as Ehi. pose proof (off_lo off) as Elo.
  rewrite <- Ehi, <- Elo in Hw.
  refine_step (i2c_write_refines (u8 (Z.shiftr off 8))).
  refine_step (i2c_write_refines (Z.land off 0xFF)).
  refine_step (start_dev_refines _ (u8_range (2 * dev + 1))). case_bool_decide.
  { refine_step (printf_refines (str "Error in readingReg::start(devaddr | 0x%02x)" ++ crlf)
      [I2C_READ]). injection Hw as <- <-. eauto. }
  apply io_bind_Ok_inv in Hw as (r & w5 & Hr & [= <- <-]).
  apply io_bind_Ok_inv in Hr as (l & w6 & Hr & Hst).
  apply io_bind_Ok_inv in Hst as ([] & w7 & Hst & [= <- <-]).
  edestruct (receive_bytes_refines data pos len Hlen Hl) as (d5 & E5 & HR5); [done| |].
  { rewrite (io_bind_Ok _ _ _ _ _ Hr). by rewrite (io_bind_Ok _ _ _ _ _ Hst). }
  rewrite (io_bind_Ok _ _ _ _ _ E5). eauto.
Qed.
End Refinement.
