(* ===== verification/Fram.v ===== *)
(** * The storage on the bus

    [Storage] is what the controller relies on: device 0x50 of the bus is a
    memory of 32768 bytes that [i2c_writeReg] and [i2c_readReg] write and
    read, and what else is on the bus is left alone.  [fram] is the documented
    behaviour of the MB85RC256V chip; together with any other devices that do
    not answer to its address it discharges the interface. *)

From S2P Require Import Prelude Avr Board I2cMaster I2cWire.
From stdpp Require Import strings.
Import I2c.

Definition FRAM_SIZE : nat := Z.to_nat 32768.

Lemma FRAM_SIZE_Z : Z.of_nat FRAM_SIZE = 32768%Z.
Proof. unfold FRAM_SIZE. lia. Qed.

#[global] Opaque FRAM_SIZE.

(** The memory cells [off], ..., [off + n - 1] exist. *)
Definition in_range (off : Z) (n : nat) : Prop :=
  (0 ≤ off < 32768 ∧ off + Z.of_nat n ≤ 32768)%Z.

Class Storage (B W : Type) `{I2cBus B} := {
  st_mem : B → list Z;
  st_rest : B → W;
  st_wf : B → Prop;
  st_wf_mem b : st_wf b → length (st_mem b) = FRAM_SIZE ∧ Forall is_u8 (st_mem b);
  storage_write l b i off data :
    st_wf b → in_range off (length data) → Forall is_u8 data →
    ∃ b', w_writeReg MB85RC_DEFAULT_ADDRESS off data (mk_wire l b i)
          = Ok (0%Z, mk_wire Released b' i) ∧
          st_wf b' ∧ st_rest b' = st_rest b ∧
          st_mem b' = write_at (st_mem b) (Z.to_nat off) data;
  storage_read l b i off n :
    st_wf b → in_range off n → 0 < n →
    ∃ b', w_readReg MB85RC_DEFAULT_ADDRESS off n (mk_wire l b i)
          = Ok (Some (take n (drop (Z.to_nat off) (st_mem b))), mk_wire Released b' i) ∧
          st_wf b' ∧ st_rest b' = st_rest b ∧ st_mem b' = st_mem b }.

(** ** The chip *)

Inductive fram_state := FIdle | FHigh | FLow (hi : Z) | FData | FSend.

Record fram := mk_fram { f_mem : list Z; f_ptr : Z; f_state : fram_state }.

Definition f_next (p : Z) : Z := ((p + 1) `mod` 32768)%Z.

#[export] Instance fram_bus : I2cBus fram := {|
  bus_start f := (true, mk_fram (f_mem f) (f_ptr f) FIdle);
  bus_addr a f :=
    if bool_decide (a = 0xA0%Z) then (true, mk_fram (f_mem f) (f_ptr f) FHigh)
    else if bool_decide (a = 0xA1%Z) then (true, mk_fram (f_mem f) (f_ptr f) FSend)
    else (false, mk_fram (f_mem f) (f_ptr f) FIdle);
  bus_put x f :=
    match f_state f with
    | FHigh => (true, mk_fram (f_mem f) (f_ptr f) (FLow x))
    | FLow hi => (true, mk_fram (f_mem f) ((hi * 256 + x) `mod` 32768) FData)
    | FData => (true, mk_fram (<[Z.to_nat (f_ptr f) := x]> (f_mem f)) (f_next (f_ptr f)) FData)
    | _ => (false, f)
    end;
  bus_get ack f :=
    match f_state f with
    | FSend => (default 255%Z (f_mem f !! Z.to_nat (f_ptr f)),
                mk_fram (f_mem f) (f_next (f_ptr f)) (if ack then FSend else FIdle))
    | _ => (255%Z, f)
    end;
  bus_stop f := mk_fram (f_mem f) (f_ptr f) FIdle |}.

(** ** Several devices on one bus *)

(** Acknowledges and data are wired-AND of open-drain outputs. *)
#[export] Instance prod_bus `{I2cBus B1, I2cBus B2} : I2cBus (B1 * B2) := {|
  bus_start b :=
    let '(o1, b1) := bus_start b.1 in let '(o2, b2) := bus_start b.2 in (o1 && o2, (b1, b2));
  bus_addr a b :=
    let '(o1, b1) := bus_addr a b.1 in let '(o2, b2) := bus_addr a b.2 in (o1 || o2, (b1, b2));
  bus_put x b :=
    let '(o1, b1) := bus_put x b.1 in let '(o2, b2) := bus_put x b.2 in (o1 || o2, (b1, b2));
  bus_get k b :=
    let '(x1, b1) := bus_get k b.1 in let '(x2, b2) := bus_get k b.2 in
    (Z.land x1 x2, (b1, b2));
  bus_stop b := (bus_stop b.1, bus_stop b.2) |}.

(** Devices that keep out of a transaction with the storage. *)
Class Quiet (B : Type) `{I2cBus B} := {
  q_idle : B → B;
  q_start b : bus_start b = (true, q_idle b);
  q_addr b a : a = 0xA0%Z ∨ a = 0xA1%Z → bus_addr a (q_idle b) = (false, q_idle b);
  q_put b x : bus_put x (q_idle b) = (false, q_idle b);
  q_get b k : bus_get k (q_idle b) = (255%Z, q_idle b);
  q_stop b : bus_stop (q_idle b) = q_idle b;
  q_idem b : q_idle (q_idle b) = q_idle b }.

#[export] Program Instance unit_quiet : Quiet unit := {| q_idle _ := tt |}.
Solve All Obligations with done.

(** ** The chip on a bus is the storage *)

Section Chip.
Context `{Quiet B2}.

Lemma chip_start a (l : phase) f (q : B2) i :
  a = 0xA0%Z ∨ a = 0xA1%Z →
  w_start a (mk_wire l (f, q) i) =
  Ok (0%Z, mk_wire (if Z.testbit a 0 then Reading else Writing)
             (mk_fram (f_mem f) (f_ptr f) (if Z.testbit a 0 then FSend else FHigh), q_idle q) i).
Proof.
  intros Ha. unfold w_start. simpl. rewrite q_start. simpl. rewrite q_addr by done.
  by destruct Ha as [-> | ->].
Qed.

Lemma chip_write x m p s (q : B2) i :
  w_write x (mk_wire Writing (mk_fram m p s, q_idle q) i) =
  let '(ack, f) := bus_put x (mk_fram m p s) in
  if (ack : bool) then Ok (0%Z, mk_wire Writing (f, q_idle q) i)
  else Ok (1%Z, mk_wire Writing (f, q_idle q)
      (io_print (str "TWSR & 0xF8 : %04x" ++ crlf ++ str "TW_MT_DATA_ACK : %04x" ++ crlf)
                [TW_MT_DATA_NACK; TW_MT_DATA_ACK] i)).
Proof.
  unfold w_write. rewrite bool_decide_true by done. cbn [w_bus bus_put prod_bus fst snd].
  rewrite q_put. destruct (bus_put x (mk_fram m p s)) as [[] f]; done.
Qed.

Lemma chip_send data : ∀ m p (q : B2) i,
  (0 ≤ p)%Z → (p + Z.of_nat (length data) ≤ 32768)%Z →
  ∃ p', w_send data (mk_wire Writing (mk_fram m p FData, q_idle q) i) =
        Ok (0%Z, mk_wire Writing (mk_fram (write_at m (Z.to_nat p) data) p' FData, q_idle q) i).
Proof.
  induction data as [|x data IH]; intros m p q i Hp Hl; simpl.
  { by exists p. }
  cbn [length] in Hl. rewrite (io_bind_Ok (w_write x) _ _ _ _ (chip_write x m p FData q i)).
  cbn [bus_put fram_bus f_state f_mem f_ptr]. rewrite bool_decide_false by naive_solver.
  destruct data as [|y data].
  { by eexists. }
  cbn [length] in Hl. unfold f_next. rewrite Z.mod_small by lia.
  destruct (IH (<[Z.to_nat p := x]> m) (p + 1)%Z q i) as (p' & ->); [lia|simpl; lia|].
  exists p'. do 3 f_equal. f_equal. f_equal. f_equal. lia.
Qed.

Lemma chip_read k m p (q : B2) i x :
  m !! Z.to_nat p = Some x → is_u8 x →
  w_read k (mk_wire Reading (mk_fram m p FSend, q_idle q) i) =
  Ok (x, mk_wire Reading (mk_fram m (f_next p) (if k then FSend else FIdle), q_idle q) i).
Proof.
  intros Hx Hu. unfold w_read. rewrite bool_decide_true by done.
  cbn [w_bus bus_get prod_bus fram_bus fst snd f_state f_mem f_ptr]. rewrite q_get, Hx.
  cbn [default from_option]. change 255%Z with (Z.ones 8). rewrite Z.land_ones by lia.
  by rewrite (Z.mod_small x) by exact Hu.
Qed.

Lemma chip_receive n : ∀ m p (q : B2) i,
  (0 ≤ p)%Z → Z.to_nat p + n < length m → (Z.of_nat (length m) = 32768)%Z → Forall is_u8 m →
  ∃ p', w_receive n (mk_wire Reading (mk_fram m p FSend, q_idle q) i) =
        Ok (take (S n) (drop (Z.to_nat p) m),
            mk_wire Reading (mk_fram m p' FIdle, q_idle q) i).
Proof.
  induction n as [|n IH]; intros m p q i Hp Hl Hm Hu;
    destruct (lookup_lt_is_Some_2 m (Z.to_nat p) ltac:(lia)) as [x Hx];
    pose proof (chip_read true m p q i x Hx ltac:(by eapply Forall_lookup_1)) as E1;
    pose proof (chip_read false m p q i x Hx ltac:(by eapply Forall_lookup_1)) as E2;
    rewrite (drop_S _ _ _ Hx); cbn [w_receive take].
  - rewrite (io_bind_Ok _ _ _ _ _ E2), take_0. by eexists.
  - rewrite (io_bind_Ok _ _ _ _ _ E1). unfold f_next. rewrite Z.mod_small by lia.
    destruct (IH m (p + 1)%Z q i) as (p' & E); [lia|lia|done|done|].
    rewrite (io_bind_Ok _ _ _ _ _ E). exists p'.
    replace (Z.to_nat (p + 1)) with (S (Z.to_nat p)) by lia. done.
Qed.

Lemma chip_stop {A} (a : A) l m p s (q : B2) i :
  (w_stop;; mret a) (mk_wire l (mk_fram m p s, q_idle q) i) =
  Ok (a, mk_wire Released (mk_fram m p FIdle, q_idle q) i).
Proof.
  rewrite (io_bind_Ok w_stop _ _ _ _ eq_refl).
  cbn [w_bus w_io bus_stop prod_bus fram_bus fst snd f_mem f_ptr]. by rewrite q_stop.
Qed.

(** The two bytes of an address select the cell. *)
Lemma chip_offset {A} off m p (q : B2) i (k : IO (wire (fram * B2)) A) :
  (0 ≤ off < 32768)%Z →
  (w_write (u8 (off `div` 256));; w_write (off `mod` 256)%Z;; k)
    (mk_wire Writing (mk_fram m p FHigh, q_idle q) i) =
  k (mk_wire Writing (mk_fram m off FData, q_idle q) i).
Proof.
  intros Hoff.
  rewrite (io_bind_Ok (w_write _) _ _ _ _ (chip_write _ m p FHigh q i)).
  cbn [bus_put fram_bus f_state f_mem f_ptr].
  rewrite (io_bind_Ok (w_write _) _ _ _ _ (chip_write _ m p (FLow _) q i)).
  cbn [bus_put fram_bus f_state f_mem f_ptr].
  rewrite u8_small by (split; [apply Z.div_pos|apply Z.div_lt_upper_bound]; lia).
  rewrite Z.mul_comm, <- Z.div_mod by lia. by rewrite Z.mod_small.
Qed.

#[export] Program Instance chip_storage : Storage (fram * B2) B2 := {|
  st_mem b := f_mem b.1;
  st_rest b := q_idle b.2;
  st_wf b := length (f_mem b.1) = FRAM_SIZE ∧ Forall is_u8 (f_mem b.1) |}.
Next Obligation. done. Qed.
Next Obligation.
  intros l [f q] i off data [Hl Hm] [Ho1 Ho2] Hu. unfold w_writeReg. cbn [fst snd] in *.
  change (u8 (2 * MB85RC_DEFAULT_ADDRESS)) with 0xA0%Z.
  rewrite (io_bind_Ok _ _ _ _ _ (chip_start 0xA0 l f q i (or_introl eq_refl))).
  rewrite bool_decide_false by naive_solver.
  destruct (chip_send data (f_mem f) off q i) as (p' & E); [lia|lia|].
  exists (mk_fram (write_at (f_mem f) (Z.to_nat off) data) p' FIdle, q_idle q).
  split.
  { etrans; [by apply chip_offset|]. rewrite (io_bind_Ok _ _ _ _ _ E).
    rewrite bool_decide_false by naive_solver. by apply chip_stop. }
  cbn [fst snd f_mem]. split_and!; [by rewrite length_write_at|by apply Forall_write_at|by rewrite q_idem|done].
Qed.
Next Obligation.
  intros l [f q] i off n [Hl Hm] [Ho1 Ho2] Hn. unfold w_readReg. cbn [fst snd] in *.
  change (u8 (2 * MB85RC_DEFAULT_ADDRESS)) with 0xA0%Z.
  change (u8 (2 * MB85RC_DEFAULT_ADDRESS + 1)) with 0xA1%Z.
  rewrite (io_bind_Ok _ _ _ _ _ (chip_start 0xA0 l f q i (or_introl eq_refl))).
  rewrite bool_decide_false by naive_solver. pose proof FRAM_SIZE_Z.
  destruct (chip_receive (pred n) (f_mem f) off (q_idle q) i) as (p' & E); [lia|lia|lia|done|].
  rewrite q_idem in E. replace (S (pred n)) with n in E by lia.
  exists (mk_fram (f_mem f) p' FIdle, q_idle q). split.
  { etrans; [by apply chip_offset|].
    rewrite (io_bind_Ok _ _ _ _ _ (chip_start 0xA1 Writing _ _ i (or_intror eq_refl))).
    rewrite bool_decide_false by naive_solver. cbn [f_mem f_ptr]. rewrite q_idem.
    etrans; [apply (io_bind_Ok (w_receive (pred n)) _ _ _ _ E)|].
    by apply chip_stop. }
  cbn [fst snd f_mem]. split_and!; [done..|by rewrite q_idem|done].
Qed.
End Chip.
