(* ===== verification/Stations.v ===== *)
(** * Devices that answer to an address

    What a master learns by probing an address: [Stations] are the laws of
    devices that acknowledge their address and are otherwise not changed by
    the probe.  The storage chip, no device, pairs and rows of devices are instances;
    [probe] is what [i2c_start_timeout] returns on every board. *)

From S2P Require Import Prelude Avr Board I2cMaster I2cWire Fram.
From stdpp Require Import strings.
Import I2c.

(** [ans b a]: a device of [b] answers to address [a]; [same]: the devices are
    the same but for the transaction they are in. *)
Class Stations (B : Type) `{I2cBus B} := {
  same : relation B;
  #[export] same_equiv :: Equivalence same;
  ans : B → Z → bool;
  #[export] ans_proper :: Proper (same ==> (=) ==> (=)) ans;
  start_law b : (bus_start b).1 = true ∧ same (bus_start b).2 b;
  stop_law b : same (bus_stop b) b;
  probe_law b a : (0x20 ≤ a < 0x50)%Z →
    ∃ b', bus_addr (2 * a + 1) (bus_start b).2 = (ans b a, b') ∧ same b' b }.

(** ** The chip, pairs and rows *)

#[local] Obligation Tactic := idtac.

#[export] Program Instance fram_stations : Stations fram := {|
  same f f' := f_mem f = f_mem f'; ans _ a := bool_decide (a = MB85RC_DEFAULT_ADDRESS) |}.
Next Obligation. split; [by intros f|by intros f f'|]. intros f1 f2 f3 E1 E2. by rewrite E1. Qed.
Next Obligation. done. Qed.
Next Obligation. done. Qed.
Next Obligation.
  intros f a Ha. cbn [bus_addr bus_start fram_bus snd f_mem f_ptr]. eexists.
  rewrite (bool_decide_false (_ = 0xA0)%Z), (bool_decide_false (_ = 0xA1)%Z) by lia.
  by rewrite (bool_decide_false (a = _)) by (unfold MB85RC_DEFAULT_ADDRESS; lia).
Qed.

(** A bus without devices: nobody answers. *)
#[export] Instance unit_stations : Stations unit.
Proof.
  refine {| same := (=); ans _ _ := false |}; [by intros []|by intros []|].
  intros [] a _. by exists tt.
Defined.

#[export] Program Instance prod_stations `{Stations B1, Stations B2} : Stations (B1 * B2) := {|
  same b b' := same b.1 b'.1 ∧ same b.2 b'.2; ans b a := ans b.1 a || ans b.2 a |}.
Next Obligation. intros. intros b b' [E1 E2] a a' <-. by rewrite E1, E2. Qed.
Next Obligation.
  intros ? ? ? ? ? ? [b1 b2]. cbn [bus_start prod_bus fst snd].
  destruct (start_law b1) as [A1 S1], (start_law b2) as [A2 S2].
  destruct (bus_start b1) as [o1 c1], (bus_start b2) as [o2 c2]. simpl in *. subst. done.
Qed.
Next Obligation. intros ? ? ? ? ? ? [b1 b2]. split; simpl; apply stop_law. Qed.
Next Obligation.
  intros ? ? ? ? ? ? [b1 b2] a Ha. destruct (probe_law b1 a Ha) as (c1 & E1 & S1), (probe_law b2 a Ha) as (c2 & E2 & S2).
  cbn [bus_start bus_addr prod_bus fst snd].
  destruct (bus_start b1) as [o1 d1], (bus_start b2) as [o2 d2]. cbn [fst snd] in *.
  rewrite E1, E2. by exists (c1, c2).
Qed.

(** A row of devices of the same kind. *)
#[export] Instance row_bus `{I2cBus B} : I2cBus (list B) := {|
  bus_start l := (forallb (λ b, (bus_start b).1) l, (λ b, (bus_start b).2) <$> l);
  bus_addr a l := (existsb (λ b, (bus_addr a b).1) l, (λ b, (bus_addr a b).2) <$> l);
  bus_put x l := (existsb (λ b, (bus_put x b).1) l, (λ b, (bus_put x b).2) <$> l);
  bus_get k l := (foldr (λ b y, Z.land (bus_get k b).1 y) 255%Z l, (λ b, (bus_get k b).2) <$> l);
  bus_stop l := bus_stop <$> l |}.

Lemma existsb_none {A} (f : A → bool) l : Forall (λ b, f b = false) l → existsb f l = false.
Proof. induction 1 as [|b l Hb _ IH]; [done|]. simpl. by rewrite Hb. Qed.

Lemma forallb_all {A} (f : A → bool) l : Forall (λ b, f b = true) l → forallb f l = true.
Proof. induction 1 as [|b l Hb _ IH]; [done|]. simpl. by rewrite Hb. Qed.

#[export] Program Instance row_stations `{Stations B} : Stations (list B) := {|
  same := Forall2 same; ans l a := existsb (λ b, ans b a) l |}.
Next Obligation.
  intros. intros l l' E a a' <-. induction E as [|b b' l l' Eb _ IH]; [done|]. simpl. by rewrite Eb, IH.
Qed.
Next Obligation.
  intros. induction b as [|b l [IH1 IH2]]; [done|]. destruct (start_law b) as [A S].
  cbn [bus_start row_bus fst snd forallb fmap list_fmap] in *. rewrite A, IH1. by split; [|constructor].
Qed.
Next Obligation.
  intros. induction b as [|b l IH]; simpl; constructor; [apply stop_law|exact IH].
Qed.
Next Obligation.
  intros. induction b as [|b l (l' & E & S)]; [by exists []|].
  destruct (probe_law b a) as (b' & Eb & Sb); [done|]. exists (b' :: l').
  cbn [bus_start bus_addr row_bus fst snd existsb fmap list_fmap] in *.
  injection E as E1 E2. rewrite Eb. cbn [fst snd]. rewrite E1, E2. split; [done|by constructor].
Qed.

(** Rows keep out of the storage's transactions when each device does. *)
#[export] Program Instance row_quiet `{Quiet B} : Quiet (list B) := {| q_idle l := q_idle <$> l |}.
Next Obligation.
  intros. induction b as [|b l IH]; [done|]. cbn [bus_start row_bus forallb fmap list_fmap] in *.
  injection IH as E1 E2. by rewrite E1, E2, q_start.
Qed.
Next Obligation.
  intros. induction b as [|b l IH]; [done|]. cbn [bus_addr row_bus existsb fmap list_fmap] in *.
  injection IH as E1 E2. by rewrite E1, E2, q_addr.
Qed.
Next Obligation.
  intros. induction b as [|b l IH]; [done|]. cbn [bus_put row_bus existsb fmap list_fmap] in *.
  injection IH as E1 E2. by rewrite E1, E2, q_put.
Qed.
Next Obligation.
  intros. induction b as [|b l IH]; [done|]. cbn [bus_get row_bus foldr fmap list_fmap] in *.
  injection IH as E1 E2. by rewrite E1, E2, q_get.
Qed.
Next Obligation.
  intros. induction b as [|b l IH]; [done|]. cbn [bus_stop row_bus fmap list_fmap] in *.
  by rewrite IH, q_stop.
Qed.
Next Obligation.
  intros. induction b as [|b l IH]; [done|]. cbn [fmap list_fmap] in *. by rewrite IH, q_idem.
Qed.

(** ** Probing *)

Section Probe.
Context `{Board D B, !Stations B} (fuel : nat) (Hfuel : latency * 257 + 256 < fuel).

(** Probing an address with a START tells whether a device answers, and
    changes no device. *)
Lemma probe (d : D) w a : on_wire d w → (0x20 ≤ a < 0x50)%Z →
  ∃ d' w', i2c_start_timeout fuel (u8 (Z.lor (Z.shiftl a 1) I2C_READ)) 10 d
           = Ok (if ans (w_bus w) a then 0%Z else 1%Z, d') ∧
    on_wire d' w' ∧ same (w_bus w') (w_bus w) ∧ w_io w' = w_io w.
Proof.
  intros HR Ha. destruct w as [l b i]. cbn [w_bus w_io].
  destruct (start_law b) as [Hs _], (probe_law b a Ha) as (b' & E & S).
  assert (w_start (u8 (u8 (Z.lor (Z.shiftl a 1) I2C_READ))) (mk_wire l b i) =
          Ok (if ans b a then 0%Z else 1%Z, mk_wire Reading b' i)) as Hw.
  { rewrite dev_read_addr, !u8_small by (rewrite ?u8_small; unfold is_u8; lia).
    unfold w_start. cbn [w_bus w_io]. destruct (bus_start b) as [o b0]. simpl in Hs, E. subst o.
    rewrite E. rewrite <- (u8_small (2 * a + 1)) by (unfold is_u8; lia). by rewrite read_addr_bit. }
  destruct (i2c_start_timeout_refines fuel Hfuel _ 10 ltac:(unfold is_u8; lia) _ _ _ _ HR Hw)
    as (d' & E' & HR').
  by exists d', (mk_wire Reading b' i).
Qed.
End Probe.
