(* ===== verification/Store.v ===== *)
(** * Storing and loading through the I2C library

    The register-level routines of the library over any board and any bus
    that carries the storage: what [i2c_writeReg], [i2c_readReg] and
    [format_storage] do to its memory, and how they fail. *)

From S2P Require Import Prelude Avr Board I2cMaster I2cWire Fram.
From stdpp Require Import strings.
Import I2c.

#[local] Arguments Z.testbit : simpl never.

(** What the controller sees of the world: the memory of the storage, the
    other devices, the ports and stdio. *)
Record store (W : Type) := mk_store { s_mem : list Z; s_rest : W; s_io : io }.
Arguments mk_store {_} _ _ _.
Arguments s_mem {_} _.
Arguments s_rest {_} _.
Arguments s_io {_} _.

(** The memory of a formatted storage: the extents of the two files, zeros
    up to byte 32000 and the old contents behind. *)
Definition formatted (m : list Z) : list Z :=
  le16 [8; 8; 16004; 16004]%Z ++ replicate (Z.to_nat 31992) 0%Z ++ drop (Z.to_nat 32000) m.

Lemma formatted_write m : length m = FRAM_SIZE →
  write_at (write_at m 0 (replicate (4 * Z.to_nat 8000) 0%Z)) 0 (le16 [8; 8; 16004; 16004]%Z)
  = formatted m.
Proof.
  intros Hm. pose proof FRAM_SIZE_Z. unfold formatted.
  assert (∀ k (m : list Z), length k ≤ length m → write_at m 0 k = k ++ drop (length k) m) as Hw.
  { intros k m' Hk. apply (drop_write_at m' 0 k). lia. }
  assert (length (le16 [8; 8; 16004; 16004]%Z) = 8) as H8 by done.
  set (meta := le16 _) in *. clearbody meta.
  rewrite (Hw (replicate _ _) m) by (rewrite length_replicate; lia). rewrite length_replicate.
  replace (4 * Z.to_nat 8000) with (8 + Z.to_nat 31992) by lia.
  rewrite replicate_add, Hw by (rewrite !length_app, !length_replicate; lia).
  f_equal. rewrite H8, <- app_assoc, drop_app_length' by by rewrite length_replicate.
  by replace (8 + Z.to_nat 31992) with (Z.to_nat 32000) by lia.
Qed.

Section Store.
Context `{Board D B} `{!Storage B W} (fuel : nat) (Hfuel : latency * 257 + 256 < fuel).

Definition stored (d : D) (s : store W) : Prop :=
  ∃ w, on_wire d w ∧ st_wf (w_bus w) ∧ st_mem (w_bus w) = s_mem s ∧
       st_rest (w_bus w) = s_rest s ∧ w_io w = s_io s.

Lemma stored_mem d s : stored d s → length (s_mem s) = FRAM_SIZE ∧ Forall is_u8 (s_mem s).
Proof. intros (w & _ & Hwf & <- & _). by apply st_wf_mem. Qed.

Lemma store_write d s off data pos len :
  stored d s → in_range off (Z.to_nat len) → pos + Z.to_nat len ≤ length data →
  Forall is_u8 data →
  ∃ d', i2c_writeReg fuel MB85RC_DEFAULT_ADDRESS off data pos len d = Ok (0%Z, d') ∧
    stored d' (mk_store (write_at (s_mem s) (Z.to_nat off)
                           (take (Z.to_nat len) (drop pos data))) (s_rest s) (s_io s)).
Proof.
  intros ([l b i] & HR & Hwf & Hm & Hr & Hi) Hrng Hlen Hu. simpl in *.
  destruct (storage_write l b i off (take (Z.to_nat len) (drop pos data)))
    as (b' & E & Hwf' & Hr' & Hm'); [done| |by apply Forall_take, Forall_drop|].
  { by rewrite length_take_le by (rewrite length_drop; lia). }
  destruct (i2c_writeReg_refines fuel Hfuel _ off data pos len Hlen Hu _ _ _ _ HR E)
    as (d' & E' & HR').
  exists d'. split; [done|]. eexists. split; [exact HR'|]. simpl. by rewrite Hr', Hm', Hm.
Qed.

Lemma store_read d s off data pos len :
  stored d s → in_range off (Z.to_nat len) → (0 < len)%Z → pos + Z.to_nat len ≤ length data →
  ∃ d', i2c_readReg fuel MB85RC_DEFAULT_ADDRESS off data pos len d
        = Ok ((0%Z, write_at data pos (take (Z.to_nat len) (drop (Z.to_nat off) (s_mem s)))), d') ∧
    stored d' s.
Proof.
  intros ([l b i] & HR & Hwf & Hm & Hr & Hi) Hrng Hpos Hlen. simpl in *.
  destruct (storage_read l b i off (Z.to_nat len)) as (b' & E & Hwf' & Hr' & Hm');
    [done|done|lia|]. unfold in_range in Hrng.
  edestruct (i2c_readReg_refines fuel Hfuel MB85RC_DEFAULT_ADDRESS off data pos len)
    as (d' & E' & HR'); [lia|done|exact HR|by rewrite (io_bind_Ok _ _ _ _ _ E)|].
  exists d'. split; [by rewrite Hm in E'|]. eexists. split; [exact HR'|]. simpl.
  by rewrite Hr', Hm'.
Qed.

(** ** Formatting *)

(** [write_at] of adjacent pieces. *)
Lemma format_loop_done n : ∀ k d s,
  stored d s → 4 * (k + n) ≤ FRAM_SIZE → (k + n) ≤ Z.to_nat 8000 →
  ∃ d', format_loop fuel n (Z.of_nat k) MB85RC_DEFAULT_ADDRESS d = Ok (tt, d') ∧
    stored d' (mk_store (write_at (s_mem s) (4 * k) (replicate (4 * n) 0%Z)) (s_rest s) (s_io s)).
Proof.
  induction n as [|n IH]; intros k d s Hs Hn Hk.
  { exists d. split; [done|]. by destruct s. }
  pose proof FRAM_SIZE_Z. cbn [format_loop].
  destruct (store_write d s (Z.of_nat k * 4) [0; 0; 0; 0]%Z 0 4) as (d1 & E1 & Hs1);
    [done|unfold in_range; lia|simpl; lia|repeat constructor; unfold is_u8; lia|].
  rewrite (io_bind_Ok _ _ _ _ _ E1).
  replace (Z.of_nat k + 1)%Z with (Z.of_nat (S k)) by lia.
  destruct (IH (S k) d1 _ Hs1) as (d2 & E2 & Hs2); [lia|lia|].
  exists d2. split; [exact E2|]. cbn [s_mem s_rest s_io] in Hs2.
  replace (4 * S n) with (4 + 4 * n) by lia. rewrite replicate_add, write_at_app.
  replace (Z.to_nat (Z.of_nat k * 4)) with (4 * k) in Hs2 by lia.
  replace (4 * S k) with (4 * k + 4) in Hs2 by lia. exact Hs2.
Qed.

Lemma format_with n d s : stored d s → 4 * n ≤ FRAM_SIZE → n ≤ Z.to_nat 8000 →
  ∃ d', (format_loop fuel n 0 MB85RC_DEFAULT_ADDRESS;;
         i2c_writeReg fuel MB85RC_DEFAULT_ADDRESS 0 (le16 [8; 8; 16004; 16004]%Z) 0 8;;
         mret tt) d = Ok (tt, d') ∧
    stored d' (mk_store (write_at (write_at (s_mem s) 0 (replicate (4 * n) 0%Z)) 0
                          (le16 [8; 8; 16004; 16004]%Z)) (s_rest s) (s_io s)).
Proof.
  intros Hs Hn1 Hn2. pose proof FRAM_SIZE_Z.
  destruct (format_loop_done n 0 d s Hs) as (d1 & E1 & Hs1); [lia|lia|].
  rewrite (io_bind_Ok (format_loop _ _ _ _) _ _ _ _ E1).
  destruct (store_write d1 _ 0 (le16 [8; 8; 16004; 16004]%Z) 0 8 Hs1) as (d2 & E2 & Hs2);
    [unfold in_range; lia|simpl; lia|repeat constructor; done|].
  rewrite (io_bind_Ok _ _ _ _ _ E2). exists d2. split; [done|]. exact Hs2.
Qed.

Lemma format_storage_done d s : stored d s →
  ∃ d', format_storage fuel MB85RC_DEFAULT_ADDRESS d = Ok (tt, d') ∧
    stored d' (mk_store (formatted (s_mem s)) (s_rest s) (s_io s)).
Proof.
  intros Hs. pose proof FRAM_SIZE_Z. destruct (stored_mem _ _ Hs) as [Hm _].
  rewrite <- formatted_write by done. apply format_with; [done|lia|lia].
Qed.

(** ** A read of length 0 *)

Lemma read_loop_overrun n : ∀ pos data d (w : wire B),
  on_wire d w → w_link w = Reading → pos ≤ length data → length data < pos + n →
  read_loop fuel n pos data d = Err OutOfBounds.
Proof.
  induction n as [|n IH]; intros pos data d w HR Hl Hp Hn; [lia|]. cbn [read_loop].
  destruct (w_read true w) as [[x w1]|e] eqn:Hx.
  - destruct (i2c_read_refines fuel Hfuel true _ _ _ _ HR Hx) as (d1 & E1 & HR1).
    rewrite (io_bind_Ok _ _ _ _ _ E1).
    destruct (decide (pos < length data)) as [Hlt|Hge].
    + rewrite store_Ok by done.
      apply (IH (S pos) _ d1 w1); [done| |rewrite length_insert; lia..].
      unfold w_read in Hx. rewrite bool_decide_true in Hx by done.
      destruct (bus_get true (w_bus w)). by injection Hx as <- <-.
    + by rewrite store_OutOfBounds by lia.
  - unfold w_read in Hx. rewrite bool_decide_true in Hx by done.
    by destruct (bus_get true (w_bus w)).
Qed.

(** A device that answers is addressed for reading. *)
Lemma readReg_addressed d (w w' : wire B) n l dev off data pos len :
  on_wire d w → w_readReg dev off n w = Ok (Some l, w') →
  ∃ d1 (w1 : wire B), on_wire d1 w1 ∧ w_link w1 = Reading ∧
    i2c_readReg fuel dev off data pos len d =
    (data1 ← receive_bytes fuel data pos len; mret (0%Z, data1)) d1.
Proof.
  intros HR Hw. unfold i2c_readReg, w_readReg in *.
  destruct (i2c_init_skip _ _ HR) as (x0 & d0 & E0 & HR0). rewrite (io_bind_Ok _ _ _ _ _ E0).
  rewrite dev_read_addr. replace (Z.shiftl dev 1) with (2 * dev)%Z
    by (rewrite Z.shiftl_mul_pow2; lia). clear HR E0.
  refine_step (start_dev_refines fuel Hfuel _ (u8_range (2 * dev))).
  unfold I2C_WRITE. rewrite Z.lor_0_r. case_bool_decide.
  { by apply io_bind_Ok_inv in Hw as (? & ? & _ & [=]). }
  pose proof (off_hi off) as Ehi. pose proof (off_lo off) as Elo. rewrite <- Ehi, <- Elo in Hw.
  refine_step (i2c_write_refines fuel Hfuel (u8 (Z.shiftr off 8))).
  refine_step (i2c_write_refines fuel Hfuel (Z.land off 0xFF)).
  refine_step (start_dev_refines fuel Hfuel _ (u8_range (2 * dev + 1))). case_bool_decide.
  { by apply io_bind_Ok_inv in Hw as (? & ? & _ & [=]). }
  eexists _, _. split; [done|]. split; [|done].
  match goal with Hs : w_start (u8 (2 * dev + 1)) _ = _, Hc : _ = 0%Z |- _ =>
    revert Hs Hc end.
  unfold w_start. rewrite read_addr_bit. repeat case_match; by intros [= <- <-].
Qed.

Lemma readReg_zero d (w w' : wire B) l dev off data pos :
  on_wire d w → w_readReg dev off 1 w = Ok (Some l, w') →
  pos ≤ length data → length data < pos + Z.to_nat 65535 →
  i2c_readReg fuel dev off data pos 0 d = Err OutOfBounds.
Proof.
  intros HR Hw Hp Hl.
  destruct (readReg_addressed d w w' 1 l dev off data pos 0 HR Hw)
    as (d1 & w1 & HR1 & Hl1 & ->).
  apply io_bind_Err. unfold receive_bytes. change (u16 (0 - 1)) with 65535%Z.
  apply io_bind_Err. by apply (read_loop_overrun _ pos data d1 w1).
Qed.

End Store.

(** * Properties *)

Section Properties.
Context `{Board D B} (fuel : nat) (Hfuel : latency * 257 + 256 < fuel).

(** C9: [i2c_writeReg] does the write transaction on the bus: START, the
    device address, two offset bytes and the data up to the first byte that is
    not acknowledged, then STOP; it returns 0 when all data bytes were
    acknowledged, and 1 without a STOP otherwise. *)
Theorem i2c_writeReg_transaction d w w' c dev off data pos len :
  on_wire d w → pos + Z.to_nat len ≤ length data → Forall is_u8 data →
  w_writeReg dev off (take (Z.to_nat len) (drop pos data)) w = Ok (c, w') →
  ∃ d', i2c_writeReg fuel dev off data pos len d = Ok (c, d') ∧ on_wire d' w'.
Proof.
  intros HR Hl Hu Hw. by apply (i2c_writeReg_refines fuel Hfuel dev off data pos len Hl Hu d w).
Qed.

(** C10: [i2c_readReg] does the read transaction and stores the bytes it
    receives in the caller's buffer; a device that does not answer gives 1 and
    an unchanged buffer. *)
Theorem i2c_readReg_transaction d w w' r dev off data pos len :
  on_wire d w → (0 < len < 65536)%Z → pos + Z.to_nat len ≤ length data →
  w_readReg dev off (Z.to_nat len) w = Ok (r, w') →
  ∃ d', i2c_readReg fuel dev off data pos len d =
        Ok (match r with Some l => (0%Z, write_at data pos l) | None => (1%Z, data) end, d') ∧
        on_wire d' w'.
Proof.
  intros HR Hlen Hl Hw.
  apply (i2c_readReg_refines fuel Hfuel dev off data pos len Hlen Hl d w); [done|].
  by rewrite (io_bind_Ok _ _ _ _ _ Hw).
Qed.

(** The timeout of [i2c_start_timeout] has no effect on its outcome: it
    returns what [i2c_start] returns, with the bus in the same state. *)
Theorem i2c_start_timeout_same d w w' c a ms :
  on_wire d w → is_u8 ms → w_start (u8 a) w = Ok (c, w') →
  (∃ d1, i2c_start_timeout fuel a ms d = Ok (c, d1) ∧ on_wire d1 w') ∧
  (∃ d2, i2c_start fuel a d = Ok (c, d2) ∧ on_wire d2 w').
Proof.
  intros HR Hms Hw. split.
  - by apply (i2c_start_timeout_refines fuel Hfuel a ms Hms d w).
  - by apply (i2c_start_refines fuel Hfuel a d w).
Qed.

(** C37: a unit that does not raise TWINT is never given up: the waiting loop
    of [i2c_start_timeout] runs on whatever the timeout is. *)
Theorem timeout_loop_hangs n ms (d : D) :
  tw_int (h_twi (hview d)) = false → timeout_loop n ms d = Err NoFuel.
Proof.
  clear. revert ms d. induction n as [|n IH]; intros ms d Hi; [done|]. cbn [timeout_loop].
  assert (∀ d, tw_int (h_twi (hview d)) = false →
    tw_int (h_twi (hview (mcu_delay 1 d))) = false) as Hd.
  { intros d0 H0'. destruct (delay_law d0 1) as (k & _ & ->). done. }
  case_bool_decide; [by apply IH, Hd|].
  destruct (mcu_read TWCR d) as [v d1] eqn:E.
  rewrite (io_bind_Ok (read TWCR) _ d v d1) by (unfold read; by rewrite E).
  destruct (twcr_read _ _ _ E) as (Hb & _ & Hd1). rewrite Hi in Hb. simpl in Hb.
  rewrite twint_test, Hb. apply IH, Hd. by rewrite Hd1.
Qed.

(** A read of length 0 from a device that answers is a read of 65536
    bytes: it writes behind every smaller buffer. *)
Theorem i2c_readReg_zero d (w w' : wire B) l dev off data pos :
  on_wire d w → w_readReg dev off 1 w = Ok (Some l, w') →
  pos ≤ length data → length data < pos + Z.to_nat 65535 →
  i2c_readReg fuel dev off data pos 0 d = Err OutOfBounds.
Proof. exact (readReg_zero fuel Hfuel d w w' l dev off data pos). Qed.
End Properties.

Section StorageProperties.
Context `{Board D B} `{!Storage B W} (fuel : nat) (Hfuel : latency * 257 + 256 < fuel).

(** C11: what [i2c_writeReg] stores at an offset of the storage [i2c_readReg]
    loads from there, and no other cell changes. *)
Theorem fram_roundtrip (d : D) (s : store W) off data len buf :
  stored d s → (0 < len)%Z → in_range off (Z.to_nat len) →
  length data = Z.to_nat len → Forall is_u8 data → length buf = Z.to_nat len →
  ∃ d1 d2 s',
    i2c_writeReg fuel MB85RC_DEFAULT_ADDRESS off data 0 len d = Ok (0%Z, d1) ∧
    i2c_readReg fuel MB85RC_DEFAULT_ADDRESS off buf 0 len d1 = Ok ((0%Z, data), d2) ∧
    stored d2 s' ∧ s_rest s' = s_rest s ∧ s_io s' = s_io s ∧
    (∀ i, i < Z.to_nat off ∨ Z.to_nat (off + len) ≤ i → s_mem s' !! i = s_mem s !! i).
Proof.
  intros Hs Hpos Hr Hd Hu Hb. pose proof FRAM_SIZE_Z. destruct (stored_mem _ _ Hs) as [Hm _].
  unfold in_range in Hr.
  destruct (store_write fuel Hfuel d s off data 0 len) as (d1 & E1 & Hs1);
    [done|done|lia|done|].
  rewrite drop_0, take_ge in Hs1 by lia.
  destruct (store_read fuel Hfuel d1 _ off buf 0 len Hs1) as (d2 & E2 & Hs2);
    [done|done|lia|].
  exists d1, d2. eexists. split_and!; [done| |exact Hs2|done|done|].
  - rewrite E2. cbn [s_mem]. rewrite drop_write_at by lia.
    rewrite take_app_length' by lia. by rewrite write_at_all by lia.
  - intros i Hi. cbn [s_mem]. destruct Hi.
    + by rewrite lookup_write_at_lt by lia.
    + rewrite lookup_write_at_ge by lia. done.
Qed.

(** [format_storage] ends with the extents of two empty files at the start
    of the memory and zeros behind them, but only up to byte 32000: the last
    768 of the 32768 bytes keep their contents. *)
Theorem format_storage_layout (d : D) (s : store W) :
  stored d s →
  ∃ d' m', format_storage fuel MB85RC_DEFAULT_ADDRESS d = Ok (tt, d') ∧
    stored d' (mk_store m' (s_rest s) (s_io s)) ∧
    take 8 m' = le16 [8; 8; 16004; 16004]%Z ∧
    (∀ i, 8 ≤ i → (Z.of_nat i < 32000)%Z → m' !! i = Some 0%Z) ∧
    (∀ i, (32000 ≤ Z.of_nat i)%Z → m' !! i = s_mem s !! i).
Proof.
  intros Hs. destruct (format_storage_done fuel Hfuel d s Hs) as (d' & E & Hs').
  exists d', (formatted (s_mem s)). split_and!; [done|done| | |]; unfold formatted.
  - by rewrite take_app_length' by done.
  - intros i Hi Hlt. rewrite lookup_app_r by (simpl; lia).
    rewrite lookup_app_l by (rewrite length_replicate; simpl; lia).
    apply lookup_replicate_2. simpl. lia.
  - intros i Hi. rewrite lookup_app_r by (simpl; lia).
    rewrite lookup_app_r by (rewrite length_replicate; simpl; lia).
    rewrite length_replicate, lookup_drop. f_equal. simpl length. lia.
Qed.
End StorageProperties.

(** ** Witnesses: the chip alone on the executable board *)

Definition demo_io : io := mk_io ∅ [] [] [] [].

Definition blank : list Z := replicate FRAM_SIZE 0%Z.

Definition demo_fram : fram * unit := (mk_fram blank 0 FIdle, tt).

Definition demo_board (i : io) : hw (fram * unit) :=
  mk_hw (mk_twi Released TW_NO_INFO 0 false false 0 demo_fram) i.

Lemma demo_fuel : latency (D := hw (fram * unit)) (B := fram * unit) * 257 + 256 < 1000.
Proof. simpl. lia. Defined.

Lemma demo_wire i : on_wire (demo_board i) (mk_wire Released demo_fram i).
Proof. done. Defined.

Lemma demo_wf : st_wf (Storage := chip_storage) demo_fram.
Proof. split; simpl; [apply length_replicate|apply Forall_replicate; unfold is_u8; lia]. Defined.

Lemma demo_stored i : stored (B := fram * unit) (demo_board i) (mk_store blank tt i).
Proof.
  exists (mk_wire Released demo_fram i). split; [apply demo_wire|].
  split; [apply demo_wf|done].
Defined.

Lemma i2c_writeReg_transaction_witness :
  ∃ d', i2c_writeReg 1000 0x21 0 [1; 2]%Z 0 2 (demo_board demo_io) = Ok (1%Z, d').
Proof.
  destruct (i2c_writeReg_transaction (D := hw (fram * unit)) (B := fram * unit) 1000 demo_fuel
    (demo_board demo_io) (mk_wire Released demo_fram demo_io)
    (mk_wire Writing (mk_fram blank 0 FIdle, tt)
       (io_print (str "write_start failed") []
         (io_print (str "i2c_start error" ++ crlf) [] demo_io)))
    1 0x21 0 [1; 2]%Z 0 2) as (d' & E & _);
    [apply demo_wire|simpl; lia|repeat constructor; unfold is_u8; lia|reflexivity|].
  exists d'. exact E.
Defined.

Lemma i2c_readReg_transaction_witness :
  ∃ d', i2c_readReg 1000 0x21 0 [7; 7]%Z 0 2 (demo_board demo_io) = Ok ((1%Z, [7; 7]%Z), d').
Proof.
  destruct (i2c_readReg_transaction (D := hw (fram * unit)) (B := fram * unit) 1000 demo_fuel
    (demo_board demo_io) (mk_wire Released demo_fram demo_io)
    (mk_wire Writing (mk_fram blank 0 FIdle, tt)
       (io_print (str "Error: readReg::start(devaddr)" ++ crlf) [] demo_io))
    None 0x21 0 [7; 7]%Z 0 2) as (d' & E & _);
    [apply demo_wire|lia|simpl; lia|reflexivity|].
  exists d'. exact E.
Defined.

Lemma i2c_start_timeout_same_witness :
  ∃ d1 d2, i2c_start_timeout 1000 0xA0 10 (demo_board demo_io) = Ok (0%Z, d1) ∧
           i2c_start 1000 0xA0 (demo_board demo_io) = Ok (0%Z, d2).
Proof.
  destruct (i2c_start_timeout_same (D := hw (fram * unit)) (B := fram * unit) 1000 demo_fuel
    (demo_board demo_io) (mk_wire Released demo_fram demo_io)
    (mk_wire Writing (mk_fram blank 0 FHigh, tt) demo_io) 0 0xA0 10)
    as [(d1 & E1 & _) (d2 & E2 & _)];
    [apply demo_wire|unfold is_u8; lia|reflexivity|].
  exists d1, d2. exact (conj E1 E2).
Defined.

Lemma timeout_loop_hangs_witness :
  timeout_loop 5000 10 (demo_board demo_io) = Err NoFuel.
Proof. exact (timeout_loop_hangs (D := hw (fram * unit)) (B := fram * unit) 5000 10 (demo_board demo_io) eq_refl). Defined.

Lemma i2c_readReg_zero_witness :
  i2c_readReg 1000 MB85RC_DEFAULT_ADDRESS 0 (replicate 256 0%Z) 2 0 (demo_board demo_io)
  = Err OutOfBounds.
Proof.
  destruct (storage_read Released demo_fram demo_io 0 1) as (b' & E & _);
    [apply demo_wf|unfold in_range; lia|lia|].
  apply (i2c_readReg_zero (D := hw (fram * unit)) (B := fram * unit) 1000 demo_fuel (demo_board demo_io) _ _ _
    MB85RC_DEFAULT_ADDRESS 0 (replicate 256 0%Z) 2 (demo_wire demo_io) E);
    rewrite length_replicate; lia.
Defined.

Lemma fram_roundtrip_witness :
  ∃ d1 d2, i2c_writeReg 1000 MB85RC_DEFAULT_ADDRESS 300 [65; 66; 67]%Z 0 3 (demo_board demo_io)
           = Ok (0%Z, d1) ∧
           i2c_readReg 1000 MB85RC_DEFAULT_ADDRESS 300 [0; 0; 0]%Z 0 3 d1
           = Ok ((0%Z, [65; 66; 67]%Z), d2).
Proof.
  destruct (fram_roundtrip (D := hw (fram * unit)) (B := fram * unit) 1000 demo_fuel (demo_board demo_io) _
    300 [65; 66; 67]%Z 3 [0; 0; 0]%Z (demo_stored demo_io)) as (d1 & d2 & s' & E1 & E2 & _);
    [lia|unfold in_range; lia|done|repeat constructor; unfold is_u8; lia|done|].
  exists d1, d2. exact (conj E1 E2).
Defined.

Lemma format_storage_layout_witness :
  ∃ d', format_storage 1000 MB85RC_DEFAULT_ADDRESS (demo_board demo_io) = Ok (tt, d').
Proof.
  destruct (format_storage_layout (D := hw (fram * unit)) (B := fram * unit) 1000 demo_fuel
    (demo_board demo_io) _ (demo_stored demo_io)) as (d' & m' & E & _).
  exists d'. exact E.
Defined.
