(* ===== verification/Leds.v ===== *)
(** * LEDs

    Translation of [main/leds.c] (the copy in [slave/] is the same) and of the
    [IO_struct] of [common.h].  A pointer to a port register is the register.
    The LED variables are set once, by [initialize_leds], before any use: they
    are constants here. *)

From S2P Require Import Prelude Avr Board.
From stdpp Require Import gmap.

Module Leds.

Record IO_struct := mk_IO_struct { ddr : reg; port : reg; pin : Z; portin : reg }.

Definition _yellow : IO_struct := mk_IO_struct DDRC PORTC 7 PINC.
Definition _green : IO_struct := mk_IO_struct DDRD PORTD 5 PIND.
Definition _red_e : IO_struct := mk_IO_struct DDRB PORTB 5 PINB.
Definition _green_e : IO_struct := mk_IO_struct DDRD PORTD 0 PIND.

Section Code.
Context `{Mcu D}.

(** [INIT_YELLOW; INIT_GREEN; INIT_RED_E; INIT_GREEN_E;] *)
Definition initialize_leds : IO D unit :=
  or_reg DDRC (bit 7);; or_reg DDRD (bit 5);; or_reg DDRB (bit 5);; or_reg DDRD (bit 0).

Definition flash_led (color : IO_struct) (inverted : Z) : IO D unit :=
  (if bool_decide (inverted = 0%Z)
   then SET_BIT (port color) (pin color)
   else CLEAR_BIT (port color) (pin color));;
  delay_ms 200;;
  TOGGLE_BIT (port color) (pin color);;
  delay_ms 200.

Fixpoint light_show_loop (n : nat) : IO D unit :=
  match n with
  | O => mret tt
  | S n' => flash_led _yellow 0;; flash_led _green 1;; light_show_loop n'
  end.

Definition light_show : IO D unit := light_show_loop 2.

Definition busy_light : IO D unit :=
  SET_BIT (port _red_e) (pin _red_e);; CLEAR_BIT (port _green) (pin _green).

Definition ready_light : IO D unit :=
  SET_BIT (port _green) (pin _green);; CLEAR_BIT (port _red_e) (pin _red_e).
End Code.

End Leds.
Import Leds.

(** ** What they do to the ports *)

Section Ports.
Context `{Board D B}.

(** The state after a change of port [r] by [f]. *)
Definition port_step (r : reg) (f : Z → Z) (i : io) : io := set_gpio r (u8 (f (gpio i r))) i.

Lemma rmw_step d t i r f : hview d = mk_hw t i → latch r = true →
  ∃ d', (x ← read r; write r (f x)) d = Ok (tt, d') ∧ hview d' = mk_hw t (port_step r f i).
Proof.
  intros Hv Hr. destruct (mcu_read r d) as [v d1] eqn:E.
  destruct (latch_read d r v d1 Hr E) as [-> Hd1]. rewrite Hv in *. simpl in *.
  rewrite (io_bind_Ok (read r) _ d (gpio i r) d1) by (unfold read; by rewrite E).
  eexists. split; [done|]. rewrite latch_write by (done || apply u8_range). by rewrite Hd1.
Qed.

Lemma set_bit_step d t i r n : hview d = mk_hw t i → latch r = true →
  ∃ d', SET_BIT r n d = Ok (tt, d') ∧ hview d' = mk_hw t (port_step r (λ x, Z.lor x (bit n)) i).
Proof. apply rmw_step. Qed.

Lemma clear_bit_step d t i r n : hview d = mk_hw t i → latch r = true →
  ∃ d', CLEAR_BIT r n d = Ok (tt, d') ∧
        hview d' = mk_hw t (port_step r (λ x, Z.land x (Z.ldiff 255 (bit n))) i).
Proof. apply rmw_step. Qed.

Lemma toggle_bit_step d t i r n : hview d = mk_hw t i → latch r = true →
  ∃ d', TOGGLE_BIT r n d = Ok (tt, d') ∧
        hview d' = mk_hw t (port_step r (λ x, Z.lxor x (bit n)) i).
Proof. apply rmw_step. Qed.

Lemma delay_step d t i ms : hview d = mk_hw t i →
  ∃ d' n, delay_ms ms d = Ok (tt, d') ∧ n ≤ tw_pend t ∧ hview d' = mk_hw (with_pend n t) i.
Proof.
  intros Hv. destruct (delay_law d ms) as (n & Hn & Hd). rewrite Hv in Hn, Hd.
  by eexists _, n.
Qed.
End Ports.

(** ** Bits of a port *)

Lemma gpio_port_step i r f r' :
  gpio (port_step r f i) r' = if decide (r = r') then u8 (f (gpio i r)) else gpio i r'.
Proof.
  unfold gpio, port_step, set_gpio. simpl.
  destruct (decide (r = r')) as [<-|Hne]; [by rewrite lookup_insert_eq|by rewrite lookup_insert_ne].
Qed.

Lemma testbit_u8 z n : (0 ≤ n < 8)%Z → Z.testbit (u8 z) n = Z.testbit z n.
Proof.
  intros Hn. unfold u8. change 256%Z with (2 ^ 8)%Z. by rewrite Z.mod_pow2_bits_low by lia.
Qed.

Lemma testbit_bit n m : (0 ≤ n)%Z → Z.testbit (bit n) m = bool_decide (n = m).
Proof.
  intros Hn. unfold bit. rewrite Z.shiftl_1_l, Z.pow2_bits_eqb by done.
  by destruct (Z.eqb_spec n m); symmetry; [apply bool_decide_true|apply bool_decide_false].
Qed.

Lemma testbit_255 n : (0 ≤ n < 8)%Z → Z.testbit 255 n = true.
Proof. intros Hn. change 255%Z with (Z.ones 8). apply Z.ones_spec_low. lia. Qed.

Create Rewrite HintDb bits.
#[export] Hint Rewrite Z.lor_spec Z.land_spec Z.ldiff_spec Z.lxor_spec : bits.

(** The LED or pin [n] of port [r]. *)
Definition port_bit (i : io) (r : reg) (n : Z) : bool := Z.testbit (gpio i r) n.

Definition set_bits (i : io) (on off : reg * Z) : io :=
  port_step off.1 (λ x, Z.land x (Z.ldiff 255 (bit off.2)))
    (port_step on.1 (λ x, Z.lor x (bit on.2)) i).

Lemma port_bit_set i r k r' n : (0 ≤ k)%Z → (0 ≤ n < 8)%Z →
  port_bit (port_step r (λ x, Z.lor x (bit k)) i) r' n =
  if bool_decide ((r', n) = (r, k)) then true else port_bit i r' n.
Proof.
  intros Hk Hn. unfold port_bit. rewrite gpio_port_step. case_decide as Hr; subst.
  - rewrite testbit_u8 by done. autorewrite with bits. rewrite testbit_bit by done.
    repeat case_bool_decide; simplify_eq; by rewrite ?orb_true_r, ?orb_false_r.
  - by rewrite bool_decide_false by congruence.
Qed.

Lemma port_bit_clear i r k r' n : (0 ≤ k)%Z → (0 ≤ n < 8)%Z →
  port_bit (port_step r (λ x, Z.land x (Z.ldiff 255 (bit k))) i) r' n =
  if bool_decide ((r', n) = (r, k)) then false else port_bit i r' n.
Proof.
  intros Hk Hn. unfold port_bit. rewrite gpio_port_step. case_decide as Hr; subst.
  - rewrite testbit_u8 by done. autorewrite with bits.
    rewrite testbit_bit, testbit_255 by done.
    repeat case_bool_decide; simplify_eq; by rewrite ?andb_true_r, ?andb_false_r.
  - by rewrite bool_decide_false by congruence.
Qed.

Lemma port_bit_toggle i r k r' n : (0 ≤ k)%Z → (0 ≤ n < 8)%Z →
  port_bit (port_step r (λ x, Z.lxor x (bit k)) i) r' n =
  if bool_decide ((r', n) = (r, k)) then negb (port_bit i r n) else port_bit i r' n.
Proof.
  intros Hk Hn. unfold port_bit. rewrite gpio_port_step. case_decide as Hr; subst.
  - rewrite testbit_u8 by done. autorewrite with bits. rewrite testbit_bit by done.
    repeat case_bool_decide; simplify_eq; by rewrite ?xorb_true_r, ?xorb_false_r.
  - by rewrite bool_decide_false by congruence.
Qed.

Section Lights.
Context `{Board D B}.

Lemma busy_light_step d t i : hview d = mk_hw t i →
  ∃ d', busy_light d = Ok (tt, d') ∧ hview d' = mk_hw t (set_bits i (PORTB, 5%Z) (PORTD, 5%Z)).
Proof.
  intros Hv. destruct (set_bit_step d t i PORTB 5 Hv eq_refl) as (d1 & E1 & Hd1).
  destruct (clear_bit_step d1 t _ PORTD 5 Hd1 eq_refl) as (d2 & E2 & Hd2).
  exists d2. split; [|done]. unfold busy_light. by rewrite (io_bind_Ok _ _ _ _ _ E1).
Qed.

Lemma ready_light_step d t i : hview d = mk_hw t i →
  ∃ d', ready_light d = Ok (tt, d') ∧ hview d' = mk_hw t (set_bits i (PORTD, 5%Z) (PORTB, 5%Z)).
Proof.
  intros Hv. destruct (set_bit_step d t i PORTD 5 Hv eq_refl) as (d1 & E1 & Hd1).
  destruct (clear_bit_step d1 t _ PORTB 5 Hd1 eq_refl) as (d2 & E2 & Hd2).
  exists d2. split; [|done]. unfold ready_light. by rewrite (io_bind_Ok _ _ _ _ _ E1).
Qed.

(** The busy light is the red LED alone, the ready light the green LED
    alone, and no other pin changes. *)
Theorem lights_exclusive d :
  ∃ d1 d2, busy_light d = Ok (tt, d1) ∧ ready_light d1 = Ok (tt, d2) ∧
    let b0 := port_bit (h_io (hview d)) in
    let b1 := port_bit (h_io (hview d1)) in
    let b2 := port_bit (h_io (hview d2)) in
    (b1 PORTB 5%Z = true ∧ b1 PORTD 5%Z = false) ∧
    (b2 PORTB 5%Z = false ∧ b2 PORTD 5%Z = true) ∧
    (∀ r n, (0 ≤ n < 8)%Z → (r, n) ≠ (PORTB, 5%Z) → (r, n) ≠ (PORTD, 5%Z) →
            b1 r n = b0 r n ∧ b2 r n = b0 r n).
Proof.
  destruct (hview d) as [t i] eqn:Hv.
  destruct (busy_light_step d t i Hv) as (d1 & E1 & Hd1).
  destruct (ready_light_step d1 t _ Hd1) as (d2 & E2 & Hd2).
  exists d1, d2. rewrite Hd1, Hd2. cbn [h_io]. unfold set_bits. cbn [fst snd].
  split; [done|]. split; [done|].
  split_and!; try (intros r n Hn Hne1 Hne2);
    rewrite ?port_bit_clear, ?port_bit_set, ?port_bit_clear, ?port_bit_set by lia;
    rewrite ?(bool_decide_false ((r, n) = _)) by done; done.
Qed.

(** [flash_led] leaves the LED in its resting state, off, or on when it is
    inverted, and no other pin changed. *)
Theorem flash_led_rests d color inverted :
  latch (port color) = true → (0 ≤ pin color < 8)%Z →
  ∃ d', flash_led color inverted d = Ok (tt, d') ∧
    port_bit (h_io (hview d')) (port color) (pin color) = bool_decide (inverted ≠ 0%Z) ∧
    (∀ r n, (0 ≤ n < 8)%Z → (r, n) ≠ (port color, pin color) →
            port_bit (h_io (hview d')) r n = port_bit (h_io (hview d)) r n).
Proof.
  intros Hl Hp. destruct (hview d) as [t i] eqn:Hv.
  assert (∃ d1 i1, (if bool_decide (inverted = 0%Z) then SET_BIT (port color) (pin color)
     else CLEAR_BIT (port color) (pin color)) d = Ok (tt, d1) ∧ hview d1 = mk_hw t i1 ∧
     (∀ r n, (0 ≤ n < 8)%Z → port_bit i1 r n = if bool_decide ((r, n) = (port color, pin color))
        then bool_decide (inverted = 0%Z) else port_bit i r n)) as (d1 & i1 & E1 & Hd1 & Hb1).
  { case_bool_decide.
    - destruct (set_bit_step d t i _ (pin color) Hv Hl) as (d1 & E1 & Hd1).
      eexists d1, _. split_and!; [done|done|]. intros r n Hn. by rewrite port_bit_set by lia.
    - destruct (clear_bit_step d t i _ (pin color) Hv Hl) as (d1 & E1 & Hd1).
      eexists d1, _. split_and!; [done|done|]. intros r n Hn. by rewrite port_bit_clear by lia. }
  destruct (delay_step d1 t i1 200 Hd1) as (d2 & n2 & E2 & _ & Hd2).
  destruct (toggle_bit_step d2 _ i1 _ (pin color) Hd2 Hl) as (d3 & E3 & Hd3).
  destruct (delay_step d3 _ _ 200 Hd3) as (d4 & n4 & E4 & _ & Hd4).
  exists d4. unfold flash_led. rewrite (io_bind_Ok _ _ _ _ _ E1), (io_bind_Ok _ _ _ _ _ E2),
    (io_bind_Ok _ _ _ _ _ E3). split; [done|]. rewrite Hd4. cbn [h_io]. split.
  - rewrite port_bit_toggle, Hb1 by lia. rewrite !bool_decide_true by done.
    by repeat case_bool_decide.
  - intros r n Hn Hne. rewrite port_bit_toggle, bool_decide_false by (done || lia).
    by rewrite Hb1, bool_decide_false by done.
Qed.
End Lights.

Lemma flash_led_rests_witness :
  ∃ d', flash_led _green 1 (bare_board (mk_io ∅ [] [] [] [])) = Ok (tt, d') ∧
        port_bit (h_io d') PORTD 5 = true.
Proof.
  destruct (flash_led_rests (D := hw unit) (B := unit) (bare_board (mk_io ∅ [] [] [] []))
    _green 1) as (d' & E & Hb & _); [reflexivity|simpl; lia|].
  exists d'. split; [exact E|exact Hb].
Defined.
