(* ===== verification/Buttons.v ===== *)
(** * Buttons

    Translation of [main/buttons.c] (the copy in [slave/] is the same).  The
    function pointers hold callbacks of a type [F], which the images interpret
    with [call].  [fw] is the state of an image: the variables of this file,
    the other globals and the hardware. *)

From S2P Require Import Prelude Avr Board Leds.
From stdpp Require Import gmap.
Import Leds.

Module Buttons.

Definition BUTTONA : Z := 3.
Definition BUTTONC : Z := 0.
Definition BUTTON_MASK : Z := Z.lor (bit BUTTONA) (bit BUTTONC).
Definition PCIE0 : Z := 0.
Definition PCINT3 : Z := 3.
Definition PCINT0 : Z := 0.

Definition _button_A : IO_struct := mk_IO_struct DDRB PORTB BUTTONA PINB.
Definition _button_C : IO_struct := mk_IO_struct DDRB PORTB BUTTONC PINB.

Record buttons (F : Type) := mk_buttons {
  fn_release_A : F; fn_press_A : F; fn_release_C : F; fn_press_C : F;
  pinb_previous : Z }.
Arguments mk_buttons {_} _ _ _ _ _.
Arguments fn_release_A {_} _.
Arguments fn_press_A {_} _.
Arguments fn_release_C {_} _.
Arguments fn_press_C {_} _.
Arguments pinb_previous {_} _.

Record fw (F G D : Type) := mk_fw { fw_btn : buttons F; fw_glob : G; fw_hw : D }.
Arguments mk_fw {_ _ _} _ _ _.
Arguments fw_btn {_ _ _} _.
Arguments fw_glob {_ _ _} _.
Arguments fw_hw {_ _ _} _.

Section State.
Context {F G D : Type}.

Definition on_hw {A} (m : IO D A) : IO (fw F G D) A := λ s,
  match m (fw_hw s) with
  | Ok (a, d) => Ok (a, mk_fw (fw_btn s) (fw_glob s) d)
  | Err e => Err e
  end.

Definition get_btn : IO (fw F G D) (buttons F) := λ s, Ok (fw_btn s, s).
Definition set_btn (b : buttons F) : IO (fw F G D) unit := λ s,
  Ok (tt, mk_fw b (fw_glob s) (fw_hw s)).
Definition get_glob : IO (fw F G D) G := λ s, Ok (fw_glob s, s).
Definition set_glob (g : G) : IO (fw F G D) unit := λ s,
  Ok (tt, mk_fw (fw_btn s) g (fw_hw s)).

Definition set_previous (v : Z) : IO (fw F G D) unit :=
  b ← get_btn;
  set_btn (mk_buttons (fn_release_A b) (fn_press_A b) (fn_release_C b) (fn_press_C b) v).
End State.

Section Code.
Context {F G D : Type} `{Mcu D} (EmptyFunction : F) (call : F → IO (fw F G D) unit).

Definition initialize_buttons : IO (fw F G D) unit :=
  b ← get_btn;
  set_btn (mk_buttons EmptyFunction EmptyFunction EmptyFunction EmptyFunction (pinb_previous b)).

Definition SetUpButton (button : IO_struct) : IO (fw F G D) Z :=
  on_hw (CLEAR_BIT (ddr button) (pin button));;
  on_hw (SET_BIT (port button) (pin button));;
  on_hw (or_reg PCICR (bit PCIE0));;
  (if bool_decide (pin button = BUTTONA) then on_hw (or_reg PCMSK0 (bit PCINT3)) else mret tt);;
  (if bool_decide (pin button = BUTTONC) then on_hw (or_reg PCMSK0 (bit PCINT0)) else mret tt);;
  v ← on_hw (read PINB);
  set_previous (Z.land v BUTTON_MASK);;
  mret 0%Z.

Definition SetUpButtonAction (button : IO_struct) (release : Z) (callback : F)
    : IO (fw F G D) Z :=
  b ← get_btn;
  (if bool_decide (pin button = BUTTONA) then
     if bool_decide (release ≠ 0%Z)
     then set_btn (mk_buttons callback (fn_press_A b) (fn_release_C b) (fn_press_C b) (pinb_previous b))
     else set_btn (mk_buttons (fn_release_A b) callback (fn_release_C b) (fn_press_C b) (pinb_previous b))
   else mret tt);;
  b ← get_btn;
  (if bool_decide (pin button = BUTTONC) then
     if bool_decide (release ≠ 0%Z)
     then set_btn (mk_buttons (fn_release_A b) (fn_press_A b) callback (fn_press_C b) (pinb_previous b))
     else set_btn (mk_buttons (fn_release_A b) (fn_press_A b) (fn_release_C b) callback (pinb_previous b))
   else mret tt);;
  mret 0%Z.

Definition checkButtons : IO (fw F G D) Z :=
  v ← on_hw (read PINB);
  let pinb_now := Z.land v BUTTON_MASK in
  on_hw (delay_ms 1);;
  v2 ← on_hw (read PINB);
  if bool_decide (Z.lxor pinb_now (Z.land v2 BUTTON_MASK) ≠ 0%Z) then mret 0%Z
  else
    b ← get_btn;
    let pinb_change := Z.lxor pinb_now (pinb_previous b) in
    r ← (if bool_decide (Z.land pinb_change (bit BUTTONA) ≠ 0%Z) then
           if bool_decide (0%Z = Z.land pinb_now (bit BUTTONA))
           then call (fn_press_A b);; mret None
           else mret (Some 1%Z)
         else mret None);
    match r with
    | Some c => mret c
    | None =>
        b ← get_btn;
        r ← (if bool_decide (Z.land pinb_change (bit BUTTONC) ≠ 0%Z) then
               if bool_decide (0%Z = Z.land pinb_now (bit BUTTONC))
               then call (fn_press_C b);; mret None
               else mret (Some (-1)%Z)
             else mret None);
        match r with
        | Some c => mret c
        | None => set_previous pinb_now;; mret 0%Z
        end
    end.

Definition PCINT0_vect : IO (fw F G D) unit :=
  on_hw (TOGGLE_BIT (port _green) (pin _green));;
  on_hw (delay_ms 150);;
  on_hw (TOGGLE_BIT (port _green) (pin _green));;
  v ← on_hw (read PINB);
  let pinb_now := Z.land v BUTTON_MASK in
  on_hw (delay_ms 1);;
  v2 ← on_hw (read PINB);
  if bool_decide (Z.lxor pinb_now (Z.land v2 BUTTON_MASK) ≠ 0%Z) then mret tt
  else
    b ← get_btn;
    let pinb_change := Z.lxor pinb_now (pinb_previous b) in
    (if bool_decide (Z.land pinb_change (bit BUTTONA) ≠ 0%Z) then
       if bool_decide (0%Z = Z.land pinb_now (bit BUTTONA))
       then call (fn_press_A b) else call (fn_release_A b)
     else mret tt);;
    b ← get_btn;
    (if bool_decide (Z.land pinb_change (bit BUTTONC) ≠ 0%Z) then
       if bool_decide (0%Z = Z.land pinb_now (bit BUTTONC))
       then call (fn_press_C b) else call (fn_release_C b)
     else mret tt);;
    set_previous pinb_now.

(** The interrupts taken since the last observation of a volatile variable. *)
Fixpoint run_irqs (n : nat) : IO (fw F G D) unit :=
  match n with O => mret tt | S n' => PCINT0_vect;; run_irqs n' end.

Definition interrupts : IO (fw F G D) unit := n ← on_hw irqs; run_irqs n.
End Code.

End Buttons.
Import Buttons.

(** ** Which callbacks an interrupt runs *)

Definition level (v : Z) : Z := Z.land v BUTTON_MASK.

(** The callbacks of the buttons whose level changed from [pinb_previous] to
    [now], A before C; a pressed button pulls its pin low. *)
Definition events {F} (b : buttons F) (now : Z) : list F :=
  (if Bool.eqb (Z.testbit now 3) (Z.testbit (pinb_previous b) 3) then []
   else [if Z.testbit now 3 then fn_release_A b else fn_press_A b]) ++
  (if Bool.eqb (Z.testbit now 0) (Z.testbit (pinb_previous b) 0) then []
   else [if Z.testbit now 0 then fn_release_C b else fn_press_C b]).

Lemma bit_test v n : (0 ≤ n)%Z → bool_decide (Z.land v (bit n) ≠ 0%Z) = Z.testbit v n.
Proof.
  intros Hn. destruct (Z.testbit v n) eqn:E.
  - apply bool_decide_true. intros H0. assert (Z.testbit (Z.land v (bit n)) n = false) as Hx
      by (by rewrite H0, Z.bits_0).
    by rewrite Z.land_spec, E, testbit_bit, bool_decide_true in Hx.
  - apply bool_decide_false. intros H0. apply H0. apply Z.bits_inj'. intros m Hm.
    rewrite Z.land_spec, testbit_bit, Z.bits_0 by done.
    case_bool_decide; subst; [by rewrite E|apply andb_false_r].
Qed.

Lemma bit_test_0 v n : (0 ≤ n)%Z → bool_decide (0%Z = Z.land v (bit n)) = negb (Z.testbit v n).
Proof.
  intros Hn. rewrite <- bit_test by done. repeat case_bool_decide; naive_solver.
Qed.

Section Dispatch.
Context {F G D B : Type} `{Board D B} (call : F → IO (fw F G D) unit).

Fixpoint run_calls (l : list F) : IO (fw F G D) unit :=
  match l with [] => mret tt | f :: l' => call f;; run_calls l' end.

Lemma on_hw_Ok {A} (m : IO D A) (s : fw F G D) a d' :
  m (fw_hw s) = Ok (a, d') → on_hw m s = Ok (a, mk_fw (fw_btn s) (fw_glob s) d').
Proof. intros E. unfold on_hw. by rewrite E. Qed.

Lemma pinb_step d t i v l : hview d = mk_hw t i → io_pins i = v :: l →
  ∃ d', read PINB d = Ok (v, d') ∧
        hview d' = mk_hw t (mk_io (io_gpio i) (io_out i) (io_in i) l (io_irqs i)).
Proof.
  intros Hv Hp. destruct (mcu_read PINB d) as [x d'] eqn:E.
  destruct (pinb_read d x d' E) as [-> Hd']. rewrite Hv in *. unfold io_pinb in *.
  simpl in *. rewrite Hp in *. exists d'. unfold read. by rewrite E.
Qed.

(** The board after the debug toggles and the two reads. *)
Definition isr_io (i : io) (l : list Z) : io :=
  let i1 := port_step PORTD (λ x, Z.lxor x (bit 5)) (port_step PORTD (λ x, Z.lxor x (bit 5)) i) in
  mk_io (io_gpio i1) (io_out i) (io_in i) l (io_irqs i).

(** The debug toggles, the two reads and the delays. *)
Lemma isr_prefix d v1 v2 l : io_pins (h_io (hview d)) = v1 :: v2 :: l →
  ∃ d1 d2 d3 d4 d5 d6,
    TOGGLE_BIT (port _green) (pin _green) d = Ok (tt, d1) ∧ delay_ms 150 d1 = Ok (tt, d2) ∧
    TOGGLE_BIT (port _green) (pin _green) d2 = Ok (tt, d3) ∧ read PINB d3 = Ok (v1, d4) ∧
    delay_ms 1 d4 = Ok (tt, d5) ∧ read PINB d5 = Ok (v2, d6) ∧
    (∃ k, k ≤ tw_pend (h_twi (hview d)) ∧
          hview d6 = mk_hw (with_pend k (h_twi (hview d))) (isr_io (h_io (hview d)) l)) ∧
    (∀ r n, (0 ≤ n < 8)%Z → port_bit (h_io (hview d6)) r n = port_bit (h_io (hview d)) r n).
Proof.
  intros Hp. destruct (hview d) as [t i] eqn:Hv. simpl in Hp.
  destruct (toggle_bit_step d t i PORTD 5 Hv eq_refl) as (d1 & E1 & Hd1).
  destruct (delay_step d1 _ _ 150 Hd1) as (d2 & k2 & E2 & Hk2 & Hd2).
  destruct (toggle_bit_step d2 _ _ PORTD 5 Hd2 eq_refl) as (d3 & E3 & Hd3).
  destruct (pinb_step d3 _ _ v1 (v2 :: l) Hd3) as (d4 & E4 & Hd4); [done|].
  destruct (delay_step d4 _ _ 1 Hd4) as (d5 & k5 & E5 & Hk5 & Hd5).
  destruct (pinb_step d5 _ _ v2 l Hd5) as (d6 & E6 & Hd6); [done|].
  exists d1, d2, d3, d4, d5, d6. split_and!; [done..| |].
  { exists k5. split; [simpl in *; lia|exact Hd6]. }
  intros r n Hn. rewrite Hd6. cbn [h_io]. unfold port_bit, gpio. cbn [io_gpio].
  change (port_bit (port_step PORTD (λ x, Z.lxor x (bit 5))
    (port_step PORTD (λ x, Z.lxor x (bit 5)) i)) r n = port_bit i r n).
  rewrite !port_bit_toggle by lia. case_bool_decide; simplify_eq; [|done].
  by rewrite bool_decide_true, negb_involutive.
Qed.

Lemma PCINT0_run (s : fw F G D) v1 v2 l :
  io_pins (h_io (hview (fw_hw s))) = v1 :: v2 :: l →
  (∀ f s s', call f s = Ok (tt, s') → fw_btn s' = fw_btn s) →
  ∃ d', (∃ k, k ≤ tw_pend (h_twi (hview (fw_hw s))) ∧
              hview d' = mk_hw (with_pend k (h_twi (hview (fw_hw s))))
                               (isr_io (h_io (hview (fw_hw s))) l)) ∧
    (∀ r n, (0 ≤ n < 8)%Z →
       port_bit (h_io (hview d')) r n = port_bit (h_io (hview (fw_hw s))) r n) ∧
    PCINT0_vect call s =
    let s' := mk_fw (fw_btn s) (fw_glob s) d' in
    if decide (level v1 = level v2)
    then (run_calls (events (fw_btn s) (level v1));; set_previous (level v1)) s'
    else Ok (tt, s').
Proof.
  intros Hp Hcall.
  destruct (isr_prefix (fw_hw s) v1 v2 l Hp)
    as (d1 & d2 & d3 & d4 & d5 & d6 & E1 & E2 & E3 & E4 & E5 & E6 & Hl & Hb).
  exists d6. split; [done|]. split; [done|]. unfold PCINT0_vect.
  rewrite (io_bind_Ok _ _ _ _ _ (on_hw_Ok _ s _ _ E1)).
  rewrite (io_bind_Ok _ _ _ _ _ (on_hw_Ok _ (mk_fw _ _ d1) _ _ E2)).
  rewrite (io_bind_Ok _ _ _ _ _ (on_hw_Ok _ (mk_fw _ _ d2) _ _ E3)).
  rewrite (io_bind_Ok _ _ _ _ _ (on_hw_Ok _ (mk_fw _ _ d3) _ _ E4)).
  rewrite (io_bind_Ok _ _ _ _ _ (on_hw_Ok _ (mk_fw _ _ d4) _ _ E5)).
  rewrite (io_bind_Ok _ _ _ _ _ (on_hw_Ok _ (mk_fw _ _ d5) _ _ E6)).
  cbn [fw_btn fw_glob]. fold (level v1) (level v2).
  assert (bool_decide (Z.lxor (level v1) (level v2) ≠ 0%Z) = bool_decide (level v1 ≠ level v2)) as ->.
  { apply bool_decide_ext. by rewrite Z.lxor_eq_0_iff. }
  destruct (decide (level v1 = level v2)) as [He|He];
    [rewrite bool_decide_false by naive_solver|by rewrite bool_decide_true].
  rewrite (io_bind_Ok get_btn _ (mk_fw (fw_btn s) (fw_glob s) d6) (fw_btn s) _) by done.
  rewrite !bit_test, !bit_test_0, !Z.lxor_spec by done. unfold events, BUTTONA, BUTTONC.
  set (s6 := mk_fw (fw_btn s) (fw_glob s) d6).
  destruct (Z.testbit (level v1) 3), (Z.testbit (pinb_previous (fw_btn s)) 3),
    (Z.testbit (level v1) 0), (Z.testbit (pinb_previous (fw_btn s)) 0); try done; simpl.
  all: unfold mbind, IO_bind, get_btn, mret, IO_ret; simpl.
  all: match goal with |- context [call ?f ?s0] => destruct (call f s0) as [[[] s1]|e] eqn:Ec end;
    try done.
  all: pose proof (Hcall _ _ _ Ec) as Hs1; simpl in Hs1; rewrite Hs1;
    by destruct (call _ s1) as [[[] s2]|e].
Qed.

(** C14: the pin-change interrupt runs the callbacks of exactly the buttons
    whose level changed, A before C, when two reads of the port a millisecond
    apart agree, and then remembers the level; when they differ it does
    nothing.  The green LED it toggles for debugging is left as it was. *)
Theorem PCINT0_dispatch (s : fw F G D) v1 v2 l :
  io_pins (h_io (hview (fw_hw s))) = v1 :: v2 :: l →
  (∀ f s s', call f s = Ok (tt, s') → fw_btn s' = fw_btn s) →
  ∃ d', io_pins (h_io (hview d')) = l ∧
    (∀ r n, (0 ≤ n < 8)%Z →
       port_bit (h_io (hview d')) r n = port_bit (h_io (hview (fw_hw s))) r n) ∧
    PCINT0_vect call s =
    let s' := mk_fw (fw_btn s) (fw_glob s) d' in
    if decide (level v1 = level v2)
    then (run_calls (events (fw_btn s) (level v1));; set_previous (level v1)) s'
    else Ok (tt, s').
Proof.
  intros Hp Hcall. destruct (PCINT0_run s v1 v2 l Hp Hcall) as (d' & (k & _ & Hd') & Hb & E).
  exists d'. split; [by rewrite Hd'|done].
Qed.
End Dispatch.

Lemma PCINT0_dispatch_witness :
  ∃ d', PCINT0_vect (G := unit) (λ _ : bool, mret tt)
          (mk_fw (mk_buttons true false true false 9) tt (bare_board (mk_io ∅ [] [] [1; 1]%Z [])))
        = Ok (tt, mk_fw (mk_buttons true false true false 1) tt d').
Proof.
  destruct (PCINT0_dispatch (D := hw unit) (B := unit) (λ _ : bool, mret tt)
    (mk_fw (mk_buttons true false true false 9) tt (bare_board (mk_io ∅ [] [] [1; 1]%Z [])))
    1 1 []) as (d' & _ & _ & E); [done|by intros ? ? ? [= <-]|].
  exists d'. exact E.
Defined.
