(* ===== verification/Controller.v ===== *)
(** * The controller image

    Translation of [main/main.c]: the buttons' actions and their polling, the
    two "files" on the FRAM, and the distribution of jobs to the workers.  A
    [struct file *] points to one of the two files of [_fs].  Reading the
    volatile [button_status] first runs the interrupts that were taken since.
    [fuel] bounds the polling loops of the I2C library and [rounds] the loops
    whose length depends on the data or on the devices. *)

From S2P Require Import Prelude Avr Board I2cMaster Leds Buttons.
From stdpp Require Import strings.
Import I2c Leds Buttons.

Module Controller.

Definition BLOCK_SIZE : Z := 128.
Definition A_PRESS : Z := 0x01.
Definition A_RELEASE : Z := 0x02.
Definition C_PRESS : Z := 0x04.
Definition C_RELEASE : Z := 0x08.

Record block_seq_t := mk_seq { seq_start : Z; seq_size : Z }.

Record file_t := mk_file { f_start : Z; f_end : Z }.

Record fs_t := mk_fs { input : file_t; output : file_t }.

Inductive fsel := Input | Output.

Definition file_of (sel : fsel) (f : fs_t) : file_t :=
  match sel with Input => input f | Output => output f end.

Definition set_file (sel : fsel) (x : file_t) (f : fs_t) : fs_t :=
  match sel with Input => mk_fs x (output f) | Output => mk_fs (input f) x end.

(** The globals of the image. *)
Record ctl := mk_ctl {
  _fs : fs_t;
  bytes_read : Z;
  buttonHoldCount : Z;
  button_status : Z;
  in_buffer : list Z;
  out_buffer : list Z }.

Inductive callback := EmptyFunction | A_press_fn | A_release_fn | C_press_fn | C_release_fn.

#[export] Instance callback_eq_dec : EqDecision callback.
Proof. solve_decision. Defined.

(** [strlen] of the bytes of a buffer from a position on. *)
Fixpoint strlen (l : list Z) : res Z :=
  match l with
  | [] => Err OutOfBounds
  | c :: l' => if bool_decide (c = 0%Z) then Ok 0%Z else n ← strlen l'; Ok (n + 1)%Z
  end.

(** The characters of a string up to its terminator. *)
Fixpoint cstr (l : list Z) : list Z :=
  match l with
  | [] => []
  | c :: l' => if bool_decide (c = 0%Z) then [] else c :: cstr l'
  end.

Section Code.
Context `{Mcu D} (fuel rounds : nat).
(** What uninitialised automatic variables hold. *)
Context (junk : nat → Z).

Abbreviation St := (fw callback ctl D).

(** ** Access to the globals *)

Definition mod_glob (f : ctl → ctl) : IO St unit := g ← get_glob; set_glob (f g).

Definition set_fs (x : fs_t) (g : ctl) : ctl :=
  mk_ctl x (bytes_read g) (buttonHoldCount g) (button_status g) (in_buffer g) (out_buffer g).
Definition set_bytes_read (x : Z) (g : ctl) : ctl :=
  mk_ctl (_fs g) x (buttonHoldCount g) (button_status g) (in_buffer g) (out_buffer g).
Definition set_hold (x : Z) (g : ctl) : ctl :=
  mk_ctl (_fs g) (bytes_read g) x (button_status g) (in_buffer g) (out_buffer g).
Definition set_status (x : Z) (g : ctl) : ctl :=
  mk_ctl (_fs g) (bytes_read g) (buttonHoldCount g) x (in_buffer g) (out_buffer g).
Definition set_in (x : list Z) (g : ctl) : ctl :=
  mk_ctl (_fs g) (bytes_read g) (buttonHoldCount g) (button_status g) x (out_buffer g).
Definition set_out (x : list Z) (g : ctl) : ctl :=
  mk_ctl (_fs g) (bytes_read g) (buttonHoldCount g) (button_status g) (in_buffer g) x.

Definition get_file (sel : fsel) : IO St file_t := g ← get_glob; mret (file_of sel (_fs g)).

(** [f->end = x] *)
Definition set_end (sel : fsel) (x : Z) : IO St unit :=
  mod_glob (λ g, set_fs (set_file sel (mk_file (f_start (file_of sel (_fs g))) x) (_fs g)) g).

Definition fram_write (off : Z) (data : list Z) (pos : nat) (len : Z) : IO St Z :=
  on_hw (i2c_writeReg fuel MB85RC_DEFAULT_ADDRESS off data pos len).

Definition fram_read (off : Z) (buf : list Z) (pos : nat) (len : Z) : IO St (Z * list Z) :=
  on_hw (i2c_readReg fuel MB85RC_DEFAULT_ADDRESS off buf pos len).

(** ** Button actions *)

Definition A_press : IO St unit :=
  on_hw (printf (str "A_press" ++ crlf) []);;
  mod_glob (λ g, set_status (u8 (Z.lxor (Z.lor (button_status g) A_PRESS) A_RELEASE)) g).

Definition A_release : IO St unit :=
  on_hw (printf (str "A_Release" ++ crlf) []);;
  mod_glob (λ g, set_status (u8 (Z.lxor (Z.lor (button_status g) A_RELEASE) A_PRESS)) g).

Definition C_press : IO St unit :=
  on_hw (printf (str "C press" ++ crlf) []);;
  mod_glob (λ g, set_status (u8 (Z.lxor (Z.lor (button_status g) C_PRESS) C_RELEASE)) g).

Definition C_release : IO St unit :=
  on_hw (printf (str "C Release" ++ crlf) []);;
  mod_glob (λ g, set_status (u8 (Z.lxor (Z.lor (button_status g) C_RELEASE) C_PRESS)) g).

Definition call (f : callback) : IO St unit :=
  match f with
  | EmptyFunction => mret tt
  | A_press_fn => A_press
  | A_release_fn => A_release
  | C_press_fn => C_press
  | C_release_fn => C_release
  end.

(** A read of the volatile [button_status]. *)
Definition read_status : IO St Z := interrupts call;; g ← get_glob; mret (button_status g).

(** ** The files *)

Definition initialize_i2c : IO St unit :=
  on_hw (or_reg DDRB (bit 4));; on_hw (or_reg PORTB (bit 4));; on_hw i2c_init.

(** [fgets(buffer, n + 1, stdin)]: the characters read, none for [NULL]. *)
Fixpoint fgets_loop (n : nat) (acc : list Z) : IO D (option (list Z)) :=
  match n with
  | O => mret (Some acc)
  | S n' =>
      c ← fgetc;
      if bool_decide (c = EOF) then
        mret (match acc with [] => None | _ => Some acc end)
      else if bool_decide (c = 10%Z) then mret (Some (acc ++ [c]))
      else fgets_loop n' (acc ++ [c])
  end.

Definition fgets (size : nat) : IO D (option (list Z)) := fgets_loop (pred size) [].

(** One round of the loop of [input_datastream] with the line [l]; the result
    is the new [bytes_read] and whether the loop goes on. *)
Definition input_line (sel : fsel) (l : list Z) : IO St (Z * bool) :=
  let buffer := write_at (replicate 9 0%Z) 0 (l ++ [0%Z]) in
  on_hw usb_task;;
  n ← pure (strlen buffer);
  f ← get_file sel;
  c0 ← pure (load buffer 0);
  (if bool_decide (f_end f = f_start f) && bool_decide (c0 ≠ 35%Z) then
     fram_write (f_end f) [42%Z] 0 1;; set_end sel (u16 (f_end f + 1))
   else mret tt);;
  on_hw usb_task;;
  f ← get_file sel;
  fram_write (f_end f) buffer 0 n;;
  f ← get_file sel;
  set_end sel (u16 (f_end f + n));;
  last ← pure (if bool_decide (n = 0%Z) then Err OutOfBounds else load buffer (Z.to_nat (n - 1)));
  mret (n, bool_decide (last ≠ 0%Z)).

Fixpoint input_loop (k : nat) (sel : fsel) (nread : Z) : IO St Z :=
  match k with
  | O => fail NoFuel
  | S k' =>
      r ← on_hw (fgets 9);
      match r with
      | None => mret nread
      | Some l =>
          '(n, go) ← input_line sel l;
          if (go : bool) then input_loop k' sel n else mret n
      end
  end.

Definition input_datastream (sel : fsel) : IO St Z :=
  on_hw (printf (str "calling input_data" ++ crlf) []);;
  on_hw busy_light;;
  n ← input_loop rounds sel 0;
  f ← get_file sel;
  fram_write 2 (write_at (replicate 9 0%Z) 0 (le16 [f_end f])) 0 2;;
  on_hw ready_light;;
  mret n.

Definition read_data (buffer : list Z) (address size : Z) : IO St (Z * list Z) :=
  '(c, buffer1) ← fram_read address buffer 0 size;
  if bool_decide (0%Z = c)
  then n ← pure (strlen buffer1); mret (n, buffer1)
  else mret ((-1)%Z, buffer1).

(** The loop of [output_datastream]; [f->end - address] is unsigned. *)
Fixpoint output_loop (k : nat) (sel : fsel) (address : Z) : IO St unit :=
  match k with
  | O => fail NoFuel
  | S k' =>
      f ← get_file sel;
      if bool_decide (address < f_end f)%Z then
        let rest := u16 (f_end f - address) in
        let size := if bool_decide (rest > 8)%Z then 8%Z else rest in
        if bool_decide (size ≠ 0%Z) then
          '(_, buffer) ← fram_read address (replicate 9 0%Z) 0 size;
          let address1 := u16 (address + 8) in
          (if bool_decide (address1 = f_start f) && bool_decide (head buffer = Some 42%Z)
           then on_hw (printf (cstr (tail buffer)) [])
           else on_hw (printf (cstr buffer) []));;
          on_hw usb_task;;
          output_loop k' sel address1
        else output_loop k' sel address
      else mret tt
  end.

Definition output_datastream (sel : fsel) : IO St Z :=
  on_hw (printf (crlf ++ str "output_data" ++ crlf) []);;
  f ← get_file sel;
  on_hw (printf (str "file size: %d" ++ crlf) [u16 (f_end f - f_start f)]);;
  on_hw busy_light;;
  output_loop rounds sel (f_start f);;
  on_hw ready_light;;
  f ← get_file sel;
  mret (u16 (f_end f - f_start f)).

(** ** Distributing the jobs *)

(** The loop of [sequence_blocks], [n] blocks left. *)
Fixpoint sequence_loop (n : nat) (address : Z) (blocks : list block_seq_t)
    : IO St (list block_seq_t) :=
  match n with
  | O => mret blocks
  | S n' =>
      '(_, buffer) ← fram_read address (junk <$> seq 0 2) 0 2;
      b0 ← pure (load buffer 0);
      b1 ← pure (load buffer 1);
      let size := u8 (Z.shiftr b1 2) in
      blocks1 ← pure (store blocks (Z.to_nat (Z.shiftr b0 1)) (mk_seq address size));
      sequence_loop n' (u16 (address + (size + 2))) blocks1
  end.

Definition sequence_blocks (blocks : list block_seq_t) (block_count : Z)
    : IO St (list block_seq_t) :=
  sequence_loop (Z.to_nat block_count) 8 blocks.

Fixpoint scan_loop (k : nat) (workerID count : Z) (workers : list Z) : IO St (Z * list Z) :=
  match k with
  | O => fail NoFuel
  | S k' =>
      c ← on_hw (i2c_start_timeout fuel (u8 (Z.lor (Z.shiftl workerID 1) I2C_READ)) 10);
      if bool_decide (c = 0%Z) then
        on_hw (printf (str "address %hhx in use; trying next address." ++ crlf) [workerID]);;
        workers1 ← pure (store workers (Z.to_nat count) workerID);
        scan_loop k' (u8 (workerID + 1)) (u8 (count + 1)) workers1
      else mret (count, workers)
  end.

Definition scan_i2c (workers : list Z) : IO St (Z * list Z) :=
  scan_loop rounds I2C_SLAVE_BASE_ID 0 workers.

(** The part of a worker's turn that collects its result; [block] is the
    number of finished blocks. *)
Definition collect (dev block_count block : Z) : IO St Z :=
  g ← get_glob;
  bytes_in ← pure (load (in_buffer g) 1);
  if bool_decide (bytes_in ≠ 0%Z) then
    '(_, ib) ← on_hw (i2c_readReg fuel dev 2 (in_buffer g) 2 bytes_in);
    mod_glob (set_in ib);;
    f ← get_file Output;
    bytes_in ← pure (load ib 1);
    fram_write (f_end f) ib 0 (bytes_in + 2);;
    f ← get_file Output;
    set_end Output (u16 (f_end f + (bytes_in + 1)));;
    let block1 := u8 (block + 1) in
    (if bool_decide (block1 = block_count) then
       f ← get_file Output; fram_write (f_end f) [block1] 0 1;; mret tt
     else mret tt);;
    mret block1
  else mret block.

(** The part that sends a ready worker its next job; [irp] is the "read
    pointer" into the input file. *)
Definition send_job (dev job block irp : Z) : IO St Z :=
  g ← get_glob;
  ob ← pure (store (out_buffer g) 0 (u8 (Z.lor (Z.shiftl block 1) job)));
  mod_glob (set_out ob);;
  if bool_decide (job = ENCODE) then
    f ← get_file Input;
    let rest := u16 (f_end f - irp) in
    let bytes_read := u8 (if bool_decide (rest > BLOCK_SIZE)%Z then BLOCK_SIZE else rest) in
    ob1 ← pure (store ob 1 bytes_read);
    mod_glob (set_out ob1);;
    '(_, ob2) ← fram_read irp ob1 2 bytes_read;
    mod_glob (set_out ob2);;
    on_hw (i2c_writeReg fuel dev 0 ob2 0 (bytes_read + 2));;
    mret (u8 (irp + bytes_read))
  else
    '(_, ob1) ← fram_read irp ob 1 1;
    mod_glob (set_out ob1);;
    n ← pure (load ob1 1);
    let irp1 := u8 (irp + 1) in
    '(_, ob2) ← fram_read irp1 ob1 2 n;
    mod_glob (set_out ob2);;
    n ← pure (load ob2 1);
    on_hw (i2c_writeReg fuel dev 0 ob2 0 (n + 2));;
    mret (u8 (irp1 + n)).

Definition worker_turn (dev job block_count : Z) (s : Z * Z) : IO St (Z * Z) :=
  let '(block, irp) := s in
  g ← get_glob;
  '(_, ib) ← on_hw (i2c_readReg fuel dev 0 (in_buffer g) 0 2);
  mod_glob (set_in ib);;
  block1 ← collect dev block_count block;
  g ← get_glob;
  status ← pure (load (in_buffer g) 0);
  if bool_decide (Z.land status I2C_READY ≠ 0%Z) then
    irp1 ← send_job dev job block1 irp; mret (block1, irp1)
  else mret (block1, irp).

(** [for (int i = 0; i < worker_count; i++)], [n] workers left. *)
Fixpoint workers_loop (n i : nat) (workers : list Z) (job block_count : Z) (s : Z * Z)
    : IO St (Z * Z) :=
  match n with
  | O => mret s
  | S n' =>
      dev ← pure (load workers i);
      s1 ← worker_turn dev job block_count s;
      workers_loop n' (S i) workers job block_count s1
  end.

(** [while (block < block_count)] *)
Fixpoint jobs_loop (k : nat) (workers : list Z) (worker_count job block_count : Z) (s : Z * Z)
    : IO St unit :=
  match k with
  | O => fail NoFuel
  | S k' =>
      if bool_decide (fst s < block_count)%Z then
        s1 ← workers_loop (Z.to_nat worker_count) 0 workers job block_count s;
        jobs_loop k' workers worker_count job block_count s1
      else mret tt
  end.

(** The job code read from the first byte of the input file. *)
Definition choose_job : IO St Z :=
  f ← get_file Input;
  '(_, jb) ← fram_read (f_start f) [0%Z] 0 1;
  job ← pure (load jb 0);
  if bool_decide (job = 42%Z) then
    f ← get_file Output;
    fram_write (f_start f) [35%Z] 0 1;;
    f ← get_file Output;
    set_end Output (u16 (f_end f + 1));;
    mret ENCODE
  else mret DECODE.

Definition count_blocks (job : Z) : IO St Z :=
  f ← get_file Input;
  let len := u16 (f_end f - f_start f) in
  if bool_decide (ENCODE = job) then
    mret (if bool_decide (len `div` BLOCK_SIZE + len `mod` BLOCK_SIZE ≠ 0)%Z then 1%Z else 0%Z)
  else
    '(_, cb) ← fram_read (u16 (f_end f - 1)) [0%Z] 0 1;
    block_count ← pure (load cb 0);
    sequence_blocks (replicate (Z.to_nat block_count) (mk_seq (junk 0) (junk 1))) block_count;;
    mret block_count.

Definition processData : IO St unit :=
  job ← choose_job;
  '(worker_count, workers) ← scan_i2c (junk <$> seq 0 10);
  block_count ← count_blocks job;
  f ← get_file Input;
  jobs_loop rounds workers worker_count job block_count (0%Z, u8 (f_start f + 1)).

(** ** Polling the buttons *)

Definition hold_more : IO St Z :=
  g ← get_glob;
  let h := u8 (buttonHoldCount g + 1) in
  mod_glob (set_hold h);; mret h.

(** The loops end after eleven rounds at the latest: the counter is checked in
    every round. *)
Fixpoint pollA_loop (n : nat) : IO St unit :=
  match n with
  | O => fail NoFuel
  | S n' =>
      st ← read_status;
      held ← (if bool_decide (Z.land st A_PRESS ≠ 0%Z)
              then st1 ← read_status; mret (bool_decide (Z.land st1 A_RELEASE = 0%Z))
              else mret false);
      if (held : bool) then
        on_hw busy_light;;
        on_hw (delay_ms 500);;
        h ← hold_more;
        if bool_decide (h > 10)%Z then
          on_hw (printf (str "calling format_storage" ++ crlf) []);;
          on_hw (format_storage fuel MB85RC_DEFAULT_ADDRESS);;
          on_hw ready_light
        else
          st2 ← read_status;
          if bool_decide (Z.land st2 A_RELEASE ≠ 0%Z) then
            n ← input_datastream Input;
            mod_glob (set_bytes_read (u16 n));;
            output_datastream Input;;
            on_hw ready_light
          else pollA_loop n'
      else mret tt
  end.

Definition pollButtonA : IO St unit := mod_glob (set_hold 0);; pollA_loop 12.

Fixpoint pollC_loop (n : nat) : IO St unit :=
  match n with
  | O => fail NoFuel
  | S n' =>
      st ← read_status;
      held ← (if bool_decide (Z.land st C_PRESS ≠ 0%Z)
              then st1 ← read_status; mret (bool_decide (Z.land st1 C_RELEASE = 0%Z))
              else mret false);
      if (held : bool) then
        on_hw busy_light;;
        on_hw (delay_ms 500);;
        h ← hold_more;
        if bool_decide (h > 10)%Z then
          processData;; on_hw ready_light
        else
          st2 ← read_status;
          if bool_decide (Z.land st2 A_RELEASE ≠ 0%Z) then
            output_datastream Output;; on_hw ready_light
          else pollC_loop n'
      else mret tt
  end.

Definition pollButtonC : IO St unit := mod_glob (set_hold 0);; pollC_loop 12.

(** ** Start-up and the main loop *)

(** A [uint16_t] from its two bytes. *)
Definition word (l : list Z) (i : nat) : res Z :=
  lo ← load l (2 * i); hi ← load l (2 * i + 1); Ok (lo + 256 * hi)%Z.

Definition initialize_fs : IO St unit :=
  '(_, metadata) ← fram_read 0 (junk <$> seq 0 8) 0 8;
  m0 ← pure (word metadata 0);
  m1 ← pure (word metadata 1);
  m2 ← pure (word metadata 2);
  m3 ← pure (word metadata 3);
  on_hw (printf (str "start %d" ++ crlf) [m0]);;
  on_hw (printf (str "end %d" ++ crlf) [m1]);;
  mod_glob (set_fs (mk_fs (mk_file m0 m1) (mk_file m2 m3))).

Definition initialize_system : IO St unit :=
  on_hw initialize_leds;;
  on_hw (flash_led _red_e 0);;
  on_hw (flash_led _red_e 0);;
  initialize_fs;;
  on_hw (flash_led _red_e 0);;
  on_hw usb_setup;;
  on_hw (flash_led _red_e 0);;
  initialize_buttons EmptyFunction;;
  SetUpButton _button_A;;
  SetUpButton _button_C;;
  SetUpButtonAction _button_A 0 A_press_fn;;
  SetUpButtonAction _button_A 1 A_release_fn;;
  SetUpButtonAction _button_C 0 C_press_fn;;
  SetUpButtonAction _button_C 1 C_release_fn;;
  on_hw light_show.

(** One round of the cyclic control loop, and [n] rounds of it. *)
Definition main_round : IO St unit := pollButtonA;; pollButtonC;; on_hw usb_task.

Fixpoint main_loop (n : nat) : IO St unit :=
  match n with O => mret tt | S n' => main_round;; main_loop n' end.

(** The program, observed after [n] rounds of the loop that never ends. *)
Definition main (n : nat) : IO St unit := initialize_system;; main_loop n.
End Code.

End Controller.

(** A string that is filled up with zeros. *)
Lemma strlen_line l k : Forall (λ c, c ≠ 0%Z) l →
  Controller.strlen (l ++ replicate (S k) 0%Z) = Ok (Z.of_nat (length l)).
Proof.
  intros Hl. induction Hl as [|c l Hc Hl IH]; [done|]. simpl in *.
  rewrite bool_decide_false, IH, res_bind_Ok by done. f_equal. lia.
Qed.
