(* ===== verification/ControllerFiles.v ===== *)
(** * The files of the controller

    What reading a text from the serial line, printing it back and restarting
    do to the two files on the FRAM, on every board whose bus carries the
    storage, and what the calls of [printf] on the way print. *)

From S2P Require Import Prelude Avr Stdio Board I2cMaster I2cWire Fram Store Leds Buttons Controller.
From stdpp Require Import strings gmap.
Import I2c Leds Buttons Controller.

Section Steps.
Context `{Board D B} `{!Storage B W}.
Context (fuel : nat) (Hfuel : latency * 257 + 256 < fuel).

Abbreviation St := (fw callback ctl D).

(** ** Single operations of the hardware *)

Lemma stored_io d d' (s : store W) i' :
  stored d s → hview d' = mk_hw (h_twi (hview d)) i' →
  stored d' (mk_store (s_mem s) (s_rest s) i').
Proof.
  intros ([l b i] & (Hp & Hph & Hb & Hio & Hint) & Hwf & Hm & Hr & Hi) Hd'.
  exists (mk_wire l b i'). simpl in *. unfold on_wire. by rewrite Hd'.
Qed.

Lemma stored_view d (s : store W) :
  stored d s → hview d = mk_hw (h_twi (hview d)) (s_io s) ∧ tw_pend (h_twi (hview d)) = 0.
Proof.
  intros (w & (Hp & _ & _ & Hio & _) & _ & _ & _ & Hi). split; [|done].
  destruct (hview d) as [t i]. simpl in *. congruence.
Qed.

(** [m] does [f] to the ports and stdio and nothing else. *)
Definition io_op {A} (m : IO D A) (a : A) (i i' : io) : Prop :=
  ∀ d, hview d = mk_hw (h_twi (hview d)) i → tw_pend (h_twi (hview d)) = 0 →
  ∃ d', m d = Ok (a, d') ∧ hview d' = mk_hw (h_twi (hview d)) i'.

Lemma io_op_stored {A} (m : IO D A) a (st : store W) i' d :
  io_op m a (s_io st) i' → stored d st →
  ∃ d', m d = Ok (a, d') ∧ stored d' (mk_store (s_mem st) (s_rest st) i').
Proof.
  intros Hm Hs. destruct (stored_view _ _ Hs) as [Hv Hp].
  destruct (Hm d Hv Hp) as (d' & E & Hd'). exists d'. split; [done|]. by eapply stored_io.
Qed.

Lemma print_op fmt args i : io_op (printf fmt args) tt i (io_print fmt args i).
Proof. intros d Hv _. eexists. split; [done|]. rewrite print_law. by rewrite Hv. Qed.

Lemma usb_op i : io_op usb_task tt i i.
Proof. intros d Hv _. eexists. split; [done|]. by rewrite usb_task_law. Qed.

Lemma usb_setup_op i : io_op usb_setup tt i i.
Proof. intros d Hv _. eexists. split; [done|]. by rewrite usb_setup_law. Qed.

Lemma delay_op ms i : io_op (delay_ms ms) tt i i.
Proof.
  clear Hfuel. intros d Hv Hp. destruct (delay_law d ms) as (n & Hn & Hd). eexists. split; [done|].
  rewrite Hd, Hv in *. simpl in *. replace n with 0 by lia.
  destruct (h_twi (hview d)). simpl in *. by subst.
Qed.

Lemma getc_op i : io_op fgetc (fst (io_getc i)) i (snd (io_getc i)).
Proof.
  intros d Hv _. destruct (mcu_getc d) as [c d'] eqn:E.
  destruct (getc_law d c d' E) as [-> Hd']. rewrite Hv in *. simpl in *.
  exists d'. split; [|done]. unfold fgetc. by rewrite E.
Qed.

Lemma busy_op i : io_op busy_light tt i (set_bits i (PORTB, 5%Z) (PORTD, 5%Z)).
Proof.
  intros d Hv _. destruct (busy_light_step d _ i Hv) as (d' & E & Hd'). by exists d'.
Qed.

Lemma ready_op i : io_op ready_light tt i (set_bits i (PORTD, 5%Z) (PORTB, 5%Z)).
Proof.
  intros d Hv _. destruct (ready_light_step d _ i Hv) as (d' & E & Hd'). by exists d'.
Qed.

(** ** The state of the image *)

(** The image's variables [g], the memory [m] of the storage, the rest [r] of
    the bus and the ports and stdio [i]. *)
Definition image (s : St) (g : ctl) (m : list Z) (r : W) (i : io) : Prop :=
  fw_glob s = g ∧ stored (fw_hw s) (mk_store m r i).

Lemma image_op {A} (op : IO D A) a s g m r i i' :
  image s g m r i → io_op op a i i' →
  ∃ s', on_hw op s = Ok (a, s') ∧ fw_btn s' = fw_btn s ∧ image s' g m r i'.
Proof.
  intros [Hg Hs] Hm. destruct (io_op_stored op a (mk_store m r i) i' _ Hm Hs) as (d' & E & Hs').
  eexists. split; [by apply on_hw_Ok|]. split; [done|]. by split.
Qed.

Lemma image_write s g m r i off data pos len :
  image s g m r i → in_range off (Z.to_nat len) → pos + Z.to_nat len ≤ length data →
  Forall is_u8 data →
  ∃ s', fram_write fuel off data pos len s = Ok (0%Z, s') ∧ fw_btn s' = fw_btn s ∧
    image s' g (write_at m (Z.to_nat off) (take (Z.to_nat len) (drop pos data))) r i.
Proof.
  intros [Hg Hs] Hr Hl Hu.
  destruct (store_write fuel Hfuel _ _ off data pos len Hs Hr Hl Hu) as (d' & E & Hs').
  eexists. split; [by apply on_hw_Ok|]. split; [done|]. by split.
Qed.

Lemma image_read s g m r i off buf pos len :
  image s g m r i → in_range off (Z.to_nat len) → (0 < len)%Z →
  pos + Z.to_nat len ≤ length buf →
  ∃ s', fram_read fuel off buf pos len s =
        Ok ((0%Z, write_at buf pos (take (Z.to_nat len) (drop (Z.to_nat off) m))), s') ∧
    fw_btn s' = fw_btn s ∧ image s' g m r i.
Proof.
  intros [Hg Hs] Hr Hp Hl.
  destruct (store_read fuel Hfuel _ _ off buf pos len Hs Hr Hp Hl) as (d' & E & Hs').
  eexists. split; [by apply on_hw_Ok|]. split; [done|]. by split.
Qed.

(** A read of no bytes overruns the buffer. *)
Lemma image_read_zero s g m r i off buf pos :
  image s g m r i → in_range off 1 → pos ≤ length buf → length buf < pos + Z.to_nat 65535 →
  fram_read fuel off buf pos 0 s = Err OutOfBounds.
Proof.
  intros [Hg ([l b io0] & HR & Hwf & _)] Hr Hp Hl. unfold fram_read, on_hw.
  destruct (storage_read l b io0 off 1 Hwf Hr ltac:(lia)) as (b' & E & _).
  by rewrite (readReg_zero fuel Hfuel _ _ _ _ _ _ _ _ HR E Hp Hl).
Qed.

Lemma image_file s g m r i sel : image s g m r i → get_file sel s = Ok (file_of sel (_fs g), s).
Proof. intros [Hg _]. unfold get_file, mbind, IO_bind, get_glob. by rewrite Hg. Qed.

Lemma image_glob s g m r i : image s g m r i → get_glob s = Ok (g, s).
Proof. intros [Hg _]. unfold get_glob. by rewrite Hg. Qed.

Lemma image_mod s g m r i f : image s g m r i →
  ∃ s', mod_glob f s = Ok (tt, s') ∧ fw_btn s' = fw_btn s ∧ image s' (f g) m r i.
Proof.
  intros [Hg Hs]. exists (mk_fw (fw_btn s) (f g) (fw_hw s)).
  unfold mod_glob, mbind, IO_bind, get_glob, set_glob. rewrite Hg. by split_and!.
Qed.

Lemma image_mem s g m r i : image s g m r i → length m = FRAM_SIZE ∧ Forall is_u8 m.
Proof. intros [_ Hs]. by apply (stored_mem _ _ Hs). Qed.
End Steps.

(** Runs the next operation [E] of a goal about a sequence. *)
Ltac run E := rewrite (io_bind_Ok _ _ _ _ _ E).

(** ** Lines of text *)

(** The first piece of [t] that [fgets] reads into [n] characters, and the
    rest. *)
Fixpoint line (n : nat) (t : list Z) : list Z * list Z :=
  match n, t with
  | O, _ => ([], t)
  | _, [] => ([], [])
  | S n', c :: t' =>
      if bool_decide (c = 10%Z) then ([c], t')
      else let '(l, r) := line n' t' in (c :: l, r)
  end.

Lemma line_app n t : (line n t).1 ++ (line n t).2 = t.
Proof.
  revert t. induction n as [|n IH]; intros [|c t]; simpl; [done..|].
  case_bool_decide; [done|]. specialize (IH t). destruct (line n t). simpl in *. by rewrite IH.
Qed.

Lemma line_length n t : length (line n t).1 ≤ n.
Proof.
  revert t. induction n as [|n IH]; intros [|c t]; simpl; [lia..|].
  case_bool_decide; simpl; [lia|]. specialize (IH t). destruct (line n t). simpl in *. lia.
Qed.

Lemma line_nonempty n t : t ≠ [] → 0 < n → 0 < length (line n t).1.
Proof.
  destruct n, t; simpl; [lia..|done|]. intros _ _. case_bool_decide; [simpl; lia|].
  destruct (line n t). simpl. lia.
Qed.

Definition with_in (l : list (option Z)) (i : io) : io :=
  mk_io (io_gpio i) (io_out i) l (io_pins i) (io_irqs i).

Section Text.
Context `{Board D B}.

Lemma io_op_ret {A} (a : A) i : io_op (mret a) a i i.
Proof. intros d Hv _. by exists d. Qed.

Lemma io_op_bind {A C} (m : IO D A) (f : A → IO D C) a c i i1 i2 :
  io_op m a i i1 → io_op (f a) c i1 i2 → io_op (m ≫= f) c i i2.
Proof.
  intros Hm Hf d Hv Hp. destruct (Hm d Hv Hp) as (d1 & E1 & Hd1).
  destruct (Hf d1) as (d2 & E2 & Hd2); [by rewrite Hd1|by rewrite Hd1|].
  exists d2. rewrite (io_bind_Ok _ _ _ _ _ E1). split; [done|]. by rewrite Hd2, Hd1.
Qed.

Lemma fgets_loop_op n : ∀ t acc i, io_in i = Some <$> t → Forall is_u8 t →
  (acc = [] → 0 < n) →
  io_op (fgets_loop n acc)
    (match acc ++ (line n t).1 with [] => None | l => Some l end) i
    (with_in (Some <$> (line n t).2) i).
Proof.
  induction n as [|n IH]; intros t acc i Hi Hu Hacc; cbn [fgets_loop].
  { simpl. rewrite app_nil_r. destruct acc; [specialize (Hacc eq_refl); lia|].
    destruct i; simpl in *; subst. apply io_op_ret. }
  destruct t as [|c t].
  - eapply io_op_bind; [apply getc_op|]. unfold io_getc. rewrite Hi. simpl.
    rewrite app_nil_r. destruct i. simpl in *. subst. destruct acc; apply io_op_ret.
  - eapply io_op_bind; [apply getc_op|]. unfold io_getc. rewrite Hi.
    cbn [fmap list_fmap fst snd]. inversion_clear Hu as [|x l Hc Hu'].
    rewrite bool_decide_false by (unfold EOF, is_u8 in *; lia). cbn [line].
    case_bool_decide as H10.
    + cbn [fst snd].
      replace (match acc ++ [c] with [] => None | l => Some l end) with (Some (acc ++ [c]))
        by (by destruct acc).
      apply io_op_ret.
    + specialize (IH t (acc ++ [c]) (with_in (Some <$> t) i) eq_refl Hu').
      destruct (line n t) as [l r]. cbn [fst snd] in *.
      rewrite <- app_assoc in IH. apply IH. intros E. by apply app_nil in E as [].
Qed.

Lemma fgets_op t i : io_in i = Some <$> t → Forall is_u8 t →
  io_op (fgets 9) (match (line 8 t).1 with [] => None | l => Some l end) i
        (with_in (Some <$> (line 8 t).2) i).
Proof. intros Hi Hu. apply (fgets_loop_op 8 t [] i Hi Hu). lia. Qed.
End Text.

(** The buffer of [input_datastream] after [fgets]. *)
Lemma line_buffer l : length l ≤ 8 →
  write_at (replicate 9 0%Z) 0 (l ++ [0%Z]) = l ++ replicate (9 - length l) 0%Z.
Proof.
  intros Hl. change (write_at (replicate 9 0%Z) 0 (l ++ [0%Z])) with
    (drop 0 (write_at (replicate 9 0%Z) 0 (l ++ [0%Z]))).
  rewrite drop_write_at by (rewrite length_app, length_replicate; simpl; lia).
  rewrite length_app, drop_replicate, <- app_assoc. simpl length. f_equal.
  by replace (9 - length l) with (S (9 - (0 + (length l + 1)))) by lia.
Qed.

Lemma cstr_line l k : Forall (λ c, c ≠ 0%Z) l → cstr (l ++ replicate (S k) 0%Z) = l.
Proof.
  intros Hl. induction Hl as [|c l Hc Hl IH]; [done|]. simpl in *.
  by rewrite bool_decide_false, IH.
Qed.

(** ** Reading a text into a file *)

Definition with_end (sel : fsel) (e : Z) (g : ctl) : ctl :=
  set_fs (set_file sel (mk_file (f_start (file_of sel (_fs g))) e) (_fs g)) g.

Lemma file_with_end sel e g :
  file_of sel (_fs (with_end sel e g)) = mk_file (f_start (file_of sel (_fs g))) e.
Proof. by destruct sel. Qed.

Lemma with_end_twice sel e e' g : with_end sel e (with_end sel e' g) = with_end sel e g.
Proof. by destruct sel. Qed.

(** The marker [input_datastream] puts in front of a text that goes into an
    empty file. *)
Definition marker (f : file_t) (t : list Z) : list Z :=
  if bool_decide (f_end f = f_start f) && bool_decide (head t ≠ Some 35%Z) then [42%Z] else [].

Lemma marker_length f t : length (marker f t) ≤ 1.
Proof. unfold marker. case_match; simpl; lia. Qed.

Definition text_byte (c : Z) : Prop := is_u8 c ∧ c ≠ 0%Z.

Section Input.
Context `{Board D B} `{!Storage B W}.
Context (fuel : nat) (Hfuel : latency * 257 + 256 < fuel).

Abbreviation St := (fw callback ctl D).

Lemma text_u8 t : Forall text_byte t → Forall is_u8 t ∧ Forall (λ c, c ≠ 0%Z) t.
Proof. intros Ht. split; (eapply Forall_impl; [exact Ht|]); by intros c []. Qed.

(** The marker is written first. *)
Lemma input_marker s g m r i sel c0 l (f := file_of sel (_fs g)) :
  image s g m r i → (0 ≤ f_end f)%Z → (f_end f + 2 ≤ 32768)%Z →
  ∃ s', (if bool_decide (f_end f = f_start f) && bool_decide (c0 ≠ 35%Z) then
           fram_write fuel (f_end f) [42%Z] 0 1;; set_end sel (u16 (f_end f + 1))
         else mret tt) s = Ok (tt, s') ∧ fw_btn s' = fw_btn s ∧
    let pre := marker f (c0 :: l) in
    image s' (with_end sel (f_end f + Z.of_nat (length pre)) g)
      (write_at m (Z.to_nat (f_end f)) pre) r i.
Proof.
  intros Him He Hmax. unfold marker. cbn [head].
  assert (bool_decide (Some c0 ≠ Some 35%Z) = bool_decide (c0 ≠ 35%Z)) as ->
    by (apply bool_decide_ext; split; congruence).
  destruct (bool_decide (f_end f = f_start f) && bool_decide (c0 ≠ 35%Z)).
  - destruct (image_write fuel Hfuel s _ _ _ _ (f_end f) [42%Z] 0 1 Him) as (s1 & E1 & Hb1 & Him1);
      [unfold in_range; lia|simpl; lia|repeat constructor; unfold is_u8; lia|].
    destruct (image_mod s1 _ _ _ _ (with_end sel (u16 (f_end f + 1))) Him1) as (s2 & E2 & Hb2 & Him2).
    exists s2. run E1. split; [exact E2|]. split; [congruence|].
    rewrite u16_small in Him2 by (unfold is_u16; lia). exact Him2.
  - exists s. split; [done|]. split; [done|]. simpl. rewrite Z.add_0_r.
    destruct Him as [Hg Hs]. split; [|done].
    rewrite Hg. unfold with_end, f. destruct g as [[[] []] ? ? ? ? ?]. by destruct sel.
Qed.

Lemma input_line_spec s g m r i sel l (f := file_of sel (_fs g)) :
  image s g m r i → 0 < length l ≤ 8 → Forall text_byte l →
  (0 ≤ f_end f)%Z → (f_end f + Z.of_nat (length l) + 1 ≤ 32768)%Z →
  ∃ s', input_line fuel sel l s = Ok ((Z.of_nat (length l), true), s') ∧ fw_btn s' = fw_btn s ∧
    let w := marker f l ++ l in
    image s' (with_end sel (f_end f + Z.of_nat (length w)) g)
      (write_at m (Z.to_nat (f_end f)) w) r i.
Proof.
  intros Him Hl Ht He Hmax. destruct (text_u8 _ Ht) as [Hu Hnz].
  unfold input_line. rewrite line_buffer by lia.
  assert (9 - length l = S (8 - length l)) as H9 by lia. rewrite H9.
  destruct (image_op _ _ _ _ _ _ _ _ Him (usb_op _)) as (s1 & E1 & Hb1 & Him1). run E1.
  rewrite strlen_line by done.
  destruct l as [|c0 l]; [simpl in Hl; lia|]. cbn [app load lookup list_lookup].
  set (buf := c0 :: l ++ replicate (S (8 - length (c0 :: l))) 0%Z).
  rewrite io_bind_pure. run (image_file s1 _ _ _ _ sel Him1). fold f. rewrite io_bind_pure.
  destruct (input_marker s1 g _ _ _ sel c0 l Him1) as (s2 & E2 & Hb2 & Him2);
    [done|fold f; cbn [length] in *; lia|]. fold f in E2, Him2. run E2.
  set (pre := marker f (c0 :: l)) in *. cbn zeta in Him2.
  destruct (image_op _ _ _ _ _ _ _ _ Him2 (usb_op _)) as (s3 & E3 & Hb3 & Him3). run E3.
  run (image_file s3 _ _ _ _ sel Him3). rewrite file_with_end. cbn [f_end f_start].
  pose proof (marker_length f (c0 :: l) : length pre ≤ 1) as Hpre.
  set (len := Z.of_nat (length (c0 :: l))) in *.
  assert (length buf = 9) as Hbuf
    by (unfold buf; simpl; rewrite length_app; simpl in *; rewrite length_replicate; lia).
  destruct (image_write fuel Hfuel s3 _ _ _ _ (f_end f + Z.of_nat (length pre)) buf 0 len Him3)
    as (s4 & E4 & Hb4 & Him4); [unfold in_range; lia|lia| |].
  { unfold buf. apply (Forall_app_2 _ (c0 :: l)); [done|]. apply Forall_replicate. unfold is_u8. lia. }
  run E4. run (image_file s4 _ _ _ _ sel Him4). rewrite file_with_end. cbn [f_end f_start].
  destruct (image_mod s4 _ _ _ _ (with_end sel (u16 (f_end f + Z.of_nat (length pre) + len))) Him4)
    as (s5 & E5 & Hb5 & Him5). run (E5 : set_end _ _ _ = _).
  rewrite bool_decide_false by (unfold len; cbn [length]; lia).
  destruct (lookup_lt_is_Some_2 (c0 :: l) (Z.to_nat (len - 1))) as [x Hx];
    [unfold len; cbn [length]; lia|].
  assert (load buf (Z.to_nat (len - 1)) = Ok x) as ->.
  { apply load_Ok. unfold buf. by apply (lookup_app_l_Some (c0 :: l)). }
  rewrite io_bind_pure.
  rewrite bool_decide_true by exact (Forall_lookup_1 _ _ _ _ Hnz Hx).
  exists s5. split; [done|]. split; [congruence|].
  rewrite with_end_twice, u16_small in Him5 by (unfold is_u16, len; lia).
  rewrite length_app, Nat2Z.inj_add, Z.add_assoc. fold len.
  rewrite write_at_app. replace (Z.to_nat (f_end f) + length pre)
    with (Z.to_nat (f_end f + Z.of_nat (length pre))) by lia.
  rewrite drop_0 in Him5. unfold buf in Him5.
  change (c0 :: l ++ ?r) with ((c0 :: l) ++ r) in Him5.
  rewrite take_app_length' in Him5 by (unfold len; lia). exact Him5.
Qed.
(** What a text adds to a file. *)
Definition added (f : file_t) (t : list Z) : list Z :=
  match t with [] => [] | _ => marker f t ++ t end.

Lemma added_line f t : (f_start f ≤ f_end f)%Z → t ≠ [] →
  let l := (line 8 t).1 in
  added f t = (marker f l ++ l) ++
    added (mk_file (f_start f) (f_end f + Z.of_nat (length (marker f l ++ l)))) (line 8 t).2.
Proof.
  intros Hf Hne l. pose proof (line_nonempty 8 t Hne ltac:(lia)) as Hl. fold l in Hl.
  pose proof (line_app 8 t) as Happ. fold l in Happ.
  assert (marker f l = marker f t) as Hm.
  { unfold marker. rewrite <- Happ. destruct l; [simpl in Hl; lia|done]. }
  rewrite Hm. set (f' := mk_file _ _).
  assert (added f' (line 8 t).2 = (line 8 t).2) as ->.
  { destruct (line 8 t).2 as [|c r] eqn:E; [done|]. unfold added, marker.
    rewrite bool_decide_false; [done|]. unfold f'. simpl. rewrite length_app. lia. }
  rewrite <- app_assoc, Happ. by destruct t.
Qed.

Lemma input_loop_spec k : ∀ t s g m r i sel nread (f := file_of sel (_fs g)),
  length t < k → image s g m r i → io_in i = Some <$> t → Forall text_byte t →
  (0 ≤ f_start f ≤ f_end f)%Z → (f_end f + Z.of_nat (length (added f t)) + 1 ≤ 32768)%Z →
  ∃ s' n, input_loop fuel k sel nread s = Ok (n, s') ∧ fw_btn s' = fw_btn s ∧
    image s' (with_end sel (f_end f + Z.of_nat (length (added f t))) g)
      (write_at m (Z.to_nat (f_end f)) (added f t)) r (with_in [] i).
Proof.
  induction k as [|k IH]; intros t s g m r i sel nread f Hk Him Hi Ht Hf Hmax; [lia|].
  cbn [input_loop]. destruct (text_u8 _ Ht) as [Hu Hnz].
  destruct (image_op _ _ _ _ _ _ _ _ Him (fgets_op t i Hi Hu)) as (s1 & E1 & Hb1 & Him1). run E1.
  destruct (decide (t = [])) as [->|Hne].
  { simpl. exists s1, nread. split; [done|]. split; [done|]. rewrite Z.add_0_r.
    destruct Him1 as [Hg1 Hs1]. split; [|done]. rewrite Hg1. unfold with_end, f.
    destruct g as [[[] []] ? ? ? ? ?]. by destruct sel. }
  pose proof (line_nonempty 8 t Hne ltac:(lia)). pose proof (line_length 8 t).
  pose proof (line_app 8 t) as Happ. pose proof (added_line f t (proj2 Hf) Hne) as Hadd.
  destruct (line 8 t) as [l rest] eqn:Eline. cbn [fst snd] in *.
  assert (length t = length l + length rest) as Hlen by (by rewrite <- Happ, length_app).
  rewrite <- Happ in Ht. apply Forall_app in Ht as [Htl Htr].
  destruct l as [|c0 l]; [simpl in *; lia|]. set (l0 := c0 :: l) in *.
  cbn zeta in Hadd. rewrite Hadd, length_app in Hmax.
  pose proof (length_app (marker f l0) l0) as Hwl.
  destruct (input_line_spec s1 g m r _ sel l0 Him1) as (s2 & E2 & Hb2 & Him2);
    [lia|done|fold f; lia|fold f; lia|]. run E2. fold f in Him2. cbn zeta in Him2.
  set (w := marker f l0 ++ l0) in *.
  destruct (IH rest s2 _ _ _ _ sel (Z.of_nat (length l0)) ltac:(lia) Him2 eq_refl Htr)
    as (s3 & n & E3 & Hb3 & Him3);
    rewrite ?file_with_end; cbn [f_end f_start]; fold f; [lia|lia|].
  exists s3, n. split; [exact E3|]. split; [congruence|].
  rewrite file_with_end, with_end_twice in Him3. cbn [f_end f_start] in Him3. fold f in Him3.
  rewrite Hadd, length_app, write_at_app, Nat2Z.inj_add, Z.add_assoc.
  replace (Z.to_nat (f_end f) + length w) with (Z.to_nat (f_end f + Z.of_nat (length w))) by lia.
  exact Him3.
Qed.

(** The extents of the input file as they are stored at the start of the FRAM. *)
Lemma input_datastream_spec rounds t s g m r i sel (f := file_of sel (_fs g)) :
  length t < rounds → image s g m r i → io_in i = Some <$> t → Forall text_byte t →
  (8 ≤ f_start f ≤ f_end f)%Z → (f_end f + Z.of_nat (length (added f t)) + 1 ≤ 32768)%Z →
  ∃ s' n i', input_datastream fuel rounds sel s = Ok (n, s') ∧ fw_btn s' = fw_btn s ∧
    io_out i' = io_out i ++ [(str "calling input_data" ++ crlf, [])] ∧
    io_irqs i' = io_irqs i ∧ io_pins i' = io_pins i ∧ io_in i' = [] ∧
    let e := (f_end f + Z.of_nat (length (added f t)))%Z in
    image s' (with_end sel e g)
      (write_at (write_at m (Z.to_nat (f_end f)) (added f t)) 2 (le16 [e])) r i'.
Proof.
  intros Hk Him Hi Ht Hf Hmax. unfold input_datastream.
  destruct (image_op _ _ _ _ _ _ _ _ Him (print_op (str "calling input_data" ++ crlf) [] i))
    as (s1 & E1 & Hb1 & Him1). run E1.
  destruct (image_op _ _ _ _ _ _ _ _ Him1 (busy_op _)) as (s2 & E2 & Hb2 & Him2). run E2.
  destruct (input_loop_spec rounds t s2 g m r _ sel 0 Hk Him2) as (s3 & n & E3 & Hb3 & Him3);
    [done|done|fold f; lia|done|]. run E3. fold f in Him3.
  run (image_file s3 _ _ _ _ sel Him3). rewrite file_with_end. cbn [f_end f_start].
  set (e := (f_end f + Z.of_nat (length (added f t)))%Z) in *.
  assert (Forall is_u8 (le16 [e])) as Hle.
  { repeat constructor; try apply Z.mod_pos_bound; try lia.
    - apply Z.div_pos; lia.
    - apply Z.div_lt_upper_bound; lia. }
  destruct (image_write fuel Hfuel s3 _ _ _ _ 2 (write_at (replicate 9 0%Z) 0 (le16 [e])) 0 2 Him3)
    as (s4 & E4 & Hb4 & Him4); [unfold in_range; lia|rewrite length_write_at; simpl; lia| |].
  { apply Forall_write_at; [apply Forall_replicate; unfold is_u8; lia|done]. }
  run E4. destruct (image_op _ _ _ _ _ _ _ _ Him4 (ready_op _)) as (s5 & E5 & Hb5 & Him5). run E5.
  exists s5, n. eexists. split; [done|]. split; [congruence|].
  change (take (Z.to_nat 2) (drop 0 (write_at (replicate 9 0%Z) 0 (le16 [e])))) with (le16 [e]) in Him5.
  split_and!; [| | | |exact Him5]; done.
Qed.
End Input.

(** ** Printing a file *)

(** The contents of file [f] in memory [m]. *)
Definition contents (m : list Z) (f : file_t) : list Z :=
  take (Z.to_nat (f_end f - f_start f)) (drop (Z.to_nat (f_start f)) m).

Definition printed (l : list (list Z)) : list (list Z * list Z) := (λ p, (p, [])) <$> l.

(** ** What the recorded calls print *)

(** The calls the images make have integer arguments only. *)
Definition int_calls (l : list (list Z * list Z)) : list (list Z * list arg) :=
  (λ c : list Z * list Z, (c.1, AInt <$> c.2)) <$> l.

(** No pointer is printed. *)
Definition no_pointer (_ : Z) : list Z := [].

Definition calls_text (l : list (list Z * list Z)) : option (list Z) := print_calls no_pointer (int_calls l).

Lemma calls_text_app l1 l2 :
  calls_text (l1 ++ l2) = t1 ← calls_text l1; app t1 <$> calls_text l2.
Proof. unfold calls_text, int_calls. by rewrite fmap_app, print_calls_app. Qed.

(** Pieces without conversions and NUL print themselves. *)
Lemma printed_text ps : Forall plain_char (mjoin ps) → calls_text (printed ps) = Some (mjoin ps).
Proof.
  induction ps as [|p ps IH]; [done|]. cbn [mjoin list_join]. intros [Hp Hps]%Forall_app.
  change (calls_text (printed (p :: ps))) with
    (t ← sprintf no_pointer p []; app t <$> calls_text (printed ps)).
  by rewrite sprintf_plain, IH by done.
Qed.

Lemma heading_text p : Forall plain_char p → calls_text [(p, [])] = Some p.
Proof.
  intros Hp. rewrite <- (app_nil_r p) in Hp. change (calls_text (printed [p]) = Some p).
  rewrite (printed_text [p] Hp). cbn. by rewrite app_nil_r.
Qed.

Lemma file_size_text n : (0 ≤ n ≤ 32767)%Z →
  calls_text [(str "file size: %d" ++ crlf, [n])] = Some (str "file size: " ++ digits 10 n ++ crlf).
Proof.
  intros Hn. unfold calls_text, int_calls, print_calls, sprintf. cbn [fmap list_fmap fst snd].
  change (str "file size: %d" ++ crlf) with (str "file size: " ++ [37; 100; 13; 10]%Z).
  rewrite vprintf_plain by (by apply (bool_decide_unpack _)).
  assert (int16 n = n) as Hi by (unfold int16; rewrite Z.mod_small; lia).
  assert (vprintf no_pointer Plain [37; 100; 13; 10]%Z [AInt n] = Some (pad_signed false 0 (int16 n) ++ crlf))
    as -> by reflexivity.
  unfold pad_signed, pad. rewrite Hi, bool_decide_true by lia. cbn. by rewrite app_nil_r.
Qed.

Section Print.
Context `{Board D B} `{!Storage B W}.
Context (fuel : nat) (Hfuel : latency * 257 + 256 < fuel).

Abbreviation St := (fw callback ctl D).

Lemma output_loop_spec k : ∀ address s g m r i sel (f := file_of sel (_fs g)),
  image s g m r i → (0 ≤ f_start f ≤ address)%Z → (f_end f ≤ 32768)%Z →
  Z.to_nat (f_end f - address) < k →
  let rest := take (Z.to_nat (f_end f - address)) (drop (Z.to_nat address) m) in
  Forall (λ c, c ≠ 0%Z) rest →
  ∃ s' ps i', output_loop fuel k sel address s = Ok (tt, s') ∧ fw_btn s' = fw_btn s ∧
    mjoin ps = rest ∧ io_out i' = io_out i ++ printed ps ∧
    io_in i' = io_in i ∧ io_irqs i' = io_irqs i ∧ io_pins i' = io_pins i ∧
    image s' g m r i'.
Proof.
  induction k as [|k IH]; intros address s g m r i sel f Him Ha He Hk rest Hnz; [lia|].
  cbn [output_loop]. run (image_file s _ _ _ _ sel Him). fold f.
  destruct (image_mem _ _ _ _ _ Him) as [Hm Hmu]. pose proof FRAM_SIZE_Z.
  case_bool_decide as Hlt; [|].
  2: { exists s, [], i. unfold rest. replace (Z.to_nat (f_end f - address)) with 0 by lia.
       rewrite take_0, app_nil_r. split_and!; first [reflexivity|exact Him]. }
  rewrite u16_small by (unfold is_u16; lia).
  set (size := if bool_decide (f_end f - address > 8)%Z then 8%Z else (f_end f - address)%Z).
  assert (0 < size ≤ 8 ∧ size ≤ f_end f - address)%Z as Hsize
    by (unfold size; case_bool_decide; lia).
  rewrite bool_decide_true by lia.
  destruct (image_read fuel Hfuel s _ _ _ _ address (replicate 9 0%Z) 0 size Him)
    as (s1 & E1 & Hb1 & Him1); [unfold in_range; lia|lia|rewrite length_replicate; lia|]. run E1.
  set (piece := take (Z.to_nat size) (drop (Z.to_nat address) m)) in *.
  assert (length piece = Z.to_nat size) as Hpl
    by (unfold piece; rewrite length_take_le; [done|rewrite length_drop; lia]).
  rewrite u16_small by (unfold is_u16; lia).
  rewrite (bool_decide_false (address + 8 = f_start f)%Z) by lia.
  assert (write_at (replicate 9 0%Z) 0 piece = piece ++ replicate (S (8 - length piece)) 0%Z) as ->.
  { pose proof (drop_write_at (replicate 9 0%Z) 0 piece) as Hw. rewrite drop_0 in Hw.
    rewrite Hw by (rewrite length_replicate; lia). rewrite drop_replicate. do 2 f_equal. lia. }
  assert (rest = piece ++ take (Z.to_nat (f_end f - (address + 8)))
                               (drop (Z.to_nat (address + 8)) m)) as Hrest.
  { unfold rest, piece, size. case_bool_decide.
    - replace (Z.to_nat (f_end f - address)) with (Z.to_nat 8 + Z.to_nat (f_end f - (address + 8))) by lia.
      rewrite <- take_take_drop, drop_drop. do 3 f_equal. lia.
    - replace (Z.to_nat (f_end f - (address + 8))) with 0 by lia. by rewrite take_0, app_nil_r. }
  rewrite Hrest in Hnz. apply Forall_app in Hnz as [Hnz1 Hnz2].
  rewrite cstr_line by done. cbn [andb].
  destruct (image_op _ _ _ _ _ _ _ _ Him1 (print_op piece [] i)) as (s2 & E2 & Hb2 & Him2). run E2.
  destruct (image_op _ _ _ _ _ _ _ _ Him2 (usb_op _)) as (s3 & E3 & Hb3 & Him3). run E3.
  destruct (IH (address + 8)%Z s3 g m r _ sel Him3)
    as (s4 & ps & i4 & E4 & Hb4 & Hj & Hout & Hin & Hirq & Hpin & Him4);
    [fold f; lia|fold f; lia|fold f; lia|fold f; done|].
  exists s4, (piece :: ps), i4. split_and!; [exact E4|congruence| | |done|done|done|done].
  - simpl. by rewrite Hj, Hrest.
  - rewrite Hout. cbn [io_print io_out]. by rewrite <- app_assoc.
Qed.

Lemma output_datastream_spec rounds s g m r i sel (f := file_of sel (_fs g)) :
  image s g m r i → (0 ≤ f_start f ≤ f_end f)%Z → (f_end f ≤ 32768)%Z →
  Z.to_nat (f_end f - f_start f) < rounds → Forall (λ c, c ≠ 0%Z) (contents m f) →
  ∃ s' ps i', output_datastream fuel rounds sel s = Ok ((f_end f - f_start f)%Z, s') ∧
    fw_btn s' = fw_btn s ∧ mjoin ps = contents m f ∧
    io_out i' = io_out i ++ [(crlf ++ str "output_data" ++ crlf, []);
                             (str "file size: %d" ++ crlf, [(f_end f - f_start f)%Z])] ++ printed ps ∧
    io_in i' = io_in i ∧ io_irqs i' = io_irqs i ∧ io_pins i' = io_pins i ∧
    image s' g m r i'.
Proof.
  intros Him Hf He Hk Hnz. unfold output_datastream.
  destruct (image_op _ _ _ _ _ _ _ _ Him (print_op (crlf ++ str "output_data" ++ crlf) [] i))
    as (s1 & E1 & Hb1 & Him1). run E1.
  run (image_file s1 _ _ _ _ sel Him1). fold f. rewrite u16_small by (unfold is_u16; lia).
  destruct (image_op _ _ _ _ _ _ _ _ Him1
    (print_op (str "file size: %d" ++ crlf) [(f_end f - f_start f)%Z] _))
    as (s2 & E2 & Hb2 & Him2). run E2.
  destruct (image_op _ _ _ _ _ _ _ _ Him2 (busy_op _)) as (s3 & E3 & Hb3 & Him3). run E3.
  destruct (output_loop_spec rounds (f_start f) s3 g m r _ sel Him3)
    as (s4 & ps & i4 & E4 & Hb4 & Hj & Hout & Hin & Hirq & Hpin & Him4);
    [fold f; lia|fold f; lia|fold f; lia|done|]. run E4.
  destruct (image_op _ _ _ _ _ _ _ _ Him4 (ready_op _)) as (s5 & E5 & Hb5 & Him5). run E5.
  run (image_file s5 _ _ _ _ sel Him5). fold f. rewrite u16_small by (unfold is_u16; lia).
  exists s5, ps, (set_bits i4 (PORTD, 5%Z) (PORTB, 5%Z)).
  split_and!; [done|congruence|done| |done..|exact Him5].
  cbn [set_bits port_step set_gpio io_out]. rewrite Hout.
  cbn [set_bits port_step set_gpio io_print io_out fst snd]. by rewrite <- !app_assoc.
Qed.
End Print.

(** ** The extents on the FRAM *)

Lemma word_le16 l i x : is_u16 x → l !! i = Some x → word (le16 l) i = Ok x.
Proof.
  intros Hx. revert i. induction l as [|y l IH]; intros [|i] Hl; simpl in Hl; simplify_eq.
  - unfold word. simpl. unfold load. simpl. f_equal.
    pose proof (Z.div_mod x 256). lia.
  - specialize (IH i Hl). unfold word in *.
    replace (2 * S i) with (S (S (2 * i))) by lia.
    replace (S (S (2 * i)) + 1) with (S (S (2 * i + 1))) by lia. exact IH.
Qed.

Section Extents.
Context `{Board D B} `{!Storage B W}.
Context (fuel : nat) (Hfuel : latency * 257 + 256 < fuel) (junk : nat → Z).

Abbreviation St := (fw callback ctl D).

Lemma initialize_fs_spec s g m r i a b c d :
  image s g m r i → take 8 m = le16 [a; b; c; d] →
  is_u16 a → is_u16 b → is_u16 c → is_u16 d →
  ∃ s', initialize_fs fuel junk s = Ok (tt, s') ∧ fw_btn s' = fw_btn s ∧
    image s' (set_fs (mk_fs (mk_file a b) (mk_file c d)) g) m r
      (io_print (str "end %d" ++ crlf) [b] (io_print (str "start %d" ++ crlf) [a] i)).
Proof.
  intros Him Hm Ha Hb Hc Hd. unfold initialize_fs.
  destruct (image_read fuel Hfuel s _ _ _ _ 0 (junk <$> seq 0 8) 0 8 Him)
    as (s1 & E1 & Hb1 & Him1); [unfold in_range; lia|lia|simpl; lia|]. run E1.
  change (Z.to_nat 8) with 8. change (Z.to_nat 0) with 0. rewrite drop_0, Hm.
  rewrite write_at_all by done.
  rewrite (word_le16 _ 0 a), (word_le16 _ 1 b), (word_le16 _ 2 c), (word_le16 _ 3 d) by done.
  rewrite !io_bind_pure.
  destruct (image_op _ _ _ _ _ _ _ _ Him1 (print_op (str "start %d" ++ crlf) [a] i))
    as (s2 & E2 & Hb2 & Him2). run E2.
  destruct (image_op _ _ _ _ _ _ _ _ Him2 (print_op (str "end %d" ++ crlf) [b] _))
    as (s3 & E3 & Hb3 & Him3). run E3.
  destruct (image_mod s3 _ _ _ _ (set_fs (mk_fs (mk_file a b) (mk_file c d))) Him3)
    as (s4 & E4 & Hb4 & Him4).
  exists s4. split; [exact E4|]. split; [congruence|done].
Qed.
End Extents.

(** The file that holds what was added to the empty one. *)
Lemma contents_added m a w e : (8 ≤ a)%Z → Z.to_nat a + length w ≤ length m →
  contents (write_at (write_at m (Z.to_nat a) w) 2 (le16 [e]))
           (mk_file a (a + Z.of_nat (length w))) = w.
Proof.
  intros Ha Hl. unfold contents. cbn [f_start f_end].
  rewrite drop_write_at_after by (simpl; lia). rewrite drop_write_at by lia.
  by rewrite take_app_length' by lia.
Qed.

Lemma extents_updated m p w a x c d e : 8 ≤ p → take 8 m = le16 [a; x; c; d] →
  take 8 (write_at (write_at m p w) 2 (le16 [e])) = le16 [a; e; c; d].
Proof.
  intros Hp Hm. rewrite take_write_at_within by (simpl; lia).
  by rewrite take_write_at_before, Hm.
Qed.

Lemma added_length f t : length (added f t) ≤ S (length t).
Proof.
  unfold added. destruct t as [|c t]; [simpl; lia|]. rewrite length_app.
  pose proof (marker_length f (c :: t)). lia.
Qed.

Lemma added_empty f t : f_start f = f_end f → t ≠ [] →
  added f t = if decide (head t = Some 35%Z) then t else 42%Z :: t.
Proof.
  intros Hemp Hne. unfold added, marker. rewrite bool_decide_true by done.
  destruct t as [|c t]; [done|]. destruct (decide (head (c :: t) = Some 35%Z)) as [Hh|Hh].
  - by rewrite bool_decide_false by (intros Hc; by apply Hc).
  - by rewrite bool_decide_true.
Qed.

(** * Properties *)

Section Properties.
Context `{Board D B} `{!Storage B W}.
Context (fuel : nat) (Hfuel : latency * 257 + 256 < fuel) (rounds : nat) (junk : nat → Z).

Abbreviation St := (fw callback ctl D).

(** C15: [input_datastream] stores the text from the serial line in the empty
    input file, behind an asterisk unless it starts with a hash, in whatever
    pieces [fgets] delivers it, and records the new end of the file both in
    the variables and at the start of the FRAM. *)
Theorem input_stores_text t (s : St) g m r i (f := input (_fs g)) :
  image s g m r i → io_in i = Some <$> t → Forall text_byte t → t ≠ [] →
  f_start f = f_end f → (8 ≤ f_start f)%Z →
  (f_start f + Z.of_nat (length t) + 2 ≤ 32768)%Z → length t < rounds →
  ∃ s' n m' i' e,
    input_datastream fuel rounds Input s = Ok (n, s') ∧
    image s' (with_end Input e g) m' r i' ∧
    contents m' (mk_file (f_start f) e)
      = (if decide (head t = Some 35%Z) then t else 42%Z :: t) ∧
    take 2 (drop 2 m') = le16 [e] ∧
    (∀ k, k < 2 ∨ (4 ≤ k ∧ k < Z.to_nat (f_start f)) ∨ Z.to_nat e ≤ k → m' !! k = m !! k).
Proof.
  intros Him Hi Ht Hne Hemp H8 Hmax Hk. pose proof (added_length f t) as Hal.
  destruct (input_datastream_spec fuel Hfuel rounds t s g m r i Input Hk Him Hi Ht)
    as (s' & n & i' & E & _ & _ & _ & _ & _ & Him');
    [change (file_of Input (_fs g)) with f; lia..|].
  change (file_of Input (_fs g)) with f in Him'. cbn zeta in Him'. rewrite <- Hemp in Him'.
  set (e := (f_start f + Z.of_nat (length (added f t)))%Z) in *.
  destruct (image_mem _ _ _ _ _ Him) as [Hm _]. pose proof FRAM_SIZE_Z.
  eexists s', n, _, i', e. split; [done|]. split; [exact Him'|]. split_and!.
  - unfold e at 1. rewrite contents_added by lia. by apply added_empty.
  - by rewrite drop_write_at by (rewrite length_write_at; simpl; lia).
  - intros k Hkk. destruct (decide (k < 2)) as [Hk2|Hk2].
    + by rewrite lookup_write_at_lt, lookup_write_at_lt by lia.
    + rewrite lookup_write_at_ge by (simpl; lia).
      destruct (decide (k < Z.to_nat (f_start f))).
      * by rewrite lookup_write_at_lt by lia.
      * by rewrite lookup_write_at_ge by (unfold e in *; lia).
Qed.

(** C16: printing the input file after a text was read into it prints the
    text: what the two functions send through [printf], formatted, is their
    headings, the size, the flag in front of a text that does not start with a
    hash (it is printed too, against the comment in the code) and the text.
    The text holds no NUL and no percent sign, since it is used as a format. *)
Theorem input_output_roundtrip t (s : St) g m r i (f := input (_fs g)) :
  let text := if decide (head t = Some 35%Z) then t else 42%Z :: t in
  image s g m r i → io_in i = Some <$> t → Forall is_u8 t → Forall plain_char t →
  t ≠ [] → f_start f = f_end f → (8 ≤ f_start f)%Z →
  (f_start f + Z.of_nat (length t) + 2 ≤ 32768)%Z → S (length t) < rounds →
  ∃ s1 n s2 g2 m2 i2 calls,
    input_datastream fuel rounds Input s = Ok (n, s1) ∧
    output_datastream fuel rounds Input s1 = Ok (Z.of_nat (length text), s2) ∧
    image s2 g2 m2 r i2 ∧ io_out i2 = io_out i ++ calls ∧
    calls_text calls = Some (str "calling input_data" ++ crlf ++ crlf ++ str "output_data" ++ crlf ++
      str "file size: " ++ digits 10 (Z.of_nat (length text)) ++ crlf ++ text).
Proof.
  intros text Him Hi Hu Hp Hne Hemp H8 Hmax Hk. pose proof (added_length f t) as Hal.
  assert (Forall text_byte t) as Ht.
  { apply Forall_and. split; [done|]. eapply Forall_impl; [exact Hp|]. by intros c []. }
  destruct (input_datastream_spec fuel Hfuel rounds t s g m r i Input ltac:(lia) Him Hi Ht)
    as (s1 & n & i1 & E1 & _ & Hout1 & _ & _ & _ & Him1);
    [change (file_of Input (_fs g)) with f; lia..|].
  change (file_of Input (_fs g)) with f in Him1. cbn zeta in Him1. rewrite <- Hemp in Him1.
  destruct (image_mem _ _ _ _ _ Him) as [Hm _]. pose proof FRAM_SIZE_Z.
  pose proof (added_empty f t Hemp Hne : added f t = text) as Hadd. rewrite Hadd in *.
  assert (Forall plain_char text) as Hpt.
  { unfold text. case_decide; [exact Hp|]. constructor; [by split|exact Hp]. }
  pose proof (contents_added m (f_start f) text (f_start f + Z.of_nat (length text))%Z H8 ltac:(lia)) as Hc.
  destruct (output_datastream_spec fuel Hfuel rounds s1 _ _ r i1 Input Him1)
    as (s2 & ps & i2 & E2 & _ & Hj & Hout2 & _ & _ & _ & Him2);
    rewrite ?file_with_end; cbn [f_start f_end]; change (file_of Input (_fs g)) with f; [lia..| |].
  { rewrite Hc. eapply Forall_impl; [exact Hpt|]. by intros c []. }
  rewrite file_with_end in E2, Hj, Hout2. cbn [f_start f_end] in E2, Hj, Hout2.
  change (file_of Input (_fs g)) with f in E2, Hj, Hout2.
  replace (f_start f + Z.of_nat (length text) - f_start f)%Z
    with (Z.of_nat (length text)) in E2, Hout2 by lia.
  rewrite Hc in Hj. rewrite Hout1, <- app_assoc in Hout2.
  eexists s1, n, s2, _, _, i2, _. split_and!; [exact E1|exact E2|exact Him2|exact Hout2|].
  change ([?a] ++ [?b; ?c] ++ ?l) with (([a] ++ [b]) ++ [c] ++ l).
  rewrite !calls_text_app, (file_size_text _) by lia.
  rewrite (printed_text ps), Hj by (by rewrite Hj).
  rewrite !heading_text by (by apply (bool_decide_unpack _)).
  cbn [mbind option_bind fmap option_fmap option_map]. by rewrite <- !app_assoc.
Qed.

(** C38: the files survive a restart.  After a text was read in, from any
    state that has the memory of the storage and nothing else of the state
    before (any variables, any other devices and ports), [initialize_fs] gives
    both files their extents: that of the input file with the text, and that of
    the output file as it was stored; it prints the former. *)
Theorem fs_survives_restart t (s : St) g m r i x c d (f := input (_fs g)) :
  image s g m r i → io_in i = Some <$> t → Forall text_byte t →
  take 8 m = le16 [f_start f; x; c; d] → is_u16 c → is_u16 d →
  (8 ≤ f_start f ≤ f_end f)%Z → (f_end f + Z.of_nat (length t) + 2 ≤ 32768)%Z →
  length t < rounds →
  let e := (f_end f + Z.of_nat (length (added f t)))%Z in
  ∃ s1 n m1 i1,
    input_datastream fuel rounds Input s = Ok (n, s1) ∧ image s1 (with_end Input e g) m1 r i1 ∧
    ∀ (s2 : St) g2 r2 i2, image s2 g2 m1 r2 i2 →
      ∃ s3, initialize_fs fuel junk s2 = Ok (tt, s3) ∧
        image s3 (set_fs (mk_fs (mk_file (f_start f) e) (mk_file c d)) g2) m1 r2
          (io_print (str "end %d" ++ crlf) [e] (io_print (str "start %d" ++ crlf) [f_start f] i2)).
Proof.
  intros Him Hi Ht Hm Hc Hd Hf Hmax Hk e. pose proof (added_length f t) as Hal.
  destruct (input_datastream_spec fuel Hfuel rounds t s g m r i Input Hk Him Hi Ht)
    as (s1 & n & i1 & E1 & _ & _ & _ & _ & _ & Him1);
    [change (file_of Input (_fs g)) with f; lia..|].
  change (file_of Input (_fs g)) with f in Him1. cbn zeta in Him1. fold e in Him1.
  eexists s1, n, _, i1. split; [exact E1|]. split; [exact Him1|]. intros s2 g2 r2 i2 Him2.
  destruct (initialize_fs_spec fuel Hfuel junk s2 _ _ _ _ (f_start f) e c d Him2)
    as (s3 & E3 & _ & Him3);
    [by eapply extents_updated; [lia|exact Hm]|unfold is_u16, e; lia|unfold is_u16, e; lia|done|done|].
  by exists s3.
Qed.
End Properties.

(** ** Witnesses *)

Definition demo_ctl : ctl :=
  mk_ctl (mk_fs (mk_file 8 8) (mk_file 16004 16004)) 0 0 0
         (replicate 256 0%Z) (replicate 256 0%Z).

Definition demo_buttons : buttons callback :=
  mk_buttons A_release_fn A_press_fn C_release_fn C_press_fn 9.

Definition demo_hw (m : list Z) (i : io) : hw (fram * unit) :=
  mk_hw (mk_twi Released TW_NO_INFO 0 false false 0 (mk_fram m 0 FIdle, tt)) i.

Definition demo_state (g : ctl) (i : io) : fw callback ctl (hw (fram * unit)) :=
  mk_fw demo_buttons g (demo_hw (formatted blank) i).

Lemma formatted_blank : length (formatted blank) = FRAM_SIZE ∧ Forall is_u8 (formatted blank).
Proof.
  assert (length blank = FRAM_SIZE) as Hl by apply length_replicate.
  rewrite <- formatted_write by done. split.
  - by rewrite !length_write_at.
  - repeat apply Forall_write_at; try (apply Forall_replicate; unfold is_u8; lia).
    repeat constructor; done.
Defined.

Lemma storage_image g m i : length m = FRAM_SIZE ∧ Forall is_u8 m →
  image (B := fram * unit) (mk_fw demo_buttons g (demo_hw m i)) g m tt i.
Proof.
  intros Hm. split; [done|]. exists (mk_wire Released (mk_fram m 0 FIdle, tt) i).
  split; [done|]. split; [exact Hm|done].
Defined.

Lemma demo_image g i : image (B := fram * unit) (demo_state g i) g (formatted blank) tt i.
Proof. apply storage_image, formatted_blank. Defined.

(** The line "ABC" on stdin. *)
Definition demo_text : list Z := [65; 66; 67; 10]%Z.

Definition text_io : io := mk_io ∅ [] (Some <$> demo_text) [] [].

Lemma demo_text_bytes : Forall text_byte demo_text.
Proof. repeat constructor; unfold is_u8; lia. Defined.

Lemma input_stores_text_witness :
  ∃ s' n, input_datastream 1000 10 Input (demo_state demo_ctl text_io) = Ok (n, s').
Proof.
  destruct (input_stores_text (D := hw (fram * unit)) (B := fram * unit) 1000 demo_fuel 10
    demo_text (demo_state demo_ctl text_io) demo_ctl _ _ _ (demo_image demo_ctl text_io))
    as (s' & n & m' & i' & e & E & _);
    [done|exact demo_text_bytes|done|done|simpl; lia|simpl; lia|simpl; lia|].
  exists s', n. exact E.
Defined.

Lemma input_output_roundtrip_witness :
  ∃ s1 n s2 i2, input_datastream 1000 10 Input (demo_state demo_ctl text_io) = Ok (n, s1) ∧
    output_datastream 1000 10 Input s1 = Ok (5%Z, s2) ∧
    calls_text (io_out i2) = Some (str "calling input_data" ++ crlf ++ crlf ++ str "output_data" ++ crlf ++
      str "file size: 5" ++ crlf ++ 42%Z :: demo_text).
Proof.
  destruct (input_output_roundtrip (D := hw (fram * unit)) (B := fram * unit) 1000 demo_fuel 10
    demo_text (demo_state demo_ctl text_io) demo_ctl _ _ _ (demo_image demo_ctl text_io))
    as (s1 & n & s2 & g2 & m2 & i2 & calls & E1 & E2 & _ & Ho & Hc);
    [done|by apply (bool_decide_unpack _)|by apply (bool_decide_unpack _)|done|done|simpl; lia|simpl; lia|simpl; lia|].
  exists s1, n, s2, i2. rewrite Ho. exact (conj E1 (conj E2 Hc)).
Defined.

(** The board loses its variables and its ports. *)
Lemma fs_survives_restart_witness :
  ∃ s1 n m1 i1, input_datastream 1000 10 Input (demo_state demo_ctl text_io) = Ok (n, s1) ∧
    image (B := fram * unit) s1 (with_end Input 13 demo_ctl) m1 tt i1 ∧
    let g0 := mk_ctl (mk_fs (mk_file 0 0) (mk_file 0 0)) 0 0 0 (replicate 256 0%Z) (replicate 256 0%Z) in
    let io0 := mk_io ∅ [] [] [] [] in
    ∃ s3, initialize_fs 1000 (λ _, 0%Z) (mk_fw demo_buttons g0 (demo_hw m1 io0)) = Ok (tt, s3) ∧
      image (B := fram * unit) s3 (with_end Input 13 demo_ctl) m1 tt
        (io_print (str "end %d" ++ crlf) [13%Z] (io_print (str "start %d" ++ crlf) [8%Z] io0)).
Proof.
  destruct (fs_survives_restart (D := hw (fram * unit)) (B := fram * unit) 1000 demo_fuel 10
    (λ _, 0%Z) demo_text (demo_state demo_ctl text_io) demo_ctl _ _ _ 8 16004 16004
    (demo_image demo_ctl text_io))
    as (s1 & n & m1 & i1 & E1 & Him1 & Hr);
    [done|exact demo_text_bytes|by apply take_app_length'|done|done|simpl; lia|simpl; lia|simpl; lia|].
  exists s1, n, m1, i1. split; [exact E1|]. split; [exact Him1|]. intros g0 io0.
  exact (Hr _ g0 tt io0 (storage_image g0 m1 io0 (image_mem _ _ _ _ _ Him1))).
Defined.
