(* ===== verification/ControllerPoll.v ===== *)
(** * The buttons of the controller

    The state machine of [button_status] and what polling the buttons does:
    a long press of A formats the storage, a click of A reads a text, and what
    the poll of C does instead of looking at C. *)

From S2P Require Import Prelude Avr Board I2cMaster I2cWire Fram Store Leds Buttons.
From S2P Require Import Controller ControllerFiles.
From stdpp Require Import strings gmap.
Import I2c Leds Buttons Controller.

(** ** The button state machine *)

Section Machine.
Context `{Board D B}.

Abbreviation St := (fw callback ctl D).

(** States reached by presses and releases, which alternate for each button:
    whether A is held, whether it was released before, and the same for C. *)
Inductive reach : bool → bool → bool → bool → St → Prop :=
  | reach_init s : button_status (fw_glob s) = 0%Z → reach false false false false s
  | reach_A_press oA hC oC s s' :
      reach false oA hC oC s → A_press s = Ok (tt, s') → reach true oA hC oC s'
  | reach_A_release oA hC oC s s' :
      reach true oA hC oC s → A_release s = Ok (tt, s') → reach false true hC oC s'
  | reach_C_press hA oA oC s s' :
      reach hA oA false oC s → C_press s = Ok (tt, s') → reach hA oA true oC s'
  | reach_C_release hA oA oC s s' :
      reach hA oA true oC s → C_release s = Ok (tt, s') → reach hA oA false true s'.

(** The bits of the status a button's callback leaves: [p] is set, [q] flips
    and the other bits stay. *)
Lemma status_bits st p q n : (0 ≤ p)%Z → (0 ≤ q)%Z → (0 ≤ n < 8)%Z → p ≠ q →
  Z.testbit (u8 (Z.lxor (Z.lor st (bit p)) (bit q))) n =
  if bool_decide (n = p) then true
  else if bool_decide (n = q) then negb (Z.testbit st n) else Z.testbit st n.
Proof.
  intros Hp Hq Hn Hne. rewrite testbit_u8 by done. autorewrite with bits.
  rewrite !testbit_bit by done.
  repeat case_bool_decide; subst; try done; destruct (Z.testbit st _); done.
Qed.

Lemma press_status (m : IO St unit) fmt p q s s' :
  m = (on_hw (printf fmt []);;
       mod_glob (λ g, set_status (u8 (Z.lxor (Z.lor (button_status g) p) q)) g)) →
  m s = Ok (tt, s') →
  button_status (fw_glob s') = u8 (Z.lxor (Z.lor (button_status (fw_glob s)) p) q).
Proof. intros -> [= <-]. done. Qed.

(** In every state the button interrupts can reach, the PRESS bit of a
    button tells whether it is held; its RELEASE bit is the opposite once it
    has been released, but equal to the PRESS bit until then. *)
Theorem button_status_tracks hA oA hC oC s :
  reach hA oA hC oC s →
  let st := button_status (fw_glob s) in
  Z.testbit st 0 = hA ∧ Z.testbit st 1 = (if oA then negb hA else hA) ∧
  Z.testbit st 2 = hC ∧ Z.testbit st 3 = (if oC then negb hC else hC).
Proof.
  induction 1 as [s Hs|oA hC oC s s' Hr IH E|oA hC oC s s' Hr IH E
                 |hA oA oC s s' Hr IH E|hA oA oC s s' Hr IH E]; cbn zeta in *.
  - by rewrite Hs.
  - rewrite (press_status _ _ (bit 0) (bit 1) _ _ eq_refl E), !status_bits by lia.
    destruct IH as (-> & -> & -> & ->). by destruct oA.
  - rewrite (press_status _ _ (bit 1) (bit 0) _ _ eq_refl E), !status_bits by lia.
    destruct IH as (-> & -> & -> & ->). done.
  - rewrite (press_status _ _ (bit 2) (bit 3) _ _ eq_refl E), !status_bits by lia.
    destruct IH as (-> & -> & -> & ->). by destruct oC.
  - rewrite (press_status _ _ (bit 3) (bit 2) _ _ eq_refl E), !status_bits by lia.
    destruct IH as (-> & -> & -> & ->). done.
Qed.
End Machine.

(** ** Polling *)

Section Poll.
Context `{Board D B} `{!Storage B W}.
Context (fuel : nat) (Hfuel : latency * 257 + 256 < fuel) (rounds : nat) (junk : nat → Z).

Abbreviation St := (fw callback ctl D).

Definition with_irqs (l : list nat) (i : io) : io :=
  mk_io (io_gpio i) (io_out i) (io_in i) (io_pins i) l.

Lemma irqs_op i : io_op irqs (fst (io_irq i)) i (snd (io_irq i)).
Proof.
  intros d Hv _. destruct (mcu_irqs d) as [n d'] eqn:E.
  destruct (irqs_law d n d' E) as [-> Hd']. rewrite Hv in *. simpl in *.
  exists d'. split; [|done]. unfold irqs. by rewrite E.
Qed.

(** A read of the status when no interrupt is pending. *)
Lemma read_status_quiet (s : St) g m r i :
  image s g m r i → fst (io_irq i) = 0 →
  ∃ s', read_status s = Ok (button_status g, s') ∧ fw_btn s' = fw_btn s ∧
        image s' g m r (snd (io_irq i)).
Proof.
  intros Him H0'. destruct (image_op _ _ _ _ _ _ _ _ Him (irqs_op i)) as (s1 & E1 & Hb1 & Him1).
  rewrite H0' in E1. exists s1. split; [|done]. unfold read_status, interrupts.
  rewrite io_bind_assoc. run E1. cbn [run_irqs].
  rewrite io_bind_ret. by run (image_glob s1 _ _ _ _ Him1).
Qed.

(** Button held: pressed ([p]) and not released ([q]). *)
Definition held (g : ctl) (p q : Z) : bool :=
  bool_decide (Z.land (button_status g) p ≠ 0%Z) &&
  bool_decide (Z.land (button_status g) q = 0%Z).

(** The test of the [while] loops. *)
Lemma held_test (s : St) g m r i p q :
  image s g m r i → io_irqs i = [] →
  ∃ s', fw_btn s' = fw_btn s ∧ image s' g m r i ∧
    ∀ A (k : bool → IO St A),
      (st ← read_status;
       h ← (if bool_decide (Z.land st p ≠ 0%Z)
            then st1 ← read_status; mret (bool_decide (Z.land st1 q = 0%Z))
            else mret false);
       k h) s = k (held g p q) s'.
Proof.
  intros Him Hirq. unfold held.
  assert (io_irq i = (0, i)) as Hi by (unfold io_irq; by rewrite Hirq).
  destruct (read_status_quiet s g m r i Him) as (s1 & E1 & Hb1 & Him1); [by rewrite Hi|].
  rewrite Hi in Him1. simpl in Him1.
  destruct (bool_decide (Z.land (button_status g) p ≠ 0%Z)) eqn:Ep.
  - destruct (read_status_quiet s1 g m r i Him1) as (s2 & E2 & Hb2 & Him2); [by rewrite Hi|].
    rewrite Hi in Him2. simpl in Him2. exists s2. split; [congruence|]. split; [done|].
    intros A k. run E1. rewrite Ep, io_bind_assoc. by run E2.
  - exists s1. split; [done|]. split; [done|]. intros A k. run E1. by rewrite Ep.
Qed.

(** The body of the loops up to the test of the counter. *)
Lemma hold_round (s : St) g m r i :
  image s g m r i →
  ∃ s' (i' := set_bits i (PORTB, 5%Z) (PORTD, 5%Z)),
    fw_btn s' = fw_btn s ∧ image s' (set_hold (u8 (buttonHoldCount g + 1)) g) m r i' ∧
    ∀ A (k : Z → IO St A),
      (on_hw busy_light;; on_hw (delay_ms 500);; h ← hold_more; k h) s =
      k (u8 (buttonHoldCount g + 1)) s'.
Proof.
  intros Him.
  destruct (image_op _ _ _ _ _ _ _ _ Him (busy_op i)) as (s1 & E1 & Hb1 & Him1).
  destruct (image_op _ _ _ _ _ _ _ _ Him1 (delay_op 500 _)) as (s2 & E2 & Hb2 & Him2).
  destruct (image_mod s2 _ _ _ _ (set_hold (u8 (buttonHoldCount g + 1))) Him2)
    as (s3 & E3 & Hb3 & Him3).
  exists s3. split; [congruence|]. split; [done|]. intros A k. run E1. run E2.
  unfold hold_more. rewrite io_bind_assoc. run (image_glob s2 _ _ _ _ Him2).
  rewrite io_bind_assoc. run E3. done.
Qed.

(** Unless button A is held, polling it returns at once and leaves the
    storage and the files alone; so does the first press after a reset, which
    sets both bits of the status. *)
Theorem pollButtonA_idle (s : St) g m r i :
  image s g m r i → io_irqs i = [] → held g A_PRESS A_RELEASE = false →
  ∃ s', pollButtonA fuel rounds s = Ok (tt, s') ∧ image s' (set_hold 0 g) m r i.
Proof.
  intros Him Hirq Hst. unfold pollButtonA.
  destruct (image_mod s _ _ _ _ (set_hold 0) Him) as (s1 & E1 & Hb1 & Him1). run E1.
  cbn [pollA_loop].
  destruct (held_test s1 _ m r i A_PRESS A_RELEASE Him1 Hirq) as (s2 & Hb2 & Him2 & E2).
  rewrite E2. change (held (set_hold 0 g) A_PRESS A_RELEASE) with (held g A_PRESS A_RELEASE).
  rewrite Hst. by exists s2.
Qed.

(** The rounds of the loop while A is held and nothing happens. *)
Lemma pollA_wait n : ∀ (s : St) g m r i,
  image s g m r i → io_irqs i = [] → held g A_PRESS A_RELEASE = true →
  buttonHoldCount g = (11 - Z.of_nat n)%Z → 0 < n ≤ 11 →
  ∃ s' i', pollA_loop fuel rounds (S n) s = Ok (tt, s') ∧
    image s' (set_hold 11 g) (formatted m) r i' ∧
    io_out i' = io_out i ++ [(str "calling format_storage" ++ crlf, [])].
Proof.
  induction n as [|n IH]; intros s g m r i Him Hirq Hst Hh Hn; [lia|].
  remember (S n) as k eqn:Hk. cbn [pollA_loop].
  destruct (held_test s _ m r i A_PRESS A_RELEASE Him Hirq) as (s2 & Hb2 & Him2 & E2).
  rewrite E2, Hst. destruct (hold_round s2 g m r i Him2) as (s3 & Hb3 & Him3 & E3).
  rewrite E3, Hh. rewrite Hh, u8_small in Him3 by (unfold is_u8; lia).
  rewrite u8_small by (unfold is_u8; lia).
  destruct (decide (n = 0)) as [->|Hn0].
  - rewrite bool_decide_true by lia. subst k.
    destruct (image_op _ _ _ _ _ _ _ _ Him3 (print_op (str "calling format_storage" ++ crlf) [] _))
      as (s4 & E4 & Hb4 & Him4). run E4. destruct Him4 as [Hg4 Hs4].
    destruct (format_storage_done fuel Hfuel _ _ Hs4) as (d5 & E5 & Hs5).
    run (on_hw_Ok (G := ctl) (F := callback) _ s4 _ _ E5).
    destruct (image_op ready_light tt (mk_fw (fw_btn s4) (fw_glob s4) d5) (fw_glob s4) _ _ _ _
      (conj eq_refl Hs5) (ready_op _)) as (s6 & E6 & Hb6 & Him6).
    exists s6. eexists. split; [exact E6|]. rewrite Hg4 in Him6. split; [exact Him6|]. done.
  - rewrite bool_decide_false by lia.
    set (i3 := set_bits i _ _) in *.
    assert (io_irq i3 = (0, i3)) as Hi3 by (unfold io_irq, i3; simpl; by rewrite Hirq).
    destruct (read_status_quiet s3 _ m r i3 Him3) as (s4 & E4 & Hb4 & Him4); [by rewrite Hi3|].
    rewrite Hi3 in Him4. simpl in Him4. run E4.
    apply andb_true_iff in Hst as Hst'. destruct Hst' as [_ Hst']. apply bool_decide_eq_true in Hst'.
    change (button_status (set_hold _ g)) with (button_status g).
    rewrite Hst', bool_decide_false by (intros Hc; by apply Hc). subst k.
    destruct (IH s4 _ m r i3 Him4) as (s5 & i5 & E5 & Him5 & Hout5);
      [done|done|simpl; lia|lia|].
    exists s5, i5. split; [exact E5|]. split; [exact Him5|]. by rewrite Hout5.
Qed.

(** Holding button A for eleven rounds of half a second formats the
    storage; polling always ends by then. *)
Theorem pollButtonA_hold_formats (s : St) g m r i :
  image s g m r i → io_irqs i = [] → held g A_PRESS A_RELEASE = true →
  ∃ s' i', pollButtonA fuel rounds s = Ok (tt, s') ∧
    image s' (set_hold 11 g) (formatted m) r i' ∧
    io_out i' = io_out i ++ [(str "calling format_storage" ++ crlf, [])].
Proof.
  intros Him Hirq Hst. unfold pollButtonA.
  destruct (image_mod s _ _ _ _ (set_hold 0) Him) as (s1 & E1 & Hb1 & Him1). run E1.
  destruct (pollA_wait 11 s1 _ m r i Him1) as (s2 & i2 & E2 & Him2 & Hout2); [done|done|done|lia|].
  exists s2, i2. by split_and!.
Qed.

(** ** A click of button A *)

Lemma call_btn (f : callback) (s s' : St) : call f s = Ok (tt, s') → fw_btn s' = fw_btn s.
Proof. destruct f; by intros [= <-]. Qed.

(** A read of the status with one pending interrupt, the release of A. *)
Lemma read_status_release (s : St) g m r i v l ps :
  image s g m r i → io_irqs i = 1 :: l → io_pins i = v :: v :: ps →
  events (fw_btn s) (level v) = [A_release_fn] →
  let st := u8 (Z.lxor (Z.lor (button_status g) A_RELEASE) A_PRESS) in
  ∃ s' i', read_status s = Ok (st, s') ∧ image s' (set_status st g) m r i' ∧
    io_out i' = io_out i ++ [(str "A_Release" ++ crlf, [])] ∧
    io_in i' = io_in i ∧ io_irqs i' = l.
Proof.
  intros Him Hirq Hpin Hev st.
  destruct (image_op _ _ _ _ _ _ _ _ Him (irqs_op i)) as (s1 & E1 & Hb1 & Him1).
  unfold io_irq in E1, Him1. rewrite Hirq in E1, Him1. simpl in E1, Him1.
  set (i1 := mk_io _ _ _ _ l) in Him1. pose proof Him1 as [Hg1 Hs1].
  destruct (stored_view _ _ Hs1) as [Hv1 Hp1]. cbn [s_io] in Hv1.
  destruct (PCINT0_run call s1 v v ps) as (d2 & (k & Hk & Hd2) & _ & E2).
  { by rewrite Hv1. }
  { apply call_btn. }
  rewrite decide_True, Hb1, Hev in E2 by done. cbn [run_calls] in E2.
  rewrite Hp1 in Hk. rewrite Hv1 in Hd2. cbn [h_io h_twi] in Hd2.
  assert (with_pend k (h_twi (hview (fw_hw s1))) = h_twi (hview (fw_hw s1))) as Ht.
  { destruct (h_twi (hview (fw_hw s1))). simpl in *. subst. by replace k with 0 by lia. }
  rewrite Ht in Hd2.
  assert (image (mk_fw (fw_btn s1) (fw_glob s1) d2) g m r (isr_io i1 ps)) as Him2.
  { split; [done|]. cbn [fw_hw]. by apply (stored_io (fw_hw s1) d2 (mk_store m r i1)). }
  destruct (image_op _ _ _ _ _ _ _ _ Him2 (print_op (str "A_Release" ++ crlf) [] _))
    as (s3 & E3 & Hb3 & Him3).
  destruct (image_mod s3 _ _ _ _ (set_status st) Him3) as (s4 & E4 & Hb4 & Him4).
  assert (A_release (mk_fw (fw_btn s1) (fw_glob s1) d2) = Ok (tt, s4)) as E5.
  { unfold A_release. run E3. destruct Him3 as [Hg3 _].
    revert E4. unfold mod_glob, mbind, IO_bind, get_glob. by rewrite Hg3. }
  set (s5 := mk_fw (mk_buttons (fn_release_A (fw_btn s4)) (fn_press_A (fw_btn s4))
    (fn_release_C (fw_btn s4)) (fn_press_C (fw_btn s4)) (level v)) (fw_glob s4) (fw_hw s4)).
  assert (image s5 (set_status st g) m r
    (io_print (str "A_Release" ++ crlf) [] (isr_io i1 ps))) as Him5.
  { destruct Him4 as [Hg4 Hs4]. by split. }
  exists s5. eexists. split.
  { unfold read_status, interrupts. rewrite io_bind_assoc. run E1. cbn [run_irqs].
    assert (PCINT0_vect call s1 = Ok (tt, s5)) as E6.
    { rewrite E2. unfold call at 1. rewrite Hb1 in E5.
      unfold mbind at 1 2, IO_bind at 1 2. by rewrite E5. }
    rewrite io_bind_assoc. run E6. rewrite io_bind_ret. by run (image_glob s5 _ _ _ _ Him5). }
  split; [exact Him5|]. done.
Qed.
(** The round in which A is released reads the text and prints it. *)
Lemma input_then_output (s : St) g m r i t (f := input (_fs g)) :
  image s g m r i → io_in i = Some <$> t → Forall text_byte t →
  t ≠ [] → head t ≠ Some 35%Z → f_start f = f_end f → (8 ≤ f_start f)%Z →
  (f_start f + Z.of_nat (length t) + 2 ≤ 32768)%Z → S (length t) < rounds →
  ∃ s' g' m' i' ps,
    (n ← input_datastream fuel rounds Input; mod_glob (set_bytes_read (u16 n));;
     output_datastream fuel rounds Input;; on_hw ready_light) s = Ok (tt, s') ∧
    image s' g' m' r i' ∧
    input (_fs g') = mk_file (f_start f) (f_start f + Z.of_nat (S (length t))) ∧
    contents m' (input (_fs g')) = 42%Z :: t ∧ mjoin ps = 42%Z :: t ∧
    io_out i' = io_out i ++
      [(str "calling input_data" ++ crlf, []); (crlf ++ str "output_data" ++ crlf, []);
       (str "file size: %d" ++ crlf, [Z.of_nat (S (length t))])] ++ printed ps.
Proof.
  intros Him Hi Ht Hne Hh Hemp H8 Hmax Hk. pose proof (added_length f t) as Hal.
  destruct (input_datastream_spec fuel Hfuel rounds t s g m r i Input ltac:(lia) Him Hi Ht)
    as (s1 & n & i1 & E1 & _ & Hout1 & _ & _ & _ & Him1);
    [change (file_of Input (_fs g)) with f; lia..|].
  change (file_of Input (_fs g)) with f in Him1. cbn zeta in Him1. rewrite <- Hemp in Him1.
  destruct (image_mem _ _ _ _ _ Him) as [Hm _]. pose proof FRAM_SIZE_Z.
  pose proof (added_empty f t Hemp Hne) as Hadd. rewrite decide_False in Hadd by done.
  rewrite Hadd in *. cbn [length] in *. set (e := (f_start f + Z.of_nat (S (length t)))%Z) in *.
  pose proof (contents_added m (f_start f) (42%Z :: t) e H8) as Hc. cbn [length] in Hc.
  specialize (Hc ltac:(lia)). fold e in Hc.
  destruct (image_mod s1 _ _ _ _ (set_bytes_read (u16 n)) Him1) as (s2 & E2 & _ & Him2).
  set (g2 := set_bytes_read (u16 n) (with_end Input e g)) in *.
  assert (file_of Input (_fs g2) = mk_file (f_start f) e) as Hf2 by done.
  destruct (output_datastream_spec fuel Hfuel rounds s2 _ _ r i1 Input Him2)
    as (s3 & ps & i3 & E3 & _ & Hj & Hout3 & _ & _ & _ & Him3);
    rewrite ?Hf2; cbn [f_start f_end].
  { lia. }
  { lia. }
  { lia. }
  { rewrite Hc. constructor; [done|]. eapply Forall_impl; [exact Ht|]. by intros c []. }
  rewrite Hf2 in Hj, Hout3. cbn [f_start f_end] in Hj, Hout3.
  replace (e - f_start f)%Z with (Z.of_nat (S (length t))) in Hout3 by lia.
  destruct (image_op _ _ _ _ _ _ _ _ Him3 (ready_op _)) as (s4 & E4 & _ & Him4).
  eexists s4, g2, _, _, ps. split; [run E1; run E2; run E3; exact E4|].
  split; [exact Him4|]. split; [done|]. split; [exact Hc|]. split; [by rewrite Hj|].
  cbn [set_bits port_step set_gpio io_out fst snd]. rewrite Hout3, Hout1. by rewrite <- app_assoc.
Qed.

(** A click of button A, released during the first wait, reads the text
    that is on the serial line into the empty input file and prints it back. *)
Theorem pollButtonA_click_reads (s : St) g m r i t v (f := input (_fs g)) :
  image s g m r i → held g A_PRESS A_RELEASE = true →
  io_irqs i = [0; 0; 1] → io_pins i = [v; v] →
  events (fw_btn s) (level v) = [A_release_fn] →
  io_in i = Some <$> t → Forall text_byte t →
  t ≠ [] → head t ≠ Some 35%Z → f_start f = f_end f → (8 ≤ f_start f)%Z →
  (f_start f + Z.of_nat (length t) + 2 ≤ 32768)%Z → S (length t) < rounds →
  ∃ s' g' m' i' ps,
    pollButtonA fuel rounds s = Ok (tt, s') ∧ image s' g' m' r i' ∧
    contents m' (input (_fs g')) = 42%Z :: t ∧ mjoin ps = 42%Z :: t ∧
    io_out i' = io_out i ++
      [(str "A_Release" ++ crlf, []); (str "calling input_data" ++ crlf, []);
       (crlf ++ str "output_data" ++ crlf, []);
       (str "file size: %d" ++ crlf, [Z.of_nat (S (length t))])] ++ printed ps.
Proof.
  intros Him Hst Hirq Hpin Hev Hi Ht Hne Hh Hemp H8 Hmax Hk. unfold pollButtonA.
  destruct (image_mod s _ _ _ _ (set_hold 0) Him) as (s0 & E0 & Hb0 & Him0). run E0.
  apply andb_true_iff in Hst as [Hp Hr].
  apply bool_decide_eq_true in Hp. apply bool_decide_eq_true in Hr.
  cbn [pollA_loop].
  assert (io_irq i = (0, with_irqs [0; 1] i)) as Hi0 by (unfold io_irq; by rewrite Hirq).
  destruct (read_status_quiet s0 _ m r i Him0) as (s1 & E1 & Hb1 & Him1); [by rewrite Hi0|].
  rewrite Hi0 in Him1. cbn [snd] in Him1. run E1. cbn [set_hold button_status].
  rewrite (bool_decide_true (Z.land (button_status g) A_PRESS ≠ 0%Z)) by done.
  destruct (read_status_quiet s1 _ m r _ Him1) as (s2 & E2 & Hb2 & Him2); [done|].
  cbn [io_irq with_irqs io_irqs snd io_gpio io_out io_in io_pins] in Him2.
  rewrite io_bind_assoc. run E2. cbn [set_hold button_status].
  rewrite io_bind_ret, (bool_decide_true (Z.land (button_status g) A_RELEASE = 0%Z)) by done.
  destruct (hold_round s2 _ m r _ Him2) as (s3 & Hb3 & Him3 & E3). rewrite E3.
  cbn [set_hold buttonHoldCount] in *. rewrite u8_small in * by (unfold is_u8; lia).
  rewrite bool_decide_false by lia.
  destruct (read_status_release s3 _ m r _ v [] [] Him3)
    as (s4 & i4 & E4 & Him4 & Hout4 & Hin4 & _); [done|done|congruence|]. run E4.
  cbn [set_hold button_status] in *.
  assert (Z.land (u8 (Z.lxor (Z.lor (button_status g) A_RELEASE) A_PRESS)) A_RELEASE ≠ 0%Z) as Hrel.
  { pose proof (status_bits (button_status g) 1 0 1 ltac:(lia) ltac:(lia) ltac:(lia) ltac:(lia)) as Hb.
    intros Hz. assert (Z.testbit (Z.land (u8 (Z.lxor (Z.lor (button_status g) A_RELEASE) A_PRESS))
      A_RELEASE) 1 = false) as Hf by (by rewrite Hz).
    rewrite Z.land_spec in Hf. change A_RELEASE with (bit 1) in Hf. change A_PRESS with (bit 0) in Hf.
    by rewrite Hb in Hf. }
  rewrite bool_decide_true by exact Hrel.
  destruct (input_then_output s4 _ m r i4 t Him4) as (s5 & g5 & m5 & i5 & ps & E5 & Him5 & _ & Hc & Hj & Hout5);
    [by rewrite Hin4|done..|].
  exists s5, g5, m5, i5, ps. split_and!; [exact E5|exact Him5|done|done|].
  rewrite Hout5, Hout4. by rewrite <- app_assoc.
Qed.

(** Polling button C prints the output file as soon as the RELEASE bit of
    button A is set, half a second after the press and while C is still held:
    the long press that processes the data cannot be reached then. *)
Theorem pollButtonC_looks_at_A (s : St) g m r i (f := output (_fs g)) :
  image s g m r i → io_irqs i = [] → held g C_PRESS C_RELEASE = true →
  Z.land (button_status g) A_RELEASE ≠ 0%Z →
  (0 ≤ f_start f ≤ f_end f)%Z → (f_end f ≤ 32768)%Z →
  Z.to_nat (f_end f - f_start f) < rounds → Forall (λ c, c ≠ 0%Z) (contents m f) →
  ∃ s' i' ps, pollButtonC fuel rounds junk s = Ok (tt, s') ∧
    image s' (set_hold 1 g) m r i' ∧ mjoin ps = contents m f ∧
    io_out i' = io_out i ++ [(crlf ++ str "output_data" ++ crlf, []);
                             (str "file size: %d" ++ crlf, [(f_end f - f_start f)%Z])] ++ printed ps.
Proof.
  intros Him Hirq Hst HA Hf He Hk Hnz. unfold pollButtonC.
  destruct (image_mod s _ _ _ _ (set_hold 0) Him) as (s0 & E0 & Hb0 & Him0). run E0.
  cbn [pollC_loop].
  destruct (held_test s0 _ m r i C_PRESS C_RELEASE Him0 Hirq) as (s2 & Hb2 & Him2 & E2).
  rewrite E2. change (held (set_hold 0 g) C_PRESS C_RELEASE) with (held g C_PRESS C_RELEASE).
  rewrite Hst. destruct (hold_round s2 _ m r i Him2) as (s3 & Hb3 & Him3 & E3). rewrite E3.
  cbn [set_hold buttonHoldCount] in *. rewrite u8_small in * by (unfold is_u8; lia).
  rewrite bool_decide_false by lia. set (i3 := set_bits i _ _) in *.
  assert (io_irq i3 = (0, i3)) as Hi3 by (unfold io_irq, i3; simpl; by rewrite Hirq).
  destruct (read_status_quiet s3 _ m r i3 Him3) as (s4 & E4 & Hb4 & Him4); [by rewrite Hi3|].
  rewrite Hi3 in Him4. cbn [snd] in Him4. run E4. cbn [set_hold button_status].
  rewrite bool_decide_true by done.
  destruct (output_datastream_spec fuel Hfuel rounds s4 _ _ r i3 Output Him4)
    as (s5 & ps & i5 & E5 & _ & Hj & Hout5 & _ & _ & _ & Him5); [done..|]. run E5.
  destruct (image_op _ _ _ _ _ _ _ _ Him5 (ready_op _)) as (s6 & E6 & Hb6 & Him6).
  eexists s6, _, ps. split; [exact E6|]. split; [exact Him6|]. split; [done|].
  cbn [set_bits port_step set_gpio io_out fst snd]. by rewrite Hout5.
Qed.
End Poll.

(** ** Witnesses *)

Definition status_ctl (st : Z) : ctl := set_status st demo_ctl.

Lemma button_status_tracks_witness :
  ∃ s', A_press (demo_state demo_ctl demo_io) = Ok (tt, s') ∧
        Z.testbit (button_status (fw_glob s')) 0 = true ∧
        Z.testbit (button_status (fw_glob s')) 1 = true.
Proof.
  eexists. split; [reflexivity|].
  destruct (button_status_tracks (D := hw (fram * unit)) true false false false
    (mk_fw demo_buttons (status_ctl 3)
       (demo_hw (formatted blank) (io_print (str "A_press" ++ crlf) [] demo_io))))
    as (Hp & Hr & _); [|exact (conj Hp Hr)].
  apply (reach_A_press false false false (demo_state demo_ctl demo_io)); [by constructor|reflexivity].
Defined.

Lemma pollButtonA_idle_witness :
  ∃ s', pollButtonA 1000 10 (demo_state (status_ctl 3) demo_io) = Ok (tt, s').
Proof.
  destruct (pollButtonA_idle (D := hw (fram * unit)) (B := fram * unit) 1000 10 _ _ _ _ _
    (demo_image (status_ctl 3) demo_io)) as (s' & E & _); [done|done|].
  exists s'. exact E.
Defined.

Lemma pollButtonA_hold_formats_witness :
  ∃ s', pollButtonA 1000 10 (demo_state (status_ctl 1) demo_io) = Ok (tt, s').
Proof.
  destruct (pollButtonA_hold_formats (D := hw (fram * unit)) (B := fram * unit) 1000 demo_fuel 10
    _ _ _ _ _ (demo_image (status_ctl 1) demo_io)) as (s' & i' & E & _); [done|done|].
  exists s'. exact E.
Defined.

(** Button A is down, and released during the first wait. *)
Definition click_io : io := mk_io ∅ [] (Some <$> demo_text) [9; 9]%Z [0; 0; 1].

Definition click_state : fw callback ctl (hw (fram * unit)) :=
  mk_fw (mk_buttons A_release_fn A_press_fn C_release_fn C_press_fn 1) (status_ctl 1)
        (demo_hw (formatted blank) click_io).

Lemma click_image : image (B := fram * unit) click_state (status_ctl 1) (formatted blank) tt click_io.
Proof. split; [done|]. apply (demo_image (status_ctl 1) click_io). Defined.

Lemma pollButtonA_click_reads_witness :
  ∃ s', pollButtonA 1000 10 click_state = Ok (tt, s').
Proof.
  destruct (pollButtonA_click_reads (D := hw (fram * unit)) (B := fram * unit) 1000 demo_fuel 10
    _ _ _ _ _ demo_text 9 click_image) as (s' & g' & m' & i' & ps & E & _);
    [done|done|done|done|done|exact demo_text_bytes|done|done|done|simpl; lia|simpl; lia|simpl; lia|].
  exists s'. exact E.
Defined.

Lemma pollButtonC_looks_at_A_witness :
  ∃ s', pollButtonC 1000 10 (λ _, 0%Z) (demo_state (status_ctl 6) demo_io) = Ok (tt, s').
Proof.
  destruct (pollButtonC_looks_at_A (D := hw (fram * unit)) (B := fram * unit) 1000 demo_fuel 10
    (λ _, 0%Z) _ _ _ _ _ (demo_image (status_ctl 6) demo_io)) as (s' & i' & ps & E & _);
    [done|done|done|simpl; lia|simpl; lia|simpl; lia|by simpl|].
  exists s'. exact E.
Defined.
