(* ===== verification/ControllerJobs.v ===== *)
(** * Distributing jobs

    What [processData] and its parts do on a bus with the storage chip and
    other devices that may or may not answer to the addresses of workers. *)

From S2P Require Import Prelude Avr Board I2cMaster I2cWire Fram Stations Store Leds Buttons.
From S2P Require Import Controller ControllerFiles.
From stdpp Require Import strings gmap.
Import I2c Leds Buttons Controller.

(** The addresses from 0x20 on. *)
Definition addresses (n : nat) : list Z := (λ k, (0x20 + Z.of_nat k)%Z) <$> seq 0 n.

Lemma addresses_S n : addresses (S n) = addresses n ++ [(0x20 + Z.of_nat n)%Z].
Proof. unfold addresses. by rewrite seq_S, fmap_app. Qed.

(** Storing the next address extends the list of addresses found. *)
Lemma store_next k (w : list Z) : k < length w → take k w = addresses k →
  Prelude.store w k (0x20 + Z.of_nat k)%Z = Ok (<[k := (0x20 + Z.of_nat k)%Z]> w) ∧
  take (S k) (<[k := (0x20 + Z.of_nat k)%Z]> w) = addresses (S k).
Proof.
  intros Hk Ht. rewrite store_Ok by lia. split; [done|].
  rewrite addresses_S, (take_S_r _ _ (0x20 + Z.of_nat k)%Z)
    by (apply list_lookup_insert_eq; lia).
  by rewrite take_insert_ge, Ht by lia.
Qed.

Section Jobs.
Context {B2 : Type} `{!I2cBus B2, !Quiet B2, !Stations B2}.
Context `{!Mcu D} `{!Board D (fram * B2)}.
Context (fuel : nat) (Hfuel : latency (D := D) (B := fram * B2) * 257 + 256 < fuel).
Context (rounds : nat) (junk : nat → Z).

Abbreviation St := (fw callback ctl D).

(** ** Scanning for workers *)

Lemma same_idle (q : B2) : same (q_idle q) q.
Proof. destruct (start_law q) as [_ S]. by rewrite q_start in S. Qed.

(** One probe: the answer, and the devices as before. *)
Lemma probe_image (s : St) g m (r : B2) i a :
  image (B := fram * B2) s g m r i → (0x20 ≤ a < 0x50)%Z →
  ∃ s' r', on_hw (i2c_start_timeout fuel (u8 (Z.lor (Z.shiftl a 1) I2C_READ)) 10) s
        = Ok (if ans r a then 0%Z else 1%Z, s') ∧
    fw_btn s' = fw_btn s ∧ image (B := fram * B2) s' g m r' i ∧ same r' r.
Proof.
  intros [Hg ([l [f q] i0] & HR & Hwf & Hm & Hr & Hi)] Ha. simpl in Hm, Hr, Hi. subst.
  destruct (probe fuel Hfuel _ _ a HR Ha) as (d' & [l' [f' q'] i'] & E & HR' & [Sf Sq] & Hi').
  cbn [w_bus w_io fst snd same fram_stations] in *.
  assert (ans (f, q) a = ans (q_idle q) a) as Ea.
  { rewrite same_idle. cbn [ans prod_stations fram_stations fst snd].
    by rewrite bool_decide_false by (unfold MB85RC_DEFAULT_ADDRESS; lia). }
  rewrite Ea in E. eexists _, (q_idle q'). split; [by apply on_hw_Ok|]. split; [done|]. split.
  - split; [done|]. eexists. split; [exact HR'|]. cbn [w_bus w_io]. split_and!; [|done..].
    cbn [st_wf chip_storage fst] in *. by rewrite Sf.
  - by rewrite !same_idle.
Qed.

(** One step of the scan: an address that answers is recorded. *)
Lemma scan_step c k (w : list Z) (s : St) g m (r : B2) i :
  image (B := fram * B2) s g m r i → k < 16 → ans r (0x20 + Z.of_nat k) = true →
  ∃ s' r' i', image (B := fram * B2) s' g m r' i' ∧ same r' r ∧
    scan_loop fuel (S c) (0x20 + Z.of_nat k) (Z.of_nat k) w s =
    match Prelude.store w k (0x20 + Z.of_nat k)%Z with
    | Ok w' => scan_loop fuel c (0x20 + Z.of_nat (S k)) (Z.of_nat (S k)) w' s'
    | Err e => Err e
    end.
Proof.
  intros Him Hk Ha. cbn [scan_loop].
  destruct (probe_image s g m r i (0x20 + Z.of_nat k) Him ltac:(lia)) as (s1 & r1 & E1 & _ & Him1 & Hs1).
  rewrite Ha in E1. run E1. rewrite bool_decide_true by done.
  destruct (image_op (B := fram * B2) _ _ _ _ _ _ _ _ Him1
    (print_op (str "address %hhx in use; trying next address." ++ crlf) [(0x20 + Z.of_nat k)%Z] i))
    as (s2 & E2 & _ & Him2). run E2.
  eexists s2, r1, _. split; [exact Him2|]. split; [done|]. rewrite Nat2Z.id.
  destruct (Prelude.store w k _) as [w'|e]; [|done]. rewrite io_bind_pure.
  rewrite !u8_small by (unfold is_u8; lia). f_equal; lia.
Qed.

(** The scan from the [k]-th address on, when the first [n] answer. *)
Lemma scan_loop_spec c : ∀ k n (w : list Z) (s : St) g m (r : B2) i,
  image (B := fram * B2) s g m r i → k ≤ n → n ≤ length w ≤ 10 → n - k < c →
  take k w = addresses k → (∀ a, a < n → ans r (0x20 + Z.of_nat a) = true) →
  ans r (0x20 + Z.of_nat n) = false →
  ∃ s' w' r' i', scan_loop fuel c (0x20 + Z.of_nat k) (Z.of_nat k) w s
      = Ok ((Z.of_nat n, w'), s') ∧
    take n w' = addresses n ∧ length w' = length w ∧
    image (B := fram * B2) s' g m r' i' ∧ same r' r.
Proof.
  induction c as [|c IH]; intros k n w s g m r i Him Hkn Hn Hc Ht Ha Hno; [lia|].
  destruct (decide (k = n)) as [->|Hne].
  - cbn [scan_loop].
    destruct (probe_image s g m r i (0x20 + Z.of_nat n) Him ltac:(lia)) as (s1 & r1 & E1 & _ & Him1 & Hs1).
    rewrite Hno in E1. run E1. exists s1, w, r1, i. by split_and!.
  - destruct (scan_step c k w s g m r i Him ltac:(lia) (Ha k ltac:(lia)))
      as (s1 & r1 & i1 & Him1 & Hs1 & ->).
    destruct (store_next k w ltac:(lia) Ht) as [-> Ht'].
    destruct (IH (S k) n (<[k := (0x20 + Z.of_nat k)%Z]> w) s1 g m r1 i1 Him1)
      as (s' & w' & r' & i' & E & Hw' & Hl' & Him' & Hs');
      [lia|rewrite length_insert; lia|lia|done|intros a Hlt; rewrite Hs1; by apply Ha|by rewrite Hs1|].
    exists s', w', r', i'. split_and!; [done|done|by rewrite Hl', length_insert|done|by rewrite Hs'].
Qed.

(** A row of workers longer than the array. *)
Lemma scan_loop_overflow c : ∀ k (w : list Z) (s : St) g m (r : B2) i,
  image (B := fram * B2) s g m r i → k ≤ length w ≤ 10 → length w - k < c →
  (∀ a, a ≤ length w → ans r (0x20 + Z.of_nat a) = true) →
  scan_loop fuel c (0x20 + Z.of_nat k) (Z.of_nat k) w s = Err OutOfBounds.
Proof.
  induction c as [|c IH]; intros k w s g m r i Him Hk Hc Ha; [lia|].
  destruct (scan_step c k w s g m r i Him ltac:(lia) (Ha k ltac:(lia))) as (s1 & r1 & i1 & Him1 & Hs1 & ->).
  destruct (decide (k = length w)) as [->|Hne].
  - by rewrite store_OutOfBounds by lia.
  - rewrite store_Ok by lia. apply (IH (S k) (<[k := (0x20 + Z.of_nat k)%Z]> w) s1 g m r1 i1 Him1);
      rewrite length_insert; [lia|lia|]. intros a Hl. rewrite Hs1. by apply Ha.
Qed.

(** [scan_i2c] finds the workers at consecutive addresses from 0x20 on and
    leaves the storage and the devices alone. *)
Theorem scan_finds_workers n (s : St) g m (r : B2) i :
  image (B := fram * B2) s g m r i → n ≤ 10 → n < rounds →
  (∀ a, a < n → ans r (0x20 + Z.of_nat a) = true) → ans r (0x20 + Z.of_nat n) = false →
  ∃ s' w' r' i', scan_i2c fuel rounds (junk <$> seq 0 10) s = Ok ((Z.of_nat n, w'), s') ∧
    take n w' = addresses n ∧ image (B := fram * B2) s' g m r' i' ∧ same r' r.
Proof.
  intros Him Hn Hr Ha Hno.
  destruct (scan_loop_spec rounds 0 n (junk <$> seq 0 10) s g m r i Him)
    as (s' & w' & r' & i' & E & Hw & _ & Him' & Hs'); [lia|simpl; lia|lia|done|done|done|].
  by exists s', w', r', i'.
Qed.

(** With eleven workers the array of their addresses overflows. *)
Theorem scan_eleven_workers (s : St) g m (r : B2) i :
  image (B := fram * B2) s g m r i → 10 < rounds →
  (∀ a, a ≤ 10 → ans r (0x20 + Z.of_nat a) = true) →
  scan_i2c fuel rounds (junk <$> seq 0 10) s = Err OutOfBounds.
Proof.
  intros Him Hr Ha.
  apply (scan_loop_overflow rounds 0 (junk <$> seq 0 10) s g m r i Him); simpl; [lia|lia|done].
Qed.

(** ** The job and its blocks *)

Lemma count_encode (s : St) g m (r : B2) i (f := input (_fs g)) :
  image (B := fram * B2) s g m r i → is_u16 (f_start f) → is_u16 (f_end f) →
  count_blocks fuel junk ENCODE s
  = Ok (if decide (f_end f = f_start f) then 0%Z else 1%Z, s).
Proof.
  intros Him Hs He. unfold count_blocks. run (image_file s _ _ _ _ Input Him).
  change (file_of Input (_fs g)) with f. rewrite bool_decide_true by done.
  unfold is_u16 in *. set (len := u16 (f_end f - f_start f)).
  assert (is_u16 len) as Hlen by apply u16_range.
  assert (f_end f = f_start f ↔ len = 0%Z) as Heq.
  { unfold len, u16. split; [intros ->; by rewrite Z.sub_diag|].
    intros Hz. apply Z.mod_divide in Hz as [k Hk]; lia. }
  unfold BLOCK_SIZE. destruct (decide (f_end f = f_start f)) as [E|E].
  - rewrite (proj1 Heq E). done.
  - rewrite bool_decide_true; [done|]. unfold is_u16 in Hlen.
    assert (len ≠ 0%Z) by (rewrite <- Heq; done).
    pose proof (Z.div_mod len 128). pose proof (Z.mod_pos_bound len 128).
    pose proof (Z.div_pos len 128). lia.
Qed.

(** The number of blocks of a compression job is never more than one: the
    conditional expression takes the sum as its condition. *)
Theorem count_blocks_at_most_one (s : St) g m (r : B2) i (f := input (_fs g)) :
  image (B := fram * B2) s g m r i → is_u16 (f_start f) → is_u16 (f_end f) →
  count_blocks fuel junk ENCODE s
  = Ok (if decide (f_end f = f_start f) then 0%Z else 1%Z, s).
Proof. exact (count_encode s g m r i). Qed.

Lemma choose_encode (s : St) g m (r : B2) i (f := input (_fs g)) (o := output (_fs g)) :
  image (B := fram * B2) s g m r i → in_range (f_start f) 1 → in_range (f_start o) 1 →
  m !! Z.to_nat (f_start f) = Some 42%Z →
  ∃ s', choose_job fuel s = Ok (ENCODE, s') ∧
    image (B := fram * B2) s' (with_end Output (u16 (f_end o + 1)) g)
      (<[Z.to_nat (f_start o) := 35%Z]> m) r i.
Proof.
  intros Him Hf Ho Hm. unfold choose_job. run (image_file s _ _ _ _ Input Him).
  change (file_of Input (_fs g)) with f.
  destruct (image_read (B := fram * B2) fuel Hfuel s _ _ _ _ (f_start f) [0%Z] 0 1 Him Hf)
    as (s1 & E1 & _ & Him1); [lia|simpl; lia|]. run E1.
  rewrite (drop_S _ _ _ Hm). change (Z.to_nat 1) with 1. rewrite firstn_cons, take_0.
  change (load (write_at [0%Z] 0 [42%Z]) 0) with (Ok 42%Z). rewrite io_bind_pure, bool_decide_true by done.
  run (image_file s1 _ _ _ _ Output Him1). change (file_of Output (_fs g)) with o.
  destruct (image_write (B := fram * B2) fuel Hfuel s1 _ _ _ _ (f_start o) [35%Z] 0 1 Him1 Ho)
    as (s2 & E2 & _ & Him2); [simpl; lia|repeat constructor; unfold is_u8; lia|]. run E2.
  run (image_file s2 _ _ _ _ Output Him2). change (file_of Output (_fs g)) with o.
  destruct (image_mod (B := fram * B2) s2 _ _ _ _ (with_end Output (u16 (f_end o + 1))) Him2)
    as (s3 & E3 & _ & Him3).
  exists s3. run (E3 : set_end _ _ _ = _). by split.
Qed.

(** C29: without a worker on the bus [processData] never returns: it sets up the
    job, the scan ends with no worker, there is one block to do, and the loop over
    the blocks goes on for ever, since a round over no workers changes nothing.
    The storage holds the mark of the output file and nothing else is new. *)
Theorem processData_no_worker_hangs (s : St) g m (r : B2) i
    (f := input (_fs g)) (o := output (_fs g)) :
  image (B := fram * B2) s g m r i → in_range (f_start f) 1 → in_range (f_start o) 1 →
  m !! Z.to_nat (f_start f) = Some 42%Z → is_u16 (f_end f) → f_end f ≠ f_start f →
  ans r 0x20 = false → 0 < rounds →
  ∃ s1 s2 w r2 i2,
    choose_job fuel s = Ok (ENCODE, s1) ∧
    scan_i2c fuel rounds (junk <$> seq 0 10) s1 = Ok ((0%Z, w), s2) ∧
    count_blocks fuel junk ENCODE s2 = Ok (1%Z, s2) ∧
    image (B := fram * B2) s2 (with_end Output (u16 (f_end o + 1)) g) (<[Z.to_nat (f_start o) := 35%Z]> m) r2 i2 ∧
    (∀ k irp, jobs_loop fuel k w 0 ENCODE 1 (0%Z, irp) s2 = Err NoFuel) ∧
    processData fuel rounds junk s = Err NoFuel.
Proof.
  intros Him Hf Ho Hm He Hne Hno Hr. unfold processData.
  destruct (choose_encode s g m r i Him Hf Ho Hm) as (s1 & E1 & Him1). run E1.
  destruct (scan_loop_spec rounds 0 0 (junk <$> seq 0 10) s1 _ _ r i Him1)
    as (s2 & w & r2 & i2 & E2 & _ & _ & Him2 & _); [lia|simpl; lia|lia|done|lia|done|].
  run (E2 : scan_i2c fuel rounds _ _ = _).
  assert (count_blocks fuel junk ENCODE s2 = Ok (1%Z, s2)) as E3.
  { rewrite (count_encode s2 _ _ r2 i2 Him2); change (input _) with f;
      [by rewrite decide_False|unfold in_range, is_u16 in *; lia|done]. }
  assert (∀ k irp, jobs_loop fuel k w 0 ENCODE 1 (0%Z, irp) s2 = Err NoFuel) as Hloop.
  { clear. intros k irp. induction k as [|k IH]; [done|].
    cbn [jobs_loop fst]. rewrite bool_decide_true by done. exact IH. }
  exists s1, s2, w, r2, i2. split_and!; [done..|].
  run E3. run (image_file s2 _ _ _ _ Input Him2). apply Hloop.
Qed.

(** A worker that is ready when the whole input has been sent gets a job
    of no bytes, whose read from the storage overruns [out_buffer]. *)
Theorem send_job_overruns (s : St) g m (r : B2) i dev block (f := input (_fs g)) :
  image (B := fram * B2) s g m r i → length (out_buffer g) = 256 → in_range (f_end f) 1 →
  send_job fuel dev ENCODE block (f_end f) s = Err OutOfBounds.
Proof.
  intros Him Hob Hr. unfold send_job. run (image_glob s _ _ _ _ Him).
  rewrite store_Ok, io_bind_pure by lia.
  destruct (image_mod (B := fram * B2) s _ _ _ _ (set_out (<[0 := u8 (Z.lor (Z.shiftl block 1) ENCODE)]>
    (out_buffer g))) Him) as (s1 & E1 & _ & Him1). run E1. rewrite bool_decide_true by done.
  run (image_file s1 _ _ _ _ Input Him1). change (file_of Input _) with f.
  rewrite Z.sub_diag. change (u16 0) with 0%Z. rewrite bool_decide_false by (unfold BLOCK_SIZE; lia).
  change (u8 0) with 0%Z. rewrite store_Ok, io_bind_pure by (rewrite length_insert; lia).
  set (ob := <[1 := 0%Z]> _).
  destruct (image_mod (B := fram * B2) s1 _ _ _ _ (set_out ob) Him1) as (s2 & E2 & _ & Him2). run E2.
  apply io_bind_Err, (image_read_zero (B := fram * B2) fuel Hfuel s2 _ _ _ _ _ ob 2 Him2 Hr);
    unfold ob; rewrite !length_insert; lia.
Qed.
End Jobs.

(** ** Witnesses: devices that answer to a list of addresses and are silent
    otherwise *)

Record stations := mk_stations { ids : list Z }.

#[export] Instance stations_bus : I2cBus stations := {|
  bus_start q := (true, q);
  bus_addr a q := (bool_decide ((a `div` 2)%Z ∈ ids q) && bool_decide (a `div` 2 < 0x50)%Z, q);
  bus_put _ q := (false, q);
  bus_get _ q := (255%Z, q);
  bus_stop q := q |}.

#[export] Program Instance stations_quiet : Quiet stations := {| q_idle q := q |}.
Next Obligation. done. Qed.
Next Obligation. intros q a [-> | ->]; simpl; by rewrite andb_false_r. Qed.
Next Obligation. done. Qed.
Next Obligation. done. Qed.
Next Obligation. done. Qed.
Next Obligation. done. Qed.

#[export] Instance stations_ans : Stations stations.
Proof.
  refine {| same := eq; ans q a := bool_decide (a ∈ ids q) |}; [done|done|].
  intros q a Ha. exists q. simpl. split; [|done]. replace ((2 * a + 1) `div` 2)%Z with a.
  - rewrite (bool_decide_true (a < 0x50)%Z) by lia. by rewrite andb_true_r.
  - Z.to_euclidean_division_equations. lia.
Defined.

(** The memory with the text "*A" in the input file. *)
Definition job_mem : list Z := write_at (formatted blank) 8 [42; 65]%Z.

Definition job_ctl : ctl := with_end Input 10 demo_ctl.

Definition job_state (l : list Z) : fw callback ctl (hw (fram * stations)) :=
  mk_fw demo_buttons job_ctl
    (mk_hw (mk_twi Released TW_NO_INFO 0 false false 0 (mk_fram job_mem 0 FIdle, mk_stations l))
           demo_io).

Lemma job_image l :
  image (B := fram * stations) (job_state l) job_ctl job_mem (mk_stations l) demo_io.
Proof.
  split; [done|]. exists (mk_wire Released (mk_fram job_mem 0 FIdle, mk_stations l) demo_io).
  split; [done|]. split; [|done]. destruct formatted_blank as [Hl Hu].
  split; cbn [w_bus fst f_mem]; unfold job_mem.
  - by rewrite length_write_at.
  - apply Forall_write_at; [done|]. repeat constructor; unfold is_u8; lia.
Defined.

Lemma job_fuel : latency (D := hw (fram * stations)) (B := fram * stations) * 257 + 256 < 1000.
Proof. simpl. lia. Defined.

Lemma job_first : job_mem !! 8 = Some 42%Z.
Proof.
  apply (lookup_write_at_in (formatted blank) 8 [42; 65]%Z 0); [|cbn [length]; lia].
  rewrite (proj1 formatted_blank). pose proof FRAM_SIZE_Z. cbn [length]. lia.
Defined.

Lemma job_range_8 : in_range 8 1.
Proof. unfold in_range. lia. Defined.

Lemma job_range_out : in_range 16004 1.
Proof. unfold in_range. lia. Defined.

Lemma scan_finds_workers_witness :
  ∃ s' w', scan_i2c 1000 20 ((λ _, 0%Z) <$> seq 0 10) (job_state [0x20; 0x21]%Z) = Ok ((2%Z, w'), s').
Proof.
  destruct (scan_finds_workers (D := hw (fram * stations)) 1000 job_fuel 20 (λ _, 0%Z) 2 _ _ _ _ _
    (job_image [0x20; 0x21]%Z)) as (s' & w' & r' & i' & E & _);
    [lia|lia|by intros [|[|a]] Ha; [..|lia]|done|].
  exists s', w'. exact E.
Defined.

Lemma scan_eleven_workers_witness :
  scan_i2c 1000 20 ((λ _, 0%Z) <$> seq 0 10) (job_state (addresses 11)) = Err OutOfBounds.
Proof.
  apply (scan_eleven_workers (D := hw (fram * stations)) 1000 job_fuel 20 (λ _, 0%Z) _ _ _ _ _
    (job_image (addresses 11))); [lia|].
  intros a Ha. do 11 (destruct a as [|a]; [done|]). lia.
Defined.

Lemma count_blocks_at_most_one_witness :
  ∃ s', count_blocks 1000 (λ _, 0%Z) ENCODE (job_state []) = Ok (1%Z, s').
Proof.
  exists (job_state []).
  exact (count_blocks_at_most_one (D := hw (fram * stations)) 1000 job_fuel (λ _, 0%Z) _ _ _ _ _
    (job_image []) ltac:(unfold is_u16; simpl; lia) ltac:(unfold is_u16; simpl; lia)).
Defined.

Lemma processData_no_worker_hangs_witness :
  ∃ s1 s2 w r2 i2,
    choose_job 1000 (job_state []) = Ok (ENCODE, s1) ∧
    scan_i2c 1000 500 ((λ _, 0%Z) <$> seq 0 10) s1 = Ok ((0%Z, w), s2) ∧
    count_blocks 1000 (λ _, 0%Z) ENCODE s2 = Ok (1%Z, s2) ∧
    image (B := fram * stations) s2 (with_end Output 16005 job_ctl) (<[Z.to_nat 16004 := 35%Z]> job_mem) r2 i2 ∧
    (∀ k irp, jobs_loop 1000 k w 0 ENCODE 1 (0%Z, irp) s2 = Err NoFuel) ∧
    processData 1000 500 (λ _, 0%Z) (job_state []) = Err NoFuel.
Proof.
  exact (processData_no_worker_hangs (D := hw (fram * stations)) 1000 job_fuel 500 (λ _, 0%Z)
    _ _ _ _ _ (job_image []) job_range_8 job_range_out job_first ltac:(unfold is_u16; simpl; lia)
    ltac:(done) eq_refl ltac:(lia)).
Defined.

Lemma send_job_overruns_witness :
  send_job 1000 0x20 ENCODE 1 10 (job_state []) = Err OutOfBounds.
Proof.
  apply (send_job_overruns (D := hw (fram * stations)) 1000 job_fuel _ _ _ _ _ 0x20 1
    (job_image [])); [done|unfold in_range; simpl; lia].
Defined.
