(* ===== verification/Slave.v ===== *)
(** * The worker image

    Translation of [slave/i2c_slave.c] and [slave/main.c]: the interrupt
    routine of the two-wire unit in slave mode, which runs the jobs, and the
    choice of the worker's own address. *)

From S2P Require Import Prelude HuffmanMem Avr Board I2cMaster Leds Buttons Controller.
From stdpp Require Import strings.
Import I2c Leds Buttons.

Module Slave.

Definition TW_SR_SLA_ACK : Z := 0x60.
Definition TW_SR_DATA_ACK : Z := 0x80.
Definition TW_ST_DATA_ACK : Z := 0xB8.

(** The globals of the image. *)
Record slv := mk_slv {
  buffer_address : Z;
  in_buffer : list Z;
  out_buffer : list Z;
  workerID : Z }.

Inductive callback := EmptyFunction | A_release_fn.

Section Code.
Context `{Mcu D} (fuel rounds : nat).
Context (junk_node : nat → Huffman.node_t) (junk_queue : nat → Huffman.queue_t)
        (junk_info : nat → Huffman.encoding_info_t).

Abbreviation St := (fw callback slv D).

Definition mod_slv (f : slv → slv) : IO St unit := g ← get_glob; set_glob (f g).

Definition set_address (x : Z) (g : slv) : slv :=
  mk_slv x (in_buffer g) (out_buffer g) (workerID g).
Definition set_in (x : list Z) (g : slv) : slv :=
  mk_slv (buffer_address g) x (out_buffer g) (workerID g).
Definition set_out (x : list Z) (g : slv) : slv :=
  mk_slv (buffer_address g) (in_buffer g) x (workerID g).
Definition set_worker (x : Z) (g : slv) : slv :=
  mk_slv (buffer_address g) (in_buffer g) (out_buffer g) x.

(** ** [i2c_slave.c] *)

Definition i2c_slave_init (address : Z) : IO St unit :=
  on_hw (write TWAR (Z.shiftl address 1));;
  on_hw (write TWCR (Z.lor (Z.lor (Z.lor (bit TWIE) (bit TWEA)) (bit TWINT)) (bit TWEN))).

Definition i2c_slave_stop : IO St unit :=
  on_hw (and_reg TWCR (Z.ldiff 255 (Z.lor (bit TWEA) (bit TWEN)))).

(** [TWCR |= (1<<TWIE) | (1<<TWINT) | (1<<TWEA) | (1<<TWEN)] *)
Definition acknowledge : IO St unit :=
  on_hw (or_reg TWCR (Z.lor (Z.lor (Z.lor (bit TWIE) (bit TWINT)) (bit TWEA)) (bit TWEN))).

(** The job in [in_buffer], its result in [out_buffer]; the pointers
    [&in_buffer[2]] and [&out_buffer[2]] leave 254 bytes of each object. *)
Definition process_job : IO St unit :=
  mod_slv (set_out (replicate 256 0%Z));;
  g ← get_glob;
  in0 ← pure (load (in_buffer g) 0);
  in1 ← pure (load (in_buffer g) 1);
  let seq_num := u8 (Z.shiftr in0 2) in
  let job := Z.land (bit JOB_BIT) in0 in
  out ← (if bool_decide (ENCODE = Z.land job ENCODE) then
           pure (Huffman.huffman_compress junk_node junk_queue junk_info
                   (drop 2 (in_buffer g)) in1 (drop 2 (out_buffer g)))
         else
           '(o, _) ← pure (Huffman.huffman_inflate junk_node junk_queue junk_info
                             (drop 2 (in_buffer g)) in1 (drop 2 (out_buffer g)));
           mret o);
  n ← pure (Controller.strlen out);
  mod_slv (set_out (u8 (Z.lor (Z.lor (Z.shiftl seq_num 2) job) I2C_READY) :: u8 n :: out)).

Definition receive_byte : IO St unit :=
  data ← on_hw (read TWDR);
  g ← get_glob;
  (if bool_decide (0xFF%Z = buffer_address g) then
     mod_slv (set_address data);; acknowledge
   else
     ib ← pure (store (in_buffer g) (Z.to_nat (buffer_address g)) data);
     mod_slv (set_in ib);;
     mod_slv (set_address (u8 (buffer_address g + 1)));;
     if bool_decide (u8 (buffer_address g + 1) < 0xFF)%Z then acknowledge
     else
       on_hw (and_reg TWCR (Z.ldiff 255 (bit TWEA)));;
       on_hw (or_reg TWCR (Z.lor (Z.lor (bit TWIE) (bit TWINT)) (bit TWEN))));;
  process_job.

Definition send_byte : IO St unit :=
  data ← on_hw (read TWDR);
  g ← get_glob;
  (if bool_decide (buffer_address g = 0xFF%Z) then mod_slv (set_address data) else mret tt);;
  g ← get_glob;
  x ← pure (load (out_buffer g) (Z.to_nat (buffer_address g)));
  on_hw (write TWDR x);;
  mod_slv (set_address (u8 (buffer_address g + 1)));;
  if bool_decide (u8 (buffer_address g + 1) < 0xFF)%Z then acknowledge
  else
    on_hw (and_reg TWCR (Z.ldiff 255 (bit TWEA)));;
    on_hw (or_reg TWCR (Z.lor (Z.lor (bit TWEA) (bit TWEN)) (bit TWIE))).

Definition TWI_vect : IO St unit :=
  s1 ← on_hw (read TWSR);
  if bool_decide (TW_SR_SLA_ACK = Z.land s1 0xF8) then
    mod_slv (set_address 0xFF);; acknowledge
  else
    s2 ← on_hw (read TWSR);
    if bool_decide (TW_SR_DATA_ACK = Z.land s2 0xF8) then receive_byte
    else
      s3 ← on_hw (read TWSR);
      if bool_decide (TW_ST_DATA_ACK = Z.land s3 0xF8) then send_byte
      else on_hw (or_reg TWCR (Z.lor (Z.lor (bit TWEA) (bit TWEN)) (bit TWIE))).

(** [format_storage] of the worker's copy of the master library: the output
    file starts four bytes before the one of the controller's copy (called
    nowhere). *)
Definition format_storage (devaddr : Z) : IO St unit :=
  on_hw (format_loop fuel (Z.to_nat 8000) 0 devaddr);;
  on_hw (i2c_writeReg fuel devaddr 0 (le16 [8; 8; 16000; 16000]%Z) 0 8);;
  mret tt.

(** ** [main.c] *)

Fixpoint address_loop (k : nat) : IO St unit :=
  match k with
  | O => fail NoFuel
  | S k' =>
      g ← get_glob;
      c ← on_hw (i2c_start_timeout fuel (u8 (Z.lor (Z.shiftl (workerID g) 1) I2C_READ)) 10);
      if bool_decide (c = 0%Z) then
        on_hw (printf (str "address %hhx in use; trying next address." ++ crlf) [workerID g]);;
        mod_slv (set_worker (u8 (workerID g + 1)));;
        address_loop k'
      else mret tt
  end.

Definition auto_address : IO St unit :=
  i2c_slave_stop;;
  on_hw i2c_init;;
  address_loop rounds;;
  g ← get_glob;
  on_hw (printf (str "address %hhx is clear, setting up slave" ++ crlf) [workerID g]);;
  on_hw (i2c_stop fuel);;
  i2c_slave_init (workerID g).

Definition A_release : IO St unit :=
  on_hw busy_light;; auto_address;; on_hw ready_light.

Definition call (f : callback) : IO St unit :=
  match f with EmptyFunction => mret tt | A_release_fn => A_release end.

Definition initialize_i2c : IO St unit :=
  on_hw (or_reg DDRB (bit 4));; on_hw (or_reg PORTB (bit 4)).

Definition initialize_system : IO St unit :=
  on_hw initialize_leds;;
  on_hw usb_setup;;
  initialize_buttons EmptyFunction;;
  SetUpButton _button_A;;
  SetUpButtonAction _button_A 1 A_release_fn;;
  on_hw light_show.

Fixpoint main_loop (n : nat) : IO St unit :=
  match n with O => mret tt | S n' => on_hw usb_task;; main_loop n' end.

(** The program, observed after [n] rounds of its loop; [status = I2C_READY]
    changes the local pointer and not the buffer it pointed to. *)
Definition main (n : nat) : IO St unit :=
  on_hw (write USBCON 0);; initialize_system;; main_loop n.
End Code.

End Slave.
