(* ===== verification/SlaveJobs.v ===== *)
(** * The worker's protocol and its jobs

    [SlaveRegs] are the laws of the two-wire registers in slave mode, where an
    interrupt finds the reason in TWSR and the byte in TWDR.  The theorems say
    what the interrupt routine does with them: which bytes it stores and
    sends, and what becomes of the jobs. *)

From S2P Require Import Prelude HuffmanMem HuffmanSpec HuffmanLib.
From S2P Require Import Avr Board I2cMaster Leds Buttons Controller Slave.
From stdpp Require Import strings.
Import I2c Leds Buttons Slave.

(** ** Only the block is read *)

Lemma for_int_from_ext {S} n : ∀ i (b1 b2 : nat → S → res S) s,
  (∀ j s, i ≤ j < i + n → b1 j s = b2 j s) →
  for_int_from n i b1 s = for_int_from n i b2 s.
Proof.
  induction n as [|n IH]; intros i b1 b2 s Hb; [done|]. cbn [for_int_from].
  rewrite (Hb i s) by lia. destruct (b2 i s) as [s'|e]; [|done]. rewrite !res_bind_Ok.
  case_bool_decide; [done|]. apply IH. intros j s0 Hj. apply Hb. lia.
Qed.

Lemma for_u16_from_ext {S} n : ∀ i (b1 b2 : nat → S → res S) s,
  (∀ j s, i ≤ j < i + n → b1 j s = b2 j s) →
  for_u16_from n i b1 s = for_u16_from n i b2 s.
Proof.
  induction n as [|n IH]; intros i b1 b2 s Hb; [done|]. cbn [for_u16_from].
  rewrite (Hb i s) by lia. destruct (b2 i s) as [s'|e]; [|done]. rewrite !res_bind_Ok.
  apply IH. intros j s0 Hj. apply Hb. lia.
Qed.

Lemma load_take {A} (l : list A) n i : i < n → load (take n l) i = load l i.
Proof. intros Hi. unfold load. by rewrite lookup_take_lt. Qed.

(** Compression reads the first [data_size] bytes of the buffer only. *)
Lemma huffman_compress_take jn jq ji data n out :
  Huffman.huffman_compress jn jq ji data n out =
  Huffman.huffman_compress jn jq ji (take (Z.to_nat n) data) n out.
Proof.
  unfold Huffman.huffman_compress, Huffman.build_queue, Huffman.compress_data, for_int, for_u16.
  rewrite (for_int_from_ext _ _ (Huffman.build_queue_step data)
    (Huffman.build_queue_step (take (Z.to_nat n) data))).
  2: { intros j [hd h] Hj. unfold Huffman.build_queue_step. by rewrite load_take by lia. }
  destruct (for_int_from _ _ _ _) as [[hd h]|e]; [|done]. rewrite !res_bind_Ok.
  destruct (Huffman.build_tree h hd) as [[tree h1]|e]; [|done]. rewrite !res_bind_Ok.
  destruct (Huffman.tree_get_size _ h1 tree) as [sz|e]; [|done]. rewrite !res_bind_Ok.
  destruct (store out 0 (u8 sz)) as [o1|e]; [|done]. rewrite !res_bind_Ok.
  destruct (Huffman.serialize_tree h1 tree o1 3) as [o2|e]; [|done]. rewrite !res_bind_Ok.
  destruct (Huffman.tree_count_leaves _ h1 tree) as [cl|e]; [|done]. rewrite !res_bind_Ok.
  destruct (Huffman.build_encoding_table _ _ _ _ _ _) as [[tab p]|e]; [|done]. rewrite !res_bind_Ok.
  rewrite (for_u16_from_ext _ _ (Huffman.compress_step tab cl data)
    (Huffman.compress_step tab cl (take (Z.to_nat n) data))); [done|].
  intros j [[mem bs] tb] Hj. unfold Huffman.compress_step. by rewrite load_take by lia.
Qed.

(** The header byte of an encoded block repeats the sequence number and the
    job of the request and adds the ready flag. *)
Lemma encode_header hdr : is_u8 hdr → Z.testbit hdr JOB_BIT = true →
  Z.land (Z.land (bit JOB_BIT) hdr) ENCODE = ENCODE ∧
  u8 (Z.lor (Z.lor (Z.shiftl (u8 (Z.shiftr hdr 2)) 2) (Z.land (bit JOB_BIT) hdr)) I2C_READY)
  = Z.lor hdr I2C_READY.
Proof.
  intros Hu. pose proof (Z2Nat.id hdr) as E. unfold is_u8 in Hu.
  assert (Forall (λ n, Z.testbit (Z.of_nat n) JOB_BIT = true →
    Z.land (Z.land (bit JOB_BIT) (Z.of_nat n)) ENCODE = ENCODE ∧
    u8 (Z.lor (Z.lor (Z.shiftl (u8 (Z.shiftr (Z.of_nat n) 2)) 2)
         (Z.land (bit JOB_BIT) (Z.of_nat n))) I2C_READY)
    = Z.lor (Z.of_nat n) I2C_READY) (seq 0 256)) as Hall by by apply (bool_decide_unpack _).
  rewrite list.Forall_forall in Hall. rewrite <- E by lia. apply Hall.
  apply elem_of_seq. lia.
Qed.

(** A block with fewer than 256 code bits has a zero in its second byte. *)
Lemma strlen_block data t blk :
  block_of data t blk → length (encode t data) < 256 → Controller.strlen blk = Ok 1%Z.
Proof.
  intros [Hs Hh _ _ _] Hl. pose proof (size_pos t).
  destruct blk as [|b0 [|b1 blk]]; try discriminate. injection Hs as ->. injection Hh as ->.
  cbn [Controller.strlen]. rewrite bool_decide_false by lia.
  by rewrite Z.div_small, bool_decide_true by lia.
Qed.

(** ** The registers in slave mode *)

(** [sr_ack]: the unit acknowledges the next byte addressed to it. *)
Class SlaveRegs (D : Type) `{Mcu D} := {
  sr_status : D → Z;
  sr_data : D → Z;
  sr_ack : D → bool;
  sr_twsr d v d' : mcu_read TWSR d = (v, d') →
    Z.land v 0xF8 = sr_status d ∧ sr_status d' = sr_status d ∧ sr_data d' = sr_data d ∧
    sr_ack d' = sr_ack d;
  sr_twdr d v d' : mcu_read TWDR d = (v, d') →
    v = sr_data d ∧ sr_status d' = sr_status d ∧ sr_data d' = sr_data d ∧ sr_ack d' = sr_ack d;
  sr_twdr_write d x : is_u8 x →
    sr_status (mcu_write TWDR x d) = sr_status d ∧ sr_data (mcu_write TWDR x d) = x ∧
    sr_ack (mcu_write TWDR x d) = sr_ack d;
  sr_twcr_read d v d' : mcu_read TWCR d = (v, d') →
    Z.testbit v TWEA = sr_ack d ∧ sr_status d' = sr_status d ∧ sr_data d' = sr_data d ∧
    sr_ack d' = sr_ack d;
  sr_twcr_write d x :
    sr_status (mcu_write TWCR x d) = sr_status d ∧ sr_data (mcu_write TWCR x d) = sr_data d ∧
    sr_ack (mcu_write TWCR x d) = Z.testbit x TWEA }.

Section Worker.
Context `{SlaveRegs D}.
Context (jn : nat → Huffman.node_t) (jq : nat → Huffman.queue_t)
        (ji : nat → Huffman.encoding_info_t).

Abbreviation St := (fw callback slv D).

(** [s] shows [st] and [x] in the registers, and has globals [g]; [stands]
    also says whether the next byte is acknowledged. *)
Definition shows (s : St) (g : slv) (st x : Z) : Prop :=
  fw_glob s = g ∧ sr_status (fw_hw s) = st ∧ sr_data (fw_hw s) = x.
Definition stands (s : St) (g : slv) (st x : Z) (k : bool) : Prop :=
  shows s g st x ∧ sr_ack (fw_hw s) = k.

Lemma shows_stands (s : St) g st x : shows s g st x → stands s g st x (sr_ack (fw_hw s)).
Proof. done. Qed.

Lemma twsr_shows (s : St) g st x k : stands s g st x k →
  ∃ v s', on_hw (read TWSR) s = Ok (v, s') ∧ Z.land v 0xF8 = st ∧ stands s' g st x k.
Proof.
  intros ((Hg & Hs & Hd) & Hk). destruct (mcu_read TWSR (fw_hw s)) as [v d'] eqn:E.
  destruct (sr_twsr _ _ _ E) as (Hv & Hs' & Hd' & Hk').
  exists v, (mk_fw (fw_btn s) (fw_glob s) d'). split; [by apply on_hw_Ok; unfold read; rewrite E|].
  split; [congruence|]. unfold stands, shows. by split_and!; simpl; try congruence.
Qed.

Lemma twdr_shows (s : St) g st x k : stands s g st x k →
  ∃ s', on_hw (read TWDR) s = Ok (x, s') ∧ stands s' g st x k.
Proof.
  intros ((Hg & Hs & Hd) & Hk). destruct (mcu_read TWDR (fw_hw s)) as [v d'] eqn:E.
  destruct (sr_twdr _ _ _ E) as (-> & Hs' & Hd' & Hk'). rewrite Hd in *.
  exists (mk_fw (fw_btn s) (fw_glob s) d'). split; [by apply on_hw_Ok; unfold read; rewrite E|].
  unfold stands, shows. by split_and!; simpl; try congruence.
Qed.

Lemma twcr_shows (s : St) g st x k k' f : stands s g st x k →
  (∀ v, Z.testbit v TWEA = k → Z.testbit (u8 (f v)) TWEA = k') →
  ∃ s', on_hw (v ← read TWCR; write TWCR (f v)) s = Ok (tt, s') ∧ stands s' g st x k'.
Proof.
  intros ((Hg & Hs & Hd) & Hk) Hf. destruct (mcu_read TWCR (fw_hw s)) as [v d'] eqn:E.
  destruct (sr_twcr_read _ _ _ E) as (Hv & Hs' & Hd' & Hk').
  destruct (sr_twcr_write d' (u8 (f v))) as (Hs'' & Hd'' & Hk'').
  exists (mk_fw (fw_btn s) (fw_glob s) (mcu_write TWCR (u8 (f v)) d')). split.
  - apply on_hw_Ok. by rewrite (io_bind_Ok (read TWCR) _ _ v d') by (unfold read; by rewrite E).
  - unfold stands, shows. split_and!; simpl; try congruence. rewrite Hk''. apply Hf. congruence.
Qed.

Lemma twea_u8 v : Z.testbit (u8 v) TWEA = Z.testbit v TWEA.
Proof. unfold u8, TWEA. change 256%Z with (2 ^ 8)%Z. apply Z.mod_pow2_bits_low. lia. Qed.

(** [TWCR |= m] and [TWCR &= ~(1 << TWEA)] *)
Lemma or_shows (s : St) g st x k m : stands s g st x k →
  ∃ s', on_hw (or_reg TWCR m) s = Ok (tt, s') ∧ stands s' g st x (k || Z.testbit m TWEA).
Proof.
  intros Hs. apply (twcr_shows s g st x k _ (λ v, Z.lor v m) Hs). intros v Hv.
  by rewrite twea_u8, Z.lor_spec, Hv.
Qed.

Lemma nack_shows (s : St) g st x k : stands s g st x k →
  ∃ s', on_hw (and_reg TWCR (Z.ldiff 255 (bit TWEA))) s = Ok (tt, s') ∧ stands s' g st x false.
Proof.
  intros Hs. apply (twcr_shows s g st x k _ (λ v, Z.land v (Z.ldiff 255 (bit TWEA))) Hs). intros v Hv.
  rewrite twea_u8, Z.land_spec. apply andb_false_r.
Qed.

Lemma ack_shows (s : St) g st x k : stands s g st x k →
  ∃ s', acknowledge s = Ok (tt, s') ∧ stands s' g st x true.
Proof.
  intros Hs. destruct (or_shows _ _ _ _ _ (Z.lor (Z.lor (Z.lor (bit TWIE) (bit TWINT)) (bit TWEA)) (bit TWEN)) Hs)
    as (s' & E & Hs'). exists s'. split; [done|]. by rewrite orb_true_r in Hs'.
Qed.

Lemma mod_shows (s : St) g st x k f : stands s g st x k →
  ∃ s', mod_slv f s = Ok (tt, s') ∧ stands s' (f g) st x k.
Proof.
  intros ((Hg & Hs & Hd) & Hk). exists (mk_fw (fw_btn s) (f g) (fw_hw s)).
  unfold mod_slv, mbind, IO_bind, get_glob, set_glob. rewrite Hg. by split_and!.
Qed.

Lemma get_shows (s : St) g st x k : stands s g st x k → get_glob s = Ok (g, s).
Proof. intros ((Hg & _) & _). unfold get_glob. by rewrite Hg. Qed.

(** ** The job *)

(** What [process_job] makes of the globals. *)
Definition run_job (g : slv) : res slv :=
  in0 ← load (in_buffer g) 0;
  in1 ← load (in_buffer g) 1;
  out ← (if bool_decide (ENCODE = Z.land (Z.land (bit JOB_BIT) in0) ENCODE) then
           Huffman.huffman_compress jn jq ji (drop 2 (in_buffer g)) in1 (replicate 254 0%Z)
         else
           '(o, _) ← Huffman.huffman_inflate jn jq ji (drop 2 (in_buffer g)) in1 (replicate 254 0%Z);
           Ok o);
  n ← Controller.strlen out;
  Ok (set_out (u8 (Z.lor (Z.lor (Z.shiftl (u8 (Z.shiftr in0 2)) 2) (Z.land (bit JOB_BIT) in0))
                         I2C_READY) :: u8 n :: out) g).

Lemma run_job_keeps g g' :
  run_job g = Ok g' → buffer_address g' = buffer_address g ∧ in_buffer g' = in_buffer g.
Proof.
  unfold run_job. intros Hr. apply res_bind_Ok_inv in Hr as (? & _ & Hr).
  apply res_bind_Ok_inv in Hr as (? & _ & Hr). apply res_bind_Ok_inv in Hr as (? & _ & Hr).
  by apply res_bind_Ok_inv in Hr as (? & _ & [= <-]).
Qed.

Lemma process_job_glob (s : St) :
  process_job jn jq ji s =
  match run_job (fw_glob s) with
  | Ok g' => Ok (tt, mk_fw (fw_btn s) g' (fw_hw s))
  | Err e => Err e
  end.
Proof.
  unfold process_job, run_job, mod_slv, mbind, IO_bind, get_glob, set_glob, pure.
  set (g := fw_glob s). cbn [fw_glob fw_btn fw_hw set_out in_buffer out_buffer].
  destruct (load (in_buffer g) 0) as [in0|e]; [|done].
  destruct (load (in_buffer g) 1) as [in1|e]; [|done].
  change (drop 2 (replicate 256 0%Z)) with (replicate 254 0%Z). rewrite !res_bind_Ok.
  case_bool_decide.
  - destruct (Huffman.huffman_compress _ _ _ _ _ _) as [o|e]; [|done]. cbn beta iota delta [res_bind].
    by destruct (Controller.strlen o).
  - destruct (Huffman.huffman_inflate _ _ _ _ _ _) as [[o m]|e]; [|done].
    cbn beta iota delta [res_bind mret IO_ret]. by destruct (Controller.strlen o).
Qed.

Lemma process_job_run (s : St) g st x k : stands s g st x k →
  process_job jn jq ji s =
  match run_job g with
  | Ok g' => Ok (tt, mk_fw (fw_btn s) g' (fw_hw s))
  | Err e => Err e
  end.
Proof. intros ((<- & _ & _) & _). apply process_job_glob. Qed.

(** The globals when a byte [x] was received, before the job runs. *)
Definition take_byte (x : Z) (g : slv) : slv :=
  if bool_decide (0xFF%Z = buffer_address g) then set_address x g
  else set_address (u8 (buffer_address g + 1))
         (set_in (<[Z.to_nat (buffer_address g) := x]> (in_buffer g)) g).

(** There is room for another byte. *)
Definition room (g : slv) : bool :=
  bool_decide (0xFF%Z = buffer_address g) || bool_decide (u8 (buffer_address g + 1) < 0xFF)%Z.

Lemma receive_run (s : St) g st x k :
  stands s g st x k → is_u8 (buffer_address g) → length (in_buffer g) = 256 →
  ∃ s', receive_byte jn jq ji s = process_job jn jq ji s' ∧ stands s' (take_byte x g) st x (room g).
Proof.
  intros Hs Ha Hl. unfold receive_byte, take_byte, room.
  destruct (twdr_shows _ _ _ _ _ Hs) as (s1 & E1 & Hs1). rewrite (io_bind_Ok _ _ _ _ _ E1).
  rewrite (io_bind_Ok _ _ _ _ _ (get_shows _ _ _ _ _ Hs1)). case_bool_decide as Hff.
  - destruct (mod_shows _ _ _ _ _ (set_address x) Hs1) as (s2 & E2 & Hs2).
    destruct (ack_shows _ _ _ _ _ Hs2) as (s3 & E3 & Hs3).
    exists s3. rewrite io_bind_assoc, (io_bind_Ok _ _ _ _ _ E2). by rewrite (io_bind_Ok _ _ _ _ _ E3).
  - unfold is_u8 in Ha. rewrite store_Ok by lia. rewrite io_bind_assoc, io_bind_pure.
    set (ib := <[Z.to_nat (buffer_address g) := x]> (in_buffer g)).
    destruct (mod_shows _ _ _ _ _ (set_in ib) Hs1) as (s2 & E2 & Hs2).
    rewrite io_bind_assoc, (io_bind_Ok _ _ _ _ _ E2).
    destruct (mod_shows _ _ _ _ _ (set_address (u8 (buffer_address g + 1))) Hs2) as (s3 & E3 & Hs3).
    rewrite io_bind_assoc, (io_bind_Ok _ _ _ _ _ E3). case_bool_decide.
    + destruct (ack_shows _ _ _ _ _ Hs3) as (s4 & E4 & Hs4).
      exists s4. by rewrite (io_bind_Ok _ _ _ _ _ E4).
    + destruct (nack_shows _ _ _ _ _ Hs3) as (s4 & E4 & Hs4).
      destruct (or_shows _ _ _ _ _ (Z.lor (Z.lor (bit TWIE) (bit TWINT)) (bit TWEN)) Hs4) as (s5 & E5 & Hs5).
      exists s5. rewrite io_bind_assoc, (io_bind_Ok _ _ _ _ _ E4). by rewrite (io_bind_Ok _ _ _ _ _ E5).
Qed.

Lemma twdr_write_shows (s : St) g st x y k : stands s g st x k → is_u8 y →
  ∃ s', on_hw (write TWDR y) s = Ok (tt, s') ∧ stands s' g st y k.
Proof.
  intros ((Hg & Hs & Hd) & Hk) Hy. destruct (sr_twdr_write (fw_hw s) y Hy) as (Hs' & Hd' & Hk').
  exists (mk_fw (fw_btn s) (fw_glob s) (mcu_write TWDR y (fw_hw s))). split.
  - apply on_hw_Ok. unfold write. by rewrite u8_small.
  - unfold stands, shows. by split_and!; simpl; congruence.
Qed.

(** The next position is chosen before the byte goes out. *)
Lemma choose_run (s : St) g st x k : stands s g st x k →
  ∃ s', (if bool_decide (buffer_address g = 0xFF%Z) then mod_slv (set_address x) else mret tt) s
        = Ok (tt, s') ∧
    stands s' (set_address (if decide (buffer_address g = 0xFF%Z) then x else buffer_address g) g) st x k.
Proof.
  intros Hs. case_bool_decide as Hff.
  - rewrite decide_True by done. by apply mod_shows.
  - rewrite decide_False by done. exists s. split; [done|]. by destruct g.
Qed.

Lemma send_run (s : St) g st x y k :
  stands s g st x k → is_u8 x → is_u8 (buffer_address g) →
  let p := if decide (buffer_address g = 0xFF%Z) then x else buffer_address g in
  out_buffer g !! Z.to_nat p = Some y → is_u8 y →
  ∃ s', send_byte s = Ok (tt, s') ∧ stands s' (set_address (u8 (p + 1)) g) st y true.
Proof.
  intros Hs Hx Ha p Hy Huy. unfold send_byte.
  destruct (twdr_shows _ _ _ _ _ Hs) as (s1 & E1 & Hs1). rewrite (io_bind_Ok _ _ _ _ _ E1).
  rewrite (io_bind_Ok _ _ _ _ _ (get_shows _ _ _ _ _ Hs1)).
  destruct (choose_run _ _ _ _ _ Hs1) as (s2 & E2 & Hs2). rewrite (io_bind_Ok _ _ _ _ _ E2).
  rewrite (io_bind_Ok _ _ _ _ _ (get_shows _ _ _ _ _ Hs2)). fold p in Hs2 |- *.
  cbn [set_address buffer_address out_buffer]. unfold load. rewrite Hy. cbn beta iota.
  rewrite io_bind_pure.
  destruct (twdr_write_shows _ _ _ _ y _ Hs2 Huy) as (s3 & E3 & Hs3). rewrite (io_bind_Ok _ _ _ _ _ E3).
  destruct (mod_shows _ _ _ _ _ (set_address (u8 (p + 1))) Hs3) as (s4 & E4 & Hs4).
  rewrite (io_bind_Ok _ _ _ _ _ E4). destruct (bool_decide (u8 (p + 1) < 255)%Z).
  - by eapply ack_shows.
  - destruct (nack_shows _ _ _ _ _ Hs4) as (s5 & E5 & Hs5). rewrite (io_bind_Ok _ _ _ _ _ E5).
    by apply (or_shows _ _ _ _ _ (Z.lor (Z.lor (bit TWEA) (bit TWEN)) (bit TWIE))) in Hs5.
Qed.

(** ** The interrupt routine by its reason *)

Lemma TWI_vect_stands (s : St) g x k :
  stands s g TW_SR_DATA_ACK x k → is_u8 (buffer_address g) → length (in_buffer g) = 256 →
  ∃ s', stands s' (take_byte x g) TW_SR_DATA_ACK x (room g) ∧
    TWI_vect jn jq ji s =
    match run_job (take_byte x g) with
    | Ok g' => Ok (tt, mk_fw (fw_btn s') g' (fw_hw s'))
    | Err e => Err e
    end.
Proof.
  intros Hs Ha Hl. unfold TWI_vect.
  destruct (twsr_shows _ _ _ _ _ Hs) as (v1 & s1 & E1 & Hv1 & Hs1).
  rewrite (io_bind_Ok _ _ _ _ _ E1), Hv1, bool_decide_false by done.
  destruct (twsr_shows _ _ _ _ _ Hs1) as (v2 & s2 & E2 & Hv2 & Hs2).
  rewrite (io_bind_Ok _ _ _ _ _ E2), Hv2, bool_decide_true by done.
  destruct (receive_run _ _ _ _ _ Hs2 Ha Hl) as (s3 & -> & Hs3).
  exists s3. split; [done|]. by eapply process_job_run.
Qed.

Lemma TWI_vect_receives (s : St) g x :
  shows s g TW_SR_DATA_ACK x → is_u8 (buffer_address g) → length (in_buffer g) = 256 →
  ∃ s', shows s' (take_byte x g) TW_SR_DATA_ACK x ∧
    TWI_vect jn jq ji s =
    match run_job (take_byte x g) with
    | Ok g' => Ok (tt, mk_fw (fw_btn s') g' (fw_hw s'))
    | Err e => Err e
    end.
Proof.
  intros Hs Ha Hl. destruct (TWI_vect_stands _ _ _ _ (shows_stands _ _ _ _ Hs) Ha Hl) as (s' & [Hs' _] & E).
  by exists s'.
Qed.

Lemma TWI_vect_sends (s : St) g x y k :
  stands s g TW_ST_DATA_ACK x k → is_u8 x → is_u8 (buffer_address g) →
  let p := if decide (buffer_address g = 0xFF%Z) then x else buffer_address g in
  out_buffer g !! Z.to_nat p = Some y → is_u8 y →
  ∃ s', TWI_vect jn jq ji s = Ok (tt, s') ∧
    stands s' (set_address (u8 (p + 1)) g) TW_ST_DATA_ACK y true.
Proof.
  intros Hs Hx Ha p Hy Huy. unfold TWI_vect.
  destruct (twsr_shows _ _ _ _ _ Hs) as (v1 & s1 & E1 & Hv1 & Hs1).
  rewrite (io_bind_Ok _ _ _ _ _ E1), Hv1, bool_decide_false by done.
  destruct (twsr_shows _ _ _ _ _ Hs1) as (v2 & s2 & E2 & Hv2 & Hs2).
  rewrite (io_bind_Ok _ _ _ _ _ E2), Hv2, bool_decide_false by done.
  destruct (twsr_shows _ _ _ _ _ Hs2) as (v3 & s3 & E3 & Hv3 & Hs3).
  rewrite (io_bind_Ok _ _ _ _ _ E3), Hv3, bool_decide_true by done.
  by eapply send_run.
Qed.

(** Addressed for writing: the next byte is a position. *)
Lemma TWI_vect_addressed (s : St) g x k : stands s g TW_SR_SLA_ACK x k →
  ∃ s', TWI_vect jn jq ji s = Ok (tt, s') ∧ stands s' (set_address 0xFF g) TW_SR_SLA_ACK x true.
Proof.
  intros Hs. unfold TWI_vect. destruct (twsr_shows _ _ _ _ _ Hs) as (v1 & s1 & E1 & Hv1 & Hs1).
  rewrite (io_bind_Ok _ _ _ _ _ E1), Hv1, bool_decide_true by done.
  destruct (mod_shows _ _ _ _ _ (set_address 0xFF) Hs1) as (s2 & E2 & Hs2).
  rewrite (io_bind_Ok _ _ _ _ _ E2). by eapply ack_shows.
Qed.

(** Any other reason. *)
Lemma TWI_vect_other (s : St) g st x k :
  stands s g st x k → st ∉ [TW_SR_SLA_ACK; TW_SR_DATA_ACK; TW_ST_DATA_ACK] →
  ∃ s', TWI_vect jn jq ji s = Ok (tt, s') ∧ stands s' g st x true.
Proof.
  intros Hs Hn. unfold TWI_vect. destruct (twsr_shows _ _ _ _ _ Hs) as (v1 & s1 & E1 & Hv1 & Hs1).
  rewrite (io_bind_Ok _ _ _ _ _ E1), Hv1, bool_decide_false by (intros <-; set_solver).
  destruct (twsr_shows _ _ _ _ _ Hs1) as (v2 & s2 & E2 & Hv2 & Hs2).
  rewrite (io_bind_Ok _ _ _ _ _ E2), Hv2, bool_decide_false by (intros <-; set_solver).
  destruct (twsr_shows _ _ _ _ _ Hs2) as (v3 & s3 & E3 & Hv3 & Hs3).
  rewrite (io_bind_Ok _ _ _ _ _ E3), Hv3, bool_decide_false by (intros <-; set_solver).
  destruct (or_shows _ _ _ _ _ (Z.lor (Z.lor (bit TWEA) (bit TWEN)) (bit TWIE)) Hs3) as (s4 & E4 & Hs4).
  exists s4. split; [done|]. by rewrite orb_true_r in Hs4.
Qed.

(** Every byte received makes the worker run the job in its buffer, even
    the first one, which only sets the buffer position, and every byte of an
    incomplete block. *)
Theorem slave_runs_on_every_byte (s : St) g x :
  shows s g TW_SR_DATA_ACK x → is_u8 (buffer_address g) → length (in_buffer g) = 256 →
  ∃ s' g1, fw_glob s' = g1 ∧ buffer_address g1 = (if decide (buffer_address g = 0xFF%Z) then x
                                  else u8 (buffer_address g + 1)) ∧
    in_buffer g1 = (if decide (buffer_address g = 0xFF%Z) then in_buffer g
                    else <[Z.to_nat (buffer_address g) := x]> (in_buffer g)) ∧
    TWI_vect jn jq ji s =
    match run_job g1 with
    | Ok g' => Ok (tt, mk_fw (fw_btn s') g' (fw_hw s'))
    | Err e => Err e
    end.
Proof.
  intros Hs Ha Hl. destruct (TWI_vect_receives s g x Hs Ha Hl) as (s' & (Hg & _ & _) & E).
  exists s', (take_byte x g). split; [done|]. unfold take_byte in *.
  destruct (decide (buffer_address g = 0xFF%Z)) as [Hff|Hff].
  - rewrite (bool_decide_true (0xFF%Z = buffer_address g)) in * by done. by split_and!.
  - rewrite (bool_decide_false (0xFF%Z = buffer_address g)) in * by done. by split_and!.
Qed.

(** The first byte that reaches a worker after a reset makes it inflate
    its empty buffer, which writes outside of the tree it allocates. *)
Theorem slave_fresh_faults (s : St) x w :
  shows s (mk_slv 0xFF (replicate 256 0%Z) (replicate 256 0%Z) w) TW_SR_DATA_ACK x →
  TWI_vect jn jq ji s = Err OutOfBounds.
Proof.
  intros Hs. destruct (TWI_vect_receives _ _ _ Hs) as (s' & _ & E);
    [unfold is_u8; simpl; lia|done|].
  rewrite E. reflexivity.
Qed.

(** The worker takes one byte for the buffer position where the controller
    sends two: the low byte of the offset is stored as data at the position
    given by the high byte. *)
Theorem slave_offset_clobbers (s s1 s2 : St) g lo hi :
  shows s g TW_SR_DATA_ACK hi → buffer_address g = 0xFF%Z → length (in_buffer g) = 256 →
  (0 ≤ hi < 0xFF)%Z → TWI_vect jn jq ji s = Ok (tt, s1) →
  shows s2 (fw_glob s1) TW_SR_DATA_ACK lo →
  ∃ s3 g3, shows s3 g3 TW_SR_DATA_ACK lo ∧ buffer_address g3 = (hi + 1)%Z ∧
    in_buffer g3 = <[Z.to_nat hi := lo]> (in_buffer g) ∧
    TWI_vect jn jq ji s2 =
    match run_job g3 with
    | Ok g' => Ok (tt, mk_fw (fw_btn s3) g' (fw_hw s3))
    | Err e => Err e
    end.
Proof.
  intros Hs Hff Hl Hhi E1 Hs2.
  destruct (TWI_vect_receives s g hi Hs) as (s' & Hs' & E); [unfold is_u8; lia|done|].
  rewrite E in E1. unfold take_byte in *.
  rewrite (bool_decide_true (0xFF%Z = buffer_address g)) in * by done.
  destruct (run_job (set_address hi g)) as [g'|e] eqn:Er; [|done]. injection E1 as <-.
  destruct (run_job_keeps _ _ Er) as [Ha' Hi']. cbn [set_address buffer_address in_buffer fw_glob] in *.
  destruct (TWI_vect_receives s2 g' lo Hs2) as (s3 & Hs3 & E3);
    [rewrite Ha'; unfold is_u8; lia|by rewrite Hi'|].
  exists s3, (take_byte lo g'). split; [done|]. unfold take_byte.
  rewrite bool_decide_false by (rewrite Ha'; lia).
  cbn [set_address set_in buffer_address in_buffer]. rewrite Ha', Hi', u8_small by (unfold is_u8; lia).
  split_and!; [done|done|]. rewrite E3. unfold take_byte.
  by rewrite bool_decide_false, Ha', Hi', u8_small by (first [rewrite Ha'; lia|unfold is_u8; lia]).
Qed.
(** ** The jobs *)

(** An ENCODE job: the compressed block behind its header. *)
Lemma run_job_encode g hdr data rest t :
  in_buffer g = hdr :: Z.of_nat (length data) :: data ++ rest →
  is_u8 hdr → Z.testbit hdr JOB_BIT = true →
  compressible data t 254 → depth t ≤ 8 → length (encode t data) < 256 →
  ∃ blk, run_job g = Ok (set_out (Z.lor hdr I2C_READY :: 1%Z :: blk) g) ∧
    block_of data t blk ∧ Forall is_u8 blk ∧ length blk = 254.
Proof.
  intros Hin Hu Hj Hc Hd Hbits.
  destruct (huffman_compress_spec jn jq ji data t 254 Hc) as [(_ & blk & E & Hb & Hbu & Hlen)|[? _]];
    [|lia].
  destruct (encode_header _ Hu Hj) as [He Hh]. exists blk. split_and!; [|done..].
  unfold run_job. rewrite Hin. cbn [load lookup list_lookup drop]. rewrite !res_bind_Ok.
  rewrite bool_decide_true by done. rewrite huffman_compress_take, Nat2Z.id, drop_0.
  rewrite take_app_length, E.
  by rewrite !res_bind_Ok, (strlen_block _ _ _ Hb Hbits), res_bind_Ok, Hh.
Qed.

Lemma decode_header hdr : is_u8 hdr → Z.testbit hdr JOB_BIT = false →
  Z.land (Z.land (bit JOB_BIT) hdr) ENCODE ≠ ENCODE ∧
  u8 (Z.lor (Z.lor (Z.shiftl (u8 (Z.shiftr hdr 2)) 2) (Z.land (bit JOB_BIT) hdr)) I2C_READY)
  = Z.lor hdr I2C_READY.
Proof.
  intros Hu. pose proof (Z2Nat.id hdr) as E. unfold is_u8 in Hu.
  assert (Forall (λ n, Z.testbit (Z.of_nat n) JOB_BIT = false →
    Z.land (Z.land (bit JOB_BIT) (Z.of_nat n)) ENCODE ≠ ENCODE ∧
    u8 (Z.lor (Z.lor (Z.shiftl (u8 (Z.shiftr (Z.of_nat n) 2)) 2)
         (Z.land (bit JOB_BIT) (Z.of_nat n))) I2C_READY)
    = Z.lor (Z.of_nat n) I2C_READY) (seq 0 256)) as Hall by by apply (bool_decide_unpack _).
  rewrite list.Forall_forall in Hall. rewrite <- E by lia. apply Hall.
  apply elem_of_seq. lia.
Qed.

(** A DECODE job with a block: the bytes it stands for. *)
Lemma run_job_decode g hdr dsize data t blk :
  in_buffer g = hdr :: dsize :: blk → is_u8 hdr → Z.testbit hdr JOB_BIT = false →
  compressible data t 254 → ¬ is_leaf t → block_of data t blk → length blk = 254 → length data < 254 →
  (Z.of_nat (length (encode t data)) ≤ 8 * dsize)%Z →
  run_job g = Ok (set_out (Z.lor hdr I2C_READY :: Z.of_nat (length data) ::
                           data ++ replicate (254 - length data) 0%Z) g).
Proof.
  intros Hin Hu Hj Hc Hleaf Hb Hlen Hdata Hds. pose proof (compressible_leaves _ _ _ Hc) as Hok.
  destruct (compressible_size _ _ _ Hc) as (Hsz & _ & _). destruct Hc as [Ht Hbytes _ _ Hroom Hbits].
  destruct (decode_header _ Hu Hj) as [He Hh].
  unfold run_job. rewrite Hin. cbn [load lookup list_lookup drop]. rewrite !res_bind_Ok.
  rewrite bool_decide_false by (intros E; by apply He). rewrite drop_0.
  rewrite (huffman_inflate_block jn jq ji data t blk);
    [|done|done|lia|intros b; by apply (elem_of_tree_of data t)|unfold is_u16; lia|lia|done|done
     |unfold block_bits in Hroom; lia|rewrite length_replicate; lia].
  rewrite !res_bind_Ok.
  assert (write_at (replicate 254 0%Z) 0 data = data ++ replicate (254 - length data) 0%Z) as ->.
  { pose proof (drop_write_at (replicate 254 0%Z) 0 data) as Hw. rewrite drop_0 in Hw.
    rewrite Hw by (rewrite length_replicate; lia). by rewrite drop_replicate. }
  replace (254 - length data) with (S (253 - length data)) by lia.
  rewrite strlen_line, res_bind_Ok by (eapply Forall_impl; [exact Hbytes|]; by intros c (_ & ? & _)).
  by rewrite Hh, (u8_small (Z.of_nat (length data))) by (unfold is_u8; lia).
Qed.

(** The byte that completes an ENCODE block makes the worker put the
    compressed block into its output buffer, behind the header of the request
    with the ready flag; the length byte is 1, whatever the length of the
    block, because the high byte of the bit count ends the string. *)
Theorem slave_encode_result (s : St) g x hdr data rest t :
  shows s g TW_SR_DATA_ACK x → is_u8 (buffer_address g) → length (in_buffer g) = 256 →
  in_buffer (take_byte x g) = hdr :: Z.of_nat (length data) :: data ++ rest →
  is_u8 hdr → Z.testbit hdr JOB_BIT = true →
  compressible data t 254 → depth t ≤ 8 → length (encode t data) < 256 →
  ∃ s' blk, TWI_vect jn jq ji s = Ok (tt, s') ∧ block_of data t blk ∧ length blk = 254 ∧
    out_buffer (fw_glob s') = Z.lor hdr I2C_READY :: 1%Z :: blk.
Proof.
  intros Hs Ha Hl Hin Hu Hj Hc Hd Hbits.
  destruct (TWI_vect_receives _ _ _ Hs Ha Hl) as (s' & _ & ->).
  destruct (run_job_encode (take_byte x g) hdr data rest t) as (blk & -> & Hb & _ & Hlen); [done..|].
  eexists _, blk. by split_and!.
Qed.

(** C8: the two jobs are inverse: the byte that completes an ENCODE block makes
    a worker compress it, and the byte that completes a DECODE block with the
    result (on the same or another worker) makes that worker put the original
    bytes and their number into its output buffer.  The block has at least two
    and at most 30 distinct bytes, none of them 0, an asterisk or a hyphen, codes
    of at most eight bits and fewer than 256 code bits.  The length in the DECODE
    block must cover the code bits; the length the first worker reports, 1, does
    so only for blocks of up to eight of them. *)
Theorem worker_jobs_inverse (s : St) g x hdr data rest t :
  shows s g TW_SR_DATA_ACK x → is_u8 (buffer_address g) → length (in_buffer g) = 256 →
  in_buffer (take_byte x g) = hdr :: Z.of_nat (length data) :: data ++ rest →
  is_u8 hdr → Z.testbit hdr JOB_BIT = true →
  compressible data t 254 → ¬ is_leaf t → depth t ≤ 8 → length (encode t data) < 256 → length data < 254 →
  ∃ s1 blk, TWI_vect jn jq ji s = Ok (tt, s1) ∧
    out_buffer (fw_glob s1) = Z.lor hdr I2C_READY :: 1%Z :: blk ∧
    ∀ (s2 : St) g2 y hdr2 dsize,
      shows s2 g2 TW_SR_DATA_ACK y → is_u8 (buffer_address g2) → length (in_buffer g2) = 256 →
      in_buffer (take_byte y g2) = hdr2 :: dsize :: blk →
      is_u8 hdr2 → Z.testbit hdr2 JOB_BIT = false → (Z.of_nat (length (encode t data)) ≤ 8 * dsize)%Z →
      ∃ s3, TWI_vect jn jq ji s2 = Ok (tt, s3) ∧
        out_buffer (fw_glob s3) =
          Z.lor hdr2 I2C_READY :: Z.of_nat (length data) :: data ++ replicate (254 - length data) 0%Z.
Proof.
  intros Hs Ha Hl Hin Hu Hj Hc Hleaf Hd Hbits Hdata.
  destruct (TWI_vect_receives _ _ _ Hs Ha Hl) as (s' & _ & ->).
  destruct (run_job_encode (take_byte x g) hdr data rest t) as (blk & -> & Hb & _ & Hlen); [done..|].
  eexists _, blk. split_and!; [done|done|]. intros s2 g2 y hdr2 dsize Hs2 Ha2 Hl2 Hin2 Hu2 Hj2 Hds.
  destruct (TWI_vect_receives _ _ _ Hs2 Ha2 Hl2) as (s3 & _ & ->).
  rewrite (run_job_decode (take_byte y g2) hdr2 dsize data t blk) by done.
  by eexists.
Qed.

(** When the controller reads, the interrupt puts the byte of the output
    buffer at the position into the data register and moves on; directly after
    the address the position is whatever the data register holds. *)
Theorem slave_sends (s : St) g x y :
  shows s g TW_ST_DATA_ACK x → is_u8 x → is_u8 (buffer_address g) →
  let p := if decide (buffer_address g = 0xFF%Z) then x else buffer_address g in
  out_buffer g !! Z.to_nat p = Some y → is_u8 y →
  ∃ s', TWI_vect jn jq ji s = Ok (tt, s') ∧
    shows s' (set_address (u8 (p + 1)) g) TW_ST_DATA_ACK y.
Proof.
  intros Hs Hx Ha p Hy Huy.
  destruct (TWI_vect_sends _ _ _ _ _ (shows_stands _ _ _ _ Hs) Hx Ha Hy Huy) as (s' & E & [Hs' _]).
  by exists s'.
Qed.
End Worker.

(** ** An executable register file, and the theorems at work *)

Record sregs := mk_sregs { r_status : Z; r_data : Z; r_twcr : Z; r_twar : Z }.

Definition sregs_read (r : reg) (d : sregs) : Z * sregs :=
  (match r with
   | TWSR => r_status d | TWDR => r_data d | TWCR => r_twcr d | TWAR => r_twar d | _ => 0%Z
   end, d).

Definition sregs_write (r : reg) (x : Z) (d : sregs) : sregs :=
  match r with
  | TWDR => mk_sregs (r_status d) x (r_twcr d) (r_twar d)
  | TWCR => mk_sregs (r_status d) (r_data d) x (r_twar d)
  | TWAR => mk_sregs (r_status d) (r_data d) (r_twcr d) x
  | _ => d
  end.

#[export] Instance sregs_mcu : Mcu sregs := {|
  mcu_read := sregs_read; mcu_write := sregs_write;
  mcu_delay _ d := d; mcu_print _ _ d := d; mcu_getc d := (EOF, d);
  mcu_usb_setup d := d; mcu_usb_task d := d; mcu_irqs d := (0, d) |}.

#[export] Instance sregs_slave : SlaveRegs sregs.
Proof.
  refine {| sr_status d := Z.land (r_status d) 0xF8; sr_data := r_data;
            sr_ack d := Z.testbit (r_twcr d) TWEA |};
    by (intros d x d' [= <- <-] || intros d x).
Defined.

Definition demo_worker (g : slv) (st x : Z) : fw callback slv sregs :=
  mk_fw (mk_buttons EmptyFunction EmptyFunction EmptyFunction EmptyFunction 0) g (mk_sregs st x 0 0).

Definition demo_block : list Z := ENCODE :: 18%Z :: demo_data ++ replicate 236 0%Z.

(** The worker that waits for the last byte of the block. *)
Definition demo_waiting : slv :=
  mk_slv 19 (<[19 := 0%Z]> demo_block) (replicate 256 0%Z) 0x20.

Abbreviation demo_vect := (TWI_vect (D := sregs) zero_node zero_queue zero_info).

Lemma slave_runs_on_every_byte_witness :
  ∃ s' g1, fw_glob s' = g1 ∧ buffer_address g1 = 20%Z ∧ in_buffer g1 = demo_block ∧
    demo_vect (demo_worker demo_waiting TW_SR_DATA_ACK 69) =
    match run_job zero_node zero_queue zero_info g1 with
    | Ok g' => Ok (tt, mk_fw (fw_btn s') g' (fw_hw s'))
    | Err e => Err e
    end.
Proof.
  apply (slave_runs_on_every_byte zero_node zero_queue zero_info
           (demo_worker demo_waiting TW_SR_DATA_ACK 69) demo_waiting 69);
    [done|unfold is_u8; simpl; lia|reflexivity].
Defined.

Lemma worker_jobs_inverse_witness :
  ∃ s1 blk, demo_vect (demo_worker demo_waiting TW_SR_DATA_ACK 69) = Ok (tt, s1) ∧
    out_buffer (fw_glob s1) = 3%Z :: 1%Z :: blk ∧
    ∀ (s2 : fw callback slv sregs) g2 y hdr2 dsize,
      shows s2 g2 TW_SR_DATA_ACK y → is_u8 (buffer_address g2) → length (in_buffer g2) = 256 →
      in_buffer (take_byte y g2) = hdr2 :: dsize :: blk →
      is_u8 hdr2 → Z.testbit hdr2 JOB_BIT = false →
      (Z.of_nat (length (encode demo_tree demo_data)) ≤ 8 * dsize)%Z →
      ∃ s3, demo_vect s2 = Ok (tt, s3) ∧
        out_buffer (fw_glob s3) = Z.lor hdr2 I2C_READY :: 18%Z :: demo_data ++ replicate 236 0%Z.
Proof.
  apply (worker_jobs_inverse zero_node zero_queue zero_info
           (demo_worker demo_waiting TW_SR_DATA_ACK 69) demo_waiting 69 ENCODE demo_data
           (replicate 236 0%Z) demo_tree);
    [done|unfold is_u8; simpl; lia|reflexivity|reflexivity|unfold is_u8; vm_compute; done
    |reflexivity|..|by intros ?|vm_compute; lia|vm_compute; lia|simpl; lia].
  split; [reflexivity|by apply (bool_decide_unpack _)|unfold INT_MAX; simpl; lia
         |vm_compute; lia|vm_compute; lia|vm_compute; done].
Defined.

Lemma slave_fresh_faults_witness :
  demo_vect (demo_worker (mk_slv 0xFF (replicate 256 0%Z) (replicate 256 0%Z) 0x20)
    TW_SR_DATA_ACK 0) = Err OutOfBounds.
Proof. by apply (slave_fresh_faults zero_node zero_queue zero_info _ 0 0x20). Defined.

Lemma slave_encode_result_witness :
  ∃ s' blk, demo_vect (demo_worker demo_waiting TW_SR_DATA_ACK 69) = Ok (tt, s') ∧
    block_of demo_data demo_tree blk ∧ length blk = 254 ∧
    out_buffer (fw_glob s') = 3%Z :: 1%Z :: blk.
Proof.
  apply (slave_encode_result zero_node zero_queue zero_info
           (demo_worker demo_waiting TW_SR_DATA_ACK 69) demo_waiting 69 ENCODE demo_data
           (replicate 236 0%Z) demo_tree);
    [done|unfold is_u8; simpl; lia|reflexivity|reflexivity|unfold is_u8; vm_compute; done
    |reflexivity|..|vm_compute; lia|vm_compute; lia].
  split; [reflexivity|by apply (bool_decide_unpack _)|unfold INT_MAX; simpl; lia
         |vm_compute; lia|vm_compute; lia|vm_compute; done].
Defined.

Lemma slave_sends_witness :
  ∃ s', demo_vect (demo_worker (mk_slv 0xFF demo_block demo_block 0x20) TW_ST_DATA_ACK 1)
        = Ok (tt, s') ∧
    shows s' (mk_slv 2 demo_block demo_block 0x20) TW_ST_DATA_ACK 18.
Proof.
  apply (slave_sends zero_node zero_queue zero_info
           (demo_worker (mk_slv 0xFF demo_block demo_block 0x20) TW_ST_DATA_ACK 1)
           (mk_slv 0xFF demo_block demo_block 0x20) 1 18);
    [done|unfold is_u8; lia|unfold is_u8; simpl; lia|reflexivity|unfold is_u8; lia].
Defined.

(** The worker keeps its block from the request before. *)
Definition demo_again : slv := mk_slv 0xFF demo_block (replicate 256 0%Z) 0x20.

Definition after (m : res (unit * fw callback slv sregs)) : fw callback slv sregs :=
  match m with Ok (_, s) => s | Err _ => demo_worker demo_again 0 0 end.

Definition demo_after_hi : fw callback slv sregs :=
  after (demo_vect (demo_worker demo_again TW_SR_DATA_ACK 0)).

Lemma slave_offset_clobbers_witness :
  ∃ s3 g3, shows s3 g3 TW_SR_DATA_ACK 7 ∧ buffer_address g3 = 1%Z ∧
    in_buffer g3 = 7%Z :: drop 1 demo_block ∧
    demo_vect (demo_worker (fw_glob demo_after_hi) TW_SR_DATA_ACK 7) =
    match run_job zero_node zero_queue zero_info g3 with
    | Ok g' => Ok (tt, mk_fw (fw_btn s3) g' (fw_hw s3))
    | Err e => Err e
    end.
Proof.
  apply (slave_offset_clobbers zero_node zero_queue zero_info
           (demo_worker demo_again TW_SR_DATA_ACK 0) demo_after_hi
           (demo_worker (fw_glob demo_after_hi) TW_SR_DATA_ACK 7) demo_again 7 0);
    [done|reflexivity|reflexivity|lia|vm_compute; reflexivity|done].
Defined.
