(* ===== verification/SlaveState.v ===== *)
(** * The worker's globals over all its interrupts

    The entry points of the worker image as steps on any hardware whose
    registers read as bytes: the globals keep their C types, and the two-wire
    interrupt faults exactly when it runs a job for a received byte and that job
    faults. *)

From S2P Require Import Prelude HuffmanMem HuffmanLib HuffmanTyped.
From S2P Require Import Avr Board I2cMaster Leds Buttons Controller Slave SlaveJobs.
From stdpp Require Import relations.
Import I2c Leds Buttons Slave.

(** The registers are eight bits wide. *)
Class ByteRegs (D : Type) `{Mcu D} := byte_read r (d : D) : is_u8 (mcu_read r d).1.

(** ** A logic of the globals *)

(** From globals with [P], [m] returns a value with [Q] and globals with [P],
    or stops on a fault of [E]. *)
Definition guards {F G D A} (P : G → Prop) (E : fault → Prop) (Q : A → Prop)
    (m : IO (fw F G D) A) : Prop := ∀ s, P (fw_glob s) →
  match m s with Ok (a, s') => P (fw_glob s') ∧ Q a | Err e => E e end.

Section Logic.
Context {F G D : Type} (P : G → Prop) (E : fault → Prop).
Abbreviation St := (fw F G D).

Lemma guards_ret {A} (Q : A → Prop) a : Q a → guards (F := F) (D := D) P E Q (mret a).
Proof. by intros HQ s HP. Qed.

Lemma guards_bind {A B} (R : A → Prop) (Q : B → Prop) (m : IO St A) (f : A → IO St B) :
  guards P E R m → (∀ a, R a → guards P E Q (f a)) → guards P E Q (m ≫= f).
Proof.
  intros Hm Hf s HP. specialize (Hm s HP). unfold mbind, IO_bind.
  destruct (m s) as [[a s1]|e]; [|done]. destruct Hm as [HP1 Ha]. by apply Hf.
Qed.

Lemma guards_seq {A B} (Q : B → Prop) (m : IO St A) (f : A → IO St B) :
  guards P E (λ _, True) m → (∀ a, guards P E Q (f a)) → guards P E Q (m ≫= f).
Proof. intros Hm Hf. by apply (guards_bind (λ _, True)). Qed.

Lemma guards_weaken {A} (Q : A → Prop) (m : IO St A) :
  guards P E Q m → guards P E (λ _, True) m.
Proof. intros Hm s HP. specialize (Hm s HP). destruct (m s) as [[a s1]|e]; [|done]. by destruct Hm. Qed.

Lemma guards_pure {A} (Q : A → Prop) a : Q a → guards (F := F) (D := D) P E Q (pure (Ok a)).
Proof. by intros HQ s HP. Qed.

Lemma guards_get : guards (F := F) (D := D) P E P get_glob.
Proof. by intros s HP. Qed.

Lemma guards_set g : P g → guards (F := F) (D := D) P E (λ _, True) (set_glob g).
Proof. by intros Hg s HP. Qed.

Lemma guards_get_btn : guards (F := F) (D := D) P E (λ _, True) get_btn.
Proof. by intros s HP. Qed.

Lemma guards_set_btn b : guards (F := F) (D := D) P E (λ _, True) (set_btn b).
Proof. by intros s HP. Qed.

Lemma guards_on_hw {A} (Q : A → Prop) (m : IO D A) :
  (∀ d, match m d with Ok (a, _) => Q a | Err e => E e end) → guards (F := F) P E Q (on_hw m).
Proof.
  intros Hm s HP. unfold on_hw. specialize (Hm (fw_hw s)).
  by destruct (m (fw_hw s)) as [[a d]|e].
Qed.
End Logic.

Create HintDb guards.
#[export] Hint Resolve guards_ret guards_pure guards_get guards_get_btn guards_set_btn : guards.

Section Access.
Context {F G : Type} `{ByteRegs D} (P : G → Prop) (E : fault → Prop).

Lemma guards_read r : guards (F := F) P E is_u8 (on_hw (read r)).
Proof. apply guards_on_hw. intros d. unfold read. pose proof (byte_read r d). by destruct (mcu_read r d). Qed.

Lemma guards_write r v : guards (F := F) P E (λ _, True) (on_hw (write r v)).
Proof. by apply guards_on_hw. Qed.

Lemma guards_or r v : guards (F := F) P E (λ _, True) (on_hw (or_reg r v)).
Proof.
  apply guards_on_hw. intros d. unfold or_reg, read, write, mbind, IO_bind.
  by destruct (mcu_read r d).
Qed.

Lemma guards_and r v : guards (F := F) P E (λ _, True) (on_hw (and_reg r v)).
Proof.
  apply guards_on_hw. intros d. unfold and_reg, read, write, mbind, IO_bind.
  by destruct (mcu_read r d).
Qed.

(** Where every fault is allowed, a program on the hardware is as good as any. *)
Lemma guards_any {A} (m : IO D A) : guards (F := F) P (λ _, True) (λ _, True) (on_hw m).
Proof. apply guards_on_hw. intros d. by destruct (m d) as [[]|]. Qed.
End Access.

#[export] Hint Resolve guards_read guards_write guards_or guards_and guards_any : guards.

(** Follows a program to its accesses; [guards x Hx] takes one step and names
    the value. *)
Ltac guards :=
  intros; cbn zeta;
  repeat first
    [ solve [auto with guards | eapply guards_weaken; eauto 2 with guards]
    | apply guards_seq; intros
    | match goal with |- guards _ _ _ (match ?x with _ => _ end) => destruct x eqn:? end ].

(** ** The types of the globals *)

(** [uint8_t buffer_address], [uint8_t in_buffer[256]], [out_buffer[256]] and
    [uint8_t workerID]. *)
Definition slv_typed (g : slv) : Prop :=
  is_u8 (buffer_address g) ∧ typed_buffer 256 (in_buffer g) ∧
  typed_buffer 256 (out_buffer g) ∧ is_u8 (workerID g).

Section Worker.
Context `{ByteRegs D} (fuel rounds : nat).
Context (jn : nat → Huffman.node_t) (jq : nat → Huffman.queue_t)
        (ji : nat → Huffman.encoding_info_t).
Hypothesis junk_typed : ∀ i, typed_node (jn i).

Abbreviation St := (fw callback slv D).

(** The interrupt is for a received byte [x]: the first look at the status is
    not that of an address, the second that of a byte, and the data register
    holds [x]. *)
Definition receives (s : St) (x : Z) : Prop :=
  let r1 := mcu_read TWSR (fw_hw s) in
  let r2 := mcu_read TWSR r1.2 in
  TW_SR_SLA_ACK ≠ Z.land r1.1 0xF8 ∧ TW_SR_DATA_ACK = Z.land r2.1 0xF8 ∧ x = (mcu_read TWDR r2.2).1.

Abbreviation anything := (λ _ : fault, True).
Abbreviation nothing := (λ _ : fault, False).

Lemma guards_mod E f : (∀ g, slv_typed g → slv_typed (f g)) →
  guards (F := callback) (D := D) slv_typed E (λ _, True) (mod_slv f).
Proof.
  intros Hf. eapply guards_bind; [apply guards_get|]. intros g Hg. by apply guards_set, Hf.
Qed.

Lemma typed_set_address x g : is_u8 x → slv_typed g → slv_typed (set_address x g).
Proof. by intros Hx (Ha & Hi & Ho & Hw). Qed.

Lemma typed_set_in i x g :
  is_u8 x → slv_typed g → slv_typed (set_in (<[i := x]> (in_buffer g)) g).
Proof.
  intros Hx (Ha & [Hi Hl] & Ho & Hw). split_and!; try done; simpl.
  split; [by apply Forall_insert|by rewrite length_insert].
Qed.

Lemma run_job_typed g : slv_typed g → yields slv_typed (run_job jn jq ji g).
Proof.
  intros (Ha & Hi & Ho & Hw). unfold run_job. ybind in0 H0'. ybind in1 H1'.
  assert (typed_buffer 254 (replicate 254 0%Z)) as Hz.
  { split; [|apply length_replicate]. apply Forall_replicate. unfold is_u8. lia. }
  assert (Forall is_u8 (drop 2 (in_buffer g))) as Hd by (apply Forall_drop, Hi).
  eapply (yields_bind (typed_buffer 254)).
  { case_bool_decide; [by apply yields_compress|].
    eapply yields_bind; [by apply (yields_inflate jn jq ji junk_typed 254)|].
    intros [o n] Hr. by apply yields_ret. }
  intros o [Hb Hl]. ybind n Hn. apply yields_ret. split_and!; try done; simpl.
  split; [|simpl; congruence]. apply Forall_cons; split; [apply u8_range|]. by apply Forall_cons; split; [apply u8_range|].
Qed.

Lemma guards_job : guards (F := callback) (D := D) slv_typed anything (λ _, True) (process_job jn jq ji).
Proof.
  intros s Hs. rewrite process_job_glob. pose proof (run_job_typed _ Hs) as Hr.
  destruct (run_job jn jq ji (fw_glob s)) as [g|e] eqn:E; [|done].
  split; [by apply Hr|done].
Qed.

Lemma guards_ack E : guards (F := callback) slv_typed E (λ _, True) acknowledge.
Proof. unfold acknowledge. guards. Qed.
#[local] Hint Resolve guards_job guards_ack : guards.

Lemma guards_receive : guards slv_typed anything (λ _, True) (receive_byte jn jq ji).
Proof.
  unfold receive_byte. eapply guards_bind; [apply guards_read|]. intros x Hx.
  eapply guards_bind; [apply guards_get|]. intros g Hg.
  apply guards_seq; [|auto with guards]. destruct Hg as (Ha & [Hi Hl] & _).
  case_bool_decide.
  - apply guards_seq; [|auto with guards]. apply guards_mod. intros g'. by apply typed_set_address.
  - rewrite store_Ok by (rewrite Hl; unfold is_u8 in Ha; lia).
    eapply (guards_bind _ _ (typed_buffer 256)); [apply guards_pure|].
    { split; [by apply Forall_insert|by rewrite length_insert]. }
    intros ib Hib. apply guards_seq; [|intros _; apply guards_seq].
    + apply guards_mod. intros g' (Ha' & _ & Ho & Hw). by split_and!.
    + apply guards_mod. intros g'. apply typed_set_address; auto with cint.
    + guards.
Qed.

Lemma guards_send E : guards slv_typed E (λ _, True) send_byte.
Proof.
  unfold send_byte. eapply guards_bind; [apply guards_read|]. intros x Hx.
  eapply guards_bind; [apply guards_get|]. intros g0 Hg0. apply guards_seq.
  { case_bool_decide; [|auto with guards]. apply guards_mod. intros g'. by apply typed_set_address. }
  intros _. eapply guards_bind; [apply guards_get|]. intros g (Ha & Hi & [Ho Hl] & Hw).
  destruct (lookup_lt_is_Some_2 (out_buffer g) (Z.to_nat (buffer_address g))) as [y Hy].
  { rewrite Hl. unfold is_u8 in Ha. lia. }
  unfold load. rewrite Hy. apply guards_seq; [auto with guards|]. intros z.
  apply guards_seq; [auto with guards|]. intros _. apply guards_seq; [|guards].
  apply guards_mod. intros g'. apply typed_set_address; auto with cint.
Qed.

Lemma guards_select E : guards slv_typed E (λ _, True) (mod_slv (D := D) (set_address 0xFF)).
Proof. apply guards_mod. intros g. apply typed_set_address. unfold is_u8. lia. Qed.
#[local] Hint Resolve guards_receive guards_send guards_select : guards.

(** The two-wire interrupt keeps the types. *)
Lemma guards_twi : guards slv_typed anything (λ _, True) (TWI_vect jn jq ji).
Proof.
  unfold TWI_vect. guards.
Qed.

(** What cannot fault returns. *)
Lemma guards_runs {A} (m : IO St A) s : guards slv_typed nothing (λ _, True) m → slv_typed (fw_glob s) →
  ∃ a s', m s = Ok (a, s').
Proof. intros Hm Hs. specialize (Hm s Hs). destruct (m s) as [[a s']|e]; [by exists a, s'|done]. Qed.

(** Accesses of the registers leave the globals alone. *)
Definition leaves (m : IO St unit) : Prop := ∀ s, ∃ d, m s = Ok (tt, mk_fw (fw_btn s) (fw_glob s) d).

Lemma leaves_or r v : leaves (on_hw (or_reg r v)).
Proof.
  intros s. unfold on_hw, or_reg, read, write, mbind, IO_bind. destruct (mcu_read r (fw_hw s)). by eexists.
Qed.

Lemma leaves_and r v : leaves (on_hw (and_reg r v)).
Proof.
  intros s. unfold on_hw, and_reg, read, write, mbind, IO_bind. destruct (mcu_read r (fw_hw s)). by eexists.
Qed.

Lemma leaves_seq m1 m2 : leaves m1 → leaves m2 → leaves (m1;; m2).
Proof.
  intros H1 H2 s. destruct (H1 s) as [d1 E1]. destruct (H2 (mk_fw (fw_btn s) (fw_glob s) d1)) as [d2 E2].
  exists d2. by rewrite (io_bind_Ok _ _ _ _ _ E1).
Qed.

(** A received byte is stored, then the job runs. *)
Lemma receive_job s (x := (mcu_read TWDR (fw_hw s)).1) : slv_typed (fw_glob s) →
  ∃ d, receive_byte jn jq ji s = process_job jn jq ji (mk_fw (fw_btn s) (take_byte x (fw_glob s)) d).
Proof.
  intros (Ha & [Hi Hl] & _). unfold receive_byte, take_byte. subst x.
  destruct (mcu_read TWDR (fw_hw s)) as [x d1] eqn:E1. cbn [fst].
  rewrite (io_bind_Ok _ _ _ x (mk_fw (fw_btn s) (fw_glob s) d1)) by (unfold on_hw, read; by rewrite E1).
  rewrite (io_bind_Ok get_glob _ _ (fw_glob s) (mk_fw (fw_btn s) (fw_glob s) d1)) by done.
  case_bool_decide as Hff.
  - destruct (leaves_or TWCR (Z.lor (Z.lor (Z.lor (bit TWIE) (bit TWINT)) (bit TWEA)) (bit TWEN))
      (mk_fw (fw_btn s) (set_address x (fw_glob s)) d1)) as [d2 E2].
    exists d2. rewrite (io_bind_Ok _ _ _ tt (mk_fw (fw_btn s) (set_address x (fw_glob s)) d2)); [done|exact E2].
  - unfold is_u8 in Ha. rewrite store_Ok by lia. set (ib := <[_ := x]> _). set (p := u8 _).
    assert (leaves (if bool_decide (p < 0xFF)%Z then acknowledge
      else on_hw (and_reg TWCR (Z.ldiff 255 (bit TWEA)));;
           on_hw (or_reg TWCR (Z.lor (Z.lor (bit TWIE) (bit TWINT)) (bit TWEN))))) as Hlv.
    { case_bool_decide; [apply leaves_or|]. apply leaves_seq; [apply leaves_and|apply leaves_or]. }
    destruct (Hlv (mk_fw (fw_btn s) (set_address p (set_in ib (fw_glob s))) d1)) as [d2 E2].
    exists d2. rewrite (io_bind_Ok _ _ _ tt (mk_fw (fw_btn s) (set_address p (set_in ib (fw_glob s))) d2)); [done|exact E2].
Qed.

(** A two-wire interrupt stops on a fault exactly when it is for a received
    byte and the job on the buffer with this byte stops on it. *)
Lemma twi_fault s e : slv_typed (fw_glob s) →
  TWI_vect jn jq ji s = Err e ↔
  ∃ x, receives s x ∧ process_job jn jq ji (mk_fw (fw_btn s) (take_byte x (fw_glob s)) (fw_hw s)) = Err e.
Proof.
  intros Hs. unfold receives, TWI_vect.
  destruct (mcu_read TWSR (fw_hw s)) as [v1 d1] eqn:E1. cbn [fst snd].
  rewrite (io_bind_Ok _ _ _ v1 (mk_fw (fw_btn s) (fw_glob s) d1)) by (unfold on_hw, read; by rewrite E1).
  case_bool_decide as H1.
  { split; [|by intros (x & (? & _) & _)]. intros Er.
    destruct (guards_runs (mod_slv (set_address 0xFF);; acknowledge) (mk_fw (fw_btn s) (fw_glob s) d1))
      as (a & s' & E); [guards|done|congruence]. }
  destruct (mcu_read TWSR d1) as [v2 d2] eqn:E2. cbn [fst snd].
  rewrite (io_bind_Ok _ _ _ v2 (mk_fw (fw_btn s) (fw_glob s) d2)) by (unfold on_hw, read; cbn [fw_hw]; by rewrite E2).
  case_bool_decide as H2.
  { destruct (receive_job (mk_fw (fw_btn s) (fw_glob s) d2) Hs) as [d ->]. cbn [fw_btn fw_glob fw_hw].
    rewrite !process_job_glob. setoid_rewrite process_job_glob. cbn [fw_btn fw_glob fw_hw].
    split; [|by intros (x & (_ & _ & ->) & Ej); destruct (run_job jn jq ji _)].
    intros Ej. eexists. split; [done|]. by destruct (run_job jn jq ji _). }
  split; [|by intros (x & (_ & ? & _) & _)]. intros Er.
  destruct (guards_runs (s3 ← on_hw (read TWSR); if bool_decide (TW_ST_DATA_ACK = Z.land s3 0xF8) then send_byte
      else on_hw (or_reg TWCR (Z.lor (Z.lor (bit TWEA) (bit TWEN)) (bit TWIE)))) (mk_fw (fw_btn s) (fw_glob s) d2))
    as (a & s' & E); [guards|done|congruence].
Qed.

Lemma guards_fail e : guards (F := callback) (D := D) (A := unit) slv_typed anything (λ _, True) (fail e).
Proof. by intros s Hs. Qed.
#[local] Hint Resolve guards_fail : guards.

Lemma guards_address k :
  guards slv_typed anything (λ _, True) (address_loop fuel k).
Proof.
  induction k as [|k IH]; cbn [address_loop]; [apply guards_fail|].
  apply guards_seq; [eapply guards_weaken; apply guards_get|]. intros g.
  apply guards_seq; [apply guards_any|]. intros c. case_bool_decide; [|auto with guards].
  apply guards_seq; [apply guards_any|]. intros _. apply guards_seq; [|done].
  apply guards_mod. intros g' (Ha & Hi & Ho & Hw). split_and!; try done. apply u8_range.
Qed.

Lemma guards_call f : guards slv_typed anything (λ _, True) (call fuel rounds f).
Proof.
  destruct f; cbn [call]; [auto with guards|].
  unfold A_release, auto_address, i2c_slave_stop, i2c_slave_init.
  pose proof (guards_address rounds). guards.
Qed.
#[local] Hint Resolve guards_call : guards.

Lemma guards_pcint : guards slv_typed anything (λ _, True) (PCINT0_vect (call fuel rounds)).
Proof. unfold PCINT0_vect, set_previous. guards. Qed.

Lemma guards_init : guards slv_typed anything (λ _, True) initialize_system.
Proof.
  unfold initialize_system, initialize_buttons, SetUpButton, SetUpButtonAction, set_previous. guards.
Qed.

(** ** All sequences of entry points *)

Inductive slave_step : St → St → Prop :=
  | step_init s s' : initialize_system s = Ok (tt, s') → slave_step s s'
  | step_twi s s' : TWI_vect jn jq ji s = Ok (tt, s') → slave_step s s'
  | step_pcint s s' : PCINT0_vect (call fuel rounds) s = Ok (tt, s') → slave_step s s'
  | step_task s s' : on_hw usb_task s = Ok (tt, s') → slave_step s s'
  | step_world s d : slave_step s (mk_fw (fw_btn s) (fw_glob s) d).

Lemma guards_run {A} E (m : IO St A) s a s' :
  guards slv_typed E (λ _, True) m → slv_typed (fw_glob s) → m s = Ok (a, s') → slv_typed (fw_glob s').
Proof. intros Hm Hs Er. specialize (Hm s Hs). rewrite Er in Hm. apply Hm. Qed.

Lemma slave_step_typed s s' : slave_step s s' → slv_typed (fw_glob s) → slv_typed (fw_glob s').
Proof.
  destruct 1 as [s s' Er|s s' Er|s s' Er|s s' Er|s d]; intros Hs; [| | | |done];
    (eapply guards_run; [|exact Hs|exact Er]); [apply guards_init|apply guards_twi|apply guards_pcint|apply guards_any].
Qed.

(** The globals at the start of [main]. *)
Definition slave_boot : slv := mk_slv 0 (replicate 256 0%Z) (replicate 256 0%Z) I2C_SLAVE_BASE_ID.

Lemma slave_boot_typed : slv_typed slave_boot.
Proof.
  assert (is_u8 0) by (unfold is_u8; lia).
  split_and!; [done|split; [by apply Forall_replicate|done]..|]. by unfold is_u8.
Qed.

(** C7: however two-wire interrupts, buttons and rounds of the main loop
    follow each other after a reset, and whatever bytes the registers read
    as, the worker's globals keep their C types: position and address are
    bytes, both buffers have 256 bytes.  A two-wire interrupt then never leaves
    the buffers itself: it stops on a fault exactly when it is for a received
    byte and the job it runs, on the input buffer with this byte stored, stops
    on that fault. *)
Theorem worker_globals_typed s s' :
  fw_glob s = slave_boot → rtc slave_step s s' →
  slv_typed (fw_glob s') ∧
  ∀ e, TWI_vect jn jq ji s' = Err e ↔
    ∃ x, receives s' x ∧
      process_job jn jq ji (mk_fw (fw_btn s') (take_byte x (fw_glob s')) (fw_hw s')) = Err e.
Proof.
  intros Hb Hr. assert (slv_typed (fw_glob s)) as Hs by (rewrite Hb; apply slave_boot_typed).
  clear Hb. induction Hr as [s|s1 s2 s3 H12 _ IH]; [|by apply IH, (slave_step_typed s1)].
  split; [done|]. intros e. by apply twi_fault.
Qed.
End Worker.

(** ** The theorem at work: a worker is addressed, then asked for a byte *)

(** Registers that read as the bytes of a script. *)
Definition script := list Z.

#[export] Instance script_mcu : Mcu script := {|
  mcu_read _ d := match d with [] => (0%Z, []) | x :: d' => (u8 x, d') end;
  mcu_write _ _ d := d; mcu_delay _ d := d; mcu_print _ _ d := d;
  mcu_getc d := (EOF, d); mcu_usb_setup d := d; mcu_usb_task d := d; mcu_irqs d := (0, d) |}.

#[export] Instance script_bytes : ByteRegs script.
Proof. intros r [|x d]; [unfold is_u8; simpl; lia|apply u8_range]. Qed.

Definition script_worker (d : script) (a : Z) : fw callback slv script :=
  mk_fw (mk_buttons EmptyFunction EmptyFunction EmptyFunction EmptyFunction 0)
        (set_address a slave_boot) d.

Abbreviation script_step := (slave_step (D := script) 0 0 zero_node zero_queue zero_info).
Abbreviation script_vect := (TWI_vect (D := script) zero_node zero_queue zero_info).

Lemma worker_globals_typed_witness :
  slv_typed (fw_glob (script_worker [] 6)) ∧
  ∀ e, script_vect (script_worker [] 6) = Err e ↔
    ∃ x, receives (script_worker [] 6) x ∧
      process_job zero_node zero_queue zero_info
        (mk_fw (fw_btn (script_worker [] 6)) (take_byte x (set_address 6 slave_boot)) ([] : script)) = Err e.
Proof.
  assert (rtc script_step (script_worker [0x60; 0; 0xB8; 0xB8; 0xB8; 5; 0]%Z 0) (script_worker [] 6)) as Hr.
  { apply (rtc_l _ _ (script_worker [0xB8; 0xB8; 0xB8; 5; 0]%Z 0xFF)); [by apply step_twi|].
    apply (rtc_l _ _ (script_worker [] 6)); [by apply step_twi|]. apply rtc_refl. }
  apply (worker_globals_typed 0 0 zero_node zero_queue zero_info)
    with (s := script_worker [0x60; 0; 0xB8; 0xB8; 0xB8; 5; 0]%Z 0); [|reflexivity|exact Hr].
  intros i. split; [unfold is_u16|unfold is_u8]; simpl; lia.
Defined.
