(* ===== verification/Cluster.v ===== *)
(** * A worker on the controller's bus

    The worker image as a device of the controller's I2C bus: the worker's
    two-wire unit turns what happens on the bus into interrupts, and the
    interrupt routine [TWI_vect] answers.  With the master library on the
    other side this composes the two images: the theorems say what becomes of
    a register write and of a register read of the controller.  After a fault of
    its routine a board is any device at all, a parameter of the model. *)

From S2P Require Import Prelude HuffmanMem HuffmanSpec HuffmanLib.
From S2P Require Import Avr Board I2cMaster I2cWire Leds Buttons Controller Slave SlaveJobs.
Import I2c Leds Buttons Slave.

Definition TW_SR_DATA_NACK : Z := 0x88.
Definition TW_SR_STOP : Z := 0xA0.
Definition TW_ST_SLA_ACK : Z := 0xA8.
Definition TW_ST_DATA_NACK : Z := 0xC0.

(** [su_event st x]: the unit raises its interrupt with status [st] and [x] in
    the data register, which holds the last byte on the bus. *)
Class SlaveUnit (D : Type) `{SlaveRegs D} := {
  su_event : Z → Z → D → D;
  su_status st x d : Z.land st 0xF8 = st → sr_status (su_event st x d) = st;
  su_data st x d : sr_data (su_event st x d) = x;
  su_ack st x d : sr_ack (su_event st x d) = sr_ack d }.

Inductive mode := Unaddressed | Receiving | Sending.

(** The address of a worker is not the storage's. *)
Record waddr := mk_waddr { wa : Z; wa_ok : bool_decide (wa = MB85RC_DEFAULT_ADDRESS) = false }.

(** What C leaves open: the behaviour of a board whose routine did something
    undefined.  It is a device [F] of its own on the bus, about which nothing
    is known but that it answers the events of the bus (it does not hold the
    clock for ever), in a state given by the fault and the state it happened
    in. *)
Class AfterFault (D F : Type) := after_fault : fault → fw callback slv D → F.

Inductive board (D F : Type) := Running (s : fw callback slv D) | Faulted (e : fault) (f : F).
Arguments Running {_ _} _.
Arguments Faulted {_ _} _ _.

(** The worker answers to [wd_addr]. *)
Record wdev (D F : Type) := mk_wdev { wd_id : waddr; wd_mode : mode; wd_st : board D F }.
Arguments mk_wdev {_ _} _ _ _.
Arguments wd_id {_ _} _.
Arguments wd_mode {_ _} _.
Arguments wd_st {_ _} _.

Definition wd_addr {D F} (w : wdev D F) : Z := wa (wd_id w).

Section Device.
Context `{SlaveUnit D} `{I2cBus F, !AfterFault D F}.
Context (jn : nat → Huffman.node_t) (jq : nat → Huffman.queue_t) (ji : nat → Huffman.encoding_info_t).

Abbreviation St := (fw callback slv D).
Abbreviation W := (wdev D F).

(** The interrupt is taken with the given status and data. *)
Definition interrupt (st x : Z) (s : St) : board D F :=
  match TWI_vect jn jq ji (mk_fw (fw_btn s) (fw_glob s) (su_event st x (fw_hw s))) with
  | Ok (_, s') => Running s'
  | Err e => Faulted e (after_fault e s)
  end.

Definition to_mode (m : mode) (w : W) : W := mk_wdev (wd_id w) m (wd_st w).
Definition to_state (m : mode) (s : board D F) (w : W) : W := mk_wdev (wd_id w) m s.

(** A board after a fault goes on as [F]. *)
Definition go_on {A} (w : W) (e : fault) (r : A * F) : A * W := (r.1, to_state (wd_mode w) (Faulted e r.2) w).

(** A STOP or a repeated START ends a reception with an interrupt. *)
Definition wd_end (w : W) : W :=
  match wd_st w with
  | Running s =>
      match wd_mode w with
      | Receiving => to_state Unaddressed (interrupt TW_SR_STOP (sr_data (fw_hw s)) s) w
      | _ => to_mode Unaddressed w
      end
  | Faulted e f => to_state (wd_mode w) (Faulted e (bus_stop f)) w
  end.

Definition wd_start (w : W) : bool * W :=
  match wd_st w with
  | Running _ => (true, wd_end w)
  | Faulted e f => go_on w e (bus_start f)
  end.

Definition wd_select (a : Z) (w : W) : bool * W :=
  match wd_st w with
  | Running s =>
      if negb (sr_ack (fw_hw s)) then (false, to_mode Unaddressed w)
      else if bool_decide (a = 2 * wd_addr w)%Z then
        (true, to_state Receiving (interrupt TW_SR_SLA_ACK a s) w)
      else if bool_decide (a = 2 * wd_addr w + 1)%Z then
        (true, to_state Sending (interrupt TW_ST_SLA_ACK a s) w)
      else (false, to_mode Unaddressed w)
  | Faulted e f => go_on w e (bus_addr a f)
  end.

Definition wd_put (x : Z) (w : W) : bool * W :=
  match wd_st w with
  | Running s =>
      match wd_mode w with
      | Receiving =>
          if sr_ack (fw_hw s) then (true, to_state Receiving (interrupt TW_SR_DATA_ACK x s) w)
          else (false, to_state Unaddressed (interrupt TW_SR_DATA_NACK x s) w)
      | _ => (false, w)
      end
  | Faulted e f => go_on w e (bus_put x f)
  end.

(** The byte in the data register goes out; after an acknowledge the routine
    provides the next one. *)
Definition wd_get (ack : bool) (w : W) : Z * W :=
  match wd_st w with
  | Running s =>
      match wd_mode w with
      | Sending =>
          let x := sr_data (fw_hw s) in
          (x, if ack then to_state Sending (interrupt TW_ST_DATA_ACK x s) w
              else to_state Unaddressed (interrupt TW_ST_DATA_NACK x s) w)
      | _ => (255%Z, w)
      end
  | Faulted e f => go_on w e (bus_get ack f)
  end.

Definition worker_bus : I2cBus W := {|
  bus_start := wd_start;
  bus_addr := wd_select;
  bus_put := wd_put;
  bus_get := wd_get;
  bus_stop := wd_end |}.

#[local] Existing Instance worker_bus.

(** ** One interrupt *)

(** The worker is in mode [m] with globals [g], the register [x], and
    acknowledges the next byte or not. *)
Definition ready (w : W) (dev : Z) (m : mode) (g : slv) (x : Z) (k : bool) : Prop :=
  wd_addr w = dev ∧ wd_mode w = m ∧
  ∃ s, wd_st w = Running s ∧ fw_glob s = g ∧ sr_data (fw_hw s) = x ∧ sr_ack (fw_hw s) = k.

Lemma event_stands (s : St) st x : Z.land st 0xF8 = st →
  stands (mk_fw (fw_btn s) (fw_glob s) (su_event st x (fw_hw s))) (fw_glob s) st x (sr_ack (fw_hw s)).
Proof. intros Hst. unfold stands, shows. cbn [fw_glob fw_hw]. by rewrite su_status, su_data, su_ack. Qed.

Lemma ready_end w dev m g x : ready w dev m g x true → m ≠ Sending →
  ready (wd_end w) dev Unaddressed g x true.
Proof.
  intros (Hd & Hm & s & Hs & Hg & Hx & Hk) Hn. unfold wd_end. rewrite Hs, Hm.
  destruct m; [by split_and!; [..|exists s]| |done].
  destruct (TWI_vect_other jn jq ji _ _ _ _ _ (event_stands s TW_SR_STOP (sr_data (fw_hw s)) eq_refl))
    as (s' & E & (Hg' & _ & Hx') & Hk'); [by apply (bool_decide_unpack _)|].
  unfold interrupt. rewrite E. split_and!; [done|done|]. exists s'. split_and!; [done|congruence..].
Qed.

Lemma ready_write w dev g x : ready w dev Unaddressed g x true →
  ∃ w', wd_select (2 * dev) w = (true, w') ∧ ready w' dev Receiving (set_address 0xFF g) (2 * dev) true.
Proof.
  intros (Hd & Hm & s & Hs & Hg & Hx & Hk). unfold wd_select. rewrite Hs, Hk, Hd, bool_decide_true by done.
  destruct (TWI_vect_addressed jn jq ji _ _ _ _ (event_stands s TW_SR_SLA_ACK (2 * dev) eq_refl))
    as (s' & E & (Hg' & _ & Hx') & Hk').
  eexists. split; [done|]. unfold interrupt. rewrite E. split_and!; [done|done|].
  exists s'. split_and!; [done|congruence..].
Qed.

Lemma ready_read w dev g x : ready w dev Unaddressed g x true →
  ∃ w', wd_select (2 * dev + 1) w = (true, w') ∧ ready w' dev Sending g (2 * dev + 1) true.
Proof.
  intros (Hd & Hm & s & Hs & Hg & Hx & Hk). unfold wd_select. rewrite Hs, Hk, Hd.
  rewrite (bool_decide_false (_ = 2 * dev)%Z), bool_decide_true by lia.
  destruct (TWI_vect_other jn jq ji _ _ _ _ _ (event_stands s TW_ST_SLA_ACK (2 * dev + 1) eq_refl))
    as (s' & E & (Hg' & _ & Hx') & Hk'); [by apply (bool_decide_unpack _)|].
  eexists. split; [done|]. unfold interrupt. rewrite E. split_and!; [done|done|].
  exists s'. split_and!; [done|congruence..].
Qed.

(** A byte that is received: the routine stores it and runs the job. *)
Lemma ready_put w dev g x y g' :
  ready w dev Receiving g x true → is_u8 (buffer_address g) → length (in_buffer g) = 256 →
  run_job jn jq ji (take_byte y g) = Ok g' →
  ∃ w', wd_put y w = (true, w') ∧ ready w' dev Receiving g' y (room g).
Proof.
  intros (Hd & Hm & s & Hs & Hg & Hx & Hk) Ha Hl Hr. unfold wd_put. rewrite Hs, Hm, Hk.
  destruct (TWI_vect_stands jn jq ji _ _ _ _ (event_stands s TW_SR_DATA_ACK y eq_refl))
    as (s' & [(Hg' & _ & Hx') Hk'] & E); [by rewrite Hg|by rewrite Hg|].
  rewrite Hg, Hr in E. eexists. split; [done|]. unfold interrupt. rewrite Hg, E.
  split_and!; [done|done|]. eexists. split_and!; [done|done|done|]. cbn [fw_hw]. by rewrite Hk', Hg.
Qed.

(** A byte that is sent and acknowledged: the next one comes from the output
    buffer. *)
Lemma ready_get w dev g x y :
  ready w dev Sending g x true → is_u8 x → (0 ≤ buffer_address g < 0xFF)%Z →
  out_buffer g !! Z.to_nat (buffer_address g) = Some y → is_u8 y →
  ∃ w', wd_get true w = (x, w') ∧ ready w' dev Sending (set_address (u8 (buffer_address g + 1)) g) y true.
Proof.
  intros (Hd & Hm & s & Hs & Hg & Hx & Hk) Hux Ha Hy Huy. unfold wd_get. rewrite Hs, Hm, Hx.
  destruct (TWI_vect_sends jn jq ji _ _ _ y _ (event_stands s TW_ST_DATA_ACK x eq_refl))
    as (s' & E & [(Hg' & _ & Hx') Hk']); [done|rewrite Hg; unfold is_u8; lia| |done|].
  { rewrite Hg, decide_False by lia. done. }
  rewrite Hg in *. rewrite decide_False in Hg' by lia.
  eexists. split; [done|]. unfold interrupt. rewrite Hg, E. split_and!; [done|done|]. by exists s'.
Qed.

Lemma ready_last w dev g x : ready w dev Sending g x true →
  ∃ w', wd_get false w = (x, w') ∧ ready w' dev Unaddressed g x true.
Proof.
  intros (Hd & Hm & s & Hs & Hg & Hx & Hk). unfold wd_get. rewrite Hs, Hm, Hx.
  destruct (TWI_vect_other jn jq ji _ _ _ _ _ (event_stands s TW_ST_DATA_NACK x eq_refl))
    as (s' & E & [(Hg' & _ & Hx') Hk']); [by apply (bool_decide_unpack _)|].
  eexists. split; [done|]. unfold interrupt. rewrite E. split_and!; [done|done|].
  exists s'. split_and!; [done|congruence..].
Qed.

(** ** A sequence of bytes *)

(** What the bytes [l] make of the worker: each is stored, and the job is run
    after each. *)
Fixpoint feed (l : list Z) (g : slv) : res slv :=
  match l with
  | [] => Ok g
  | x :: l' => g' ← run_job jn jq ji (take_byte x g); feed l' g'
  end.

(** The buffer before the job runs on the next byte. *)
Lemma take_byte_stored x g : (0 ≤ buffer_address g < 0xFF)%Z →
  buffer_address (take_byte x g) = (buffer_address g + 1)%Z ∧
  in_buffer (take_byte x g) = <[Z.to_nat (buffer_address g) := x]> (in_buffer g) ∧
  (buffer_address g + 1 < 0xFF → room g = true)%Z.
Proof.
  intros Ha. unfold take_byte, room. rewrite bool_decide_false by lia. cbn [orb].
  cbn [set_address set_in buffer_address in_buffer]. rewrite u8_small by (unfold is_u8; lia).
  split_and!; [done|done|]. intros ?. by apply bool_decide_true.
Qed.

Lemma worker_send data : ∀ w dev g x i g',
  ready w dev Receiving g x true → length (in_buffer g) = 256 → (0 ≤ buffer_address g)%Z →
  (buffer_address g + Z.of_nat (length data) < 0xFF)%Z → feed data g = Ok g' →
  in_buffer g' = write_at (in_buffer g) (Z.to_nat (buffer_address g)) data ∧
  buffer_address g' = (buffer_address g + Z.of_nat (length data))%Z ∧
  ∃ w' x', w_send data (mk_wire Writing w i) = Ok (0%Z, mk_wire Writing w' i) ∧
    ready w' dev Receiving g' x' true.
Proof.
  induction data as [|y data IH]; intros w dev g x i g' Hw Hl Ha Hn Hf; cbn [feed w_send write_at length] in *.
  { injection Hf as <-. split_and!; [done|lia|]. by exists w, x. }
  apply res_bind_Ok_inv in Hf as (g1 & Hr & Hf).
  destruct (take_byte_stored y g) as (Ea & Ei & Er); [lia|].
  destruct (run_job_keeps jn jq ji _ _ Hr) as [Ha1 Hi1]. rewrite Ea in Ha1. rewrite Ei in Hi1.
  destruct (ready_put w dev g x y g1) as (w1 & E1 & Hw1); [done|unfold is_u8; lia|done|done|].
  rewrite Er in Hw1 by lia.
  destruct (IH w1 dev g1 y i g' Hw1) as (Hi' & Ha' & w2 & x2 & E2 & Hw2);
    [by rewrite Hi1, length_insert|lia|lia|done|].
  split_and!; [|lia|].
  { rewrite Hi', Hi1, Ha1. f_equal. lia. }
  exists w2, x2. split; [|done].
  rewrite (io_bind_Ok _ _ _ 0%Z (mk_wire Writing w1 i)).
  - by rewrite bool_decide_false by (by intros ?).
  - unfold w_write. rewrite bool_decide_true by done. cbn [w_bus bus_put worker_bus]. by rewrite E1.
Qed.

Lemma feed_app l1 l2 g : feed (l1 ++ l2) g = g' ← feed l1 g; feed l2 g'.
Proof.
  revert g. induction l1 as [|x l1 IH]; intros g; [done|]. cbn [app feed].
  destruct (run_job jn jq ji (take_byte x g)) as [g1|e]; [|done]. rewrite !res_bind_Ok. apply IH.
Qed.

Lemma worker_write w w1 i y : wd_put y w = (true, w1) →
  w_write y (mk_wire Writing w i) = Ok (0%Z, mk_wire Writing w1 i).
Proof.
  intros E. unfold w_write. rewrite bool_decide_true by done. cbn [w_bus bus_put worker_bus]. by rewrite E.
Qed.

(** The two bytes of an offset: the first is the position, the second is
    stored there. *)
Lemma worker_offset {A} w dev g x i hi lo g' (k : IO (wire W) A) :
  ready w dev Receiving (set_address 0xFF g) x true → length (in_buffer g) = 256 →
  (0 ≤ hi)%Z → (hi + 1 < 0xFF)%Z → feed [hi; lo] (set_address 0xFF g) = Ok g' →
  in_buffer g' = <[Z.to_nat hi := lo]> (in_buffer g) ∧ buffer_address g' = (hi + 1)%Z ∧
  ∃ w', (w_write hi;; w_write lo;; k) (mk_wire Writing w i) = k (mk_wire Writing w' i) ∧
    ready w' dev Receiving g' lo true.
Proof.
  intros Hw Hl Hh Hh2 Hf. cbn [feed] in Hf.
  apply res_bind_Ok_inv in Hf as (g1 & Hr1 & Hf). apply res_bind_Ok_inv in Hf as (g2 & Hr2 & [= <-]).
  destruct (run_job_keeps jn jq ji _ _ Hr1) as [Ha1 Hi1].
  change (take_byte hi (set_address 255 g)) with (set_address hi (set_address 255 g)) in Ha1, Hi1.
  cbn [set_address buffer_address in_buffer] in Ha1, Hi1.
  destruct (take_byte_stored lo g1) as (Ea & Ei & Er); [lia|].
  destruct (run_job_keeps jn jq ji _ _ Hr2) as [Ha2 Hi2]. rewrite Ea in Ha2. rewrite Ei in Hi2.
  destruct (ready_put w dev (set_address 255 g) x hi g1) as (w1 & E1 & Hw1); [done|done|done|done|].
  destruct (ready_put w1 dev g1 hi lo g2) as (w2 & E2 & Hw2);
    [done|rewrite Ha1; unfold is_u8; lia|by rewrite Hi1|done|].
  rewrite Er in Hw2 by lia. split_and!; [by rewrite Hi2, Hi1, Ha1|by rewrite Ha2, Ha1|].
  exists w2. split; [|done]. rewrite (io_bind_Ok _ _ _ _ _ (worker_write _ _ i _ E1)).
  by rewrite (io_bind_Ok _ _ _ _ _ (worker_write _ _ i _ E2)).
Qed.

Lemma worker_start w w1 a l i dev m g x k : ready w dev m g x k → wd_select a (wd_end w) = (true, w1) →
  w_start a (mk_wire l w i) = Ok (0%Z, mk_wire (if Z.testbit a 0 then Reading else Writing) w1 i).
Proof.
  intros (_ & _ & s & Hs & _) E. unfold w_start. cbn [w_bus bus_start bus_addr worker_bus].
  unfold wd_start. by rewrite Hs, E.
Qed.

(** ** Transactions *)

Lemma worker_writeReg w dev g x l i off data g' :
  ready w dev Unaddressed g x true → (0 ≤ dev < 128)%Z → length (in_buffer g) = 256 → (0 ≤ off < 65536)%Z →
  (off `div` 256 + 1 + Z.of_nat (length data) < 0xFF)%Z →
  feed (off `div` 256 :: off `mod` 256 :: data)%Z (set_address 0xFF g) = Ok g' →
  in_buffer g' = write_at (in_buffer g) (Z.to_nat (off `div` 256)) ((off `mod` 256)%Z :: data) ∧
  ∃ w' x', w_writeReg dev off data (mk_wire l w i) = Ok (0%Z, mk_wire Released w' i) ∧
    ready w' dev Unaddressed g' x' true.
Proof.
  intros Hw Hd Hl Ho Hn Hf. set (hi := (off `div` 256)%Z) in *. set (lo := (off `mod` 256)%Z) in *.
  assert (0 ≤ hi)%Z as Hhi by (apply Z.div_pos; lia).
  change (hi :: lo :: data) with ([hi; lo] ++ data) in Hf. rewrite feed_app in Hf.
  apply res_bind_Ok_inv in Hf as (g1 & Hf1 & Hf).
  pose proof (ready_end w dev Unaddressed g x Hw ltac:(done)) as Hw0.
  destruct (ready_write _ _ _ _ Hw0) as (w1 & E1 & Hw1).
  unfold w_writeReg. fold hi lo. rewrite (u8_small (2 * dev)) by (unfold is_u8; lia).
  rewrite (io_bind_Ok _ _ _ _ _ (worker_start w w1 _ l i _ _ _ _ _ Hw E1)).
  rewrite bool_decide_false by (by intros ?).
  replace (Z.testbit (2 * dev) 0) with false by (symmetry; apply Z.testbit_even_0).
  rewrite (u8_small hi) by (unfold is_u8, hi; split; [lia|apply Z.div_lt_upper_bound; lia]).
  set (k := c1 ← w_send data; _).
  destruct (worker_offset w1 dev g (2 * dev) i hi lo g1 k Hw1 Hl Hhi) as (Hi1 & Ha1 & w2 & -> & Hw2); [lia|done|].
  destruct (worker_send data w2 dev g1 lo i g' Hw2) as (Hi2 & _ & w3 & x3 & E3 & Hw3);
    [by rewrite Hi1, length_insert|lia|lia|done|].
  split.
  { rewrite Hi2, Hi1, Ha1. cbn [write_at]. f_equal. lia. }
  exists (wd_end w3), x3. split; [|by eapply ready_end].
  unfold k. rewrite (io_bind_Ok _ _ _ _ _ E3). by rewrite bool_decide_false by (by intros ?).
Qed.

(** The byte in the data register, then the output buffer from the position
    on. *)
Lemma worker_receive n : ∀ w dev g x i,
  ready w dev Sending g x true → is_u8 x → (0 ≤ buffer_address g)%Z →
  (buffer_address g + Z.of_nat n < 0xFF)%Z → Z.to_nat (buffer_address g) + n ≤ length (out_buffer g) →
  Forall is_u8 (out_buffer g) →
  ∃ w' x', w_receive n (mk_wire Reading w i)
           = Ok (x :: take n (drop (Z.to_nat (buffer_address g)) (out_buffer g)), mk_wire Reading w' i) ∧
    ready w' dev Unaddressed (set_address (buffer_address g + Z.of_nat n) g) x' true.
Proof.
  induction n as [|n IH]; intros w dev g x i Hw Hx Ha Hn Hl Hu; cbn [w_receive].
  - destruct (ready_last _ _ _ _ Hw) as (w1 & E1 & Hw1). exists w1, x.
    rewrite take_0, Z.add_0_r. split; [|by destruct g].
    rewrite (io_bind_Ok _ _ _ x (mk_wire Reading w1 i)); [done|].
    unfold w_read. rewrite bool_decide_true by done. cbn [w_bus bus_get worker_bus]. by rewrite E1.
  - destruct (lookup_lt_is_Some_2 (out_buffer g) (Z.to_nat (buffer_address g))) as [y Hy]; [lia|].
    assert (is_u8 y) as Huy by (by eapply (Forall_lookup_1 _ (out_buffer g))).
    destruct (ready_get w dev g x y) as (w1 & E1 & Hw1); [done|done|lia|done|done|].
    rewrite u8_small in Hw1 by (unfold is_u8; lia).
    destruct (IH w1 dev (set_address (buffer_address g + 1) g) y i) as (w2 & x2 & E2 & Hw2);
      cbn [set_address buffer_address out_buffer] in *; [done|done|lia|lia|lia|done|].
    exists w2, x2. rewrite (io_bind_Ok _ _ _ x (mk_wire Reading w1 i)).
    + rewrite (io_bind_Ok _ _ _ _ _ E2). split.
      * rewrite (drop_S _ _ _ Hy). replace (Z.to_nat (buffer_address g + 1)) with (S (Z.to_nat (buffer_address g))) by lia.
        done.
      * by replace (buffer_address g + Z.of_nat (S n))%Z with (buffer_address g + 1 + Z.of_nat n)%Z by lia.
    + unfold w_read. rewrite bool_decide_true by done. cbn [w_bus bus_get worker_bus]. by rewrite E1.
Qed.

Lemma worker_readReg w dev g x l i off n g' :
  ready w dev Unaddressed g x true → (0 ≤ dev < 128)%Z → length (in_buffer g) = 256 → (0 ≤ off < 65536)%Z →
  0 < n → (off `div` 256 + Z.of_nat n < 0xFF)%Z →
  feed [off `div` 256; off `mod` 256]%Z (set_address 0xFF g) = Ok g' →
  Z.to_nat (off `div` 256) + n ≤ length (out_buffer g') → Forall is_u8 (out_buffer g') →
  ∃ w' x', w_readReg dev off n (mk_wire l w i)
           = Ok (Some ((2 * dev + 1)%Z :: take (pred n) (drop (S (Z.to_nat (off `div` 256))) (out_buffer g'))),
                 mk_wire Released w' i) ∧
    ready w' dev Unaddressed (set_address (off `div` 256 + Z.of_nat n) g') x' true ∧
    in_buffer g' = <[Z.to_nat (off `div` 256) := (off `mod` 256)%Z]> (in_buffer g).
Proof.
  intros Hw Hd Hl Ho Hn Hn2 Hf Hlo Hu. set (hi := (off `div` 256)%Z) in *. set (lo := (off `mod` 256)%Z) in *.
  assert (0 ≤ hi)%Z as Hhi by (apply Z.div_pos; lia).
  pose proof (ready_end w dev Unaddressed g x Hw ltac:(done)) as Hw0.
  destruct (ready_write _ _ _ _ Hw0) as (w1 & E1 & Hw1).
  unfold w_readReg. fold hi lo. rewrite (u8_small (2 * dev)), (u8_small (2 * dev + 1)) by (unfold is_u8; lia).
  rewrite (io_bind_Ok _ _ _ _ _ (worker_start w w1 _ l i _ _ _ _ _ Hw E1)), bool_decide_false by (by intros ?).
  replace (Z.testbit (2 * dev) 0) with false by (symmetry; apply Z.testbit_even_0).
  rewrite (u8_small hi) by (unfold is_u8, hi; split; [lia|apply Z.div_lt_upper_bound; lia]).
  set (k := c1 ← w_start _; _).
  destruct (worker_offset w1 dev g (2 * dev) i hi lo g' k Hw1 Hl Hhi) as (Hi1 & Ha1 & w2 & -> & Hw2); [lia|done|].
  destruct (ready_read _ _ _ _ (ready_end _ _ _ _ _ Hw2 ltac:(done))) as (w3 & E3 & Hw3).
  destruct (worker_receive (pred n) w3 dev g' (2 * dev + 1) i) as (w4 & x4 & E4 & Hw4);
    [done|unfold is_u8; lia|lia|lia|lia|done|].
  exists (wd_end w4), x4. split_and!; [| |done].
  - unfold k. rewrite (io_bind_Ok _ _ _ _ _ (worker_start w2 w3 _ Writing i _ _ _ _ _ Hw2 E3)).
    rewrite bool_decide_false by (by intros ?). replace (Z.testbit (2 * dev + 1) 0) with true
      by (symmetry; apply Z.testbit_odd_0).
    rewrite (io_bind_Ok _ _ _ _ _ E4), Ha1. by replace (Z.to_nat (hi + 1)) with (S (Z.to_nat hi)) by lia.
  - apply (ready_end _ _ Unaddressed); [|done]. rewrite Ha1 in Hw4.
    by replace (hi + Z.of_nat n)%Z with (hi + 1 + Z.of_nat (pred n))%Z by lia.
Qed.

(** ** The two images together *)

Section Composed.
Context `{Mcu C} `{!Board C W} (fuel : nat) (Hfuel : latency * 257 + 256 < fuel).

(** C30: the controller's register write reaches the worker's buffer one byte
    too far: the high byte of the offset is the position, the low byte is
    stored there and the data behind it.  The worker acknowledges every byte
    and the controller sees success, provided the worker survives the jobs it
    runs after every single byte ([feed]). *)
Theorem worker_write_shifted (c : C) w dev g x l i off data g' :
  on_wire c (mk_wire l w i) → ready w dev Unaddressed g x true → (0 ≤ dev < 128)%Z →
  length (in_buffer g) = 256 → (0 ≤ off < 65536)%Z → Forall is_u8 data →
  (off `div` 256 + 1 + Z.of_nat (length data) < 0xFF)%Z →
  feed (off `div` 256 :: off `mod` 256 :: data)%Z (set_address 0xFF g) = Ok g' →
  ∃ c' w' x', i2c_writeReg fuel dev off data 0 (Z.of_nat (length data)) c = Ok (0%Z, c') ∧
    on_wire c' (mk_wire Released w' i) ∧ ready w' dev Unaddressed g' x' true ∧
    in_buffer g' = write_at (in_buffer g) (Z.to_nat (off `div` 256)) ((off `mod` 256)%Z :: data).
Proof.
  intros HR Hw Hd Hl Ho Hu Hn Hf.
  destruct (worker_writeReg w dev g x l i off data g' Hw Hd Hl Ho Hn Hf) as (Hi & w' & x' & E & Hw').
  destruct (i2c_writeReg_refines fuel Hfuel dev off data 0 (Z.of_nat (length data)) ltac:(lia) Hu
    c (mk_wire l w i) 0%Z (mk_wire Released w' i) HR) as (c' & E' & HR').
  { by rewrite Nat2Z.id, drop_0, firstn_all. }
  by exists c', w', x'.
Qed.

(** C31: the controller's register read from a worker gives the worker's own
    address byte first and then the output buffer from one position further on,
    after the low byte of the offset has overwritten a byte of the input
    buffer.  The address byte has bit 0 set, the flag [I2C_READY]. *)
Theorem worker_read_shifted (c : C) w dev g x l i off buf pos n g' :
  on_wire c (mk_wire l w i) → ready w dev Unaddressed g x true → (0 ≤ dev < 128)%Z →
  length (in_buffer g) = 256 → (0 ≤ off < 65536)%Z → 0 < n → pos + n ≤ length buf →
  (off `div` 256 + Z.of_nat n < 0xFF)%Z →
  feed [off `div` 256; off `mod` 256]%Z (set_address 0xFF g) = Ok g' →
  Z.to_nat (off `div` 256) + n ≤ length (out_buffer g') → Forall is_u8 (out_buffer g') →
  ∃ c' w' x' bytes, i2c_readReg fuel dev off buf pos (Z.of_nat n) c = Ok (0%Z, write_at buf pos bytes, c') ∧
    bytes = (2 * dev + 1)%Z :: take (pred n) (drop (S (Z.to_nat (off `div` 256))) (out_buffer g')) ∧
    on_wire c' (mk_wire Released w' i) ∧
    ready w' dev Unaddressed (set_address (off `div` 256 + Z.of_nat n) g') x' true ∧
    in_buffer g' = <[Z.to_nat (off `div` 256) := (off `mod` 256)%Z]> (in_buffer g).
Proof.
  intros HR Hw Hd Hl Ho Hn Hbuf Hn2 Hf Hlo Hu. assert (0 ≤ off `div` 256)%Z by (apply Z.div_pos; lia).
  destruct (worker_readReg w dev g x l i off n g' Hw Hd Hl Ho Hn Hn2 Hf Hlo Hu) as (w' & x' & E & Hw' & Hi).
  destruct (i2c_readReg_refines fuel Hfuel dev off buf pos (Z.of_nat n) ltac:(lia) ltac:(lia)
    c (mk_wire l w i) (0%Z, write_at buf pos ((2 * dev + 1)%Z ::
      take (pred n) (drop (S (Z.to_nat (off `div` 256))) (out_buffer g')))) (mk_wire Released w' i) HR) as (c' & E' & HR').
  { rewrite Nat2Z.id. by rewrite (io_bind_Ok _ _ _ _ _ E). }
  exists c', w', x', ((2 * dev + 1)%Z :: take (pred n) (drop (S (Z.to_nat (off `div` 256))) (out_buffer g'))).
  by split_and!.
Qed.
End Composed.
End Device.

(** ** The theorems at work: an executable worker that kept a compressed block *)

#[export] Program Instance sregs_unit : SlaveUnit sregs := {|
  su_event st x d := mk_sregs st x (r_twcr d) (r_twar d) |}.
Solve All Obligations with done.

(** A board that answers nothing after a fault. *)
#[export] Instance silent : AfterFault sregs unit := λ _ _, tt.

Definition demo_compressed : list Z :=
  match Huffman.huffman_compress zero_node zero_queue zero_info demo_data 18 (replicate 254 0%Z) with
  | Ok b => b
  | Err _ => []
  end.

Definition kept : slv := mk_slv 7 (DECODE :: 18%Z :: demo_compressed) (replicate 256 0%Z) 0x20.

Definition demo_dev : wdev sregs unit :=
  mk_wdev (mk_waddr 0x20 eq_refl) Unaddressed
    (Running (mk_fw (mk_buttons EmptyFunction EmptyFunction EmptyFunction EmptyFunction 0) kept
             (mk_sregs 0 0 (bit TWEA) 0))).

#[local] Instance demo_bus : I2cBus (wdev sregs unit) := worker_bus zero_node zero_queue zero_info.

Definition demo_master : hw (wdev sregs unit) :=
  mk_hw (mk_twi Released TW_NO_INFO 0 false false 0 demo_dev) (mk_io ∅ [] [] [] []).

Definition fed (l : list Z) : slv :=
  match feed zero_node zero_queue zero_info l (set_address 0xFF kept) with Ok g => g | Err _ => kept end.

Lemma demo_dev_ready : ready demo_dev 0x20 Unaddressed kept 0 true.
Proof. split_and!; [done|done|]. by eexists. Defined.

Lemma demo_master_wire : on_wire demo_master (mk_wire Released demo_dev (mk_io ∅ [] [] [] [])).
Proof. by split_and!. Defined.

Lemma demo_master_fuel : latency (D := hw (wdev sregs unit)) (B := wdev sregs unit) * 257 + 256 < 1000.
Proof. simpl. lia. Defined.

(** The header and the length of an encoding job, written to offset 0. *)
Lemma worker_write_shifted_witness :
  ∃ c' w' x', i2c_writeReg 1000 0x20 0 [ENCODE; 18%Z] 0 2 demo_master = Ok (0%Z, c') ∧
    on_wire c' (mk_wire Released w' (mk_io ∅ [] [] [] [])) ∧
    ready w' 0x20 Unaddressed (fed [0; 0; ENCODE; 18]%Z) x' true ∧
    in_buffer (fed [0; 0; ENCODE; 18]%Z) = 0%Z :: ENCODE :: 18%Z :: drop 3 (in_buffer kept).
Proof.
  apply (worker_write_shifted zero_node zero_queue zero_info 1000 demo_master_fuel
           demo_master demo_dev 0x20 kept 0 Released (mk_io ∅ [] [] [] []) 0 [ENCODE; 18%Z]);
    [apply demo_master_wire|apply demo_dev_ready|lia|vm_compute; reflexivity|lia
    |repeat constructor; done|vm_compute; reflexivity|vm_compute; reflexivity].
Defined.

(** The two status bytes the controller asks every worker for. *)
Lemma worker_read_shifted_witness :
  ∃ c' w' x' bytes, i2c_readReg 1000 0x20 0 [0; 0]%Z 0 2 demo_master = Ok (0%Z, write_at [0; 0]%Z 0 bytes, c') ∧
    bytes = 0x41%Z :: take 1 (drop 1 (out_buffer (fed [0; 0]%Z))) ∧
    on_wire c' (mk_wire Released w' (mk_io ∅ [] [] [] [])) ∧
    ready w' 0x20 Unaddressed (set_address 2 (fed [0; 0]%Z)) x' true ∧
    in_buffer (fed [0; 0]%Z) = <[0 := 0%Z]> (in_buffer kept).
Proof.
  apply (worker_read_shifted zero_node zero_queue zero_info 1000 demo_master_fuel
           demo_master demo_dev 0x20 kept 0 Released (mk_io ∅ [] [] [] []) 0 [0; 0]%Z 0 2);
    [apply demo_master_wire|apply demo_dev_ready|lia|vm_compute; reflexivity|lia|lia|simpl; lia|done
    |vm_compute; reflexivity|vm_compute; lia|apply (bool_decide_unpack _); vm_compute; exact I].
Defined.
