(* ===== verification/ClusterJobs.v ===== *)
(** * Controller and workers on one bus

    A row of workers beside the storage chip: the workers discharge the
    interfaces [Quiet] and [Stations], provided a board after a fault keeps to
    them too, so the controller's theorems about the storage and the search for
    workers hold of the row.  What then becomes of the first request of the
    controller to a worker fresh from a reset, whatever a board answers after
    a fault. *)

From S2P Require Import Prelude HuffmanMem HuffmanSpec HuffmanLib.
From S2P Require Import Avr Board I2cMaster I2cWire Fram Stations Store Leds Buttons Controller.
From S2P Require Import ControllerFiles ControllerJobs Slave SlaveJobs Cluster.
From stdpp Require Import strings gmap.
Import I2c Leds Buttons Controller.

Section Workers.
Context `{SlaveUnit D} `{I2cBus F, !AfterFault D F}.
Context (jn : nat → Huffman.node_t) (jq : nat → Huffman.queue_t) (ji : nat → Huffman.encoding_info_t).

Abbreviation W := (wdev D F).
#[local] Instance wbus : I2cBus W := worker_bus jn jq ji.
Abbreviation wend := (wd_end jn jq ji).

(** ** A worker on the bus of the storage *)

(** A worker whose routine runs, between two transactions. *)
Definition resting (w : W) (s : fw Slave.callback Slave.slv D) : Prop :=
  wd_st w = Running s ∧ wd_mode w = Unaddressed.

Lemma wd_end_rests (w : W) s : wd_st w = Running s → ∃ s', resting (wend w) s'.
Proof.
  intros Es. unfold wd_end, resting. rewrite Es. destruct (wd_mode w); [by exists s| |by exists s].
  destruct (TWI_vect_other jn jq ji _ _ _ _ _ (event_stands s TW_SR_STOP (sr_data (fw_hw s)) eq_refl))
    as (s' & E & _); [by apply (bool_decide_unpack _)|].
  unfold interrupt. rewrite E. by exists s'.
Qed.

Lemma wd_end_addr (w : W) : wd_addr (wend w) = wd_addr w.
Proof. unfold wd_end. by destruct (wd_st w), (wd_mode w). Qed.

Lemma rest_mode (w : W) s : resting w s → to_mode Unaddressed w = w.
Proof. destruct w. by intros [_ [= ->]]. Qed.

Lemma wd_end_resting (w : W) s : resting w s → wend w = w.
Proof. intros Hw. unfold wd_end. rewrite (proj1 Hw), (proj2 Hw). by eapply rest_mode. Qed.

Lemma wd_addr_ok (w : W) : wd_addr w ≠ MB85RC_DEFAULT_ADDRESS.
Proof. destruct w as [[a Ha] m s]. exact (proj1 (bool_decide_eq_false _) Ha). Qed.

(** A worker that is not addressed keeps out. *)
Lemma wd_select_other a w s : resting w s →
  a ≠ (2 * wd_addr w)%Z → a ≠ (2 * wd_addr w + 1)%Z → wd_select jn jq ji a w = (false, w).
Proof.
  intros Hw Hn1 Hn2. unfold wd_select. rewrite !bool_decide_false by done.
  rewrite (rest_mode w s Hw), (proj1 Hw). by destruct (negb _).
Qed.

Lemma rest_start w s : resting w s → wd_start jn jq ji w = (true, w).
Proof. intros Hw. unfold wd_start. by rewrite (proj1 Hw), (wd_end_resting w s). Qed.

Lemma rest_put w s x : resting w s → wd_put jn jq ji x w = (false, w).
Proof. intros Hw. unfold wd_put. by rewrite (proj1 Hw), (proj2 Hw). Qed.

Lemma rest_get w s k : resting w s → wd_get jn jq ji k w = (255%Z, w).
Proof. intros Hw. unfold wd_get. by rewrite (proj1 Hw), (proj2 Hw). Qed.

(** ** Interfaces *)

Section Laws.
Context `{!Quiet F, !Stations F}.

#[export] Instance wdev_quiet : Quiet W.
Proof.
  refine {| q_idle w := match wd_st w with
                        | Running _ => wend w
                        | Faulted e f => to_state (wd_mode w) (Faulted e (q_idle f)) w
                        end |}; intros b; destruct (wd_st b) as [s|e f] eqn:Eb;
    try (destruct (wd_end_rests b s Eb) as [s' Hs']); intros;
    cbn [bus_start bus_addr bus_put bus_get bus_stop wbus worker_bus].
  - unfold wd_start. by rewrite Eb.
  - unfold wd_start, go_on. by rewrite Eb, q_start.
  - pose proof (wd_addr_ok b). unfold MB85RC_DEFAULT_ADDRESS in *.
    eapply wd_select_other; [exact Hs'|rewrite wd_end_addr; lia..].
  - unfold wd_select, go_on. cbn [to_state wd_st wd_mode wd_id]. by rewrite q_addr.
  - by eapply rest_put.
  - unfold wd_put, go_on. cbn [to_state wd_st wd_mode wd_id]. by rewrite q_put.
  - by eapply rest_get.
  - unfold wd_get, go_on. cbn [to_state wd_st wd_mode wd_id]. by rewrite q_get.
  - by eapply wd_end_resting.
  - unfold wd_end. cbn [to_state wd_st wd_mode wd_id]. by rewrite q_stop.
  - rewrite (proj1 Hs'). by eapply wd_end_resting.
  - cbn [to_state wd_st wd_mode wd_id]. by rewrite q_idem.
Defined.

(** What a probe leaves alone: the globals and whether the next byte is
    acknowledged, or the board after a fault. *)
Definition view (w : W) : option (Slave.slv * bool) :=
  match wd_st (wend w) with Running s => Some (fw_glob s, sr_ack (fw_hw s)) | Faulted _ _ => None end.
Definition broken (w : W) : option (fault * F) :=
  match wd_st w with Running _ => None | Faulted e f => Some (e, f) end.

Definition answers (w : W) (a : Z) : bool :=
  match view w, broken w with
  | _, Some (_, f) => ans f a
  | Some (_, k), None => k && bool_decide (a = wd_addr w)
  | None, None => false
  end.

Definition alike (w w' : W) : Prop :=
  wd_addr w = wd_addr w' ∧ view w = view w' ∧ option_Forall2 (prod_relation (=) same) (broken w) (broken w').

#[local] Instance alike_equiv : Equivalence alike.
Proof.
  split.
  - intros w. by split_and!.
  - intros w w' (? & ? & ?). by split_and!; symmetry.
  - intros w1 w2 w3 (? & ? & ?) (? & ? & ?). split_and!; [congruence..|by etrans].
Qed.

Lemma view_end w : view (wend w) = view w.
Proof.
  unfold view. destruct (wd_st w) as [s|e f] eqn:Es.
  - destruct (wd_end_rests w s Es) as [s' Hs']. by rewrite (wd_end_resting _ s').
  - unfold wd_end. rewrite Es. done.
Qed.

Lemma broken_end w s : wd_st w = Running s → broken (wend w) = None.
Proof. intros Es. destruct (wd_end_rests w s Es) as [s' [E _]]. unfold broken. by rewrite E. Qed.

Lemma alike_end w : alike (wend w) w.
Proof.
  split_and!; [apply wd_end_addr|apply view_end|]. destruct (wd_st w) as [s|e f] eqn:Es.
  - rewrite (broken_end w s Es). unfold broken. rewrite Es. constructor.
  - unfold broken, wd_end. rewrite Es. cbn [to_state wd_st]. constructor. split; [done|apply stop_law].
Qed.

(** A board after a fault goes on as its device. *)
Lemma alike_faulted w e f f' : wd_st w = Faulted e f → same f' f →
  alike (to_state (wd_mode w) (Faulted e f') w) w.
Proof.
  intros Es Hf. split_and!; [done| |unfold broken; rewrite Es; by constructor].
  unfold view, wd_end. by rewrite Es.
Qed.

Lemma alike_running w w' s : wd_st w = Running s → alike w w' → ∃ s', wd_st w' = Running s'.
Proof.
  intros Es (_ & _ & Hb). unfold broken in Hb. rewrite Es in Hb.
  destruct (wd_st w') as [s'|e f]; [by exists s'|by inversion Hb].
Qed.

Lemma probe_running w s a : wd_st w = Running s →
  ∃ w', wd_select jn jq ji (2 * a + 1) (wend w) = (answers w a, w') ∧ alike w' w.
Proof.
  intros Es. destruct (wd_end_rests w s Es) as [s1 Hs1]. pose proof (alike_end w) as Hal.
  unfold answers. rewrite <- (view_end w). unfold view, broken. rewrite (wd_end_resting _ s1 Hs1), (proj1 Hs1), Es.
  destruct (sr_ack (fw_hw s1)) eqn:Hk; cbn [andb].
  2: { exists (wend w). split; [|done]. unfold wd_select. by rewrite (proj1 Hs1), Hk, (rest_mode _ s1). }
  case_bool_decide as Ha.
  2: { exists (wend w). split; [|done]. apply (wd_select_other _ _ s1); [done|rewrite wd_end_addr; lia..]. }
  unfold wd_select. rewrite (proj1 Hs1), Hk, wd_end_addr. cbn [negb].
  rewrite (bool_decide_false (_ = 2 * _)%Z), bool_decide_true by lia. eexists. split; [done|].
  destruct (TWI_vect_other jn jq ji _ _ _ _ _ (event_stands s1 TW_ST_SLA_ACK (2 * a + 1) eq_refl))
    as (s' & E & (Hg & _ & _) & Hk'); [by apply (bool_decide_unpack _)|].
  unfold interrupt. rewrite E. etrans; [|exact Hal]. split_and!; [done| |].
  - change (Some (fw_glob s', sr_ack (fw_hw s')) = view (wend w)). unfold view.
    rewrite (wd_end_resting _ s1 Hs1), (proj1 Hs1), Hg, Hk'. by rewrite Hk.
  - unfold broken. rewrite (proj1 Hs1). constructor.
Qed.

#[export] Instance wdev_stations : Stations W.
Proof.
  refine {| same := alike; ans := answers |}.
  - intros w w' (E1 & E2 & Hb) a a' <-. unfold answers. rewrite E1, E2.
    destruct (broken w) as [[e f]|], (broken w') as [[e' f']|]; inversion Hb as [? ? [_ Hf]|]; [|done].
    by destruct (view w') as [[]|]; apply (ans_proper _ _ Hf).
  - intros w. cbn [bus_start wbus worker_bus]. unfold wd_start. destruct (wd_st w) as [s|e f] eqn:Es.
    + split; [done|apply alike_end].
    + destruct (start_law f) as [E Hf]. split; [exact E|]. by eapply alike_faulted.
  - apply alike_end.
  - intros w a Ha. cbn [bus_start bus_addr wbus worker_bus]. unfold wd_start.
    destruct (wd_st w) as [s|e f] eqn:Es; [by eapply probe_running|].
    destruct (probe_law f a Ha) as (f' & E & Hf). unfold wd_select, go_on. cbn [to_state wd_st wd_mode wd_id snd].
    rewrite E. eexists. split; [|by eapply (alike_faulted w e f)].
    unfold answers, broken. rewrite Es. by destruct (view w) as [[]|].
Defined.
End Laws.

(** ** Workers from a reset *)

Lemma addresses_lookup n k : k < n → addresses n !! k = Some (0x20 + Z.of_nat k)%Z.
Proof. intros Hk. unfold addresses. by rewrite list_lookup_fmap, lookup_seq_lt by done. Qed.

(** The input buffer is as after a reset. *)
Definition fresh (g : Slave.slv) : Prop := Slave.in_buffer g = replicate 256 0%Z.

(** Workers as after a reset, ready to be addressed. *)
Definition new_worker (w : W) : Prop := ∃ s, resting w s ∧ sr_ack (fw_hw s) = true ∧ fresh (fw_glob s).

(** The row answers to the addresses of its workers. *)
Lemma row_answers `{!Stations F} n (r : list W) k :
  Forall new_worker r → wd_addr <$> r = addresses n →
  ans r (0x20 + Z.of_nat k) = bool_decide (k < n).
Proof.
  intros Hr Ha. cbn [ans row_stations wdev_stations].
  assert (existsb (λ w, answers w (0x20 + Z.of_nat k)) r =
          existsb (λ a, bool_decide (0x20 + Z.of_nat k = a)%Z) (wd_addr <$> r)) as ->.
  { clear Ha. induction Hr as [|w r (s & Hw & Hk & _) _ IH]; [done|]. cbn [existsb fmap list_fmap].
    rewrite IH. unfold answers, view, broken. by rewrite (wd_end_resting w s Hw), (proj1 Hw), Hk. }
  rewrite Ha. apply Bool.eq_iff_eq_true. rewrite existsb_exists, bool_decide_eq_true. split.
  - intros (a & Hin & E%bool_decide_eq_true). apply list_elem_of_In, list_elem_of_fmap in Hin as (j & -> & Hj).
    apply elem_of_seq in Hj. lia.
  - intros Hk. exists (0x20 + Z.of_nat k)%Z. split; [|by apply bool_decide_true].
    by eapply list_elem_of_In, list_elem_of_lookup_2, addresses_lookup.
Qed.

(** ** A request to one worker of a row *)

Abbreviation row := (fram * list W)%type.

(** The workers of [q] rest, all but the one at position [k] have another
    address than [dev]. *)
Definition one_of (q : list W) (k : nat) (dev : Z) : Prop :=
  ∀ j w, q !! j = Some w → j ≠ k → (∃ s, resting w s) ∧ wd_addr w ≠ dev.

(** What leaves the other workers alone is done to worker [k] only. *)
Lemma row_one (h : W → W) q k dev w : one_of q k dev →
  (∀ v s, resting v s → wd_addr v ≠ dev → h v = v) → h <$> <[k := w]> q = <[k := h w]> q.
Proof.
  intros Hq Hh. apply list_eq. intros j. rewrite list_lookup_fmap.
  destruct (decide (j = k)) as [->|Hj].
  - destruct (decide (k < length q)); [by rewrite !list_lookup_insert_eq|].
    by rewrite !list_insert_ge, lookup_ge_None_2 by lia.
  - rewrite !list_lookup_insert_ne by done. destruct (q !! j) as [v|] eqn:Ev; [|done].
    destruct (Hq j v Ev Hj) as [[s Hs] Ha]. cbn. f_equal. by eapply Hh.
Qed.

(** The board of worker [k] has stopped on fault [e]; the chip is idle. *)
Definition hit (m : list Z) (q : list W) (k : nat) (e : fault) (b : row) : Prop :=
  f_mem b.1 = m ∧ f_state b.1 = FIdle ∧ ∃ w f, b.2 = <[k := w]> q ∧ wd_st w = Faulted e f.

Section Hit.
Context (m : list Z) (q : list W) (k : nat) (dev : Z) (e : fault) (Hq : one_of q k dev).
Hypothesis Hdev : (0x20 ≤ dev < 0x50)%Z.

Lemma hit_start b : hit m q k e b → hit m q k e (bus_start b).2.
Proof.
  destruct b as [f r]. intros (Hm & Hf & w & x & Hr & Hw). cbn [fst snd] in *. subst r.
  split_and!; [done|done|]. cbn [bus_start prod_bus row_bus fram_bus fst snd wbus worker_bus].
  eexists (wd_start jn jq ji w).2, _. split; [|by unfold wd_start; rewrite Hw].
  apply (row_one (λ b, (wd_start jn jq ji b).2) q k dev); [done|]. intros v s Hv _. by rewrite (rest_start v s).
Qed.

Lemma hit_addr b a : a = (2 * dev)%Z ∨ a = (2 * dev + 1)%Z → hit m q k e b → hit m q k e (bus_addr a b).2.
Proof.
  destruct b as [f r]. intros Ha (Hm & Hf & w & x & Hr & Hw). cbn [fst snd] in *. subst r.
  cbn [bus_addr prod_bus row_bus fram_bus fst snd wbus worker_bus].
  rewrite !bool_decide_false by lia. split_and!; [done|done|].
  eexists (wd_select jn jq ji a w).2, _. split; [|by unfold wd_select; rewrite Hw].
  apply (row_one (λ b, (wd_select jn jq ji a b).2) q k dev); [done|].
  intros v s Hv Hn. by rewrite (wd_select_other a v s) by (done || lia).
Qed.

Lemma hit_put b y : hit m q k e b → hit m q k e (bus_put y b).2.
Proof.
  destruct b as [f r]. intros (Hm & Hf & w & x & Hr & Hw). cbn [fst snd] in *. subst r.
  cbn [bus_put prod_bus row_bus fram_bus fst snd wbus worker_bus]. rewrite Hf. split_and!; [done|done|].
  eexists (wd_put jn jq ji y w).2, _. split; [|by unfold wd_put; rewrite Hw].
  apply (row_one (λ b, (wd_put jn jq ji y b).2) q k dev); [done|]. intros v s Hv _. by rewrite (rest_put v s).
Qed.

Lemma hit_get b y : hit m q k e b → hit m q k e (bus_get y b).2.
Proof.
  destruct b as [f r]. intros (Hm & Hf & w & x & Hr & Hw). cbn [fst snd] in *. subst r.
  cbn [bus_get prod_bus row_bus fram_bus fst snd wbus worker_bus]. rewrite Hf. split_and!; [done|done|].
  eexists (wd_get jn jq ji y w).2, _. split; [|by unfold wd_get; rewrite Hw].
  apply (row_one (λ b, (wd_get jn jq ji y b).2) q k dev); [done|]. intros v s Hv _. by rewrite (rest_get v s).
Qed.

Lemma hit_stop b : hit m q k e b → hit m q k e (bus_stop b).
Proof.
  destruct b as [f r]. intros (Hm & Hf & w & x & Hr & Hw). cbn [fst snd] in *. subst r.
  split_and!; [done|done|]. cbn [bus_stop prod_bus row_bus fram_bus fst snd wbus worker_bus].
  eexists (wend w), _. split; [|by unfold wd_end; rewrite Hw].
  apply (row_one wend q k dev); [done|]. intros v s Hv _. by eapply wd_end_resting.
Qed.

(** The rest of a transaction, whatever the board answers. *)
Lemma hit_w_start a l b i : a = (2 * dev)%Z ∨ a = (2 * dev + 1)%Z → hit m q k e b →
  ∃ c l' b' i', w_start a (mk_wire l b i) = Ok (c, mk_wire l' b' i') ∧ hit m q k e b' ∧
    (c = 0%Z → l' = if Z.testbit a 0 then Reading else Writing).
Proof.
  intros Ha Hb. apply hit_start in Hb. unfold w_start. cbn [w_bus].
  destruct (bus_start b) as [ok b1]. cbn [snd] in Hb. destruct ok; [|by eexists _, _, _, _].
  apply (hit_addr b1 a Ha) in Hb. destruct (bus_addr a b1) as [ack b2]. by eexists _, _, _, _.
Qed.

Lemma hit_w_write y b i : hit m q k e b →
  ∃ c b' i', w_write y (mk_wire Writing b i) = Ok (c, mk_wire Writing b' i') ∧ hit m q k e b'.
Proof.
  intros Hb. apply (hit_put b y) in Hb. unfold w_write. rewrite bool_decide_true by done. cbn [w_bus].
  destruct (bus_put y b) as [[] b1]; by eexists _, _, _.
Qed.

Lemma hit_w_receive n : ∀ b i, hit m q k e b →
  ∃ l b', w_receive n (mk_wire Reading b i) = Ok (l, mk_wire Reading b' i) ∧ hit m q k e b'.
Proof.
  assert (∀ ack b i, hit m q k e b → ∃ x b', w_read ack (mk_wire Reading b i) = Ok (x, mk_wire Reading b' i) ∧
    hit m q k e b') as Hread.
  { intros ack b i Hb. apply (hit_get b ack) in Hb. unfold w_read. rewrite bool_decide_true by done. cbn [w_bus].
    destruct (bus_get ack b) as [x b1]. by eexists _, _. }
  induction n as [|n IH]; intros b i Hb; cbn [w_receive].
  - destruct (Hread false b i Hb) as (x & b1 & E & Hb1). run E. by eexists _, _.
  - destruct (Hread true b i Hb) as (x & b1 & E & Hb1). run E.
    destruct (IH b1 i Hb1) as (l & b2 & E2 & Hb2). run E2. by eexists _, _.
Qed.
End Hit.

(** ** The status request of the controller *)

Lemma new_addressed w s dev : resting w s → sr_ack (fw_hw s) = true → fresh (fw_glob s) → wd_addr w = dev →
  ∃ w1 s1, wd_select jn jq ji (2 * dev) w = (true, w1) ∧ wd_mode w1 = Receiving ∧ wd_st w1 = Running s1 ∧
    fresh (fw_glob s1) ∧ Slave.buffer_address (fw_glob s1) = 0xFF%Z ∧ sr_ack (fw_hw s1) = true.
Proof.
  intros Hw Hk Hf Ha. unfold wd_select. rewrite (proj1 Hw), Hk, Ha, bool_decide_true by done. cbn [negb].
  destruct (TWI_vect_addressed jn jq ji _ _ _ _ (event_stands s Slave.TW_SR_SLA_ACK (2 * dev) eq_refl))
    as (s' & E & (Hg & _ & _) & Hk').
  unfold interrupt. rewrite E. eexists _, s'. split; [done|]. rewrite Hg. by split_and!.
Qed.

(** The first byte makes the worker run the job in its empty buffer. *)
Lemma new_faults w1 s1 x : wd_mode w1 = Receiving → wd_st w1 = Running s1 → fresh (fw_glob s1) →
  Slave.buffer_address (fw_glob s1) = 0xFF%Z → sr_ack (fw_hw s1) = true →
  ∃ w2 f, wd_put jn jq ji x w1 = (true, w2) ∧ wd_st w2 = Faulted OutOfBounds f.
Proof.
  intros Hm Es Hf Hb Hk. unfold wd_put. rewrite Hm, Es, Hk. unfold interrupt.
  destruct (TWI_vect_stands jn jq ji _ _ _ _ (event_stands s1 Slave.TW_SR_DATA_ACK x eq_refl))
    as (s' & _ & ->); [by rewrite Hb|by rewrite Hf|].
  destruct (fw_glob s1) as [a ib ob wid] eqn:Eg. unfold fresh in Hf. simpl in Hf, Hb. subst.
  eexists _, _. split; reflexivity.
Qed.

(** The worker is addressed, and the first byte reaches it. *)
Lemma request_begins l f q i k w s dev w1 :
  one_of q k dev → q !! k = Some w → resting w s → (0x20 ≤ dev < 0x50)%Z →
  wd_select jn jq ji (2 * dev) w = (true, w1) →
  w_start (2 * dev) (mk_wire l (f, q) i : wire row) =
  Ok (0%Z, mk_wire Writing (mk_fram (f_mem f) (f_ptr f) FIdle, <[k := w1]> q) i).
Proof.
  intros Hq Hk Hw Hdev E1. pose proof (list_insert_id q k w Hk) as Hid.
  assert (∀ v, v ∈ q → ∃ s', resting v s') as Hr.
  { intros v (j & Hj)%list_elem_of_lookup. destruct (decide (j = k)) as [->|Hne]; [|by apply (Hq j v)].
    exists s. congruence. }
  assert ((λ b, (wd_start jn jq ji b).2) <$> q = q) as Hs0.
  { rewrite <- Hid at 1. rewrite (row_one _ q k dev w Hq) by (intros v s' Hv _; by rewrite (rest_start v s')).
    by rewrite (rest_start w s Hw). }
  unfold w_start. cbn [w_bus w_io bus_start bus_addr prod_bus row_bus fram_bus fst snd wbus worker_bus].
  rewrite forallb_all.
  2: { apply list.Forall_forall. intros v Hv. destruct (Hr v Hv) as [s' Hs']. by rewrite (rest_start v s'). }
  rewrite Hs0. cbn [andb fst snd f_mem f_ptr]. rewrite !bool_decide_false by lia. cbn [orb].
  replace (existsb _ _) with true.
  - rewrite <- Hid at 1. rewrite (row_one (λ b, (wd_select jn jq ji (2 * dev) b).2) q k dev w Hq)
      by (intros v s' Hv Hn; by rewrite (wd_select_other _ v s') by (done || lia)).
    rewrite E1. by replace (Z.testbit (2 * dev) 0) with false by (symmetry; apply Z.testbit_even_0).
  - symmetry. apply existsb_exists. exists w. rewrite E1. split; [|done].
    by eapply list_elem_of_In, list_elem_of_lookup_2.
Qed.

(** The transaction of the request on the wires. *)
Lemma request_faults n l f q i k w dev :
  one_of q k dev → q !! k = Some w → new_worker w → wd_addr w = dev → (0x20 ≤ dev < 0x50)%Z →
  ∃ r l' b' i', w_readReg dev 0 n (mk_wire l (f, q) i : wire row) = Ok (r, mk_wire l' b' i') ∧
    hit (f_mem f) q k OutOfBounds b'.
Proof.
  intros Hq Hk (s & Hw & Hack & Hf) Ha Hdev.
  destruct (new_addressed w s dev Hw Hack Hf Ha) as (w1 & s1 & E1 & Hm1 & Es1 & Hf1 & Hb1 & Hk1).
  destruct (new_faults w1 s1 0 Hm1 Es1 Hf1 Hb1 Hk1) as (w2 & b2 & E2 & Es2).
  unfold w_readReg. rewrite (u8_small (2 * dev)), (u8_small (2 * dev + 1)) by (unfold is_u8; lia).
  run (request_begins l f q i k w s dev w1 Hq Hk Hw Hdev E1). rewrite bool_decide_false by (by intros ?).
  set (b1 := (mk_fram (f_mem f) (f_ptr f) FIdle, <[k := w1]> q)).
  assert (hit (f_mem f) q k OutOfBounds (bus_put (u8 (0 `div` 256)) b1).2) as Hb2.
  { unfold b1. cbn [bus_put prod_bus row_bus fram_bus fst snd wbus worker_bus f_state].
    split_and!; [done|done|]. exists w2, b2. split; [|done].
    rewrite (row_one (λ b, (wd_put jn jq ji _ b).2) q k dev w1 Hq) by (intros v s' Hv _; by rewrite (rest_put v s')).
    by rewrite (E2 : wd_put jn jq ji (u8 (0 `div` 256)) w1 = _). }
  assert (∃ c b' i', w_write (u8 (0 `div` 256)) (mk_wire Writing b1 i) = Ok (c, mk_wire Writing b' i') ∧
    hit (f_mem f) q k OutOfBounds b') as (c2 & b2' & i2 & E3 & Hb3).
  { unfold w_write. rewrite bool_decide_true by done. cbn [w_bus].
    destruct (bus_put _ b1) as [[] b']; by eexists _, _, _. }
  run E3. destruct (hit_w_write _ _ _ _ _ Hq (0 `mod` 256) _ i2 Hb3) as (c4 & b4 & i4 & E4 & Hb4). run E4.
  destruct (hit_w_start _ _ _ _ _ Hq Hdev (2 * dev + 1) Writing _ i4 (or_intror eq_refl) Hb4)
    as (c5 & l5 & b5 & i5 & E5 & Hb5 & Hl5). run E5.
  case_bool_decide as Hc; [by eexists _, _, _, _|].
  rewrite Hl5 by (by destruct (decide (c5 = 0%Z))).
  replace (Z.testbit (2 * dev + 1) 0) with true by (symmetry; apply Z.testbit_odd_0).
  destruct (hit_w_receive _ _ _ _ _ Hq (pred n) _ i5 Hb5) as (l6 & b6 & E6 & Hb6). run E6.
  eexists _, _, _, _. split; [done|]. by eapply hit_stop.
Qed.

Section Request.
Context `{Mcu C} `{!Board C row}.
Context (fuel : nat) (Hfuel : latency (D := C) (B := row) * 257 + 256 < fuel).

(** C28: the request for its status, the first the controller sends to a worker
    that comes from a reset, makes the worker access memory out of bounds: the
    first byte makes it run the job in its empty buffer.  Whatever the board
    answers on the bus after that (as long as it does not hold the clock), the
    request of the controller returns, the storage holds what it held, and the
    other workers of the row are as they were. *)
Theorem status_request_faults (c : C) l f (q : list W) i k w buf pos :
  on_wire c (mk_wire l (f, q) i) → Forall new_worker q → NoDup (wd_addr <$> q) → q !! k = Some w →
  (0x20 ≤ wd_addr w < 0x50)%Z → pos + 2 ≤ length buf →
  ∃ r buf' c' l' f' w' x i',
    i2c_readReg fuel (wd_addr w) 0 buf pos 2 c = Ok ((r, buf'), c') ∧
    on_wire c' (mk_wire l' (f', <[k := w']> q) i') ∧ f_mem f' = f_mem f ∧
    wd_st w' = Faulted OutOfBounds x.
Proof.
  intros HR Hn Hd Hk Hdev Hbuf.
  assert (one_of q k (wd_addr w)) as Hq.
  { intros j v Hj Hne. rewrite Forall_lookup in Hn. destruct (Hn j v Hj) as (s & Hs & _).
    split; [by exists s|]. intros Heq. apply Hne.
    eapply (NoDup_lookup _ _ _ (wd_addr w) Hd); rewrite list_lookup_fmap; [by rewrite Hj, <- Heq|by rewrite Hk]. }
  pose proof (Forall_lookup_1 _ _ _ _ Hn Hk) as Hw.
  destruct (request_faults 2 l f q i k w _ Hq Hk Hw eq_refl Hdev) as (r & l' & [f' q'] & i' & E & Hm & _ & w' & x & Hq' & Hx).
  cbn [fst snd] in *. subst q'.
  destruct (i2c_readReg_refines fuel Hfuel (wd_addr w) 0 buf pos 2 ltac:(lia) ltac:(lia)
    c _ (match r with Some b => (0%Z, write_at buf pos b) | None => (1%Z, buf) end)
    (mk_wire l' (f', <[k := w']> q) i') HR) as (c' & E' & HR').
  { by rewrite (io_bind_Ok _ _ _ _ _ E). }
  exists (match r with Some b => 0%Z | None => 1%Z end), (match r with Some b => write_at buf pos b | None => buf end).
  exists c', l', f', w', x, i'. split_and!; [|done..]. by destruct r.
Qed.
End Request.
End Workers.

(** ** The theorems at work: two workers beside the chip *)

#[local] Instance sregs_bus : I2cBus (wdev sregs unit) := worker_bus zero_node zero_queue zero_info.

(** A worker after its address was chosen. *)
Definition new_dev (a : waddr) : wdev sregs unit :=
  mk_wdev a Unaddressed
    (Running (mk_fw (mk_buttons Slave.EmptyFunction Slave.EmptyFunction Slave.EmptyFunction Slave.EmptyFunction 0)
                (Slave.mk_slv 0 (replicate 256 0%Z) (replicate 256 0%Z) (wa a))
                (mk_sregs 0 0 (bit TWEA) (2 * wa a)))).

Definition two_workers : list (wdev sregs unit) :=
  [new_dev (mk_waddr 0x20 eq_refl); new_dev (mk_waddr 0x21 eq_refl)].

Abbreviation demo_row := (fram * list (wdev sregs unit))%type.

Definition cluster_hw : hw demo_row :=
  mk_hw (mk_twi Released TW_NO_INFO 0 false false 0 (mk_fram job_mem 0 FIdle, two_workers)) demo_io.

Lemma cluster_fuel : latency (D := hw demo_row) (B := demo_row) * 257 + 256 < 1000.
Proof. simpl. lia. Defined.

Lemma cluster_wire : on_wire cluster_hw (mk_wire Released (mk_fram job_mem 0 FIdle, two_workers) demo_io).
Proof. by split_and!. Defined.

Lemma cluster_new : Forall new_worker two_workers.
Proof. repeat constructor; eexists; by split_and!. Defined.

Lemma status_request_faults_witness :
  ∃ r buf' c' l' f' w' x i',
    i2c_readReg 1000 0x21 0 [0; 0]%Z 0 2 cluster_hw = Ok ((r, buf'), c') ∧
    on_wire c' (mk_wire l' (f', [new_dev (mk_waddr 0x20 eq_refl); w']) i') ∧ f_mem f' = job_mem ∧
    wd_st w' = Faulted OutOfBounds x.
Proof.
  apply (status_request_faults zero_node zero_queue zero_info 1000 cluster_fuel cluster_hw Released
           (mk_fram job_mem 0 FIdle) two_workers demo_io 1 (new_dev (mk_waddr 0x21 eq_refl)) [0; 0]%Z 0
           cluster_wire cluster_new);
    [by apply (bool_decide_unpack _); vm_compute|reflexivity|by apply (bool_decide_unpack _)|simpl; lia].
Defined.
