(* ===== verification/SlaveAddress.v ===== *)
(** * The worker chooses its address

    [auto_address] makes the worker a master for a moment and probes the
    addresses from its [workerID] on.  On every board whose bus carries
    [Stations] it takes the first address nobody answers to; workers that are
    switched on one after the other get the addresses the controller's scan
    looks for. *)

From S2P Require Import Prelude HuffmanMem HuffmanLib Avr Board I2cMaster I2cWire Fram Stations Leds.
From S2P Require Import Buttons Controller ControllerJobs Slave SlaveJobs Cluster ClusterJobs.
From stdpp Require Import strings gmap.
Import I2c Leds Buttons Slave.

(** Clearing TWEN, whatever else the register holds. *)
Lemma off_bit v : Z.testbit (u8 (Z.land v (Z.ldiff 255 (Z.lor (bit TWEA) (bit TWEN))))) TWEN = false.
Proof.
  unfold u8. change 256%Z with (2 ^ 8)%Z. rewrite Z.mod_pow2_bits_low by (unfold TWEN; lia).
  rewrite Z.land_spec. apply andb_false_r.
Qed.

(** TWAR gets the address, TWCR the bits TWINT, TWEA, TWEN and TWIE. *)
Lemma slave_init_writes `{Mcu D} x (s : fw callback slv D) : (0 ≤ x < 128)%Z →
  i2c_slave_init x s =
  Ok (tt, mk_fw (fw_btn s) (fw_glob s) (mcu_write TWCR 0xC5 (mcu_write TWAR (2 * x) (fw_hw s)))).
Proof.
  intros Hx. unfold i2c_slave_init, mbind, IO_bind, on_hw, write. cbn [fw_btn fw_glob fw_hw].
  rewrite Z.shiftl_mul_pow2, Z.pow_1_r by lia.
  rewrite (u8_small (x * 2)) by (unfold is_u8; lia). by rewrite Z.mul_comm.
Qed.

Section Address.
Context `{Board D B, !Stations B}.
Context (fuel : nat) (Hfuel : latency * 257 + 256 < fuel) (rounds : nat).

Abbreviation St := (fw callback slv D).

(** The image with globals [g] and the bus [b], the master being idle or not. *)
Definition at_bus (s : St) (g : slv) (b : B) : Prop :=
  fw_glob s = g ∧ ∃ w, on_wire (fw_hw s) w ∧ same (w_bus w) b.

Lemma slave_stop_wire (s : St) g b : at_bus s g b →
  ∃ s', i2c_slave_stop s = Ok (tt, s') ∧ fw_btn s' = fw_btn s ∧ at_bus s' g b.
Proof.
  intros [Hg (w & (Hp & Hph & Hb & Hio & _) & Hs)].
  destruct (mcu_read TWCR (fw_hw s)) as [v d1] eqn:E. destruct (twcr_read _ _ _ E) as (_ & _ & Hd1).
  set (x := u8 (Z.land v (Z.ldiff 255 (Z.lor (bit TWEA) (bit TWEN))))).
  exists (mk_fw (fw_btn s) (fw_glob s) (mcu_write TWCR x d1)). split.
  { apply on_hw_Ok. unfold and_reg. by rewrite (io_bind_Ok (read TWCR) _ _ v d1) by (unfold read; by rewrite E). }
  split; [done|]. split; [done|]. exists (mk_wire Released (w_bus w) (w_io w)). split; [|done].
  unfold on_wire. cbn [fw_hw]. rewrite (twcr_off d1 x (off_bit v)), Hd1. by split_and!.
Qed.

(** Programs on the hardware that keep the bus. *)
Lemma at_bus_op {A} (m : IO D A) a (s : St) g b :
  at_bus s g b →
  (∀ w, on_wire (fw_hw s) w → ∃ d' w', m (fw_hw s) = Ok (a, d') ∧ on_wire d' w' ∧ same (w_bus w') (w_bus w)) →
  ∃ s', on_hw m s = Ok (a, s') ∧ fw_btn s' = fw_btn s ∧ at_bus s' g b.
Proof.
  intros [Hg (w & HR & Hs)] Hm. destruct (Hm w HR) as (d' & w' & E & HR' & Hs').
  eexists. split; [by apply on_hw_Ok|]. split; [done|]. split; [done|]. exists w'. split; [done|].
  by rewrite Hs'.
Qed.

Lemma print_bus fmt args (s : St) g b : at_bus s g b →
  ∃ s', on_hw (printf fmt args) s = Ok (tt, s') ∧ fw_btn s' = fw_btn s ∧ at_bus s' g b.
Proof.
  intros Hs. apply at_bus_op; [done|]. intros w HR.
  destruct (printf_refines fmt args _ _ _ _ HR eq_refl) as (d' & E & HR'). by eexists _, _.
Qed.

Lemma mod_bus f (s : St) g b : at_bus s g b →
  ∃ s', mod_slv f s = Ok (tt, s') ∧ fw_btn s' = fw_btn s ∧ at_bus s' (f g) b.
Proof.
  intros [Hg Hs]. exists (mk_fw (fw_btn s) (f g) (fw_hw s)).
  unfold mod_slv, mbind, IO_bind, get_glob, set_glob. by rewrite Hg.
Qed.

Lemma get_bus (s : St) g b : at_bus s g b → get_glob s = Ok (g, s).
Proof. intros [Hg _]. unfold get_glob. by rewrite Hg. Qed.

Lemma probe_bus (s : St) g b a : at_bus s g b → (0x20 ≤ a < 0x50)%Z →
  ∃ s', on_hw (i2c_start_timeout fuel (u8 (Z.lor (Z.shiftl a 1) I2C_READ)) 10) s
        = Ok (if ans b a then 0%Z else 1%Z, s') ∧ fw_btn s' = fw_btn s ∧ at_bus s' g b.
Proof.
  intros Hs Ha. apply at_bus_op; [done|]. intros w HR.
  destruct (probe fuel Hfuel (fw_hw s) w a HR Ha) as (d' & w' & E & HR' & Hs' & _).
  destruct Hs as [_ (w0 & HR0 & Hs0)].
  assert (w_bus w = w_bus w0) as Eb.
  { destruct HR as (_ & _ & <- & _), HR0 as (_ & _ & <- & _). done. }
  exists d', w'. rewrite E, Eb, Hs0 in *. by rewrite Hs'.
Qed.

Lemma address_loop_finds k : ∀ n (s : St) g b a,
  at_bus s g b → workerID g = a → (0x20 ≤ a)%Z → (a + Z.of_nat n < 0x50)%Z → n < k →
  (∀ j, j < n → ans b (a + Z.of_nat j) = true) → ans b (a + Z.of_nat n) = false →
  ∃ s', address_loop fuel k s = Ok (tt, s') ∧ fw_btn s' = fw_btn s ∧
    at_bus s' (set_worker (a + Z.of_nat n) g) b.
Proof.
  induction k as [|k IH]; intros n s g b a Hs Hw Ha Hn Hk Hj Hno; [lia|]. cbn [address_loop].
  rewrite (io_bind_Ok _ _ _ _ _ (get_bus _ _ _ Hs)), Hw.
  destruct (probe_bus s g b a Hs ltac:(lia)) as (s1 & E1 & Hb1 & Hs1).
  destruct n as [|n].
  - rewrite Z.add_0_r in *. rewrite Hno in E1. rewrite (io_bind_Ok _ _ _ _ _ E1).
    exists s1. split_and!; [done|done|]. by destruct g; simpl in *; subst.
  - specialize (Hj 0 ltac:(lia)) as Hj0. rewrite Z.add_0_r in Hj0. rewrite Hj0 in E1.
    rewrite (io_bind_Ok _ _ _ _ _ E1), bool_decide_true by done.
    destruct (print_bus (str "address %hhx in use; trying next address." ++ crlf) [a] s1 g b Hs1)
      as (s2 & E2 & Hb2 & Hs2). rewrite (io_bind_Ok _ _ _ _ _ E2).
    destruct (mod_bus (set_worker (u8 (a + 1))) s2 g b Hs2) as (s3 & E3 & Hb3 & Hs3).
    rewrite (io_bind_Ok _ _ _ _ _ E3).
    destruct (IH n s3 _ b (a + 1)%Z Hs3) as (s4 & E4 & Hb4 & Hs4).
    + simpl. apply u8_small. unfold is_u8. lia.
    + lia.
    + lia.
    + lia.
    + intros j Hlt. replace (a + 1 + Z.of_nat j)%Z with (a + Z.of_nat (S j))%Z by lia. apply Hj. lia.
    + by replace (a + 1 + Z.of_nat n)%Z with (a + Z.of_nat (S n))%Z by lia.
    + exists s4. split_and!; [done|congruence|].
      by replace (a + Z.of_nat (S n))%Z with (a + 1 + Z.of_nat n)%Z by lia.
Qed.

Lemma stop_bus (s : St) g b : at_bus s g b →
  ∃ s', on_hw (i2c_stop fuel) s = Ok (tt, s') ∧ fw_btn s' = fw_btn s ∧ at_bus s' g b.
Proof.
  intros Hs. apply at_bus_op; [done|]. intros w HR.
  destruct (i2c_stop_refines fuel Hfuel _ _ _ _ HR eq_refl) as (d' & E & HR').
  eexists _, _. split; [exact E|]. split; [exact HR'|]. apply stop_law.
Qed.

Lemma init_bus (s : St) g b : at_bus s g b →
  ∃ s', on_hw i2c_init s = Ok (tt, s') ∧ fw_btn s' = fw_btn s ∧ at_bus s' g b.
Proof.
  intros Hs. apply at_bus_op; [done|]. intros w HR.
  destruct (i2c_init_skip _ _ HR) as ([] & d' & E & HR'). by exists d', w.
Qed.

(** The address chosen: [n] further than [workerID]. *)
Lemma auto_address_takes n (s : St) g b a :
  at_bus s g b → workerID g = a → (0x20 ≤ a)%Z → (a + Z.of_nat n < 0x50)%Z → n < rounds →
  (∀ j, j < n → ans b (a + Z.of_nat j) = true) → ans b (a + Z.of_nat n) = false →
  ∃ s', auto_address fuel rounds s = i2c_slave_init (a + Z.of_nat n) s' ∧ fw_btn s' = fw_btn s ∧
    at_bus s' (set_worker (a + Z.of_nat n) g) b.
Proof.
  intros Hs Hw Ha Hn Hk Hj Hno. unfold auto_address.
  destruct (slave_stop_wire s g b Hs) as (s1 & E1 & Hb1 & Hs1). rewrite (io_bind_Ok _ _ _ _ _ E1).
  destruct (init_bus s1 g b Hs1) as (s2 & E2 & Hb2 & Hs2). rewrite (io_bind_Ok _ _ _ _ _ E2).
  destruct (address_loop_finds rounds n s2 g b a Hs2 Hw Ha Hn Hk Hj Hno) as (s3 & E3 & Hb3 & Hs3).
  rewrite (io_bind_Ok _ _ _ _ _ E3). rewrite (io_bind_Ok _ _ _ _ _ (get_bus _ _ _ Hs3)).
  cbn [set_worker workerID].
  destruct (print_bus (str "address %hhx is clear, setting up slave" ++ crlf) [(a + Z.of_nat n)%Z] s3 _ b Hs3)
    as (s4 & E4 & Hb4 & Hs4). rewrite (io_bind_Ok _ _ _ _ _ E4).
  destruct (stop_bus s4 _ b Hs4) as (s5 & E5 & Hb5 & Hs5). rewrite (io_bind_Ok _ _ _ _ _ E5).
  exists s5. split_and!; [done|congruence|done].
Qed.

(** C18: [auto_address] takes the first address from [workerID] on that no
    device answers to, leaves the devices on the bus as they were, and ends
    with that address in TWAR and the unit listening for it: two workers never
    share an address. *)
Theorem auto_address_first_free n (s : St) g b a :
  at_bus s g b → workerID g = a → (0x20 ≤ a)%Z → (a + Z.of_nat n < 0x50)%Z → n < rounds →
  (∀ j, j < n → ans b (a + Z.of_nat j) = true) → ans b (a + Z.of_nat n) = false →
  ∃ s', at_bus s' (set_worker (a + Z.of_nat n) g) b ∧
    auto_address fuel rounds s =
    Ok (tt, mk_fw (fw_btn s) (set_worker (a + Z.of_nat n) g)
              (mcu_write TWCR 0xC5 (mcu_write TWAR (2 * (a + Z.of_nat n)) (fw_hw s')))).
Proof.
  intros Hs Hw Ha Hn Hk Hj Hno.
  destruct (auto_address_takes n s g b a Hs Hw Ha Hn Hk Hj Hno) as (s' & E & Hb & Hs').
  exists s'. split; [done|]. by rewrite E, slave_init_writes, Hb, (proj1 Hs') by lia.
Qed.
End Address.

(** The worker that is switched on beside a row of [n] workers gets the next
    address, and the controller's scan finds the longer row. *)
Section NextWorker.
Context `{SlaveUnit D2} `{I2cBus F, !AfterFault D2 F, !Stations F}.
Context (jn : nat → Huffman.node_t) (jq : nat → Huffman.queue_t) (ji : nat → Huffman.encoding_info_t).
#[local] Instance others_bus : I2cBus (wdev D2 F) := worker_bus jn jq ji.
#[local] Instance others_stations : Stations (wdev D2 F) := wdev_stations jn jq ji.
Context `{Mcu D, !Board D (fram * list (wdev D2 F))}.
Context (fuel : nat) (Hfuel : latency (D := D) (B := fram * list (wdev D2 F)) * 257 + 256 < fuel) (rounds : nat).

Lemma row_ans n (f : fram) (r : list (wdev D2 F)) k :
  Forall new_worker r → wd_addr <$> r = addresses n → k < 0x30 →
  ans (f, r) (0x20 + Z.of_nat k) = bool_decide (k < n).
Proof.
  intros Hr Ha Hk. cbn [ans prod_stations fram_stations fst snd].
  rewrite (bool_decide_false (_ = MB85RC_DEFAULT_ADDRESS)) by (unfold MB85RC_DEFAULT_ADDRESS; lia).
  by apply row_answers.
Qed.

(** Beside the chip and a row of [n] workers at 0x20, 0x21, ... a worker
    that comes from a reset takes the address behind the row, so workers that
    are addressed one after the other form the row the controller scans. *)
Theorem next_worker_extends_row n (s : fw callback slv D) g (f : fram) (r : list (wdev D2 F)) :
  at_bus s g (f, r) → workerID g = I2C_SLAVE_BASE_ID → Forall new_worker r →
  wd_addr <$> r = addresses n → n < 0x30 → n < rounds →
  ∃ s', at_bus s' (set_worker (0x20 + Z.of_nat n) g) (f, r) ∧
    auto_address fuel rounds s =
    Ok (tt, mk_fw (fw_btn s) (set_worker (0x20 + Z.of_nat n) g)
              (mcu_write TWCR 0xC5 (mcu_write TWAR (2 * (0x20 + Z.of_nat n)) (fw_hw s')))) ∧
    (wd_addr <$> r) ++ [(0x20 + Z.of_nat n)%Z] = addresses (S n).
Proof.
  intros Hs Hw Hr Ha Hn Hk.
  destruct (auto_address_takes fuel Hfuel rounds n s g (f, r) 0x20 Hs Hw) as (s' & E & Hb & Hs');
    [lia|lia|done| | |].
  { intros j Hj. rewrite (row_ans n) by (done || lia). by apply bool_decide_true. }
  { rewrite (row_ans n) by (done || lia). apply bool_decide_false. lia. }
  exists s'. split; [done|]. split; [by rewrite E, slave_init_writes, Hb, (proj1 Hs') by lia|].
  by rewrite addresses_S, Ha.
Qed.
End NextWorker.

(** ** The theorems at work: a third worker beside two *)

#[local] Instance two_bus : I2cBus (wdev sregs unit) := worker_bus zero_node zero_queue zero_info.
#[local] Instance two_stations : Stations (wdev sregs unit) := wdev_stations zero_node zero_queue zero_info.

Abbreviation others := (fram * list (wdev sregs unit))%type.

Definition third_glob : slv := mk_slv 0 (replicate 256 0%Z) (replicate 256 0%Z) I2C_SLAVE_BASE_ID.

Definition third : fw callback slv (hw others) :=
  mk_fw (mk_buttons A_release_fn EmptyFunction EmptyFunction EmptyFunction 0) third_glob
    (mk_hw (mk_twi Released TW_NO_INFO 0 false false 0 (mk_fram [] 0 FIdle, two_workers)) (mk_io ∅ [] [] [] [])).

Lemma third_bus : at_bus (B := others) third third_glob (mk_fram [] 0 FIdle, two_workers).
Proof.
  split; [done|]. exists (mk_wire Released (mk_fram [] 0 FIdle, two_workers) (mk_io ∅ [] [] [] [])).
  split; [by split_and!|reflexivity].
Defined.

Lemma third_fuel : latency (D := hw others) (B := others) * 257 + 256 < 1000.
Proof. simpl. lia. Defined.

Lemma auto_address_first_free_witness :
  ∃ s', at_bus (B := others) s' (set_worker 0x22 third_glob) (mk_fram [] 0 FIdle, two_workers) ∧
    auto_address 1000 20 third =
    Ok (tt, mk_fw (fw_btn third) (set_worker 0x22 third_glob)
              (mcu_write TWCR 0xC5 (mcu_write TWAR 0x44 (fw_hw s')))).
Proof.
  apply (auto_address_first_free (B := others) 1000 third_fuel 20 2 third third_glob
           (mk_fram [] 0 FIdle, two_workers) 0x20 third_bus);
    [reflexivity|lia|lia|lia|by intros [|[|j]] Hj; [..|lia]|reflexivity].
Defined.

Lemma next_worker_extends_row_witness :
  ∃ s', at_bus (B := others) s' (set_worker 0x22 third_glob) (mk_fram [] 0 FIdle, two_workers) ∧
    auto_address 1000 20 third =
    Ok (tt, mk_fw (fw_btn third) (set_worker 0x22 third_glob)
              (mcu_write TWCR 0xC5 (mcu_write TWAR 0x44 (fw_hw s')))) ∧
    [0x20; 0x21; 0x22]%Z = addresses 3.
Proof.
  apply (next_worker_extends_row zero_node zero_queue zero_info 1000 third_fuel 20 2 third third_glob
           (mk_fram [] 0 FIdle) two_workers third_bus);
    [reflexivity|apply cluster_new|reflexivity|lia|lia].
Defined.
