(* ===== verification/UsbRegs.v ===== *)
(** * The USB controller as the LUFA stack sees it

    Registers of the ATmega32u4 USB controller, the state of the stack
    ([USBTask.c], [DeviceStandardReq.c] and the CDC class driver keep it in
    globals) and the monad the C functions are translated into.  The compile
    options are those of [virtualserial/Config/LUFAConfig.h]: device mode
    only, a control endpoint of eight bytes served by interrupt, one
    configuration and descriptors in flash. *)

From S2P Require Import Prelude Avr.

(** The registers. *)
Inductive ureg :=
  | UENUM | UERST | UECONX | UECFG0X | UECFG1X | UESTA0X | UEINTX | UEIENX
  | UEDATX | UEBCLX | UEBCHX | UEINT
  | UDADDR | UDCON | UDINT | UDIEN | UDFNUM
  | USB_CON | USBSTA | USBINT | UHWCON | PLLCSR | PLLFRQ | MCUSR.

#[export] Instance ureg_eq_dec : EqDecision ureg.
Proof. solve_decision. Defined.

(** The bits the code names. *)
Definition EPEN : Z := 0.
Definition RSTDT : Z := 3.
Definition STALLRQC : Z := 4.
Definition STALLRQ : Z := 5.
Definition EPDIR : Z := 0.
Definition EPTYPE0 : Z := 6.
Definition ALLOC : Z := 1.
Definition EPBK0 : Z := 2.
Definition EPSIZE0 : Z := 4.
Definition NBUSYBK0 : Z := 0.
Definition CFGOK : Z := 7.
Definition TXINI : Z := 0.
Definition RXOUTI : Z := 2.
Definition RXSTPI : Z := 3.
Definition RWAL : Z := 5.
Definition FIFOCON : Z := 7.
Definition RXSTPE : Z := 3.
Definition ADDEN : Z := 7.
Definition DETACH : Z := 0.
Definition RMWKUP : Z := 1.
Definition LSM : Z := 2.
Definition SUSPI : Z := 0.
Definition SOFI : Z := 2.
Definition EORSTI : Z := 3.
Definition WAKEUPI : Z := 4.
Definition SUSPE : Z := 0.
Definition SOFE : Z := 2.
Definition EORSTE : Z := 3.
Definition WAKEUPE : Z := 4.
Definition VBUSTE : Z := 0.
Definition OTGPADE : Z := 4.
Definition FRZCLK : Z := 5.
Definition USBE : Z := 7.
Definition VBUSTI : Z := 0.
Definition VBUS : Z := 0.
Definition UVREGE : Z := 0.
Definition PLOCK : Z := 0.
Definition PLLE : Z := 1.
Definition PINDIV : Z := 4.
Definition PDIV2 : Z := 2.
Definition WDRF : Z := 3.

(** ** The state of the stack *)

Definition DEVICE_STATE_Unattached : Z := 0.
Definition DEVICE_STATE_Powered : Z := 1.
Definition DEVICE_STATE_Default : Z := 2.
Definition DEVICE_STATE_Addressed : Z := 3.
Definition DEVICE_STATE_Configured : Z := 4.
Definition DEVICE_STATE_Suspended : Z := 5.

Record USB_Request_Header_t := mk_request {
  bmRequestType : Z; bRequest : Z; wValue : Z; wIndex : Z; wLength : Z }.

Record USB_Endpoint_Table_t := mk_table { Address : Z; Size : Z; Type_ : Z; Banks : Z }.

Record CDC_LineEncoding_t := mk_line {
  BaudRateBPS : Z; CharFormat : Z; ParityType : Z; DataBits : Z }.

Record USB_ClassInfo_CDC_Device_t := mk_cdc {
  ControlInterfaceNumber : Z;
  DataINEndpoint : USB_Endpoint_Table_t;
  DataOUTEndpoint : USB_Endpoint_Table_t;
  NotificationEndpoint : USB_Endpoint_Table_t;
  HostToDevice : Z;
  DeviceToHost : Z;
  LineEncoding : CDC_LineEncoding_t }.

(** The globals: those of the stack, the one CDC interface of the firmware
    and the two function pointers of [VirtualSerial.c], as addresses. *)
Record usbg := mk_usbg {
  USB_DeviceState : Z;
  USB_Device_ConfigurationNumber : Z;
  USB_Device_CurrentlySelfPowered : bool;
  USB_Device_RemoteWakeupEnabled : bool;
  USB_IsInitialized : bool;
  USB_ControlRequest : USB_Request_Header_t;
  VirtualSerial_CDC_Interface : USB_ClassInfo_CDC_Device_t;
  _onConnect : Z;
  _onDisconnect : Z }.

Definition with_state (x : Z) (g : usbg) : usbg :=
  mk_usbg x (USB_Device_ConfigurationNumber g) (USB_Device_CurrentlySelfPowered g)
    (USB_Device_RemoteWakeupEnabled g) (USB_IsInitialized g) (USB_ControlRequest g)
    (VirtualSerial_CDC_Interface g) (_onConnect g) (_onDisconnect g).
Definition with_config (x : Z) (g : usbg) : usbg :=
  mk_usbg (USB_DeviceState g) x (USB_Device_CurrentlySelfPowered g)
    (USB_Device_RemoteWakeupEnabled g) (USB_IsInitialized g) (USB_ControlRequest g)
    (VirtualSerial_CDC_Interface g) (_onConnect g) (_onDisconnect g).
Definition with_self_powered (x : bool) (g : usbg) : usbg :=
  mk_usbg (USB_DeviceState g) (USB_Device_ConfigurationNumber g) x
    (USB_Device_RemoteWakeupEnabled g) (USB_IsInitialized g) (USB_ControlRequest g)
    (VirtualSerial_CDC_Interface g) (_onConnect g) (_onDisconnect g).
Definition with_wakeup (x : bool) (g : usbg) : usbg :=
  mk_usbg (USB_DeviceState g) (USB_Device_ConfigurationNumber g)
    (USB_Device_CurrentlySelfPowered g) x (USB_IsInitialized g) (USB_ControlRequest g)
    (VirtualSerial_CDC_Interface g) (_onConnect g) (_onDisconnect g).
Definition with_initialized (x : bool) (g : usbg) : usbg :=
  mk_usbg (USB_DeviceState g) (USB_Device_ConfigurationNumber g)
    (USB_Device_CurrentlySelfPowered g) (USB_Device_RemoteWakeupEnabled g) x
    (USB_ControlRequest g) (VirtualSerial_CDC_Interface g) (_onConnect g) (_onDisconnect g).
Definition with_request (x : USB_Request_Header_t) (g : usbg) : usbg :=
  mk_usbg (USB_DeviceState g) (USB_Device_ConfigurationNumber g)
    (USB_Device_CurrentlySelfPowered g) (USB_Device_RemoteWakeupEnabled g) (USB_IsInitialized g)
    x (VirtualSerial_CDC_Interface g) (_onConnect g) (_onDisconnect g).
Definition with_cdc (x : USB_ClassInfo_CDC_Device_t) (g : usbg) : usbg :=
  mk_usbg (USB_DeviceState g) (USB_Device_ConfigurationNumber g)
    (USB_Device_CurrentlySelfPowered g) (USB_Device_RemoteWakeupEnabled g) (USB_IsInitialized g)
    (USB_ControlRequest g) x (_onConnect g) (_onDisconnect g).
Definition with_pointers (c d : Z) (g : usbg) : usbg :=
  mk_usbg (USB_DeviceState g) (USB_Device_ConfigurationNumber g)
    (USB_Device_CurrentlySelfPowered g) (USB_Device_RemoteWakeupEnabled g) (USB_IsInitialized g)
    (USB_ControlRequest g) (VirtualSerial_CDC_Interface g) c d.

Record ust (D : Type) := mk_ust { u_glob : usbg; u_hw : D }.
Arguments mk_ust {_} _ _.
Arguments u_glob {_} _.
Arguments u_hw {_} _.

(** ** The hardware as a parameter

    [ucu_irqs] is the number of general USB interrupts taken since it was last
    asked, [ucu_signature] a byte of the signature row. *)
Class Ucu (D : Type) := {
  ucu_read : ureg → D → Z * D;
  ucu_write : ureg → Z → D → D;
  ucu_irqs : D → nat * D;
  ucu_signature : Z → Z }.

Section Access.
Context `{Ucu D}.

Definition rd (r : ureg) : IO (ust D) Z := λ s,
  let '(v, d) := ucu_read r (u_hw s) in Ok (v, mk_ust (u_glob s) d).
Definition wr (r : ureg) (v : Z) : IO (ust D) unit := λ s,
  Ok (tt, mk_ust (u_glob s) (ucu_write r (u8 v) (u_hw s))).
Definition pending : IO (ust D) nat := λ s,
  let '(n, d) := ucu_irqs (u_hw s) in Ok (n, mk_ust (u_glob s) d).

(** [*r |= v] and [*r &= ~v]; only the low byte reaches the register. *)
Definition set_bits (r : ureg) (v : Z) : IO (ust D) unit := x ← rd r; wr r (Z.lor x v).
Definition clear_bits (r : ureg) (v : Z) : IO (ust D) unit := x ← rd r; wr r (Z.ldiff x v).

(** [( *r & mask) ? true : false] *)
Definition test_bits (r : ureg) (mask : Z) : IO (ust D) bool :=
  x ← rd r; mret (bool_decide (Z.land x mask ≠ 0%Z)).

Definition get_usb : IO (ust D) usbg := λ s, Ok (u_glob s, s).
Definition mod_usb (f : usbg → usbg) : IO (ust D) unit := λ s,
  Ok (tt, mk_ust (f (u_glob s)) (u_hw s)).
End Access.
