(* ===== verification/UsbEndpoint.v ===== *)
(** * Endpoints: register operations and configuration

    Translation of the inline functions of [Endpoint_AVR8.h] and of the
    configuration functions of [Endpoint_AVR8.c], for the ATmega32u4 (a
    "series 4" AVR). *)

From S2P Require Import Prelude Avr UsbRegs.

Definition ENDPOINT_EPNUM_MASK : Z := 0x0F.
Definition ENDPOINT_CONTROLEP : Z := 0.
Definition ENDPOINT_TOTAL_ENDPOINTS : Z := 7.
Definition ENDPOINT_DIR_IN : Z := 0x80.
Definition ENDPOINT_DIR_OUT : Z := 0x00.
Definition EP_TYPE_CONTROL : Z := 0x00.
Definition EP_TYPE_BULK : Z := 0x02.
Definition EP_TYPE_INTERRUPT : Z := 0x03.
Definition FIXED_CONTROL_ENDPOINT_SIZE : Z := 8.
Definition USB_Device_ControlEndpointSize : Z := FIXED_CONTROL_ENDPOINT_SIZE.

(** Sixteen-bit shifts wrap around: for more than 2^15 bytes the loop would
    not end, hence the fuel. *)
Fixpoint epsize_loop (k : nat) (MaskVal CheckBytes Bytes : Z) : res Z :=
  match k with
  | O => Err NoFuel
  | S k' =>
      if bool_decide (CheckBytes < Bytes)%Z
      then epsize_loop k' (u8 (MaskVal + 1)) (u16 (Z.shiftl CheckBytes 1)) Bytes
      else Ok MaskVal
  end.

Definition Endpoint_BytesToEPSizeMask (fuel : nat) (Bytes : Z) : res Z :=
  m ← epsize_loop fuel 0 8 Bytes; Ok (u8 (Z.shiftl m EPSIZE0)).

Section Code.
Context `{Ucu D} (fuel : nat).

Abbreviation St := (ust D).

Definition Endpoint_BytesInEndpoint : IO St Z :=
  h ← rd UEBCHX; l ← rd UEBCLX; mret (Z.lor (Z.shiftl h 8) l).

Definition Endpoint_GetEndpointDirection : IO St Z :=
  b ← test_bits UECFG0X (bit EPDIR); mret (if b : bool then ENDPOINT_DIR_IN else ENDPOINT_DIR_OUT).

Definition Endpoint_GetCurrentEndpoint : IO St Z :=
  n ← rd UENUM; dir ← Endpoint_GetEndpointDirection;
  mret (Z.lor (Z.land n ENDPOINT_EPNUM_MASK) dir).

Definition Endpoint_SelectEndpoint (address : Z) : IO St unit :=
  wr UENUM (Z.land address ENDPOINT_EPNUM_MASK).

Definition Endpoint_ResetEndpoint (address : Z) : IO St unit :=
  wr UERST (bit (Z.land address ENDPOINT_EPNUM_MASK));; wr UERST 0.

Definition Endpoint_EnableEndpoint : IO St unit := set_bits UECONX (bit EPEN).
Definition Endpoint_DisableEndpoint : IO St unit := clear_bits UECONX (bit EPEN).
Definition Endpoint_IsEnabled : IO St bool := test_bits UECONX (bit EPEN).

Definition Endpoint_GetBusyBanks : IO St Z :=
  x ← rd UESTA0X; mret (Z.land x (Z.shiftl 0x03 NBUSYBK0)).

(** [while (UEINTX & (1 << RXOUTI));] *)
Fixpoint abort_wait (k : nat) : IO St unit :=
  match k with
  | O => fail NoFuel
  | S k' => b ← test_bits UEINTX (bit RXOUTI); if b : bool then abort_wait k' else mret tt
  end.

Fixpoint abort_loop (k : nat) : IO St unit :=
  match k with
  | O => fail NoFuel
  | S k' =>
      n ← Endpoint_GetBusyBanks;
      if bool_decide (n ≠ 0%Z)
      then set_bits UEINTX (bit RXOUTI);; abort_wait fuel;; abort_loop k'
      else mret tt
  end.

Definition Endpoint_AbortPendingIN : IO St unit := abort_loop fuel.

Definition Endpoint_IsReadWriteAllowed : IO St bool := test_bits UEINTX (bit RWAL).
Definition Endpoint_IsConfigured : IO St bool := test_bits UESTA0X (bit CFGOK).
Definition Endpoint_GetEndpointInterrupts : IO St Z := rd UEINT.
Definition Endpoint_HasEndpointInterrupted (address : Z) : IO St bool :=
  x ← Endpoint_GetEndpointInterrupts;
  mret (bool_decide (Z.land x (bit (Z.land address ENDPOINT_EPNUM_MASK)) ≠ 0%Z)).
Definition Endpoint_IsINReady : IO St bool := test_bits UEINTX (bit TXINI).
Definition Endpoint_IsOUTReceived : IO St bool := test_bits UEINTX (bit RXOUTI).
Definition Endpoint_IsSETUPReceived : IO St bool := test_bits UEINTX (bit RXSTPI).
Definition Endpoint_ClearSETUP : IO St unit := clear_bits UEINTX (bit RXSTPI).
Definition Endpoint_ClearIN : IO St unit :=
  clear_bits UEINTX (Z.lor (bit TXINI) (bit FIFOCON)).
Definition Endpoint_ClearOUT : IO St unit :=
  clear_bits UEINTX (Z.lor (bit RXOUTI) (bit FIFOCON)).
Definition Endpoint_StallTransaction : IO St unit := set_bits UECONX (bit STALLRQ).
Definition Endpoint_ClearStall : IO St unit := set_bits UECONX (bit STALLRQC).
Definition Endpoint_IsStalled : IO St bool := test_bits UECONX (bit STALLRQ).
Definition Endpoint_ResetDataToggle : IO St unit := set_bits UECONX (bit RSTDT).
Definition Endpoint_SetEndpointDirection (DirectionMask : Z) : IO St unit :=
  x ← rd UECFG0X;
  wr UECFG0X (Z.lor (Z.ldiff x (bit EPDIR))
                (if bool_decide (DirectionMask ≠ 0%Z) then bit EPDIR else 0%Z)).

(** ** Bytes of the bank *)

Definition Endpoint_Read_8 : IO St Z := rd UEDATX.
Definition Endpoint_Write_8 (Data : Z) : IO St unit := wr UEDATX Data.
Definition Endpoint_Discard_8 : IO St unit := rd UEDATX;; mret tt.

Definition Endpoint_Read_16_LE : IO St Z :=
  b0 ← rd UEDATX; b1 ← rd UEDATX; mret (le_value [b0; b1]).
Definition Endpoint_Read_16_BE : IO St Z :=
  b1 ← rd UEDATX; b0 ← rd UEDATX; mret (le_value [b0; b1]).
Definition Endpoint_Write_16_LE (Data : Z) : IO St unit :=
  wr UEDATX (Z.land Data 0xFF);; wr UEDATX (Z.shiftr Data 8).
Definition Endpoint_Write_16_BE (Data : Z) : IO St unit :=
  wr UEDATX (Z.shiftr Data 8);; wr UEDATX (Z.land Data 0xFF).
Definition Endpoint_Discard_16 : IO St unit := rd UEDATX;; rd UEDATX;; mret tt.
Definition Endpoint_Read_32_LE : IO St Z :=
  b0 ← rd UEDATX; b1 ← rd UEDATX; b2 ← rd UEDATX; b3 ← rd UEDATX; mret (le_value [b0; b1; b2; b3]).
Definition Endpoint_Read_32_BE : IO St Z :=
  b3 ← rd UEDATX; b2 ← rd UEDATX; b1 ← rd UEDATX; b0 ← rd UEDATX; mret (le_value [b0; b1; b2; b3]).
Definition Endpoint_Write_32_LE (Data : Z) : IO St unit :=
  wr UEDATX (Z.land Data 0xFF);; wr UEDATX (Z.shiftr Data 8);;
  wr UEDATX (Z.shiftr Data 16);; wr UEDATX (Z.shiftr Data 24).
Definition Endpoint_Write_32_BE (Data : Z) : IO St unit :=
  wr UEDATX (Z.shiftr Data 24);; wr UEDATX (Z.shiftr Data 16);;
  wr UEDATX (Z.shiftr Data 8);; wr UEDATX (Z.land Data 0xFF).
Definition Endpoint_Discard_32 : IO St unit :=
  rd UEDATX;; rd UEDATX;; rd UEDATX;; rd UEDATX;; mret tt.

(** ** Configuration *)

(** The endpoints from [EPNum] on; [n] of them are left.  The memory of an
    endpoint lies behind that of the lower ones, so the higher ones are
    allocated again. *)
Fixpoint configure_loop (n : nat) (EPNum Number cfg0 cfg1 : Z) : IO St bool :=
  match n with
  | O => mret true
  | S n' =>
      Endpoint_SelectEndpoint EPNum;;
      '(t0, t1, ti) ← (if bool_decide (EPNum = Number) then mret (cfg0, cfg1, 0%Z)
                       else a ← rd UECFG0X; b ← rd UECFG1X; c ← rd UEIENX; mret (a, b, c));
      if bool_decide (Z.land t1 (bit ALLOC) = 0%Z)
      then configure_loop n' (EPNum + 1) Number cfg0 cfg1
      else
        Endpoint_DisableEndpoint;;
        clear_bits UECFG1X (bit ALLOC);;
        Endpoint_EnableEndpoint;;
        wr UECFG0X t0;;
        wr UECFG1X t1;;
        wr UEIENX ti;;
        ok ← Endpoint_IsConfigured;
        if ok : bool then configure_loop n' (EPNum + 1) Number cfg0 cfg1 else mret false
  end.

Definition Endpoint_ConfigureEndpoint_Prv (Number cfg0 cfg1 : Z) : IO St bool :=
  ok ← configure_loop (Z.to_nat (ENDPOINT_TOTAL_ENDPOINTS - Number)) Number Number cfg0 cfg1;
  if ok : bool then Endpoint_SelectEndpoint Number;; mret true else mret false.

Definition Endpoint_ConfigureEndpoint (address type size banks : Z) : IO St bool :=
  let Number := Z.land address ENDPOINT_EPNUM_MASK in
  if bool_decide (Number >= ENDPOINT_TOTAL_ENDPOINTS)%Z then mret false
  else
    mask ← pure (Endpoint_BytesToEPSizeMask fuel size);
    Endpoint_ConfigureEndpoint_Prv Number
      (u8 (Z.lor (Z.shiftl type EPTYPE0)
         (if bool_decide (Z.land address ENDPOINT_DIR_IN ≠ 0%Z) then bit EPDIR else 0%Z)))
      (u8 (Z.lor (Z.lor (bit ALLOC) (if bool_decide (banks > 1)%Z then bit EPBK0 else 0%Z)) mask)).

Fixpoint Endpoint_ConfigureEndpointTable (table : list USB_Endpoint_Table_t) : IO St bool :=
  match table with
  | [] => mret true
  | e :: table' =>
      if bool_decide (Address e = 0%Z) then Endpoint_ConfigureEndpointTable table'
      else
        ok ← Endpoint_ConfigureEndpoint (Address e) (Type_ e) (Size e) (Banks e);
        if ok : bool then Endpoint_ConfigureEndpointTable table' else mret false
  end.

Fixpoint clear_loop (n : nat) (EPNum : Z) : IO St unit :=
  match n with
  | O => mret tt
  | S n' =>
      Endpoint_SelectEndpoint EPNum;;
      wr UEIENX 0;;
      wr UEINTX 0;;
      wr UECFG1X 0;;
      Endpoint_DisableEndpoint;;
      clear_loop n' (EPNum + 1)
  end.

Definition Endpoint_ClearEndpoints : IO St unit :=
  wr UEINT 0;; clear_loop (Z.to_nat ENDPOINT_TOTAL_ENDPOINTS) 0.
End Code.
