(* ===== verification/UsbController.v ===== *)
(** * The controller and its general interrupt

    Translation of [USBController_AVR8.c/.h], [Device_AVR8.c/.h] and
    [USBInterrupt_AVR8.c/.h].  The events of the general interrupt are
    handlers of the application; [GenEvents] lists them. *)

From S2P Require Import Prelude Avr UsbRegs UsbEndpoint.

(** The options of [LUFAConfig.h]: all three are zero bits. *)
Definition USB_DEVICE_OPT_LOWSPEED : Z := bit 0.
Definition USB_DEVICE_OPT_FULLSPEED : Z := Z.shiftl 0 0.
Definition USB_OPT_REG_DISABLED : Z := bit 1.
Definition USB_OPT_REG_ENABLED : Z := Z.shiftl 0 1.
Definition USB_OPT_MANUAL_PLL : Z := bit 2.
Definition USB_OPT_AUTO_PLL : Z := Z.shiftl 0 2.
Definition USB_OPT_REG_KEEP_ENABLED : Z := bit 3.
Definition USB_Options : Z :=
  Z.lor (Z.lor USB_DEVICE_OPT_FULLSPEED USB_OPT_REG_ENABLED) USB_OPT_AUTO_PLL.

Definition opt (mask : Z) : bool := bool_decide (Z.land USB_Options mask ≠ 0%Z).

(** F_USB is 16 MHz. *)
Definition USB_PLL_PSC : Z := bit PINDIV.

Inductive USB_Interrupts_t :=
  | USB_INT_VBUSTI | USB_INT_WAKEUPI | USB_INT_SUSPI | USB_INT_EORSTI | USB_INT_SOFI | USB_INT_RXSTPI.

(** What the general interrupt calls in the application. *)
Class GenEvents (D : Type) := {
  EVENT_USB_Device_Connect : IO (ust D) unit;
  EVENT_USB_Device_Disconnect : IO (ust D) unit;
  EVENT_USB_Device_Suspend : IO (ust D) unit;
  EVENT_USB_Device_WakeUp : IO (ust D) unit;
  EVENT_USB_Device_Reset : IO (ust D) unit;
  EVENT_USB_Device_StartOfFrame : IO (ust D) unit }.

(** Events without a handler of the application are aliases of the stub. *)
Definition USB_Event_Stub {D} : IO (ust D) unit := mret tt.

Section Code.
Context `{Ucu D} (fuel : nat).

Abbreviation St := (ust D).

(** ** [USBController_AVR8.h] *)

Definition USB_VBUS_GetStatus : IO St bool := test_bits USBSTA (bit VBUS).
Definition USB_Detach : IO St unit := set_bits UDCON (bit DETACH).
Definition USB_Attach : IO St unit := clear_bits UDCON (bit DETACH).
Definition USB_PLL_On : IO St unit :=
  wr PLLCSR USB_PLL_PSC;; wr PLLCSR (Z.lor USB_PLL_PSC (bit PLLE)).
Definition USB_PLL_Off : IO St unit := wr PLLCSR 0.
Definition USB_PLL_IsReady : IO St bool := test_bits PLLCSR (bit PLOCK).
Definition USB_REG_On : IO St unit := set_bits UHWCON (bit UVREGE).
Definition USB_REG_Off : IO St unit := clear_bits UHWCON (bit UVREGE).
Definition USB_OTGPAD_On : IO St unit := set_bits USB_CON (bit OTGPADE).
Definition USB_OTGPAD_Off : IO St unit := clear_bits USB_CON (bit OTGPADE).
Definition USB_CLK_Freeze : IO St unit := set_bits USB_CON (bit FRZCLK).
Definition USB_CLK_Unfreeze : IO St unit := clear_bits USB_CON (bit FRZCLK).
Definition USB_Controller_Enable : IO St unit := set_bits USB_CON (bit USBE).
Definition USB_Controller_Disable : IO St unit := clear_bits USB_CON (bit USBE).
Definition USB_Controller_Reset : IO St unit :=
  clear_bits USB_CON (bit USBE);; set_bits USB_CON (bit USBE).

(** [while (!(USB_PLL_IsReady()));] *)
Fixpoint pll_wait (k : nat) : IO St unit :=
  match k with
  | O => fail NoFuel
  | S k' => b ← USB_PLL_IsReady; if b : bool then mret tt else pll_wait k'
  end.

(** ** [Device_AVR8.h] and [Device_AVR8.c] *)

Definition USB_Device_GetFrameNumber : IO St Z := rd UDFNUM.
Definition USB_Device_SetLowSpeed : IO St unit := set_bits UDCON (bit LSM).
Definition USB_Device_SetFullSpeed : IO St unit := clear_bits UDCON (bit LSM).
Definition USB_Device_SetDeviceAddress (address : Z) : IO St unit :=
  x ← rd UDADDR; wr UDADDR (Z.lor (Z.land x (bit ADDEN)) (Z.land address 0x7F)).
Definition USB_Device_EnableDeviceAddress (address : Z) : IO St unit := set_bits UDADDR (bit ADDEN).
Definition USB_Device_IsAddressSet : IO St bool := test_bits UDADDR (bit ADDEN).

Definition INTERNAL_SERIAL_START_ADDRESS : Z := 0x0E.
Definition INTERNAL_SERIAL_LENGTH_BITS : Z := 80.

(** The characters of the serial number from character [i] on, [n] of them. *)
Fixpoint serial_loop (n : nat) (i addr : Z) : list Z :=
  match n with
  | O => []
  | S n' =>
      let b := ucu_signature addr in
      let odd := bool_decide (Z.land i 1 ≠ 0%Z) in
      let nibble := Z.land (if odd then Z.shiftr b 4 else b) 0x0F in
      (if bool_decide (nibble >= 10)%Z then 55 + nibble else 48 + nibble)%Z
      :: serial_loop n' (i + 1) (if odd then u8 (addr + 1) else addr)
  end.

Definition USB_Device_GetSerialString : list Z :=
  serial_loop (Z.to_nat (INTERNAL_SERIAL_LENGTH_BITS / 4)) 0 INTERNAL_SERIAL_START_ADDRESS.

(** [while (UDCON & (1 << RMWKUP));] *)
Fixpoint wakeup_wait (k : nat) : IO St unit :=
  match k with
  | O => fail NoFuel
  | S k' => b ← test_bits UDCON (bit RMWKUP); if b : bool then wakeup_wait k' else mret tt
  end.

Definition USB_Device_SendRemoteWakeup : IO St unit :=
  (if opt USB_OPT_MANUAL_PLL then mret tt else USB_PLL_On;; pll_wait fuel);;
  USB_CLK_Unfreeze;;
  set_bits UDCON (bit RMWKUP);;
  wakeup_wait fuel.

(** ** [USBInterrupt_AVR8.h] *)

Definition USB_INT_Enable (i : USB_Interrupts_t) : IO St unit :=
  match i with
  | USB_INT_VBUSTI => set_bits USB_CON (bit VBUSTE)
  | USB_INT_WAKEUPI => set_bits UDIEN (bit WAKEUPE)
  | USB_INT_SUSPI => set_bits UDIEN (bit SUSPE)
  | USB_INT_EORSTI => set_bits UDIEN (bit EORSTE)
  | USB_INT_SOFI => set_bits UDIEN (bit SOFE)
  | USB_INT_RXSTPI => set_bits UEIENX (bit RXSTPE)
  end.

Definition USB_INT_Disable (i : USB_Interrupts_t) : IO St unit :=
  match i with
  | USB_INT_VBUSTI => clear_bits USB_CON (bit VBUSTE)
  | USB_INT_WAKEUPI => clear_bits UDIEN (bit WAKEUPE)
  | USB_INT_SUSPI => clear_bits UDIEN (bit SUSPE)
  | USB_INT_EORSTI => clear_bits UDIEN (bit EORSTE)
  | USB_INT_SOFI => clear_bits UDIEN (bit SOFE)
  | USB_INT_RXSTPI => clear_bits UEIENX (bit RXSTPE)
  end.

Definition USB_INT_Clear (i : USB_Interrupts_t) : IO St unit :=
  match i with
  | USB_INT_VBUSTI => clear_bits USBINT (bit VBUSTI)
  | USB_INT_WAKEUPI => clear_bits UDINT (bit WAKEUPI)
  | USB_INT_SUSPI => clear_bits UDINT (bit SUSPI)
  | USB_INT_EORSTI => clear_bits UDINT (bit EORSTI)
  | USB_INT_SOFI => clear_bits UDINT (bit SOFI)
  | USB_INT_RXSTPI => clear_bits UEINTX (bit RXSTPI)
  end.

Definition USB_INT_IsEnabled (i : USB_Interrupts_t) : IO St bool :=
  match i with
  | USB_INT_VBUSTI => test_bits USB_CON (bit VBUSTE)
  | USB_INT_WAKEUPI => test_bits UDIEN (bit WAKEUPE)
  | USB_INT_SUSPI => test_bits UDIEN (bit SUSPE)
  | USB_INT_EORSTI => test_bits UDIEN (bit EORSTE)
  | USB_INT_SOFI => test_bits UDIEN (bit SOFE)
  | USB_INT_RXSTPI => test_bits UEIENX (bit RXSTPE)
  end.

Definition USB_INT_HasOccurred (i : USB_Interrupts_t) : IO St bool :=
  match i with
  | USB_INT_VBUSTI => test_bits USBINT (bit VBUSTI)
  | USB_INT_WAKEUPI => test_bits UDINT (bit WAKEUPI)
  | USB_INT_SUSPI => test_bits UDINT (bit SUSPI)
  | USB_INT_EORSTI => test_bits UDINT (bit EORSTI)
  | USB_INT_SOFI => test_bits UDINT (bit SOFI)
  | USB_INT_RXSTPI => test_bits UEINTX (bit RXSTPI)
  end.

(** [USB_INT_HasOccurred(i) && USB_INT_IsEnabled(i)] *)
Definition USB_INT_Fires (i : USB_Interrupts_t) : IO St bool :=
  a ← USB_INT_HasOccurred i; if a : bool then USB_INT_IsEnabled i else mret false.

(** ** [USBController_AVR8.c] *)

Definition USB_INT_DisableAllInterrupts : IO St unit :=
  clear_bits USB_CON (bit VBUSTE);; wr UDIEN 0.

Definition USB_INT_ClearAllInterrupts : IO St unit := wr USBINT 0;; wr UDINT 0.

Definition USB_Init_Device : IO St unit :=
  mod_usb (with_state DEVICE_STATE_Unattached);;
  mod_usb (with_config 0);;
  mod_usb (with_wakeup false);;
  mod_usb (with_self_powered false);;
  (if opt USB_DEVICE_OPT_LOWSPEED then USB_Device_SetLowSpeed else USB_Device_SetFullSpeed);;
  USB_INT_Enable USB_INT_VBUSTI;;
  Endpoint_ConfigureEndpoint fuel ENDPOINT_CONTROLEP EP_TYPE_CONTROL USB_Device_ControlEndpointSize 1;;
  USB_INT_Clear USB_INT_SUSPI;;
  USB_INT_Enable USB_INT_SUSPI;;
  USB_INT_Enable USB_INT_EORSTI;;
  USB_Attach.

(** The mode is fixed to the device mode. *)
Definition USB_ResetInterface : IO St unit :=
  USB_INT_DisableAllInterrupts;;
  USB_INT_ClearAllInterrupts;;
  USB_Controller_Reset;;
  USB_CLK_Unfreeze;;
  (if opt USB_OPT_MANUAL_PLL then mret tt else USB_PLL_Off);;
  USB_Init_Device;;
  USB_OTGPAD_On.

Definition USB_Init : IO St unit :=
  USB_OTGPAD_Off;;
  (if opt USB_OPT_REG_DISABLED then USB_REG_Off else USB_REG_On);;
  (if opt USB_OPT_MANUAL_PLL then mret tt else wr PLLFRQ (bit PDIV2));;
  mod_usb (with_initialized true);;
  USB_ResetInterface.

Definition USB_Disable : IO St unit :=
  USB_INT_DisableAllInterrupts;;
  USB_INT_ClearAllInterrupts;;
  USB_Detach;;
  USB_Controller_Disable;;
  (if opt USB_OPT_MANUAL_PLL then mret tt else USB_PLL_Off);;
  (if opt USB_OPT_REG_KEEP_ENABLED then mret tt else USB_REG_Off);;
  USB_OTGPAD_Off;;
  mod_usb (with_initialized false).

(** ** The general interrupt *)

Context `{!GenEvents D}.

Definition gen_sof : IO St unit :=
  USB_INT_Clear USB_INT_SOFI;; EVENT_USB_Device_StartOfFrame.

Definition gen_vbus : IO St unit :=
  USB_INT_Clear USB_INT_VBUSTI;;
  on ← USB_VBUS_GetStatus;
  if on : bool then
    (if opt USB_OPT_MANUAL_PLL then mret tt else USB_PLL_On;; pll_wait fuel);;
    mod_usb (with_state DEVICE_STATE_Powered);;
    EVENT_USB_Device_Connect
  else
    (if opt USB_OPT_MANUAL_PLL then mret tt else USB_PLL_Off);;
    mod_usb (with_state DEVICE_STATE_Unattached);;
    EVENT_USB_Device_Disconnect.

Definition gen_suspend : IO St unit :=
  USB_INT_Disable USB_INT_SUSPI;;
  USB_INT_Enable USB_INT_WAKEUPI;;
  USB_CLK_Freeze;;
  (if opt USB_OPT_MANUAL_PLL then mret tt else USB_PLL_Off);;
  mod_usb (with_state DEVICE_STATE_Suspended);;
  EVENT_USB_Device_Suspend.

Definition gen_wakeup : IO St unit :=
  (if opt USB_OPT_MANUAL_PLL then mret tt else USB_PLL_On;; pll_wait fuel);;
  USB_CLK_Unfreeze;;
  USB_INT_Clear USB_INT_WAKEUPI;;
  USB_INT_Disable USB_INT_WAKEUPI;;
  USB_INT_Enable USB_INT_SUSPI;;
  g ← get_usb;
  (if bool_decide (USB_Device_ConfigurationNumber g ≠ 0%Z) then
     mod_usb (with_state DEVICE_STATE_Configured)
   else
     a ← USB_Device_IsAddressSet;
     mod_usb (with_state (if a : bool then DEVICE_STATE_Addressed else DEVICE_STATE_Powered)));;
  EVENT_USB_Device_WakeUp.

Definition gen_reset : IO St unit :=
  USB_INT_Clear USB_INT_EORSTI;;
  mod_usb (with_state DEVICE_STATE_Default);;
  mod_usb (with_config 0);;
  USB_INT_Clear USB_INT_SUSPI;;
  USB_INT_Disable USB_INT_SUSPI;;
  USB_INT_Enable USB_INT_WAKEUPI;;
  Endpoint_ConfigureEndpoint fuel ENDPOINT_CONTROLEP EP_TYPE_CONTROL USB_Device_ControlEndpointSize 1;;
  USB_INT_Enable USB_INT_RXSTPI;;
  EVENT_USB_Device_Reset.

Definition when_fires (i : USB_Interrupts_t) (m : IO St unit) : IO St unit :=
  b ← USB_INT_Fires i; if b : bool then m else mret tt.

Definition USB_GEN_vect : IO St unit :=
  when_fires USB_INT_SOFI gen_sof;;
  when_fires USB_INT_VBUSTI gen_vbus;;
  when_fires USB_INT_SUSPI gen_suspend;;
  when_fires USB_INT_WAKEUPI gen_wakeup;;
  when_fires USB_INT_EORSTI gen_reset.

(** Interrupts are taken where the code looks at what they change, at the
    reads of the volatile [USB_DeviceState]. *)
Fixpoint run_gen (n : nat) : IO St unit :=
  match n with O => mret tt | S n' => USB_GEN_vect;; run_gen n' end.

Definition read_DeviceState : IO St Z :=
  n ← pending; run_gen n;; g ← get_usb; mret (USB_DeviceState g).
End Code.
