(* ===== verification/UsbStream.v ===== *)
(** * Waiting for the host, and streams of bytes

    Translation of the waiting functions of [Endpoint_AVR8.c], of
    [EndpointStream_AVR8.c] and of the three templates it instantiates.  A
    template's buffer is a list with the position of [DataStream] in it; the
    little-endian instances move it forwards, the big-endian ones backwards.
    With [INTERRUPT_CONTROL_ENDPOINT] the templates do not call
    [USB_USBTask]. *)

From S2P Require Import Prelude Avr UsbRegs UsbEndpoint UsbController.

Definition ENDPOINT_READYWAIT_NoError : Z := 0.
Definition ENDPOINT_READYWAIT_EndpointStalled : Z := 1.
Definition ENDPOINT_READYWAIT_DeviceDisconnected : Z := 2.
Definition ENDPOINT_READYWAIT_BusSuspended : Z := 3.
Definition ENDPOINT_READYWAIT_Timeout : Z := 4.
Definition ENDPOINT_RWSTREAM_NoError : Z := 0.
Definition ENDPOINT_RWSTREAM_DeviceDisconnected : Z := 2.
Definition ENDPOINT_RWSTREAM_IncompleteTransfer : Z := 5.
Definition ENDPOINT_RWCSTREAM_NoError : Z := 0.
Definition ENDPOINT_RWCSTREAM_HostAborted : Z := 1.
Definition ENDPOINT_RWCSTREAM_DeviceDisconnected : Z := 2.
Definition ENDPOINT_RWCSTREAM_BusSuspended : Z := 3.
Definition USB_STREAM_TIMEOUT_MS : Z := 100.
Definition REQDIR_DEVICETOHOST : Z := Z.shiftl 1 7.

(** Array accesses at an [int] position. *)
Definition load_at {A} (l : list A) (i : Z) : res A :=
  if bool_decide (i < 0)%Z then Err OutOfBounds else load l (Z.to_nat i).
Definition store_at {A} (l : list A) (i : Z) (x : A) : res (list A) :=
  if bool_decide (i < 0)%Z then Err OutOfBounds else store l (Z.to_nat i) x.

Section Code.
Context `{Ucu D, !GenEvents D} (fuel : nat).

Abbreviation St := (ust D).

(** [while (!ready) { if (USB_DeviceState == DEVICE_STATE_Unattached) return; }],
    with [true] when the stage is reached. *)
Fixpoint stage_loop (k : nat) (ready : IO St bool) : IO St bool :=
  match k with
  | O => fail NoFuel
  | S k' =>
      b ← ready;
      if b : bool then mret true
      else
        st ← read_DeviceState fuel;
        if bool_decide (st = DEVICE_STATE_Unattached) then mret false else stage_loop k' ready
  end.

Definition Endpoint_ClearStatusStage : IO St unit :=
  g ← get_usb;
  if bool_decide (Z.land (bmRequestType (USB_ControlRequest g)) REQDIR_DEVICETOHOST ≠ 0%Z)
  then b ← stage_loop fuel Endpoint_IsOUTReceived; if b : bool then Endpoint_ClearOUT else mret tt
  else b ← stage_loop fuel Endpoint_IsINReady; if b : bool then Endpoint_ClearIN else mret tt.

Fixpoint ready_loop (k : nat) (PreviousFrameNumber TimeoutMSRem : Z) : IO St Z :=
  match k with
  | O => fail NoFuel
  | S k' =>
      dir ← Endpoint_GetEndpointDirection;
      ready ← (if bool_decide (dir = ENDPOINT_DIR_IN) then Endpoint_IsINReady
               else Endpoint_IsOUTReceived);
      if ready : bool then mret ENDPOINT_READYWAIT_NoError
      else
        st ← read_DeviceState fuel;
        if bool_decide (st = DEVICE_STATE_Unattached) then mret ENDPOINT_READYWAIT_DeviceDisconnected
        else if bool_decide (st = DEVICE_STATE_Suspended) then mret ENDPOINT_READYWAIT_BusSuspended
        else
          stalled ← Endpoint_IsStalled;
          if stalled : bool then mret ENDPOINT_READYWAIT_EndpointStalled
          else
            now ← USB_Device_GetFrameNumber;
            if bool_decide (now = PreviousFrameNumber)
            then ready_loop k' PreviousFrameNumber TimeoutMSRem
            else if bool_decide (TimeoutMSRem = 0%Z) then mret ENDPOINT_READYWAIT_Timeout
            else ready_loop k' now (TimeoutMSRem - 1)
  end.

Definition Endpoint_WaitUntilReady : IO St Z :=
  f ← USB_Device_GetFrameNumber; ready_loop fuel f USB_STREAM_TIMEOUT_MS.

(** ** [Template_Endpoint_RW.c] *)

Section Template.
Context {B : Type} (clear : IO St unit) (transfer : Z → B → IO St B) (move : Z).

Fixpoint rw_loop (k : nat) (buf : B) (pos Length BytesInTransfer : Z) (processed : option Z)
  : IO St (Z * B * option Z) :=
  match k with
  | O => fail NoFuel
  | S k' =>
      if bool_decide (Length = 0%Z) then mret (ENDPOINT_RWSTREAM_NoError, buf, processed)
      else
        rw ← Endpoint_IsReadWriteAllowed;
        if rw : bool then
          buf' ← transfer pos buf;
          rw_loop k' buf' (pos + move) (Length - 1) (u16 (BytesInTransfer + 1)) processed
        else
          clear;;
          match processed with
          | Some p => mret (ENDPOINT_RWSTREAM_IncompleteTransfer, buf, Some (u16 (p + BytesInTransfer)))
          | None =>
              e ← Endpoint_WaitUntilReady;
              if bool_decide (e ≠ 0%Z) then mret (e, buf, processed)
              else rw_loop k' buf pos Length BytesInTransfer processed
          end
  end.

Definition rw_stream (start : Z) (buf : B) (Length : Z) (processed : option Z)
  : IO St (Z * B * option Z) :=
  e ← Endpoint_WaitUntilReady;
  if bool_decide (e ≠ 0%Z) then mret (e, buf, processed)
  else
    let p := default 0%Z processed in
    rw_loop fuel buf (start + move * p) (u16 (Length - p)) 0 processed.
End Template.

(** [TEMPLATE_TRANSFER_BYTE] of the writing and of the reading streams. *)
Definition put_byte (buf : list Z) (pos : Z) (_ : unit) : IO St unit :=
  x ← pure (load_at buf pos); Endpoint_Write_8 x.
Definition take_byte (pos : Z) (buf : list Z) : IO St (list Z) :=
  x ← Endpoint_Read_8; pure (store_at buf pos x).

Definition Endpoint_Write_Stream_LE (buf : list Z) (Length : Z) (processed : option Z)
  : IO St (Z * option Z) :=
  '(e, _, p) ← rw_stream Endpoint_ClearIN (put_byte buf) 1 0 tt Length processed; mret (e, p).
Definition Endpoint_Write_Stream_BE (buf : list Z) (Length : Z) (processed : option Z)
  : IO St (Z * option Z) :=
  '(e, _, p) ← rw_stream Endpoint_ClearIN (put_byte buf) (-1) (Length - 1) tt Length processed;
  mret (e, p).
Definition Endpoint_Read_Stream_LE (buf : list Z) (Length : Z) (processed : option Z)
  : IO St (Z * list Z * option Z) :=
  rw_stream Endpoint_ClearOUT take_byte 1 0 buf Length processed.
Definition Endpoint_Read_Stream_BE (buf : list Z) (Length : Z) (processed : option Z)
  : IO St (Z * list Z * option Z) :=
  rw_stream Endpoint_ClearOUT take_byte (-1) (Length - 1) buf Length processed.

(** The buffer in flash memory, read with [pgm_read_byte]. *)
Definition Endpoint_Write_PStream_LE (flash : list Z) (Length : Z) (processed : option Z)
  : IO St (Z * option Z) :=
  '(e, _, p) ← rw_stream Endpoint_ClearIN (put_byte flash) 1 0 tt Length processed; mret (e, p).

Definition Endpoint_Write_PStream_BE (flash : list Z) (Length : Z) (processed : option Z)
  : IO St (Z * option Z) :=
  '(e, _, p) ← rw_stream Endpoint_ClearIN (put_byte flash) (-1) (Length - 1) tt Length processed;
  mret (e, p).

(** The buffer in EEPROM, read with [eeprom_read_byte] and written with
    [eeprom_update_byte], which stores the byte where it differs. *)
Definition update_byte (pos : Z) (eeprom : list Z) : IO St (list Z) :=
  x ← Endpoint_Read_8;
  old ← pure (load_at eeprom pos);
  if bool_decide (old = x) then mret eeprom else pure (store_at eeprom pos x).

Definition Endpoint_Write_EStream_LE (eeprom : list Z) (Length : Z) (processed : option Z)
  : IO St (Z * option Z) :=
  '(e, _, p) ← rw_stream Endpoint_ClearIN (put_byte eeprom) 1 0 tt Length processed; mret (e, p).
Definition Endpoint_Write_EStream_BE (eeprom : list Z) (Length : Z) (processed : option Z)
  : IO St (Z * option Z) :=
  '(e, _, p) ← rw_stream Endpoint_ClearIN (put_byte eeprom) (-1) (Length - 1) tt Length processed;
  mret (e, p).
Definition Endpoint_Read_EStream_LE (eeprom : list Z) (Length : Z) (processed : option Z)
  : IO St (Z * list Z * option Z) :=
  rw_stream Endpoint_ClearOUT update_byte 1 0 eeprom Length processed.
Definition Endpoint_Read_EStream_BE (eeprom : list Z) (Length : Z) (processed : option Z)
  : IO St (Z * list Z * option Z) :=
  rw_stream Endpoint_ClearOUT update_byte (-1) (Length - 1) eeprom Length processed.

Definition Endpoint_Discard_Stream (Length : Z) (processed : option Z) : IO St (Z * option Z) :=
  '(e, _, p) ← rw_stream Endpoint_ClearOUT (λ _ (_ : unit), Endpoint_Discard_8) 0 0 tt Length processed;
  mret (e, p).
Definition Endpoint_Null_Stream (Length : Z) (processed : option Z) : IO St (Z * option Z) :=
  '(e, _, p) ← rw_stream Endpoint_ClearIN (λ _ (_ : unit), Endpoint_Write_8 0) 0 0 tt Length processed;
  mret (e, p).

(** ** [Template_Endpoint_Control_W.c] *)

(** The checks at the head of the loops: an error code, or go on. *)
Definition line_error (host_aborts : bool) : IO St (option Z) :=
  st ← read_DeviceState fuel;
  if bool_decide (st = DEVICE_STATE_Unattached) then mret (Some ENDPOINT_RWCSTREAM_DeviceDisconnected)
  else if bool_decide (st = DEVICE_STATE_Suspended) then mret (Some ENDPOINT_RWCSTREAM_BusSuspended)
  else if host_aborts then
    b ← Endpoint_IsSETUPReceived;
    mret (if b : bool then Some ENDPOINT_RWCSTREAM_HostAborted else None)
  else mret None.

(** Fills the bank: [n] bytes are left from position [pos] on. *)
Fixpoint fill_bank (buf : list Z) (move : Z) (n : nat) (pos BytesInEndpoint : Z)
  : IO St (nat * Z * Z) :=
  match n with
  | O => mret (n, pos, BytesInEndpoint)
  | S n' =>
      if bool_decide (BytesInEndpoint < USB_Device_ControlEndpointSize)%Z then
        x ← pure (load_at buf pos);
        Endpoint_Write_8 x;;
        fill_bank buf move n' (pos + move) (u16 (BytesInEndpoint + 1))
      else mret (n, pos, BytesInEndpoint)
  end.

Fixpoint control_write_loop (buf : list Z) (move : Z) (k n : nat) (pos : Z) (LastPacketFull : bool)
  : IO St (option Z) :=
  match k with
  | O => fail NoFuel
  | S k' =>
      if bool_decide (n = 0) && negb LastPacketFull then mret None
      else
        e ← line_error true;
        match e with
        | Some c => mret (Some c)
        | None =>
            out ← Endpoint_IsOUTReceived;
            if out : bool then mret None
            else
              ready ← Endpoint_IsINReady;
              if ready : bool then
                b ← Endpoint_BytesInEndpoint;
                '(n', pos', b') ← fill_bank buf move n pos b;
                Endpoint_ClearIN;;
                control_write_loop buf move k' n' pos' (bool_decide (b' = USB_Device_ControlEndpointSize))
              else control_write_loop buf move k' n pos LastPacketFull
        end
  end.

(** The wait for the status stage. *)
Fixpoint status_loop (ready : IO St bool) (host_aborts : bool) (k : nat) : IO St Z :=
  match k with
  | O => fail NoFuel
  | S k' =>
      b ← ready;
      if b : bool then mret ENDPOINT_RWCSTREAM_NoError
      else
        e ← line_error host_aborts;
        match e with Some c => mret c | None => status_loop ready host_aborts k' end
  end.

Definition control_write (move start : Z) (buf : list Z) (Length : Z) : IO St Z :=
  g ← get_usb;
  let limit := wLength (USB_ControlRequest g) in
  len ← (if bool_decide (Length > limit)%Z then mret limit
         else (if bool_decide (Length = 0%Z) then Endpoint_ClearIN else mret tt);; mret Length);
  e ← control_write_loop buf move fuel (Z.to_nat len) start false;
  match e with Some c => mret c | None => status_loop Endpoint_IsOUTReceived true fuel end.

Definition Endpoint_Write_Control_Stream_LE (buf : list Z) (Length : Z) : IO St Z :=
  control_write 1 0 buf Length.
Definition Endpoint_Write_Control_Stream_BE (buf : list Z) (Length : Z) : IO St Z :=
  control_write (-1) (Length - 1) buf Length.
Definition Endpoint_Write_Control_PStream_LE (flash : list Z) (Length : Z) : IO St Z :=
  control_write 1 0 flash Length.
Definition Endpoint_Write_Control_PStream_BE (flash : list Z) (Length : Z) : IO St Z :=
  control_write (-1) (Length - 1) flash Length.
Definition Endpoint_Write_Control_EStream_LE (eeprom : list Z) (Length : Z) : IO St Z :=
  control_write 1 0 eeprom Length.
Definition Endpoint_Write_Control_EStream_BE (eeprom : list Z) (Length : Z) : IO St Z :=
  control_write (-1) (Length - 1) eeprom Length.

(** ** [Template_Endpoint_Control_R.c] *)

Section ControlRead.
Context (transfer : Z → list Z → IO St (list Z)) (move : Z).

Fixpoint drain_bank (n : nat) (pos : Z) (buf : list Z) : IO St (nat * Z * list Z) :=
  match n with
  | O => mret (n, pos, buf)
  | S n' =>
      b ← Endpoint_BytesInEndpoint;
      if bool_decide (b = 0%Z) then mret (n, pos, buf)
      else buf' ← transfer pos buf; drain_bank n' (pos + move) buf'
  end.

Fixpoint control_read_loop (k n : nat) (pos : Z) (buf : list Z) : IO St (option Z * list Z) :=
  match k with
  | O => fail NoFuel
  | S k' =>
      if bool_decide (n = 0) then mret (None, buf)
      else
        e ← line_error true;
        match e with
        | Some c => mret (Some c, buf)
        | None =>
            out ← Endpoint_IsOUTReceived;
            if out : bool then
              '(n', pos', buf') ← drain_bank n pos buf;
              Endpoint_ClearOUT;;
              control_read_loop k' n' pos' buf'
            else control_read_loop k' n pos buf
        end
  end.

Definition control_read (start : Z) (buf : list Z) (Length : Z) : IO St (Z * list Z) :=
  (if bool_decide (Length = 0%Z) then Endpoint_ClearOUT else mret tt);;
  '(e, buf') ← control_read_loop fuel (Z.to_nat Length) start buf;
  match e with
  | Some c => mret (c, buf')
  | None => c ← status_loop Endpoint_IsINReady false fuel; mret (c, buf')
  end.
End ControlRead.

Definition Endpoint_Read_Control_Stream_LE (buf : list Z) (Length : Z) : IO St (Z * list Z) :=
  control_read take_byte 1 0 buf Length.
Definition Endpoint_Read_Control_Stream_BE (buf : list Z) (Length : Z) : IO St (Z * list Z) :=
  control_read take_byte (-1) (Length - 1) buf Length.
Definition Endpoint_Read_Control_EStream_LE (eeprom : list Z) (Length : Z) : IO St (Z * list Z) :=
  control_read update_byte 1 0 eeprom Length.
Definition Endpoint_Read_Control_EStream_BE (eeprom : list Z) (Length : Z) : IO St (Z * list Z) :=
  control_read update_byte (-1) (Length - 1) eeprom Length.
End Code.
