(* ===== verification/UsbDescriptors.v ===== *)
(** * Descriptors

    The descriptors of the firmware and the callback that hands them out
    ([virtualserial/Descriptors.c]), laid out as the packed structures of
    [StdDescriptors.h] and [CDCClassCommon.h], and the search through a
    configuration descriptor ([ConfigDescriptors.c/.h]). *)

From S2P Require Import Prelude Avr UsbRegs UsbEndpoint UsbController.
From stdpp Require Import strings.

Module Descriptors.

Definition NO_DESCRIPTOR : Z := 0.
Definition DTYPE_Device : Z := 0x01.
Definition DTYPE_Configuration : Z := 0x02.
Definition DTYPE_String : Z := 0x03.
Definition DTYPE_Interface : Z := 0x04.
Definition DTYPE_Endpoint : Z := 0x05.
Definition DTYPE_CSInterface : Z := 0x24.
Definition USE_INTERNAL_SERIAL : Z := 0xDC.
Definition FIXED_NUM_CONFIGURATIONS : Z := 1.
Definition INTERFACE_ID_CDC_CCI : Z := 0.
Definition INTERFACE_ID_CDC_DCI : Z := 1.
Definition STRING_ID_Language : Z := 0.
Definition STRING_ID_Manufacturer : Z := 1.
Definition STRING_ID_Product : Z := 2.
Definition CDC_NOTIFICATION_EPADDR : Z := Z.lor ENDPOINT_DIR_IN 2.
Definition CDC_TX_EPADDR : Z := Z.lor ENDPOINT_DIR_IN 3.
Definition CDC_RX_EPADDR : Z := Z.lor ENDPOINT_DIR_OUT 4.
Definition CDC_NOTIFICATION_EPSIZE : Z := 8.
Definition CDC_TXRX_EPSIZE : Z := 16.
Definition LANGUAGE_ID_ENG : Z := 0x0409.

(** ** The layout of the structures *)

(** A 16-bit member. *)
Definition word (x : Z) : list Z := [Z.land x 0xFF; Z.shiftr x 8].

Definition VERSION_BCD (Major Minor Revision : Z) : Z :=
  Z.lor (Z.lor (Z.shiftl (Z.land Major 0xFF) 8) (Z.shiftl (Z.land Minor 0x0F) 4))
        (Z.land Revision 0x0F).

(** A structure with its header: [Header.Size] is [sizeof] of the whole. *)
Definition descriptor (type : Z) (body : list Z) : list Z :=
  Z.of_nat (2 + length body) :: type :: body.

Definition USB_Descriptor_Interface (number alternate endpoints class subclass protocol str : Z)
  : list Z := descriptor DTYPE_Interface [number; alternate; endpoints; class; subclass; protocol; str].

Definition USB_Descriptor_Endpoint (address attributes size interval : Z) : list Z :=
  descriptor DTYPE_Endpoint ([address; attributes] ++ word size ++ [interval]).

(** [USB_STRING_DESCRIPTOR]: [wchar_t] has 16 bits, the final NUL is not part
    of the size. *)
Definition USB_STRING_DESCRIPTOR (s : string) : list Z :=
  descriptor DTYPE_String (mjoin (word <$> str s)).

(** ** [Descriptors.c] *)

Definition DeviceDescriptor : list Z :=
  descriptor DTYPE_Device
    (word (VERSION_BCD 1 1 0) ++ [0xEF%Z; 0x02%Z; 0x01%Z]
     ++ [FIXED_CONTROL_ENDPOINT_SIZE]
     ++ word 0x03EB ++ word 0x204E ++ word (VERSION_BCD 0 0 1)
     ++ [STRING_ID_Manufacturer; STRING_ID_Product; USE_INTERNAL_SERIAL; FIXED_NUM_CONFIGURATIONS]).

(** The descriptors behind the configuration header. *)
Definition configuration_parts : list (list Z) :=
  [ USB_Descriptor_Interface INTERFACE_ID_CDC_CCI 0 1 0x02 0x02 0x01 NO_DESCRIPTOR;
    descriptor DTYPE_CSInterface (0x00%Z :: word (VERSION_BCD 1 1 0));
    descriptor DTYPE_CSInterface [0x02%Z; 0x06%Z];
    descriptor DTYPE_CSInterface [0x06%Z; INTERFACE_ID_CDC_CCI; INTERFACE_ID_CDC_DCI];
    USB_Descriptor_Endpoint CDC_NOTIFICATION_EPADDR EP_TYPE_INTERRUPT CDC_NOTIFICATION_EPSIZE 0xFF;
    USB_Descriptor_Interface INTERFACE_ID_CDC_DCI 0 2 0x0A 0x00 0x00 NO_DESCRIPTOR;
    USB_Descriptor_Endpoint CDC_RX_EPADDR EP_TYPE_BULK CDC_TXRX_EPSIZE 0x05;
    USB_Descriptor_Endpoint CDC_TX_EPADDR EP_TYPE_BULK CDC_TXRX_EPSIZE 0x05 ].

(** [sizeof(USB_Descriptor_Configuration_t)] with its nine-byte header. *)
Definition configuration_size : Z := 9 + Z.of_nat (length (mjoin configuration_parts)).

Definition configuration_header : list Z :=
  descriptor DTYPE_Configuration
    (word configuration_size
     ++ [2%Z; 1%Z; NO_DESCRIPTOR; Z.lor 0x80 0x40; Z.shiftr 100 1]).

Definition ConfigurationDescriptor : list Z := configuration_header ++ mjoin configuration_parts.

Definition LanguageString : list Z := descriptor DTYPE_String (word LANGUAGE_ID_ENG).
Definition ManufacturerString : list Z := USB_STRING_DESCRIPTOR "Dean Camera".
Definition ProductString : list Z := USB_STRING_DESCRIPTOR "LUFA Dual CDC Demo".

(** The descriptor at the address handed out, with its size; no descriptor is
    the size [NO_DESCRIPTOR].  [pgm_read_byte(&X.Header.Size)] is the first
    byte of [X]. *)
Definition CALLBACK_USB_GetDescriptor (wValue wIndex : Z) : list Z * Z :=
  let DescriptorType := u8 (Z.shiftr wValue 8) in
  let DescriptorNumber := u8 (Z.land wValue 0xFF) in
  let header_size l := default 0%Z (head l) in
  if bool_decide (DescriptorType = DTYPE_Device) then
    (DeviceDescriptor, Z.of_nat (length DeviceDescriptor))
  else if bool_decide (DescriptorType = DTYPE_Configuration) then
    (ConfigurationDescriptor, configuration_size)
  else if bool_decide (DescriptorType = DTYPE_String) then
    if bool_decide (DescriptorNumber = STRING_ID_Language) then
      (LanguageString, header_size LanguageString)
    else if bool_decide (DescriptorNumber = STRING_ID_Manufacturer) then
      (ManufacturerString, header_size ManufacturerString)
    else if bool_decide (DescriptorNumber = STRING_ID_Product) then
      (ProductString, header_size ProductString)
    else ([], NO_DESCRIPTOR)
  else ([], NO_DESCRIPTOR).

(** ** [ConfigDescriptors.c]

    A position of the search: [BytesRem] and the offset of [CurrConfigLoc] in
    the buffer. *)

Definition DESCRIPTOR_SIZE (buf : list Z) (loc : nat) : res Z := load buf loc.
Definition DESCRIPTOR_TYPE (buf : list Z) (loc : nat) : res Z := load buf (loc + 1).

Definition USB_GetNextDescriptor (buf : list Z) (s : Z * nat) : res (Z * nat) :=
  let '(BytesRem, loc) := s in
  size ← DESCRIPTOR_SIZE buf loc;
  let size := if bool_decide (BytesRem < size)%Z then BytesRem else size in
  Ok ((BytesRem - size)%Z, loc + Z.to_nat size).

Fixpoint USB_GetNextDescriptorOfType (fuel : nat) (buf : list Z) (type : Z) (s : Z * nat)
  : res (Z * nat) :=
  match fuel with
  | O => Err NoFuel
  | S fuel' =>
      if bool_decide (s.1 = 0%Z) then Ok s
      else
        s' ← USB_GetNextDescriptor buf s;
        t ← DESCRIPTOR_TYPE buf s'.2;
        if bool_decide (t = type) then Ok s'
        else USB_GetNextDescriptorOfType fuel' buf type s'
  end.

Fixpoint USB_GetNextDescriptorOfTypeBefore (fuel : nat) (buf : list Z) (type before : Z) (s : Z * nat)
  : res (Z * nat) :=
  match fuel with
  | O => Err NoFuel
  | S fuel' =>
      if bool_decide (s.1 = 0%Z) then Ok s
      else
        s' ← USB_GetNextDescriptor buf s;
        t ← DESCRIPTOR_TYPE buf s'.2;
        if bool_decide (t = type) then Ok s'
        else
          t ← DESCRIPTOR_TYPE buf s'.2;
          if bool_decide (t = before) then Ok (0%Z, s'.2)
          else USB_GetNextDescriptorOfTypeBefore fuel' buf type before s'
  end.

Definition USB_GetNextDescriptorOfTypeAfter (fuel : nat) (buf : list Z) (type after : Z) (s : Z * nat)
  : res (Z * nat) :=
  s' ← USB_GetNextDescriptorOfType fuel buf after s;
  if bool_decide (s'.1 ≠ 0%Z) then USB_GetNextDescriptorOfType fuel buf type s' else Ok s'.

Definition DESCRIPTOR_SEARCH_Found : Z := 0.
Definition DESCRIPTOR_SEARCH_Fail : Z := 1.
Definition DESCRIPTOR_SEARCH_NotFound : Z := 2.
Definition DESCRIPTOR_SEARCH_COMP_EndOfDescriptor : Z := 2.

(** The comparator gets the buffer and the position it looks at. *)
Fixpoint USB_GetNextDescriptorComp (fuel : nat) (buf : list Z) (comparator : nat → res Z) (s : Z * nat)
  : res (Z * (Z * nat)) :=
  match fuel with
  | O => Err NoFuel
  | S fuel' =>
      if bool_decide (s.1 = 0%Z) then Ok (DESCRIPTOR_SEARCH_COMP_EndOfDescriptor, s)
      else
        s' ← USB_GetNextDescriptor buf s;
        e ← comparator s'.2;
        if bool_decide (e = DESCRIPTOR_SEARCH_NotFound)
        then USB_GetNextDescriptorComp fuel' buf comparator s'
        else Ok (e, if bool_decide (e = DESCRIPTOR_SEARCH_Fail) then s else s')
  end.

(** ** A buffer that is a sequence of descriptors *)

(** Each starts with its own length, and has at least its header. *)
Definition is_descriptor (d : list Z) : Prop :=
  2 ≤ length d ∧ (length d < 256) ∧ d !! 0 = Some (Z.of_nat (length d)).

Definition of_type (type : Z) (d : list Z) : Prop := d !! 1 = Some type.

#[export] Instance is_descriptor_dec d : Decision (is_descriptor d).
Proof. unfold is_descriptor. apply _. Defined.
#[export] Instance of_type_dec t d : Decision (of_type t d).
Proof. unfold of_type. apply _. Defined.

(** [at_ buf s ds]: the bytes that remain at [s] are the descriptors [ds]. *)
Definition at_ (buf : list Z) (s : Z * nat) (ds : list (list Z)) : Prop :=
  Forall is_descriptor ds ∧ drop s.2 buf = mjoin ds ∧ s.1 = Z.of_nat (length (mjoin ds)).

Lemma mjoin_cons {A} (d : list A) ds : mjoin (d :: ds) = d ++ mjoin ds.
Proof. done. Qed.

Lemma at_next buf s d ds : at_ buf s (d :: ds) →
  ∃ s', USB_GetNextDescriptor buf s = Ok s' ∧ at_ buf s' ds.
Proof.
  intros ([(H2 & Hu & H0) Hds]%Forall_cons & Hbuf & Hrem). destruct s as [rem loc].
  cbn [fst snd] in *. rewrite mjoin_cons in *. rewrite length_app in Hrem.
  assert (buf !! loc = Some (Z.of_nat (length d))) as Hl.
  { rewrite <- (Nat.add_0_r loc), <- lookup_drop, Hbuf, lookup_app_l by lia. done. }
  unfold USB_GetNextDescriptor, DESCRIPTOR_SIZE, load. rewrite Hl, res_bind_Ok.
  rewrite bool_decide_false by lia. rewrite Nat2Z.id. eexists. split; [done|].
  split_and!; [done| |cbn [fst]; lia].
  cbn [snd]. by rewrite <- drop_drop, Hbuf, drop_app_length.
Qed.

Lemma at_type buf s d ds t : at_ buf s (d :: ds) → of_type t d → DESCRIPTOR_TYPE buf s.2 = Ok t.
Proof.
  intros ([(H2 & _ & _) _]%Forall_cons & Hbuf & _) Ht. unfold DESCRIPTOR_TYPE, load.
  rewrite <- lookup_drop, Hbuf. rewrite mjoin_cons. by rewrite lookup_app_l, Ht by lia.
Qed.

Lemma descriptor_type d : is_descriptor d → ∃ t, of_type t d.
Proof. intros (H2 & _). apply lookup_lt_is_Some_2. lia. Qed.

Lemma at_last buf s : at_ buf s [] → DESCRIPTOR_TYPE buf s.2 = Err OutOfBounds.
Proof.
  intros (_ & Hbuf & _). unfold DESCRIPTOR_TYPE, load. by rewrite <- lookup_drop, Hbuf.
Qed.

Lemma at_nonzero buf s d ds : at_ buf s (d :: ds) → s.1 ≠ 0%Z.
Proof.
  intros ([(H2 & _) _]%Forall_cons & _ & ->). rewrite mjoin_cons, length_app. lia.
Qed.

(** One round of the search over a descriptor that is not the one. *)
Lemma search_skip fuel buf type s d e ds :
  at_ buf s (d :: e :: ds) → ¬ of_type type e →
  ∃ s', at_ buf s' (e :: ds) ∧
    USB_GetNextDescriptorOfType (S fuel) buf type s = USB_GetNextDescriptorOfType fuel buf type s'.
Proof.
  intros Hat Ht. pose proof (at_nonzero _ _ _ _ Hat). destruct (at_next _ _ _ _ Hat) as (s' & E & Hat').
  exists s'. split; [done|]. cbn [USB_GetNextDescriptorOfType].
  rewrite bool_decide_false by done. rewrite E, res_bind_Ok.
  destruct (descriptor_type e) as [t Hte]; [by destruct Hat' as [[??]%Forall_cons _]|].
  rewrite (at_type _ _ _ _ _ Hat' Hte), res_bind_Ok, bool_decide_false; [done|by intros ->].
Qed.

(** The search for a descriptor type stops at the next descriptor of that
    type, over any number of other descriptors. *)
Theorem next_descriptor_found fuel buf type s d pre e post :
  at_ buf s (d :: pre ++ e :: post) → Forall (λ x, ¬ of_type type x) pre → of_type type e →
  length pre < fuel →
  ∃ s', USB_GetNextDescriptorOfType fuel buf type s = Ok s' ∧ at_ buf s' (e :: post).
Proof.
  revert fuel s d. induction pre as [|x pre IH]; intros fuel s d Hat Hpre He Hf;
    (destruct fuel as [|fuel]; [simpl in Hf; lia|]).
  - pose proof (at_nonzero _ _ _ _ Hat). destruct (at_next _ _ _ _ Hat) as (s' & E & Hat').
    exists s'. split; [|done]. cbn [USB_GetNextDescriptorOfType].
    rewrite bool_decide_false by done. rewrite E, res_bind_Ok.
    by rewrite (at_type _ _ _ _ _ Hat' He), res_bind_Ok, bool_decide_true.
  - apply Forall_cons in Hpre as [Hx Hpre]. cbn [length] in Hf.
    destruct (search_skip fuel buf type s d x (pre ++ e :: post) Hat Hx) as (s' & Hat' & ->).
    apply (IH fuel s' x); [done|done|done|lia].
Qed.

(** A search for a type that does not follow looks at the header of a
    descriptor behind the last one, outside of the buffer. *)
Theorem next_descriptor_overruns fuel buf type s d pre :
  at_ buf s (d :: pre) → Forall (λ x, ¬ of_type type x) pre → length pre < fuel →
  USB_GetNextDescriptorOfType fuel buf type s = Err OutOfBounds.
Proof.
  revert fuel s d. induction pre as [|x pre IH]; intros fuel s d Hat Hpre Hf;
    (destruct fuel as [|fuel]; [simpl in Hf; lia|]).
  - pose proof (at_nonzero _ _ _ _ Hat). destruct (at_next _ _ _ _ Hat) as (s' & E & Hat').
    cbn [USB_GetNextDescriptorOfType]. rewrite bool_decide_false by done.
    by rewrite E, res_bind_Ok, (at_last _ _ Hat').
  - apply Forall_cons in Hpre as [Hx Hpre]. cbn [length] in Hf.
    destruct (search_skip fuel buf type s d x pre Hat Hx) as (s' & Hat' & ->).
    apply (IH fuel s' x); [done|done|lia].
Qed.

(** A descriptor whose length byte is zero makes the search go on
    forever. *)
Theorem zero_descriptor_hangs fuel buf type t rem loc :
  buf !! loc = Some 0%Z → buf !! (loc + 1) = Some t → t ≠ type → (0 < rem)%Z →
  USB_GetNextDescriptorOfType fuel buf type (rem, loc) = Err NoFuel.
Proof.
  intros H0 Ht Hne Hrem. induction fuel as [|fuel IH]; [done|].
  cbn [USB_GetNextDescriptorOfType fst]. rewrite bool_decide_false by lia.
  unfold USB_GetNextDescriptor, DESCRIPTOR_SIZE, DESCRIPTOR_TYPE, load.
  rewrite H0, res_bind_Ok, bool_decide_false by lia. rewrite !res_bind_Ok. cbn [snd].
  change (Z.to_nat 0) with 0. rewrite Nat.add_0_r, Ht, res_bind_Ok, bool_decide_false by done.
  by rewrite Z.sub_0_r.
Qed.

(** What the callback hands out is complete: a size other than
    [NO_DESCRIPTOR] is the size of the data, which start with a header of the
    type that was asked for. *)
Lemma get_descriptor_complete wValue wIndex data size :
  CALLBACK_USB_GetDescriptor wValue wIndex = (data, size) →
  size = Z.of_nat (length data) ∧
  (size = NO_DESCRIPTOR ∨ of_type (u8 (Z.shiftr wValue 8)) data ∧ (18 ≤ size ∨ size = 4)%Z ∧ (size < 256)%Z).
Proof.
  unfold CALLBACK_USB_GetDescriptor.
  repeat case_bool_decide; intros [<- <-]%pair_equal_spec; (split; [by vm_compute|]);
    try (by left); right;
    match goal with E : u8 (Z.shiftr _ _) = _ |- _ => rewrite E end;
    (split_and!; [done|first [by left|by right]|done]).
Qed.

(** ** The theorems at work *)

(** The search through the firmware's own configuration. *)
Lemma configuration_at :
  at_ ConfigurationDescriptor (configuration_size, 0) (configuration_header :: configuration_parts).
Proof. split_and!; [by apply (bool_decide_unpack _)|done|done]. Defined.

Lemma next_descriptor_found_witness :
  ∃ s', USB_GetNextDescriptorOfType 10 ConfigurationDescriptor DTYPE_Endpoint (configuration_size, 0)
        = Ok s' ∧ at_ ConfigurationDescriptor s' (drop 4 configuration_parts).
Proof.
  apply (next_descriptor_found 10 ConfigurationDescriptor DTYPE_Endpoint (configuration_size, 0)
           configuration_header (take 4 configuration_parts)
           (USB_Descriptor_Endpoint CDC_NOTIFICATION_EPADDR EP_TYPE_INTERRUPT CDC_NOTIFICATION_EPSIZE 0xFF)
           (drop 5 configuration_parts));
    [exact configuration_at|by apply (bool_decide_unpack _)|done|vm_compute; lia].
Defined.

Lemma next_descriptor_overruns_witness :
  USB_GetNextDescriptorOfType 10 ConfigurationDescriptor DTYPE_String (configuration_size, 0)
  = Err OutOfBounds.
Proof.
  apply (next_descriptor_overruns 10 ConfigurationDescriptor DTYPE_String (configuration_size, 0)
           configuration_header configuration_parts);
    [exact configuration_at|by apply (bool_decide_unpack _)|vm_compute; lia].
Defined.

Lemma zero_descriptor_hangs_witness :
  USB_GetNextDescriptorOfType 1000 [0; 4]%Z DTYPE_Endpoint (2%Z, 0) = Err NoFuel.
Proof. by apply (zero_descriptor_hangs 1000 [0; 4]%Z DTYPE_Endpoint 4 2 0). Defined.
End Descriptors.
