(* ===== verification/UsbRequests.v ===== *)
(** * Standard requests and the device task

    Translation of [DeviceStandardReq.c], of [USBTask.c] and of the endpoint
    interrupt of [USBInterrupt_AVR8.c].  [DeviceApp] lists what the stack
    calls in the application while it serves a request. *)

From S2P Require Import Prelude Avr UsbRegs UsbEndpoint UsbController UsbStream UsbDescriptors.
Import Descriptors.

Definition REQDIR_HOSTTODEVICE : Z := Z.shiftl 0 7.
Definition REQTYPE_STANDARD : Z := Z.shiftl 0 5.
Definition REQTYPE_CLASS : Z := Z.shiftl 1 5.
Definition REQREC_DEVICE : Z := Z.shiftl 0 0.
Definition REQREC_INTERFACE : Z := Z.shiftl 1 0.
Definition REQREC_ENDPOINT : Z := Z.shiftl 2 0.
Definition CONTROL_REQTYPE_RECIPIENT : Z := 0x1F.
Definition REQ_GetStatus : Z := 0.
Definition REQ_ClearFeature : Z := 1.
Definition REQ_SetFeature : Z := 3.
Definition REQ_SetAddress : Z := 5.
Definition REQ_GetDescriptor : Z := 6.
Definition REQ_GetConfiguration : Z := 8.
Definition REQ_SetConfiguration : Z := 9.
Definition FEATURE_SEL_EndpointHalt : Z := 0x00.
Definition FEATURE_SEL_DeviceRemoteWakeup : Z := 0x01.
Definition FEATURE_SELFPOWERED_ENABLED : Z := bit 0.
Definition FEATURE_REMOTE_WAKEUP_ENABLED : Z := bit 1.

(** A value of [bmRequestType]. *)
Definition reqtype (dir type rec : Z) : Z := Z.lor (Z.lor dir type) rec.

Class DeviceApp (D : Type) := {
  EVENT_USB_Device_ControlRequest : IO (ust D) unit;
  EVENT_USB_Device_ConfigurationChanged : IO (ust D) unit;
  get_descriptor : Z → Z → list Z * Z }.

Section Code.
Context `{Ucu D, !GenEvents D, !DeviceApp D} (fuel : nat).

Abbreviation St := (ust D).

Definition request : IO St USB_Request_Header_t := g ← get_usb; mret (USB_ControlRequest g).

(** [while (!(Endpoint_IsINReady()));] *)
Fixpoint wait_in (k : nat) : IO St unit :=
  match k with
  | O => fail NoFuel
  | S k' => b ← Endpoint_IsINReady; if b : bool then mret tt else wait_in k'
  end.

Definition USB_Device_SetAddress : IO St unit :=
  r ← request;
  let DeviceAddress := Z.land (wValue r) 0x7F in
  USB_Device_SetDeviceAddress DeviceAddress;;
  Endpoint_ClearSETUP;;
  Endpoint_ClearStatusStage fuel;;
  wait_in fuel;;
  USB_Device_EnableDeviceAddress DeviceAddress;;
  mod_usb (with_state (if bool_decide (DeviceAddress ≠ 0%Z) then DEVICE_STATE_Addressed
                       else DEVICE_STATE_Default)).

Definition USB_Device_SetConfiguration : IO St unit :=
  r ← request;
  if bool_decide (u8 (wValue r) > FIXED_NUM_CONFIGURATIONS)%Z then mret tt
  else
    Endpoint_ClearSETUP;;
    mod_usb (with_config (u8 (wValue r)));;
    Endpoint_ClearStatusStage fuel;;
    g ← get_usb;
    (if bool_decide (USB_Device_ConfigurationNumber g ≠ 0%Z)
     then mod_usb (with_state DEVICE_STATE_Configured)
     else
       a ← USB_Device_IsAddressSet;
       mod_usb (with_state (if a : bool then DEVICE_STATE_Configured else DEVICE_STATE_Powered)));;
    EVENT_USB_Device_ConfigurationChanged.

Definition USB_Device_GetConfiguration : IO St unit :=
  Endpoint_ClearSETUP;;
  g ← get_usb;
  Endpoint_Write_8 (USB_Device_ConfigurationNumber g);;
  Endpoint_ClearIN;;
  Endpoint_ClearStatusStage fuel.

(** The signature descriptor: its header and the characters as 16-bit words. *)
Definition SignatureDescriptor : list Z :=
  (2 + Z.shiftl (INTERNAL_SERIAL_LENGTH_BITS / 4) 1)%Z :: DTYPE_String
  :: mjoin (word <$> USB_Device_GetSerialString).

Definition USB_Device_GetInternalSerialDescriptor : IO St unit :=
  Endpoint_ClearSETUP;;
  Endpoint_Write_Control_Stream_LE fuel SignatureDescriptor (Z.of_nat (length SignatureDescriptor));;
  Endpoint_ClearOUT.

Definition USB_Device_GetDescriptor : IO St unit :=
  r ← request;
  if bool_decide (wValue r = Z.lor (Z.shiftl DTYPE_String 8) USE_INTERNAL_SERIAL)
  then USB_Device_GetInternalSerialDescriptor
  else
    let '(DescriptorPointer, DescriptorSize) := get_descriptor (wValue r) (u8 (wIndex r)) in
    if bool_decide (DescriptorSize = NO_DESCRIPTOR) then mret tt
    else
      Endpoint_ClearSETUP;;
      Endpoint_Write_Control_PStream_LE fuel DescriptorPointer DescriptorSize;;
      Endpoint_ClearOUT.

(** [None] for the early return. *)
Definition current_status : IO St (option Z) :=
  r ← request;
  if bool_decide (bmRequestType r = reqtype REQDIR_DEVICETOHOST REQTYPE_STANDARD REQREC_DEVICE) then
    g ← get_usb;
    mret (Some (Z.lor
      (if USB_Device_CurrentlySelfPowered g then FEATURE_SELFPOWERED_ENABLED else 0%Z)
      (if USB_Device_RemoteWakeupEnabled g then FEATURE_REMOTE_WAKEUP_ENABLED else 0%Z)))
  else if bool_decide (bmRequestType r
                       = reqtype REQDIR_DEVICETOHOST REQTYPE_STANDARD REQREC_ENDPOINT) then
    Endpoint_SelectEndpoint (Z.land (u8 (wIndex r)) ENDPOINT_EPNUM_MASK);;
    b ← Endpoint_IsStalled;
    Endpoint_SelectEndpoint ENDPOINT_CONTROLEP;;
    mret (Some (if b : bool then 1%Z else 0%Z))
  else mret None.

Definition USB_Device_GetStatus : IO St unit :=
  s ← current_status;
  match s with
  | None => mret tt
  | Some CurrentStatus =>
      Endpoint_ClearSETUP;;
      Endpoint_Write_16_LE CurrentStatus;;
      Endpoint_ClearIN;;
      Endpoint_ClearStatusStage fuel
  end.

(** The [EndpointHalt] feature of endpoint [EndpointIndex]. *)
Definition halt_feature (EndpointIndex : Z) (set : bool) : IO St unit :=
  Endpoint_SelectEndpoint EndpointIndex;;
  on ← Endpoint_IsEnabled;
  if on : bool then
    if set then Endpoint_StallTransaction
    else Endpoint_ClearStall;; Endpoint_ResetEndpoint EndpointIndex;; Endpoint_ResetDataToggle
  else mret tt.

(** [true] when the request is served, [false] for the early returns. *)
Definition change_feature : IO St bool :=
  r ← request;
  let set := bool_decide (bRequest r = REQ_SetFeature) in
  let recipient := Z.land (bmRequestType r) CONTROL_REQTYPE_RECIPIENT in
  if bool_decide (recipient = REQREC_DEVICE) then
    if bool_decide (u8 (wValue r) = FEATURE_SEL_DeviceRemoteWakeup)
    then mod_usb (with_wakeup set);; mret true
    else mret false
  else if bool_decide (recipient = REQREC_ENDPOINT) then
    if bool_decide (u8 (wValue r) = FEATURE_SEL_EndpointHalt) then
      let EndpointIndex := Z.land (u8 (wIndex r)) ENDPOINT_EPNUM_MASK in
      if bool_decide (EndpointIndex = ENDPOINT_CONTROLEP) then mret false
      else halt_feature EndpointIndex set;; mret true
    else mret true
  else mret false.

Definition USB_Device_ClearSetFeature : IO St unit :=
  b ← change_feature;
  if b : bool then
    Endpoint_SelectEndpoint ENDPOINT_CONTROLEP;;
    Endpoint_ClearSETUP;;
    Endpoint_ClearStatusStage fuel
  else mret tt.

(** The header is read byte by byte into the structure. *)
Definition read_request : IO St unit :=
  b0 ← Endpoint_Read_8; b1 ← Endpoint_Read_8; b2 ← Endpoint_Read_8; b3 ← Endpoint_Read_8;
  b4 ← Endpoint_Read_8; b5 ← Endpoint_Read_8; b6 ← Endpoint_Read_8; b7 ← Endpoint_Read_8;
  mod_usb (with_request (mk_request b0 b1 (le_value [b2; b3]) (le_value [b4; b5]) (le_value [b6; b7]))).

(** The [switch] over the standard requests. *)
Definition standard_request (r : USB_Request_Header_t) : IO St unit :=
  let asks dir rec := bool_decide (bmRequestType r = reqtype dir REQTYPE_STANDARD rec) in
  if bool_decide (bRequest r = REQ_GetStatus) then
    if asks REQDIR_DEVICETOHOST REQREC_DEVICE || asks REQDIR_DEVICETOHOST REQREC_ENDPOINT
    then USB_Device_GetStatus else mret tt
  else if bool_decide (bRequest r = REQ_ClearFeature) || bool_decide (bRequest r = REQ_SetFeature) then
    if asks REQDIR_HOSTTODEVICE REQREC_DEVICE || asks REQDIR_HOSTTODEVICE REQREC_ENDPOINT
    then USB_Device_ClearSetFeature else mret tt
  else if bool_decide (bRequest r = REQ_SetAddress) then
    if asks REQDIR_HOSTTODEVICE REQREC_DEVICE then USB_Device_SetAddress else mret tt
  else if bool_decide (bRequest r = REQ_GetDescriptor) then
    if asks REQDIR_DEVICETOHOST REQREC_DEVICE || asks REQDIR_DEVICETOHOST REQREC_INTERFACE
    then USB_Device_GetDescriptor else mret tt
  else if bool_decide (bRequest r = REQ_GetConfiguration) then
    if asks REQDIR_DEVICETOHOST REQREC_DEVICE then USB_Device_GetConfiguration else mret tt
  else if bool_decide (bRequest r = REQ_SetConfiguration) then
    if asks REQDIR_HOSTTODEVICE REQREC_DEVICE then USB_Device_SetConfiguration else mret tt
  else mret tt.

Definition USB_Device_ProcessControlRequest : IO St unit :=
  read_request;;
  EVENT_USB_Device_ControlRequest;;
  b ← Endpoint_IsSETUPReceived;
  (if b : bool then r ← request; standard_request r else mret tt);;
  b ← Endpoint_IsSETUPReceived;
  if b : bool then Endpoint_ClearSETUP;; Endpoint_StallTransaction else mret tt.

(** ** [USBTask.c] and the endpoint interrupt *)

Definition USB_DeviceTask : IO St unit :=
  st ← read_DeviceState fuel;
  if bool_decide (st = DEVICE_STATE_Unattached) then mret tt
  else
    PrevEndpoint ← Endpoint_GetCurrentEndpoint;
    Endpoint_SelectEndpoint ENDPOINT_CONTROLEP;;
    b ← Endpoint_IsSETUPReceived;
    (if b : bool then USB_Device_ProcessControlRequest else mret tt);;
    Endpoint_SelectEndpoint PrevEndpoint.

Definition USB_USBTask : IO St unit := USB_DeviceTask.

Definition USB_COM_vect : IO St unit :=
  PrevSelectedEndpoint ← Endpoint_GetCurrentEndpoint;
  Endpoint_SelectEndpoint ENDPOINT_CONTROLEP;;
  USB_INT_Disable USB_INT_RXSTPI;;
  USB_Device_ProcessControlRequest;;
  Endpoint_SelectEndpoint ENDPOINT_CONTROLEP;;
  USB_INT_Enable USB_INT_RXSTPI;;
  Endpoint_SelectEndpoint PrevSelectedEndpoint.
End Code.
