(* ===== verification/UsbCdc.v ===== *)
(** * The CDC class driver and the virtual serial port

    Translation of [CDCClassDevice.c] and of [virtualserial/VirtualSerial.c].
    The interface structure is the only instance, the global
    [VirtualSerial_CDC_Interface]; the stream's user data points to it. *)

From S2P Require Import Prelude Avr UsbRegs UsbEndpoint UsbController UsbStream UsbDescriptors.
From S2P Require Import UsbRequests.
Import Descriptors.

Definition CDC_REQ_SetLineEncoding : Z := 0x20.
Definition CDC_REQ_GetLineEncoding : Z := 0x21.
Definition CDC_REQ_SetControlLineState : Z := 0x22.
Definition CDC_REQ_SendBreak : Z := 0x23.
Definition CDC_NOTIF_SerialState : Z := 0x20.
Definition _FDEV_EOF : Z := -2.
Definition _FDEV_ERR : Z := -1.

Definition with_line (x : CDC_LineEncoding_t) (c : USB_ClassInfo_CDC_Device_t) :=
  mk_cdc (ControlInterfaceNumber c) (DataINEndpoint c) (DataOUTEndpoint c) (NotificationEndpoint c)
    (HostToDevice c) (DeviceToHost c) x.
Definition with_host (x : Z) (c : USB_ClassInfo_CDC_Device_t) :=
  mk_cdc (ControlInterfaceNumber c) (DataINEndpoint c) (DataOUTEndpoint c) (NotificationEndpoint c)
    x (DeviceToHost c) (LineEncoding c).
Definition with_type (x : Z) (e : USB_Endpoint_Table_t) :=
  mk_table (Address e) (Size e) x (Banks e).

(** [memset(&State, 0, ...)] and the three types. *)
Definition reset_cdc (c : USB_ClassInfo_CDC_Device_t) : USB_ClassInfo_CDC_Device_t :=
  mk_cdc (ControlInterfaceNumber c) (with_type EP_TYPE_BULK (DataINEndpoint c))
    (with_type EP_TYPE_BULK (DataOUTEndpoint c)) (with_type EP_TYPE_INTERRUPT (NotificationEndpoint c))
    0 0 (mk_line 0 0 0 0).

Section Code.
Context `{Ucu D, !GenEvents D} (fuel : nat).

Abbreviation St := (ust D).

(** The events of the class driver have no handler in the firmware. *)
Definition CDC_Device_Event_Stub : IO St unit := mret tt.

Definition get_cdc : IO St USB_ClassInfo_CDC_Device_t :=
  g ← get_usb; mret (VirtualSerial_CDC_Interface g).
Definition mod_cdc (f : USB_ClassInfo_CDC_Device_t → USB_ClassInfo_CDC_Device_t) : IO St unit :=
  mod_usb (λ g, with_cdc (f (VirtualSerial_CDC_Interface g)) g).

Definition cdc_get_line : IO St unit :=
  Endpoint_ClearSETUP;;
  wait_in fuel;;
  c ← get_cdc;
  Endpoint_Write_32_LE (BaudRateBPS (LineEncoding c));;
  Endpoint_Write_8 (CharFormat (LineEncoding c));;
  Endpoint_Write_8 (ParityType (LineEncoding c));;
  Endpoint_Write_8 (DataBits (LineEncoding c));;
  Endpoint_ClearIN;;
  Endpoint_ClearStatusStage fuel.

Definition cdc_set_line : IO St unit :=
  Endpoint_ClearSETUP;;
  b ← stage_loop fuel fuel Endpoint_IsOUTReceived;
  if b : bool then
    baud ← Endpoint_Read_32_LE;
    format ← Endpoint_Read_8;
    parity ← Endpoint_Read_8;
    bits ← Endpoint_Read_8;
    mod_cdc (with_line (mk_line baud format parity bits));;
    Endpoint_ClearOUT;;
    Endpoint_ClearStatusStage fuel;;
    CDC_Device_Event_Stub
  else mret tt.

Definition cdc_set_control (r : USB_Request_Header_t) : IO St unit :=
  Endpoint_ClearSETUP;;
  Endpoint_ClearStatusStage fuel;;
  mod_cdc (with_host (wValue r));;
  CDC_Device_Event_Stub.

Definition cdc_break : IO St unit :=
  Endpoint_ClearSETUP;; Endpoint_ClearStatusStage fuel;; CDC_Device_Event_Stub.

Definition CDC_Device_ProcessControlRequest : IO St unit :=
  b ← Endpoint_IsSETUPReceived;
  if negb b then mret tt
  else
    r ← request;
    c ← get_cdc;
    if bool_decide (wIndex r ≠ ControlInterfaceNumber c) then mret tt
    else
      let asks dir := bool_decide (bmRequestType r = reqtype dir REQTYPE_CLASS REQREC_INTERFACE) in
      if bool_decide (bRequest r = CDC_REQ_GetLineEncoding) then
        if asks REQDIR_DEVICETOHOST then cdc_get_line else mret tt
      else if bool_decide (bRequest r = CDC_REQ_SetLineEncoding) then
        if asks REQDIR_HOSTTODEVICE then cdc_set_line else mret tt
      else if bool_decide (bRequest r = CDC_REQ_SetControlLineState) then
        if asks REQDIR_HOSTTODEVICE then cdc_set_control r else mret tt
      else if bool_decide (bRequest r = CDC_REQ_SendBreak) then
        if asks REQDIR_HOSTTODEVICE then cdc_break else mret tt
      else mret tt.

Definition CDC_Device_ConfigureEndpoints : IO St bool :=
  mod_cdc reset_cdc;;
  c ← get_cdc;
  a ← Endpoint_ConfigureEndpointTable fuel [DataINEndpoint c];
  if negb a then mret false
  else
    b ← Endpoint_ConfigureEndpointTable fuel [DataOUTEndpoint c];
    if negb b then mret false
    else
      n ← Endpoint_ConfigureEndpointTable fuel [NotificationEndpoint c];
      mret (n : bool).

(** [(USB_DeviceState != DEVICE_STATE_Configured) || !(...BaudRateBPS)] *)
Definition not_open : IO St bool :=
  st ← read_DeviceState fuel;
  if bool_decide (st ≠ DEVICE_STATE_Configured) then mret true
  else c ← get_cdc; mret (bool_decide (BaudRateBPS (LineEncoding c) = 0%Z)).

(** Guards a driver function; [x] is what it returns on a closed port. *)
Definition if_open {A} (x : A) (m : IO St A) : IO St A :=
  b ← not_open; if b : bool then mret x else m.

Definition CDC_Device_Flush : IO St Z :=
  if_open ENDPOINT_RWSTREAM_DeviceDisconnected (
    c ← get_cdc;
    Endpoint_SelectEndpoint (Address (DataINEndpoint c));;
    n ← Endpoint_BytesInEndpoint;
    if bool_decide (n = 0%Z) then mret ENDPOINT_READYWAIT_NoError
    else
      rw ← Endpoint_IsReadWriteAllowed;
      let BankFull := negb rw in
      Endpoint_ClearIN;;
      if BankFull then
        e ← Endpoint_WaitUntilReady fuel;
        if bool_decide (e ≠ ENDPOINT_READYWAIT_NoError) then mret e
        else Endpoint_ClearIN;; mret ENDPOINT_READYWAIT_NoError
      else mret ENDPOINT_READYWAIT_NoError).

Definition CDC_Device_USBTask : IO St unit :=
  if_open tt (
    c ← get_cdc;
    Endpoint_SelectEndpoint (Address (DataINEndpoint c));;
    b ← Endpoint_IsINReady;
    if b : bool then CDC_Device_Flush;; mret tt else mret tt).

Definition CDC_Device_SendData (buf : list Z) (Length : Z) : IO St Z :=
  if_open ENDPOINT_RWSTREAM_DeviceDisconnected (
    c ← get_cdc;
    Endpoint_SelectEndpoint (Address (DataINEndpoint c));;
    '(e, _) ← Endpoint_Write_Stream_LE fuel buf Length None; mret e).

(** [strlen]: the bytes before the first NUL. *)
Fixpoint string_length (l : list Z) : res Z :=
  match l with
  | [] => Err OutOfBounds
  | c :: l' => if bool_decide (c = 0%Z) then Ok 0%Z else n ← string_length l'; Ok (n + 1)%Z
  end.

Definition CDC_Device_SendString (String : list Z) : IO St Z :=
  if_open ENDPOINT_RWSTREAM_DeviceDisconnected (
    c ← get_cdc;
    Endpoint_SelectEndpoint (Address (DataINEndpoint c));;
    n ← pure (string_length String);
    '(e, _) ← Endpoint_Write_Stream_LE fuel String n None; mret e).

(** The variants for strings and data in flash memory. *)
Definition CDC_Device_SendString_P (flash : list Z) : IO St Z :=
  if_open ENDPOINT_RWSTREAM_DeviceDisconnected (
    c ← get_cdc;
    Endpoint_SelectEndpoint (Address (DataINEndpoint c));;
    n ← pure (string_length flash);
    '(e, _) ← Endpoint_Write_PStream_LE fuel flash n None; mret e).
Definition CDC_Device_SendData_P (flash : list Z) (Length : Z) : IO St Z :=
  if_open ENDPOINT_RWSTREAM_DeviceDisconnected (
    c ← get_cdc;
    Endpoint_SelectEndpoint (Address (DataINEndpoint c));;
    '(e, _) ← Endpoint_Write_PStream_LE fuel flash Length None; mret e).

Definition CDC_Device_SendByte (Data : Z) : IO St Z :=
  if_open ENDPOINT_RWSTREAM_DeviceDisconnected (
    c ← get_cdc;
    Endpoint_SelectEndpoint (Address (DataINEndpoint c));;
    rw ← Endpoint_IsReadWriteAllowed;
    e ← (if rw : bool then mret ENDPOINT_READYWAIT_NoError
         else Endpoint_ClearIN;; Endpoint_WaitUntilReady fuel);
    if bool_decide (e ≠ ENDPOINT_READYWAIT_NoError) then mret e
    else Endpoint_Write_8 Data;; mret ENDPOINT_READYWAIT_NoError).

Definition CDC_Device_BytesReceived : IO St Z :=
  if_open 0%Z (
    c ← get_cdc;
    Endpoint_SelectEndpoint (Address (DataOUTEndpoint c));;
    b ← Endpoint_IsOUTReceived;
    if b : bool then
      n ← Endpoint_BytesInEndpoint;
      if bool_decide (n = 0%Z) then Endpoint_ClearOUT;; mret 0%Z else Endpoint_BytesInEndpoint
    else mret 0%Z).

Definition CDC_Device_ReceiveByte : IO St Z :=
  if_open (-1)%Z (
    c ← get_cdc;
    Endpoint_SelectEndpoint (Address (DataOUTEndpoint c));;
    b ← Endpoint_IsOUTReceived;
    if b : bool then
      n ← Endpoint_BytesInEndpoint;
      x ← (if bool_decide (n ≠ 0%Z) then Endpoint_Read_8 else mret (-1)%Z);
      n' ← Endpoint_BytesInEndpoint;
      (if bool_decide (n' = 0%Z) then Endpoint_ClearOUT else mret tt);;
      mret x
    else mret (-1)%Z).

Definition CDC_Device_SendControlLineStateChange : IO St unit :=
  if_open tt (
    c ← get_cdc;
    Endpoint_SelectEndpoint (Address (NotificationEndpoint c));;
    let Notification := [reqtype REQDIR_DEVICETOHOST REQTYPE_CLASS REQREC_INTERFACE;
                         CDC_NOTIF_SerialState; 0; 0; 0; 0; 2; 0]%Z in
    Endpoint_Write_Stream_LE fuel Notification 8 None;;
    Endpoint_Write_Stream_LE fuel (word (DeviceToHost c)) 2 None;;
    Endpoint_ClearIN).

(** ** The stdio stream *)

Definition CDC_Device_putchar (c : Z) : IO St Z :=
  e ← CDC_Device_SendByte c; mret (if bool_decide (e ≠ 0%Z) then _FDEV_ERR else 0%Z).

Definition CDC_Device_getchar : IO St Z :=
  x ← CDC_Device_ReceiveByte; mret (if bool_decide (x < 0)%Z then _FDEV_EOF else x).

Fixpoint getchar_loop (task : IO St unit) (k : nat) : IO St Z :=
  match k with
  | O => fail NoFuel
  | S k' =>
      x ← CDC_Device_ReceiveByte;
      if bool_decide (x < 0)%Z then
        st ← read_DeviceState fuel;
        if bool_decide (st = DEVICE_STATE_Unattached) then mret _FDEV_EOF
        else CDC_Device_USBTask;; task;; getchar_loop task k'
      else mret x
  end.
End Code.

(** The blocking variant serves the control endpoint while it waits. *)
Definition CDC_Device_getchar_Blocking `{Ucu D, !GenEvents D, !DeviceApp D} (fuel : nat)
  : IO (ust D) Z := getchar_loop fuel (USB_USBTask fuel) fuel.

(** ** [VirtualSerial.c] *)

Definition initial_interface : USB_ClassInfo_CDC_Device_t :=
  mk_cdc INTERFACE_ID_CDC_CCI
    (mk_table CDC_TX_EPADDR CDC_TXRX_EPSIZE 0 1)
    (mk_table CDC_RX_EPADDR CDC_TXRX_EPSIZE 0 1)
    (mk_table CDC_NOTIFICATION_EPADDR CDC_NOTIFICATION_EPSIZE 0 1)
    0 0 (mk_line 0 0 0 0).

Section Serial.
(** [call_at a] is the function at address [a], given by the application;
    [wdt_disable] and [clock_prescale_set] are functions of avr-libc. *)
Context `{Ucu D} (call_at : Z → IO (ust D) unit).
Context (wdt_disable : IO (ust D) unit) (clock_prescale_set : Z → IO (ust D) unit).

Definition call_pointer (p : usbg → Z) : IO (ust D) unit :=
  g ← get_usb; if bool_decide (p g ≠ 0%Z) then call_at (p g) else mret tt.

Definition serial_events : GenEvents D := {|
  EVENT_USB_Device_Connect := call_pointer _onConnect;
  EVENT_USB_Device_Disconnect := call_pointer _onDisconnect;
  EVENT_USB_Device_Suspend := USB_Event_Stub;
  EVENT_USB_Device_WakeUp := USB_Event_Stub;
  EVENT_USB_Device_Reset := USB_Event_Stub;
  EVENT_USB_Device_StartOfFrame := USB_Event_Stub |}.

#[local] Existing Instance serial_events.

Definition serial_app (fuel : nat) : DeviceApp D := {|
  EVENT_USB_Device_ControlRequest := CDC_Device_ProcessControlRequest fuel;
  EVENT_USB_Device_ConfigurationChanged := CDC_Device_ConfigureEndpoints fuel;; mret tt;
  get_descriptor := CALLBACK_USB_GetDescriptor |}.

#[local] Existing Instance serial_app.

Definition clock_div_1 : Z := 0.

(** [CDC_Device_CreateStream] and the assignments to [stdout] and [stdin] only
    store the functions [CDC_Device_putchar] and [CDC_Device_getchar]. *)
Definition SetupHardware (fuel : nat) (onConnect onDisconnect : Z) : IO (ust D) unit :=
  clear_bits MCUSR (bit WDRF);;
  wdt_disable;;
  clock_prescale_set clock_div_1;;
  USB_Init fuel;;
  mod_usb (with_pointers onConnect onDisconnect).

Definition USB_Mainloop_Handler (fuel : nat) : IO (ust D) unit :=
  CDC_Device_USBTask fuel;; USB_USBTask (DeviceApp0 := serial_app fuel) fuel.
End Serial.
