(* ===== verification/UsbHw.v ===== *)
(** * The endpoint hardware

    [usbv] is the documented behaviour of the data endpoints of the USB
    controller, together with the host at the other end: packets written to an
    IN endpoint reach the host, packets of the host arrive at an OUT endpoint.
    [UsbHw] says that a hardware state behaves like that.  A bank comes back
    from the host after at most [ulat] looks at UEINTX. *)

From S2P Require Import Prelude Avr UsbRegs UsbEndpoint UsbController.
From stdpp Require Import gmap.

(** [ep_wait]: looks at UEINTX until the bank belongs to the processor;
    [ep_have]: an OUT endpoint has a packet in its bank or on the way;
    [ep_sent]: the packets the host received; [ep_coming]: the packets the
    host will send after the current one. *)
Record ep := mk_ep {
  ep_in : bool; ep_size : nat; ep_stall : bool;
  ep_bank : list Z; ep_wait : nat; ep_have : bool;
  ep_sent : list (list Z); ep_coming : list (list Z) }.

Record usbv := mk_usbv { v_sel : Z; v_eps : gmap Z ep; v_irqs : list nat }.

Definition ep_tick (w : nat) (e : ep) : ep :=
  mk_ep (ep_in e) (ep_size e) (ep_stall e) (ep_bank e) w (ep_have e) (ep_sent e) (ep_coming e).
Definition ep_fill (l : list Z) (e : ep) : ep :=
  mk_ep (ep_in e) (ep_size e) (ep_stall e) l (ep_wait e) (ep_have e) (ep_sent e) (ep_coming e).

(** The bank of an IN endpoint is handed over; it is free again after [w]. *)
Definition ep_send (w : nat) (e : ep) : ep :=
  mk_ep (ep_in e) (ep_size e) (ep_stall e) [] w (ep_have e) (ep_sent e ++ [ep_bank e]) (ep_coming e).

(** The bank of an OUT endpoint is given back; the next packet takes [w]. *)
Definition ep_release (w : nat) (e : ep) : ep :=
  match ep_coming e with
  | p :: l => mk_ep (ep_in e) (ep_size e) (ep_stall e) p w true (ep_sent e) l
  | [] => mk_ep (ep_in e) (ep_size e) (ep_stall e) [] w false (ep_sent e) []
  end.

Definition ep_mine (e : ep) : bool := ep_wait e =? 0.
Definition ep_txini (e : ep) : bool := ep_in e && ep_mine e.
Definition ep_rxouti (e : ep) : bool := negb (ep_in e) && ep_mine e && ep_have e.
Definition ep_rwal (e : ep) : bool :=
  if ep_in e then ep_mine e && (length (ep_bank e) <? ep_size e)
  else ep_mine e && ep_have e && negb (length (ep_bank e) =? 0).

Definition next_irqs (v : usbv) : nat * usbv :=
  match v_irqs v with
  | n :: l => (n, mk_usbv (v_sel v) (v_eps v) l)
  | [] => (0, v)
  end.

(** [v] has endpoint [n] selected, in state [e]. *)
Definition selected (v : usbv) (e : ep) : Prop := v_eps v !! v_sel v = Some e.
Definition set_ep (e : ep) (v : usbv) : usbv :=
  mk_usbv (v_sel v) (<[v_sel v := e]> (v_eps v)) (v_irqs v).

Class UsbHw (D : Type) `{Ucu D} := {
  uview : D → usbv;
  ulat : nat;
  uenum_write d x :
    uview (ucu_write UENUM x d) = mk_usbv x (v_eps (uview d)) (v_irqs (uview d));
  uecfg0_read d v d' e :
    selected (uview d) e → ucu_read UECFG0X d = (v, d') →
    Z.testbit v EPDIR = ep_in e ∧ uview d' = uview d;
  ueconx_read d v d' e :
    selected (uview d) e → ucu_read UECONX d = (v, d') →
    Z.testbit v STALLRQ = ep_stall e ∧ uview d' = uview d;
  (* a look at UEINTX shows the flags; time passes *)
  ueintx_read d v d' e :
    selected (uview d) e → ucu_read UEINTX d = (v, d') →
    is_u8 v ∧ Z.testbit v TXINI = ep_txini e ∧ Z.testbit v RXOUTI = ep_rxouti e ∧
    Z.testbit v RWAL = ep_rwal e ∧
    ∃ w, w ≤ pred (ep_wait e) ∧ uview d' = set_ep (ep_tick w e) (uview d);
  (* clearing TXINI and FIFOCON sends the bank, if there is one *)
  ueintx_clear_in d x e :
    selected (uview d) e → ep_in e = true →
    Z.testbit x TXINI = false → Z.testbit x FIFOCON = false →
    (ep_wait e = 0 ∧ ∃ w, w ≤ ulat ∧ uview (ucu_write UEINTX x d) = set_ep (ep_send w e) (uview d)) ∨
    (0 < ep_wait e ∧ uview (ucu_write UEINTX x d) = uview d);
  (* clearing RXOUTI and FIFOCON gives the bank back *)
  ueintx_clear_out d x e :
    selected (uview d) e → ep_in e = false → ep_rxouti e = true →
    Z.testbit x RXOUTI = false → Z.testbit x FIFOCON = false →
    ∃ w, w ≤ ulat ∧ uview (ucu_write UEINTX x d) = set_ep (ep_release w e) (uview d);
  (* the bytes of the bank *)
  uedatx_write d x e :
    selected (uview d) e → ep_in e = true → ep_wait e = 0 → length (ep_bank e) < ep_size e →
    uview (ucu_write UEDATX x d) = set_ep (ep_fill (ep_bank e ++ [x]) e) (uview d);
  uedatx_read d v d' e x l :
    selected (uview d) e → ep_rxouti e = true → ep_bank e = x :: l →
    ucu_read UEDATX d = (v, d') → v = x ∧ uview d' = set_ep (ep_fill l e) (uview d);
  uebclx_read d v d' e :
    selected (uview d) e → ep_wait e = 0 → ucu_read UEBCLX d = (v, d') →
    v = (Z.of_nat (length (ep_bank e)) `mod` 256)%Z ∧ uview d' = uview d;
  uebchx_read d v d' e :
    selected (uview d) e → ep_wait e = 0 → ucu_read UEBCHX d = (v, d') →
    v = (Z.of_nat (length (ep_bank e)) / 256)%Z ∧ uview d' = uview d;
  udfnum_read d v d' : ucu_read UDFNUM d = (v, d') → uview d' = uview d;
  irqs_next d n d' :
    ucu_irqs d = (n, d') → n = fst (next_irqs (uview d)) ∧ uview d' = snd (next_irqs (uview d)) }.

(** ** An executable controller: every bank takes two looks *)

Definition sim_ep (v : usbv) : ep :=
  default (mk_ep true 0 false [] 0 false [] []) (v_eps v !! v_sel v).

Definition flag (n : Z) (b : bool) : Z := if b then bit n else 0.

Definition usim_read (r : ureg) (v : usbv) : Z * usbv :=
  let e := sim_ep v in
  match r with
  | UENUM => (v_sel v, v)
  | UECFG0X => (flag EPDIR (ep_in e), v)
  | UECONX => (flag STALLRQ (ep_stall e), v)
  | UEINTX => (Z.lor (Z.lor (flag TXINI (ep_txini e)) (flag RXOUTI (ep_rxouti e))) (flag RWAL (ep_rwal e)),
               set_ep (ep_tick (pred (ep_wait e)) e) v)
  | UEDATX => match ep_bank e with
              | x :: l => (x, set_ep (ep_fill l e) v)
              | [] => (0%Z, v)
              end
  | UEBCLX => ((Z.of_nat (length (ep_bank e)) `mod` 256)%Z, v)
  | UEBCHX => ((Z.of_nat (length (ep_bank e)) / 256)%Z, v)
  | _ => (0%Z, v)
  end.

Definition usim_write (r : ureg) (x : Z) (v : usbv) : usbv :=
  let e := sim_ep v in
  match r with
  | UENUM => mk_usbv x (v_eps v) (v_irqs v)
  | UEINTX =>
      if ep_in e then
        if ep_mine e && negb (Z.testbit x TXINI) && negb (Z.testbit x FIFOCON)
        then set_ep (ep_send 2 e) v else v
      else if ep_rxouti e && negb (Z.testbit x RXOUTI) && negb (Z.testbit x FIFOCON)
      then set_ep (ep_release 2 e) v else v
  | UEDATX =>
      if ep_mine e && (length (ep_bank e) <? ep_size e)
      then set_ep (ep_fill (ep_bank e ++ [x]) e) v else v
  | _ => v
  end.

#[export] Instance usim : Ucu usbv := {|
  ucu_read := usim_read; ucu_write := usim_write; ucu_irqs := next_irqs; ucu_signature _ := 0%Z |}.

Lemma sim_ep_selected v e : selected v e → sim_ep v = e.
Proof. unfold selected, sim_ep. by intros ->. Qed.

#[export] Program Instance usim_hw : UsbHw usbv := {| uview v := v; ulat := 2 |}.
Next Obligation. done. Qed.
Next Obligation.
  intros v x v' e He. simpl. rewrite (sim_ep_selected _ _ He). intros [= <- <-]. by destruct (ep_in e).
Qed.
Next Obligation.
  intros v x v' e He. simpl. rewrite (sim_ep_selected _ _ He). intros [= <- <-]. by destruct (ep_stall e).
Qed.
Next Obligation.
  intros v x v' e He. simpl. rewrite (sim_ep_selected _ _ He). intros [= <- <-].
  destruct (ep_txini e), (ep_rxouti e), (ep_rwal e);
    (split_and!; [by vm_compute|done|done|done|by eexists]).
Qed.
Next Obligation.
  intros v x e He Hin Ht Hf. cbn [ucu_write usim usim_write uview]. rewrite (sim_ep_selected _ _ He), Hin, Ht, Hf. unfold ep_mine.
  destruct (ep_wait e) as [|w] eqn:Ew; simpl; [left|right]; (split; [lia|]); [|done].
  exists 2. by split; [lia|].
Qed.
Next Obligation.
  intros v x e He Hin Hr Ht Hf. cbn [ucu_write usim usim_write uview]. rewrite (sim_ep_selected _ _ He), Hin, Hr, Ht, Hf. simpl.
  exists 2. by split; [lia|].
Qed.
Next Obligation.
  intros v x e He Hin Hw Hl. simpl. rewrite (sim_ep_selected _ _ He). unfold ep_mine. rewrite Hw. simpl.
  by rewrite (proj2 (Nat.ltb_lt _ _) Hl).
Qed.
Next Obligation.
  intros v x v' e y l He Hr Hb. simpl. rewrite (sim_ep_selected _ _ He), Hb. by intros [= <- <-].
Qed.
Next Obligation.
  intros v x v' e He Hw. simpl. rewrite (sim_ep_selected _ _ He). by intros [= <- <-].
Qed.
Next Obligation.
  intros v x v' e He Hw. simpl. rewrite (sim_ep_selected _ _ He). by intros [= <- <-].
Qed.
Next Obligation. by intros v x v' [= _ <-]. Qed.
Next Obligation. intros v n v' E. cbn [ucu_irqs usim] in E. cbn beta. by rewrite E. Qed.
