(* ===== verification/UsbSerial.v ===== *)
(** * The serial port over the endpoint hardware

    What the host receives is what the firmware printed, and what the firmware
    reads is what the host sent, in order, over any number of packets. *)

From S2P Require Import Prelude Avr UsbRegs UsbEndpoint UsbController UsbStream UsbDescriptors.
From S2P Require Import UsbRequests UsbCdc UsbHw.
From stdpp Require Import gmap.

Lemma land_bit_test v k : (0 ≤ k)%Z → bool_decide (Z.land v (bit k) ≠ 0%Z) = Z.testbit v k.
Proof.
  intros Hk. unfold bit. rewrite Z.shiftl_1_l. destruct (Z.testbit v k) eqn:E.
  - apply bool_decide_true. intros H0. assert (Z.testbit (Z.land v (2 ^ k)) k = true) as Ht.
    { by rewrite Z.land_spec, E, Z.pow2_bits_true. }
    by rewrite H0, Z.bits_0 in Ht.
  - apply bool_decide_false. intros Hn. apply Hn. apply Z.bits_inj_0. intros i.
    rewrite Z.land_spec. destruct (decide (i = k)) as [->|]; [by rewrite E|].
    by rewrite Z.pow2_bits_false, andb_false_r.
Qed.

Lemma set_ep_set_ep e e' v : set_ep e' (set_ep e v) = set_ep e' v.
Proof. unfold set_ep. cbn [v_sel v_eps v_irqs]. by rewrite insert_insert_eq. Qed.

Lemma selected_set_ep e v : selected (set_ep e v) e.
Proof. unfold selected, set_ep. cbn [v_sel v_eps]. by rewrite lookup_insert_eq. Qed.

Lemma ep_tick_tick w w' e : ep_tick w (ep_tick w' e) = ep_tick w e.
Proof. done. Qed.

#[local] Arguments Z.testbit : simpl never.

Section Hw.
Context `{UsbHw D}.

Abbreviation St := (ust D).

(** Endpoint [v_sel v] is selected and in state [e]; no interrupt is due. *)
Definition at_ep (s : St) (g : usbg) (v : usbv) (e : ep) : Prop :=
  u_glob s = g ∧ uview (u_hw s) = set_ep e v ∧ v_irqs v = [].

(** ** Single register accesses *)

Lemma rd_step r (s : St) x d : ucu_read r (u_hw s) = (x, d) → rd r s = Ok (x, mk_ust (u_glob s) d).
Proof. intros E. unfold rd. by rewrite E. Qed.

Lemma at_ep_selected s g v e : at_ep s g v e → selected (uview (u_hw s)) e.
Proof. intros (_ & -> & _). apply selected_set_ep. Qed.

Lemma quiet_read r (s : St) g v e :
  at_ep s g v e → (∀ x d, ucu_read r (u_hw s) = (x, d) → uview d = uview (u_hw s)) →
  ∃ x s', rd r s = Ok (x, s') ∧ ucu_read r (u_hw s) = (x, u_hw s') ∧ at_ep s' g v e.
Proof.
  intros (Hg & Hv & Hi) Hq. destruct (ucu_read r (u_hw s)) as [x d] eqn:E.
  exists x, (mk_ust (u_glob s) d). split; [by apply rd_step|]. split; [done|].
  split_and!; [done| |done]. cbn [u_hw]. by rewrite (Hq x d).
Qed.

Lemma ueintx_look (s : St) g v e : at_ep s g v e →
  ∃ x s' w, rd UEINTX s = Ok (x, s') ∧ is_u8 x ∧ Z.testbit x TXINI = ep_txini e ∧
    Z.testbit x RXOUTI = ep_rxouti e ∧ Z.testbit x RWAL = ep_rwal e ∧
    w ≤ pred (ep_wait e) ∧ at_ep s' g v (ep_tick w e).
Proof.
  intros Hs. pose proof (at_ep_selected _ _ _ _ Hs) as Hsel. destruct Hs as (Hg & Hv & Hi).
  destruct (ucu_read UEINTX (u_hw s)) as [x d] eqn:E.
  destruct (ueintx_read _ _ _ _ Hsel E) as (Hu & H1 & H2 & H3 & w & Hw & Hd).
  exists x, (mk_ust (u_glob s) d), w. split; [by apply rd_step|].
  split_and!; try done. split_and!; try done. cbn [u_hw]. by rewrite Hd, Hv, set_ep_set_ep.
Qed.

(** The three tests of UEINTX. *)
Lemma test_look k (f : ep → bool) (s : St) g v e : (0 ≤ k)%Z → at_ep s g v e →
  (∀ x s', rd UEINTX s = Ok (x, s') → Z.testbit x TXINI = ep_txini e →
     Z.testbit x RXOUTI = ep_rxouti e → Z.testbit x RWAL = ep_rwal e → Z.testbit x k = f e) →
  ∃ s' w, test_bits UEINTX (bit k) s = Ok (f e, s') ∧ w ≤ pred (ep_wait e) ∧ at_ep s' g v (ep_tick w e).
Proof.
  intros Hk Hs Hf. destruct (ueintx_look _ _ _ _ Hs) as (x & s' & w & E & _ & H1 & H2 & H3 & Hw & Hs').
  exists s', w. unfold test_bits. rewrite (io_bind_Ok _ _ _ _ _ E), land_bit_test by done.
  by rewrite (Hf x s' E H1 H2 H3).
Qed.

Lemma IsINReady_look (s : St) g v e : at_ep s g v e →
  ∃ s' w, Endpoint_IsINReady s = Ok (ep_txini e, s') ∧ w ≤ pred (ep_wait e) ∧ at_ep s' g v (ep_tick w e).
Proof. intros Hs. by apply test_look. Qed.

Lemma IsOUTReceived_look (s : St) g v e : at_ep s g v e →
  ∃ s' w, Endpoint_IsOUTReceived s = Ok (ep_rxouti e, s') ∧ w ≤ pred (ep_wait e) ∧ at_ep s' g v (ep_tick w e).
Proof. intros Hs. by apply test_look. Qed.

Lemma IsReadWriteAllowed_look (s : St) g v e : at_ep s g v e →
  ∃ s' w, Endpoint_IsReadWriteAllowed s = Ok (ep_rwal e, s') ∧ w ≤ pred (ep_wait e) ∧
    at_ep s' g v (ep_tick w e).
Proof. intros Hs. by apply test_look. Qed.

Lemma direction_read (s : St) g v e : at_ep s g v e →
  ∃ s', Endpoint_GetEndpointDirection s
        = Ok (if ep_in e then ENDPOINT_DIR_IN else ENDPOINT_DIR_OUT, s') ∧ at_ep s' g v e.
Proof.
  intros Hs. pose proof (at_ep_selected _ _ _ _ Hs) as Hsel.
  destruct (quiet_read UECFG0X s g v e Hs) as (x & s' & E & Er & Hs').
  { intros x d Er. by destruct (uecfg0_read _ _ _ _ Hsel Er). }
  destruct (uecfg0_read _ _ _ _ Hsel Er) as [Hb _]. exists s'. split; [|done].
  unfold Endpoint_GetEndpointDirection, test_bits. rewrite io_bind_assoc, (io_bind_Ok _ _ _ _ _ E).
  by rewrite io_bind_ret, land_bit_test, Hb.
Qed.

Lemma stalled_read (s : St) g v e : at_ep s g v e →
  ∃ s', Endpoint_IsStalled s = Ok (ep_stall e, s') ∧ at_ep s' g v e.
Proof.
  intros Hs. pose proof (at_ep_selected _ _ _ _ Hs) as Hsel.
  destruct (quiet_read UECONX s g v e Hs) as (x & s' & E & Er & Hs').
  { intros x d Er. by destruct (ueconx_read _ _ _ _ Hsel Er). }
  destruct (ueconx_read _ _ _ _ Hsel Er) as [Hb _]. exists s'. split; [|done].
  unfold Endpoint_IsStalled, test_bits. by rewrite (io_bind_Ok _ _ _ _ _ E), land_bit_test, Hb.
Qed.

Lemma frame_read (s : St) g v e : at_ep s g v e →
  ∃ x s', USB_Device_GetFrameNumber s = Ok (x, s') ∧ at_ep s' g v e.
Proof.
  intros Hs. destruct (quiet_read UDFNUM s g v e Hs) as (x & s' & E & _ & Hs'); [|by exists x, s'].
  intros x d. apply udfnum_read.
Qed.

Lemma bytes_read (s : St) g v e : at_ep s g v e → ep_wait e = 0 →
  ∃ s', Endpoint_BytesInEndpoint s = Ok (Z.of_nat (length (ep_bank e)), s') ∧ at_ep s' g v e.
Proof.
  intros Hs Hw. pose proof (at_ep_selected _ _ _ _ Hs) as Hsel.
  destruct (quiet_read UEBCHX s g v e Hs) as (h & s1 & E1 & Er1 & Hs1).
  { intros x d Er. by destruct (uebchx_read _ _ _ _ Hsel Hw Er). }
  destruct (uebchx_read _ _ _ _ Hsel Hw Er1) as [-> _].
  pose proof (at_ep_selected _ _ _ _ Hs1) as Hsel1.
  destruct (quiet_read UEBCLX s1 g v e Hs1) as (l & s2 & E2 & Er2 & Hs2).
  { intros x d Er. by destruct (uebclx_read _ _ _ _ Hsel1 Hw Er). }
  destruct (uebclx_read _ _ _ _ Hsel1 Hw Er2) as [-> _]. exists s2. split; [|done].
  unfold Endpoint_BytesInEndpoint. rewrite (io_bind_Ok _ _ _ _ _ E1), (io_bind_Ok _ _ _ _ _ E2).
  unfold mret, IO_ret. do 2 f_equal. set (n := Z.of_nat _).
  rewrite Z.shiftl_mul_pow2 by lia.
  pose proof (Z.add_lor_land (n / 256 * 2 ^ 8) (n `mod` 256)) as Hl.
  assert (Z.land (n / 256 * 2 ^ 8) (n `mod` 256) = 0%Z) as H0';
    [|pose proof (Z.div_mod n 256); lia].
  apply Z.bits_inj_0. intros i. rewrite Z.land_spec. change 256%Z with (2 ^ 8)%Z.
  destruct (decide (i < 8)%Z) as [Hi|Hi]; [by rewrite Z.mul_pow2_bits_low|].
  by rewrite Z.mod_pow2_bits_high, andb_false_r by lia.
Qed.

Lemma select_step (s : St) a e :
  v_eps (uview (u_hw s)) !! Z.land a ENDPOINT_EPNUM_MASK = Some e → v_irqs (uview (u_hw s)) = [] →
  ∃ s', Endpoint_SelectEndpoint a s = Ok (tt, s') ∧
    at_ep s' (u_glob s) (mk_usbv (Z.land a ENDPOINT_EPNUM_MASK) (v_eps (uview (u_hw s))) []) e.
Proof.
  intros He Hi. eexists. split; [done|]. split_and!; [done| |done]. cbn [u_hw].
  assert (u8 (Z.land a ENDPOINT_EPNUM_MASK) = Z.land a ENDPOINT_EPNUM_MASK) as ->.
  { unfold u8, ENDPOINT_EPNUM_MASK. change 15%Z with (Z.ones 4). rewrite Z.land_ones by lia.
    apply Z.mod_small. pose proof (Z.mod_pos_bound a (2 ^ 4)). lia. }
  rewrite uenum_write, Hi. unfold set_ep. cbn [v_sel v_eps v_irqs]. by rewrite insert_id.
Qed.

(** [UEINTX &= ~(flag | FIFOCON)] writes both bits as zeros. *)
Lemma cleared k x : (0 ≤ k < 8)%Z →
  Z.testbit (u8 (Z.ldiff x (Z.lor (bit k) (bit FIFOCON)))) k = false ∧
  Z.testbit (u8 (Z.ldiff x (Z.lor (bit k) (bit FIFOCON)))) FIFOCON = false.
Proof.
  intros Hk. unfold u8. change 256%Z with (2 ^ 8)%Z. unfold FIFOCON.
  rewrite !Z.mod_pow2_bits_low by lia. rewrite !Z.ldiff_spec, !Z.lor_spec. unfold bit.
  rewrite !Z.shiftl_1_l, !Z.pow2_bits_true, orb_true_r by lia. by rewrite !andb_false_r.
Qed.

Lemma read_DeviceState_quiet `{!GenEvents D} fuel (s : St) : v_irqs (uview (u_hw s)) = [] →
  ∃ s', read_DeviceState fuel s = Ok (USB_DeviceState (u_glob s), s') ∧
    u_glob s' = u_glob s ∧ uview (u_hw s') = uview (u_hw s).
Proof.
  intros Hi. destruct (ucu_irqs (u_hw s)) as [n d] eqn:E.
  destruct (irqs_next _ _ _ E) as [Hn Hd]. unfold next_irqs in Hn, Hd. rewrite Hi in Hn, Hd.
  cbn [fst snd] in Hn, Hd. subst n. exists (mk_ust (u_glob s) d). split; [|done].
  unfold read_DeviceState. rewrite (io_bind_Ok pending _ s 0 (mk_ust (u_glob s) d)); [done|].
  unfold pending. by rewrite E.
Qed.

Lemma read_DeviceState_at `{!GenEvents D} fuel (s : St) g v e : at_ep s g v e →
  ∃ s', read_DeviceState fuel s = Ok (USB_DeviceState g, s') ∧ at_ep s' g v e.
Proof.
  intros (Hg & Hv & Hi). destruct (read_DeviceState_quiet fuel s) as (s' & E & Hg' & Hv').
  { by rewrite Hv. }
  exists s'. rewrite E, Hg. split; [done|]. split_and!; congruence.
Qed.

Section Port.
Context `{!GenEvents D} (fuel : nat).

(** ** The port *)

Definition configured (g : usbg) : Prop := USB_DeviceState g = DEVICE_STATE_Configured.

(** The port is open: the device is configured and the host has set a speed. *)
Definition opened (g : usbg) : Prop :=
  configured g ∧
  BaudRateBPS (LineEncoding (VirtualSerial_CDC_Interface g)) ≠ 0%Z.

(** Endpoint [n] is in state [e], the others are those of [m]; no interrupt is
    due. *)
Definition port (n : Z) (s : St) (g : usbg) (m : gmap Z ep) (e : ep) : Prop :=
  u_glob s = g ∧ v_irqs (uview (u_hw s)) = [] ∧ v_eps (uview (u_hw s)) = <[n := e]> m.

Definition tx (g : usbg) : Z :=
  Z.land (Address (DataINEndpoint (VirtualSerial_CDC_Interface g))) ENDPOINT_EPNUM_MASK.
Definition rx (g : usbg) : Z :=
  Z.land (Address (DataOUTEndpoint (VirtualSerial_CDC_Interface g))) ENDPOINT_EPNUM_MASK.

Lemma port_select (s : St) g m e a : port (Z.land a ENDPOINT_EPNUM_MASK) s g m e →
  ∃ s' v, Endpoint_SelectEndpoint a s = Ok (tt, s') ∧ at_ep s' g v e ∧
    (∀ s'' e', at_ep s'' g v e' → port (Z.land a ENDPOINT_EPNUM_MASK) s'' g m e').
Proof.
  intros (Hg & Hi & Hm). destruct (select_step s a e) as (s' & E & Hs'); [|done|].
  { by rewrite Hm, lookup_insert_eq. }
  rewrite Hg, Hm in Hs'. eexists _, _. split; [done|]. split; [exact Hs'|].
  intros s'' e' (Hg'' & Hv'' & _). split_and!; [done|by rewrite Hv''|].
  rewrite Hv''. unfold set_ep. cbn [v_sel v_eps]. by rewrite insert_insert_eq.
Qed.

Lemma if_open_run n (s : St) g m e : port n s g m e → opened g →
  ∃ s', (∀ A (x : A) (f : IO St A), if_open fuel x f s = f s') ∧ port n s' g m e.
Proof.
  intros (Hg & Hi & Hm) [Hc Hb]. destruct (read_DeviceState_quiet fuel s Hi) as (s' & E & Hg' & Hv').
  exists s'. split; [|by split_and!; congruence]. intros A x f.
  unfold if_open, not_open. rewrite io_bind_assoc, (io_bind_Ok _ _ _ _ _ E), Hg, Hc.
  rewrite bool_decide_false by (intros Hn; by apply Hn).
  unfold get_cdc, get_usb, mbind, IO_bind, mret, IO_ret. rewrite Hg', Hg.
  by rewrite bool_decide_false.
Qed.

Lemma get_cdc_port n (s : St) g m e : port n s g m e →
  get_cdc s = Ok (VirtualSerial_CDC_Interface g, s).
Proof. intros (Hg & _). unfold get_cdc, get_usb, mbind, IO_bind, mret, IO_ret. by rewrite Hg. Qed.

End Port.

(** ** Sending *)

(** An IN endpoint whose packets and bank hold [data]. *)
Record in_ep (size : nat) (e : ep) (data : list Z) : Prop := mk_in_ep {
  in_dir : ep_in e = true;
  in_size : ep_size e = size;
  in_stall : ep_stall e = false;
  in_wait : ep_wait e ≤ ulat;
  in_data : mjoin (ep_sent e) ++ ep_bank e = data;
  in_packets : Forall (λ p, length p ≤ size) (ep_sent e);
  in_bank : length (ep_bank e) ≤ size;
  in_busy : 0 < ep_wait e → ep_bank e = [] }.

Lemma in_ep_tick size e data w : in_ep size e data → w ≤ pred (ep_wait e) → in_ep size (ep_tick w e) data.
Proof.
  intros [] Hw. split; try done; cbn [ep_tick ep_wait ep_bank]; [lia|]. intros. by apply in_busy0; lia.
Qed.

Lemma ClearIN_step size (s : St) g v e data : at_ep s g v e → in_ep size e data →
  ∃ s' e', Endpoint_ClearIN s = Ok (tt, s') ∧ at_ep s' g v e' ∧ in_ep size e' data ∧
    ep_bank e' = [] ∧ (ep_wait e = 0 → ep_sent e' = ep_sent e ++ [ep_bank e]).
Proof.
  intros Hs He. destruct (ueintx_look _ _ _ _ Hs) as (x & s1 & w & E & _ & _ & _ & _ & Hw & Hs1).
  pose proof (in_ep_tick _ _ _ _ He Hw) as He1. pose proof (at_ep_selected _ _ _ _ Hs1) as Hsel.
  destruct (cleared TXINI x) as [Ht Hf]; [unfold TXINI; lia|].
  set (y := u8 _) in Ht, Hf. destruct Hs1 as (Hg & Hv & Hi).
  exists (mk_ust (u_glob s1) (ucu_write UEINTX y (u_hw s1))).
  destruct (ueintx_clear_in _ y _ Hsel (in_dir _ _ _ He1) Ht Hf) as [(Hn & w' & Hw' & Hd)|[Hn Hd]].
  - exists (ep_send w' (ep_tick w e)). split; [|split].
    + unfold Endpoint_ClearIN, clear_bits. by rewrite (io_bind_Ok _ _ _ _ _ E).
    + split_and!; [done| |done]. cbn [u_hw]. by rewrite Hd, Hv, set_ep_set_ep.
    + destruct He. split; [|done..]. split; try done; cbn; [|by apply Forall_app_2; auto|lia].
      rewrite join_app, app_nil_r. cbn. by rewrite app_nil_r.
  - exists (ep_tick w e). split; [|split].
    + unfold Endpoint_ClearIN, clear_bits. by rewrite (io_bind_Ok _ _ _ _ _ E).
    + split_and!; [done| |done]. cbn [u_hw]. by rewrite Hd, Hv.
    + split; [done|]. split; [by apply (in_busy _ _ _ He1)|]. cbn [ep_tick ep_wait] in Hn. lia.
Qed.

Lemma Write_8_step size (s : St) g v e data x : at_ep s g v e → in_ep size e data →
  ep_wait e = 0 → length (ep_bank e) < size → is_u8 x →
  ∃ s', Endpoint_Write_8 x s = Ok (tt, s') ∧ at_ep s' g v (ep_fill (ep_bank e ++ [x]) e) ∧
    in_ep size (ep_fill (ep_bank e ++ [x]) e) (data ++ [x]).
Proof.
  intros Hs He Hw Hl Hx. pose proof (at_ep_selected _ _ _ _ Hs) as Hsel. destruct Hs as (Hg & Hv & Hi).
  eexists. split; [done|]. destruct He as [Hd Hz ? ? Hdat ? ? ?]. split.
  - split_and!; [done| |done]. cbn [u_hw]. rewrite u8_small by done.
    rewrite (uedatx_write _ x e) by (try done; by rewrite Hz). by rewrite Hv, set_ep_set_ep.
  - split; cbn [ep_fill ep_in ep_size ep_stall ep_wait ep_sent ep_bank]; try done.
    + by rewrite app_assoc, Hdat.
    + rewrite length_app. simpl. lia.
    + lia.
Qed.

Section Sending.
Context `{!GenEvents D} (fuel size : nat).
Hypothesis (Hfuel : ulat < fuel) (Hlat : ulat ≤ 100) (Hsize : 0 < size).

Lemma ready_loop_in k : ∀ (s : St) g v e data prev rem,
  at_ep s g v e → in_ep size e data → configured g → ep_wait e < k → (Z.of_nat (ep_wait e) ≤ rem)%Z →
  ∃ s' , ready_loop fuel k prev rem s = Ok (ENDPOINT_READYWAIT_NoError, s') ∧
    at_ep s' g v (ep_tick 0 e).
Proof.
  induction k as [|k IH]; intros s g v e data prev rem Hs He Ho Hk Hr; [lia|].
  cbn [ready_loop]. destruct (direction_read _ _ _ _ Hs) as (s1 & E1 & Hs1).
  rewrite (io_bind_Ok _ _ _ _ _ E1), (in_dir _ _ _ He), (bool_decide_true (_ = ENDPOINT_DIR_IN)) by done.
  destruct (IsINReady_look _ _ _ _ Hs1) as (s2 & w & E2 & Hw & Hs2).
  rewrite (io_bind_Ok _ _ _ _ _ E2). unfold ep_txini, ep_mine. rewrite (in_dir _ _ _ He).
  cbn [andb]. destruct (ep_wait e =? 0) eqn:E0.
  { apply Nat.eqb_eq in E0. exists s2. replace w with 0 in Hs2 by lia. done. }
  apply Nat.eqb_neq in E0. pose proof (in_ep_tick _ _ _ _ He Hw) as He2.
  destruct (read_DeviceState_at fuel _ _ _ _ Hs2) as (s3 & E3 & Hs3).
  rewrite (io_bind_Ok _ _ _ _ _ E3). rewrite Ho.
  rewrite (bool_decide_false (_ = DEVICE_STATE_Unattached)), (bool_decide_false (_ = DEVICE_STATE_Suspended))
    by done.
  destruct (stalled_read _ _ _ _ Hs3) as (s4 & E4 & Hs4).
  rewrite (io_bind_Ok _ _ _ _ _ E4), (in_stall _ _ _ He2).
  destruct (frame_read _ _ _ _ Hs4) as (f & s5 & E5 & Hs5). rewrite (io_bind_Ok _ _ _ _ _ E5).
  rewrite <- (ep_tick_tick 0 w e).
  destruct (bool_decide (f = prev)); [|rewrite bool_decide_false by lia];
    apply (IH _ _ _ (ep_tick w e) data); try done; cbn [ep_tick ep_wait]; lia.
Qed.

Lemma WaitUntilReady_in (s : St) g v e data :
  at_ep s g v e → in_ep size e data → configured g →
  ∃ s', Endpoint_WaitUntilReady fuel s = Ok (0%Z, s') ∧ at_ep s' g v (ep_tick 0 e) ∧
    in_ep size (ep_tick 0 e) data.
Proof.
  intros Hs He Ho. unfold Endpoint_WaitUntilReady.
  destruct (frame_read _ _ _ _ Hs) as (f & s1 & E1 & Hs1). rewrite (io_bind_Ok _ _ _ _ _ E1).
  pose proof (in_wait _ _ _ He).
  destruct (ready_loop_in fuel s1 g v e data f USB_STREAM_TIMEOUT_MS Hs1 He Ho) as (s2 & E2 & Hs2);
    [lia|unfold USB_STREAM_TIMEOUT_MS; lia|].
  exists s2. split; [done|]. split; [done|]. apply in_ep_tick; [done|lia].
Qed.

(** Room for the next byte: hand over the bank if it is full, and wait. *)
Lemma rwal_room e data : in_ep size e data →
  ep_rwal e = true → ep_wait e = 0 ∧ length (ep_bank e) < size.
Proof.
  intros [Hin Hz _ _ _ _ _ _]. unfold ep_rwal, ep_mine. rewrite Hin.
  intros [H1%Nat.eqb_eq H2%Nat.ltb_lt]%andb_true_iff. by rewrite <- Hz.
Qed.

(** ** The streams *)

Lemma put_byte_run buf pos x (s : St) :
  buf !! pos = Some x → put_byte buf (Z.of_nat pos) tt s = Endpoint_Write_8 x s.
Proof.
  intros Hx. unfold put_byte, load_at, load. by rewrite bool_decide_false, Nat2Z.id, Hx by lia.
Qed.

(** From [e] to [e'] only full packets were sent. *)
Definition full_sent (e e' : ep) : Prop :=
  ∃ full, ep_sent e' = ep_sent e ++ full ∧ Forall (λ p, length p = size) full.

Lemma full_sent_same e e' : ep_sent e' = ep_sent e → full_sent e e'.
Proof. intros E. exists []. by rewrite app_nil_r. Qed.

Lemma full_sent_trans e1 e2 e3 : full_sent e1 e2 → full_sent e2 e3 → full_sent e1 e3.
Proof.
  intros (l1 & E1 & H1') (l2 & E2 & H2'). exists (l1 ++ l2). rewrite E2, E1, app_assoc.
  split; [done|]. by apply Forall_app.
Qed.

Lemma write_loop_in k : ∀ (s : St) g v e data buf pos n bt,
  at_ep s g v e → in_ep size e data → configured g → Forall is_u8 buf → ep_wait e = 0 →
  pos + n ≤ length buf → 2 * n + (if ep_rwal e then 0 else 1) < k →
  ∃ s' e', rw_loop fuel Endpoint_ClearIN (put_byte buf) 1 k tt (Z.of_nat pos) (Z.of_nat n) bt None s
           = Ok (0%Z, tt, None, s') ∧
    at_ep s' g v e' ∧ in_ep size e' (data ++ take n (drop pos buf)) ∧ full_sent e e' ∧
    ep_wait e' = 0 ∧ (ep_bank e ≠ [] ∨ 0 < n → ep_bank e' ≠ []).
Proof.
  induction k as [|k IH]; intros s g v e data buf pos n bt Hs He Ho Hb Hw0 Hp Hk; [lia|].
  cbn [rw_loop]. destruct n as [|n].
  { rewrite bool_decide_true by done. exists s, e. rewrite take_0, app_nil_r.
    split_and!; try done; [by apply full_sent_same|]. intros [?|?]; [done|lia]. }
  rewrite bool_decide_false by lia.
  destruct (IsReadWriteAllowed_look _ _ _ _ Hs) as (s1 & w & E1 & Hw & Hs1).
  rewrite (io_bind_Ok _ _ _ _ _ E1). pose proof (in_ep_tick _ _ _ _ He Hw) as He1.
  assert (w = 0) as -> by lia.
  destruct (ep_rwal e) eqn:Erw.
  - destruct (rwal_room _ _ He Erw) as [_ Hl].
    assert (∃ x, buf !! pos = Some x) as [x Hx] by (apply lookup_lt_is_Some_2; lia).
    assert (is_u8 x) as Hux by (by eapply Forall_lookup_1).
    destruct (Write_8_step size s1 g v _ data x Hs1 He1) as (s2 & E2 & Hs2 & He2); try done.
    rewrite (io_bind_Ok (put_byte buf _ _) _ s1 tt s2) by (by rewrite (put_byte_run _ _ x)).
    replace (Z.of_nat pos + 1)%Z with (Z.of_nat (S pos)) by lia.
    replace (Z.of_nat (S n) - 1)%Z with (Z.of_nat n) by lia.
    destruct (IH s2 g v _ _ buf (S pos) n (u16 (bt + 1)) Hs2 He2 Ho Hb)
      as (s3 & e3 & E3 & Hs3 & He3 & Hf3 & Hw3 & Hn3); [done|lia|case_match; lia|].
    exists s3, e3. split; [done|]. split; [done|]. split; [|split; [exact Hf3|split; [done|]]].
    + by rewrite (drop_S _ x) by done; cbn [take]; rewrite <- app_assoc in He3.
    + intros _. apply Hn3. left. cbn [ep_fill ep_tick ep_bank]. by destruct (ep_bank e).
  - destruct (ClearIN_step size _ _ _ _ _ Hs1 He1) as (s2 & e2 & E2 & Hs2 & He2 & Hbk & Hsent).
    rewrite (io_bind_Ok _ _ _ _ _ E2). specialize (Hsent eq_refl).
    destruct (WaitUntilReady_in _ _ _ _ _ Hs2 He2 Ho) as (s3 & E3 & Hs3 & He3).
    rewrite (io_bind_Ok _ _ _ _ _ E3), bool_decide_false by (intros Hn; by apply Hn).
    destruct (IH s3 g v _ _ buf pos (S n) bt Hs3 He3 Ho Hb eq_refl Hp)
      as (s4 & e4 & E4 & Hs4 & He4 & Hf4 & Hw4 & Hn4).
    { unfold ep_rwal. cbn [ep_tick ep_in ep_bank ep_size]. rewrite (in_dir _ _ _ He2), Hbk.
      rewrite (in_size _ _ _ He2). destruct size; [lia|]. cbn. lia. }
    exists s4, e4. split_and!; try done; [|intros _; apply Hn4; right; lia].
    apply (full_sent_trans _ (ep_tick 0 e2)); [|done]. exists [ep_bank e]. split; [done|].
    repeat constructor. pose proof (in_bank _ _ _ He).
    unfold ep_rwal, ep_mine in Erw. rewrite (in_dir _ _ _ He), (in_size _ _ _ He), Hw0 in Erw.
    apply Nat.ltb_ge in Erw. lia.
Qed.

(** The first [n] bytes of a buffer: the packets that are sent are full, and
    the rest is in the bank. *)
Lemma Write_Stream_in (s : St) g v e data buf n :
  at_ep s g v e → in_ep size e data → configured g → Forall is_u8 buf → n ≤ length buf →
  2 * n + 1 < fuel → (Z.of_nat n < 65536)%Z →
  ∃ s' e', Endpoint_Write_Stream_LE fuel buf (Z.of_nat n) None s = Ok (0%Z, None, s') ∧
    at_ep s' g v e' ∧ in_ep size e' (data ++ take n buf) ∧ full_sent e e' ∧
    ep_wait e' = 0 ∧ (0 < n → ep_bank e' ≠ []).
Proof.
  intros Hs He Ho Hb Hn Hf Hl. unfold Endpoint_Write_Stream_LE, rw_stream.
  destruct (WaitUntilReady_in _ _ _ _ _ Hs He Ho) as (s1 & E1 & Hs1 & He1).
  rewrite io_bind_assoc, (io_bind_Ok _ _ _ _ _ E1), bool_decide_false by (intros Hz; by apply Hz).
  cbn [default]. rewrite Z.sub_0_r, u16_small by (unfold is_u16; lia).
  destruct (write_loop_in fuel s1 g v _ data buf 0 n 0 Hs1 He1 Ho Hb)
    as (s2 & e2 & E2 & Hs2 & He2 & Hf2 & Hw2 & Hn2); [done|lia|case_match; lia|].
  exists s2, e2. change (Z.of_nat 0) with 0%Z in E2. rewrite (io_bind_Ok _ _ _ _ _ E2).
  rewrite drop_0 in He2. split_and!; try done. intros ?. apply Hn2. by right.
Qed.

Lemma SendByte_run (s : St) g m e data x :
  port (tx g) s g m e → in_ep size e data → opened g → is_u8 x →
  ∃ s' e', CDC_Device_SendByte fuel x s = Ok (0%Z, s') ∧ port (tx g) s' g m e' ∧
    in_ep size e' (data ++ [x]) ∧ ep_wait e' = 0 ∧ ep_bank e' ≠ [].
Proof.
  intros Hp He Ho Hx. unfold CDC_Device_SendByte.
  destruct (if_open_run fuel (tx g) s g m e Hp Ho) as (s1 & -> & Hp1).
  rewrite (io_bind_Ok _ _ _ _ _ (get_cdc_port _ _ _ _ _ Hp1)).
  destruct (port_select _ _ _ _ _ Hp1) as (s2 & v & E2 & Hs2 & Hback).
  rewrite (io_bind_Ok _ _ _ _ _ E2).
  destruct (IsReadWriteAllowed_look _ _ _ _ Hs2) as (s3 & w & E3 & Hw & Hs3).
  rewrite (io_bind_Ok _ _ _ _ _ E3). pose proof (in_ep_tick _ _ _ _ He Hw) as He3.
  assert (∃ s4 e4, (if ep_rwal e then mret ENDPOINT_READYWAIT_NoError
      else Endpoint_ClearIN;; Endpoint_WaitUntilReady fuel) s3 = Ok (0%Z, s4) ∧
    at_ep s4 g v e4 ∧ in_ep size e4 data ∧ ep_wait e4 = 0 ∧ length (ep_bank e4) < size)
    as (s4 & e4 & E4 & Hs4 & He4 & Hw4 & Hl4).
  { destruct (ep_rwal e) eqn:Erw.
    - destruct (rwal_room _ _ He Erw) as [Hw0 Hl]. exists s3, (ep_tick w e).
      split_and!; try done. cbn [ep_tick ep_wait]. lia.
    - destruct (ClearIN_step size _ _ _ _ _ Hs3 He3) as (s4 & e4 & E4 & Hs4 & He4 & Hbk & _).
      rewrite (io_bind_Ok _ _ _ _ _ E4).
      destruct (WaitUntilReady_in _ _ _ _ _ Hs4 He4 (proj1 Ho)) as (s5 & E5 & Hs5 & He5).
      exists s5, (ep_tick 0 e4). split_and!; try done. cbn [ep_tick ep_bank]. by rewrite Hbk. }
  rewrite (io_bind_Ok _ _ _ _ _ E4), bool_decide_false by (intros Hn; by apply Hn).
  destruct (Write_8_step size s4 g v e4 data x) as (s5 & E5 & Hs5 & He5); try done.
  rewrite (io_bind_Ok _ _ _ _ _ E5). eexists _, _. split; [done|]. split; [by apply Hback|].
  split; [done|]. cbn [ep_fill ep_wait ep_bank]. split; [done|]. by destruct (ep_bank e4).
Qed.

(** What [printf] does with the characters of its output. *)
Fixpoint send_all (text : list Z) : IO St Z :=
  match text with
  | [] => mret 0%Z
  | c :: text' => r ← CDC_Device_putchar fuel c; if bool_decide (r = 0%Z) then send_all text' else mret r
  end.

Lemma send_all_run text : ∀ (s : St) g m e data,
  port (tx g) s g m e → in_ep size e data → opened g → Forall is_u8 text →
  ∃ s' e', send_all text s = Ok (0%Z, s') ∧ port (tx g) s' g m e' ∧ in_ep size e' (data ++ text) ∧
    (text ≠ [] → ep_wait e' = 0 ∧ ep_bank e' ≠ []).
Proof.
  induction text as [|x text IH]; intros s g m e data Hp He Ho Ht.
  { exists s, e. by rewrite app_nil_r. }
  apply Forall_cons in Ht as [Hx Ht]. cbn [send_all].
  destruct (SendByte_run s g m e data x) as (s1 & e1 & E1 & Hp1 & He1 & Hr); try done.
  unfold CDC_Device_putchar. rewrite io_bind_assoc, (io_bind_Ok _ _ _ _ _ E1), io_bind_ret.
  rewrite (bool_decide_false (0%Z ≠ 0%Z)) by (intros Hn; by apply Hn).
  rewrite bool_decide_true by done.
  destruct text as [|y text]; [by exists s1, e1|].
  destruct (IH s1 g m e1 (data ++ [x]) Hp1 He1 Ho Ht) as (s2 & e2 & E2 & Hp2 & He2 & Hr2).
  exists s2, e2. rewrite <- app_assoc in He2. split_and!; [done|done|done|]. intros _. by apply Hr2.
Qed.

(** [Flush] on a bank with bytes in it: everything is with the host, and the
    last packet is a short one. *)
Lemma Flush_run (s : St) g m e data :
  port (tx g) s g m e → in_ep size e data → opened g → ep_wait e = 0 → ep_bank e ≠ [] →
  ∃ s' e', CDC_Device_Flush fuel s = Ok (0%Z, s') ∧ port (tx g) s' g m e' ∧ in_ep size e' data ∧
    ep_bank e' = [] ∧ ∃ p, last (ep_sent e') = Some p ∧ length p < size.
Proof.
  intros Hp He Ho Hw0 Hne. unfold CDC_Device_Flush.
  destruct (if_open_run fuel (tx g) s g m e Hp Ho) as (s1 & -> & Hp1).
  rewrite (io_bind_Ok _ _ _ _ _ (get_cdc_port _ _ _ _ _ Hp1)).
  destruct (port_select _ _ _ _ _ Hp1) as (s2 & v & E2 & Hs2 & Hback).
  rewrite (io_bind_Ok _ _ _ _ _ E2).
  destruct (bytes_read _ _ _ _ Hs2 Hw0) as (s3 & E3 & Hs3). rewrite (io_bind_Ok _ _ _ _ _ E3).
  rewrite (bool_decide_false (Z.of_nat _ = 0%Z)) by (destruct (ep_bank e); [done|simpl; lia]).
  destruct (IsReadWriteAllowed_look _ _ _ _ Hs3) as (s4 & w & E4 & Hw & Hs4).
  rewrite (io_bind_Ok _ _ _ _ _ E4). pose proof (in_ep_tick _ _ _ _ He Hw) as He4.
  destruct (ClearIN_step size _ _ _ _ _ Hs4 He4) as (s5 & e5 & E5 & Hs5 & He5 & Hb5 & Hsent5).
  rewrite (io_bind_Ok _ _ _ _ _ E5). specialize (Hsent5 ltac:(cbn [ep_tick ep_wait]; lia)).
  destruct (ep_rwal e) eqn:Erw; cbn [negb].
  - exists s5, e5. split_and!; try done; [by apply Hback|]. exists (ep_bank e).
    rewrite Hsent5, last_snoc. by destruct (rwal_room _ _ He Erw).
  - destruct (WaitUntilReady_in _ _ _ _ _ Hs5 He5 (proj1 Ho)) as (s6 & E6 & Hs6 & He6).
    rewrite (io_bind_Ok _ _ _ _ _ E6), bool_decide_false by (intros Hn; by apply Hn).
    destruct (ClearIN_step size _ _ _ _ _ Hs6 He6) as (s7 & e7 & E7 & Hs7 & He7 & Hb7 & Hsent7).
    rewrite (io_bind_Ok _ _ _ _ _ E7). exists s7, e7. split_and!; try done; [by apply Hback|].
    exists []. rewrite Hsent7, last_snoc by done. cbn [ep_tick ep_bank]. by rewrite Hb5.
Qed.

(** C5: the characters printed on the serial port reach the host, complete
    and in order, in packets that fit the endpoint, and after a flush the last
    packet is a short one, which ends the transfer; the other endpoints are
    left alone. *)
Theorem serial_output_reaches_host (s : St) g m e data text :
  port (tx g) s g m e → in_ep size e data → opened g → Forall is_u8 text → text ≠ [] →
  ∃ s' e', (send_all text;; CDC_Device_Flush fuel) s = Ok (0%Z, s') ∧ port (tx g) s' g m e' ∧
    mjoin (ep_sent e') = data ++ text ∧ Forall (λ p, length p ≤ size) (ep_sent e') ∧
    ∃ p, last (ep_sent e') = Some p ∧ length p < size.
Proof.
  intros Hp He Ho Ht Hne.
  destruct (send_all_run text s g m e data Hp He Ho Ht) as (s1 & e1 & E1 & Hp1 & He1 & Hr).
  rewrite (io_bind_Ok _ _ _ _ _ E1). destruct (Hr Hne) as [Hw Hb].
  destruct (Flush_run s1 g m e1 _ Hp1 He1 Ho Hw Hb) as (s2 & e2 & E2 & Hp2 & He2 & Hb2 & Hl).
  exists s2, e2. split_and!; try done; [|by destruct He2].
  rewrite <- (in_data _ _ _ He2), Hb2. by rewrite app_nil_r.
Qed.

(** C40: sending a buffer as a stream leaves the endpoint with the same bytes
    as printing it character by character. *)
Theorem send_data_like_print (s : St) g m e data buf :
  port (tx g) s g m e → in_ep size e data → opened g → Forall is_u8 buf →
  2 * length buf + 1 < fuel → (Z.of_nat (length buf) < 65536)%Z →
  (∃ s' e', CDC_Device_SendData fuel buf (Z.of_nat (length buf)) s = Ok (0%Z, s') ∧
     port (tx g) s' g m e' ∧ in_ep size e' (data ++ buf)) ∧
  (∃ s' e', send_all buf s = Ok (0%Z, s') ∧ port (tx g) s' g m e' ∧ in_ep size e' (data ++ buf)).
Proof.
  intros Hp He Ho Hb Hf Hl. split.
  - unfold CDC_Device_SendData. destruct (if_open_run fuel (tx g) s g m e Hp Ho) as (s1 & -> & Hp1).
    rewrite (io_bind_Ok _ _ _ _ _ (get_cdc_port _ _ _ _ _ Hp1)).
    destruct (port_select _ _ _ _ _ Hp1) as (s2 & v & E2 & Hs2 & Hback).
    rewrite (io_bind_Ok _ _ _ _ _ E2).
    destruct (Write_Stream_in _ _ _ _ _ buf (length buf) Hs2 He (proj1 Ho) Hb) as (s3 & e3 & E3 & Hs3 & He3 & _);
      [done..|]. rewrite firstn_all in He3.
    rewrite (io_bind_Ok _ _ _ _ _ E3). exists s3, e3. split_and!; [done|by apply Hback|done].
  - destruct (send_all_run buf s g m e data Hp He Ho Hb) as (s1 & e1 & E1 & Hp1 & He1 & _).
    by exists s1, e1.
Qed.

End Sending.

(** ** Receiving *)

Section Receiving.
Context `{!GenEvents D} (fuel : nat).

(** An OUT endpoint from which the bytes [rest] are still to be read. *)
Record out_ep (e : ep) (rest : list Z) : Prop := mk_out_ep {
  out_dir : ep_in e = false;
  out_wait : ep_wait e ≤ ulat;
  out_rest : (if ep_have e then ep_bank e ++ mjoin (ep_coming e) else []) = rest }.

Lemma out_ep_tick e rest w : out_ep e rest → w ≤ pred (ep_wait e) → out_ep (ep_tick w e) rest.
Proof. intros [] Hw. split; try done. cbn [ep_tick ep_wait]. lia. Qed.

Lemma tick_here e : ep_wait e = 0 → ep_tick 0 e = e.
Proof. destruct e. by intros [= ->]. Qed.

Lemma rxouti_here e : ep_rxouti e = true → ep_in e = false ∧ ep_wait e = 0 ∧ ep_have e = true.
Proof.
  unfold ep_rxouti, ep_mine. intros [[H1%negb_true_iff H2%Nat.eqb_eq]%andb_true_iff H3]%andb_true_iff.
  done.
Qed.

Lemma ClearOUT_step (s : St) g v e : at_ep s g v e → ep_rxouti e = true →
  ∃ s' w, w ≤ ulat ∧ Endpoint_ClearOUT s = Ok (tt, s') ∧ at_ep s' g v (ep_release w e).
Proof.
  intros Hs Hr. destruct (rxouti_here _ Hr) as (Hin & Hw0 & _).
  destruct (ueintx_look _ _ _ _ Hs) as (x & s1 & w & E & _ & _ & _ & _ & Hw & Hs1).
  assert (w = 0) as -> by lia. rewrite tick_here in Hs1 by done.
  pose proof (at_ep_selected _ _ _ _ Hs1) as Hsel. destruct Hs1 as (Hg & Hv & Hi).
  destruct (cleared RXOUTI x) as [Ht Hf]; [unfold RXOUTI; lia|]. set (y := u8 _) in Ht, Hf.
  destruct (ueintx_clear_out _ y _ Hsel Hin Hr Ht Hf) as (w' & Hw' & Hd).
  exists (mk_ust (u_glob s1) (ucu_write UEINTX y (u_hw s1))), w'. split; [done|]. split.
  - unfold Endpoint_ClearOUT, clear_bits. by rewrite (io_bind_Ok _ _ _ _ _ E).
  - split_and!; [done| |done]. cbn [u_hw]. by rewrite Hd, Hv, set_ep_set_ep.
Qed.

Lemma Read_8_step (s : St) g v e x l : at_ep s g v e → ep_rxouti e = true → ep_bank e = x :: l →
  ∃ s', Endpoint_Read_8 s = Ok (x, s') ∧ at_ep s' g v (ep_fill l e).
Proof.
  intros Hs Hr Hb. pose proof (at_ep_selected _ _ _ _ Hs) as Hsel. destruct Hs as (Hg & Hv & Hi).
  destruct (ucu_read UEDATX (u_hw s)) as [y d] eqn:E.
  destruct (uedatx_read _ _ _ _ _ _ Hsel Hr Hb E) as [-> Hd].
  exists (mk_ust (u_glob s) d). split; [by apply rd_step|].
  split_and!; [done| |done]. cbn [u_hw]. by rewrite Hd, Hv, set_ep_set_ep.
Qed.

Lemma out_ep_release e w l rest : w ≤ ulat → ep_in e = false → ep_bank e = l → ep_have e = true →
  l = [] → mjoin (ep_coming e) = rest →
  out_ep (ep_release w e) rest ∧ length (ep_coming (ep_release w e)) ≤ pred (length (ep_coming e)).
Proof.
  intros Hw Hin Hb Hh -> <-. unfold ep_release.
  destruct (ep_coming e) as [|p ps]; (split; [split; done|done]).
Qed.

(** Looks until the next byte is there. *)
Definition patience (e : ep) : nat := ep_wait e + S ulat * length (ep_coming e).

Lemma ReceiveByte_run (s : St) g m e rest :
  port (rx g) s g m e → out_ep e rest → opened g →
  ∃ s' e' r, CDC_Device_ReceiveByte fuel s = Ok (r, s') ∧ port (rx g) s' g m e' ∧
    length (ep_coming e') ≤ length (ep_coming e) ∧
    ((r = (-1)%Z ∧ out_ep e' rest ∧ (rest ≠ [] → patience e' < patience e)) ∨
     (∃ rest', rest = r :: rest' ∧ out_ep e' rest')).
Proof.
  intros Hp He Ho. unfold CDC_Device_ReceiveByte.
  destruct (if_open_run fuel (rx g) s g m e Hp Ho) as (s1 & -> & Hp1).
  rewrite (io_bind_Ok _ _ _ _ _ (get_cdc_port _ _ _ _ _ Hp1)).
  destruct (port_select _ _ _ _ _ Hp1) as (s2 & v & E2 & Hs2 & Hback).
  rewrite (io_bind_Ok _ _ _ _ _ E2).
  destruct (IsOUTReceived_look _ _ _ _ Hs2) as (s3 & w & E3 & Hw & Hs3).
  rewrite (io_bind_Ok _ _ _ _ _ E3). destruct (ep_rxouti e) eqn:Er.
  2: { exists s3, (ep_tick w e), (-1)%Z. split_and!; [done|by apply Hback|done|]. left.
       split_and!; [done|by apply out_ep_tick|]. intros Hne. unfold patience.
       cbn [ep_tick ep_wait ep_coming]. destruct He as [Hin _ Hrest].
       unfold ep_rxouti, ep_mine in Er. rewrite Hin in Er. cbn [negb andb] in Er.
       destruct (ep_have e); [|by subst rest]. rewrite andb_true_r in Er. apply Nat.eqb_neq in Er. lia. }
  destruct (rxouti_here _ Er) as (Hin & Hw0 & Hh). assert (w = 0) as -> by lia.
  rewrite tick_here in Hs3 by done. destruct He as [_ _ Hrest]. rewrite Hh in Hrest.
  destruct (bytes_read _ _ _ _ Hs3 Hw0) as (s4 & E4 & Hs4). rewrite (io_bind_Ok _ _ _ _ _ E4).
  destruct (ep_bank e) as [|x l] eqn:Hb.
  - rewrite (bool_decide_false (_ ≠ 0%Z)) by (intros Hn; by apply Hn). rewrite io_bind_ret.
    destruct (bytes_read _ _ _ _ Hs4 Hw0) as (s5 & E5 & Hs5). rewrite (io_bind_Ok _ _ _ _ _ E5).
    rewrite Hb, bool_decide_true by done.
    destruct (ClearOUT_step _ _ _ _ Hs5 Er) as (s6 & w' & Hw' & E6 & Hs6).
    rewrite (io_bind_Ok _ _ _ _ _ E6).
    destruct (out_ep_release e w' [] rest Hw' Hin Hb Hh eq_refl Hrest) as [Ho6 Hc6].
    exists s6, (ep_release w' e), (-1)%Z. split_and!; [done|by apply Hback|lia|]. left.
    split_and!; [done|done|]. intros Hne. unfold patience. unfold ep_release in *.
    destruct (ep_coming e) as [|p ps]; [by subst rest|]. cbn [ep_wait ep_coming length] in *. lia.
  - rewrite (bool_decide_true (_ ≠ 0%Z)) by (simpl; lia).
    destruct (Read_8_step _ _ _ _ _ _ Hs4 Er Hb) as (s5 & E5 & Hs5). rewrite (io_bind_Ok _ _ _ _ _ E5).
    destruct (bytes_read _ _ _ _ Hs5 Hw0) as (s6 & E6 & Hs6). rewrite (io_bind_Ok _ _ _ _ _ E6).
    cbn [ep_fill ep_bank]. destruct l as [|y l].
    + rewrite bool_decide_true by done.
      destruct (ClearOUT_step _ _ _ _ Hs6 Er) as (s7 & w' & Hw' & E7 & Hs7).
      rewrite (io_bind_Ok _ _ _ _ _ E7).
      destruct (out_ep_release (ep_fill [] e) w' [] (mjoin (ep_coming e)) Hw' Hin eq_refl Hh eq_refl
                  eq_refl) as [Ho7 Hc7].
      exists s7, (ep_release w' (ep_fill [] e)), x. cbn [ep_fill ep_coming] in Hc7.
      split_and!; [done|by apply Hback|lia|]. right. by exists (mjoin (ep_coming e)).
    + rewrite bool_decide_false by (simpl; lia). exists s6, (ep_fill (y :: l) e), x.
      split_and!; [done|by apply Hback|done|]. right. exists ((y :: l) ++ mjoin (ep_coming e)).
      split; [done|]. split; [done|cbn; lia|]. cbn. by rewrite Hh.
Qed.

(** [while (c == EOF) c = fgetc(stdin);] and the reading of [n] characters. *)
Fixpoint poll (k : nat) : IO St Z :=
  match k with
  | O => fail NoFuel
  | S k' =>
      c ← CDC_Device_getchar fuel;
      if bool_decide (c = _FDEV_EOF) then poll k' else mret c
  end.

Fixpoint poll_all (k n : nat) : IO St (list Z) :=
  match n with
  | O => mret []
  | S n' => c ← poll k; l ← poll_all k n'; mret (c :: l)
  end.

Lemma poll_run k : ∀ (s : St) g m e x rest,
  port (rx g) s g m e → out_ep e (x :: rest) → opened g → is_u8 x → patience e < k →
  ∃ s' e', poll k s = Ok (x, s') ∧ port (rx g) s' g m e' ∧ out_ep e' rest ∧
    length (ep_coming e') ≤ length (ep_coming e).
Proof.
  induction k as [|k IH]; intros s g m e x rest Hp He Ho Hx Hk; [lia|]. cbn [poll].
  destruct (ReceiveByte_run s g m e _ Hp He Ho) as (s1 & e1 & r & E1 & Hp1 & Hc1 & Hr).
  unfold CDC_Device_getchar. rewrite io_bind_assoc, (io_bind_Ok _ _ _ _ _ E1), io_bind_ret.
  destruct Hr as [(-> & He1 & Hpat)|(rest' & [= <- <-] & He1)].
  - rewrite (bool_decide_true (-1 < 0)%Z), bool_decide_true by done.
    destruct (IH s1 g m e1 x rest Hp1 He1 Ho Hx) as (s2 & e2 & E2 & Hp2 & He2 & Hc2).
    { specialize (Hpat ltac:(done)). lia. }
    exists s2, e2. split_and!; try done. lia.
  - unfold is_u8 in Hx. rewrite (bool_decide_false (x < 0)%Z) by lia.
    rewrite bool_decide_false by (unfold _FDEV_EOF; lia). by exists s1, e1.
Qed.

(** C13: whatever the host sends arrives: reading as many characters as the
    packets on their way hold delivers exactly those characters, in order,
    over any division into packets, empty ones included. *)
Theorem serial_input_arrives (s : St) g m e text k :
  port (rx g) s g m e → out_ep e text → opened g → Forall is_u8 text →
  S ulat * S (length (ep_coming e)) ≤ k →
  ∃ s' e', poll_all k (length text) s = Ok (text, s') ∧ port (rx g) s' g m e' ∧ out_ep e' [].
Proof.
  intros Hp He Ho Ht Hk. revert s e Hp He Hk.
  induction text as [|x text IH]; intros s e Hp He Hk; [by exists s, e|].
  apply Forall_cons in Ht as [Hx Ht]. cbn [length poll_all].
  destruct (poll_run k s g m e x text Hp He Ho Hx) as (s1 & e1 & E1 & Hp1 & He1 & Hc1).
  { unfold patience. pose proof (out_wait _ _ He). lia. }
  rewrite (io_bind_Ok _ _ _ _ _ E1).
  destruct (IH Ht s1 e1 Hp1 He1) as (s2 & e2 & E2 & Hp2 & He2); [nia|].
  rewrite (io_bind_Ok _ _ _ _ _ E2). by exists s2, e2.
Qed.
End Receiving.

(** Nothing is sent or received on a port that is not open: the functions
    return at once and touch no endpoint. *)
Theorem closed_port `{!GenEvents D} fuel (s : St) x buf n :
  v_irqs (uview (u_hw s)) = [] → ¬ opened (u_glob s) →
  ∃ s', u_glob s' = u_glob s ∧ uview (u_hw s') = uview (u_hw s) ∧
    CDC_Device_putchar fuel x s = Ok (_FDEV_ERR, s') ∧
    CDC_Device_getchar fuel s = Ok (_FDEV_EOF, s') ∧
    CDC_Device_SendData fuel buf n s = Ok (ENDPOINT_RWSTREAM_DeviceDisconnected, s') ∧
    CDC_Device_USBTask fuel s = Ok (tt, s').
Proof.
  intros Hi Hno. destruct (read_DeviceState_quiet fuel s Hi) as (s' & E & Hg & Hv).
  exists s'. split; [done|]. split; [done|].
  assert (∀ A (y : A) f, if_open fuel y f s = Ok (y, s')) as Hif.
  { intros A y f. unfold if_open, not_open. rewrite io_bind_assoc, (io_bind_Ok _ _ _ _ _ E).
    unfold get_cdc, get_usb, opened in *. case_bool_decide as Hst; [done|].
    unfold mbind, IO_bind, mret, IO_ret. rewrite Hg.
    case_bool_decide; [done|]. by destruct Hno. }
  unfold CDC_Device_putchar, CDC_Device_getchar, CDC_Device_SendByte, CDC_Device_ReceiveByte,
    CDC_Device_SendData, CDC_Device_USBTask.
  split_and!; try apply Hif; by rewrite (io_bind_Ok _ _ _ _ _ (Hif _ _ _)).
Qed.
End Hw.

(** ** The theorems at work: the executable controller *)

#[local] Instance demo_events : GenEvents usbv := {|
  EVENT_USB_Device_Connect := mret tt; EVENT_USB_Device_Disconnect := mret tt;
  EVENT_USB_Device_Suspend := mret tt; EVENT_USB_Device_WakeUp := mret tt;
  EVENT_USB_Device_Reset := mret tt; EVENT_USB_Device_StartOfFrame := mret tt |}.

Definition demo_usb (baud : Z) : usbg :=
  mk_usbg DEVICE_STATE_Configured 1 false false true (mk_request 0 0 0 0 0)
    (with_line (mk_line baud 0 0 8) initial_interface) 0 0.

Definition idle_in : ep := mk_ep true 16 false [] 0 false [] [].
Definition demo_out : ep := mk_ep false 16 false [104; 105]%Z 1 true [] [[]; [33]]%Z.
Definition demo_eps : gmap Z ep := <[3%Z := idle_in]> (<[4%Z := demo_out]> ∅).
Definition demo_ust (baud : Z) : ust usbv := mk_ust (demo_usb baud) (mk_usbv 0 demo_eps []).
Definition long_text : list Z := replicate 40 65%Z.

Lemma serial_output_reaches_host_witness :
  ∃ s' e', (send_all 1000 long_text;; CDC_Device_Flush 1000) (demo_ust 9600) = Ok (0%Z, s') ∧
    port (tx (demo_usb 9600)) s' (demo_usb 9600) (<[4%Z := demo_out]> ∅) e' ∧
    mjoin (ep_sent e') = [] ++ long_text ∧ Forall (λ p, length p ≤ 16) (ep_sent e') ∧
    ∃ p, last (ep_sent e') = Some p ∧ length p < 16.
Proof.
  apply (serial_output_reaches_host (D := usbv) 1000 16) with (e := idle_in).
  - simpl. lia.
  - simpl. lia.
  - lia.
  - by split_and!.
  - by split; [..|intros Hn; inversion Hn]; try (simpl; lia).
  - by split.
  - by apply (bool_decide_unpack _).
  - done.
Defined.

Lemma send_data_like_print_witness :
  (∃ s' e', CDC_Device_SendData 1000 long_text 40 (demo_ust 9600) = Ok (0%Z, s') ∧
     port (tx (demo_usb 9600)) s' (demo_usb 9600) (<[4%Z := demo_out]> ∅) e' ∧
     in_ep (D := usbv) 16 e' ([] ++ long_text)) ∧
  (∃ s' e', send_all 1000 long_text (demo_ust 9600) = Ok (0%Z, s') ∧
     port (tx (demo_usb 9600)) s' (demo_usb 9600) (<[4%Z := demo_out]> ∅) e' ∧
     in_ep (D := usbv) 16 e' ([] ++ long_text)).
Proof.
  apply (send_data_like_print (D := usbv) 1000 16) with (e := idle_in).
  - simpl. lia.
  - simpl. lia.
  - lia.
  - by split_and!.
  - by split; [..|intros Hn; inversion Hn]; try (simpl; lia).
  - by split.
  - by apply (bool_decide_unpack _).
  - simpl. lia.
  - simpl. lia.
Defined.

Lemma serial_input_arrives_witness :
  ∃ s' e', poll_all 1000 20 3 (demo_ust 9600) = Ok ([104; 105; 33]%Z, s') ∧
    port (rx (demo_usb 9600)) s' (demo_usb 9600) (<[3%Z := idle_in]> ∅) e' ∧ out_ep (D := usbv) e' [].
Proof.
  apply (serial_input_arrives (D := usbv) 1000 (demo_ust 9600) (demo_usb 9600)
           (<[3%Z := idle_in]> ∅) demo_out [104; 105; 33]%Z 20).
  - by split_and!.
  - by split; [|simpl; lia|].
  - by split.
  - by apply (bool_decide_unpack _).
  - simpl. lia.
Defined.

Lemma closed_port_witness :
  ∃ s', u_glob s' = u_glob (demo_ust 0) ∧ uview (u_hw s') = uview (u_hw (demo_ust 0)) ∧
    CDC_Device_putchar 1000 65 (demo_ust 0) = Ok (_FDEV_ERR, s') ∧
    CDC_Device_getchar 1000 (demo_ust 0) = Ok (_FDEV_EOF, s') ∧
    CDC_Device_SendData 1000 [65%Z] 1 (demo_ust 0) = Ok (ENDPOINT_RWSTREAM_DeviceDisconnected, s') ∧
    CDC_Device_USBTask 1000 (demo_ust 0) = Ok (tt, s').
Proof.
  apply (closed_port (D := usbv) 1000 (demo_ust 0) 65 [65%Z] 1); [done|].
  by intros [_ Hb].
Defined.
