(* ===== verification/UsbStdio.v ===== *)
(** * From [printf] to the host

    The controller image prints through [Mcu], which records the calls of
    [printf]; the serial port sends characters.  [usb_prints] carries out
    recorded calls on the serial port: what [printf] formats goes out
    character by character.  The theorem joins the two sides: a file the
    controller prints is what the host receives. *)

From S2P Require Import Prelude Avr Board Stdio I2cMaster I2cWire Fram Store Leds Buttons Controller ControllerFiles.
From S2P Require Import UsbRegs UsbEndpoint UsbController UsbStream UsbDescriptors UsbRequests UsbCdc UsbHw UsbSerial.
From stdpp Require Import strings gmap.
Import Buttons Controller.

Section Host.
Context `{UsbHw U} `{!GenEvents U} (ufuel size : nat).
Hypothesis (Hufuel : ulat < ufuel) (Hlat : ulat ≤ 100) (Hsize : 0 < size).

Abbreviation Ust := (ust U).

(** A call prints its text on the serial port; what C leaves undefined is a
    fault. *)
Fixpoint usb_prints (l : list (list Z * list Z)) : IO Ust Z :=
  match l with
  | [] => mret 0%Z
  | (fmt, args) :: l' =>
      t ← pure (match sprintf no_pointer fmt (AInt <$> args) with
                | Some t => Ok t
                | None => Err OutOfBounds
                end);
      send_all ufuel t;; usb_prints l'
  end.

Lemma usb_prints_run l : ∀ (u : Ust) g m e data text,
  port (tx g) u g m e → in_ep size e data → opened g → calls_text l = Some text → Forall is_u8 text →
  ∃ u' e', usb_prints l u = Ok (0%Z, u') ∧ port (tx g) u' g m e' ∧ in_ep size e' (data ++ text) ∧
    (text = [] ∧ e' = e ∨ ep_wait e' = 0 ∧ ep_bank e' ≠ []).
Proof.
  induction l as [|[fmt args] l IH]; intros u g m e data text Hp He Ho Ht Hu.
  { injection Ht as <-. exists u, e. rewrite app_nil_r. by split_and!; [..|left]. }
  change (calls_text ((fmt, args) :: l)) with
    (t ← sprintf no_pointer fmt (AInt <$> args); app t <$> calls_text l) in Ht.
  cbn [usb_prints]. destruct (sprintf no_pointer fmt (AInt <$> args)) as [t1|]; [|done].
  cbn [mbind option_bind] in Ht. destruct (calls_text l) as [t2|] eqn:E2; [|done]. injection Ht as <-.
  apply Forall_app in Hu as [Hu1 Hu2]. rewrite io_bind_pure.
  destruct t1 as [|x t1].
  { rewrite (io_bind_Ok (send_all ufuel []) _ _ _ _ eq_refl). by apply (IH u g m e data). }
  destruct (send_all_run ufuel size Hufuel Hlat Hsize (x :: t1) u g m e data Hp He Ho Hu1)
    as (u1 & e1 & E1 & Hp1 & He1 & Hr1).
  rewrite (io_bind_Ok _ _ _ _ _ E1).
  destruct (IH u1 g m e1 (data ++ x :: t1) t2 Hp1 He1 Ho eq_refl Hu2) as (u2 & e2 & E3 & Hp2 & He2 & Hr2).
  exists u2, e2. rewrite app_assoc. split_and!; [done|done|done|]. right.
  destruct Hr2 as [[_ ->]|Hr2]; [by apply Hr1|done].
Qed.

(** Calls that print something, and a flush: the host has it all. *)
Lemma usb_prints_flush l (u : Ust) g m e data text :
  port (tx g) u g m e → in_ep size e data → opened g → calls_text l = Some text → Forall is_u8 text →
  text ≠ [] →
  ∃ u' e', (usb_prints l;; CDC_Device_Flush ufuel) u = Ok (0%Z, u') ∧ port (tx g) u' g m e' ∧
    mjoin (ep_sent e') = data ++ text.
Proof.
  intros Hp He Ho Ht Hu Hne.
  destruct (usb_prints_run l u g m e data text Hp He Ho Ht Hu) as (u1 & e1 & E1 & Hp1 & He1 & Hr).
  rewrite (io_bind_Ok _ _ _ _ _ E1). destruct Hr as [[? _]|[Hw Hb]]; [done|].
  destruct (Flush_run ufuel size Hufuel Hlat Hsize u1 g m e1 _ Hp1 He1 Ho Hw Hb)
    as (u2 & e2 & E2 & Hp2 & He2 & Hb2 & _).
  exists u2, e2. split_and!; [done|done|]. rewrite <- (in_data _ _ _ He2), Hb2. by rewrite app_nil_r.
Qed.

(** ** A file on its way to the host *)

Context `{Board D B} `{!Storage B W}.
Context (fuel : nat) (Hfuel : latency * 257 + 256 < fuel) (rounds : nat).

(** C17: printing a file of the controller gives the host the file: the calls
    of [printf] that [output_datastream] makes, carried out on the open serial
    port and flushed, deliver the heading, the size in decimal and the bytes of
    the file as they are on the FRAM, provided none of them is a NUL or a
    percent sign (the bytes are used as a format). *)
Theorem printed_file_reaches_host (s : fw callback ctl D) g m r i sel (f := file_of sel (_fs g))
    (u : Ust) ug um e data :
  image s g m r i → (0 ≤ f_start f ≤ f_end f)%Z → (f_end f ≤ 32768)%Z → (f_end f - f_start f ≤ 32767)%Z →
  Z.to_nat (f_end f - f_start f) < rounds → Forall plain_char (contents m f) →
  port (tx ug) u ug um e → in_ep size e data → opened ug →
  ∃ s' i' calls u' e',
    output_datastream fuel rounds sel s = Ok ((f_end f - f_start f)%Z, s') ∧ image s' g m r i' ∧
    io_out i' = io_out i ++ calls ∧
    (usb_prints calls;; CDC_Device_Flush ufuel) u = Ok (0%Z, u') ∧ port (tx ug) u' ug um e' ∧
    mjoin (ep_sent e') = data ++ crlf ++ str "output_data" ++ crlf ++
      str "file size: " ++ digits 10 (f_end f - f_start f) ++ crlf ++ contents m f.
Proof.
  intros Him Hf He Hn Hk Hc Hp Hin Ho.
  destruct (output_datastream_spec fuel Hfuel rounds s g m r i sel Him Hf He Hk)
    as (s' & ps & i' & E & _ & Hj & Hout & _ & _ & _ & Him').
  { eapply Forall_impl; [exact Hc|]. by intros c []. }
  fold f in E, Hj, Hout. set (calls := [_; _] ++ printed ps) in Hout.
  set (text := crlf ++ _ ++ _ ++ _ ++ _ ++ _ ++ contents m f).
  assert (calls_text calls = Some text) as Ht.
  { rewrite <- Hj in Hc. pose proof (printed_text [crlf ++ str "output_data" ++ crlf]
      ltac:(by apply (bool_decide_unpack _))) as T1. unfold printed in T1.
    unfold calls. change ([?a; ?b] ++ ?l) with ([a] ++ [b] ++ l).
    rewrite !calls_text_app, file_size_text, printed_text, Hj by (done || lia).
    cbn [fmap list_fmap] in T1. rewrite T1. unfold text. cbn [mbind option_bind fmap option_fmap option_map].
    cbn [mjoin list_join]. by rewrite app_nil_r, <- !app_assoc. }
  destruct (image_mem _ _ _ _ _ Him) as [_ Hmu].
  destruct (usb_prints_flush calls u ug um e data text Hp Hin Ho Ht) as (u' & e' & Eu & Hp' & Hs').
  { unfold text. rewrite !Forall_app.
    split_and!; [..|apply digits_u8; lia| |by apply Forall_take, Forall_drop]; by apply (bool_decide_unpack _). }
  { done. }
  by exists s', i', calls, u', e'.
Qed.
End Host.

(** ** The theorem at work: the text "*A" on the FRAM *)

#[local] Instance quiet_events : GenEvents usbv := {|
  EVENT_USB_Device_Connect := mret tt; EVENT_USB_Device_Disconnect := mret tt;
  EVENT_USB_Device_Suspend := mret tt; EVENT_USB_Device_WakeUp := mret tt;
  EVENT_USB_Device_Reset := mret tt; EVENT_USB_Device_StartOfFrame := mret tt |}.

Definition text_mem : list Z := write_at (formatted blank) 8 [42; 65]%Z.
Definition text_ctl : ctl := with_end Input 10 demo_ctl.
Definition text_state : fw callback ctl (hw (fram * unit)) :=
  mk_fw demo_buttons text_ctl (demo_hw text_mem (mk_io ∅ [] [] [] [])).

Lemma text_image : image (B := fram * unit) text_state text_ctl text_mem tt (mk_io ∅ [] [] [] []).
Proof.
  split; [done|]. exists (mk_wire Released (mk_fram text_mem 0 FIdle, tt) (mk_io ∅ [] [] [] [])).
  split; [done|]. split; [|done]. destruct formatted_blank as [Hl Hu].
  split; cbn [w_bus fst f_mem]; unfold text_mem.
  - by rewrite length_write_at.
  - apply Forall_write_at; [done|]. repeat constructor; unfold is_u8; lia.
Defined.

Lemma text_contents : contents text_mem (file_of Input (_fs text_ctl)) = [42; 65]%Z.
Proof.
  unfold contents, text_mem. cbn [file_of _fs text_ctl with_end demo_ctl input f_start f_end].
  change (Z.to_nat (10 - 8)) with 2. change (Z.to_nat 8) with 8.
  rewrite drop_write_at; [done|]. rewrite (proj1 formatted_blank). pose proof FRAM_SIZE_Z. cbn [length]. lia.
Defined.

Lemma sim_patience : ulat (D := usbv) < 1000.
Proof. simpl. lia. Defined.

Lemma sim_prompt : ulat (D := usbv) ≤ 100.
Proof. simpl. lia. Defined.

Lemma printed_file_reaches_host_witness :
  ∃ s' i' calls u' e',
    output_datastream 1000 10 Input text_state = Ok (2%Z, s') ∧
    image (B := fram * unit) s' text_ctl text_mem tt i' ∧ io_out i' = [] ++ calls ∧
    (usb_prints 1000 calls;; CDC_Device_Flush 1000) (demo_ust 9600) = Ok (0%Z, u') ∧
    port (tx (demo_usb 9600)) u' (demo_usb 9600) (<[4%Z := demo_out]> ∅) e' ∧
    mjoin (ep_sent e') = [] ++ crlf ++ str "output_data" ++ crlf ++ str "file size: " ++ [50%Z] ++ crlf ++
      contents text_mem (file_of Input (_fs text_ctl)).
Proof.
  apply (printed_file_reaches_host (U := usbv) 1000 16 sim_patience sim_prompt (Nat.lt_0_succ 15)
           (D := hw (fram * unit)) (B := fram * unit) 1000 demo_fuel 10
           text_state text_ctl text_mem tt (mk_io ∅ [] [] [] []) Input (demo_ust 9600) (demo_usb 9600)
           (<[4%Z := demo_out]> ∅) idle_in [] text_image).
  - simpl. lia.
  - simpl. lia.
  - simpl. lia.
  - simpl. lia.
  - rewrite text_contents. by apply (bool_decide_unpack _).
  - by split_and!.
  - by split; [..|intros Hn; inversion Hn]; try (simpl; lia).
  - by split.
Defined.
