(* ===== verification/UsbControl.v ===== *)
(** * The control endpoint and the host's control transfers

    [ctrl] is the documented behaviour of the control endpoint during one
    transfer of the host: the request in the bank, then a data stage in one of
    the two directions or none, then the status stage.  [CtrlHw] says that a
    hardware state behaves like that while the control endpoint is selected,
    and that nothing arrives between the look at the flags and the write of a
    read-modify-write.
    The theorems say what the host gets for its requests. *)

From S2P Require Import Prelude Avr UsbRegs UsbEndpoint UsbController UsbStream UsbDescriptors.
From S2P Require Import UsbRequests UsbCdc UsbHw UsbSerial.
Import Descriptors.

(** What the host does after its request: nothing but the status stage, fetch
    up to [want] bytes, or send a packet. *)
Inductive plan := NoData | Fetch (want : nat) | Deliver (data : list Z).

Inductive stage := Setup (p : plan) | DataIn (want : nat) | DataOut | StatusIn | StatusOut | Idle.

#[export] Instance plan_eq_dec : EqDecision plan.
Proof. solve_decision. Defined.
#[export] Instance stage_eq_dec : EqDecision stage.
Proof. solve_decision. Defined.

(** [c_wait]: looks at UEINTX until the host's next move is visible;
    [c_got]: the packets the host has fetched. *)
Record ctrl := mk_ctrl {
  c_sel : Z; c_stage : stage; c_wait : nat; c_bank : list Z; c_got : list (list Z);
  c_stall : bool; c_addr : Z; c_irqs : list nat }.

Definition c_move (st : stage) (w : nat) (bank : list Z) (got : list (list Z)) (c : ctrl) : ctrl :=
  mk_ctrl (c_sel c) st w bank got (c_stall c) (c_addr c) (c_irqs c).
Definition c_tick (w : nat) (c : ctrl) : ctrl := c_move (c_stage c) w (c_bank c) (c_got c) c.
Definition c_load (l : list Z) (c : ctrl) : ctrl := c_move (c_stage c) (c_wait c) l (c_got c) c.
Definition c_halt (c : ctrl) : ctrl :=
  mk_ctrl (c_sel c) (c_stage c) (c_wait c) (c_bank c) (c_got c) true (c_addr c) (c_irqs c).
Definition c_address (a : Z) (c : ctrl) : ctrl :=
  mk_ctrl (c_sel c) (c_stage c) (c_wait c) (c_bank c) (c_got c) (c_stall c) a (c_irqs c).

Definition is_setup (st : stage) : bool := match st with Setup _ => true | _ => false end.
Definition takes_in (st : stage) : bool :=
  match st with DataIn _ | StatusIn | Idle => true | _ => false end.
Definition gives_out (st : stage) : bool :=
  match st with DataOut | StatusOut => true | _ => false end.

Definition c_size : nat := 8.

(** The request is acknowledged; the next stage is visible after [w] looks. *)
Definition c_accept (w : nat) (c : ctrl) : ctrl :=
  match c_stage c with
  | Setup NoData => c_move StatusIn w [] (c_got c) c
  | Setup (Fetch n) => c_move (DataIn n) w [] (c_got c) c
  | Setup (Deliver l) => c_move DataOut w l (c_got c) c
  | _ => c
  end.

(** The host fetches the bank: a short packet, or the last byte it wants, ends
    the data stage. *)
Definition c_fetch (w : nat) (c : ctrl) : ctrl :=
  match c_stage c with
  | DataIn want =>
      c_move (if decide (length (c_bank c) < c_size ∨ want ≤ length (c_bank c)) then StatusOut
              else DataIn (want - length (c_bank c))) w [] (c_got c ++ [c_bank c]) c
  | StatusIn | Idle => c_move Idle w [] (c_got c) c
  | _ => c
  end.

Definition c_release (w : nat) (c : ctrl) : ctrl :=
  match c_stage c with
  | DataOut => c_move StatusIn w [] (c_got c) c
  | StatusOut => c_move Idle w [] (c_got c) c
  | _ => c
  end.

Class CtrlHw (D : Type) `{Ucu D} := {
  cview : D → ctrl;
  clat : nat;
  c_ueintx_read d v d' :
    c_sel (cview d) = 0%Z → ucu_read UEINTX d = (v, d') →
    Z.testbit v RXSTPI = is_setup (c_stage (cview d)) ∧
    Z.testbit v RXOUTI = (gives_out (c_stage (cview d)) && (c_wait (cview d) =? 0)) ∧
    (c_stage (cview d) ≠ StatusOut → is_setup (c_stage (cview d)) = false →
     Z.testbit v TXINI = (takes_in (c_stage (cview d)) && (c_wait (cview d) =? 0))) ∧
    ∃ w, w ≤ pred (c_wait (cview d)) ∧ cview d' = c_tick w (cview d);
  c_accept_write d x :
    c_sel (cview d) = 0%Z → is_setup (c_stage (cview d)) = true → Z.testbit x RXSTPI = false →
    ∃ w, w ≤ clat ∧ cview (ucu_write UEINTX x d) = c_accept w (cview d);
  c_fetch_write d x :
    c_sel (cview d) = 0%Z → takes_in (c_stage (cview d)) = true → c_wait (cview d) = 0 →
    Z.testbit x TXINI = false → Z.testbit x FIFOCON = false →
    ∃ w, w ≤ clat ∧ cview (ucu_write UEINTX x d) = c_fetch w (cview d);
  (* a packet of the host that a look has shown is released *)
  c_release_write d v d' x :
    c_sel (cview d) = 0%Z → gives_out (c_stage (cview d)) = true → c_wait (cview d) = 0 →
    ucu_read UEINTX d = (v, d') → Z.testbit x RXOUTI = false → Z.testbit x FIFOCON = false →
    ∃ w, w ≤ clat ∧ cview (ucu_write UEINTX x d') = c_release w (cview d);
  (* a packet for a host that is in the status stage is not fetched; setting
     RXOUTI has no effect, and nothing arrives between the look and the write *)
  c_spare_write d v d' x :
    c_sel (cview d) = 0%Z → c_stage (cview d) = StatusOut → ucu_read UEINTX d = (v, d') →
    Z.testbit x RXOUTI = Z.testbit v RXOUTI → Z.testbit x TXINI = false → Z.testbit x FIFOCON = false →
    cview (ucu_write UEINTX x d') = cview d';
  c_uedatx_read d v d' x l :
    c_sel (cview d) = 0%Z → c_bank (cview d) = x :: l →
    is_setup (c_stage (cview d)) = true ∨ c_stage (cview d) = DataOut ∧ c_wait (cview d) = 0 →
    ucu_read UEDATX d = (v, d') → v = x ∧ cview d' = c_load l (cview d);
  c_uedatx_write d x want :
    c_sel (cview d) = 0%Z → c_stage (cview d) = DataIn want → c_wait (cview d) = 0 →
    length (c_bank (cview d)) < c_size →
    cview (ucu_write UEDATX x d) = c_load (c_bank (cview d) ++ [x]) (cview d);
  c_uebclx_read d v d' :
    ucu_read UEBCLX d = (v, d') → cview d' = cview d ∧
    (∀ want, c_stage (cview d) = DataIn want → c_wait (cview d) = 0 → v = Z.of_nat (length (c_bank (cview d))));
  c_uebchx_read d v d' :
    ucu_read UEBCHX d = (v, d') → cview d' = cview d ∧
    (∀ want, c_stage (cview d) = DataIn want → c_wait (cview d) = 0 → v = 0%Z);
  c_ueconx_read d v d' : ucu_read UECONX d = (v, d') → cview d' = cview d;
  c_stall_write d x :
    c_sel (cview d) = 0%Z → Z.testbit x STALLRQ = true → cview (ucu_write UECONX x d) = c_halt (cview d);
  c_udaddr_read d v d' :
    ucu_read UDADDR d = (v, d') → v = c_addr (cview d) ∧ cview d' = cview d;
  c_udaddr_write d x : is_u8 x → cview (ucu_write UDADDR x d) = c_address x (cview d);
  c_irqs_next d n d' :
    ucu_irqs d = (n, d') → c_irqs (cview d) = [] → n = 0 ∧ cview d' = cview d }.

(** ** An executable control endpoint: the host needs two looks *)

(** [cs_seen]: the last look at UEINTX has shown a packet of the host. *)
Record csim := mk_csim { cs_ctrl : ctrl; cs_seen : bool }.

(** In the status stage of a transfer to the host the bank is free. *)
Definition csim_flags (c : ctrl) : Z :=
  Z.lor (Z.lor (flag RXSTPI (is_setup (c_stage c)))
               (flag RXOUTI (gives_out (c_stage c) && (c_wait c =? 0))))
        (flag TXINI (bool_decide (c_stage c = StatusOut) || (takes_in (c_stage c) && (c_wait c =? 0)))).

Definition csim_read (r : ureg) (s : csim) : Z * csim :=
  let c := cs_ctrl s in
  match r with
  | UEINTX =>
      (csim_flags c, mk_csim (c_tick (pred (c_wait c)) c) (gives_out (c_stage c) && (c_wait c =? 0)))
  | UEDATX => match c_bank c with x :: l => (x, mk_csim (c_load l c) (cs_seen s)) | [] => (0%Z, s) end
  | UEBCLX => (Z.of_nat (length (c_bank c)), s)
  | UDADDR => (c_addr c, s)
  | _ => (0%Z, s)
  end.

Definition csim_ctrl (r : ureg) (x : Z) (c : ctrl) (seen : bool) : ctrl :=
  match r with
  | UEINTX =>
      if is_setup (c_stage c) then if Z.testbit x RXSTPI then c else c_accept 2 c
      else if takes_in (c_stage c) then
        if negb (Z.testbit x TXINI) && negb (Z.testbit x FIFOCON) && (c_wait c =? 0) then c_fetch 2 c else c
      else if negb (Z.testbit x RXOUTI) && negb (Z.testbit x FIFOCON) && seen
      then c_release 2 c else c
  | UEDATX => c_load (c_bank c ++ [x]) c
  | UECONX => if Z.testbit x STALLRQ then c_halt c else c
  | UDADDR => c_address x c
  | _ => c
  end.

Definition csim_write (r : ureg) (x : Z) (s : csim) : csim :=
  mk_csim (csim_ctrl r x (cs_ctrl s) (cs_seen s)) false.

#[export] Instance csim_ucu : Ucu csim := {|
  ucu_read := csim_read; ucu_write := csim_write; ucu_irqs c := (0, c); ucu_signature _ := 0%Z |}.

#[export] Program Instance csim_hw : CtrlHw csim := {| cview := cs_ctrl; clat := 2 |}.
Next Obligation.
  intros [c seen] v c' Hsel [= <- <-]. cbn [cs_ctrl] in *. unfold csim_flags.
  assert (∀ a b d : bool,
    Z.testbit (Z.lor (Z.lor (flag RXSTPI a) (flag RXOUTI b)) (flag TXINI d)) RXSTPI = a ∧
    Z.testbit (Z.lor (Z.lor (flag RXSTPI a) (flag RXOUTI b)) (flag TXINI d)) RXOUTI = b ∧
    Z.testbit (Z.lor (Z.lor (flag RXSTPI a) (flag RXOUTI b)) (flag TXINI d)) TXINI = d) as Hf
    by by intros [] [] [].
  destruct (Hf (is_setup (c_stage c)) (gives_out (c_stage c) && (c_wait c =? 0))
    (bool_decide (c_stage c = StatusOut) || (takes_in (c_stage c) && (c_wait c =? 0)))) as (E1 & E2 & E3).
  split_and!; [done|done|intros Hn _; by rewrite E3, bool_decide_false|by eexists].
Qed.
Next Obligation.
  intros [c seen] x Hsel Hs Hx. exists 2. split; [lia|]. cbn in *. by rewrite Hs, Hx.
Qed.
Next Obligation.
  intros [c seen] x Hsel Hs Hw Ht Hf. exists 2. split; [lia|]. cbn in *.
  rewrite Hs, Ht, Hf, Hw. by destruct (c_stage c).
Qed.
Next Obligation.
  intros [c seen] v c' x Hsel Hs Hw [= <- <-] Ht Hf. exists 2. split; [lia|]. cbn in *.
  rewrite Ht, Hf, Hw, Hs. cbn. unfold c_release. cbn [c_tick c_move c_stage c_got]. by destruct (c_stage c).
Qed.
Next Obligation.
  intros [c seen] v c' x Hsel Hs [= <- <-]. cbn in *. unfold csim_flags. rewrite Hs. cbn.
  destruct (c_wait c =? 0); cbn; [intros ->; done|intros -> _ _; by rewrite andb_false_r].
Qed.
Next Obligation.
  intros [c seen] v c' x l Hsel Hb _. cbn in *. rewrite Hb. by intros [= <- <-].
Qed.
Next Obligation. done. Qed.
Next Obligation. by intros [c seen] v c' [= <- <-]. Qed.
Next Obligation. by intros [c seen] v c' [= <- <-]. Qed.
Next Obligation. by intros [c seen] v c' [= <- <-]. Qed.
Next Obligation. intros [c seen] x Hsel Hx. cbn in *. by rewrite Hx. Qed.
Next Obligation. by intros [c seen] v c' [= <- <-]. Qed.
Next Obligation. done. Qed.
Next Obligation. by intros [c seen] n c' [= <- <-]. Qed.

(** ** Single accesses *)

#[local] Arguments Z.testbit : simpl never.

Section Ctrl.
Context `{CtrlHw D}.

Abbreviation St := (ust D).

(** The control endpoint is selected and in state [c]; no interrupt is due. *)
Definition at_c (s : St) (g : usbg) (c : ctrl) : Prop :=
  u_glob s = g ∧ cview (u_hw s) = c ∧ c_sel c = 0%Z ∧ c_irqs c = [].

Lemma c_look (s : St) g c : at_c s g c →
  ∃ x s' w, rd UEINTX s = Ok (x, s') ∧ Z.testbit x RXSTPI = is_setup (c_stage c) ∧
    Z.testbit x RXOUTI = (gives_out (c_stage c) && (c_wait c =? 0)) ∧
    (c_stage c ≠ StatusOut → is_setup (c_stage c) = false →
     Z.testbit x TXINI = (takes_in (c_stage c) && (c_wait c =? 0))) ∧
    w ≤ pred (c_wait c) ∧ at_c s' g (c_tick w c).
Proof.
  intros (Hg & Hv & Hsel & Hi). destruct (ucu_read UEINTX (u_hw s)) as [x d] eqn:E. subst c.
  destruct (c_ueintx_read _ _ _ Hsel E) as (H1 & H2 & H3 & w & Hw & Hd).
  exists x, (mk_ust (u_glob s) d), w. split; [by apply rd_step|]. by split_and!.
Qed.

Lemma c_test k (b : bool) (s : St) g c : (0 ≤ k)%Z → at_c s g c →
  (∀ x s', rd UEINTX s = Ok (x, s') → Z.testbit x k = b) →
  ∃ s' w, test_bits UEINTX (bit k) s = Ok (b, s') ∧ w ≤ pred (c_wait c) ∧ at_c s' g (c_tick w c).
Proof.
  intros Hk Hs Hb. destruct (c_look _ _ _ Hs) as (x & s' & w & E & _ & _ & _ & Hw & Hs').
  exists s', w. unfold test_bits. rewrite (io_bind_Ok _ _ _ _ _ E), land_bit_test by done.
  by rewrite (Hb x s' E).
Qed.

Ltac look Hs :=
  let x := fresh "x" in let s' := fresh "s" in let E := fresh "E" in let E' := fresh "E" in
  let H1 := fresh in let H2 := fresh in let H3 := fresh in
  apply c_test; [done|exact Hs|];
  intros x s' E; destruct (c_look _ _ _ Hs) as (? & ? & ? & E' & H1 & H2 & H3 & _);
  rewrite E in E'; injection E' as <- <-.

Lemma c_IsSETUP (s : St) g c : at_c s g c →
  ∃ s' w, Endpoint_IsSETUPReceived s = Ok (is_setup (c_stage c), s') ∧ w ≤ pred (c_wait c) ∧
    at_c s' g (c_tick w c).
Proof. intros Hs. by look Hs. Qed.

Lemma c_IsOUT (s : St) g c : at_c s g c →
  ∃ s' w, Endpoint_IsOUTReceived s = Ok (gives_out (c_stage c) && (c_wait c =? 0), s') ∧
    w ≤ pred (c_wait c) ∧ at_c s' g (c_tick w c).
Proof. intros Hs. by look Hs. Qed.

Lemma c_IsIN (s : St) g c : at_c s g c → c_stage c ≠ StatusOut → is_setup (c_stage c) = false →
  ∃ s' w, Endpoint_IsINReady s = Ok (takes_in (c_stage c) && (c_wait c =? 0), s') ∧
    w ≤ pred (c_wait c) ∧ at_c s' g (c_tick w c).
Proof. intros Hs Hn Hn'. look Hs. auto. Qed.

Lemma cleared1 k x : (0 ≤ k < 8)%Z → Z.testbit (u8 (Z.ldiff x (bit k))) k = false.
Proof.
  intros Hk. unfold u8. change 256%Z with (2 ^ 8)%Z. rewrite Z.mod_pow2_bits_low by lia.
  rewrite Z.ldiff_spec. unfold bit. rewrite Z.shiftl_1_l, Z.pow2_bits_true by lia. apply andb_false_r.
Qed.

(** RXOUTI is written back as it was read. *)
Lemma kept_bit x : Z.testbit (u8 (Z.ldiff x (Z.lor (bit TXINI) (bit FIFOCON)))) RXOUTI = Z.testbit x RXOUTI.
Proof.
  unfold u8. change 256%Z with (2 ^ 8)%Z. rewrite Z.mod_pow2_bits_low by (unfold RXOUTI; lia).
  rewrite Z.ldiff_spec. apply andb_true_r.
Qed.

Lemma c_ClearSETUP (s : St) g c : at_c s g c → is_setup (c_stage c) = true →
  ∃ s' w, w ≤ clat ∧ Endpoint_ClearSETUP s = Ok (tt, s') ∧ at_c s' g (c_accept w c).
Proof.
  intros Hs Hst. destruct (c_look _ _ _ Hs) as (x & s1 & w0 & E & _ & _ & _ & _ & (Hg & Hv & Hsel & Hi)).
  destruct (c_accept_write (u_hw s1) (u8 (Z.ldiff x (bit RXSTPI)))) as (w & Hw & Hd);
    [by rewrite Hv|by rewrite Hv|by apply cleared1|].
  exists (mk_ust (u_glob s1) (ucu_write UEINTX (u8 (Z.ldiff x (bit RXSTPI))) (u_hw s1))), w.
  split; [done|]. unfold Endpoint_ClearSETUP, clear_bits. rewrite (io_bind_Ok _ _ _ _ _ E).
  split; [done|]. unfold c_accept in *. rewrite Hv in Hd. cbn [c_tick c_move c_stage c_got] in Hd.
  destruct Hs as (_ & _ & Hsel' & Hi'). destruct (c_stage c) as [[| |]| | | | |]; by split_and!.
Qed.

Lemma c_ClearIN (s : St) g c : at_c s g c → takes_in (c_stage c) = true → c_wait c = 0 →
  ∃ s' w, w ≤ clat ∧ Endpoint_ClearIN s = Ok (tt, s') ∧ at_c s' g (c_fetch w c).
Proof.
  intros Hs Hst Hw0. destruct (c_look _ _ _ Hs) as (x & s1 & w0 & E & _ & _ & _ & Hw & (Hg & Hv & Hsel & Hi)).
  destruct (cleared TXINI x) as [Ht Hf]; [unfold TXINI; lia|]. set (y := u8 _) in Ht, Hf.
  destruct (c_fetch_write (u_hw s1) y) as (w & Hw' & Hd);
    [by rewrite Hv|by rewrite Hv|rewrite Hv; cbn [c_tick c_move c_wait]; lia|done|done|].
  exists (mk_ust (u_glob s1) (ucu_write UEINTX y (u_hw s1))), w.
  split; [done|]. unfold Endpoint_ClearIN, clear_bits. rewrite (io_bind_Ok _ _ _ _ _ E).
  split; [done|]. unfold c_fetch in *. rewrite Hv in Hd. cbn [c_tick c_move c_stage c_got c_bank] in Hd.
  destruct Hs as (_ & _ & Hsel' & Hi'). destruct (c_stage c) as [[| |]| | | | |]; by split_and!.
Qed.

Lemma c_ClearOUT (s : St) g c : at_c s g c → gives_out (c_stage c) = true → c_wait c = 0 →
  ∃ s' w, w ≤ clat ∧ Endpoint_ClearOUT s = Ok (tt, s') ∧ at_c s' g (c_release w c).
Proof.
  intros (Hg & Hv & Hsel & Hi) Hst Hw0. subst c.
  destruct (ucu_read UEINTX (u_hw s)) as [x d] eqn:E.
  destruct (cleared RXOUTI x) as [Ht Hf]; [unfold RXOUTI; lia|]. set (y := u8 _) in Ht, Hf.
  destruct (c_release_write (u_hw s) x d y) as (w & Hw & Hd); [done..|].
  exists (mk_ust (u_glob s) (ucu_write UEINTX y d)), w. split; [done|].
  unfold Endpoint_ClearOUT, clear_bits. rewrite (io_bind_Ok _ _ _ _ _ (rd_step _ _ _ _ E)).
  split; [done|]. split; [done|]. split; [done|].
  unfold c_release. by destruct (c_stage (cview (u_hw s))).
Qed.

(** In the status stage the bank may show as free; what is sent then is not
    fetched. *)
Lemma c_ClearIN_spare (s : St) g c : at_c s g c → c_stage c = StatusOut →
  ∃ s' w, Endpoint_ClearIN s = Ok (tt, s') ∧ w ≤ pred (c_wait c) ∧ at_c s' g (c_tick w c).
Proof.
  intros (Hg & Hv & Hsel & Hi) Hst. subst c.
  destruct (ucu_read UEINTX (u_hw s)) as [x d] eqn:E.
  destruct (c_ueintx_read _ _ _ Hsel E) as (_ & _ & _ & w & Hw & Hd).
  destruct (cleared TXINI x) as [Ht Hf]; [unfold TXINI; lia|]. set (y := u8 _) in Ht, Hf.
  exists (mk_ust (u_glob s) (ucu_write UEINTX y d)), w.
  unfold Endpoint_ClearIN, clear_bits. rewrite (io_bind_Ok _ _ _ _ _ (rd_step _ _ _ _ E)).
  split; [done|]. split; [done|]. split; [done|]. cbn [u_hw].
  rewrite (c_spare_write (u_hw s) x d y) by (done || apply kept_bit). by rewrite Hd.
Qed.

Lemma c_IsIN_some (s : St) g c : at_c s g c →
  ∃ b s' w, Endpoint_IsINReady s = Ok (b, s') ∧ w ≤ pred (c_wait c) ∧ at_c s' g (c_tick w c).
Proof.
  intros Hs. destruct (c_look _ _ _ Hs) as (x & s' & w & E & _ & _ & _ & Hw & Hs').
  eexists _, s', w. split; [|done]. unfold Endpoint_IsINReady, test_bits. by rewrite (io_bind_Ok _ _ _ _ _ E).
Qed.

(** The byte count reads as something. *)
Lemma c_bytes_some (s : St) g c : at_c s g c →
  ∃ b s', Endpoint_BytesInEndpoint s = Ok (b, s') ∧ at_c s' g c.
Proof.
  intros (Hg & Hv & Hsel & Hi). unfold Endpoint_BytesInEndpoint.
  destruct (ucu_read UEBCHX (u_hw s)) as [h d] eqn:E1. destruct (c_uebchx_read _ _ _ E1) as [Hd _].
  rewrite (io_bind_Ok _ _ _ _ _ (rd_step _ _ _ _ E1)).
  destruct (ucu_read UEBCLX d) as [l d2] eqn:E2. destruct (c_uebclx_read _ _ _ E2) as [Hd2 _].
  rewrite (io_bind_Ok _ _ _ _ _ (rd_step _ (mk_ust (u_glob s) d) _ _ E2)).
  eexists _, _. split; [done|]. split_and!; [done|cbn [u_hw]; congruence|done|done].
Qed.

Lemma c_Read_8 (s : St) g c x l : at_c s g c → c_bank c = x :: l →
  is_setup (c_stage c) = true ∨ c_stage c = DataOut ∧ c_wait c = 0 →
  ∃ s', Endpoint_Read_8 s = Ok (x, s') ∧ at_c s' g (c_load l c).
Proof.
  intros (Hg & Hv & Hsel & Hi) Hb Hst. destruct (ucu_read UEDATX (u_hw s)) as [y d] eqn:E. subst c.
  destruct (c_uedatx_read _ _ _ _ _ Hsel Hb Hst E) as [-> Hd].
  exists (mk_ust (u_glob s) d). split; [by apply rd_step|]. by split_and!.
Qed.

Lemma c_wr_data (s : St) g c want x : at_c s g c → c_stage c = DataIn want → c_wait c = 0 →
  length (c_bank c) < c_size →
  ∃ s', wr UEDATX x s = Ok (tt, s') ∧ at_c s' g (c_load (c_bank c ++ [u8 x]) c).
Proof.
  intros (Hg & Hv & Hsel & Hi) Hst Hw Hl. subst c. eexists. split; [done|].
  split_and!; [done| |done|done]. cbn [u_hw]. by eapply c_uedatx_write.
Qed.

Lemma c_Write_8 (s : St) g c want x : at_c s g c → c_stage c = DataIn want → c_wait c = 0 →
  length (c_bank c) < c_size → is_u8 x →
  ∃ s', Endpoint_Write_8 x s = Ok (tt, s') ∧ at_c s' g (c_load (c_bank c ++ [x]) c).
Proof.
  intros Hs Hst Hw Hl Hx. destruct (c_wr_data s g c want x) as (s' & E & Hs'); [done..|].
  rewrite u8_small in Hs' by done. by exists s'.
Qed.

Lemma c_bytes (s : St) g c want : at_c s g c → c_stage c = DataIn want → c_wait c = 0 →
  ∃ s', Endpoint_BytesInEndpoint s = Ok (Z.of_nat (length (c_bank c)), s') ∧ at_c s' g c.
Proof.
  intros (Hg & Hv & Hsel & Hi) Hst Hw. subst c. unfold Endpoint_BytesInEndpoint.
  destruct (ucu_read UEBCHX (u_hw s)) as [h d] eqn:E1. destruct (c_uebchx_read _ _ _ E1) as [Hd Hh].
  rewrite (io_bind_Ok _ _ _ _ _ (rd_step _ _ _ _ E1)).
  destruct (ucu_read UEBCLX d) as [l d2] eqn:E2. destruct (c_uebclx_read _ _ _ E2) as [Hd2 Hl].
  rewrite (io_bind_Ok _ _ _ _ _ (rd_step _ (mk_ust (u_glob s) d) _ _ E2)).
  rewrite Hd in Hl. rewrite (Hh want Hst Hw), (Hl want Hst Hw). eexists. split; [done|].
  split_and!; [done|cbn [u_hw]; congruence|done|done].
Qed.

Lemma c_state `{!GenEvents D} fuel (s : St) g c : at_c s g c →
  ∃ s', read_DeviceState fuel s = Ok (USB_DeviceState g, s') ∧ at_c s' g c.
Proof.
  intros (Hg & Hv & Hsel & Hi). subst c. destruct (ucu_irqs (u_hw s)) as [n d] eqn:E.
  destruct (c_irqs_next _ _ _ E Hi) as [-> Hd].
  exists (mk_ust (u_glob s) d). split; [|by split_and!].
  unfold read_DeviceState. rewrite (io_bind_Ok pending _ s 0 (mk_ust (u_glob s) d)).
  - unfold get_usb, mbind, IO_bind, mret, IO_ret. cbn [run_gen u_glob]. by rewrite Hg.
  - unfold pending. by rewrite E.
Qed.

Lemma c_mod (s : St) g c f : at_c s g c → ∃ s', mod_usb f s = Ok (tt, s') ∧ at_c s' (f g) c.
Proof. intros (Hg & Hv). eexists. split; [done|]. split; [|done]. cbn [u_glob]. by rewrite Hg. Qed.

Lemma c_get (s : St) g c : at_c s g c → get_usb s = Ok (g, s).
Proof. intros (Hg & _). unfold get_usb. by rewrite Hg. Qed.

Lemma c_request (s : St) g c : at_c s g c → request s = Ok (USB_ControlRequest g, s).
Proof. intros Hs. unfold request. by rewrite (io_bind_Ok _ _ _ _ _ (c_get _ _ _ Hs)). Qed.

Ltac next E := rewrite (io_bind_Ok _ _ _ _ _ E); clear E.

Section Status.
Context `{!GenEvents D} (fuel : nat).

(** ** Status stages *)

(** The loops that wait for a stage; [ready] sees the host's move. *)
Lemma c_stage_reached (ready : IO St bool) g st : USB_DeviceState g ≠ DEVICE_STATE_Unattached →
  (∀ (s : St) c, at_c s g c → c_stage c = st → ∃ s' w, ready s = Ok (c_wait c =? 0, s') ∧
     w ≤ pred (c_wait c) ∧ at_c s' g (c_tick w c)) →
  ∀ k (s : St) c, at_c s g c → c_stage c = st → c_wait c < k →
  ∃ s', stage_loop fuel k ready s = Ok (true, s') ∧ at_c s' g (c_tick 0 c).
Proof.
  intros Hu Hr. induction k as [|k IH]; intros s c Hs Hst Hk; [lia|]. cbn [stage_loop].
  destruct (Hr s c Hs Hst) as (s1 & w1 & E1 & Hw1 & Hs1). next E1.
  destruct (Nat.eqb_spec (c_wait c) 0) as [Hz|Hz].
  - exists s1. replace w1 with 0 in Hs1 by lia. done.
  - destruct (c_state fuel _ _ _ Hs1) as (s2 & E2 & Hs2). next E2. rewrite bool_decide_false by done.
    destruct (IH s2 _ Hs2) as (s3 & E3 & Hs3); [done|cbn [c_tick c_move c_wait]; lia|]. by exists s3.
Qed.

Lemma c_in_seen st g : takes_in st = true → ∀ (s : St) c, at_c s g c → c_stage c = st →
  ∃ s' w, Endpoint_IsINReady s = Ok (c_wait c =? 0, s') ∧ w ≤ pred (c_wait c) ∧ at_c s' g (c_tick w c).
Proof.
  intros Ht s c Hs Hst. destruct (c_IsIN _ _ _ Hs) as (s' & w & E & Hw & Hs');
    [rewrite Hst; by destruct st|rewrite Hst; by destruct st|].
  rewrite Hst, Ht in E. by exists s', w.
Qed.

Lemma c_out_seen st g : gives_out st = true → ∀ (s : St) c, at_c s g c → c_stage c = st →
  ∃ s' w, Endpoint_IsOUTReceived s = Ok (c_wait c =? 0, s') ∧ w ≤ pred (c_wait c) ∧ at_c s' g (c_tick w c).
Proof.
  intros Ht s c Hs Hst. destruct (c_IsOUT _ _ _ Hs) as (s' & w & E & Hw & Hs').
  rewrite Hst, Ht in E. by exists s', w.
Qed.

Lemma c_wait_in k : ∀ (s : St) g c, at_c s g c → takes_in (c_stage c) = true → c_wait c < k →
  ∃ s', wait_in k s = Ok (tt, s') ∧ at_c s' g (c_tick 0 c).
Proof.
  induction k as [|k IH]; intros s g c Hs Hst Hk; [lia|]. cbn [wait_in].
  destruct (c_in_seen _ g Hst s c Hs eq_refl) as (s1 & w1 & E1 & Hw1 & Hs1). next E1.
  destruct (Nat.eqb_spec (c_wait c) 0) as [Hz|Hz].
  - exists s1. replace w1 with 0 in Hs1 by lia. done.
  - destruct (IH s1 g _ Hs1) as (s2 & E2 & Hs2); [done|cbn [c_tick c_move c_wait]; lia|]. by exists s2.
Qed.

(** The status stage of a transfer from the host. *)
Lemma c_status_in (s : St) g c : at_c s g c → USB_DeviceState g ≠ DEVICE_STATE_Unattached →
  Z.land (bmRequestType (USB_ControlRequest g)) REQDIR_DEVICETOHOST = 0%Z →
  c_stage c = StatusIn → c_wait c < fuel →
  ∃ s' w, Endpoint_ClearStatusStage fuel s = Ok (tt, s') ∧ w ≤ clat ∧ at_c s' g (c_move Idle w [] (c_got c) c).
Proof.
  intros Hs Hu Hd Hst Hw. unfold Endpoint_ClearStatusStage.
  rewrite (io_bind_Ok _ _ _ _ _ (c_get _ _ _ Hs)), Hd, bool_decide_false by (by intros ?).
  destruct (c_stage_reached _ g StatusIn Hu (c_in_seen StatusIn g eq_refl) fuel s c) as (s1 & E1 & Hs1); [done..|]. next E1.
  destruct (c_ClearIN _ _ _ Hs1) as (s2 & w & Hw2 & E2 & Hs2);
    [cbn [c_tick c_move c_stage]; by rewrite Hst|done|].
  exists s2, w. split_and!; [done|done|]. unfold c_fetch in Hs2. cbn [c_tick c_move c_stage] in Hs2.
  by rewrite Hst in Hs2.
Qed.

(** The status stage of a transfer to the host. *)
Lemma c_status_out_clear (s : St) g c : at_c s g c → USB_DeviceState g ≠ DEVICE_STATE_Unattached →
  Z.land (bmRequestType (USB_ControlRequest g)) REQDIR_DEVICETOHOST ≠ 0%Z →
  c_stage c = StatusOut → c_wait c < fuel →
  ∃ s' w, Endpoint_ClearStatusStage fuel s = Ok (tt, s') ∧ w ≤ clat ∧ at_c s' g (c_move Idle w [] (c_got c) c).
Proof.
  intros Hs Hu Hd Hst Hw. unfold Endpoint_ClearStatusStage.
  rewrite (io_bind_Ok _ _ _ _ _ (c_get _ _ _ Hs)), bool_decide_true by done.
  destruct (c_stage_reached _ g StatusOut Hu (c_out_seen StatusOut g eq_refl) fuel s c) as (s1 & E1 & Hs1); [done..|]. next E1.
  destruct (c_ClearOUT _ _ _ Hs1) as (s2 & w & Hw2 & E2 & Hs2);
    [cbn [c_tick c_move c_stage]; by rewrite Hst|done|].
  exists s2, w. split_and!; [done|done|]. unfold c_release in Hs2. cbn [c_tick c_move c_stage] in Hs2.
  by rewrite Hst in Hs2.
Qed.
End Status.
End Ctrl.
