(* ===== verification/UsbTransfers.v ===== *)
(** * What the host gets for its control requests

    The request handlers over the control endpoint of [UsbControl]: the
    descriptors reach the host complete and in order, the line coding the host
    sets is the one it reads back, an address is enabled after the status
    stage, and a request nobody serves is refused with a stall. *)

From S2P Require Import Prelude Avr UsbRegs UsbEndpoint UsbController UsbStream UsbDescriptors.
From S2P Require Import UsbRequests UsbCdc UsbHw UsbSerial UsbControl.
Import Descriptors.

#[local] Arguments Z.testbit : simpl never.

(** The eight bytes of a request in the bank. *)
Definition req_bytes (r : USB_Request_Header_t) : list Z :=
  [bmRequestType r; bRequest r] ++ word (wValue r) ++ word (wIndex r) ++ word (wLength r).

Definition req_ok (r : USB_Request_Header_t) : Prop :=
  is_u8 (bmRequestType r) ∧ is_u8 (bRequest r) ∧ is_u16 (wValue r) ∧ is_u16 (wIndex r) ∧ is_u16 (wLength r).

Lemma le_word x : is_u16 x → le_value (word x) = x.
Proof.
  unfold is_u16. intros Hx. unfold word. cbn [le_value]. change 0xFF%Z with (Z.ones 8).
  rewrite Z.land_ones, Z.shiftr_div_pow2 by lia. pose proof (Z.div_mod x (2 ^ 8)). lia.
Qed.

Lemma le_req_bytes r : req_ok r → ∃ b2 b3 b4 b5 b6 b7,
  req_bytes r = [bmRequestType r; bRequest r; b2; b3; b4; b5; b6; b7] ∧
  mk_request (bmRequestType r) (bRequest r) (le_value [b2; b3]) (le_value [b4; b5]) (le_value [b6; b7]) = r.
Proof.
  intros (_ & _ & Hv & Hi & Hl). do 6 eexists. split; [done|].
  change (mk_request (bmRequestType r) (bRequest r) (le_value (word (wValue r)))
    (le_value (word (wIndex r))) (le_value (word (wLength r))) = r).
  rewrite !le_word by done. by destruct r.
Qed.

(** A request of the standard type, or of the type of a vendor. *)
Definition not_class (r : USB_Request_Header_t) : Prop :=
  bmRequestType r ≠ 0x21%Z ∧ bmRequestType r ≠ 0xA1%Z.

(** The seven bytes of a line coding on the wire. *)
Definition line_bytes (x : CDC_LineEncoding_t) : list Z :=
  [u8 (BaudRateBPS x); u8 (Z.shiftr (BaudRateBPS x) 8); u8 (Z.shiftr (BaudRateBPS x) 16);
   u8 (Z.shiftr (BaudRateBPS x) 24); u8 (CharFormat x); u8 (ParityType x); u8 (DataBits x)].

(** The line coding in a packet of the host. *)
Definition line_of (l : list Z) : CDC_LineEncoding_t :=
  mk_line (le_value (take 4 l)) (nth 4 l 0%Z) (nth 5 l 0%Z) (nth 6 l 0%Z).

Lemma u8_land x : u8 (Z.land x 0xFF) = u8 x.
Proof. change 0xFF%Z with (Z.ones 8). rewrite Z.land_ones by lia. unfold u8. apply Z.mod_mod. lia. Qed.

Lemma line_bytes_of l : length l = 7 → Forall is_u8 l → line_bytes (line_of l) = l.
Proof.
  intros Hl Hu. do 7 (destruct l as [|? l]; [done|]). destruct l; [|done].
  repeat match goal with Hx : Forall _ (_ :: _) |- _ => apply Forall_cons_1 in Hx as [? Hx] end.
  unfold line_bytes, line_of. cbn [BaudRateBPS CharFormat ParityType DataBits take le_value nth].
  rewrite !Z.shiftr_div_pow2 by lia. unfold u8, is_u8 in *. do 7 (apply f_equal2; [change (2 ^ 8)%Z with 256%Z; change (2 ^ 16)%Z with 65536%Z; change (2 ^ 24)%Z with 16777216%Z; Z.div_mod_to_equations; lia|]). done.
Qed.

Section Transfers.
Context `{CtrlHw D} (call_at : Z → IO (ust D) unit) (fuel : nat).

Abbreviation St := (ust D).

#[local] Instance events : GenEvents D := serial_events call_at.
#[local] Instance app : DeviceApp D := serial_app call_at fuel.

(** Follows the switch to the handler of a request. *)
Ltac dispatch Hq :=
  unfold standard_request; rewrite Hq; cbn zeta;
  repeat match goal with |- context [bool_decide (?a = ?b)] =>
    first [rewrite (bool_decide_false (a = b)) by done | rewrite (bool_decide_true (a = b)) by done] end;
  cbn [orb].
Ltac next E := rewrite (io_bind_Ok _ _ _ _ _ E); clear E.

(** ** The frame of a request *)

Lemma c_read_request (s : St) g c r :
  at_c s g c → is_setup (c_stage c) = true → c_bank c = req_bytes r → req_ok r →
  ∃ s', read_request s = Ok (tt, s') ∧ at_c s' (with_request r g) (c_load [] c).
Proof.
  intros Hs Hst Hb Hr. destruct (le_req_bytes r Hr) as (b2 & b3 & b4 & b5 & b6 & b7 & Eb & Er).
  rewrite Eb in Hb. unfold read_request.
  do 8 (match goal with Hc : at_c ?s0 g _ |- _ =>
    let s1 := fresh "s" in let E := fresh "E" in let Hs1 := fresh "Hs" in
    destruct (c_Read_8 s0 _ _ _ _ Hc ltac:(first [exact Hb|reflexivity]) ltac:(by left)) as (s1 & E & Hs1);
    next E; clear Hc end).
  rewrite Er. by apply c_mod.
Qed.

Lemma c_class_passes (s : St) g c : at_c s g c → is_setup (c_stage c) = true → not_class (USB_ControlRequest g) →
  ∃ s' w, CDC_Device_ProcessControlRequest fuel s = Ok (tt, s') ∧ at_c s' g (c_tick w c).
Proof.
  intros Hs Hst [Hn1 Hn2]. destruct (c_IsSETUP _ _ _ Hs) as (s1 & w & E & _ & Hs1).
  exists s1, w. split; [|done]. unfold CDC_Device_ProcessControlRequest. next E. rewrite Hst. cbn [negb].
  rewrite (io_bind_Ok _ _ _ _ _ (c_request _ _ _ Hs1)). unfold get_cdc. rewrite io_bind_assoc.
  rewrite (io_bind_Ok _ _ _ _ _ (c_get _ _ _ Hs1)), io_bind_ret. cbn zeta.
  rewrite (bool_decide_false (bmRequestType (USB_ControlRequest g) = reqtype REQDIR_DEVICETOHOST _ _)) by done.
  rewrite (bool_decide_false (bmRequestType (USB_ControlRequest g) = reqtype REQDIR_HOSTTODEVICE _ _)) by done.
  by repeat case_match.
Qed.

Lemma accept_tick w w' c : is_setup (c_stage c) = true → c_accept w (c_tick w' c) = c_accept w c.
Proof. destruct c as [? st ? ? ? ? ? ?]. by destruct st as [[| |]| | | | |]. Qed.

(** What follows the handlers: an unanswered request is refused. *)
Definition refuse : IO St unit :=
  b ← Endpoint_IsSETUPReceived; if b : bool then Endpoint_ClearSETUP;; Endpoint_StallTransaction else mret tt.

Lemma c_refuse_not (s : St) g c : at_c s g c → is_setup (c_stage c) = false →
  ∃ s' w, refuse s = Ok (tt, s') ∧ w ≤ pred (c_wait c) ∧ at_c s' g (c_tick w c).
Proof.
  intros Hs Hst. destruct (c_IsSETUP _ _ _ Hs) as (s1 & w & E & Hw & Hs1). exists s1, w.
  unfold refuse. next E. by rewrite Hst.
Qed.

Lemma c_refuse (s : St) g c : at_c s g c → is_setup (c_stage c) = true →
  ∃ s' w, refuse s = Ok (tt, s') ∧ at_c s' g (c_halt (c_accept w c)).
Proof.
  intros Hs Hst. destruct (c_IsSETUP _ _ _ Hs) as (s1 & w & E & _ & Hs1).
  destruct (c_ClearSETUP _ _ _ Hs1) as (s2 & w2 & _ & E2 & (Hg & Hv & Hsel & Hi)); [done|].
  unfold refuse. next E. rewrite Hst. next E2. unfold Endpoint_StallTransaction, set_bits.
  destruct (ucu_read UECONX (u_hw s2)) as [x d] eqn:Er. pose proof (c_ueconx_read _ _ _ Er) as Hd.
  rewrite (io_bind_Ok _ _ _ _ _ (rd_step _ _ _ _ Er)).
  rewrite accept_tick in Hsel, Hi, Hv by done. eexists _, w2. split; [done|].
  split_and!; [done| |done|done]. cbn [u_hw u_glob]. rewrite c_stall_write, Hd, Hv; [done|congruence|].
  unfold u8. change 256%Z with (2 ^ 8)%Z. unfold STALLRQ, bit.
  by rewrite Z.mod_pow2_bits_low, Z.lor_spec, Z.shiftl_1_l, Z.pow2_bits_true, orb_true_r by lia.
Qed.

(** The request is read and, unless it belongs to the class, served by the
    standard handlers. *)
Lemma c_process (s : St) g c r :
  at_c s g c → is_setup (c_stage c) = true → c_bank c = req_bytes r → req_ok r → not_class r →
  ∃ s' w, USB_Device_ProcessControlRequest fuel s = (standard_request fuel r;; refuse) s' ∧
    at_c s' (with_request r g) (c_move (c_stage c) w [] (c_got c) c).
Proof.
  intros Hs Hst Hb Hr Hn. destruct (c_read_request _ _ _ _ Hs Hst Hb Hr) as (s1 & E1 & Hs1).
  destruct (c_class_passes _ _ _ Hs1) as (s2 & w2 & E2 & Hs2); [done|done|].
  destruct (c_IsSETUP _ _ _ Hs2) as (s3 & w3 & E3 & _ & Hs3). exists s3, w3. split; [|exact Hs3].
  unfold USB_Device_ProcessControlRequest. next E1.
  change (EVENT_USB_Device_ControlRequest (DeviceApp := app) s1 = Ok (tt, s2)) in E2. next E2. next E3.
  replace (is_setup _) with true by done. rewrite io_bind_assoc.
  by rewrite (io_bind_Ok _ _ _ _ _ (c_request _ _ _ Hs3)).
Qed.

(** C39: a request that is neither one of the class driver nor one of the seven
    standard requests with a handler is acknowledged and refused with a stall,
    and nothing but the copy of the request changes in the stack. *)
Theorem unknown_request_stalled (s : St) g c r :
  at_c s g c → is_setup (c_stage c) = true → c_bank c = req_bytes r → req_ok r → not_class r →
  bRequest r ∉ [REQ_GetStatus; REQ_ClearFeature; REQ_SetFeature; REQ_SetAddress; REQ_GetDescriptor;
                REQ_GetConfiguration; REQ_SetConfiguration] →
  ∃ s' w, USB_Device_ProcessControlRequest fuel s = Ok (tt, s') ∧
    at_c s' (with_request r g) (c_halt (c_accept w c)).
Proof.
  intros Hs Hst Hb Hr Hn Hno. destruct (c_process _ _ _ _ Hs Hst Hb Hr Hn) as (s1 & w1 & E1 & Hs1).
  destruct (c_refuse _ _ _ Hs1) as (s2 & w2 & E2 & Hs2); [done|]. exists s2, w2.
  rewrite E1. unfold standard_request.
  repeat match goal with |- context [bool_decide (bRequest r = ?x)] =>
    rewrite (bool_decide_false (bRequest r = x)) by (intros Hx; apply Hno; rewrite Hx; set_solver) end.
  split; [exact E2|].
  assert (c_accept w2 (c_move (c_stage c) w1 [] (c_got c) c) = c_accept w2 c) as <-; [|done].
  unfold c_accept. cbn. by destruct (c_stage c) as [[| |]| | | | |].
Qed.

(** ** A data stage towards the host *)

(** The bus is up. *)
Definition connected (g : usbg) : Prop :=
  USB_DeviceState g ≠ DEVICE_STATE_Unattached ∧ USB_DeviceState g ≠ DEVICE_STATE_Suspended.

Lemma c_line_error (s : St) g c b : at_c s g c → connected g → is_setup (c_stage c) = false →
  ∃ s' w, line_error fuel b s = Ok (None, s') ∧ w ≤ c_wait c ∧ (b = true → w ≤ pred (c_wait c)) ∧
    at_c s' g (c_tick w c).
Proof.
  intros Hs [Hu Hsu] Hst. destruct (c_state fuel _ _ _ Hs) as (s1 & E1 & Hs1). unfold line_error.
  next E1. rewrite !bool_decide_false by done. destruct b.
  - destruct (c_IsSETUP _ _ _ Hs1) as (s2 & w & E2 & Hw & Hs2). next E2. rewrite Hst.
    exists s2, w. split_and!; [done|lia|done|done].
  - exists s1, (c_wait c). split_and!; [done|done|done|]. by destruct c.
Qed.

Lemma c_fill_bank buf n : ∀ (s : St) g c want p,
  at_c s g c → c_stage c = DataIn want → c_wait c = 0 → Forall is_u8 buf →
  length (c_bank c) ≤ c_size → p + n ≤ length buf →
  let m := min n (c_size - length (c_bank c)) in
  ∃ s', fill_bank buf 1 n (Z.of_nat p) (Z.of_nat (length (c_bank c))) s
        = Ok ((n - m, Z.of_nat (p + m), Z.of_nat (length (c_bank c) + m)), s') ∧
    at_c s' g (c_load (c_bank c ++ take m (drop p buf)) c).
Proof.
  induction n as [|n IH]; intros s g c want p Hs Hst Hw Hu Hb Hp; cbn [fill_bank].
  - exists s. cbn [min]. rewrite !Nat.add_0_r, app_nil_r. split; [done|]. by destruct c.
  - cbn zeta. case_bool_decide as Hlt; change USB_Device_ControlEndpointSize with (Z.of_nat c_size) in Hlt.
    + destruct (lookup_lt_is_Some_2 buf p) as [x Hx]; [lia|].
      assert (load_at buf (Z.of_nat p) = Ok x) as ->.
      { unfold load_at. rewrite bool_decide_false, Nat2Z.id by lia. unfold load. by rewrite Hx. }
      rewrite io_bind_pure.
      destruct (c_Write_8 s g c want x) as (s1 & E1 & Hs1);
        [done|done|done|lia|by eapply (Forall_lookup_1 _ buf)|].
      next E1.
      destruct (IH s1 g (c_load (c_bank c ++ [x]) c) want (S p)) as (s2 & E2 & Hs2);
        [done|done|done|done|cbn [c_load c_move c_bank]; rewrite length_app; cbn [length]; lia|lia|].
      cbn [c_load c_move c_bank c_stage] in E2, Hs2.
      rewrite length_app in E2, Hs2. cbn [length] in E2, Hs2. exists s2.
      rewrite u16_small by (unfold is_u16, c_size in *; lia).
      replace (Z.of_nat p + 1)%Z with (Z.of_nat (S p)) by lia.
      replace (Z.of_nat (length (c_bank c)) + 1)%Z with (Z.of_nat (length (c_bank c) + 1)) by lia.
      rewrite E2. rewrite (drop_S buf x p Hx). rewrite <- app_assoc in Hs2. cbn [app] in Hs2.
      replace (min (S n) _) with (S (min n (c_size - (length (c_bank c) + 1)))) by lia.
      split; [|exact Hs2]. set (m := min n _). by rewrite <- (Nat.add_succ_comm p), <- (Nat.add_assoc _ 1).
    + exists s. replace (min _ _) with 0 by lia. rewrite !Nat.add_0_r, take_0, app_nil_r.
      split; [done|]. by destruct c.
Qed.

(** One pass of the loop: the bank is filled and handed over, or the host has
    not yet fetched the last one. *)
Lemma c_write_pass buf k n pos lpf (s : St) g c want :
  at_c s g c → connected g → c_stage c = DataIn want → n ≠ 0 ∨ lpf = true →
  ∃ s' w (b : bool), at_c s' g (c_tick w c) ∧ (if b then w = 0 else w < c_wait c) ∧
    control_write_loop fuel buf 1 (S k) n pos lpf s
    = (if b then
         l ← Endpoint_BytesInEndpoint;
         '(n', pos', l') ← fill_bank buf 1 n pos l;
         Endpoint_ClearIN;;
         control_write_loop fuel buf 1 k n' pos' (bool_decide (l' = USB_Device_ControlEndpointSize))
       else control_write_loop fuel buf 1 k n pos lpf) s'.
Proof.
  intros Hs Hc Hst Hn. destruct (c_line_error s g c true) as (s1 & w1 & E1 & _ & Hw1 & Hs1);
    [done|done|by rewrite Hst|]. specialize (Hw1 eq_refl).
  destruct (c_IsOUT _ _ _ Hs1) as (s2 & w2 & E2 & Hw2 & Hs2).
  destruct (c_IsIN _ _ _ Hs2) as (s3 & w3 & E3 & Hw3 & Hs3); cbn [c_tick c_move c_stage c_wait] in *;
    [by rewrite Hst|by rewrite Hst|].
  rewrite Hst in E2, E3. cbn [takes_in gives_out andb] in E2, E3.
  exists s3, w3, (w2 =? 0). split; [done|]. split.
  { destruct (Nat.eqb_spec w2 0); lia. }
  cbn [control_write_loop]. replace (bool_decide (n = 0) && negb lpf) with false.
  - next E1. next E2. by next E3.
  - destruct Hn as [Hn| ->]; [by rewrite bool_decide_false by done|by rewrite andb_false_r].
Qed.

(** The bytes left are a short packet, or the host wants more than them. *)
Definition ends_short (n want : nat) : Prop := n `mod` c_size ≠ 0 ∨ n < want.
#[export] Instance ends_short_dec n want : Decision (ends_short n want).
Proof. unfold ends_short. apply _. Defined.

(** The packets of a transfer of [n] bytes to a host that wants [want]: full
    ones, then a short one unless the host has all it wants. *)
Definition packets (n want : nat) (ps : list (list Z)) : Prop :=
  ∃ full tail, ps = full ++ tail ∧ Forall (λ p, length p = c_size) full ∧
    if decide (ends_short n want) then ∃ p, tail = [p] ∧ length p < c_size else tail = [].

Lemma packets_cons n want p ps : length p = c_size → c_size ≤ n → n ≤ want →
  packets (n - c_size) (want - c_size) ps → packets n want (p :: ps).
Proof.
  intros Hp Hn Hw (full & tail & -> & Hf & Ht). exists (p :: full), tail. split_and!; [done|by constructor|].
  assert (ends_short n want ↔ ends_short (n - c_size) (want - c_size)) as He.
  { unfold ends_short. replace n with (n - c_size + 1 * c_size) at 1 by (unfold c_size in *; lia).
    rewrite Nat.Div0.mod_add. unfold c_size in *. lia. }
  destruct (decide (ends_short n want)), (decide (ends_short (n - c_size) (want - c_size))); tauto.
Qed.

(** After the last full packet the loop waits for the status stage; an empty
    packet it may send is not fetched. *)
Lemma c_write_tail buf pos k : ∀ lpf (s : St) g c,
  at_c s g c → connected g → c_stage c = StatusOut → c_wait c < k →
  ∃ s' w, control_write_loop fuel buf 1 k 0 pos lpf s = Ok (None, s') ∧ w ≤ c_wait c ∧ at_c s' g (c_tick w c).
Proof.
  induction k as [|k IH]; intros lpf s g c Hs Hc Hst Hk; [lia|]. cbn [control_write_loop].
  rewrite (bool_decide_true (0 = 0)) by done. destruct lpf; cbn [andb negb].
  2:{ exists s, (c_wait c). split_and!; [done|done|]. by destruct c. }
  destruct (c_line_error s g c true) as (s1 & w1 & E1 & _ & Hw1 & Hs1); [done|done|by rewrite Hst|].
  specialize (Hw1 eq_refl). next E1.
  destruct (c_IsOUT _ _ _ Hs1) as (s2 & w2 & E2 & Hw2 & Hs2). cbn [c_tick c_move c_stage c_wait] in *.
  rewrite Hst in E2. cbn [gives_out andb] in E2. next E2.
  destruct (Nat.eqb_spec w1 0) as [Hz|Hz]; [exists s2, w2; split_and!; [done|lia|done]|].
  destruct (c_IsIN_some _ _ _ Hs2) as (b & s3 & w3 & E3 & Hw3 & Hs3). cbn [c_tick c_move c_wait] in Hw3. next E3.
  destruct b.
  - destruct (c_bytes_some _ _ _ Hs3) as (l & s4 & E4 & Hs4). next E4. cbn [fill_bank]. rewrite io_bind_ret.
    destruct (c_ClearIN_spare _ _ _ Hs4) as (s5 & w5 & E5 & Hw5 & Hs5); [done|].
    cbn [c_tick c_move c_wait] in Hw5. next E5.
    destruct (IH (bool_decide (l = USB_Device_ControlEndpointSize)) s5 g _ Hs5) as (s6 & w6 & E6 & Hw6 & Hs6);
      [done|done|cbn [c_tick c_move c_wait]; lia|].
    cbn [c_tick c_move c_wait] in Hw6. exists s6, w6. split_and!; [done|lia|done].
  - destruct (IH true s3 g _ Hs3) as (s6 & w6 & E6 & Hw6 & Hs6);
      [done|done|cbn [c_tick c_move c_wait]; lia|].
    cbn [c_tick c_move c_wait] in Hw6. exists s6, w6. split_and!; [done|lia|done].
Qed.

Lemma c_write_loop buf : Forall is_u8 buf → ∀ k n (s : St) g c want p lpf,
  at_c s g c → connected g → c_stage c = DataIn want → c_bank c = [] →
  n ≠ 0 ∨ lpf = true → p + n ≤ length buf → n ≤ want → 0 < want →
  c_wait c + S clat * (n + 2) < k →
  ∃ s' w ps, control_write_loop fuel buf 1 k n (Z.of_nat p) lpf s = Ok (None, s') ∧ w ≤ clat ∧
    packets n want ps ∧ mjoin ps = take n (drop p buf) ∧
    at_c s' g (c_move StatusOut w [] (c_got c ++ ps) c).
Proof.
  intros Hu. induction k as [|k IH]; intros n s g c want p lpf Hs Hc Hst Hb Hn Hp Hnw Hw0 Hk; [lia|].
  destruct (c_write_pass buf k n (Z.of_nat p) lpf s g c want) as (s1 & w1 & b & Hs1 & Hb1 & ->); [done..|].
  destruct b.
  2:{ destruct (IH n s1 g (c_tick w1 c) want p lpf) as (s2 & w & ps & Hr);
        [done..|cbn [c_tick c_move c_wait]; lia|]. by exists s2, w, ps. }
  subst w1. destruct (c_bytes _ _ _ want Hs1) as (s2 & E2 & Hs2); [done|done|]. next E2.
  destruct (c_fill_bank buf n s2 g (c_tick 0 c) want p) as (s3 & E3 & Hs3); [done..| |done|].
  { cbn [c_tick c_move c_bank]. rewrite Hb. cbn [length]. lia. }
  cbn [c_tick c_move c_bank] in E3, Hs3 |- *. rewrite Hb in E3, Hs3 |- *. next E3. rewrite app_nil_l in Hs3. cbn [length] in Hs3 |- *.
  rewrite Nat.sub_0_r in Hs3 |- *. set (m := min n c_size) in Hs3 |- *.
  destruct (c_ClearIN _ _ _ Hs3) as (s4 & w & Hw & E4 & Hs4);
    [cbn [c_load c_move c_stage c_tick]; by rewrite Hst|done|]. next E4.
  unfold c_fetch in Hs4. cbn [c_load c_move c_tick c_stage c_bank] in Hs4. rewrite Hst in Hs4.
  set (pkt := take m (drop p buf)) in *.
  assert (length pkt = m) as Hm by (unfold pkt; rewrite length_take, length_drop; lia).
  rewrite Hm in Hs4. destruct (decide (n < c_size)) as [Hsm|Hsm].
  - rewrite decide_True in Hs4 by (left; lia).
    exists s4, w, [pkt]. split_and!; [|done| |unfold pkt; cbn; rewrite app_nil_r; by replace m with n by lia|exact Hs4].
    + destruct k; [lia|]. cbn [control_write_loop]. replace (n - m) with 0 by lia.
      by rewrite (bool_decide_false (_ = USB_Device_ControlEndpointSize)) by
        (change USB_Device_ControlEndpointSize with (Z.of_nat c_size); lia).
    + exists [], [pkt]. split_and!; [done|constructor|].
      rewrite decide_True; [exists pkt; split; [done|lia]|]. unfold ends_short.
      destruct (decide (n = 0)); [right; lia|left]. by rewrite Nat.mod_small.
  - replace m with c_size in * by lia.
    rewrite (bool_decide_true (_ = USB_Device_ControlEndpointSize)) by done.
    destruct (decide (want ≤ c_size)) as [Hle|Hgt].
    + rewrite decide_True in Hs4 by (by right). replace (n - c_size) with 0 by lia.
      destruct (c_write_tail buf (Z.of_nat (p + c_size)) k true s4 g _ Hs4)
        as (s5 & w5 & E5 & Hw5 & Hs5); [done|done|cbn [c_move c_wait]; lia|]. cbn [c_move c_wait] in Hw5.
      exists s5, w5, [pkt]. split_and!; [exact E5|lia| |unfold pkt; cbn; rewrite app_nil_r; by replace m with n by lia|exact Hs5].
      exists [pkt], []. split_and!; [done|by repeat constructor|]. rewrite decide_False; [done|].
      unfold ends_short. replace n with c_size by lia. intros [Hx|Hx]; [by apply Hx|lia].
    + rewrite decide_False in Hs4 by lia.
      destruct (IH (n - c_size) s4 g _ (want - c_size) (p + c_size) true Hs4)
        as (s5 & w5 & ps & E5 & Hw5 & Hps & Hj & Hs5);
        [done|done|done|by right|unfold c_size in *; lia|lia|lia|cbn [c_move c_wait]; unfold c_size in *; nia|].
      exists s5, w5, (pkt :: ps). split_and!; [exact E5|exact Hw5|apply packets_cons; (done || lia)| |].
      * change (mjoin (pkt :: ps)) with (pkt ++ mjoin ps). unfold pkt. rewrite Hj, <- drop_drop.
        replace m with c_size by lia. rewrite take_take_drop. by replace (c_size + (n - c_size)) with n by lia.
      * cbn [c_move c_got] in Hs5. by rewrite <- app_assoc in Hs5.
Qed.

Lemma c_status_out b k : ∀ (s : St) g c, at_c s g c → connected g → c_stage c = StatusOut → c_wait c < k →
  ∃ s', status_loop fuel Endpoint_IsOUTReceived b k s = Ok (ENDPOINT_RWCSTREAM_NoError, s') ∧
    at_c s' g (c_tick 0 c).
Proof.
  induction k as [|k IH]; intros s g c Hs Hc Hst Hk; [lia|]. cbn [status_loop].
  destruct (c_IsOUT _ _ _ Hs) as (s1 & w1 & E1 & Hw1 & Hs1). next E1. rewrite Hst. cbn [gives_out andb].
  destruct (Nat.eqb_spec (c_wait c) 0) as [Hz|Hz].
  - exists s1. replace w1 with 0 in Hs1 by lia. done.
  - destruct (c_line_error s1 g (c_tick w1 c) b) as (s2 & w2 & E2 & Hw2 & _ & Hs2);
      [done|done|cbn [c_tick c_move c_stage]; by rewrite Hst|].
    cbn [c_tick c_move c_wait] in Hw2. next E2.
    destruct (IH s2 g _ Hs2) as (s3 & E3 & Hs3); [done|done|cbn [c_tick c_move c_wait]; lia|]. by exists s3.
Qed.

(** [control_write] hands [take (wLength r) d] to the host. *)
Lemma c_control_write (s : St) g c d :
  let want := Z.to_nat (wLength (USB_ControlRequest g)) in
  let n := min (length d) want in
  at_c s g c → connected g → c_stage c = DataIn want → c_bank c = [] → c_wait c ≤ clat →
  Forall is_u8 d → 0 < n → S clat * (n + 3) ≤ fuel →
  ∃ s' ps, control_write fuel 1 0 d (Z.of_nat (length d)) s = Ok (ENDPOINT_RWCSTREAM_NoError, s') ∧
    packets n want ps ∧ mjoin ps = take want d ∧
    at_c s' g (c_move StatusOut 0 [] (c_got c ++ ps) c).
Proof.
  intros want n Hs Hc Hst Hb Hw Hu Hn Hf. unfold control_write.
  rewrite (io_bind_Ok _ _ _ _ _ (c_get _ _ _ Hs)). cbn zeta.
  set (lim := wLength (USB_ControlRequest g)) in *.
  rewrite (io_bind_Ok _ _ s (Z.of_nat n) s).
  2:{ case_bool_decide; [unfold mret, IO_ret; do 3 f_equal; lia|].
      rewrite bool_decide_false by lia. rewrite io_bind_ret. unfold mret, IO_ret. do 3 f_equal. lia. }
  destruct (c_write_loop d Hu fuel n s g c want 0 false) as (s1 & w & ps & E1 & Hw1 & Hp & Hj & Hs1);
    try done; [left; lia|lia..|]. rewrite Nat2Z.id. next E1.
  destruct (c_status_out true fuel _ _ _ Hs1) as (s2 & E2 & Hs2); [done|done|cbn [c_move c_wait]; lia|].
  exists s2, ps. split_and!; [done|done| |done]. rewrite Hj, drop_0. unfold n.
  destruct (decide (length d ≤ want)); [rewrite !take_ge by lia; done|by replace (min _ _) with want by lia].
Qed.

(** A request the standard handlers serve: nothing is left for [refuse]. *)
Lemma c_served (s s1 s2 : St) g c r :
  USB_Device_ProcessControlRequest fuel s = (standard_request fuel r;; refuse) s1 →
  standard_request fuel r s1 = Ok (tt, s2) → at_c s2 g c → is_setup (c_stage c) = false →
  ∃ s' w, USB_Device_ProcessControlRequest fuel s = Ok (tt, s') ∧ w ≤ pred (c_wait c) ∧ at_c s' g (c_tick w c).
Proof.
  intros E E1 Hs2 Hst. destruct (c_refuse_not _ _ _ Hs2 Hst) as (s3 & w & E3 & Hw & Hs3).
  exists s3, w. split; [|done]. rewrite E. by next E1.
Qed.

Lemma callback_bytes v i d size : CALLBACK_USB_GetDescriptor v i = (d, size) → Forall is_u8 d.
Proof.
  unfold CALLBACK_USB_GetDescriptor.
  repeat case_bool_decide; intros [<- _]%pair_equal_spec; by apply (bool_decide_unpack _).
Qed.

Lemma serial_length n : ∀ i addr, length (serial_loop (D := D) n i addr) = n.
Proof. induction n as [|n IH]; intros i addr; [done|]. cbn [serial_loop length]. by rewrite IH. Qed.

Lemma serial_bytes n : ∀ i addr, Forall is_u16 (serial_loop (D := D) n i addr).
Proof.
  induction n as [|n IH]; intros i addr; cbn [serial_loop]; constructor; [|apply IH].
  set (nibble := Z.land _ 0x0F). assert (0 ≤ nibble < 16)%Z.
  { unfold nibble. change 0x0F%Z with (Z.ones 4). rewrite Z.land_ones by lia. by apply Z.mod_pos_bound. }
  unfold is_u16. case_bool_decide; lia.
Qed.

Lemma word_bytes x : is_u16 x → Forall is_u8 (word x).
Proof.
  intros Hx. unfold is_u16 in Hx. unfold word. change 0xFF%Z with (Z.ones 8).
  rewrite Z.land_ones, Z.shiftr_div_pow2 by lia. repeat constructor; unfold is_u8;
    try (apply Z.mod_pos_bound; lia); [apply Z.div_pos|apply Z.div_lt_upper_bound]; lia.
Qed.

Lemma signature_bytes : Forall is_u8 (SignatureDescriptor (D := D)).
Proof.
  unfold SignatureDescriptor. repeat (constructor; [by vm_compute|]).
  apply Forall_join. apply Forall_fmap. eapply Forall_impl; [apply serial_bytes|]. apply word_bytes.
Qed.

(** The descriptor a request is for, [[]] when there is none: the serial
    number of the chip, or what the callback of the firmware gives. *)
Definition asked_descriptor (r : USB_Request_Header_t) : list Z :=
  if bool_decide (wValue r = 0x03DC%Z) then SignatureDescriptor (D := D)
  else (CALLBACK_USB_GetDescriptor (wValue r) (u8 (wIndex r))).1.

(** The handler sends the descriptor it is asked for. *)
Lemma c_get_descriptor (s : St) g c (r := USB_ControlRequest g) (d := asked_descriptor r) :
  let want := Z.to_nat (wLength r) in
  let n := min (length d) want in
  at_c s g c → connected g → c_stage c = Setup (Fetch want) → d ≠ [] → (0 < wLength r)%Z →
  S clat * (n + 3) ≤ fuel →
  ∃ s' w ps, USB_Device_GetDescriptor fuel s = Ok (tt, s') ∧ packets n want ps ∧ mjoin ps = take want d ∧
    at_c s' g (c_move Idle w [] (c_got c ++ ps) c).
Proof.
  intros want n Hs Hc Hst Hd Hl Hf.
  destruct (c_ClearSETUP _ _ _ Hs) as (s2 & w2 & Hw2 & E2 & Hs2); [by rewrite Hst|].
  unfold c_accept in Hs2. rewrite Hst in Hs2.
  assert (0 < length d) as Hld by (by destruct d; [|cbn; lia]).
  assert (Forall is_u8 d) as Hu.
  { unfold d, asked_descriptor. case_bool_decide; [apply signature_bytes|].
    destruct (CALLBACK_USB_GetDescriptor _ _) as [x y] eqn:E. by eapply callback_bytes. }
  destruct (c_control_write s2 g _ d Hs2) as (s3 & ps & E3 & Hp & Hj & Hs3); [done|done|done|done|done|fold r; lia|done|].
  destruct (c_ClearOUT _ _ _ Hs3) as (s4 & w4 & _ & E4 & Hs4); [done|done|].
  exists s4, w4, ps. split; [|done].
  unfold USB_Device_GetDescriptor. rewrite (io_bind_Ok _ _ _ _ _ (c_request _ _ _ Hs)). fold r.
  change (Z.lor (Z.shiftl DTYPE_String 8) USE_INTERNAL_SERIAL) with 0x03DC%Z.
  unfold d, asked_descriptor in *. case_bool_decide.
  - unfold USB_Device_GetInternalSerialDescriptor. next E2. unfold Endpoint_Write_Control_Stream_LE. by next E3.
  - change (get_descriptor (DeviceApp := app)) with CALLBACK_USB_GetDescriptor.
    destruct (CALLBACK_USB_GetDescriptor _ _) as [x size] eqn:Ed.
    destruct (get_descriptor_complete _ _ _ _ Ed) as [-> _]. cbn [fst] in *.
    rewrite bool_decide_false by (change NO_DESCRIPTOR with 0%Z; lia).
    next E2. unfold Endpoint_Write_Control_PStream_LE. by next E3.
Qed.

(** C4: the host asks for a descriptor that there is and fetches up to
    [wLength] bytes, at least one.  It gets the first [wLength] bytes of the
    descriptor (the serial number of the chip for string 0xDC), in packets of
    eight bytes and a last short one; the short one is missing exactly when the
    host has all the bytes it wants with full packets.  After the status stage
    the endpoint is idle and not stalled.  The fuel covers the waits between
    the packets. *)
Theorem get_descriptor_sent (s : St) g c r :
  let d := asked_descriptor r in
  let want := Z.to_nat (wLength r) in
  let n := min (length d) want in
  at_c s g c → connected g → c_stage c = Setup (Fetch want) → c_bank c = req_bytes r → req_ok r →
  bRequest r = REQ_GetDescriptor → bmRequestType r = 0x80%Z ∨ bmRequestType r = 0x81%Z →
  d ≠ [] → (0 < wLength r)%Z → S clat * (n + 3) ≤ fuel →
  ∃ s' w ps, USB_Device_ProcessControlRequest fuel s = Ok (tt, s') ∧
    packets n want ps ∧ mjoin ps = take want d ∧
    at_c s' (with_request r g) (c_move Idle w [] (c_got c ++ ps) c).
Proof.
  intros d want n Hs Hc Hst Hb Hr Hq Ht Hd Hl Hf.
  destruct (c_process s g c r) as (s1 & w1 & E1 & Hs1);
    [done|by rewrite Hst|done|done|by destruct Ht as [Ht|Ht]; split; rewrite Ht|].
  destruct (c_get_descriptor s1 _ _ Hs1) as (s4 & w4 & ps & E4 & Hp & Hj & Hs4);
    [done|cbn [c_move c_stage]; by rewrite Hst|done..|].
  assert (standard_request fuel r s1 = Ok (tt, s4)) as E.
  { dispatch Hq. by replace (_ || _) with true by (by destruct Ht as [-> | ->]). }
  destruct (c_served _ _ _ _ _ _ E1 E Hs4) as (s5 & w5 & E5 & _ & Hs5); [done|].
  by exists s5, w5, ps.
Qed.

(** ** Address and configuration *)

(** A request without a data stage, towards the device. *)
Definition no_data (r : USB_Request_Header_t) (c : ctrl) : Prop :=
  c_stage c = Setup NoData ∧ c_bank c = req_bytes r ∧ req_ok r ∧ bmRequestType r = 0%Z.

Lemma c_no_data (s : St) g c r : at_c s g c → no_data r c →
  ∃ s' w, USB_Device_ProcessControlRequest fuel s = (standard_request fuel r;; refuse) s' ∧
    at_c s' (with_request r g) (c_move (Setup NoData) w [] (c_got c) c).
Proof.
  intros Hs (Hst & Hb & Hr & Ht). destruct (c_process s g c r) as (s1 & w1 & E1 & Hs1);
    [done|by rewrite Hst|done|done|by split; rewrite Ht|]. rewrite Hst in Hs1. by exists s1, w1.
Qed.

(** UDADDR is written and read back as it was written. *)
Lemma c_write_address (s : St) g c (f : Z → Z) : at_c s g c →
  ∃ s', (x ← rd UDADDR; wr UDADDR (f x)) s = Ok (tt, s') ∧ at_c s' g (c_address (u8 (f (c_addr c))) c).
Proof.
  intros (Hg & Hv & Hsel & Hi). destruct (ucu_read UDADDR (u_hw s)) as [x d] eqn:E.
  destruct (c_udaddr_read _ _ _ E) as [-> Hd]. rewrite (io_bind_Ok _ _ _ _ _ (rd_step _ _ _ _ E)).
  eexists. split; [done|]. subst c. split_and!; [done| |done|done]. cbn [u_hw].
  by rewrite c_udaddr_write, Hd by apply u8_range.
Qed.

Lemma enabled_address x a : u8 (Z.lor (u8 (Z.lor (Z.land x (bit ADDEN)) (Z.land (Z.land a 0x7F) 0x7F))) (bit ADDEN))
  = Z.lor 0x80 (Z.land a 0x7F).
Proof.
  rewrite <- Z.land_assoc, Z.land_diag. unfold u8. change 256%Z with (2 ^ 8)%Z. rewrite <- !Z.land_ones by lia.
  change (bit ADDEN) with 0x80%Z. apply Z.bits_inj'. intros i Hi.
  rewrite !Z.land_spec, !Z.lor_spec, !Z.land_spec, Z.lor_spec, !Z.land_spec.
  destruct (decide (i < 8)%Z) as [H8|H8].
  - assert (i = 0 ∨ i = 1 ∨ i = 2 ∨ i = 3 ∨ i = 4 ∨ i = 5 ∨ i = 6 ∨ i = 7)%Z as Hc by lia.
    by destruct Hc as [->|[->|[->|[->|[->|[->|[->| ->]]]]]]]; destruct (Z.testbit x _), (Z.testbit a _).
  - replace (Z.testbit 0x80 i) with false; [|change 0x80%Z with (2 ^ 7)%Z; by rewrite Z.pow2_bits_false by lia].
    change 0x7F%Z with (Z.ones 7). rewrite !Z.ones_spec_high by lia. by rewrite !andb_false_r.
Qed.

(** [SetAddress] answers the status stage and leaves the new address
    enabled in UDADDR; the device is [Addressed], or [Default] for address 0. *)
Theorem set_address_enables (s : St) g c r :
  at_c s g c → USB_DeviceState g ≠ DEVICE_STATE_Unattached → no_data r c → bRequest r = REQ_SetAddress →
  clat < fuel →
  let a := Z.land (wValue r) 0x7F in
  let st := if bool_decide (a = 0%Z) then DEVICE_STATE_Default else DEVICE_STATE_Addressed in
  ∃ s' w, USB_Device_ProcessControlRequest fuel s = Ok (tt, s') ∧
    at_c s' (with_state st (with_request r g)) (c_address (Z.lor 0x80 a) (c_move Idle w [] (c_got c) c)).
Proof.
  intros Hs Hu Hnd Hq Hf a st. destruct (c_no_data _ _ _ _ Hs Hnd) as (s1 & w1 & E1 & Hs1).
  destruct Hnd as (_ & _ & _ & Ht).
  destruct (c_write_address s1 _ _ (λ x, Z.lor (Z.land x (bit ADDEN)) (Z.land a 0x7F)) Hs1) as (s2 & E2 & Hs2).
  destruct (c_ClearSETUP _ _ _ Hs2) as (s3 & w3 & Hw3 & E3 & Hs3); [done|].
  unfold c_accept in Hs3. cbn [c_address c_move c_stage] in Hs3.
  destruct (c_status_in fuel _ _ _ Hs3) as (s4 & w4 & E4 & Hw4 & Hs4);
    [done|by cbn [with_request USB_ControlRequest]; rewrite Ht|done|cbn [c_move c_wait]; lia|].
  destruct (c_wait_in fuel _ _ _ Hs4) as (s5 & E5 & Hs5); [done|cbn [c_move c_wait]; lia|].
  destruct (c_write_address s5 _ _ (λ x, Z.lor x (bit ADDEN)) Hs5) as (s6 & E6 & Hs6).
  destruct (c_mod _ _ _ (with_state st) Hs6) as (s7 & E7 & Hs7).
  cbn [c_address c_tick c_move c_addr] in Hs7. unfold a in Hs7. rewrite enabled_address in Hs7.
  assert (standard_request fuel r s1 = Ok (tt, s7)) as E.
  { dispatch Hq. unfold USB_Device_SetAddress.
    rewrite (io_bind_Ok _ _ _ _ _ (c_request _ _ _ Hs1)). cbn [with_request USB_ControlRequest]. fold a.
    unfold USB_Device_SetDeviceAddress. next E2. next E3. next E4. next E5.
    unfold USB_Device_EnableDeviceAddress, set_bits. next E6. rewrite <- E7. unfold st.
    do 2 f_equal. by destruct (decide (a = 0%Z)) as [Ha|Ha]; rewrite !bool_decide_decide; destruct (decide _), (decide _). }
  destruct (c_served _ _ _ _ _ _ E1 E Hs7) as (s8 & w8 & E8 & _ & Hs8); [done|]. by exists s8, w8.
Qed.

(** The state [SetConfiguration] leaves the device in; the address counts as
    set when bit 7 of UDADDR is. *)
Definition configured_state (v addr : Z) : Z :=
  if bool_decide (v ≠ 0%Z) || Z.testbit addr ADDEN then DEVICE_STATE_Configured else DEVICE_STATE_Powered.

Lemma c_IsAddressSet (s : St) g c : at_c s g c →
  ∃ s', USB_Device_IsAddressSet s = Ok (Z.testbit (c_addr c) ADDEN, s') ∧ at_c s' g c.
Proof.
  intros (Hg & Hv & Hsel & Hi). destruct (ucu_read UDADDR (u_hw s)) as [x d] eqn:E.
  destruct (c_udaddr_read _ _ _ E) as [-> Hd]. exists (mk_ust (u_glob s) d).
  unfold USB_Device_IsAddressSet, test_bits. rewrite (io_bind_Ok _ _ _ _ _ (rd_step _ _ _ _ E)).
  rewrite land_bit_test by done. subst c. split; [done|]. by split_and!.
Qed.

(** C32: [SetConfiguration] with a configuration the device has (0 or 1) answers
    the status stage, stores the number, and leaves the device [Configured],
    also for configuration 0 once an address is set; then it tells the
    application.  A larger number is refused with a stall and changes nothing
    but the copy of the request. *)
Theorem set_configuration_served (s : St) g c r :
  at_c s g c → USB_DeviceState g ≠ DEVICE_STATE_Unattached → no_data r c → bRequest r = REQ_SetConfiguration →
  clat < fuel →
  let v := u8 (wValue r) in
  ((v ≤ 1)%Z → ∃ s' w,
     at_c s' (with_state (configured_state v (c_addr c)) (with_config v (with_request r g)))
       (c_move Idle w [] (c_got c) c) ∧
     USB_Device_ProcessControlRequest fuel s
     = (EVENT_USB_Device_ConfigurationChanged;; refuse) s') ∧
  ((v > 1)%Z → ∃ s' w, USB_Device_ProcessControlRequest fuel s = Ok (tt, s') ∧
     at_c s' (with_request r g) (c_halt (c_accept w c))).
Proof.
  intros Hs Hu Hnd Hq Hf v. destruct (c_no_data _ _ _ _ Hs Hnd) as (s1 & w1 & E1 & Hs1).
  destruct Hnd as (Hst & _ & _ & Ht). rewrite E1.
  assert (standard_request fuel r = USB_Device_SetConfiguration fuel) as -> by (by dispatch Hq).
  unfold USB_Device_SetConfiguration. rewrite io_bind_assoc.
  rewrite (io_bind_Ok _ _ _ _ _ (c_request _ _ _ Hs1)). cbn [with_request USB_ControlRequest]. fold v.
  split; intros Hv.
  - rewrite bool_decide_false by (unfold FIXED_NUM_CONFIGURATIONS; lia).
    destruct (c_ClearSETUP _ _ _ Hs1) as (s2 & w2 & Hw2 & E2 & Hs2); [done|].
    unfold c_accept in Hs2. cbn [c_move c_stage] in Hs2.
    destruct (c_mod _ _ _ (with_config v) Hs2) as (s3 & E3 & Hs3).
    destruct (c_status_in fuel _ _ _ Hs3) as (s4 & w4 & E4 & Hw4 & Hs4);
      [done|by cbn [with_config with_request USB_ControlRequest]; rewrite Ht|done|cbn [c_move c_wait]; lia|].
    rewrite io_bind_assoc. next E2. rewrite io_bind_assoc. next E3. rewrite io_bind_assoc. next E4.
    rewrite io_bind_assoc, (io_bind_Ok _ _ _ _ _ (c_get _ _ _ Hs4)).
    cbn [with_config USB_Device_ConfigurationNumber]. unfold configured_state.
    case_bool_decide as Hv0; cbn [orb].
    + destruct (c_mod _ _ _ (with_state DEVICE_STATE_Configured) Hs4) as (s5 & E5 & Hs5).
      exists s5, w4. split; [done|]. rewrite io_bind_assoc. by next E5.
    + destruct (c_IsAddressSet _ _ _ Hs4) as (s5 & E5 & Hs5). cbn [c_move c_addr] in E5.
      set (st := if Z.testbit (c_addr c) ADDEN then _ else _).
      destruct (c_mod _ _ _ (with_state st) Hs5) as (s6 & E6 & Hs6).
      exists s6, w4. split; [done|]. rewrite !io_bind_assoc. next E5. by next E6.
  - rewrite bool_decide_true by (unfold FIXED_NUM_CONFIGURATIONS; lia). rewrite io_bind_ret.
    destruct (c_refuse _ _ _ Hs1) as (s2 & w2 & E2 & Hs2); [done|]. exists s2, w2. split; [done|].
    unfold c_accept in *. by rewrite Hst.
Qed.

(** ** The line coding *)

(** A request of the host to the interface of the serial port. *)
Definition class_request (type q : Z) (r : USB_Request_Header_t) (g : usbg) : Prop :=
  req_ok r ∧ bmRequestType r = type ∧ bRequest r = q ∧
  wIndex r = ControlInterfaceNumber (VirtualSerial_CDC_Interface g).

(** The class driver's [handler] serves the request. *)
Lemma c_class_served (Q : usbg → ctrl → Prop) (handler : IO St unit) (s : St) g c r type q :
  at_c s g c → is_setup (c_stage c) = true → c_bank c = req_bytes r → class_request type q r g →
  (type, q, handler) ∈ [(0xA1%Z, CDC_REQ_GetLineEncoding, cdc_get_line fuel);
                        (0x21%Z, CDC_REQ_SetLineEncoding, cdc_set_line fuel)] →
  (∀ (s1 : St) w, at_c s1 (with_request r g) (c_move (c_stage c) w [] (c_got c) c) →
     ∃ s2 g2 c2, handler s1 = Ok (tt, s2) ∧ at_c s2 g2 c2 ∧ is_setup (c_stage c2) = false ∧ Q g2 c2) →
  ∃ s' w g2 c2, USB_Device_ProcessControlRequest fuel s = Ok (tt, s') ∧ Q g2 c2 ∧ at_c s' g2 (c_tick w c2).
Proof.
  intros Hs Hst Hb (Hr & Ht & Hq & Hi) Hin Hh.
  destruct (c_read_request _ _ _ _ Hs Hst Hb Hr) as (s1 & E1 & Hs1).
  destruct (c_IsSETUP _ _ _ Hs1) as (s2 & w2 & E2 & _ & Hs2).
  destruct (Hh _ _ Hs2) as (s3 & g3 & c3 & E3 & Hs3 & Hst3 & HQ).
  destruct (c_IsSETUP _ _ _ Hs3) as (s4 & w4 & E4 & _ & Hs4). rewrite Hst3 in E4.
  destruct (c_refuse_not _ _ _ Hs4) as (s5 & w5 & E5 & _ & Hs5); [done|].
  exists s5, w5, g3, c3. split; [|done].
  assert (EVENT_USB_Device_ControlRequest (DeviceApp := app) s1 = Ok (tt, s3)) as Ee.
  { unfold EVENT_USB_Device_ControlRequest, app, serial_app, CDC_Device_ProcessControlRequest. next E2.
    replace (negb _) with false by (cbn [c_load c_move c_stage]; by rewrite Hst).
    rewrite (io_bind_Ok _ _ _ _ _ (c_request _ _ _ Hs2)). unfold get_cdc. rewrite io_bind_assoc.
    rewrite (io_bind_Ok _ _ _ _ _ (c_get _ _ _ Hs2)), io_bind_ret. cbn zeta.
    cbn [with_request USB_ControlRequest VirtualSerial_CDC_Interface].
    rewrite bool_decide_false by (by intros ?). rewrite Hq, Ht.
    apply elem_of_cons in Hin as [[= -> -> ->]|[[= -> -> ->]|[]%elem_of_nil]%elem_of_cons]; exact E3. }
  unfold USB_Device_ProcessControlRequest. next E1. next Ee. next E4. by rewrite io_bind_ret.
Qed.

Lemma c_set_line (s : St) g c l :
  at_c s g c → USB_DeviceState g ≠ DEVICE_STATE_Unattached → c_stage c = Setup (Deliver l) →
  length l = 7 → bmRequestType (USB_ControlRequest g) = 0x21%Z → clat < fuel →
  ∃ s' w, cdc_set_line fuel s = Ok (tt, s') ∧
    at_c s' (with_cdc (with_line (line_of l) (VirtualSerial_CDC_Interface g)) g) (c_move Idle w [] (c_got c) c).
Proof.
  intros Hs Hu Hst Hl Ht Hf. do 7 (destruct l as [|? l]; [done|]). destruct l; [|done].
  destruct (c_ClearSETUP _ _ _ Hs) as (s1 & w1 & Hw1 & E1 & Hs1); [by rewrite Hst|].
  unfold c_accept in Hs1. rewrite Hst in Hs1. clear Hs.
  destruct (c_stage_reached fuel _ g DataOut Hu (c_out_seen DataOut g eq_refl) fuel s1 _ Hs1) as (s2 & E2 & Hs2);
    [done|cbn [c_move c_wait]; lia|]. cbn [c_tick c_move] in Hs2. clear Hs1.
  unfold cdc_set_line. next E1. next E2. unfold Endpoint_Read_32_LE. rewrite io_bind_assoc.
  do 7 (match goal with Hc : at_c ?s0 g _ |- _ =>
    let s1 := fresh "s" in let E := fresh "E" in let Hs1 := fresh "Hs" in
    destruct (c_Read_8 s0 _ _ _ _ Hc eq_refl ltac:(by right)) as (s1 & E & Hs1);
    unfold Endpoint_Read_8 in *; repeat rewrite io_bind_assoc; next E; rewrite ?io_bind_ret; clear Hc end).
  match goal with Hc : at_c _ g _ |- _ => destruct (c_mod _ _ _ (λ g, with_cdc (with_line (line_of
    [z; z0; z1; z2; z3; z4; z5]) (VirtualSerial_CDC_Interface g)) g) Hc) as (s9 & E9 & Hs9) end.
  unfold mod_cdc. next E9.
  destruct (c_ClearOUT _ _ _ Hs9) as (s10 & w10 & Hw10 & E10 & Hs10); [done|done|]. next E10.
  destruct (c_status_in fuel _ _ _ Hs10) as (s11 & w11 & E11 & _ & Hs11);
    [done|by cbn [with_cdc USB_ControlRequest]; rewrite Ht|done|change (w10 < fuel); lia|].
  exists s11, w11. by next E11.
Qed.

Lemma c_wr_load (s : St) g c b want x : at_c s g (c_load b c) → c_stage c = DataIn want → c_wait c = 0 →
  length b < c_size → ∃ s', wr UEDATX x s = Ok (tt, s') ∧ at_c s' g (c_load (b ++ [u8 x]) c).
Proof. intros Hs Hst Hw Hl. by apply (c_wr_data s g (c_load b c) want x Hs). Qed.

(** The seven bytes are written one by one. *)
Lemma c_write_line (x : CDC_LineEncoding_t) (m : IO St unit) (s : St) g c want :
  at_c s g (c_load [] c) → c_stage c = DataIn want → c_wait c = 0 →
  ∃ s', at_c s' g (c_load (line_bytes x) c) ∧
    (Endpoint_Write_32_LE (BaudRateBPS x);; Endpoint_Write_8 (CharFormat x);; Endpoint_Write_8 (ParityType x);;
     Endpoint_Write_8 (DataBits x);; m) s = m s'.
Proof.
  intros Hs Hst Hw. unfold Endpoint_Write_32_LE, Endpoint_Write_8. rewrite !io_bind_assoc.
  do 7 (match goal with Hc : at_c ?s0 g (c_load ?b c) |- context [(wr UEDATX ?v ≫= _) ?s0] =>
    let s1 := fresh "s" in let E := fresh "E" in let Hs1 := fresh "Hs" in
    destruct (c_wr_load s0 g c b want v Hc Hst Hw) as (s1 & E & Hs1); [unfold c_size; cbn; lia|];
    next E; rewrite ?io_bind_assoc; cbn [app] in Hs1; clear Hc end).
  eexists. split; [|done]. unfold line_bytes. by rewrite <- u8_land.
Qed.

Lemma c_get_line (s : St) g c n :
  at_c s g c → USB_DeviceState g ≠ DEVICE_STATE_Unattached → c_stage c = Setup (Fetch n) →
  bmRequestType (USB_ControlRequest g) = 0xA1%Z → clat < fuel →
  ∃ s' w, cdc_get_line fuel s = Ok (tt, s') ∧
    at_c s' g (c_move Idle w [] (c_got c ++ [line_bytes (LineEncoding (VirtualSerial_CDC_Interface g))]) c).
Proof.
  intros Hs Hu Hst Ht Hf.
  destruct (c_ClearSETUP _ _ _ Hs) as (s1 & w1 & Hw1 & E1 & Hs1); [by rewrite Hst|].
  unfold c_accept in Hs1. rewrite Hst in Hs1.
  destruct (c_wait_in fuel _ _ _ Hs1) as (s2 & E2 & Hs2); [done|cbn [c_move c_wait]; lia|].
  unfold cdc_get_line. next E1. next E2. unfold get_cdc. rewrite io_bind_assoc.
  rewrite (io_bind_Ok _ _ _ _ _ (c_get _ _ _ Hs2)), io_bind_ret.
  destruct (c_write_line (LineEncoding (VirtualSerial_CDC_Interface g))
    (Endpoint_ClearIN;; Endpoint_ClearStatusStage fuel) s2 g (c_move (DataIn n) 0 [] (c_got c) c) n Hs2)
    as (s3 & Hs3 & ->); [done|done|].
  destruct (c_ClearIN _ _ _ Hs3) as (s4 & w4 & Hw4 & E4 & Hs4); [done|done|].
  unfold c_fetch in Hs4. cbn [c_load c_move c_stage c_bank c_got] in Hs4.
  rewrite decide_True in Hs4 by (left; unfold c_size; cbn; lia). next E4.
  destruct (c_status_out_clear fuel _ _ _ Hs4) as (s5 & w5 & E5 & _ & Hs5);
    [done|by rewrite Ht|done|change (w4 < fuel); lia|].
  by exists s5, w5.
Qed.

(** C12: the line coding the host sets is the one it reads back.  A
    [SetLineEncoding] transfer stores the seven bytes the host sends; a later
    [GetLineEncoding] transfer, with the stack in that state, answers with the
    same seven bytes.  Both end with the endpoint idle and not stalled. *)
Theorem line_encoding_round_trip (s : St) g c r l :
  at_c s g c → USB_DeviceState g ≠ DEVICE_STATE_Unattached → c_stage c = Setup (Deliver l) →
  c_bank c = req_bytes r → class_request 0x21 CDC_REQ_SetLineEncoding r g →
  length l = 7 → Forall is_u8 l → clat < fuel →
  let g' := with_cdc (with_line (line_of l) (VirtualSerial_CDC_Interface g)) (with_request r g) in
  (∃ s' w, USB_Device_ProcessControlRequest fuel s = Ok (tt, s') ∧
     at_c s' g' (c_move Idle w [] (c_got c) c)) ∧
  ∀ (s2 : St) c2 r2 n, at_c s2 g' c2 → c_stage c2 = Setup (Fetch n) → c_bank c2 = req_bytes r2 →
    class_request 0xA1 CDC_REQ_GetLineEncoding r2 g' →
    ∃ s3 w, USB_Device_ProcessControlRequest fuel s2 = Ok (tt, s3) ∧
      at_c s3 (with_request r2 g') (c_move Idle w [] (c_got c2 ++ [l]) c2).
Proof.
  intros Hs Hu Hst Hb Hr Hl Hlu Hf g'. split.
  - destruct (c_class_served (λ g2 c2, g2 = g' ∧ ∃ w, c2 = c_move Idle w [] (c_got c) c)
      (cdc_set_line fuel) s g c r 0x21 CDC_REQ_SetLineEncoding)
      as (s1 & w1 & g1 & c1 & E1 & [-> [w ->]] & Hs1); [done|by rewrite Hst|done|done|set_solver| |by exists s1, w1].
    intros s1 w1 Hs1. rewrite Hst in Hs1. destruct (c_set_line _ _ _ l Hs1) as (s2 & w2 & E2 & Hs2);
      [done|done|done|by apply Hr|done|]. eexists s2, _, _. split; [done|]. split; [exact Hs2|].
    split; [done|]. split; [done|]. by exists w2.
  - intros s2 c2 r2 n Hs2 Hst2 Hb2 Hr2.
    destruct (c_class_served (λ g3 c3, g3 = with_request r2 g' ∧ ∃ w, c3 = c_move Idle w [] (c_got c2 ++ [l]) c2)
      (cdc_get_line fuel) s2 g' c2 r2 0xA1 CDC_REQ_GetLineEncoding)
      as (s3 & w3 & g3 & c3 & E3 & [-> [w ->]] & Hs3); [done|by rewrite Hst2|done|done|set_solver| |by exists s3, w3].
    intros s3 w3 Hs3. rewrite Hst2 in Hs3. destruct (c_get_line _ _ _ n Hs3) as (s4 & w4 & E4 & Hs4);
      [done|done|by apply Hr2|done|]. eexists s4, _, _. split; [done|]. split; [exact Hs4|].
    split; [done|]. split; [done|]. exists w4. cbn [with_request with_cdc with_line g' VirtualSerial_CDC_Interface LineEncoding].
    by rewrite line_bytes_of.
Qed.
End Transfers.

(** ** The theorems at work: the executable control endpoint *)

Definition demo_glob (st : Z) : usbg :=
  mk_usbg st 0 false false true (mk_request 0 0 0 0 0) initial_interface 0 0.

(** The host has just sent [r]; it will go on as [p]. *)
Definition demo (st : Z) (p : plan) (r : USB_Request_Header_t) : ust csim :=
  mk_ust (demo_glob st) (mk_csim (mk_ctrl 0 (Setup p) 0 (req_bytes r) [] false 0 []) false).

Definition no_calls : Z → IO (ust csim) unit := λ _, mret tt.

Lemma demo_at st p r : at_c (demo st p r) (demo_glob st) (cs_ctrl (u_hw (demo st p r))).
Proof. by split_and!. Defined.

Ltac demo_side := first [apply demo_at | done | by split_and!].

Lemma unknown_request_stalled_witness :
  ∃ s' w, USB_Device_ProcessControlRequest (GenEvents0 := events no_calls) (DeviceApp0 := app no_calls 10) 10
      (demo 2 NoData (mk_request 0x40 0x55 0 0 0)) = Ok (tt, s') ∧
    at_c s' (with_request (mk_request 0x40 0x55 0 0 0) (demo_glob 2))
      (c_halt (c_accept w (cs_ctrl (u_hw (demo 2 NoData (mk_request 0x40 0x55 0 0 0)))))).
Proof.
  apply unknown_request_stalled; [demo_side..|]. by apply (bool_decide_unpack _).
Defined.

(** The first question of many hosts: eight bytes of the device descriptor,
    one full packet. *)
Lemma get_descriptor_sent_witness :
  let r := mk_request 0x80 6 0x0100 0 8 in
  let s := demo 2 (Fetch 8) r in
  ∃ s' w ps,
    USB_Device_ProcessControlRequest (GenEvents0 := events no_calls) (DeviceApp0 := app no_calls 100) 100 s
      = Ok (tt, s') ∧
    packets 8 8 ps ∧ mjoin ps = take 8 DeviceDescriptor ∧
    at_c s' (with_request r (demo_glob 2)) (c_move Idle w [] ps (cs_ctrl (u_hw s))).
Proof.
  intros r s. apply (get_descriptor_sent no_calls 100 s (demo_glob 2) (cs_ctrl (u_hw s)) r);
    [demo_side..|by left|done|done|apply Nat.leb_le; reflexivity].
Defined.

Lemma set_address_enables_witness :
  ∃ s' w, USB_Device_ProcessControlRequest (GenEvents0 := events no_calls) (DeviceApp0 := app no_calls 10) 10
      (demo 2 NoData (mk_request 0 5 9 0 0)) = Ok (tt, s') ∧
    at_c s' (with_state 3 (with_request (mk_request 0 5 9 0 0) (demo_glob 2)))
      (c_address 0x89 (c_move Idle w [] [] (cs_ctrl (u_hw (demo 2 NoData (mk_request 0 5 9 0 0)))))).
Proof.
  apply (set_address_enables no_calls 10 _ (demo_glob 2) (cs_ctrl (u_hw (demo 2 NoData (mk_request 0 5 9 0 0))))
    (mk_request 0 5 9 0 0)); [demo_side..|]. apply Nat.ltb_lt. reflexivity.
Defined.

(** Configuration 1 is accepted, configuration 2 refused. *)
Lemma set_configuration_served_witness :
  (∃ s' w, at_c s' (with_state 4 (with_config 1 (with_request (mk_request 0 9 1 0 0) (demo_glob 3))))
     (c_move Idle w [] [] (cs_ctrl (u_hw (demo 3 NoData (mk_request 0 9 1 0 0))))) ∧
   USB_Device_ProcessControlRequest (GenEvents0 := events no_calls) (DeviceApp0 := app no_calls 10) 10
     (demo 3 NoData (mk_request 0 9 1 0 0))
   = (EVENT_USB_Device_ConfigurationChanged (DeviceApp := app no_calls 10);; refuse) s') ∧
  ∃ s' w, USB_Device_ProcessControlRequest (GenEvents0 := events no_calls) (DeviceApp0 := app no_calls 10) 10
      (demo 3 NoData (mk_request 0 9 2 0 0)) = Ok (tt, s') ∧
    at_c s' (with_request (mk_request 0 9 2 0 0) (demo_glob 3))
      (c_halt (c_accept w (cs_ctrl (u_hw (demo 3 NoData (mk_request 0 9 2 0 0)))))).
Proof.
  split.
  - apply (set_configuration_served no_calls 10 _ (demo_glob 3) (cs_ctrl (u_hw (demo 3 NoData (mk_request 0 9 1 0 0))))
      (mk_request 0 9 1 0 0)); [demo_side..|apply Nat.ltb_lt; reflexivity|done].
  - apply (set_configuration_served no_calls 10 _ (demo_glob 3) (cs_ctrl (u_hw (demo 3 NoData (mk_request 0 9 2 0 0))))
      (mk_request 0 9 2 0 0)); [demo_side..|apply Nat.ltb_lt; reflexivity|done].
Defined.

(** 9600 baud, eight bits. *)
Lemma line_encoding_round_trip_witness :
  let l := [0x80; 0x25; 0; 0; 0; 0; 8]%Z in
  let s := demo 4 (Deliver l) (mk_request 0x21 0x20 0 0 7) in
  ∃ s' w, USB_Device_ProcessControlRequest (GenEvents0 := events no_calls) (DeviceApp0 := app no_calls 10) 10 s
      = Ok (tt, s') ∧
    at_c s' (with_cdc (with_line (mk_line 9600 0 0 8) initial_interface)
      (with_request (mk_request 0x21 0x20 0 0 7) (demo_glob 4))) (c_move Idle w [] [] (cs_ctrl (u_hw s))).
Proof.
  intros l s. apply (line_encoding_round_trip no_calls 10 s (demo_glob 4) (cs_ctrl (u_hw s)) _ l);
    [demo_side..|by apply (bool_decide_unpack _)|apply Nat.ltb_lt; reflexivity].
Defined.
