(* ===== verification/UsbState.v ===== *)
(** * The state of the USB stack as an invariant

    The entry points of the stack (the two interrupts, the main loop, the
    character functions of the serial port) as steps, over any hardware: what
    they keep of the globals, whatever the registers read as and whenever the
    general interrupt comes. *)

From S2P Require Import Prelude Avr UsbRegs UsbEndpoint UsbController UsbStream UsbDescriptors.
From S2P Require Import UsbRequests UsbCdc UsbHw UsbControl.
From stdpp Require Import relations.
Import Descriptors.

(** [m] keeps [P]: if [P] holds of the globals before, it does after. *)
Definition keeps {D A} (P : usbg → Prop) (m : IO (ust D) A) : Prop :=
  ∀ s a s', P (u_glob s) → m s = Ok (a, s') → P (u_glob s').

Section Keeps.
Context {D : Type} (P : usbg → Prop).

Lemma keeps_ret {A} (a : A) : keeps (D := D) P (mret a).
Proof. by intros s b s' HP [= <- <-]. Qed.

Lemma keeps_fail {A} e : keeps (D := D) (A := A) P (fail e).
Proof. by intros s b s' HP ?. Qed.

Lemma keeps_pure {A} (m : res A) : keeps (D := D) P (pure m).
Proof. intros s b s' HP. unfold pure. by destruct m; intros [= <- <-]. Qed.

Lemma keeps_bind {A B} (m : IO (ust D) A) (f : A → IO (ust D) B) :
  keeps P m → (∀ a, keeps P (f a)) → keeps P (m ≫= f).
Proof.
  intros Hm Hf s b s' HP (a & s1 & E1 & E2)%io_bind_Ok_inv. eapply Hf; [|exact E2]. by eapply Hm.
Qed.

Lemma keeps_get : keeps (D := D) P get_usb.
Proof. by intros s b s' HP [= <- <-]. Qed.

Lemma keeps_mod (f : usbg → usbg) : (∀ g, P g → P (f g)) → keeps (D := D) P (mod_usb f).
Proof. intros Hf s b s' HP [= <- <-]. by apply Hf. Qed.

Context `{Ucu D}.

Lemma keeps_rd r : keeps P (rd r).
Proof. intros s b s' HP. unfold rd. destruct (ucu_read r (u_hw s)). by intros [= <- <-]. Qed.

Lemma keeps_wr r v : keeps P (wr r v).
Proof. by intros s b s' HP [= <- <-]. Qed.

Lemma keeps_pending : keeps P pending.
Proof. intros s b s' HP. unfold pending. destruct (ucu_irqs (u_hw s)). by intros [= <- <-]. Qed.
End Keeps.

Create HintDb keeps.
#[export] Hint Resolve keeps_ret keeps_fail keeps_pure keeps_get keeps_rd keeps_wr keeps_pending : keeps.

(** Follows a program to its accesses. *)
Ltac keeps :=
  intros; autounfold with keeps; cbn zeta;
  repeat first
    [ solve [auto with keeps]
    | apply keeps_bind; intros
    | match goal with
      | |- keeps _ (match ?x with _ => _ end) => destruct x eqn:?
      end ].

(** ** Functions that keep the globals *)

Section Quiet.
Context `{Ucu D} (P : usbg → Prop).

Lemma keeps_set r v : keeps P (set_bits r v).
Proof. unfold set_bits. keeps. Qed.
Lemma keeps_clear r v : keeps P (clear_bits r v).
Proof. unfold clear_bits. keeps. Qed.
Lemma keeps_test r v : keeps P (test_bits r v).
Proof. unfold test_bits. keeps. Qed.
#[local] Hint Resolve keeps_set keeps_clear keeps_test : keeps.

Lemma keeps_bytes : keeps P Endpoint_BytesInEndpoint.
Proof. unfold Endpoint_BytesInEndpoint. keeps. Qed.
Lemma keeps_direction : keeps P Endpoint_GetEndpointDirection.
Proof. unfold Endpoint_GetEndpointDirection. keeps. Qed.
#[local] Hint Resolve keeps_direction : keeps.
Lemma keeps_current : keeps P Endpoint_GetCurrentEndpoint.
Proof. unfold Endpoint_GetCurrentEndpoint. keeps. Qed.
Lemma keeps_reset_endpoint a : keeps P (Endpoint_ResetEndpoint a).
Proof. unfold Endpoint_ResetEndpoint. keeps. Qed.

Lemma keeps_configure_loop n : ∀ i Number c0 c1, keeps P (configure_loop n i Number c0 c1).
Proof.
  induction n as [|n IH]; intros; cbn [configure_loop];
    unfold Endpoint_SelectEndpoint, Endpoint_DisableEndpoint, Endpoint_EnableEndpoint, Endpoint_IsConfigured; keeps.
Qed.
#[local] Hint Resolve keeps_configure_loop : keeps.

Lemma keeps_configure fuel a t sz b : keeps P (Endpoint_ConfigureEndpoint fuel a t sz b).
Proof. unfold Endpoint_ConfigureEndpoint, Endpoint_ConfigureEndpoint_Prv, Endpoint_SelectEndpoint. keeps. Qed.
#[local] Hint Resolve keeps_configure : keeps.

Lemma keeps_configure_table fuel t : keeps P (Endpoint_ConfigureEndpointTable fuel t).
Proof. induction t as [|e t IH]; cbn [Endpoint_ConfigureEndpointTable]; keeps. Qed.

Lemma keeps_pll k : keeps P (pll_wait k).
Proof. induction k as [|k IH]; cbn [pll_wait]; unfold USB_PLL_IsReady; keeps. Qed.

Lemma keeps_int_enable i : keeps P (USB_INT_Enable i).
Proof. unfold USB_INT_Enable. keeps. Qed.
Lemma keeps_int_disable i : keeps P (USB_INT_Disable i).
Proof. unfold USB_INT_Disable. keeps. Qed.
Lemma keeps_int_clear i : keeps P (USB_INT_Clear i).
Proof. unfold USB_INT_Clear. keeps. Qed.
Lemma keeps_int_fires i : keeps P (USB_INT_Fires i).
Proof. unfold USB_INT_Fires, USB_INT_HasOccurred, USB_INT_IsEnabled. keeps. Qed.
End Quiet.

#[export] Hint Resolve keeps_set keeps_clear keeps_test keeps_bytes keeps_direction keeps_current
  keeps_reset_endpoint keeps_configure keeps_configure_table keeps_pll
  keeps_int_enable keeps_int_disable keeps_int_clear keeps_int_fires : keeps.

#[export] Hint Unfold Endpoint_SelectEndpoint Endpoint_EnableEndpoint Endpoint_DisableEndpoint
  Endpoint_IsEnabled Endpoint_IsReadWriteAllowed Endpoint_IsConfigured Endpoint_IsINReady
  Endpoint_IsOUTReceived Endpoint_IsSETUPReceived Endpoint_ClearSETUP Endpoint_ClearIN Endpoint_ClearOUT
  Endpoint_StallTransaction Endpoint_ClearStall Endpoint_IsStalled Endpoint_ResetDataToggle
  Endpoint_Read_8 Endpoint_Write_8 USB_Device_GetFrameNumber USB_Device_IsAddressSet
  USB_Device_EnableDeviceAddress USB_VBUS_GetStatus USB_CLK_Freeze USB_CLK_Unfreeze
  USB_PLL_IsReady USB_PLL_Off : keeps.

(** ** The invariant *)

(** The tables of an interface but for the endpoint types, which the driver
    fills in. *)
Definition same_tables (c : USB_ClassInfo_CDC_Device_t) : Prop :=
  ControlInterfaceNumber c = INTERFACE_ID_CDC_CCI ∧
  with_type 0 (DataINEndpoint c) = DataINEndpoint initial_interface ∧
  with_type 0 (DataOUTEndpoint c) = DataOUTEndpoint initial_interface ∧
  with_type 0 (NotificationEndpoint c) = NotificationEndpoint initial_interface.

(** The device is in one of the six states, its configuration is one it has,
    and the interface of the serial port is the one of [VirtualSerial.c]. *)
Definition stack_ok (g : usbg) : Prop :=
  USB_DeviceState g ∈ [DEVICE_STATE_Unattached; DEVICE_STATE_Powered; DEVICE_STATE_Default;
    DEVICE_STATE_Addressed; DEVICE_STATE_Configured; DEVICE_STATE_Suspended] ∧
  (0 ≤ USB_Device_ConfigurationNumber g ≤ FIXED_NUM_CONFIGURATIONS)%Z ∧
  same_tables (VirtualSerial_CDC_Interface g).

Lemma stack_ok_state x g :
  x ∈ [DEVICE_STATE_Unattached; DEVICE_STATE_Powered; DEVICE_STATE_Default;
    DEVICE_STATE_Addressed; DEVICE_STATE_Configured; DEVICE_STATE_Suspended] →
  stack_ok g → stack_ok (with_state x g).
Proof. intros Hx (_ & Hc & Ht). done. Qed.

Lemma stack_ok_config x g : (0 ≤ x ≤ FIXED_NUM_CONFIGURATIONS)%Z → stack_ok g → stack_ok (with_config x g).
Proof. intros Hx (Hs & _ & Ht). done. Qed.

Lemma stack_ok_cdc f g : (∀ c, same_tables c → same_tables (f c)) → stack_ok g →
  stack_ok (with_cdc (f (VirtualSerial_CDC_Interface g)) g).
Proof. intros Hf (Hs & Hc & Ht). split_and!; [done|apply Hc..|by apply Hf]. Qed.

Section Stack.
Context `{Ucu D} (call_at : Z → IO (ust D) unit) (fuel : nat).
(** The callbacks of the application leave the stack's globals alone. *)
Context (Hcall : ∀ a, keeps stack_ok (call_at a)).

#[local] Instance s_events : GenEvents D := serial_events call_at.
#[local] Instance s_app : DeviceApp D := serial_app call_at fuel.

Lemma ok_state x : bool_decide (x ∈ [0; 1; 2; 3; 4; 5]%Z) = true → keeps (D := D) stack_ok (mod_usb (with_state x)).
Proof. intros Hx. apply keeps_mod. intros g. apply stack_ok_state. by apply (bool_decide_unpack _), Is_true_true. Qed.

Lemma ok_other (f : usbg → usbg) :
  (∀ g, USB_DeviceState (f g) = USB_DeviceState g ∧
        USB_Device_ConfigurationNumber (f g) = USB_Device_ConfigurationNumber g ∧
        VirtualSerial_CDC_Interface (f g) = VirtualSerial_CDC_Interface g) →
  keeps (D := D) stack_ok (mod_usb f).
Proof. intros Hf. apply keeps_mod. intros g. unfold stack_ok. by destruct (Hf g) as (-> & -> & ->). Qed.

Lemma ok_config x : (0 ≤ x ≤ 1)%Z → keeps (D := D) stack_ok (mod_usb (with_config x)).
Proof. intros Hx. apply keeps_mod. intros g. by apply stack_ok_config. Qed.

Lemma ok_cdc f : (∀ c, same_tables c → same_tables (f c)) → keeps (D := D) stack_ok (mod_cdc f).
Proof. intros Hf. apply keeps_mod. intros g. by apply stack_ok_cdc. Qed.

#[local] Hint Extern 2 (keeps _ (mod_usb (with_state _))) => apply ok_state; repeat case_match; reflexivity : keeps.
#[local] Hint Extern 3 (keeps _ (mod_usb _)) => apply ok_other; intros; split_and!; reflexivity : keeps.
#[local] Hint Extern 2 (keeps _ (mod_cdc _)) => apply ok_cdc; intros; assumption : keeps.
#[local] Hint Resolve ok_config Hcall : keeps.

Lemma ok_pointer p : keeps stack_ok (call_pointer call_at p).
Proof. unfold call_pointer. keeps. Qed.
Lemma ok_stub : keeps (D := D) stack_ok USB_Event_Stub.
Proof. apply keeps_ret. Qed.
#[local] Hint Resolve ok_pointer ok_stub : keeps.

Lemma ok_vbus : keeps stack_ok (gen_vbus fuel).
Proof. unfold gen_vbus, USB_PLL_On, USB_PLL_Off. keeps. Qed.
Lemma ok_suspend : keeps stack_ok gen_suspend.
Proof. unfold gen_suspend, USB_PLL_Off. keeps. Qed.
Lemma ok_wakeup : keeps stack_ok (gen_wakeup fuel).
Proof. unfold gen_wakeup, USB_PLL_On. keeps. Qed.
Lemma ok_reset : keeps stack_ok (gen_reset fuel).
Proof. unfold gen_reset. keeps. apply ok_config. lia. Qed.
#[local] Hint Resolve ok_vbus ok_suspend ok_wakeup ok_reset : keeps.

Lemma ok_gen : keeps stack_ok (USB_GEN_vect fuel).
Proof. unfold USB_GEN_vect, when_fires, gen_sof. keeps. Qed.
#[local] Hint Resolve ok_gen : keeps.

Lemma ok_run_gen n : keeps stack_ok (run_gen fuel n).
Proof. induction n as [|n IH]; cbn [run_gen]; keeps. Qed.
#[local] Hint Resolve ok_run_gen : keeps.

Lemma ok_read_state : keeps stack_ok (read_DeviceState fuel).
Proof. unfold read_DeviceState. keeps. Qed.
#[local] Hint Resolve ok_read_state : keeps.

(** ** Waiting and streams *)

Lemma ok_stage k ready : keeps stack_ok ready → keeps stack_ok (stage_loop fuel k ready).
Proof. intros Hr. induction k as [|k IH]; cbn [stage_loop]; keeps. Qed.
#[local] Hint Resolve ok_stage : keeps.

Lemma ok_status_stage : keeps stack_ok (Endpoint_ClearStatusStage fuel).
Proof. unfold Endpoint_ClearStatusStage. keeps. Qed.

Lemma ok_ready_loop k : ∀ f t, keeps stack_ok (ready_loop fuel k f t).
Proof. induction k as [|k IH]; intros; cbn [ready_loop]; keeps. Qed.
#[local] Hint Resolve ok_status_stage ok_ready_loop : keeps.

Lemma ok_wait_ready : keeps stack_ok (Endpoint_WaitUntilReady fuel).
Proof. unfold Endpoint_WaitUntilReady. keeps. Qed.
#[local] Hint Resolve ok_wait_ready : keeps.

Section Template.
Context {B : Type} (clear : IO (ust D) unit) (transfer : Z → B → IO (ust D) B) (move : Z).
Context (Hclear : keeps stack_ok clear) (Htransfer : ∀ p b, keeps stack_ok (transfer p b)).

Lemma ok_rw_loop k : ∀ buf p l n pr, keeps stack_ok (rw_loop fuel clear transfer move k buf p l n pr).
Proof. induction k as [|k IH]; intros; cbn [rw_loop]; keeps. Qed.
#[local] Hint Resolve ok_rw_loop : keeps.

Lemma ok_rw_stream start buf l pr : keeps stack_ok (rw_stream fuel clear transfer move start buf l pr).
Proof. unfold rw_stream. keeps. Qed.
End Template.

Lemma ok_write_stream buf l pr : keeps stack_ok (Endpoint_Write_Stream_LE fuel buf l pr).
Proof.
  unfold Endpoint_Write_Stream_LE. apply keeps_bind; [|keeps].
  apply ok_rw_stream; [keeps|]. unfold put_byte. keeps.
Qed.
Lemma ok_write_pstream buf l pr : keeps stack_ok (Endpoint_Write_PStream_LE fuel buf l pr).
Proof. exact (ok_write_stream buf l pr). Qed.
#[local] Hint Resolve ok_write_stream ok_write_pstream : keeps.

Lemma ok_line_error b : keeps stack_ok (line_error fuel b).
Proof. unfold line_error. keeps. Qed.
#[local] Hint Resolve ok_line_error : keeps.

Lemma ok_fill_bank buf move n : ∀ p b, keeps (D := D) stack_ok (fill_bank buf move n p b).
Proof. induction n as [|n IH]; intros; cbn [fill_bank]; keeps. Qed.
#[local] Hint Resolve ok_fill_bank : keeps.

Lemma ok_control_write_loop buf move k : ∀ n p f, keeps stack_ok (control_write_loop fuel buf move k n p f).
Proof. induction k as [|k IH]; intros; cbn [control_write_loop]; keeps. Qed.

Lemma ok_status_loop ready b k : keeps stack_ok ready → keeps stack_ok (status_loop fuel ready b k).
Proof. intros Hr. induction k as [|k IH]; cbn [status_loop]; keeps. Qed.
#[local] Hint Resolve ok_control_write_loop ok_status_loop : keeps.

Lemma ok_control_write move start buf l : keeps stack_ok (control_write fuel move start buf l).
Proof. unfold control_write. keeps. Qed.
#[local] Hint Resolve ok_control_write : keeps.

(** ** Requests *)

Lemma ok_request : keeps (D := D) stack_ok request.
Proof. unfold request. keeps. Qed.
Lemma ok_wait_in k : keeps (D := D) stack_ok (wait_in k).
Proof. induction k as [|k IH]; cbn [wait_in]; keeps. Qed.
#[local] Hint Resolve ok_request ok_wait_in : keeps.

Lemma ok_set_address : keeps stack_ok (USB_Device_SetAddress fuel).
Proof. unfold USB_Device_SetAddress, USB_Device_SetDeviceAddress. keeps. Qed.

Lemma ok_get_cdc : keeps (D := D) stack_ok get_cdc.
Proof. unfold get_cdc. keeps. Qed.
#[local] Hint Resolve ok_get_cdc : keeps.

Lemma ok_configure_endpoints : keeps stack_ok (CDC_Device_ConfigureEndpoints fuel).
Proof. unfold CDC_Device_ConfigureEndpoints. keeps. Qed.
#[local] Hint Resolve ok_configure_endpoints : keeps.

Lemma ok_configuration_changed : keeps stack_ok EVENT_USB_Device_ConfigurationChanged.
Proof. unfold EVENT_USB_Device_ConfigurationChanged, s_app, serial_app. keeps. Qed.
#[local] Hint Resolve ok_configuration_changed : keeps.

(** The only assignment of the configuration number from outside: the guard
    bounds it. *)
Lemma ok_set_configuration : keeps stack_ok (USB_Device_SetConfiguration fuel).
Proof.
  unfold USB_Device_SetConfiguration. apply keeps_bind; [keeps|]. intros r.
  case_bool_decide as Hv; [keeps|]. pose proof (u8_range (wValue r)) as Hr. unfold is_u8 in Hr.
  assert (0 ≤ u8 (wValue r) ≤ 1)%Z by (unfold FIXED_NUM_CONFIGURATIONS in Hv; lia). keeps.
Qed.

Lemma ok_get_configuration : keeps stack_ok (USB_Device_GetConfiguration fuel).
Proof. unfold USB_Device_GetConfiguration. keeps. Qed.

Lemma ok_get_descriptor : keeps stack_ok (USB_Device_GetDescriptor fuel).
Proof.
  unfold USB_Device_GetDescriptor, USB_Device_GetInternalSerialDescriptor,
    Endpoint_Write_Control_Stream_LE, Endpoint_Write_Control_PStream_LE. keeps.
Qed.

Lemma ok_get_status : keeps stack_ok (USB_Device_GetStatus fuel).
Proof. unfold USB_Device_GetStatus, current_status, Endpoint_Write_16_LE. keeps. Qed.

Lemma ok_feature : keeps stack_ok (USB_Device_ClearSetFeature fuel).
Proof. unfold USB_Device_ClearSetFeature, change_feature, halt_feature. keeps. Qed.
#[local] Hint Resolve ok_set_address ok_set_configuration ok_get_configuration ok_get_descriptor
  ok_get_status ok_feature : keeps.

Lemma ok_standard r : keeps stack_ok (standard_request fuel r).
Proof. unfold standard_request. keeps. Qed.

Lemma ok_class : keeps stack_ok (CDC_Device_ProcessControlRequest fuel).
Proof.
  unfold CDC_Device_ProcessControlRequest, cdc_get_line, cdc_set_line, cdc_set_control, cdc_break,
    Endpoint_Write_32_LE, Endpoint_Read_32_LE, CDC_Device_Event_Stub. keeps.
Qed.
#[local] Hint Resolve ok_standard ok_class : keeps.

Lemma ok_process : keeps stack_ok (USB_Device_ProcessControlRequest fuel).
Proof.
  unfold USB_Device_ProcessControlRequest, read_request, EVENT_USB_Device_ControlRequest, s_app, serial_app.
  keeps.
Qed.
#[local] Hint Resolve ok_process : keeps.

Lemma ok_com : keeps stack_ok (USB_COM_vect fuel).
Proof. unfold USB_COM_vect. keeps. Qed.
Lemma ok_task : keeps stack_ok (USB_USBTask fuel).
Proof. unfold USB_USBTask, USB_DeviceTask. keeps. Qed.
#[local] Hint Resolve ok_task : keeps.

(** ** The serial port *)

Lemma ok_if_open {A} (x : A) m : keeps stack_ok m → keeps stack_ok (if_open fuel x m).
Proof. intros Hm. unfold if_open, not_open. keeps. Qed.

Lemma ok_flush : keeps stack_ok (CDC_Device_Flush fuel).
Proof. apply ok_if_open. keeps. Qed.
#[local] Hint Resolve ok_flush : keeps.

Lemma ok_cdc_task : keeps stack_ok (CDC_Device_USBTask fuel).
Proof. apply ok_if_open. keeps. Qed.
Lemma ok_send_byte x : keeps stack_ok (CDC_Device_SendByte fuel x).
Proof. apply ok_if_open. keeps. Qed.
Lemma ok_send_data buf l : keeps stack_ok (CDC_Device_SendData fuel buf l).
Proof. apply ok_if_open. keeps. Qed.
Lemma ok_receive_byte : keeps stack_ok (CDC_Device_ReceiveByte fuel).
Proof. apply ok_if_open. keeps. Qed.
#[local] Hint Resolve ok_cdc_task ok_send_byte ok_send_data ok_receive_byte : keeps.

Lemma ok_mainloop : keeps stack_ok (USB_Mainloop_Handler call_at fuel).
Proof. unfold USB_Mainloop_Handler. apply keeps_bind; [apply ok_cdc_task|]. intros _. apply ok_task. Qed.

Context (wdt_disable : IO (ust D) unit) (clock_prescale_set : Z → IO (ust D) unit).
Context (Hwdt : keeps stack_ok wdt_disable) (Hclock : ∀ d, keeps stack_ok (clock_prescale_set d)).

Lemma ok_setup a b : keeps stack_ok (SetupHardware wdt_disable clock_prescale_set fuel a b).
Proof.
  unfold SetupHardware, USB_Init, USB_ResetInterface, USB_Init_Device, USB_INT_DisableAllInterrupts,
    USB_INT_ClearAllInterrupts, USB_Controller_Reset, USB_OTGPAD_Off, USB_OTGPAD_On, USB_REG_On, USB_REG_Off,
    USB_Device_SetLowSpeed, USB_Device_SetFullSpeed, USB_Attach. keeps. apply ok_config. lia.
Qed.

(** ** Steps *)

(** An entry point of the stack runs to its end, or the hardware changes. *)
Inductive stack_step : ust D → ust D → Prop :=
  | step_setup a b s s' :
      SetupHardware wdt_disable clock_prescale_set fuel a b s = Ok (tt, s') → stack_step s s'
  | step_gen s s' : USB_GEN_vect fuel s = Ok (tt, s') → stack_step s s'
  | step_com s s' : USB_COM_vect fuel s = Ok (tt, s') → stack_step s s'
  | step_main s s' : USB_Mainloop_Handler call_at fuel s = Ok (tt, s') → stack_step s s'
  | step_putchar x e s s' : CDC_Device_putchar fuel x s = Ok (e, s') → stack_step s s'
  | step_getchar x s s' : CDC_Device_getchar fuel s = Ok (x, s') → stack_step s s'
  | step_flush e s s' : CDC_Device_Flush fuel s = Ok (e, s') → stack_step s s'
  | step_send buf l e s s' : CDC_Device_SendData fuel buf l s = Ok (e, s') → stack_step s s'
  | step_hardware s d : stack_step s (mk_ust (u_glob s) d).

Lemma stack_step_ok s s' : stack_step s s' → stack_ok (u_glob s) → stack_ok (u_glob s').
Proof.
  destruct 1 as [a b s s' E|s s' E|s s' E|s s' E|x e s s' E|x s s' E|e s s' E|buf l e s s' E|s d]; intros Hs;
    try done; (eapply (fun m (Hk : keeps stack_ok m) => Hk); [|exact Hs|exact E]).
  - apply ok_setup.
  - apply ok_gen.
  - apply ok_com.
  - apply ok_mainloop.
  - unfold CDC_Device_putchar. keeps.
  - unfold CDC_Device_getchar. keeps.
  - apply ok_flush.
  - apply ok_send_data.
Qed.

(** After a reset the globals are zero but for the initialised interface. *)
Definition boot_globals : usbg :=
  mk_usbg 0 0 false false false (mk_request 0 0 0 0 0) initial_interface 0 0.

(** C6: however the interrupts, the main loop and the character functions
    follow each other after a reset, and whatever the registers read as, the
    device stays in one of its six states with a configuration it has, and the
    interface keeps the number, endpoint addresses, sizes and banks of
    [VirtualSerial.c]: the port always talks on endpoints 3 and 4. *)
Theorem stack_invariant s s' :
  u_glob s = boot_globals → rtc stack_step s s' → stack_ok (u_glob s').
Proof.
  intros Hb Hr. assert (stack_ok (u_glob s)) as Hs.
  { rewrite Hb. split_and!; [by apply (bool_decide_unpack _)|done|done|done..]. }
  clear Hb. induction Hr as [s|s1 s2 s3 H12 _ IH]; [done|]. apply IH. by eapply stack_step_ok.
Qed.
End Stack.

(** ** The theorem at work: a reset, the set-up, an unknown request by
    interrupt, a round of the main loop *)

Definition boot : ust csim :=
  mk_ust boot_globals (mk_csim (mk_ctrl 0 (Setup NoData) 0 [0x40; 0x55; 0; 0; 0; 0; 0; 0]%Z [] false 0 []) false).

Definition end_of {A} (s : ust csim) (r : res (A * ust csim)) : ust csim :=
  match r with Ok (_, s') => s' | Err _ => s end.

Abbreviation nothing := (λ _ : Z, mret (M := IO (ust csim)) tt).
Abbreviation demo_step := (stack_step nothing 20 (mret tt) nothing).

Definition boot1 := end_of boot (SetupHardware (mret tt) nothing 20 0 0 boot).
Definition boot2 := end_of boot1
  (USB_COM_vect (GenEvents0 := s_events nothing) (DeviceApp0 := s_app nothing 20) 20 boot1).
Definition boot3 := end_of boot2 (USB_Mainloop_Handler nothing 20 boot2).

Lemma stack_invariant_witness : rtc demo_step boot boot3 ∧ stack_ok (u_glob boot3).
Proof.
  assert (rtc demo_step boot boot3) as Hr.
  { apply (rtc_l _ _ boot1); [eapply (step_setup _ _ _ _ 0 0); vm_compute; reflexivity|].
    apply (rtc_l _ _ boot2); [eapply step_com; vm_compute; reflexivity|].
    apply (rtc_l _ _ boot3); [eapply step_main; vm_compute; reflexivity|]. apply rtc_refl. }
  split; [exact Hr|].
  apply (stack_invariant nothing 20 (λ _, keeps_ret _ _) (mret tt) nothing (keeps_ret _ _) (λ _, keeps_ret _ _) boot);
    [reflexivity|exact Hr].
Defined.
