(* ===== verification/Console.v ===== *)
(** * The serial console

    Translation of [main/lufa.c]: a command interpreter for the FRAM on the
    serial port.  [char] is signed on the AVR, so character buffers hold
    values from -128 to 127; where a function takes [uint8_t] they are
    converted. *)

From S2P Require Import Prelude HuffmanMem Avr Board I2cMaster Fram Store Leds Controller ControllerFiles.
From stdpp Require Import strings.
Import I2c.

Module Console.

(** Conversion of an [int] to [char]. *)
Definition to_char (x : Z) : Z := ((x + 128) `mod` 256 - 128)%Z.

Inductive input_handler := handleCommand_fn | handle_memory_location_fn.

Record con (D : Type) := mk_con { handler : input_handler; mem_location : Z; con_hw : D }.
Arguments mk_con {_} _ _ _.
Arguments handler {_} _.
Arguments mem_location {_} _.
Arguments con_hw {_} _.

(** [atoi]: blanks, a sign and digits; the result is an [int]. *)
Fixpoint digits (l : list Z) (acc : Z) : Z :=
  match l with
  | c :: l' => if bool_decide (48 ≤ c ≤ 57)%Z then digits l' (acc * 10 + (c - 48)) else acc
  | [] => acc
  end.
Fixpoint blanks (l : list Z) : list Z :=
  match l with
  | c :: l' => if bool_decide (c = 32 ∨ 9 ≤ c ≤ 13)%Z then blanks l' else l
  | [] => []
  end.
Definition atoi (l : list Z) : Z :=
  match blanks l with
  | c :: l' => if bool_decide (c = 45%Z) then - digits l' 0
               else if bool_decide (c = 43%Z) then digits l' 0 else digits (c :: l') 0
  | [] => 0
  end%Z.

Section Code.
Context `{Mcu D} (fuel : nat).
(** What uninitialised automatic variables hold. *)
Context (junk : nat → Z) (junk_node : nat → Huffman.node_t) (junk_queue : nat → Huffman.queue_t)
        (junk_info : nat → Huffman.encoding_info_t).

Abbreviation St := (con D).

Definition hw_ {A} (m : IO D A) : IO St A := λ s,
  match m (con_hw s) with
  | Ok (a, d) => Ok (a, mk_con (handler s) (mem_location s) d)
  | Err e => Err e
  end.
Definition set_handler (h : input_handler) : IO St unit := λ s,
  Ok (tt, mk_con h (mem_location s) (con_hw s)).
Definition set_location (x : Z) : IO St unit := λ s, Ok (tt, mk_con (handler s) x (con_hw s)).
Definition get_location : IO St Z := λ s, Ok (mem_location s, s).
Definition get_handler : IO St input_handler := λ s, Ok (handler s, s).

Definition uninit (n : nat) : list Z := junk <$> seq 0 n.

(** [char c = EOF; while (c == EOF) { USB_Mainloop_Handler(); c = fgetc(stdin); }] *)
Fixpoint read_char (k : nat) : IO D Z :=
  match k with
  | O => fail NoFuel
  | S k' =>
      usb_task;;
      x ← fgetc;
      if bool_decide (to_char x = EOF) then read_char k' else mret (to_char x)
  end.

(** [buff] is position [pos] of the array [buf]. *)
Fixpoint read_line_loop (k : nat) (buf : list Z) (pos max_len i : nat) : IO D (nat * list Z) :=
  match k with
  | O => fail NoFuel
  | S k' =>
      if bool_decide (i < max_len) then
        c ← read_char fuel;
        if bool_decide (c = 10%Z) then read_line_loop k' buf pos max_len i
        else if bool_decide (c = 13%Z) then mret (i, buf)
        else
          printf (str "%c") [c];;
          usb_task;;
          buf' ← pure (Prelude.store buf (pos + i) c);
          read_line_loop k' buf' pos max_len (S i)
      else mret (i, buf)
  end.

Definition read_line (buf : list Z) (pos max_len : nat) : IO D (nat * list Z) :=
  '(i, buf') ← read_line_loop fuel buf pos max_len 0;
  buf'' ← pure (Prelude.store buf' (pos + i) 0%Z);
  mret (i, buf'').

Fixpoint read_bytes (n i : nat) (buf : list Z) : IO D (list Z) :=
  match n with
  | O => mret buf
  | S n' =>
      c ← read_char fuel;
      usb_task;;
      buf' ← pure (Prelude.store buf i c);
      read_bytes n' (S i) buf'
  end.

Definition test_huffman : IO D unit :=
  '(_, data) ← read_line (uninit 128) 0 128;
  n ← pure (Controller.strlen data);
  out ← pure (Huffman.huffman_compress junk_node junk_queue junk_info (u8 <$> data) n (uninit 128));
  o1 ← pure (load out 1);
  o2 ← pure (load out 2);
  let num_bits := u16 (Z.lor (Z.shiftl o1 8) o2 + 24) in
  printf (10%Z :: str "orignal size: %d bits, %d bytes" ++ crlf) [(n * 8)%Z; n];;
  printf (10%Z :: str "comppressed size: %d bits, %d bytes" ++ crlf) [num_bits; (num_bits / 8)%Z].

Definition handle_memory_location (location : list Z) : IO St unit :=
  set_location (u16 (atoi location));;
  x ← get_location;
  hw_ (printf (str "new address is %d" ++ crlf ++ [10%Z]) [x]);;
  set_handler handleCommand_fn.

(** The loop of [execute_pagewrite]; the blocks have one byte. *)
Fixpoint pagewrite_loop (k : nat) (bytes_written total : Z) : IO D Z :=
  match k with
  | O => fail NoFuel
  | S k' =>
      if bool_decide (bytes_written < total)%Z then
        block ← read_bytes 1 0 (uninit 1);
        c ← pure (load block 0);
        i2c_write fuel (u8 c);;
        pagewrite_loop k' (u16 (bytes_written + 1)) total
      else mret bytes_written
  end.

Definition execute_pagewrite : IO D unit :=
  printf (str "In execute_pagewrite" ++ [10%Z]) [];;
  usb_task;;
  buff ← read_bytes 2 0 (uninit 2);
  b1 ← pure (load buff 1);
  b0 ← pure (load buff 0);
  let pagewrite_total_size := u16 (Z.lor (Z.shiftl b1 8) b0) in
  i2c_write_start fuel MB85RC_DEFAULT_ADDRESS 0;;
  n ← pagewrite_loop fuel 0 pagewrite_total_size;
  i2c_stop fuel;;
  printf (str "wrote %d bytes successfully" ++ crlf) [n];;
  usb_task.

(** [for (int i = 0; i < 16; i++) printf("%c ", (char) buffer[i]);] *)
Fixpoint print_chars (l : list Z) : IO D unit :=
  match l with [] => mret tt | c :: l' => printf (str "%c ") [to_char c];; print_chars l' end.

Definition read_command : IO St unit :=
  at_ ← get_location;
  '(e, buffer) ← hw_ (i2c_readReg fuel MB85RC_DEFAULT_ADDRESS at_ (replicate 16 0%Z) 0 16);
  if bool_decide (e ≠ 0%Z) then hw_ (printf (str "ERROR in read" ++ crlf) [])
  else
    hw_ (printf (str "addr 0x%04x ") [at_]);;
    hw_ (print_chars buffer);;
    hw_ (printf crlf []).

(** [sprintf] puts the text and its terminator into the 16-byte buffer. *)
Definition write_command : IO St unit :=
  at_ ← get_location;
  e ← hw_ (i2c_writeReg fuel MB85RC_DEFAULT_ADDRESS at_
             (write_at (uninit 16) 0 (str "hello world" ++ [0%Z])) 0 11);
  if bool_decide (e ≠ 0%Z) then hw_ (printf (str "ERROR in write" ++ crlf) []) else mret tt.

Definition menuString : list Z :=
  str "(r)ead // (w)rite // (s)et address // (p)agewrite // (h)uffman test" ++ crlf.

Definition handleCommand (command : list Z) : IO St unit :=
  c ← pure (load command 0);
  (if bool_decide (c = 82 ∨ c = 114)%Z then read_command
   else if bool_decide (c = 87 ∨ c = 119)%Z then write_command
   else if bool_decide (c = 83 ∨ c = 115)%Z then
     hw_ (printf (str "enter new address: " ++ crlf) []);;
     hw_ usb_task;;
     set_handler handle_memory_location_fn
   else if bool_decide (c = 112 ∨ c = 80)%Z then
     hw_ (printf (str "pagewrite mode, enter total size" ++ crlf) []);;
     hw_ usb_task;;
     hw_ execute_pagewrite
   else if bool_decide (c = 104 ∨ c = 72)%Z then
     hw_ (printf (str "test huffman_compress" ++ [10%Z]) []);;
     hw_ test_huffman
   else hw_ (printf menuString []));;
  hw_ usb_task.

Definition COMMAND_BUFF_LEN : nat := 16.

Definition handleInput (c : Z) : IO St unit :=
  let command := <[0 := c]> (uninit (COMMAND_BUFF_LEN + 1)) in
  hw_ (printf (str "%c") [c]);;
  '(_, command) ← hw_ (read_line command 1 COMMAND_BUFF_LEN);
  hw_ (printf crlf []);;
  hw_ usb_task;;
  n ← pure (Controller.strlen command);
  if bool_decide (n = 0%Z) then mret tt
  else if bool_decide (n = Z.of_nat COMMAND_BUFF_LEN) then
    hw_ (printf (str "Buffer full" ++ crlf) []);; hw_ usb_task
  else
    h ← get_handler;
    match h with
    | handleCommand_fn => handleCommand command
    | handle_memory_location_fn => handle_memory_location command
    end.
End Code.

(** ** The line reader *)

(** Characters that are taken into the line. *)
Definition plain (c : Z) : Prop :=
  is_u8 c ∧ c ≠ 255%Z ∧ c ≠ 10%Z ∧ c ≠ 13%Z.

#[export] Instance plain_dec c : Decision (plain c).
Proof. unfold plain, is_u8. apply _. Defined.

Lemma to_char_eof c : is_u8 c → c ≠ 255%Z → to_char c ≠ EOF.
Proof.
  unfold is_u8, to_char, EOF. intros Hu Hc E. pose proof (Z.div_mod (c + 128) 256).
  pose proof (Z.mod_pos_bound (c + 128) 256). lia.
Qed.

Lemma plain_char c k : plain c → (0 ≤ k < 128)%Z → c ≠ k → to_char c ≠ k.
Proof.
  unfold plain, is_u8, to_char. intros (Hu & _) Hk Hne E.
  pose proof (Z.div_mod (c + 128) 256). pose proof (Z.mod_pos_bound (c + 128) 256). lia.
Qed.

Section Lines.
Context `{Board D B} (fuel : nat) (Hfuel : 0 < fuel).

(** The unit is idle and stdio is in state [i]. *)
Definition sees (d : D) (i : io) : Prop :=
  hview d = mk_hw (h_twi (hview d)) i ∧ tw_pend (h_twi (hview d)) = 0.

Lemma sees_op {A} (m : IO D A) a i i' d : io_op m a i i' → sees d i →
  ∃ d', m d = Ok (a, d') ∧ sees d' i'.
Proof.
  intros Hm [Hv Hp]. destruct (Hm d Hv Hp) as (d' & E & Hd'). exists d'. split; [done|].
  split; rewrite Hd'; [done|exact Hp].
Qed.

Lemma read_char_run d i c l : sees d i → io_in i = Some c :: l → is_u8 c → c ≠ 255%Z →
  ∃ d' i', read_char fuel d = Ok (to_char c, d') ∧ sees d' i' ∧ io_in i' = l ∧ io_out i' = io_out i.
Proof.
  intros Hs Hi Hu Hc. destruct fuel as [|k]; [lia|]. cbn [read_char].
  destruct (sees_op _ _ _ _ _ (usb_op i) Hs) as (d1 & E1 & Hs1). rewrite (io_bind_Ok _ _ _ _ _ E1).
  destruct (sees_op _ _ _ _ _ (getc_op i) Hs1) as (d2 & E2 & Hs2). rewrite (io_bind_Ok _ _ _ _ _ E2).
  unfold io_getc in *. rewrite Hi in *. cbn [fst snd] in *.
  rewrite bool_decide_false by (by apply to_char_eof). by eexists d2, _.
Qed.

(** One character of the line. *)
Lemma read_line_step k buf pos max i d io_ c l :
  sees d io_ → io_in io_ = Some c :: l → plain c → i < max → pos + i < length buf →
  ∃ d' io', sees d' io' ∧ io_in io' = l ∧
    read_line_loop fuel (S k) buf pos max i d =
    read_line_loop fuel k (<[pos + i := to_char c]> buf) pos max (S i) d'.
Proof.
  intros Hs Hi Hc Hmax Hlen. cbn [read_line_loop]. rewrite bool_decide_true by done.
  destruct (read_char_run d io_ c l Hs Hi) as (d1 & i1 & E1 & Hs1 & Hl1 & _); [apply Hc|apply Hc|].
  rewrite (io_bind_Ok _ _ _ _ _ E1).
  rewrite (bool_decide_false (_ = 10%Z)) by (apply plain_char; [done|lia|apply Hc]).
  rewrite (bool_decide_false (_ = 13%Z)) by (apply plain_char; [done|lia|apply Hc]).
  destruct (sees_op _ _ _ _ _ (print_op (str "%c") [to_char c] i1) Hs1) as (d2 & E2 & Hs2).
  rewrite (io_bind_Ok _ _ _ _ _ E2).
  destruct (sees_op _ _ _ _ _ (usb_op _) Hs2) as (d3 & E3 & Hs3). rewrite (io_bind_Ok _ _ _ _ _ E3).
  rewrite store_Ok by done. rewrite io_bind_pure. by eexists d3, _.
Qed.

Lemma read_line_loop_run t : ∀ k buf pos max i d io_ l,
  sees d io_ → io_in io_ = (Some <$> t) ++ l → Forall plain t → i + length t ≤ max →
  pos + i + length t ≤ length buf →
  ∃ d' io', sees d' io' ∧ io_in io' = l ∧
    read_line_loop fuel (length t + k) buf pos max i d =
    read_line_loop fuel k (write_at buf (pos + i) (to_char <$> t)) pos max (i + length t) d'.
Proof.
  induction t as [|c t IH]; intros k buf pos max i d io_ l Hs Hi Ht Hmax Hlen.
  { exists d, io_. rewrite Nat.add_0_r. by split_and!. }
  apply Forall_cons in Ht as [Hc Ht]. cbn [length fmap list_fmap app] in *.
  destruct (read_line_step (length t + k) buf pos max i d io_ c _ Hs Hi Hc)
    as (d1 & i1 & Hs1 & Hl1 & E1); [lia|lia|].
  destruct (IH k (<[pos + i := to_char c]> buf) pos max (S i) d1 i1 l Hs1 Hl1 Ht)
    as (d2 & i2 & Hs2 & Hl2 & E2); [lia|rewrite length_insert; lia|].
  exists d2, i2. split_and!; [done|done|]. rewrite Nat.add_succ_l, E1, E2. cbn [write_at].
  by rewrite !Nat.add_succ_r.
Qed.

(** A line shorter than the limit, ended by a return, is stored with its
    terminator; the rest of the buffer and of the input is untouched. *)
Theorem read_line_stores d i t l buf pos max :
  sees d i → io_in i = (Some <$> t) ++ Some 13%Z :: l → Forall plain t →
  length t < max → pos + length t < length buf → length t < fuel →
  ∃ d' i', read_line fuel buf pos max d
           = Ok (length t, write_at buf pos ((to_char <$> t) ++ [0%Z]), d') ∧
    sees d' i' ∧ io_in i' = l.
Proof.
  intros Hs Hi Ht Hmax Hlen Hf. unfold read_line.
  destruct (read_line_loop_run t (fuel - length t) buf pos max 0 d i _ Hs Hi Ht)
    as (d1 & i1 & Hs1 & Hl1 & E1); [lia|lia|].
  replace (length t + (fuel - length t)) with fuel in E1 by lia.
  destruct (read_char_run d1 i1 13 l Hs1 Hl1) as (d2 & i2 & E2 & Hs2 & Hl2 & _);
    [unfold is_u8; lia|lia|].
  exists d2, i2. split_and!; [|done|done].
  assert (read_line_loop fuel fuel buf pos max 0 d
    = Ok (length t, write_at buf pos (to_char <$> t), d2)) as E3.
  { rewrite E1. replace (fuel - length t) with (S (fuel - length t - 1)) by lia.
    cbn [read_line_loop]. rewrite bool_decide_true by lia. rewrite (io_bind_Ok _ _ _ _ _ E2).
    change (to_char 13) with 13%Z. rewrite bool_decide_false, bool_decide_true by done.
    by rewrite Nat.add_0_r. }
  rewrite (io_bind_Ok _ _ _ _ _ E3).
  rewrite store_Ok by (by rewrite length_write_at). rewrite io_bind_pure.
  by rewrite write_at_app, length_fmap.
Qed.

(** A line as long as the limit is terminated behind the buffer: the
    console's command buffer has one byte less than the reader writes. *)
Theorem read_line_overruns d i t l buf pos :
  sees d i → io_in i = (Some <$> t) ++ l → Forall plain t →
  length buf = pos + length t → length t < fuel →
  read_line fuel buf pos (length t) d = Err OutOfBounds.
Proof.
  intros Hs Hi Ht Hlen Hf. unfold read_line.
  destruct (read_line_loop_run t (fuel - length t) buf pos (length t) 0 d i l Hs Hi Ht)
    as (d1 & i1 & Hs1 & Hl1 & E1); [lia|lia|].
  replace (length t + (fuel - length t)) with fuel in E1 by lia.
  assert (read_line_loop fuel fuel buf pos (length t) 0 d
    = Ok (length t, write_at buf (pos + 0) (to_char <$> t), d1)) as E3.
  { rewrite E1. replace (fuel - length t) with (S (fuel - length t - 1)) by lia.
    cbn [read_line_loop]. by rewrite bool_decide_false by lia. }
  rewrite (io_bind_Ok _ _ _ _ _ E3).
  unfold Prelude.store. rewrite lookup_ge_None_2; [done|]. rewrite length_write_at. lia.
Qed.
End Lines.

(** The command buffer of [handleInput] and a line of sixteen characters. *)
Definition sixteen : list Z := replicate 16 114%Z.

Definition typed (l : list Z) : io := mk_io ∅ [] (Some <$> l) [] [].

Lemma read_line_overruns_witness :
  read_line 100 (replicate (COMMAND_BUFF_LEN + 1) 0%Z) 1 16 (bare_board (typed (sixteen ++ [13%Z])))
  = Err OutOfBounds.
Proof.
  apply (read_line_overruns (D := hw unit) (B := unit) 100 ltac:(lia)
           (bare_board (typed (sixteen ++ [13%Z]))) (typed (sixteen ++ [13%Z])) sixteen [Some 13%Z]
           (replicate (COMMAND_BUFF_LEN + 1) 0%Z) 1);
    [by split|reflexivity|by apply (bool_decide_unpack _)|reflexivity|simpl; lia].
Defined.

Lemma read_line_stores_witness :
  ∃ d' i', read_line 100 (replicate 17 0%Z) 1 16 (bare_board (typed [119; 13; 65]%Z))
    = Ok (1, 0%Z :: 119%Z :: 0%Z :: replicate 14 0%Z, d') ∧
    sees (D := hw unit) (B := unit) d' i' ∧ io_in i' = [Some 65%Z].
Proof.
  apply (read_line_stores (D := hw unit) (B := unit) 100 ltac:(lia)
           (bare_board (typed [119; 13; 65]%Z)) (typed [119; 13; 65]%Z) [119%Z] [Some 65%Z]
           (replicate 17 0%Z) 1 16);
    [by split|reflexivity|by apply (bool_decide_unpack _)|simpl; lia|simpl; lia|simpl; lia].
Defined.
End Console.
