(* ===== verification/HuffmanTool.v ===== *)
(** * The desktop test program

    Translation of [huffman/main.c], which compresses and restores one string
    and prints the compressed bytes, and of [count_distinct_chars], the one
    function [huffman/huffman.c] has that the firmware copies do not. *)

From S2P Require Import Prelude HuffmanMem HuffmanSpec HuffmanLib Avr Board Controller.
From stdpp Require Import strings.
Import Huffman.

Module Tool.

(** [counted_chars[c / 8] |= 1 << (c % 32)] for [i] from 0 to [data_size]: the
    loop reads [data[data_size]] every time. *)
Definition count_step (data : list Z) (data_size : Z) (_ : nat) (counted : list Z) : res (list Z) :=
  c ← load data (Z.to_nat data_size);
  x ← load counted (Z.to_nat (c / 8));
  store counted (Z.to_nat (c / 8)) (u32 (Z.lor x (Z.shiftl 1 (c `mod` 32)))).

(** The bits of the eight words. *)
Definition count_bits (counted : list Z) : Z :=
  Z.of_nat (length (filter (λ b, b = true)
    (mjoin ((λ x, (λ j, Z.testbit x (Z.of_nat j)) <$> seq 0 32) <$> take 8 counted)))).

Definition count_distinct_chars (data : list Z) (data_size : Z) : res Z :=
  counted ← for_int data_size (count_step data data_size) (replicate 8 0%Z);
  Ok (u8 (count_bits counted)).

Section Code.
Context `{Mcu D}.
Context (jn : nat → node_t) (jq : nat → queue_t) (ji : nat → encoding_info_t).

Fixpoint print_bits (n : nat) (i b : Z) : IO D unit :=
  match n with
  | O => mret tt
  | S n' =>
      (if bool_decide (Z.land (Z.shiftl b i) 0x80 ≠ 0%Z) then printf (str "1") []
       else printf (str "0") []);;
      print_bits n' (i + 1) b
  end.

Definition print_byte (b : Z) : IO D unit :=
  print_bits 8 0 b;; printf (str " (%-3d %c) ") [b; b].

Fixpoint print_arr_loop (l : list Z) (cnt : Z) : IO D unit :=
  match l with
  | [] => mret tt
  | b :: l' =>
      print_byte b;;
      (if bool_decide (cnt `mod` 4 = 0)%Z then printf (10%Z :: str "// ") [] else mret tt);;
      print_arr_loop l' (cnt + 1)
  end.

(** [arr] has [arrsize] bytes. *)
Definition print_arr (arr : list Z) : IO D unit := printf (str "// ") [];; print_arr_loop arr 1.

Definition main : IO D unit :=
  let data := str "ABCDDFDDDDDDFEEEEE" in
  let data_size := u16 (Z.of_nat (length data)) in
  out_data ← pure (huffman_compress jn jq ji data data_size (replicate 64 0%Z));
  '(decompressed_data, _) ← pure (huffman_inflate jn jq ji out_data data_size (replicate 64 0%Z));
  printf (str "// %s" ++ [10%Z]) (Controller.cstr decompressed_data);;
  print_arr out_data.
End Code.

(** [count_distinct_chars] looks at the byte behind its data only: on a buffer
    that holds just the data it reads out of bounds. *)
Lemma count_distinct_chars_overruns data :
  data ≠ [] → (Z.of_nat (length data) ≤ INT_MAX)%Z →
  count_distinct_chars data (Z.of_nat (length data)) = Err OutOfBounds.
Proof.
  intros Hne Hl. unfold count_distinct_chars, for_int. rewrite Nat2Z.id.
  destruct (length data) as [|n] eqn:E; [by destruct data|]. cbn [for_int_from].
  unfold count_step, load. rewrite Nat2Z.id, lookup_ge_None_2 by lia. done.
Qed.
End Tool.
