(* ===== verification/HidParser.v ===== *)
(** * The HID report parser

    HIDParser.c and HIDParser.h of LUFA, which virtualserial/makefile puts into
    the library of the firmware: a report descriptor of a HID device becomes a
    table of report items, and item values are taken from and put into reports.
    Pointers into the tables are indices.  The application's filter callback is
    a parameter with a state of its own; memory that the parser leaves
    uninitialised is a parameter too. *)

From S2P Require Import Prelude.

Module Hid.
Open Scope Z_scope.

(** ** The macros of HIDReportData.h *)

Definition HID_RI_DATA_SIZE_MASK : Z := 0x03.
Definition HID_RI_TYPE_MASK : Z := 0x0C.
Definition HID_RI_TAG_MASK : Z := 0xF0.
Definition HID_RI_TYPE_MAIN : Z := 0x00.
Definition HID_RI_TYPE_GLOBAL : Z := 0x04.
Definition HID_RI_TYPE_LOCAL : Z := 0x08.
Definition HID_IOF_CONSTANT : Z := Z.shiftl 1 0.
Definition HID_IOF_DATA : Z := Z.shiftl 0 0.
Definition HID_IOF_VARIABLE : Z := Z.shiftl 1 1.
Definition HID_IOF_ARRAY : Z := Z.shiftl 0 1.
Definition HID_IOF_RELATIVE : Z := Z.shiftl 1 2.
Definition HID_IOF_ABSOLUTE : Z := Z.shiftl 0 2.
Definition HID_IOF_NON_VOLATILE : Z := Z.shiftl 0 7.

(** The items the parser knows. *)
Inductive item_tag :=
  | PUSH | POP | USAGE_PAGE | LOGICAL_MINIMUM | LOGICAL_MAXIMUM | PHYSICAL_MINIMUM
  | PHYSICAL_MAXIMUM | UNIT_EXPONENT | UNIT | REPORT_SIZE | REPORT_COUNT | REPORT_ID
  | USAGE | USAGE_MINIMUM | USAGE_MAXIMUM | COLLECTION | END_COLLECTION
  | INPUT | OUTPUT | FEATURE.

#[export] Instance item_tag_eq_dec : EqDecision item_tag.
Proof. solve_decision. Defined.

Definition HID_RI (t : item_tag) : Z :=
  match t with
  | INPUT => Z.lor HID_RI_TYPE_MAIN 0x80
  | OUTPUT => Z.lor HID_RI_TYPE_MAIN 0x90
  | COLLECTION => Z.lor HID_RI_TYPE_MAIN 0xA0
  | FEATURE => Z.lor HID_RI_TYPE_MAIN 0xB0
  | END_COLLECTION => Z.lor HID_RI_TYPE_MAIN 0xC0
  | USAGE_PAGE => Z.lor HID_RI_TYPE_GLOBAL 0x00
  | LOGICAL_MINIMUM => Z.lor HID_RI_TYPE_GLOBAL 0x10
  | LOGICAL_MAXIMUM => Z.lor HID_RI_TYPE_GLOBAL 0x20
  | PHYSICAL_MINIMUM => Z.lor HID_RI_TYPE_GLOBAL 0x30
  | PHYSICAL_MAXIMUM => Z.lor HID_RI_TYPE_GLOBAL 0x40
  | UNIT_EXPONENT => Z.lor HID_RI_TYPE_GLOBAL 0x50
  | UNIT => Z.lor HID_RI_TYPE_GLOBAL 0x60
  | REPORT_SIZE => Z.lor HID_RI_TYPE_GLOBAL 0x70
  | REPORT_ID => Z.lor HID_RI_TYPE_GLOBAL 0x80
  | REPORT_COUNT => Z.lor HID_RI_TYPE_GLOBAL 0x90
  | PUSH => Z.lor HID_RI_TYPE_GLOBAL 0xA0
  | POP => Z.lor HID_RI_TYPE_GLOBAL 0xB0
  | USAGE => Z.lor HID_RI_TYPE_LOCAL 0x00
  | USAGE_MINIMUM => Z.lor HID_RI_TYPE_LOCAL 0x10
  | USAGE_MAXIMUM => Z.lor HID_RI_TYPE_LOCAL 0x20
  end.

(** The sizes of the data of an item. *)
Inductive data_bits := Bits0 | Bits8 | Bits16 | Bits32.

Definition HID_RI_DATA_BITS (b : data_bits) : Z :=
  match b with Bits0 => 0x00 | Bits8 => 0x01 | Bits16 => 0x02 | Bits32 => 0x03 end.

(** [_HID_RI_ENCODE_0] to [_HID_RI_ENCODE_32]. *)
Definition HID_RI_ENCODE_8 (d : Z) : list Z := [Z.land d 0xFF].
Definition HID_RI_ENCODE_16 (d : Z) : list Z :=
  HID_RI_ENCODE_8 d ++ HID_RI_ENCODE_8 (Z.shiftr d 8).
Definition HID_RI_ENCODE_32 (d : Z) : list Z :=
  HID_RI_ENCODE_16 d ++ HID_RI_ENCODE_16 (Z.shiftr d 16).
Definition HID_RI_ENCODE (b : data_bits) (d : Z) : list Z :=
  match b with
  | Bits0 => []
  | Bits8 => HID_RI_ENCODE_8 d
  | Bits16 => HID_RI_ENCODE_16 d
  | Bits32 => HID_RI_ENCODE_32 d
  end.

(** [_HID_RI_ENTRY(Type, Tag, DataBits, ...)], with type and tag together. *)
Definition HID_RI_ENTRY (tt : Z) (b : data_bits) (d : Z) : list Z :=
  Z.lor tt (HID_RI_DATA_BITS b) :: HID_RI_ENCODE b d.

(** ** The descriptors of HIDClassCommon.h *)

(** An item as the descriptor macros list it: [HID_RI_<tag>(<bits>, <data>)]. *)
Definition macro_item : Type := item_tag * data_bits * Z.

Definition macro_bytes (m : macro_item) : list Z :=
  let '(t, b, d) := m in HID_RI_ENTRY (HID_RI t) b d.

Definition descriptor_bytes (l : list macro_item) : list Z := concat (macro_bytes <$> l).

Definition axis_bits (lo hi : Z) : Z := if (-128 <=? lo) && (hi <=? 127) then 8 else 16.
Definition padding_bits (Buttons : Z) : Z :=
  if Buttons `mod` 8 =? 0 then 0 else 8 - Buttons `mod` 8.
Definition data_variable_absolute : Z := Z.lor (Z.lor HID_IOF_DATA HID_IOF_VARIABLE) HID_IOF_ABSOLUTE.

Definition HID_DESCRIPTOR_JOYSTICK (MinAxisVal MaxAxisVal MinPhysicalVal MaxPhysicalVal Buttons : Z)
    : list macro_item :=
  [(USAGE_PAGE, Bits8, 0x01); (USAGE, Bits8, 0x04); (COLLECTION, Bits8, 0x01);
     (USAGE, Bits8, 0x01); (COLLECTION, Bits8, 0x00);
       (USAGE, Bits8, 0x30); (USAGE, Bits8, 0x31); (USAGE, Bits8, 0x32);
       (LOGICAL_MINIMUM, Bits16, MinAxisVal); (LOGICAL_MAXIMUM, Bits16, MaxAxisVal);
       (PHYSICAL_MINIMUM, Bits16, MinPhysicalVal); (PHYSICAL_MAXIMUM, Bits16, MaxPhysicalVal);
       (REPORT_COUNT, Bits8, 3); (REPORT_SIZE, Bits8, axis_bits MinAxisVal MaxAxisVal);
       (INPUT, Bits8, data_variable_absolute);
     (END_COLLECTION, Bits0, 0);
     (USAGE_PAGE, Bits8, 0x09); (USAGE_MINIMUM, Bits8, 0x01); (USAGE_MAXIMUM, Bits8, Buttons);
     (LOGICAL_MINIMUM, Bits8, 0x00); (LOGICAL_MAXIMUM, Bits8, 0x01);
     (REPORT_SIZE, Bits8, 0x01); (REPORT_COUNT, Bits8, Buttons);
     (INPUT, Bits8, data_variable_absolute);
     (REPORT_SIZE, Bits8, padding_bits Buttons); (REPORT_COUNT, Bits8, 0x01);
     (INPUT, Bits8, HID_IOF_CONSTANT);
   (END_COLLECTION, Bits0, 0)].

Definition HID_DESCRIPTOR_KEYBOARD (MaxKeys : Z) : list macro_item :=
  [(USAGE_PAGE, Bits8, 0x01); (USAGE, Bits8, 0x06); (COLLECTION, Bits8, 0x01);
     (USAGE_PAGE, Bits8, 0x07); (USAGE_MINIMUM, Bits8, 0xE0); (USAGE_MAXIMUM, Bits8, 0xE7);
     (LOGICAL_MINIMUM, Bits8, 0x00); (LOGICAL_MAXIMUM, Bits8, 0x01);
     (REPORT_SIZE, Bits8, 0x01); (REPORT_COUNT, Bits8, 0x08);
     (INPUT, Bits8, data_variable_absolute);
     (REPORT_COUNT, Bits8, 0x01); (REPORT_SIZE, Bits8, 0x08); (INPUT, Bits8, HID_IOF_CONSTANT);
     (USAGE_PAGE, Bits8, 0x08); (USAGE_MINIMUM, Bits8, 0x01); (USAGE_MAXIMUM, Bits8, 0x05);
     (REPORT_COUNT, Bits8, 0x05); (REPORT_SIZE, Bits8, 0x01);
     (OUTPUT, Bits8, Z.lor data_variable_absolute HID_IOF_NON_VOLATILE);
     (REPORT_COUNT, Bits8, 0x01); (REPORT_SIZE, Bits8, 0x03); (OUTPUT, Bits8, HID_IOF_CONSTANT);
     (LOGICAL_MINIMUM, Bits8, 0x00); (LOGICAL_MAXIMUM, Bits8, 0xFF);
     (USAGE_PAGE, Bits8, 0x07); (USAGE_MINIMUM, Bits8, 0x00); (USAGE_MAXIMUM, Bits8, 0xFF);
     (REPORT_COUNT, Bits8, MaxKeys); (REPORT_SIZE, Bits8, 0x08);
     (INPUT, Bits8, Z.lor (Z.lor HID_IOF_DATA HID_IOF_ARRAY) HID_IOF_ABSOLUTE);
   (END_COLLECTION, Bits0, 0)].

Definition HID_DESCRIPTOR_MOUSE (MinAxisVal MaxAxisVal MinPhysicalVal MaxPhysicalVal Buttons : Z)
    (AbsoluteCoords : bool) : list macro_item :=
  [(USAGE_PAGE, Bits8, 0x01); (USAGE, Bits8, 0x02); (COLLECTION, Bits8, 0x01);
     (USAGE, Bits8, 0x01); (COLLECTION, Bits8, 0x00);
       (USAGE_PAGE, Bits8, 0x09); (USAGE_MINIMUM, Bits8, 0x01); (USAGE_MAXIMUM, Bits8, Buttons);
       (LOGICAL_MINIMUM, Bits8, 0x00); (LOGICAL_MAXIMUM, Bits8, 0x01);
       (REPORT_COUNT, Bits8, Buttons); (REPORT_SIZE, Bits8, 0x01);
       (INPUT, Bits8, data_variable_absolute);
       (REPORT_COUNT, Bits8, 0x01); (REPORT_SIZE, Bits8, padding_bits Buttons);
       (INPUT, Bits8, HID_IOF_CONSTANT);
       (USAGE_PAGE, Bits8, 0x01); (USAGE, Bits8, 0x30); (USAGE, Bits8, 0x31);
       (LOGICAL_MINIMUM, Bits16, MinAxisVal); (LOGICAL_MAXIMUM, Bits16, MaxAxisVal);
       (PHYSICAL_MINIMUM, Bits16, MinPhysicalVal); (PHYSICAL_MAXIMUM, Bits16, MaxPhysicalVal);
       (REPORT_COUNT, Bits8, 0x02); (REPORT_SIZE, Bits8, axis_bits MinAxisVal MaxAxisVal);
       (INPUT, Bits8, Z.lor (Z.lor HID_IOF_DATA HID_IOF_VARIABLE)
                        (if AbsoluteCoords then HID_IOF_ABSOLUTE else HID_IOF_RELATIVE));
     (END_COLLECTION, Bits0, 0);
   (END_COLLECTION, Bits0, 0)].

Definition HID_DESCRIPTOR_VENDOR (VendorPageNum CollectionUsage DataINUsage DataOUTUsage NumBytes : Z)
    : list macro_item :=
  [(USAGE_PAGE, Bits16, Z.lor 0xFF00 VendorPageNum); (USAGE, Bits8, CollectionUsage);
   (COLLECTION, Bits8, 0x01);
     (USAGE, Bits8, DataINUsage); (LOGICAL_MINIMUM, Bits8, 0x00); (LOGICAL_MAXIMUM, Bits8, 0xFF);
     (REPORT_SIZE, Bits8, 0x08); (REPORT_COUNT, Bits8, NumBytes);
     (INPUT, Bits8, data_variable_absolute);
     (USAGE, Bits8, DataOUTUsage); (LOGICAL_MINIMUM, Bits8, 0x00); (LOGICAL_MAXIMUM, Bits8, 0xFF);
     (REPORT_SIZE, Bits8, 0x08); (REPORT_COUNT, Bits8, NumBytes);
     (OUTPUT, Bits8, Z.lor data_variable_absolute HID_IOF_NON_VOLATILE);
   (END_COLLECTION, Bits0, 0)].

(** ** The data of HIDParser.h *)

Definition HID_STATETABLE_STACK_DEPTH : nat := 2.
Definition HID_USAGE_STACK_DEPTH : nat := 8.
Definition HID_MAX_COLLECTIONS : nat := 10.
Definition HID_MAX_REPORTITEMS : nat := 20.
Definition HID_MAX_REPORT_IDS : nat := 10.

Definition HID_PARSE_Successful : Z := 0.
Definition HID_PARSE_HIDStackOverflow : Z := 1.
Definition HID_PARSE_HIDStackUnderflow : Z := 2.
Definition HID_PARSE_InsufficientReportItems : Z := 3.
Definition HID_PARSE_UnexpectedEndCollection : Z := 4.
Definition HID_PARSE_InsufficientCollectionPaths : Z := 5.
Definition HID_PARSE_UsageListOverflow : Z := 6.
Definition HID_PARSE_InsufficientReportIDItems : Z := 7.
Definition HID_PARSE_NoUnfilteredReportItems : Z := 8.

Record HID_MinMax_t := MinMax { Minimum : Z; Maximum : Z }.
Record HID_Unit_t := UnitInfo { UnitType : Z; Exponent : Z }.
Record HID_Usage_t := UsageInfo { Page : Z; Usage : Z }.

Record HID_CollectionPath_t := Path {
  PathType : Z;
  PathUsage : HID_Usage_t;
  Parent : option nat
}.

Record HID_ReportItem_Attributes_t := Attrs {
  BitSize : Z;
  AttrUsage : HID_Usage_t;
  AttrUnit : HID_Unit_t;
  Logical : HID_MinMax_t;
  Physical : HID_MinMax_t
}.

Record HID_ReportItem_t := Item {
  BitOffset : Z;
  ItemType : nat;
  ItemFlags : Z;
  ItemReportID : Z;
  CollectionPath : option nat;
  Attributes : HID_ReportItem_Attributes_t;
  Value : Z;
  PreviousValue : Z
}.

Record HID_ReportSizeInfo_t := SizeInfo {
  SizeReportID : Z;
  ReportSizeBits : list Z
}.

Record HID_ReportInfo_t := Info {
  TotalReportItems : nat;
  ReportItems : list HID_ReportItem_t;
  CollectionPaths : list HID_CollectionPath_t;
  TotalDeviceReports : nat;
  ReportIDSizes : list HID_ReportSizeInfo_t;
  LargestReportSizeBits : Z;
  UsingReportIDs : bool
}.

Record HID_StateTable_t := Table {
  TabAttributes : HID_ReportItem_Attributes_t;
  ReportCount : Z;
  ReportID : Z
}.

(** [HID_REPORT_ITEM_In], [HID_REPORT_ITEM_Out] and [HID_REPORT_ITEM_Feature]
    index the sizes of a report. *)
Definition HID_REPORT_ITEM_In : nat := 0.
Definition HID_REPORT_ITEM_Out : nat := 1.
Definition HID_REPORT_ITEM_Feature : nat := 2.

(** The structures cleared by [memset]. *)
Definition zero_attrs : HID_ReportItem_Attributes_t :=
  Attrs 0 (UsageInfo 0 0) (UnitInfo 0 0) (MinMax 0 0) (MinMax 0 0).
Definition zero_table : HID_StateTable_t := Table zero_attrs 0 0.
Definition zero_item : HID_ReportItem_t := Item 0 0 0 0 None zero_attrs 0 0.
Definition zero_path : HID_CollectionPath_t := Path 0 (UsageInfo 0 0) None.
Definition zero_size : HID_ReportSizeInfo_t := SizeInfo 0 (replicate 3 0).
Definition zero_info : HID_ReportInfo_t :=
  Info 0 (replicate HID_MAX_REPORTITEMS zero_item) (replicate HID_MAX_COLLECTIONS zero_path)
    0 (replicate HID_MAX_REPORT_IDS zero_size) 0 false.

(** The sizes of the structures on the AVR, where nothing is padded and a
    pointer has two bytes. *)
Definition sizeof_Usage : nat := 2 + 2.
Definition sizeof_Unit : nat := 4 + 1.
Definition sizeof_MinMax : nat := 4 + 4.
Definition sizeof_Attributes : nat :=
  1 + sizeof_Usage + sizeof_Unit + sizeof_MinMax + sizeof_MinMax.
Definition sizeof_StateTable : nat := sizeof_Attributes + 1 + 1.
Definition sizeof_ReportItem : nat := 2 + 1 + 2 + 1 + 2 + sizeof_Attributes + 4 + 4.

(** ** The parser *)

(** The locals of [USB_ProcessHIDReport], [*ParserData] and the state of the
    application behind the callback. *)
Record pst (F : Type) := Pst {
  ReportData : nat;
  ReportSize : Z;
  StateTable : list HID_StateTable_t;
  CurrStateTable : nat;
  CurrCollectionPath : option nat;
  CurrReportIDInfo : nat;
  UsageList : list Z;
  UsageListSize : nat;
  UsageMinMax : HID_MinMax_t;
  ParserData : HID_ReportInfo_t;
  app_state : F
}.
Arguments Pst {_} _ _ _ _ _ _ _ _ _ _ _.
Arguments ReportData {_} _.
Arguments ReportSize {_} _.
Arguments StateTable {_} _.
Arguments CurrStateTable {_} _.
Arguments CurrCollectionPath {_} _.
Arguments CurrReportIDInfo {_} _.
Arguments UsageList {_} _.
Arguments UsageListSize {_} _.
Arguments UsageMinMax {_} _.
Arguments ParserData {_} _.
Arguments app_state {_} _.

(** The body of the loop falls through to the next round or returns. *)
Inductive flow (F : Type) := Next (s : pst F) | Return (code : Z) (s : pst F).
Arguments Next {_} _.
Arguments Return {_} _ _.

Section Setters.
Context {F : Type}.

Definition set_input (p : nat) (n : Z) (s : pst F) : pst F :=
  Pst p n (StateTable s) (CurrStateTable s) (CurrCollectionPath s) (CurrReportIDInfo s)
    (UsageList s) (UsageListSize s) (UsageMinMax s) (ParserData s) (app_state s).
Definition set_table (t : list HID_StateTable_t) (c : nat) (s : pst F) : pst F :=
  Pst (ReportData s) (ReportSize s) t c (CurrCollectionPath s) (CurrReportIDInfo s)
    (UsageList s) (UsageListSize s) (UsageMinMax s) (ParserData s) (app_state s).
Definition set_path (c : option nat) (s : pst F) : pst F :=
  Pst (ReportData s) (ReportSize s) (StateTable s) (CurrStateTable s) c (CurrReportIDInfo s)
    (UsageList s) (UsageListSize s) (UsageMinMax s) (ParserData s) (app_state s).
Definition set_report (c : nat) (s : pst F) : pst F :=
  Pst (ReportData s) (ReportSize s) (StateTable s) (CurrStateTable s) (CurrCollectionPath s) c
    (UsageList s) (UsageListSize s) (UsageMinMax s) (ParserData s) (app_state s).
Definition set_usages (l : list Z) (n : nat) (s : pst F) : pst F :=
  Pst (ReportData s) (ReportSize s) (StateTable s) (CurrStateTable s) (CurrCollectionPath s)
    (CurrReportIDInfo s) l n (UsageMinMax s) (ParserData s) (app_state s).
Definition set_minmax (m : HID_MinMax_t) (s : pst F) : pst F :=
  Pst (ReportData s) (ReportSize s) (StateTable s) (CurrStateTable s) (CurrCollectionPath s)
    (CurrReportIDInfo s) (UsageList s) (UsageListSize s) m (ParserData s) (app_state s).
Definition set_info (i : HID_ReportInfo_t) (s : pst F) : pst F :=
  Pst (ReportData s) (ReportSize s) (StateTable s) (CurrStateTable s) (CurrCollectionPath s)
    (CurrReportIDInfo s) (UsageList s) (UsageListSize s) (UsageMinMax s) i (app_state s).
Definition set_app (f : F) (s : pst F) : pst F :=
  Pst (ReportData s) (ReportSize s) (StateTable s) (CurrStateTable s) (CurrCollectionPath s)
    (CurrReportIDInfo s) (UsageList s) (UsageListSize s) (UsageMinMax s) (ParserData s) f.
End Setters.

Definition set_items (n : nat) (l : list HID_ReportItem_t) (i : HID_ReportInfo_t) : HID_ReportInfo_t :=
  Info n l (CollectionPaths i) (TotalDeviceReports i) (ReportIDSizes i)
    (LargestReportSizeBits i) (UsingReportIDs i).
Definition set_paths (l : list HID_CollectionPath_t) (i : HID_ReportInfo_t) : HID_ReportInfo_t :=
  Info (TotalReportItems i) (ReportItems i) l (TotalDeviceReports i) (ReportIDSizes i)
    (LargestReportSizeBits i) (UsingReportIDs i).
Definition set_reports (n : nat) (l : list HID_ReportSizeInfo_t) (i : HID_ReportInfo_t) : HID_ReportInfo_t :=
  Info (TotalReportItems i) (ReportItems i) (CollectionPaths i) n l
    (LargestReportSizeBits i) (UsingReportIDs i).
Definition set_largest (z : Z) (i : HID_ReportInfo_t) : HID_ReportInfo_t :=
  Info (TotalReportItems i) (ReportItems i) (CollectionPaths i) (TotalDeviceReports i)
    (ReportIDSizes i) z (UsingReportIDs i).
Definition set_using (b : bool) (i : HID_ReportInfo_t) : HID_ReportInfo_t :=
  Info (TotalReportItems i) (ReportItems i) (CollectionPaths i) (TotalDeviceReports i)
    (ReportIDSizes i) (LargestReportSizeBits i) b.

Definition with_attrs (f : HID_ReportItem_Attributes_t → HID_ReportItem_Attributes_t)
    (t : HID_StateTable_t) : HID_StateTable_t :=
  Table (f (TabAttributes t)) (ReportCount t) (ReportID t).

Section Parser.
Context {F : Type}.
(** [CALLBACK_HIDParser_FilterHIDReportItem] of the application. *)
Context (filter : F → HID_ReportItem_t → bool * F).
(** [Value] and [PreviousValue] of the uninitialised [NewReportItem]. *)
Context (junk : pst F → Z * Z).

(** The item byte and its data: the first [switch] of the loop. *)
Definition item_data (buf : list Z) (item : Z) (s : pst F) : res (Z * pst F) :=
  let p := ReportData s in
  let n := ReportSize s in
  let bits := Z.land item HID_RI_DATA_SIZE_MASK in
  if bits =? HID_RI_DATA_BITS Bits32 then
    b3 ← load buf (p + 3); b2 ← load buf (p + 2); b1 ← load buf (p + 1); b0 ← load buf p;
    mret (u32 (Z.lor (Z.lor (Z.lor (Z.shiftl b3 24) (Z.shiftl b2 16)) (u16 (Z.shiftl b1 8))) b0),
          set_input (p + 4) (u16 (n - 4)) s)
  else if bits =? HID_RI_DATA_BITS Bits16 then
    b1 ← load buf (p + 1); b0 ← load buf p;
    mret (Z.lor (u16 (Z.shiftl b1 8)) b0, set_input (p + 2) (u16 (n - 2)) s)
  else if bits =? HID_RI_DATA_BITS Bits8 then
    b0 ← load buf p;
    mret (b0, set_input (p + 1) (u16 (n - 1)) s)
  else mret (0, s).

(** The [case] of the second [switch] an item byte selects. *)
Definition all_tags : list item_tag :=
  [PUSH; POP; USAGE_PAGE; LOGICAL_MINIMUM; LOGICAL_MAXIMUM; PHYSICAL_MINIMUM; PHYSICAL_MAXIMUM;
   UNIT_EXPONENT; UNIT; REPORT_SIZE; REPORT_COUNT; REPORT_ID; USAGE; USAGE_MINIMUM; USAGE_MAXIMUM;
   COLLECTION; END_COLLECTION; INPUT; OUTPUT; FEATURE].

Definition select_case (item : Z) : option item_tag :=
  snd <$> list_find (λ t, HID_RI t = Z.land item (Z.lor HID_RI_TYPE_MASK HID_RI_TAG_MASK)) all_tags.

(** [CurrStateTable->...]: an assignment through the pointer. *)
Definition update_table (f : HID_StateTable_t → HID_StateTable_t) (s : pst F) : res (flow F) :=
  t ← load (StateTable s) (CurrStateTable s);
  l ← store (StateTable s) (CurrStateTable s) (f t);
  mret (Next (set_table l (CurrStateTable s) s)).

(** [memcpy(CurrStateTable + 1, CurrStateTable, n)]: out of bounds when the
    bytes do not fit behind the next element; up to the size of an element the
    objects do not overlap. *)
Definition copy_table (n : nat) (s : pst F) : res (list HID_StateTable_t) :=
  if bool_decide ((CurrStateTable s + 1) * sizeof_StateTable + n ≤
                  length (StateTable s) * sizeof_StateTable)%nat
  then t ← load (StateTable s) (CurrStateTable s); store (StateTable s) (CurrStateTable s + 1) t
  else Err OutOfBounds.

Definition case_push (s : pst F) : res (flow F) :=
  if bool_decide (CurrStateTable s = HID_STATETABLE_STACK_DEPTH - 1)%nat
  then mret (Return HID_PARSE_HIDStackOverflow s)
  else l ← copy_table sizeof_ReportItem s; mret (Next (set_table l (CurrStateTable s + 1) s)).

Definition case_pop (s : pst F) : res (flow F) :=
  if bool_decide (CurrStateTable s = 0%nat) then mret (Return HID_PARSE_HIDStackUnderflow s)
  else mret (Next (set_table (StateTable s) (CurrStateTable s - 1) s)).

(** The assignments of the global items. *)
Definition set_global (t : item_tag) (item d : Z) (e : HID_StateTable_t) : HID_StateTable_t :=
  match t with
  | USAGE_PAGE =>
      let page p := with_attrs (λ a, Attrs (BitSize a) (UsageInfo p (Usage (AttrUsage a)))
                                      (AttrUnit a) (Logical a) (Physical a)) in
      let e := if Z.land item HID_RI_DATA_SIZE_MASK =? HID_RI_DATA_BITS Bits32
               then page (u16 (Z.shiftr d 16)) e else e in
      page (u16 d) e
  | LOGICAL_MINIMUM => with_attrs (λ a, Attrs (BitSize a) (AttrUsage a) (AttrUnit a)
                                          (MinMax d (Maximum (Logical a))) (Physical a)) e
  | LOGICAL_MAXIMUM => with_attrs (λ a, Attrs (BitSize a) (AttrUsage a) (AttrUnit a)
                                          (MinMax (Minimum (Logical a)) d) (Physical a)) e
  | PHYSICAL_MINIMUM => with_attrs (λ a, Attrs (BitSize a) (AttrUsage a) (AttrUnit a)
                                          (Logical a) (MinMax d (Maximum (Physical a)))) e
  | PHYSICAL_MAXIMUM => with_attrs (λ a, Attrs (BitSize a) (AttrUsage a) (AttrUnit a)
                                          (Logical a) (MinMax (Minimum (Physical a)) d)) e
  | UNIT_EXPONENT => with_attrs (λ a, Attrs (BitSize a) (AttrUsage a)
                                       (UnitInfo (UnitType (AttrUnit a)) (u8 d)) (Logical a) (Physical a)) e
  | UNIT => with_attrs (λ a, Attrs (BitSize a) (AttrUsage a)
                              (UnitInfo d (Exponent (AttrUnit a))) (Logical a) (Physical a)) e
  | REPORT_SIZE => with_attrs (λ a, Attrs (u8 d) (AttrUsage a) (AttrUnit a) (Logical a) (Physical a)) e
  | REPORT_COUNT => Table (TabAttributes e) (u8 d) (ReportID e)
  | _ => e
  end.

(** The search for the report with an ID among the first [n] ones from [i]. *)
Fixpoint find_report (l : list HID_ReportSizeInfo_t) (id : Z) (n i : nat) : res (option nat) :=
  match n with
  | O => mret None
  | S n' => r ← load l i;
            if SizeReportID r =? id then mret (Some i) else find_report l id n' (S i)
  end.

(** [CurrReportIDInfo->ReportID = id; UsingReportIDs = true]. *)
Definition name_report (c : nat) (id : Z) (s : pst F) : res (flow F) :=
  let i := ParserData s in
  r ← load (ReportIDSizes i) c;
  l ← store (ReportIDSizes i) c (SizeInfo id (ReportSizeBits r));
  mret (Next (set_report c (set_info (set_using true (set_reports (TotalDeviceReports i) l i)) s))).

Definition case_report_id (d : Z) (s : pst F) : res (flow F) :=
  t ← load (StateTable s) (CurrStateTable s);
  tl ← store (StateTable s) (CurrStateTable s) (Table (TabAttributes t) (ReportCount t) (u8 d));
  let s := set_table tl (CurrStateTable s) s in
  let i := ParserData s in
  if UsingReportIDs i then
    c ← find_report (ReportIDSizes i) (u8 d) (TotalDeviceReports i) 0;
    match c with
    | Some c => name_report c (u8 d) s
    | None =>
        if bool_decide (TotalDeviceReports i = HID_MAX_REPORT_IDS)
        then mret (Return HID_PARSE_InsufficientReportIDItems s)
        else
          let c := TotalDeviceReports i in
          l ← store (ReportIDSizes i) c zero_size;
          name_report c (u8 d) (set_info (set_reports (S c) l i) s)
    end
  else name_report (CurrReportIDInfo s) (u8 d) s.

Definition case_usage (d : Z) (s : pst F) : res (flow F) :=
  if bool_decide (UsageListSize s = HID_USAGE_STACK_DEPTH)
  then mret (Return HID_PARSE_UsageListOverflow s)
  else l ← store (UsageList s) (UsageListSize s) (u16 d);
       mret (Next (set_usages l (S (UsageListSize s)) s)).

(** [UsageList[i - 1] = UsageList[i]] for [i] from 1 on. *)
Definition shift_usages (n : nat) (l : list Z) : res (list Z) :=
  for_u16_from (n - 1) 1 (λ i l, x ← load l i; store l (i - 1) x) l.

(** The usage a collection or an item takes: the first of the list, or the
    next of the range, or none. *)
Definition next_usage (s : pst F) : res (option Z * pst F) :=
  if bool_decide (UsageListSize s ≠ 0%nat) then
    u ← load (UsageList s) 0;
    l ← shift_usages (UsageListSize s) (UsageList s);
    mret (Some u, set_usages l (UsageListSize s - 1) s)
  else
    let m := UsageMinMax s in
    if Minimum m <=? Maximum m
    then mret (Some (u16 (Minimum m)), set_minmax (MinMax (u32 (Minimum m + 1)) (Maximum m)) s)
    else mret (None, s).

(** The first free path from [c] on; [None] when the last one is taken. *)
Fixpoint free_path (fuel : nat) (l : list HID_CollectionPath_t) (c : nat) : res (option nat) :=
  match fuel with
  | O => Err NoFuel
  | S fuel' =>
      p ← load l c;
      match Parent p with
      | None => mret (Some c)
      | Some _ => if bool_decide (c = HID_MAX_COLLECTIONS - 1)%nat then mret None
                  else free_path fuel' l (S c)
      end
  end.

Definition case_collection (d : Z) (s : pst F) : res (flow F) :=
  let paths := CollectionPaths (ParserData s) in
  c ← match CurrCollectionPath s with
      | None => mret (Some (0%nat, paths))
      | Some parent =>
          c ← free_path HID_MAX_COLLECTIONS paths 1;
          match c with
          | None => mret None
          | Some c => p ← load paths c;
                      l ← store paths c (Path (PathType p) (PathUsage p) (Some parent));
                      mret (Some (c, l))
          end
      end;
  match c with
  | None => mret (Return HID_PARSE_InsufficientCollectionPaths s)
  | Some (c, paths) =>
      t ← load (StateTable s) (CurrStateTable s);
      p ← load paths c;
      '(u, s) ← next_usage s;
      let page := Page (AttrUsage (TabAttributes t)) in
      let usage := match u with Some u => u | None => Usage (PathUsage p) end in
      l ← store paths c (Path (u8 d) (UsageInfo page usage) (Parent p));
      mret (Next (set_path (Some c) (set_info (set_paths l (ParserData s)) s)))
  end.

Definition case_end_collection (s : pst F) : res (flow F) :=
  match CurrCollectionPath s with
  | None => mret (Return HID_PARSE_UnexpectedEndCollection s)
  | Some c => p ← load (CollectionPaths (ParserData s)) c; mret (Next (set_path (Parent p) s))
  end.

(** [NewReportItem], with the usage and offset it is given. *)
Definition new_item (ty : nat) (d off : Z) (u : option Z) (t : HID_StateTable_t) (s : pst F)
    : HID_ReportItem_t :=
  let a := TabAttributes t in
  let usage := match u with Some u => u | None => Usage (AttrUsage a) end in
  Item off ty (u16 d) (ReportID t) (CurrCollectionPath s)
    (Attrs (BitSize a) (UsageInfo (Page (AttrUsage a)) usage) (AttrUnit a) (Logical a) (Physical a))
    (junk s).1 (junk s).2.

(** One round of the loop of a main item. *)
Definition add_item (ty : nat) (d : Z) (s : pst F) : res (flow F) :=
  t ← load (StateTable s) (CurrStateTable s);
  '(u, s) ← next_usage s;
  let i := ParserData s in
  r ← load (ReportIDSizes i) (CurrReportIDInfo s);
  off ← load (ReportSizeBits r) ty;
  let new := new_item ty d off u t s in
  let size := u16 (off + BitSize (TabAttributes t)) in
  sizes ← store (ReportSizeBits r) ty size;
  l ← store (ReportIDSizes i) (CurrReportIDInfo s) (SizeInfo (SizeReportID r) sizes);
  let i := set_largest (Z.max (LargestReportSizeBits i) size) (set_reports (TotalDeviceReports i) l i) in
  if bool_decide (TotalReportItems i = HID_MAX_REPORTITEMS)
  then mret (Return HID_PARSE_InsufficientReportItems (set_info i s))
  else
    items ← store (ReportItems i) (TotalReportItems i) new;
    if Z.land d HID_IOF_CONSTANT =? 0 then
      let '(keep, f) := filter (app_state s) new in
      let n := if keep then S (TotalReportItems i) else TotalReportItems i in
      mret (Next (set_app f (set_info (set_items n items i) s)))
    else mret (Next (set_info (set_items (TotalReportItems i) items i) s)).

Fixpoint add_items (n : nat) (ty : nat) (d : Z) (s : pst F) : res (flow F) :=
  match n with
  | O => mret (Next s)
  | S n' => o ← add_item ty d s;
            match o with Next s => add_items n' ty d s | Return c s => mret (Return c s) end
  end.

Definition case_main (ty : nat) (d : Z) (s : pst F) : res (flow F) :=
  t ← load (StateTable s) (CurrStateTable s);
  add_items (Z.to_nat (ReportCount t)) ty d s.

(** The second [switch]. *)
Definition do_item (item d : Z) (s : pst F) : res (flow F) :=
  match select_case item with
  | Some PUSH => case_push s
  | Some POP => case_pop s
  | Some REPORT_ID => case_report_id d s
  | Some USAGE => case_usage d s
  | Some USAGE_MINIMUM => mret (Next (set_minmax (MinMax d (Maximum (UsageMinMax s))) s))
  | Some USAGE_MAXIMUM => mret (Next (set_minmax (MinMax (Minimum (UsageMinMax s)) d) s))
  | Some COLLECTION => case_collection d s
  | Some END_COLLECTION => case_end_collection s
  | Some INPUT => case_main HID_REPORT_ITEM_In d s
  | Some OUTPUT => case_main HID_REPORT_ITEM_Out d s
  | Some FEATURE => case_main HID_REPORT_ITEM_Feature d s
  | Some t => update_table (set_global t item d) s
  | None => mret (Next s)
  end.

(** Main items end the usages. *)
Definition reset_usages (item : Z) (s : pst F) : pst F :=
  if Z.land item HID_RI_TYPE_MASK =? HID_RI_TYPE_MAIN
  then set_usages (UsageList s) 0 (set_minmax (MinMax 0 0) s) else s.

(** A descriptor item whose data has been read. *)
Definition run_item (item d : Z) (s : pst F) : res (flow F) :=
  o ← do_item item d s;
  match o with Next s => mret (Next (reset_usages item s)) | Return c s => mret (Return c s) end.

(** One round of the loop. *)
Definition parse_item (buf : list Z) (s : pst F) : res (flow F) :=
  item ← load buf (ReportData s);
  let s := set_input (S (ReportData s)) (u16 (ReportSize s - 1)) s in
  '(d, s) ← item_data buf item s;
  run_item item d s.

Fixpoint parse_loop (fuel : nat) (buf : list Z) (s : pst F) : res (Z * pst F) :=
  match fuel with
  | O => Err NoFuel
  | S fuel' =>
      if ReportSize s =? 0 then
        mret (if bool_decide (TotalReportItems (ParserData s) = 0%nat)
              then HID_PARSE_NoUnfilteredReportItems else HID_PARSE_Successful, s)
      else
        o ← parse_item buf s;
        match o with Next s => parse_loop fuel' buf s | Return c s => mret (c, s) end
  end.

(** The locals at the start; [table1] and [usages] are the uninitialised part
    of the stack. *)
Definition parser_start (table1 : HID_StateTable_t) (usages : list Z) (size : Z) (f : F) : pst F :=
  Pst 0 size [zero_table; table1] 0 None 0 usages 0 (MinMax 0 0) (set_reports 1 (ReportIDSizes zero_info) zero_info) f.

(** Every round consumes a byte of the descriptor, so the fuel is enough. *)
Definition USB_ProcessHIDReport (table1 : HID_StateTable_t) (usages : list Z)
    (buf : list Z) (size : Z) (f : F) : res (Z * HID_ReportInfo_t * F) :=
  '(c, s) ← parse_loop (S (length buf)) buf (parser_start table1 usages size f);
  mret (c, ParserData s, app_state s).

End Parser.

(** ** Values in reports *)

Definition set_values (v pv : Z) (r : HID_ReportItem_t) : HID_ReportItem_t :=
  Item (BitOffset r) (ItemType r) (ItemFlags r) (ItemReportID r) (CollectionPath r) (Attributes r) v pv.

(** [while (DataBitsRem--)] of the reader: value, bit and mask. *)
Fixpoint get_bits (n : nat) (data : list Z) (bit mask v : Z) : res Z :=
  match n with
  | O => mret v
  | S n' =>
      b ← load data (Z.to_nat (bit / 8));
      let v := if Z.land b (Z.shiftl 1 (bit `mod` 8)) =? 0 then v else Z.lor v mask in
      get_bits n' data (u16 (bit + 1)) (u32 (Z.shiftl mask 1)) v
  end.

(** The result is the item as the function leaves it; a null item is [None]. *)
Definition USB_GetHIDReportItemInfo (data : list Z) (r : option HID_ReportItem_t)
    : res (bool * option HID_ReportItem_t) :=
  match r with
  | None => mret (false, None)
  | Some r =>
      let read data :=
        v ← get_bits (Z.to_nat (BitSize (Attributes r))) data (BitOffset r) 1 0;
        mret (true, Some (set_values v (Value r) r)) in
      if ItemReportID r =? 0 then read data
      else
        b ← load data 0;
        if ItemReportID r =? b then read (drop 1 data) else mret (false, Some r)
  end.

(** [while (DataBitsRem--)] of the writer; [base] is 1 behind a report ID. *)
Fixpoint set_bits (n : nat) (base : nat) (data : list Z) (bit mask v : Z) : res (list Z) :=
  match n with
  | O => mret data
  | S n' =>
      data ← (if Z.land v (Z.shiftl 1 (bit `mod` 8)) =? 0 then mret data
              else let p := (base + Z.to_nat (bit / 8))%nat in
                   b ← load data p; store data p (u8 (Z.lor b mask)));
      set_bits n' base data (u16 (bit + 1)) (u32 (Z.shiftl mask 1)) v
  end.

Definition USB_SetHIDReportItemInfo (data : list Z) (r : option HID_ReportItem_t)
    : res (list Z * option HID_ReportItem_t) :=
  match r with
  | None => mret (data, None)
  | Some r =>
      '(base, data) ← (if ItemReportID r =? 0 then mret (0%nat, data)
                       else data ← store data 0 (ItemReportID r); mret (1%nat, data));
      data ← set_bits (Z.to_nat (BitSize (Attributes r))) base data (BitOffset r) 1 (Value r);
      mret (data, Some (set_values (Value r) (Value r) r))
  end.

(** The size in bytes of a report, 0 when there is none. *)
Fixpoint report_size_loop (l : list HID_ReportSizeInfo_t) (id : Z) (ty n i : nat) : res Z :=
  match n with
  | O => mret 0
  | S n' =>
      r ← load l i;
      bits ← load (ReportSizeBits r) ty;
      if SizeReportID r =? id
      then mret (bits / 8 + (if bits `mod` 8 =? 0 then 0 else 1))
      else report_size_loop l id ty n' (S i)
  end.

Definition USB_GetHIDReportSize (i : HID_ReportInfo_t) (id : Z) (ty : nat) : res Z :=
  report_size_loop (ReportIDSizes i) id ty HID_MAX_REPORT_IDS 0.

End Hid.
