(* ===== verification/HidItems.v ===== *)
(** * Items of a report descriptor

    A descriptor is a sequence of items, each a head byte and up to four bytes
    of data.  On the bytes of complete items the loop of the parser runs the
    items one after the other ([parse_descriptor]); on a descriptor that ends
    inside an item it reads behind the end. *)

From S2P Require Import Prelude HidParser.
Import Hid.
Open Scope Z_scope.

(** ** Items and their bytes *)

Record entry := Entry { head : Z; data : Z }.

Definition bits_of (h : Z) : data_bits :=
  let b := Z.land h HID_RI_DATA_SIZE_MASK in
  if b =? 3 then Bits32 else if b =? 2 then Bits16 else if b =? 1 then Bits8 else Bits0.

Definition data_len (b : data_bits) : nat :=
  match b with Bits0 => 0 | Bits8 => 1 | Bits16 => 2 | Bits32 => 4 end.

Definition entry_ok (e : entry) : Prop :=
  is_u8 (head e) ∧ 0 ≤ data e < 2 ^ (8 * Z.of_nat (data_len (bits_of (head e)))).

Definition entry_bytes (e : entry) : list Z := head e :: HID_RI_ENCODE (bits_of (head e)) (data e).
Definition entries_bytes (es : list entry) : list Z := concat (entry_bytes <$> es).
Definition entry_len (e : entry) : nat := S (data_len (bits_of (head e))).

Lemma length_encode b d : length (HID_RI_ENCODE b d) = data_len b.
Proof. by destruct b. Qed.

Lemma length_entry_bytes e : length (entry_bytes e) = entry_len e.
Proof. unfold entry_bytes, entry_len. simpl. by rewrite length_encode. Qed.

Lemma entries_bytes_cons e es : entries_bytes (e :: es) = entry_bytes e ++ entries_bytes es.
Proof. done. Qed.

(** The items of the macros. *)
Definition of_macro (m : macro_item) : entry :=
  let '(t, b, d) := m in
  Entry (Z.lor (HID_RI t) (HID_RI_DATA_BITS b)) (d `mod` 2 ^ (8 * Z.of_nat (data_len b))).

Lemma bits_of_macro t b : bits_of (Z.lor (HID_RI t) (HID_RI_DATA_BITS b)) = b.
Proof. by destruct t, b. Qed.

Lemma land_255 d : Z.land d 0xFF = d `mod` 256.
Proof. apply (Z.land_ones d 8). lia. Qed.

Lemma shiftr_mod d n k : 0 ≤ k ≤ n → Z.shiftr (d `mod` 2 ^ n) k = Z.shiftr d k `mod` 2 ^ (n - k).
Proof.
  intros Hk. apply Z.bits_inj'. intros i Hi. rewrite Z.shiftr_spec by lia.
  destruct (decide (i < n - k)).
  - rewrite !Z.mod_pow2_bits_low, Z.shiftr_spec by lia. done.
  - by rewrite !Z.mod_pow2_bits_high by lia.
Qed.

Lemma land_255_mod d n : 8 ≤ n → Z.land (d `mod` 2 ^ n) 0xFF = Z.land d 0xFF.
Proof.
  intros Hn. rewrite !land_255. change 256 with (2 ^ 8). apply Z.bits_inj'. intros i Hi.
  destruct (decide (i < 8)).
  - by rewrite !Z.mod_pow2_bits_low by lia.
  - by rewrite !Z.mod_pow2_bits_high by lia.
Qed.

Lemma macro_bytes_entry m : macro_bytes m = entry_bytes (of_macro m).
Proof.
  destruct m as [[t b] d]. unfold macro_bytes, HID_RI_ENTRY, entry_bytes. cbn [of_macro head data].
  rewrite bits_of_macro. f_equal.
  destruct b; cbn [HID_RI_ENCODE data_len]; [done| | |];
    unfold HID_RI_ENCODE_32, HID_RI_ENCODE_16, HID_RI_ENCODE_8; cbn [app];
    rewrite ?Z.shiftr_shiftr, ?shiftr_mod, ?land_255_mod by lia; done.
Qed.

Lemma macro_entry_ok m : entry_ok (of_macro m).
Proof.
  destruct m as [[t b] d]. split; cbn [of_macro head data].
  - destruct t, b; split; vm_compute; done.
  - rewrite bits_of_macro. apply Z.mod_pos_bound. lia.
Qed.

Lemma macros_ok l : Forall entry_ok (of_macro <$> l).
Proof. apply Forall_fmap, Forall_true. intros m. apply macro_entry_ok. Qed.

Lemma descriptor_entries l : descriptor_bytes l = entries_bytes (of_macro <$> l).
Proof.
  unfold descriptor_bytes, entries_bytes. rewrite <- list_fmap_compose. f_equal.
  apply list_fmap_ext. intros i m _. apply macro_bytes_entry.
Qed.

(** ** Reading the data *)

Lemma u16_shiftl8 b : is_u8 b → u16 (Z.shiftl b 8) = Z.shiftl b 8.
Proof. intros Hb. unfold u16, is_u8 in *. rewrite Z.shiftl_mul_pow2 by lia. apply Z.mod_small. lia. Qed.

Lemma split_byte n d : 8 ≤ n → 0 ≤ d < 2 ^ n → Z.lor (Z.shiftl (Z.shiftr d 8) 8) (Z.land d 0xFF) = d.
Proof.
  intros Hn Hd. apply Z.bits_inj'. intros i Hi.
  rewrite Z.lor_spec, land_255, Z.shiftl_spec by lia. change 256 with (2 ^ 8).
  destruct (decide (i < 8)).
  - rewrite Z.testbit_neg_r, Z.mod_pow2_bits_low by lia. done.
  - rewrite Z.mod_pow2_bits_high, orb_false_r, Z.shiftr_spec by lia. f_equal. lia.
Qed.

Lemma shiftr_range d n k : 0 ≤ k ≤ n → 0 ≤ d < 2 ^ n → 0 ≤ Z.shiftr d k < 2 ^ (n - k).
Proof.
  intros Hk Hd. rewrite Z.shiftr_div_pow2 by lia. split; [apply Z.div_pos; lia|].
  apply Z.div_lt_upper_bound; [lia|]. rewrite <- Z.pow_add_r by lia.
  replace (k + (n - k)) with n by lia. lia.
Qed.

(** The little-endian bytes combine to the data. *)
Lemma combine_16 d : 0 ≤ d < 2 ^ 16 →
  Z.lor (u16 (Z.shiftl (Z.land (Z.shiftr d 8) 0xFF) 8)) (Z.land d 0xFF) = d.
Proof.
  intros Hd. pose proof (shiftr_range d 16 8 ltac:(lia) Hd) as Hr.
  rewrite (land_255 (Z.shiftr d 8)), (Z.mod_small (Z.shiftr d 8)) by lia.
  rewrite u16_shiftl8 by (unfold is_u8; lia). by apply (split_byte 16); [lia|].
Qed.

Lemma combine_32 d : 0 ≤ d < 2 ^ 32 →
  u32 (Z.lor (Z.lor (Z.lor (Z.shiftl (Z.land (Z.shiftr (Z.shiftr d 16) 8) 0xFF) 24)
                           (Z.shiftl (Z.land (Z.shiftr d 16) 0xFF) 16))
                    (u16 (Z.shiftl (Z.land (Z.shiftr d 8) 0xFF) 8))) (Z.land d 0xFF)) = d.
Proof.
  intros Hd. pose proof (shiftr_range d 32 24 ltac:(lia) Hd) as Hr.
  rewrite (u16_shiftl8 (Z.land (Z.shiftr d 8) 0xFF)).
  2:{ rewrite land_255. apply Z.mod_pos_bound. lia. }
  assert (∀ x, x = d → u32 x = d) as Hu by (intros x ->; apply Z.mod_small; lia).
  apply Hu. apply Z.bits_inj'. intros i Hi. rewrite !Z.lor_spec, !land_255.
  change 256 with (2 ^ 8).
  assert (∀ x k, (0 ≤ k) → Z.testbit (Z.shiftl (x `mod` 2 ^ 8) k) i =
            bool_decide (k ≤ i < k + 8) && Z.testbit x (i - k)) as Hb.
  { intros x k Hk. rewrite Z.shiftl_spec by lia. destruct (decide (k ≤ i < k + 8)) as [Hin|Hout].
    - rewrite bool_decide_true, Z.mod_pow2_bits_low by lia. done.
    - rewrite bool_decide_false by done. destruct (decide (i < k)).
      + by rewrite Z.testbit_neg_r by lia.
      + by rewrite Z.mod_pow2_bits_high by lia. }
  rewrite !Hb by lia. rewrite <- (Z.shiftl_0_r (d `mod` 2 ^ 8)), Hb by lia.
  repeat case_bool_decide; simpl; try lia; rewrite ?Z.shiftr_spec by lia;
    rewrite ?Z.shiftr_spec by lia; rewrite ?orb_false_r; try (f_equal; lia).
  symmetry. apply Z.bits_above_log2; [lia|].
  destruct (decide (d = 0)) as [->|]; [simpl; lia|].
  apply Z.log2_lt_pow2; [lia|]. apply Z.lt_le_trans with (2 ^ 32); [lia|]. apply Z.pow_le_mono_r; lia.
Qed.

Section Lexing.
Context {F : Type}.
Context (filter : F → HID_ReportItem_t → bool * F) (junk : pst F → Z * Z).

(** The parser past [n] bytes. *)
Definition advance (n : nat) (s : pst F) : pst F :=
  set_input (ReportData s + n) (u16 (ReportSize s - Z.of_nat n)) s.

Lemma load_drop (buf : list Z) p k i x :
  drop p buf = k → k !! i = Some x → load buf (p + i) = Ok x.
Proof. intros <- Hx. apply load_Ok. by rewrite lookup_drop in Hx. Qed.

Lemma advance_0 s : is_u16 (ReportSize s) → advance 0 s = s.
Proof.
  intros Hs. unfold advance, set_input. rewrite Nat.add_0_r, Z.sub_0_r, u16_small by done.
  by destruct s.
Qed.

Lemma read_data_encoded buf h d rest s :
  drop (ReportData s) buf = HID_RI_ENCODE (bits_of h) d ++ rest →
  is_u16 (ReportSize s) →
  0 ≤ d < 2 ^ (8 * Z.of_nat (data_len (bits_of h))) →
  item_data buf h s = Ok (d, advance (data_len (bits_of h)) s).
Proof.
  intros Hbuf Hs Hd. unfold item_data, advance.
  pose proof (λ i x, load_drop buf (ReportData s) _ i x Hbuf) as Hl. clear Hbuf.
  assert (load buf (ReportData s) = load buf (ReportData s + 0)) as Hl0 by (by rewrite Nat.add_0_r).
  unfold bits_of in *. cbn zeta in *.
  destruct (Z.land h HID_RI_DATA_SIZE_MASK =? 3) eqn:E3; [|destruct (_ =? 2) eqn:E2; [|destruct (_ =? 1) eqn:E1]];
    cbn [HID_RI_DATA_BITS data_len] in *; rewrite ?E3, ?E2, ?E1.
  - rewrite Hl0, (Hl 3%nat _ eq_refl), (Hl 2%nat _ eq_refl), (Hl 1%nat _ eq_refl), (Hl 0%nat _ eq_refl).
    cbn. by rewrite combine_32.
  - rewrite Hl0, (Hl 1%nat _ eq_refl), (Hl 0%nat _ eq_refl). cbn. by rewrite combine_16.
  - rewrite Hl0, (Hl 0%nat _ eq_refl). cbn. rewrite land_255, Z.mod_small by done. done.
  - simpl in Hd. replace d with 0 by lia. by rewrite <- (advance_0 s Hs) at 1.
Qed.

(** The data does not fit into what is left. *)
Lemma read_data_short buf h (s : pst F) :
  (length (drop (ReportData s) buf) < data_len (bits_of h))%nat →
  item_data buf h s = Err OutOfBounds.
Proof.
  rewrite length_drop. intros Hl. unfold item_data, bits_of in *. cbn zeta in *.
  assert (∀ i, (length buf ≤ i)%nat → load buf i = Err OutOfBounds) as Ho.
  { intros i Hi. unfold load. by rewrite lookup_ge_None_2. }
  destruct (Z.land h HID_RI_DATA_SIZE_MASK =? 3) eqn:E3; [|destruct (_ =? 2) eqn:E2; [|destruct (_ =? 1) eqn:E1]];
    cbn [HID_RI_DATA_BITS data_len] in *; rewrite ?E3, ?E2, ?E1.
  - by rewrite (Ho (ReportData s + 3)%nat) by lia.
  - by rewrite (Ho (ReportData s + 1)%nat) by lia.
  - by rewrite (Ho (ReportData s)) by lia.
  - lia.
Qed.

(** ** Running items *)

(** One item of the descriptor. *)
Definition run_entry (e : entry) (s : pst F) : res (flow F) :=
  run_item filter junk (head e) (data e) (advance (entry_len e) s).

(** The items in their order, up to the first that makes the parser return. *)
Fixpoint run_prefix (es : list entry) (s : pst F) : res (flow F) :=
  match es with
  | [] => mret (Next s)
  | e :: es =>
      o ← run_entry e s;
      match o with Next s => run_prefix es s | Return c s => mret (Return c s) end
  end.

Lemma run_prefix_app es1 es2 s :
  run_prefix (es1 ++ es2) s =
  (o ← run_prefix es1 s;
   match o with Next s => run_prefix es2 s | Return c s => mret (Return c s) end).
Proof.
  revert s. induction es1 as [|e es1 IH]; intros s; [done|]. cbn [run_prefix app].
  destruct (run_entry e s) as [[s'|c s']|err]; [|done|done]; rewrite !res_bind_Ok; apply IH.
Qed.

(** The end of the parser. *)
Definition finish (o : flow F) : res (Z * pst F) :=
  match o with
  | Next s => mret (if bool_decide (TotalReportItems (ParserData s) = 0%nat)
                    then HID_PARSE_NoUnfilteredReportItems else HID_PARSE_Successful, s)
  | Return c s => mret (c, s)
  end.

(** What is left of the descriptor is [k]. *)
Definition at_bytes (buf k : list Z) (s : pst F) : Prop :=
  drop (ReportData s) buf = k ∧ ReportSize s = Z.of_nat (length k).

Lemma parse_item_entry buf e rest s :
  entry_ok e → at_bytes buf (entry_bytes e ++ rest) s →
  Z.of_nat (length (entry_bytes e ++ rest)) < 65536 →
  parse_item filter junk buf s = run_entry e s.
Proof.
  intros [Hh Hd] [Hb Hn] Hlen. rewrite length_app, length_entry_bytes in *. unfold parse_item.
  pose proof (load_drop _ _ _ 0%nat (head e) Hb eq_refl) as H0. rewrite Nat.add_0_r in H0.
  rewrite H0. cbn [mbind res_bind].
  erewrite (read_data_encoded buf (head e) (data e) rest).
  - cbn. unfold run_entry, advance, set_input. cbn. unfold entry_len, u16.
    rewrite Zminus_mod_idemp_l. f_equal. f_equal; [lia|f_equal; lia].
  - cbn. rewrite <- (Nat.add_1_r (ReportData s)), <- drop_drop, Hb. done.
  - cbn. apply u16_range.
  - done.
Qed.

(** Running an item does not move in the descriptor. *)
Definition stays (s : pst F) (m : res (flow F)) : Prop :=
  match m with
  | Ok (Next s') => ReportData s' = ReportData s ∧ ReportSize s' = ReportSize s
  | _ => True
  end.

Lemma stays_bind {A} s (m : res A) f :
  (∀ a, m = Ok a → stays s (f a)) → stays s (m ≫= f).
Proof. destruct m; cbn; auto. Qed.

Lemma stays_next_usage (s : pst F) u s' :
  next_usage s = Ok (u, s') → ReportData s' = ReportData s ∧ ReportSize s' = ReportSize s.
Proof.
  unfold next_usage. case_bool_decide.
  - destruct (load _ _) as [x|]; [|done]. cbn. destruct (shift_usages _ _) as [l|]; [|done].
    by intros [= <- <-].
  - case_match; by intros [= <- <-].
Qed.

Local Ltac stays :=
  repeat first
    [ done
    | apply stays_bind; intros
    | match goal with
      | |- stays _ (match ?x with _ => _ end) => destruct x eqn:?
      | H : next_usage _ = Ok (_, _) |- _ => apply stays_next_usage in H as []
      end
    | progress (cbn; simplify_eq) ].

Lemma stays_add_item ty d s : stays s (add_item filter junk ty d s).
Proof. unfold add_item. stays; split; congruence. Qed.

Lemma stays_add_items n ty d : ∀ s, stays s (add_items filter junk n ty d s).
Proof.
  induction n as [|n IH]; intros s; [done|]. cbn [add_items]. apply stays_bind. intros o Ho.
  pose proof (stays_add_item ty d s) as Hs. rewrite Ho in Hs. destruct o as [s'|]; [|done].
  destruct Hs as [H1 H2]. specialize (IH s'). unfold stays in *. by rewrite H1, H2 in IH.
Qed.

Lemma stays_name_report c id s s0 :
  ReportData s = ReportData s0 → ReportSize s = ReportSize s0 → stays s0 (name_report c id s).
Proof. intros. unfold name_report. stays. Qed.

Lemma stays_update g s : stays s (update_table g s).
Proof. unfold update_table. stays. Qed.

Lemma stays_item item d s : stays s (do_item filter junk item d s).
Proof.
  unfold do_item. destruct (select_case item) as [[]|]; try done; try apply stays_update.
  - unfold case_push. stays.
  - unfold case_pop. stays.
  - unfold case_report_id. stays; by apply stays_name_report.
  - unfold case_usage. stays.
  - unfold case_collection. stays; split; congruence.
  - unfold case_end_collection. stays.
  - apply stays_bind. intros. apply stays_add_items.
  - apply stays_bind. intros. apply stays_add_items.
  - apply stays_bind. intros. apply stays_add_items.
Qed.

Lemma run_entry_advances buf e rest s s' :
  at_bytes buf (entry_bytes e ++ rest) s → Z.of_nat (length (entry_bytes e ++ rest)) < 65536 →
  run_entry e s = Ok (Next s') → at_bytes buf rest s'.
Proof.
  intros [Hb Hn] Hlen Hr. rewrite length_app, length_entry_bytes in *.
  unfold run_entry, run_item in Hr. apply res_bind_Ok_inv in Hr as (o & Ho & Hr).
  pose proof (stays_item (head e) (data e) (advance (entry_len e) s)) as Hs. rewrite Ho in Hs.
  destruct o as [s1|]; [|done]. injection Hr as <-. destruct Hs as [H1 H2].
  unfold at_bytes. assert (ReportData (reset_usages (head e) s1) = ReportData s1 ∧
          ReportSize (reset_usages (head e) s1) = ReportSize s1) as [-> ->].
  { unfold reset_usages. by case_match. }
  split.
  - rewrite H1. cbn. rewrite <- drop_drop, Hb. by rewrite drop_app_length' by (by rewrite length_entry_bytes).
  - rewrite H2. cbn. rewrite u16_small; [lia|]. unfold is_u16. lia.
Qed.

(** The loop of the parser runs the items at its front. *)
Lemma parse_loop_prefix buf rest es : ∀ fuel s,
  Forall entry_ok es → at_bytes buf (entries_bytes es ++ rest) s →
  Z.of_nat (length (entries_bytes es ++ rest)) < 65536 →
  parse_loop filter junk (length es + fuel) buf s =
  (o ← run_prefix es s;
   match o with Next s => parse_loop filter junk fuel buf s | Return c s => mret (c, s) end) ∧
  (∀ s', run_prefix es s = Ok (Next s') → at_bytes buf rest s').
Proof.
  induction es as [|e es IH]; intros fuel s He Hb Hlen; [split; [done|by intros s' [= <-]]|].
  apply Forall_cons in He as [He Hes].
  rewrite entries_bytes_cons, <- (assoc_L (++)) in Hb, Hlen. cbn [length Nat.add parse_loop run_prefix].
  destruct (Z.eqb_spec (ReportSize s) 0) as [H0|H0].
  { destruct Hb as [_ Hb]. rewrite Hb, length_app, length_entry_bytes in H0. unfold entry_len in H0. lia. }
  rewrite (parse_item_entry buf e (entries_bytes es ++ rest)) by done.
  destruct (run_entry e s) as [[s'|c s']|err] eqn:Hr; cbn; [|done|done].
  apply (IH fuel s'); [done| |].
  - by eapply run_entry_advances.
  - rewrite length_app in Hlen. lia.
Qed.

Lemma length_entries es : (length es ≤ length (entries_bytes es))%nat.
Proof.
  induction es as [|e es IH]; [done|].
  rewrite entries_bytes_cons, length_app, length_entry_bytes. unfold entry_len. cbn. lia.
Qed.

(** Parsing the bytes of a sequence of items is running the items. *)
Lemma parse_descriptor table1 usages es f :
  Forall entry_ok es → Z.of_nat (length (entries_bytes es)) < 65536 →
  USB_ProcessHIDReport filter junk table1 usages (entries_bytes es)
    (Z.of_nat (length (entries_bytes es))) f =
  (o ← run_prefix es (parser_start table1 usages (Z.of_nat (length (entries_bytes es))) f);
   '(c, s) ← finish o; mret (c, ParserData s, app_state s)).
Proof.
  intros He Hlen. unfold USB_ProcessHIDReport. set (s0 := parser_start _ _ _ _).
  pose proof (length_entries es) as Hl.
  replace (S (length (entries_bytes es))) with
    (length es + S (length (entries_bytes es) - length es))%nat by lia.
  destruct (parse_loop_prefix (entries_bytes es) [] es (S (length (entries_bytes es) - length es)) s0)
    as [-> Hend]; rewrite ?app_nil_r; [done|by split|done|].
  destruct (run_prefix es s0) as [[s|c s]|err]; cbn; [|done|done].
  destruct (Hend s eq_refl) as [_ ->]. done.
Qed.

(** A descriptor that ends inside of an item is read beyond its end. *)
Lemma parse_truncated table1 usages es e k f :
  let buf := entries_bytes es ++ take k (entry_bytes e) in
  Forall entry_ok es → entry_ok e → (0 < k < entry_len e)%nat → Z.of_nat (length buf) < 65536 →
  (∃ s, run_prefix es (parser_start table1 usages (Z.of_nat (length buf)) f) = Ok (Next s)) →
  USB_ProcessHIDReport filter junk table1 usages buf (Z.of_nat (length buf)) f = Err OutOfBounds.
Proof.
  intros buf He Hok Hk Hlen [s Hs]. unfold USB_ProcessHIDReport.
  pose proof (length_entries es) as Hl.
  assert (length (take k (entry_bytes e)) = k) as Hkl.
  { rewrite length_take, length_entry_bytes. lia. }
  assert (length buf = (length (entries_bytes es) + k)%nat) as Hbl by (unfold buf; rewrite length_app; lia).
  replace (S (length buf)) with (length es + S (S (length buf - length es - 1)))%nat by lia.
  destruct (parse_loop_prefix buf (take k (entry_bytes e)) es (S (S (length buf - length es - 1)))
    (parser_start table1 usages (Z.of_nat (length buf)) f)) as [-> Hend]; [done|by split|done|].
  rewrite Hs. destruct (Hend s Hs) as [Hb Hn]. cbn [mbind res_bind]. cbn [parse_loop].
  rewrite Hn. destruct (Z.eqb_spec (Z.of_nat (length (take k (entry_bytes e)))) 0); [lia|].
  unfold parse_item.
  pose proof (load_drop _ _ _ 0%nat (head e) Hb) as H0. rewrite Nat.add_0_r in H0.
  rewrite H0 by (by rewrite lookup_take_lt by lia). cbn [mbind res_bind].
  rewrite read_data_short; [done|]. cbn. rewrite <- (Nat.add_1_r (ReportData s)), <- drop_drop, Hb.
  unfold entry_len in Hk. rewrite length_drop, Hkl. lia.
Qed.

End Lexing.
