(* ===== verification/HidLayout.v ===== *)
(** * The tables of the report parser

    Whatever descriptor of complete items without PUSH it is given, the parser
    stays inside its tables and returns one of its codes ([hid_parser_safe]);
    the items it stores lie one behind the other in their reports
    ([hid_items_laid_out]).  A PUSH copies more than a table element holds. *)

From S2P Require Import Prelude HidParser HidItems.
Import Hid.
Open Scope Z_scope.

(** ** Programs that return *)

Definition gives {A} (P : A → Prop) (m : res A) : Prop := ∃ a, m = Ok a ∧ P a.

Lemma gives_ret {A} (P : A → Prop) a : P a → gives P (mret a).
Proof. by exists a. Qed.

Lemma gives_bind {A B} (P : A → Prop) (Q : B → Prop) m (f : A → res B) :
  gives P m → (∀ a, P a → gives Q (f a)) → gives Q (m ≫= f).
Proof. intros (a & -> & Ha) Hf. by apply Hf. Qed.

Lemma gives_weaken {A} (P Q : A → Prop) m : gives P m → (∀ a, P a → Q a) → gives Q m.
Proof. intros (a & -> & Ha) Hf. exists a. auto. Qed.

Lemma gives_load {A} (l : list A) i : (i < length l)%nat → gives (λ x, l !! i = Some x) (load l i).
Proof. intros [x Hx]%lookup_lt_is_Some_2. exists x. split; [by apply load_Ok|done]. Qed.

Lemma gives_store {A} (l : list A) i x :
  (i < length l)%nat → gives (λ l', l' = <[i := x]> l) (store l i x).
Proof. intros Hi. eexists. split; [by apply store_Ok|done]. Qed.

(** Takes the next load, store or program of the database [hid]. *)
Create HintDb hid.
Ltac gstep x Hx :=
  eapply gives_bind;
  [first [apply gives_load | apply gives_store | eauto with hid] | intros x Hx; cbn beta in Hx].

(** ** The tables *)

Definition path_ok (o : option nat) : Prop :=
  match o with Some c => (c < HID_MAX_COLLECTIONS)%nat | None => True end.

(** Lengths of the tables and indices into them. *)
Record shaped_info (i : HID_ReportInfo_t) : Prop := {
  si_reports : (1 ≤ TotalDeviceReports i ≤ HID_MAX_REPORT_IDS)%nat;
  si_sizes : length (ReportIDSizes i) = HID_MAX_REPORT_IDS;
  si_three : Forall (λ r, length (ReportSizeBits r) = 3%nat) (ReportIDSizes i);
  si_paths : length (CollectionPaths i) = HID_MAX_COLLECTIONS;
  si_parents : Forall (λ p, path_ok (Parent p)) (CollectionPaths i);
  si_items : length (ReportItems i) = HID_MAX_REPORTITEMS;
  si_total : (TotalReportItems i ≤ HID_MAX_REPORTITEMS)%nat
}.

(** The current element of the state table is the first one, with the given
    report size and report count. *)
Definition on_table {F} (sz cnt : Z) (s : pst F) : Prop :=
  length (StateTable s) = HID_STATETABLE_STACK_DEPTH ∧ CurrStateTable s = 0%nat ∧
  ∃ t, StateTable s !! 0%nat = Some t ∧ BitSize (TabAttributes t) = sz ∧ ReportCount t = cnt.

Record shaped {F} (s : pst F) : Prop := {
  sh_info : shaped_info (ParserData s);
  sh_report : (CurrReportIDInfo s < TotalDeviceReports (ParserData s))%nat;
  sh_usages : length (UsageList s) = HID_USAGE_STACK_DEPTH;
  sh_usage : (UsageListSize s ≤ HID_USAGE_STACK_DEPTH)%nat;
  sh_path : path_ok (CurrCollectionPath s)
}.

(** The codes of the returns inside of the loop. *)
Definition is_code (c : Z) : Prop := 1 ≤ c ≤ 7.

(** Both ways out of the body of the loop. *)
Definition flow_all {F} (P : pst F → Prop) (o : flow F) : Prop :=
  match o with Next s => P s | Return c s => is_code c ∧ P s end.

Section Safety.
Context {F : Type}.
Context (filter : F → HID_ReportItem_t → bool * F) (junk : pst F → Z * Z).
Implicit Types s : pst F.

Abbreviation inv sz cnt := (λ s : pst F, shaped s ∧ on_table sz cnt s).

Lemma gives_shift n l : (n ≤ HID_USAGE_STACK_DEPTH)%nat → length l = HID_USAGE_STACK_DEPTH →
  gives (λ l', length l' = HID_USAGE_STACK_DEPTH) (shift_usages n l).
Proof.
  intros Hn Hl. unfold shift_usages.
  destruct (for_u16_from_inv (λ _ l, length l = HID_USAGE_STACK_DEPTH) (n - 1)
    (λ i l, x ← load l i; store l (i - 1) x) 1 l) as (l' & -> & Hl'); [done| |by exists l'].
  intros j l1 Hj Hl1. unfold HID_USAGE_STACK_DEPTH in *.
  destruct (gives_load l1 j) as (x & -> & _); [lia|]. cbn.
  eexists. split; [apply store_Ok; lia|]. by rewrite length_insert.
Qed.

(** The rest of the state when a usage is taken. *)
Definition same_tables s s' : Prop :=
  StateTable s' = StateTable s ∧ CurrStateTable s' = CurrStateTable s ∧
  CurrCollectionPath s' = CurrCollectionPath s ∧ CurrReportIDInfo s' = CurrReportIDInfo s ∧
  ParserData s' = ParserData s.

Lemma gives_usage s : shaped s →
  gives (λ us, shaped us.2 ∧ same_tables s us.2) (next_usage s).
Proof.
  intros [Hi Hr Hu Hn Hp]. unfold next_usage. case_bool_decide.
  - gstep x Hx; [rewrite Hu; unfold HID_USAGE_STACK_DEPTH; lia|].
    eapply gives_bind; [by apply gives_shift|]. intros l Hl. apply gives_ret.
    split; [|done]. split; try done. cbn. lia.
  - case_match; by apply gives_ret.
Qed.

Lemma on_table_same sz cnt s s' : same_tables s s' → on_table sz cnt s → on_table sz cnt s'.
Proof. unfold on_table. by intros (-> & -> & _) H. Qed.

Lemma gives_table sz cnt s : on_table sz cnt s →
  gives (λ t, StateTable s !! 0%nat = Some t ∧ BitSize (TabAttributes t) = sz ∧ ReportCount t = cnt)
    (load (StateTable s) (CurrStateTable s)).
Proof. intros (Hl & -> & t & Ht & H). exists t. split; [by apply load_Ok|done]. Qed.

(** An assignment to the current element. *)
Lemma gives_put_table sz cnt s (t : HID_StateTable_t) : on_table sz cnt s →
  gives (λ l, ∀ s', CurrStateTable s' = 0%nat → StateTable s' = l →
                on_table (BitSize (TabAttributes t)) (ReportCount t) s')
    (store (StateTable s) (CurrStateTable s) t).
Proof.
  intros (Hl & Hc & _). eapply gives_weaken; [apply gives_store; rewrite Hl, Hc; unfold HID_STATETABLE_STACK_DEPTH; lia|].
  intros l -> s' Hs Hs'. unfold on_table. rewrite Hs, Hs', length_insert. split_and!; [done|done|].
  exists t. split; [|done]. rewrite Hc. apply list_lookup_insert_eq. rewrite Hl. unfold HID_STATETABLE_STACK_DEPTH. lia.
Qed.

(** The report size and count after an item. *)
Definition next_size (item d sz : Z) : Z :=
  match select_case item with Some REPORT_SIZE => u8 d | _ => sz end.
Definition next_count (item d cnt : Z) : Z :=
  match select_case item with Some REPORT_COUNT => u8 d | _ => cnt end.

Lemma update_table_safe g sz cnt sz' cnt' s : inv sz cnt s →
  (∀ t, BitSize (TabAttributes t) = sz → ReportCount t = cnt →
        BitSize (TabAttributes (g t)) = sz' ∧ ReportCount (g t) = cnt') →
  gives (flow_all (inv sz' cnt')) (update_table g s).
Proof.
  intros [[Hi Hr Hu Hn Hp] Ht] Hg. unfold update_table.
  eapply gives_bind; [by apply gives_table|]. intros t (_ & Hsz & Hcnt).
  eapply gives_bind; [by eapply gives_put_table|]. intros l Hl. apply gives_ret.
  destruct (Hg t Hsz Hcnt) as [<- <-]. split; [done|]. apply Hl; [|done]. apply Ht.
Qed.

Lemma set_report_table c i s sz cnt : on_table sz cnt s → on_table sz cnt (set_report c (set_info i s)).
Proof. done. Qed.

Lemma gives_find l id n i : (i + n ≤ length l)%nat →
  gives (λ o, match o with Some c => i ≤ c < i + n | None => True end)%nat (find_report l id n i).
Proof.
  revert i. induction n as [|n IH]; intros i Hi; [by apply gives_ret|]. cbn.
  gstep x Hx; [lia|]. case_match; [apply gives_ret; lia|].
  eapply gives_weaken; [apply IH; lia|]. intros [c|] Hc; [lia|done].
Qed.

Lemma Forall_insert_report (l : list HID_ReportSizeInfo_t) c r :
  Forall (λ r, length (ReportSizeBits r) = 3%nat) l → length (ReportSizeBits r) = 3%nat →
  Forall (λ r, length (ReportSizeBits r) = 3%nat) (<[c := r]> l).
Proof. intros. by apply Forall_insert. Qed.

Lemma name_report_safe c id sz cnt s : inv sz cnt s →
  (c < TotalDeviceReports (ParserData s))%nat →
  gives (flow_all (inv sz cnt)) (name_report c id s).
Proof.
  intros [[Hi Hr Hu Hn Hp] Ht] Hc. destruct Hi as [H1 H2 H3 H4 H5 H6 H7]. unfold name_report.
  gstep r Hlr; [lia|]. gstep l Hl; [lia|]. apply gives_ret. split; [|done].
  assert (length (ReportSizeBits r) = 3%nat) by exact (Forall_lookup_1 _ _ _ _ H3 Hlr).
  split; try done. subst l. split; try done; cbn; [by rewrite length_insert|by apply Forall_insert_report].
Qed.

Lemma case_report_id_safe d sz cnt s : inv sz cnt s →
  gives (flow_all (inv sz cnt)) (case_report_id d s).
Proof.
  intros [Hs Ht]. unfold case_report_id.
  eapply gives_bind; [by apply gives_table|]. intros t (_ & Hsz & Hcnt).
  eapply gives_bind; [by eapply gives_put_table|]. intros l Hl. cbn zeta.
  set (s1 := set_table l (CurrStateTable s) s).
  assert (inv sz cnt s1) as [Hs1 Ht1].
  { split; [by destruct Hs|]. subst sz cnt. apply Hl; [apply Ht|done]. }
  destruct (UsingReportIDs _); [|apply name_report_safe; [done|apply Hs1]].
  destruct (sh_info _ Hs1) as [H1 H2 H3 H4 H5 H6 H7].
  eapply gives_bind; [apply gives_find; lia|]. intros [c|] Hc.
  { apply name_report_safe; [done|lia]. }
  case_bool_decide as Hm; [by apply gives_ret|].
  gstep l' Hl'; [unfold HID_MAX_REPORT_IDS in *; lia|]. apply name_report_safe; [|cbn; lia].
  split; [|done]. destruct Hs1. subst s1. cbn in *. split; cbn; try done; [|lia]. subst l'.
  split; cbn; try done; [lia|by rewrite length_insert|by apply Forall_insert_report].
Qed.

Lemma case_usage_safe d sz cnt s : inv sz cnt s → gives (flow_all (inv sz cnt)) (case_usage d s).
Proof.
  intros [[Hi Hr Hu Hn Hp] Ht]. unfold case_usage. case_bool_decide as Hm; [by apply gives_ret|].
  gstep l Hl; [lia|]. apply gives_ret. split; [|done]. split; try done; cbn; [|lia].
  subst l. by rewrite length_insert.
Qed.

Lemma gives_free_path l n c : length l = HID_MAX_COLLECTIONS →
  (c < HID_MAX_COLLECTIONS ≤ c + n)%nat →
  gives (λ o, match o with Some c => c < HID_MAX_COLLECTIONS | None => True end)%nat
    (free_path n l c).
Proof.
  intros Hl. revert c. induction n as [|n IH]; intros c Hc; [lia|]. cbn.
  gstep p Hp; [lia|]. destruct (Parent p); [|apply gives_ret; lia].
  case_bool_decide; [by apply gives_ret|]. apply IH. unfold HID_MAX_COLLECTIONS in *. lia.
Qed.

Lemma case_end_collection_safe sz cnt s : inv sz cnt s →
  gives (flow_all (inv sz cnt)) (case_end_collection s).
Proof.
  intros [[Hi Hr Hu Hn Hp] Ht]. unfold case_end_collection.
  destruct (CurrCollectionPath s) as [c|] eqn:E.
  - gstep p Hpl; [by rewrite (si_paths _ Hi)|]. apply gives_ret. split; [|done]. split; try done.
    cbn. by eapply (Forall_lookup_1 _ _ _ _ (si_parents _ Hi)).
  - apply gives_ret. split; [done|]. split; [|done]. split; try done. by rewrite E.
Qed.

Lemma case_collection_safe d sz cnt s : inv sz cnt s →
  gives (flow_all (inv sz cnt)) (case_collection d s).
Proof.
  intros [Hs Ht]. pose proof Hs as [Hi Hr Hu Hn Hp]. unfold case_collection. cbn zeta.
  eapply (gives_bind (λ o, match o with
    | Some (c, l) => (c < HID_MAX_COLLECTIONS)%nat ∧ length l = HID_MAX_COLLECTIONS ∧
                     Forall (λ p, path_ok (Parent p)) l
    | None => True end)).
  { destruct Hi as [H1 H2 H3 H4 H5 H6 H7]. destruct (CurrCollectionPath s) as [parent|].
    - eapply gives_bind; [apply gives_free_path; [done|unfold HID_MAX_COLLECTIONS; lia]|].
      intros [c|] Hc; cbn in Hc; [|by apply gives_ret].
      gstep p Hl; [lia|]. gstep l Hl'; [lia|]. apply gives_ret. subst l. split_and!; [done| |].
      + by rewrite length_insert.
      + by apply Forall_insert.
    - apply gives_ret. split_and!; [unfold HID_MAX_COLLECTIONS; lia|done|done]. }
  intros [[c l]|] Hc; [|by apply gives_ret]. destruct Hc as (Hc & Hl & Hl').
  eapply gives_bind; [by apply gives_table|]. intros t _.
  gstep p Hpl; [lia|]. eapply gives_bind; [by apply gives_usage|].
  intros [u s'] [Hs' Hsame]. cbn [snd] in *. cbn zeta. gstep l' Hll; [lia|]. apply gives_ret.
  split; [|exact (on_table_same sz cnt s s' Hsame Ht)]. destruct Hs' as [Hi' Hr' Hu' Hn' Hp']. split; try done.
  destruct Hi'. subst l'. split; try done; cbn; [by rewrite length_insert|].
  apply Forall_insert; [done|]. cbn. by apply (Forall_lookup_1 _ _ _ _ Hl' Hpl).
Qed.

Lemma add_item_safe ty d sz cnt s : (ty < 3)%nat → inv sz cnt s →
  gives (flow_all (inv sz cnt)) (add_item filter junk ty d s).
Proof.
  intros Hty [Hs Ht]. unfold add_item.
  eapply gives_bind; [by apply gives_table|]. intros t _.
  eapply gives_bind; [by apply gives_usage|]. intros [u s'] [[Hi Hr Hu Hn Hp] Hsame]. cbn [snd] in *.
  pose proof (on_table_same sz cnt s s' Hsame Ht) as Ht'. clear Hs Ht Hsame. cbn zeta.
  pose proof Hi as [H1 H2 H3 H4 H5 H6 H7].
  gstep r Hlr; [lia|]. pose proof (Forall_lookup_1 _ _ _ _ H3 Hlr) as Hr3. cbn in Hr3.
  gstep off Hoff; [lia|]. gstep sizes Hsz; [lia|]. gstep l Hl; [lia|].
  assert (∀ n items, (n ≤ HID_MAX_REPORTITEMS)%nat → length items = HID_MAX_REPORTITEMS →
    ∀ z, shaped_info (set_items n items (set_largest z (set_reports (TotalDeviceReports (ParserData s')) l (ParserData s')))))
    as Hsh.
  { intros n items Hn' Hit z. subst l sizes. split; try done; cbn; [by rewrite length_insert|].
    apply Forall_insert_report; [done|]. cbn. by rewrite length_insert. }
  case_bool_decide as Hmax.
  - apply gives_ret. split; [done|]. split; [|done]. split; try done.
    exact (Hsh _ _ H7 H6 (Z.max (LargestReportSizeBits (ParserData s')) (u16 (off + BitSize (TabAttributes t))))).
  - cbn in Hmax. gstep items Hit; [cbn; lia|].
    assert (length items = HID_MAX_REPORTITEMS) as Hil by (subst items; by rewrite length_insert).
    case_match.
    + destruct (filter (app_state s') _) as [keep f]. apply gives_ret. split; [|done]. split; try done.
      apply Hsh; [|done]. destruct keep; cbn; lia.
    + apply gives_ret. split; [|done]. split; try done. by apply Hsh.
Qed.

Lemma add_items_safe ty d sz cnt n : (ty < 3)%nat → ∀ s, inv sz cnt s →
  gives (flow_all (inv sz cnt)) (add_items filter junk n ty d s).
Proof.
  intros Hty. induction n as [|n IH]; intros s Hs; [by apply gives_ret|]. cbn.
  eapply gives_bind; [by apply add_item_safe|]. intros [s'|c s'] Hs'; [by apply IH|by apply gives_ret].
Qed.

Lemma case_main_safe ty d sz cnt s : (ty < 3)%nat → inv sz cnt s →
  gives (flow_all (inv sz cnt)) (case_main filter junk ty d s).
Proof.
  intros Hty [Hs Ht]. eapply gives_bind; [by apply gives_table|]. intros t _.
  by apply add_items_safe.
Qed.

Lemma do_item_safe item d sz cnt s : select_case item ≠ Some PUSH → inv sz cnt s →
  gives (flow_all (inv (next_size item d sz) (next_count item d cnt))) (do_item filter junk item d s).
Proof.
  intros Hpush Hs. pose proof Hs as [Hsh Ht]. unfold do_item, next_size, next_count.
  destruct (select_case item) as [[]|]; try done;
    try (eapply update_table_safe; [done|]; intros t <- <-; cbn; repeat case_match; done).
  - unfold case_pop. destruct Ht as (Hl & Hc & Ht). rewrite Hc. by apply gives_ret.
  - by apply case_report_id_safe.
  - by apply case_usage_safe.
  - by apply gives_ret; destruct Hsh.
  - by apply gives_ret; destruct Hsh.
  - by apply case_collection_safe.
  - by apply case_end_collection_safe.
  - apply case_main_safe; [cbv; lia|done].
  - apply case_main_safe; [cbv; lia|done].
  - apply case_main_safe; [cbv; lia|done].
  - by apply gives_ret.
Qed.

Lemma run_entry_safe e sz cnt s : select_case (head e) ≠ Some PUSH → inv sz cnt s →
  gives (flow_all (inv (next_size (head e) (data e) sz) (next_count (head e) (data e) cnt)))
    (run_entry filter junk e s).
Proof.
  intros Hpush [[Hi Hr Hu Hn Hp] Ht]. unfold run_entry, run_item.
  eapply gives_bind; [by apply do_item_safe|]. intros [s'|c s'] Hs'; [|by apply gives_ret].
  apply gives_ret. destruct Hs' as [[Hi' Hr' Hu' Hn' Hp'] Ht']. unfold reset_usages. cbn [flow_all].
  case_match; [|done]. split; [|done]. split; try done. cbn. lia.
Qed.

(** No item is a PUSH. *)
Definition no_push (es : list entry) : Prop := Forall (λ e, select_case (head e) ≠ Some PUSH) es.

(** The report size and count behind the items. *)
Fixpoint end_size (es : list entry) (sz : Z) : Z :=
  match es with [] => sz | e :: es => end_size es (next_size (head e) (data e) sz) end.
Fixpoint end_count (es : list entry) (cnt : Z) : Z :=
  match es with [] => cnt | e :: es => end_count es (next_count (head e) (data e) cnt) end.

Lemma run_prefix_safe es : ∀ sz cnt s, no_push es → inv sz cnt s →
  gives (λ o, match o with
              | Next s => inv (end_size es sz) (end_count es cnt) s
              | Return c s => is_code c ∧ shaped s end) (run_prefix filter junk es s).
Proof.
  induction es as [|e es IH]; intros sz cnt s Hes Hs; [by apply gives_ret|].
  apply Forall_cons in Hes as [He Hes]. cbn [run_prefix].
  eapply gives_bind; [by apply run_entry_safe|].
  intros [s'|c s'] Hs'; [by eapply IH|]. apply gives_ret. by destruct Hs' as (? & ? & ?).
Qed.

Lemma start_inv table1 usages size f : length usages = HID_USAGE_STACK_DEPTH →
  inv 0 0 (parser_start table1 usages size f).
Proof.
  intros Hu. unfold HID_USAGE_STACK_DEPTH in *. split.
  - split; cbn; try done; try lia. split; cbn; try done; try lia; repeat constructor.
  - split_and!; try done. by exists zero_table.
Qed.


End Safety.

(** C20: For every report descriptor of complete items without PUSH (any head
    bytes, any data), every filter callback and whatever the uninitialised
    memory holds, the parser returns: it never leaves one of its tables, the
    code is one of the nine it declares, the tables it fills are well-formed,
    and success means that at least one item was stored. *)
Theorem hid_parser_safe {F} (filter : F → HID_ReportItem_t → bool * F) junk table1 usages es f :
  Forall entry_ok es → Z.of_nat (length (entries_bytes es)) < 65536 →
  length usages = HID_USAGE_STACK_DEPTH → no_push es →
  ∃ code info f',
    USB_ProcessHIDReport filter junk table1 usages (entries_bytes es)
      (Z.of_nat (length (entries_bytes es))) f = Ok (code, info, f') ∧
    0 ≤ code ≤ 8 ∧ shaped_info info ∧
    (code = HID_PARSE_Successful → (0 < TotalReportItems info)%nat).
Proof.
  intros He Hlen Hu Hp. rewrite parse_descriptor by done.
  destruct (run_prefix_safe filter junk es 0 0 _ Hp
    (start_inv table1 usages (Z.of_nat (length (entries_bytes es))) f Hu)) as ([s|c s] & -> & Hs); cbn.
  - case_bool_decide; (do 3 eexists); (split; [done|]); split_and!; try done; try apply Hs. intros _. lia.
  - do 3 eexists. split; [done|]. destruct Hs as [Hc Hs]. unfold is_code in Hc.
    split_and!; [lia..|apply Hs|]. unfold HID_PARSE_Successful. lia.
Qed.

(** A PUSH item makes the parser write behind its state table, whatever the
    rest of the descriptor is: the copy is as long as a report item, which is
    longer than an element of the table, and there are two elements. *)
Theorem hid_push_overruns {F} (filter : F → HID_ReportItem_t → bool * F) junk table1 usages es e rest f :
  let l := es ++ e :: rest in
  Forall entry_ok l → Z.of_nat (length (entries_bytes l)) < 65536 →
  length usages = HID_USAGE_STACK_DEPTH → no_push es → select_case (head e) = Some PUSH →
  (∃ s, run_prefix filter junk es
          (parser_start table1 usages (Z.of_nat (length (entries_bytes l))) f) = Ok (Next s)) →
  USB_ProcessHIDReport filter junk table1 usages (entries_bytes l)
    (Z.of_nat (length (entries_bytes l))) f = Err OutOfBounds.
Proof.
  intros l He Hlen Hu Hp Hpush [s Hs]. rewrite parse_descriptor by done.
  destruct (run_prefix_safe filter junk es 0 0 _ Hp
    (start_inv table1 usages (Z.of_nat (length (entries_bytes l))) f Hu)) as (o & Ho & Hinv).
  rewrite Hs in Ho. injection Ho as <-. destruct Hinv as [_ (Hl & Hc & _)].
  unfold l at 1. rewrite run_prefix_app, Hs. cbn [mbind res_bind run_prefix].
  unfold run_entry, run_item, do_item. rewrite Hpush. unfold case_push. cbn [advance set_input CurrStateTable].
  rewrite Hc. unfold copy_table. cbn [advance set_input CurrStateTable StateTable]. by rewrite Hc, Hl.
Qed.

(** A report of two bytes. *)
Definition sample : list entry := of_macro <$> [(REPORT_SIZE, Bits8, 8); (REPORT_COUNT, Bits8, 2); (INPUT, Bits8, 2)].

Lemma sample_no_push : no_push sample.
Proof. repeat (constructor; [vm_compute; congruence|]). constructor. Qed.

Lemma hid_parser_safe_witness : ∃ code info f',
  USB_ProcessHIDReport (λ (_ : unit) _, (true, tt)) (λ _, (0, 0)) zero_table (replicate 8 0)
    (entries_bytes sample) (Z.of_nat (length (entries_bytes sample))) tt = Ok (code, info, f') ∧
  0 ≤ code ≤ 8 ∧ shaped_info info ∧ (code = HID_PARSE_Successful → (0 < TotalReportItems info)%nat).
Proof. apply hid_parser_safe; [apply macros_ok|vm_compute; reflexivity|reflexivity|apply sample_no_push]. Defined.

(** PUSH as the second item. *)
Definition pushes : list entry := of_macro <$> [(REPORT_SIZE, Bits8, 8); (PUSH, Bits0, 0)].

Lemma hid_push_overruns_witness :
  USB_ProcessHIDReport (λ (_ : unit) _, (true, tt)) (λ _, (0, 0)) zero_table (replicate 8 0)
    (entries_bytes pushes) (Z.of_nat (length (entries_bytes pushes))) tt = Err OutOfBounds.
Proof.
  apply (hid_push_overruns (λ (_ : unit) _, (true, tt)) (λ _, (0, 0)) zero_table (replicate 8 0)
           (take 1 pushes) (of_macro (PUSH, Bits0, 0)) [] tt).
  - apply (macros_ok [(REPORT_SIZE, Bits8, 8); (PUSH, Bits0, 0)]).
  - vm_compute. reflexivity.
  - reflexivity.
  - constructor; [vm_compute; congruence|constructor].
  - reflexivity.
  - eexists. vm_compute. reflexivity.
Defined.
