(* ===== verification/HidValues.v ===== *)
(** * Values in reports

    USB_GetHIDReportItemInfo takes the bits of an item out of a report,
    whatever their position; USB_SetHIDReportItemInfo has the two masks of its
    loop exchanged and puts back only items of up to eight bits that start at a
    byte. *)

From S2P Require Import Prelude HidParser HidItems.
Import Hid.
Open Scope Z_scope.

Lemma testbit_byte_add b x i : is_u8 b → 0 ≤ i →
  Z.testbit (b + 256 * x) i = if decide (i < 8) then Z.testbit b i else Z.testbit x (i - 8).
Proof.
  intros Hb Hi. unfold is_u8 in Hb. destruct (decide (i < 8)).
  - rewrite <- (Z.mod_pow2_bits_low (b + 256 * x) 8) by lia. f_equal.
    rewrite Z.mul_comm, Z.mod_add by lia. by apply Z.mod_small.
  - replace i with (i - 8 + 8) at 1 by lia. rewrite <- Z.div_pow2_bits by lia. f_equal.
    rewrite Z.mul_comm, Z.div_add by lia. change (2 ^ 8) with 256. rewrite Z.div_small by lia. lia.
Qed.

Lemma testbit_le_value l : Forall is_u8 l → ∀ i, 0 ≤ i →
  Z.testbit (le_value l) i =
  match l !! Z.to_nat (i / 8) with Some b => Z.testbit b (i `mod` 8) | None => false end.
Proof.
  induction 1 as [|b l Hb Hl IH]; intros i Hi; cbn [le_value].
  - by rewrite Z.bits_0, lookup_nil.
  - rewrite testbit_byte_add by done. destruct (decide (i < 8)).
    + rewrite Z.div_small, Z.mod_small by lia. done.
    + rewrite IH by lia.
      assert (i / 8 = (i - 8) / 8 + 1) as -> by (rewrite <- Z.div_add by lia; f_equal; lia).
      assert (i `mod` 8 = (i - 8) `mod` 8) as -> by (rewrite <- (Z.mod_add (i - 8) 1) by lia; f_equal; lia).
      replace (Z.to_nat ((i - 8) / 8 + 1)) with (S (Z.to_nat ((i - 8) / 8))); [done|].
      rewrite <- Z2Nat.inj_succ by (apply Z.div_pos; lia). f_equal.
Qed.

(** A test of one bit. *)
Lemma land_bit_zero x k : 0 ≤ k → (Z.land x (Z.shiftl 1 k) =? 0) = negb (Z.testbit x k).
Proof.
  intros Hk. destruct (Z.testbit x k) eqn:E; cbn.
  - apply Z.eqb_neq. intros H0. pose proof (Z.land_spec x (Z.shiftl 1 k) k) as Hs.
    rewrite H0, Z.bits_0, E, Z.shiftl_spec, Z.sub_diag in Hs by lia. done.
  - apply Z.eqb_eq, Z.bits_inj'. intros i Hi. rewrite Z.land_spec, Z.bits_0, Z.shiftl_spec by lia.
    destruct (decide (i = k)) as [->|Hne]; [by rewrite E|].
    destruct (decide (i < k)); [by rewrite (Z.testbit_neg_r 1), andb_false_r by lia|].
    replace (Z.testbit 1 (i - k)) with false; [by rewrite andb_false_r|].
    symmetry. apply Z.bits_above_log2; cbn; lia.
Qed.

Lemma testbit_pow2 j i : 0 ≤ j → Z.testbit (2 ^ j) i = bool_decide (i = j).
Proof.
  intros Hj. case_bool_decide as H; [subst i; by apply Z.pow2_bits_true|]. by apply Z.pow2_bits_false.
Qed.

Lemma testbit_u32_pow2 j i : 0 ≤ j → 0 ≤ i →
  Z.testbit (u32 (2 ^ j)) i = bool_decide (i = j ∧ i < 32).
Proof.
  intros Hj Hi. unfold u32. change 4294967296 with (2 ^ 32). destruct (decide (i < 32)).
  - rewrite Z.mod_pow2_bits_low, testbit_pow2 by lia. apply bool_decide_ext. naive_solver.
  - rewrite Z.mod_pow2_bits_high, bool_decide_false by lia. done.
Qed.

Lemma u32_shift j : 0 ≤ j → u32 (Z.shiftl (u32 (2 ^ j)) 1) = u32 (2 ^ (j + 1)).
Proof.
  intros Hj. unfold u32. rewrite Z.shiftl_mul_pow2, Z.mul_mod_idemp_l by lia.
  by rewrite <- Z.pow_add_r by lia.
Qed.

(** ** Reading *)

Lemma get_bits_spec data : Forall is_u8 data → ∀ n bit j v,
  0 ≤ bit → 0 ≤ j → bit + Z.of_nat n ≤ 8 * Z.of_nat (length data) → bit + Z.of_nat n < 65536 →
  ∃ v', get_bits n data bit (u32 (2 ^ j)) v = Ok v' ∧
  ∀ i, 0 ≤ i → Z.testbit v' i =
    Z.testbit v i || bool_decide (j ≤ i < j + Z.of_nat n ∧ i < 32) && Z.testbit (le_value data) (bit + (i - j)).
Proof.
  intros Hd. induction n as [|n IH]; intros bit j v Hbit Hj Hlen H16; cbn [get_bits].
  - exists v. split; [done|]. intros i Hi. rewrite bool_decide_false by lia. by rewrite orb_false_r.
  - assert (bit / 8 < Z.of_nat (length data)) as Hq by (apply Z.div_lt_upper_bound; lia).
    pose proof (Z.div_pos bit 8 Hbit ltac:(lia)) as Hq0.
    destruct (lookup_lt_is_Some_2 data (Z.to_nat (bit / 8))) as [b Hb]; [lia|].
    unfold load. rewrite Hb, res_bind_Ok. cbn zeta.
    rewrite land_bit_zero by (apply Z.mod_pos_bound; lia). rewrite u16_small by (unfold is_u16; lia).
    rewrite u32_shift by done.
    pose proof (testbit_le_value data Hd bit Hbit) as Hv. rewrite Hb in Hv.
    destruct (IH (bit + 1) (j + 1) (if negb (Z.testbit b (bit `mod` 8)) then v else Z.lor v (u32 (2 ^ j))))
      as (v' & -> & Hv'); [lia..|]. exists v'. split; [done|]. intros i Hi. rewrite Hv' by done.
    replace (bit + 1 + (i - (j + 1))) with (bit + (i - j)) by lia.
    rewrite <- Hv. destruct (decide (i = j)) as [->|Hne].
    + rewrite (bool_decide_false (j + 1 ≤ j < _ ∧ _)) by lia. rewrite orb_false_r.
      replace (bit + (j - j)) with bit by lia.
      destruct (Z.testbit (le_value data) bit); cbn; [|by rewrite andb_false_r, orb_false_r].
      rewrite Z.lor_spec, testbit_u32_pow2, andb_true_r by lia. f_equal. apply bool_decide_ext. lia.
    + replace (Z.testbit (if negb _ then v else _) i) with (Z.testbit v i).
      * f_equal. f_equal. apply bool_decide_ext. lia.
      * destruct (Z.testbit (le_value data) bit); cbn; [|done].
        rewrite Z.lor_spec, testbit_u32_pow2, bool_decide_false by lia. by rewrite orb_false_r.
Qed.

(** The value of [sz] bits from bit [off] on, of which 32 are kept. *)
Definition field (data : list Z) (off sz : Z) : Z := Z.shiftr (le_value data) off `mod` 2 ^ Z.min sz 32.

Lemma get_bits_field data off sz :
  Forall is_u8 data → 0 ≤ off → 0 ≤ sz → off + sz ≤ 8 * Z.of_nat (length data) → off + sz < 65536 →
  get_bits (Z.to_nat sz) data off 1 0 = Ok (field data off sz).
Proof.
  intros Hd Hoff Hsz Hlen H16.
  destruct (get_bits_spec data Hd (Z.to_nat sz) off 0 0) as (v & Hv & Hbits); [lia..|].
  change (u32 (2 ^ 0)) with 1 in Hv. rewrite Hv. f_equal. apply Z.bits_inj'. intros i Hi.
  rewrite Hbits, Z.bits_0 by done. unfold field. rewrite Z2Nat.id by done. cbn.
  destruct (decide (i < Z.min sz 32)).
  - rewrite bool_decide_true, Z.mod_pow2_bits_low, Z.shiftr_spec by lia. cbn [andb]. f_equal. lia.
  - rewrite bool_decide_false, Z.mod_pow2_bits_high by lia. done.
Qed.

(** A report with the ID of an item in front, where it has one. *)
Definition report_of (r : HID_ReportItem_t) (body : list Z) : list Z :=
  if ItemReportID r =? 0 then body else ItemReportID r :: body.

Lemma get_item_value r body :
  let off := BitOffset r in let sz := BitSize (Attributes r) in
  Forall is_u8 body → 0 ≤ off → 0 ≤ sz → off + sz ≤ 8 * Z.of_nat (length body) → off + sz < 65536 →
  USB_GetHIDReportItemInfo (report_of r body) (Some r) =
    Ok (true, Some (set_values (field body off sz) (Value r) r)).
Proof.
  intros off sz Hb Hoff Hsz Hlen H16. unfold USB_GetHIDReportItemInfo, report_of. cbn zeta.
  destruct (ItemReportID r =? 0) eqn:E.
  - by rewrite get_bits_field.
  - cbn. rewrite Z.eqb_refl, drop_0. by rewrite get_bits_field.
Qed.

(** ** Writing *)

Lemma u8_lor_high b j : is_u8 b → 8 ≤ j → u8 (Z.lor b (u32 (2 ^ j))) = b.
Proof.
  intros Hb Hj. unfold u8. change 256 with (2 ^ 8). apply Z.bits_inj'. intros i Hi.
  destruct (decide (i < 8)).
  - rewrite Z.mod_pow2_bits_low, Z.lor_spec, testbit_u32_pow2, bool_decide_false by lia. by rewrite orb_false_r.
  - rewrite Z.mod_pow2_bits_high by lia. symmetry. rewrite <- (Z.mod_small b (2 ^ 8)) by exact Hb.
    by apply Z.mod_pow2_bits_high; lia.
Qed.

(** From the ninth bit on the mask has left the byte. *)
Lemma set_bits_high base data v : Forall is_u8 data → ∀ n bit j,
  0 ≤ bit → 8 ≤ j → 8 * Z.of_nat base + bit + Z.of_nat n ≤ 8 * Z.of_nat (length data) →
  bit + Z.of_nat n < 65536 →
  set_bits n base data bit (u32 (2 ^ j)) v = Ok data.
Proof.
  intros Hd. induction n as [|n IH]; intros bit j Hbit Hj Hlen H16; cbn [set_bits]; [done|].
  rewrite u32_shift, u16_small by (unfold is_u16; lia).
  assert (bit / 8 < Z.of_nat (length data) - Z.of_nat base) as Hq by (apply Z.div_lt_upper_bound; lia).
  pose proof (Z.div_pos bit 8 Hbit ltac:(lia)) as Hq0. cbn zeta.
  case_match; [rewrite res_bind_Ok; apply IH; lia|].
  destruct (lookup_lt_is_Some_2 data (base + Z.to_nat (bit / 8))) as [b Hb]; [lia|].
  unfold load, store. rewrite Hb, res_bind_Ok, u8_lor_high by (done || by eapply Forall_lookup_1).
  rewrite list_insert_id by done. rewrite res_bind_Ok. apply IH; lia.
Qed.

(** In front of it the bits of the value arrive at the byte of the item. *)
Lemma set_bits_aligned base k data v : Forall is_u8 data → ∀ n j x,
  0 ≤ j → data !! (base + k)%nat = Some x → is_u8 x →
  8 * Z.of_nat base + 8 * Z.of_nat k + j + Z.of_nat n ≤ 8 * Z.of_nat (length data) →
  8 * Z.of_nat k + j + Z.of_nat n < 65536 →
  ∃ y, set_bits n base data (8 * Z.of_nat k + j) (u32 (2 ^ j)) v = Ok (<[(base + k)%nat := y]> data) ∧
    is_u8 y ∧ ∀ i, 0 ≤ i → Z.testbit y i =
      Z.testbit x i || bool_decide (j ≤ i < j + Z.of_nat n ∧ i < 8) && Z.testbit v i.
Proof.
  intros Hd n. revert data Hd. induction n as [|n IH]; intros data Hd j x Hj Hx Hx8 Hlen H16.
  { exists x. cbn [set_bits]. rewrite list_insert_id by done. split; [done|]. split; [done|].
    intros i Hi. rewrite bool_decide_false by lia. by rewrite orb_false_r. }
  destruct (decide (8 ≤ j)) as [Hj8|Hj8].
  { exists x. rewrite set_bits_high by (done || lia). rewrite list_insert_id by done.
    split; [done|]. split; [done|]. intros i Hi. rewrite bool_decide_false by lia. by rewrite orb_false_r. }
  cbn [set_bits]. rewrite u32_shift, u16_small by (unfold is_u16; lia). cbn zeta.
  assert ((8 * Z.of_nat k + j) / 8 = Z.of_nat k) as Hq by (symmetry; apply (Z.div_unique _ _ _ j); lia).
  assert ((8 * Z.of_nat k + j) `mod` 8 = j) as Hm by (symmetry; apply (Z.mod_unique _ _ (Z.of_nat k)); lia).
  rewrite Hq, Hm, land_bit_zero, Nat2Z.id by lia.
  set (x' := if Z.testbit v j then u8 (Z.lor x (u32 (2 ^ j))) else x).
  assert (is_u8 x') as Hx' by (unfold x'; destruct (Z.testbit v j); [apply u8_range|done]).
  replace (if negb (Z.testbit v j) then _ else _) with (Ok (<[(base + k)%nat := x']> data)); last first.
  { unfold x', load, store. destruct (Z.testbit v j); cbn; [by rewrite Hx; cbn; rewrite ?Hx|].
    by rewrite list_insert_id. }
  rewrite res_bind_Ok. replace (8 * Z.of_nat k + j + 1) with (8 * Z.of_nat k + (j + 1)) by lia.
  destruct (IH (<[(base + k)%nat := x']> data) ltac:(by apply Forall_insert) (j + 1) x') as (y & -> & Hy & Hb).
  - lia.
  - apply list_lookup_insert_eq. by eapply lookup_lt_Some.
  - done.
  - rewrite length_insert. lia.
  - lia.
  - exists y. rewrite list_insert_insert_eq. split; [done|]. split; [done|]. intros i Hi. rewrite Hb by done.
    assert (Z.testbit x' i = Z.testbit x i || bool_decide (i = j) && Z.testbit v i) as ->.
    { unfold x'. destruct (decide (i = j)) as [->|Hne].
      - rewrite bool_decide_true by done. cbn [andb]. destruct (Z.testbit v j); [|by rewrite orb_false_r].
        unfold u8. change 256 with (2 ^ 8).
        rewrite Z.mod_pow2_bits_low, Z.lor_spec, testbit_u32_pow2, bool_decide_true by lia. done.
      - rewrite bool_decide_false by done. cbn [andb]. rewrite orb_false_r. destruct (Z.testbit v j); [|done].
        unfold u8. change 256 with (2 ^ 8). destruct (decide (i < 8)).
        + rewrite Z.mod_pow2_bits_low, Z.lor_spec, testbit_u32_pow2, bool_decide_false by lia. by rewrite orb_false_r.
        + rewrite Z.mod_pow2_bits_high by lia. rewrite <- (Z.mod_small x (2 ^ 8)) by exact Hx8.
          by rewrite Z.mod_pow2_bits_high by lia. }
    rewrite <- orb_assoc. f_equal. repeat case_bool_decide; cbn; try lia; by destruct (Z.testbit v i).
Qed.

(** ** Writing and reading *)

(** A cleared report of [m] bytes behind the ID. *)
Definition cleared (r : HID_ReportItem_t) (m : nat) : list Z :=
  if ItemReportID r =? 0 then replicate m 0 else replicate (S m) 0.

Lemma le_value_zeros m : le_value (replicate m 0) = 0.
Proof. induction m as [|m IH]; [done|]. cbn. by rewrite IH. Qed.

Lemma le_value_one m k y : (k < m)%nat → le_value (<[k := y]> (replicate m 0)) = y * 256 ^ Z.of_nat k.
Proof.
  revert m. induction k as [|k IH]; intros m Hk; (destruct m as [|m]; [lia|]); cbn [replicate].
  - cbn. rewrite le_value_zeros. lia.
  - cbn [insert list_insert le_value]. change (list_insert k y (replicate m 0)) with (<[k := y]> (replicate m 0)).
    rewrite IH by lia. rewrite Nat2Z.inj_succ, Z.pow_succ_r by lia. lia.
Qed.

(** The byte written into a cleared report. *)
Lemma set_item_cleared r m k :
  let sz := BitSize (Attributes r) in
  is_u8 (ItemReportID r) → BitOffset r = 8 * Z.of_nat k → 0 ≤ sz → 0 ≤ Value r →
  8 * Z.of_nat k + sz ≤ 8 * Z.of_nat m → 8 * Z.of_nat k + sz < 65536 → (k < m)%nat →
  USB_SetHIDReportItemInfo (cleared r m) (Some r) =
    Ok (report_of r (<[k := Value r `mod` 2 ^ Z.min sz 8]> (replicate m 0)),
        Some (set_values (Value r) (Value r) r)).
Proof.
  intros sz Hid Hoff Hsz Hv Hlen H16 Hk. unfold USB_SetHIDReportItemInfo, cleared, report_of.
  assert (∀ base data, Forall is_u8 data → length data = (base + m)%nat → data !! (base + k)%nat = Some 0 →
    set_bits (Z.to_nat sz) base data (8 * Z.of_nat k) 1 (Value r) =
    Ok (<[(base + k)%nat := Value r `mod` 2 ^ Z.min sz 8]> data)) as Hset.
  { intros base data Hd Hl H0.
    destruct (set_bits_aligned base k data (Value r) Hd (Z.to_nat sz) 0 0) as (y & Hs & Hy & Hb);
      [lia|done|unfold is_u8; lia|rewrite Hl; lia|lia|].
    rewrite Z.add_0_r in Hs. change (u32 (2 ^ 0)) with 1 in Hs. rewrite Hs. do 3 f_equal.
    apply Z.bits_inj'. intros i Hi. rewrite Hb, Z.bits_0 by done. cbn [orb].
    destruct (decide (i < Z.min sz 8)).
    - by rewrite bool_decide_true, Z.mod_pow2_bits_low by lia.
    - by rewrite bool_decide_false, Z.mod_pow2_bits_high by lia. }
  assert (∀ n, Forall is_u8 (replicate n 0)) as Hz by (intros n; apply Forall_replicate; unfold is_u8; lia).
  rewrite Hoff. destruct (ItemReportID r =? 0).
  - rewrite res_bind_Ok. rewrite (Hset 0%nat); [done|apply Hz|by rewrite length_replicate|].
    by apply lookup_replicate_2.
  - cbn [replicate store lookup list_lookup insert list_insert mbind res_bind mret res_ret].
    rewrite (Hset 1%nat); [done| | |].
    + by apply Forall_cons.
    + cbn. by rewrite length_replicate.
    + cbn. by apply lookup_replicate_2.
Qed.

(** C23: The value of an item that starts at a byte, written into a cleared
    report and read back, is the value cut to its size and to eight bits: the
    two functions are inverse for items of up to eight bits, and the higher
    bits of a longer item are lost. *)
Theorem hid_set_get r m k :
  is_u8 (ItemReportID r) → BitOffset r = 8 * Z.of_nat k → 0 < BitSize (Attributes r) → 0 ≤ Value r →
  8 * Z.of_nat k + BitSize (Attributes r) ≤ 8 * Z.of_nat m →
  8 * Z.of_nat k + BitSize (Attributes r) < 65536 →
  ∃ report r',
    USB_SetHIDReportItemInfo (cleared r m) (Some r) = Ok (report, Some r') ∧
    USB_GetHIDReportItemInfo report (Some r') =
      Ok (true, Some (set_values (Value r `mod` 2 ^ Z.min (BitSize (Attributes r)) 8) (Value r) r)).
Proof.
  intros Hid Hoff Hsz Hv Hlen H16. do 2 eexists.
  split; [apply (set_item_cleared r m k); (done || lia)|].
  set (y := Value r `mod` 2 ^ Z.min (BitSize (Attributes r)) 8).
  assert (0 ≤ y < 2 ^ Z.min (BitSize (Attributes r)) 8) as Hy by (apply Z.mod_pos_bound; lia).
  assert (2 ^ Z.min (BitSize (Attributes r)) 8 ≤ 2 ^ 8) as H8 by (apply Z.pow_le_mono_r; lia).
  pose proof (get_item_value (set_values (Value r) (Value r) r) (<[k := y]> (replicate m 0))) as Hg.
  cbn zeta in Hg. change (report_of (set_values (Value r) (Value r) r)) with (report_of r) in Hg.
  rewrite Hg; clear Hg.
  - cbn [set_values BitOffset Attributes Value].
    replace (field _ _ _) with y; [done|]. symmetry. unfold field.
    rewrite le_value_one, Hoff by lia. change 256 with (2 ^ 8). rewrite <- Z.pow_mul_r by lia.
    rewrite Z.shiftr_div_pow2, Z.div_mul by lia. apply Z.mod_small. split; [lia|].
    apply Z.lt_le_trans with (2 ^ Z.min (BitSize (Attributes r)) 8); [lia|]. apply Z.pow_le_mono_r; lia.
  - apply Forall_insert; [apply Forall_replicate|]; unfold is_u8; lia.
  - cbn. lia.
  - cbn. lia.
  - cbn. rewrite length_insert, length_replicate. lia.
  - cbn. lia.
Qed.

(** A key code of a keyboard. *)
Lemma hid_set_get_witness :
  let r := Item 16 0 0 1 None (Attrs 8 (UsageInfo 7 0) (UnitInfo 0 0) (MinMax 0 255) (MinMax 0 0)) 0x2C 0 in
  ∃ report r', USB_SetHIDReportItemInfo (cleared r 8) (Some r) = Ok (report, Some r') ∧
    USB_GetHIDReportItemInfo report (Some r') = Ok (true, Some (set_values 0x2C 0x2C r)).
Proof.
  intros r. apply (hid_set_get r 8 2); cbn; [unfold is_u8; lia|lia..].
Defined.

(** An item inside of a byte is not written at all: its value is tested with
    the mask of the byte. *)
Lemma hid_set_misaligned_lost :
  let r := Item 4 1 0 0 None (Attrs 4 (UsageInfo 0 0) (UnitInfo 0 0) (MinMax 0 0) (MinMax 0 0)) 5 0 in
  USB_SetHIDReportItemInfo [0] (Some r) = Ok ([0], Some (set_values 5 5 r)).
Proof. reflexivity. Qed.
