(* ===== verification/HidReports.v ===== *)
(** * The layout of reports

    The report parser gives every item its place in the report of its ID and
    type: the items it stores do not overlap, lie inside of the size that
    USB_GetHIDReportSize reports, and can be read from such a report. *)

From S2P Require Import Prelude HidParser HidItems HidLayout HidValues.
Import Hid.
Open Scope Z_scope.

(** ** The invariant of the layout *)

Definition item_end (a : HID_ReportItem_t) : Z := BitOffset a + BitSize (Attributes a).

(** The report of the item counts the bits up to its end. *)
Definition item_inside (i : HID_ReportInfo_t) (a : HID_ReportItem_t) : Prop :=
  (0 ≤ BitOffset a ∧ 0 ≤ BitSize (Attributes a)) ∧ ∃ r x b, (r < TotalDeviceReports i)%nat ∧ ReportIDSizes i !! r = Some x ∧
    SizeReportID x = ItemReportID a ∧ ReportSizeBits x !! ItemType a = Some b ∧ item_end a ≤ b.

(** An ID that names a report: where IDs are used, zero is none (items in front
    of the first REPORT ID have it). *)
Definition names (i : HID_ReportInfo_t) (id : Z) : Prop := UsingReportIDs i = true → id ≠ 0.

(** [T] bounds the bits of all reports; the current report is [cur], its ID
    [id]. *)
Record laid (T : Z) (cur : nat) (id : Z) (i : HID_ReportInfo_t) : Prop := {
  l_nonneg : 0 ≤ T ∧ 0 ≤ LargestReportSizeBits i;
  l_bits r x ty b : ReportIDSizes i !! r = Some x → ReportSizeBits x !! ty = Some b →
    0 ≤ b ≤ T ∧ b ≤ LargestReportSizeBits i;
  l_cur : (cur < TotalDeviceReports i)%nat ∧ SizeReportID <$> ReportIDSizes i !! cur = Some id;
  l_inj r r' : (r < TotalDeviceReports i)%nat → (r' < TotalDeviceReports i)%nat →
    SizeReportID <$> ReportIDSizes i !! r = SizeReportID <$> ReportIDSizes i !! r' → r = r';
  l_single : UsingReportIDs i = false → TotalDeviceReports i = 1%nat ∧ id = 0 ∧
    ∀ k a, (k < TotalReportItems i)%nat → ReportItems i !! k = Some a → ItemReportID a = 0;
  l_inside k a : (k < TotalReportItems i)%nat → ReportItems i !! k = Some a →
    names i (ItemReportID a) → item_inside i a;
  l_sorted k k' a b : (k < k')%nat → (k' < TotalReportItems i)%nat →
    ReportItems i !! k = Some a → ReportItems i !! k' = Some b →
    ItemReportID a = ItemReportID b → ItemType a = ItemType b → names i (ItemReportID a) →
    item_end a ≤ BitOffset b
}.

(** Taking [sz] bits of type [ty] in report [cur]. *)
Section Grow.
Context (l : list HID_ReportSizeInfo_t) (cur : nat) (r : HID_ReportSizeInfo_t) (ty : nat) (off sz : Z).
Hypothesis (Hr : l !! cur = Some r) (Hoff : ReportSizeBits r !! ty = Some off) (Hsz : 0 ≤ sz).

Definition grown : list HID_ReportSizeInfo_t :=
  <[cur := SizeInfo (SizeReportID r) (<[ty := off + sz]> (ReportSizeBits r))]> l.

Lemma grown_cur : grown !! cur = Some (SizeInfo (SizeReportID r) (<[ty := off + sz]> (ReportSizeBits r))).
Proof. apply list_lookup_insert_eq. by eapply lookup_lt_Some. Qed.

Lemma grown_ids q : SizeReportID <$> grown !! q = SizeReportID <$> l !! q.
Proof.
  destruct (decide (q = cur)) as [->|Hq]; [by rewrite grown_cur, Hr|].
  unfold grown. by rewrite list_lookup_insert_ne.
Qed.

(** Every size is an old one or the one that has grown. *)
Lemma grown_bits q x t b : grown !! q = Some x → ReportSizeBits x !! t = Some b →
  b = off + sz ∨ ∃ x0, l !! q = Some x0 ∧ ReportSizeBits x0 !! t = Some b.
Proof.
  intros Hx Hb. destruct (decide (q = cur)) as [->|Hq].
  - rewrite grown_cur in Hx. injection Hx as <-. cbn in Hb.
    apply list_lookup_insert_Some in Hb as [(_ & -> & _)|[_ Hb]]; [by left|]. right. eauto.
  - unfold grown in Hx. rewrite list_lookup_insert_ne in Hx by done. right. eauto.
Qed.

(** Sizes only grow. *)
Lemma grown_mono q x t b : l !! q = Some x → ReportSizeBits x !! t = Some b →
  ∃ x' b', grown !! q = Some x' ∧ SizeReportID x' = SizeReportID x ∧
           ReportSizeBits x' !! t = Some b' ∧ b ≤ b'.
Proof.
  intros Hx Hb. destruct (decide (q = cur)) as [->|Hq].
  - rewrite Hr in Hx. injection Hx as <-.
    exists (SizeInfo (SizeReportID r) (<[ty := off + sz]> (ReportSizeBits r))).
    rewrite grown_cur. destruct (decide (t = ty)) as [->|Ht].
    + exists (off + sz). split_and!; [done|done| |]; [|by simplify_eq; lia].
      apply list_lookup_insert_eq. by eapply lookup_lt_Some.
    + exists b. split_and!; [done|done| |done]. cbn. by rewrite list_lookup_insert_ne.
  - exists x, b. unfold grown. by rewrite list_lookup_insert_ne.
Qed.
End Grow.

(** A main item takes the next bits of the current report. *)
Lemma laid_grow T cur id i r ty off sz n items :
  laid T cur id i →
  ReportIDSizes i !! cur = Some r → ReportSizeBits r !! ty = Some off → 0 ≤ sz →
  (∀ k, (k < TotalReportItems i)%nat → items !! k = ReportItems i !! k) →
  (n = TotalReportItems i ∨ n = S (TotalReportItems i) ∧ ∃ new, items !! TotalReportItems i = Some new ∧
     BitOffset new = off ∧ BitSize (Attributes new) = sz ∧ ItemType new = ty ∧ ItemReportID new = id) →
  laid (T + sz) cur id
    (set_items n items (set_largest (Z.max (LargestReportSizeBits i) (off + sz))
       (set_reports (TotalDeviceReports i) (grown (ReportIDSizes i) cur r ty off sz) i))).
Proof.
  intros [Hpos Hbits [Hcur Hid] Hinj Hsingle Hin Hsort] Hr Hoff Hsz Hitems Hn.
  rewrite Hr in Hid. injection Hid as Hid.
  pose proof (Hbits _ _ _ _ Hr Hoff) as [Hoff0 HoffL].
  (* an item of the new table is an old one or the new one *)
  assert (∀ k a, (k < n)%nat → items !! k = Some a →
    (k < TotalReportItems i)%nat ∧ ReportItems i !! k = Some a ∨
    k = TotalReportItems i ∧ BitOffset a = off ∧ BitSize (Attributes a) = sz ∧
    ItemType a = ty ∧ ItemReportID a = id) as Hcases.
  { intros k a Hk Ha. destruct (decide (k < TotalReportItems i)%nat) as [Hlt|Hge].
    - left. by rewrite <- Hitems.
    - destruct Hn as [->|[-> (new & Hnew & Hall)]]; [lia|]. right.
      assert (k = TotalReportItems i) as -> by lia. by simplify_eq. }
  split; cbn.
  - lia.
  - intros q x t b Hx Hb. destruct (grown_bits _ _ _ _ _ _ Hr _ _ _ _ Hx Hb) as [->|(x0 & Hx0 & Hb0)]; [lia|].
    pose proof (Hbits _ _ _ _ Hx0 Hb0). lia.
  - split; [done|]. by rewrite grown_ids, Hr, <- Hid.
  - intros q q' Hq Hq'. rewrite !grown_ids by done. by apply Hinj.
  - intros Hu. destruct (Hsingle Hu) as (H1 & H2 & H3). split_and!; [done|done|].
    intros k a Hk Ha. destruct (Hcases k a Hk Ha) as [[Hk' Ha']|(_ & _ & _ & _ & ->)]; [by eapply H3|done].
  - intros k a Hk Ha Hname. destruct (Hcases k a Hk Ha) as [[Hk' Ha']|(_ & Ho & Hs & Ht & Hi)].
    + destruct (Hin k a Hk' Ha' Hname) as (H0 & q & x & b & Hq & Hx & Hxi & Hb & He). split; [done|].
      destruct (grown_mono _ _ _ _ _ _ Hr Hoff Hsz _ _ _ _ Hx Hb) as (x' & b' & Hx' & Hi' & Hb' & Hle).
      exists q, x', b'. cbn. split_and!; [done|done|congruence|done|lia].
    + split; [lia|]. exists cur, (SizeInfo (SizeReportID r) (<[ty := off + sz]> (ReportSizeBits r))), (off + sz).
      split_and!; [done|by apply grown_cur|cbn; congruence| |unfold item_end; lia].
      cbn. rewrite Ht. apply list_lookup_insert_eq. by eapply lookup_lt_Some.
  - intros k k' a b Hk Hk' Ha Hb Hi Ht Hname.
    destruct (Hcases k a ltac:(lia) Ha) as [[Hk1 Ha1]|(-> & _)].
    + destruct (Hcases k' b Hk' Hb) as [[Hk2 Hb2]|(_ & Hbo & _ & Hbt & Hbi)]; [by eapply (Hsort k k')|].
      destruct (Hin k a Hk1 Ha1 Hname) as (_ & q & x & e & Hq & Hx & Hxi & He & Hle).
      assert (q = cur) as -> by (apply Hinj; [done..|]; rewrite Hx, Hr; cbn; congruence).
      rewrite Hbo. rewrite Hr in Hx. injection Hx as <-. rewrite Ht, Hbt, Hoff in He. injection He as <-. lia.
    + destruct (Hcases k' b Hk' Hb) as [[Hk2 _]|(-> & _)]; lia.
Qed.

(** ** Reports and their IDs *)

Lemma find_report_spec l id n : ∀ i o, find_report l id n i = Ok o →
  match o with
  | Some c => (i ≤ c < i + n)%nat ∧ ∃ r, l !! c = Some r ∧ SizeReportID r = id
  | None => ∀ q, (i ≤ q < i + n)%nat → SizeReportID <$> l !! q ≠ Some id
  end.
Proof.
  induction n as [|n IH]; intros i o; cbn; [intros [= <-]; intros; lia|].
  intros (r & Hr%load_Ok & Ho)%res_bind_Ok_inv. destruct (Z.eqb_spec (SizeReportID r) id) as [He|He].
  - injection Ho as <-. split; [lia|]. eauto.
  - specialize (IH _ _ Ho). destruct o as [c|].
    + destruct IH as [Hc Hl]. split; [lia|done].
    + intros q Hq. destruct (decide (q = i)) as [->|Hne]; [rewrite Hr; cbn; congruence|]. apply IH. lia.
Qed.

(** The first REPORT ID names the only report. *)
Lemma laid_first T cur id i r d :
  laid T cur id i → UsingReportIDs i = false → ReportIDSizes i !! cur = Some r →
  laid T cur d (set_using true (set_reports (TotalDeviceReports i)
    (<[cur := SizeInfo d (ReportSizeBits r)]> (ReportIDSizes i)) i)).
Proof.
  intros [Hpos Hbits [Hcur Hid] Hinj Hsingle Hin Hsort] Hu Hr. destruct (Hsingle Hu) as (H1 & _ & Hz).
  split; cbn; try done.
  - intros q x t b Hx Hb. apply list_lookup_insert_Some in Hx as [(-> & <- & _)|[_ Hx]]; [|by eapply Hbits].
    by eapply Hbits.
  - split; [done|]. by rewrite list_lookup_insert_eq by (by eapply lookup_lt_Some).
  - intros; lia.
  - intros k a Hk Ha Hname. destruct (Hname eq_refl). by eapply Hz.
  - intros k k' a b Hk Hk' Ha _ _ _ Hname. destruct (Hname eq_refl). eapply Hz; [|done]. lia.
Qed.

(** A REPORT ID that is known selects its report. *)
Lemma laid_select T cur id i c r :
  laid T cur id i → (c < TotalDeviceReports i)%nat → ReportIDSizes i !! c = Some r → UsingReportIDs i = true →
  laid T c (SizeReportID r) (set_using true (set_reports (TotalDeviceReports i)
    (<[c := SizeInfo (SizeReportID r) (ReportSizeBits r)]> (ReportIDSizes i)) i)).
Proof.
  intros [Hpos Hbits Hcur Hinj Hsingle Hin Hsort] Hc Hr Hu.
  rewrite (list_insert_id (ReportIDSizes i)) by (by destruct r).
  destruct i as [n items paths nd sizes largest us]; cbn in *; subst us.
  split; cbn; try done. by rewrite Hr.
Qed.

(** A new ID opens a report behind the others. *)
Lemma laid_open T cur id i d l :
  laid T cur id i → UsingReportIDs i = true →
  (∀ q, (q < TotalDeviceReports i)%nat → SizeReportID <$> ReportIDSizes i !! q ≠ Some d) →
  (∀ q, q ≠ TotalDeviceReports i → l !! q = ReportIDSizes i !! q) →
  l !! TotalDeviceReports i = Some (SizeInfo d (replicate 3 0)) →
  laid T (TotalDeviceReports i) d (set_using true (set_reports (S (TotalDeviceReports i)) l i)).
Proof.
  intros [Hpos Hbits Hcur Hinj Hsingle Hin Hsort] Hu Hnew Hl Hl'. split; cbn.
  - done.
  - intros q x t b Hx Hb. destruct (decide (q = TotalDeviceReports i)) as [->|Hq].
    + rewrite Hl' in Hx. injection Hx as <-. cbn in Hb.
      change [0; 0; 0] with (replicate 3 0) in Hb. apply lookup_replicate in Hb as [-> _]. lia.
    + rewrite Hl in Hx by done. by eapply Hbits.
  - split; [lia|]. by rewrite Hl'.
  - intros q q' Hq Hq'. destruct (decide (q = TotalDeviceReports i)) as [->|Hne];
      destruct (decide (q' = TotalDeviceReports i)) as [->|Hne']; [done|..].
    + rewrite Hl', (Hl q') by done. cbn. intros He. exfalso. eapply (Hnew q'); [lia|done].
    + rewrite Hl', (Hl q) by done. cbn. intros He. exfalso. eapply (Hnew q); [lia|done].
    + rewrite !Hl by done. apply Hinj; lia.
  - done.
  - intros k a Hk Ha Hname. destruct (Hin k a Hk Ha) as (H0 & q & x & b & Hq & Hx & Hrest).
    { intros _. by apply Hname. }
    split; [done|]. exists q, x, b. cbn. split; [lia|]. by rewrite Hl by lia.
  - intros k k' a b Hk Hk' Ha Hb Hi Ht Hname. eapply (Hsort k k'); try done. intros _. by apply Hname.
Qed.

(** ** The parser keeps the layout *)

Definition lstate {F} (T : Z) (s : pst F) : Prop :=
  ∃ t, StateTable s !! 0%nat = Some t ∧ laid T (CurrReportIDInfo s) (ReportID t) (ParserData s).

Definition laid_out (T : Z) (i : HID_ReportInfo_t) : Prop := ∃ cur id, laid T cur id i.

(** The items are laid out when the parser goes on and when it returns. *)
Definition lays {F} (T : Z) (m : res (flow F)) : Prop :=
  ∀ o, m = Ok o → match o with Next s => lstate T s | Return _ s => laid_out T (ParserData s) end.

Lemma lays_bind {F A} T (m : res A) (f : A → res (flow F)) :
  (∀ a, m = Ok a → lays T (f a)) → lays T (m ≫= f).
Proof. intros Hf o (a & Ha & Ho)%res_bind_Ok_inv. by eapply Hf. Qed.

Lemma lays_next {F} T (s : pst F) : lstate T s → lays T (mret (Next s)).
Proof. by intros HP o [= <-]. Qed.

Lemma lays_return {F} T c (s : pst F) : lstate T s → lays T (mret (Return c s)).
Proof. intros (t & _ & Hl) o [= <-]. by exists (CurrReportIDInfo s), (ReportID t). Qed.

(** Paths and the fields of the state behind [ParserData] do not matter. *)
Lemma laid_paths T cur id l i : laid T cur id i → laid T cur id (set_paths l i).
Proof. by intros []. Qed.

Section Layout.
Context {F : Type}.
Context (filter : F → HID_ReportItem_t → bool * F) (junk : pst F → Z * Z).
Implicit Types s : pst F.

Lemma next_usage_same s u s' : next_usage s = Ok (u, s') → same_tables s s'.
Proof.
  unfold next_usage. case_bool_decide as Hb.
  - intros (x & _ & H)%res_bind_Ok_inv. apply res_bind_Ok_inv in H as (l & _ & [= <- <-]). done.
  - case_match; by intros [= <- <-].
Qed.

Lemma lstate_same T s s' : same_tables s s' → lstate T s → lstate T s'.
Proof. unfold lstate. by intros (-> & _ & _ & -> & ->). Qed.

Lemma add_item_layout T ty d sz cnt s :
  on_table sz cnt s → 0 ≤ sz → T + sz < 65536 → lstate T s →
  lays (T + sz) (add_item filter junk ty d s).
Proof.
  intros (_ & Hc & t & Ht & Hsz & _) Hsz0 HT (t' & Ht' & Hl). rewrite Ht in Ht'. injection Ht' as <-.
  unfold add_item. rewrite Hc. apply lays_bind. intros t' Ht'%load_Ok. rewrite Ht in Ht'. injection Ht' as <-.
  apply lays_bind. intros [u s'] (HS & _ & _ & HR & HP)%next_usage_same. cbn zeta. rewrite HR, HP.
  apply lays_bind. intros r Hr%load_Ok. apply lays_bind. intros off Hoff%load_Ok.
  pose proof (l_bits _ _ _ _ Hl _ _ _ _ Hr Hoff) as [Hoff0 _].
  rewrite Hsz, (u16_small (off + sz)) by (unfold is_u16; lia).
  apply lays_bind. intros sizes [_ ->]%store_Ok_inv. apply lays_bind. intros l [_ ->]%store_Ok_inv.
  fold (grown (ReportIDSizes (ParserData s)) (CurrReportIDInfo s) r ty off sz). cbn [set_largest set_reports TotalReportItems ReportItems].
  case_bool_decide.
  { apply lays_return. exists t. cbn. rewrite HS, HR. split; [done|].
    exact (laid_grow T _ _ _ r ty off sz (TotalReportItems (ParserData s)) (ReportItems (ParserData s))
             Hl Hr Hoff Hsz0 (λ _ _, eq_refl) (or_introl eq_refl)). }
  apply lays_bind. intros items [Hlen ->]%store_Ok_inv.
  set (new := new_item _ _ _ _ _ _ _).
  assert (∀ n, n = TotalReportItems (ParserData s) ∨ n = S (TotalReportItems (ParserData s)) →
    laid (T + sz) (CurrReportIDInfo s) (ReportID t)
      (set_items n (<[TotalReportItems (ParserData s) := new]> (ReportItems (ParserData s)))
        (set_largest (Z.max (LargestReportSizeBits (ParserData s)) (off + sz))
          (set_reports (TotalDeviceReports (ParserData s))
            (grown (ReportIDSizes (ParserData s)) (CurrReportIDInfo s) r ty off sz) (ParserData s))))) as Hgrow.
  { intros n Hn. apply laid_grow; try done.
    - intros k Hk. apply list_lookup_insert_ne. lia.
    - destruct Hn as [Hn|Hn]; subst n; [by left|]. right. split; [done|]. exists new. split; [|done].
      by apply list_lookup_insert_eq. }
  case_match.
  - destruct (filter (app_state s') new) as [keep f]. apply lays_next. exists t. cbn. rewrite HS, HR.
    split; [done|]. apply Hgrow. destruct keep; auto.
  - apply lays_next. exists t. cbn. rewrite HS, HR. split; [done|]. apply Hgrow. auto.
Qed.

Abbreviation inv sz cnt := (λ s : pst F, shaped s ∧ on_table sz cnt s).

Lemma laid_mono T T' cur id i : T ≤ T' → laid T cur id i → laid T' cur id i.
Proof.
  intros HT [Hpos Hbits Hcur Hinj Hsingle Hin Hsort]. split; try done; [lia|]. intros r x ty b Hx Hb. pose proof (Hbits r x ty b Hx Hb). lia.
Qed.

Lemma add_items_layout ty d sz cnt n : (ty < 3)%nat → 0 ≤ sz → ∀ s T,
  inv sz cnt s → T + sz * Z.of_nat n < 65536 → lstate T s →
  lays (T + sz * Z.of_nat n) (add_items filter junk n ty d s).
Proof.
  intros Hty Hsz. induction n as [|n IH]; intros s T Hs HT Hl; cbn [add_items].
  - apply lays_next. by rewrite Z.mul_0_r, Z.add_0_r.
  - apply lays_bind. intros o Ho.
    destruct (add_item_safe filter junk ty d sz cnt s Hty Hs) as (o' & Ho' & Hinv).
    rewrite Ho in Ho'. injection Ho' as <-.
    assert (T + sz < 65536) as HT' by nia.
    pose proof (add_item_layout T ty d sz cnt s (proj2 Hs) Hsz HT' Hl o Ho) as Hl'.
    destruct o as [s'|c s'].
    + replace (T + sz * Z.of_nat (S n)) with ((T + sz) + sz * Z.of_nat n) by lia.
      apply IH; [done|lia|done].
    + intros o [= <-]. destruct Hl' as (cur & id & Hl'). exists cur, id. eapply laid_mono; [|done]. nia.
Qed.

(** The bits that an item adds to a report. *)
Definition item_bits (item sz cnt : Z) : Z :=
  match select_case item with Some (INPUT | OUTPUT | FEATURE) => sz * cnt | _ => 0 end.

Lemma case_main_layout T ty d sz cnt s : (ty < 3)%nat → 0 ≤ sz → 0 ≤ cnt →
  inv sz cnt s → T + sz * cnt < 65536 → lstate T s →
  lays (T + sz * cnt) (case_main filter junk ty d s).
Proof.
  intros Hty Hsz Hcnt Hs HT Hl. pose proof Hs as [_ (_ & Hc & t & Ht & _ & Hn)]. unfold case_main.
  apply lays_bind. intros t' Ht'%load_Ok. rewrite Hc, Ht in Ht'. injection Ht' as <-. rewrite Hn.
  pose proof (add_items_layout ty d sz cnt (Z.to_nat cnt) Hty Hsz s T Hs) as Hk.
  rewrite Z2Nat.id in Hk by done. by apply Hk.
Qed.

Lemma name_report_layout T c id s t i l r :
  StateTable s !! 0%nat = Some t → ReportID t = id → ParserData s = i →
  ReportIDSizes i !! c = Some r → l = <[c := SizeInfo id (ReportSizeBits r)]> (ReportIDSizes i) →
  laid T c id (set_using true (set_reports (TotalDeviceReports i) l i)) →
  lays T (name_report c id s).
Proof.
  intros Ht Hid <- Hr -> Hl. unfold name_report.
  apply lays_bind. intros r' Hr'%load_Ok. rewrite Hr in Hr'. injection Hr' as <-.
  apply lays_bind. intros l' [_ ->]%store_Ok_inv. apply lays_next. exists t. cbn. by rewrite Hid.
Qed.

Lemma case_report_id_layout T d sz cnt s : inv sz cnt s → lstate T s →
  lays T (case_report_id d s).
Proof.
  intros [Hs (Htl & Hc & t & Ht & _)] (t' & Ht' & Hl). rewrite Ht in Ht'. injection Ht' as <-.
  unfold case_report_id. rewrite Hc. apply lays_bind. intros t' Ht'%load_Ok.
  rewrite Ht in Ht'. injection Ht' as <-. apply lays_bind. intros tl [Hlt ->]%store_Ok_inv. cbn zeta.
  set (t1 := Table (TabAttributes t) (ReportCount t) (u8 d)).
  assert (<[0%nat := t1]> (StateTable s) !! 0%nat = Some t1) as Ht1 by (by apply list_lookup_insert_eq).
  cbn [set_table ParserData CurrReportIDInfo].
  pose proof Hl as [Hpos Hbits [Hcur Hid] Hinj Hsingle Hin Hsort].
  destruct (UsingReportIDs (ParserData s)) eqn:Hu.
  - apply lays_bind. intros o Ho%find_report_spec. destruct o as [c|].
    + destruct Ho as [Hcn (r & Hr & Hrd)].
      eapply name_report_layout; [done|done|done|done|done|]. rewrite <- Hrd. eapply laid_select; [done|cbn; lia|done|done].
    + case_bool_decide as Hm.
      { intros o' [= <-]. cbn. by exists (CurrReportIDInfo s), (ReportID t). }
      apply lays_bind. intros l [Hln ->]%store_Ok_inv.
      set (c := TotalDeviceReports (ParserData s)) in *.
      eapply (name_report_layout T c (u8 d) _ t1 _ _ zero_size); [done|done|done|..|done|].
      { by apply list_lookup_insert_eq. }
      cbn [set_info ParserData set_reports ReportIDSizes TotalDeviceReports]. rewrite list_insert_insert_eq.
      change (laid T c (u8 d) (set_using true (set_reports (S c)
        (<[c := SizeInfo (u8 d) (ReportSizeBits zero_size)]> (ReportIDSizes (ParserData s))) (ParserData s)))).
      eapply laid_open; [done|done| | |].
      * intros q Hq. apply Ho. lia.
      * intros q Hq. by apply list_lookup_insert_ne.
      * by apply list_lookup_insert_eq.
  - destruct (ReportIDSizes (ParserData s) !! CurrReportIDInfo s) as [r|] eqn:Hr; [|done].
    eapply name_report_layout; [done|done|done|done|done|]. by eapply laid_first.
Qed.

Lemma lstate_next s s' T : StateTable s' = StateTable s → CurrReportIDInfo s' = CurrReportIDInfo s →
  ParserData s' = ParserData s → lstate T s → lstate T s'.
Proof. unfold lstate. by intros -> -> ->. Qed.

Lemma update_table_layout T g s : CurrStateTable s = 0%nat →
  (∀ t, ReportID (g t) = ReportID t) → lstate T s → lays T (update_table g s).
Proof.
  intros Hc Hg (t & Ht & Hl). unfold update_table. rewrite Hc.
  apply lays_bind. intros t' Ht'%load_Ok. rewrite Ht in Ht'. injection Ht' as <-.
  apply lays_bind. intros l [Hlt ->]%store_Ok_inv. apply lays_next. exists (g t).
  split; [by apply list_lookup_insert_eq|]. by rewrite Hg.
Qed.

Lemma case_collection_layout T d s : lstate T s → lays T (case_collection d s).
Proof.
  intros Hl. unfold case_collection. cbn zeta. apply lays_bind. intros [[c l]|] _.
  - apply lays_bind. intros t _. apply lays_bind. intros p _. apply lays_bind.
    intros [u s'] (HS & _ & _ & HR & HP)%next_usage_same. cbn zeta. apply lays_bind. intros l' _.
    apply lays_next. destruct Hl as (t' & Ht' & Hl). exists t'. cbn. rewrite HS, HR, HP.
    split; [done|]. by apply laid_paths.
  - by apply lays_return.
Qed.

Lemma case_end_collection_layout T s : lstate T s → lays T (case_end_collection s).
Proof.
  intros Hl. unfold case_end_collection. destruct (CurrCollectionPath s); [|by apply lays_return].
  apply lays_bind. intros p _. by apply lays_next.
Qed.

Lemma do_item_layout T item d sz cnt s : select_case item ≠ Some PUSH →
  0 ≤ sz → 0 ≤ cnt → inv sz cnt s → T + item_bits item sz cnt < 65536 → lstate T s →
  lays (T + item_bits item sz cnt) (do_item filter junk item d s).
Proof.
  intros Hpush Hsz Hcnt Hs HT Hl. pose proof Hs as [_ (_ & Hc & _)]. unfold do_item, item_bits in *.
  destruct (select_case item) as [[]|]; try done; rewrite ?Z.add_0_r in *;
    try (apply update_table_layout; [done|intros t; cbn; by repeat case_match|done]);
    try (apply case_main_layout; [cbv; lia|done..]); try by apply lays_next.
  - unfold case_pop. rewrite Hc. by apply lays_return.
  - by eapply case_report_id_layout.
  - unfold case_usage. case_bool_decide; [by apply lays_return|]. apply lays_bind. intros l _. by apply lays_next.
  - by apply case_collection_layout.
  - by apply case_end_collection_layout.
Qed.

(** The bits of all main items of a descriptor. *)
Fixpoint descriptor_bits (es : list entry) (sz cnt : Z) : Z :=
  match es with
  | [] => 0
  | e :: es => item_bits (head e) sz cnt +
               descriptor_bits es (next_size (head e) (data e) sz) (next_count (head e) (data e) cnt)
  end.

Lemma next_size_range e sz : 0 ≤ sz → 0 ≤ next_size (head e) (data e) sz.
Proof. intros. unfold next_size. repeat case_match; try done. apply u8_range. Qed.

Lemma next_count_range e cnt : 0 ≤ cnt → 0 ≤ next_count (head e) (data e) cnt.
Proof. intros. unfold next_count. repeat case_match; try done. apply u8_range. Qed.

Lemma descriptor_bits_nonneg es : ∀ sz cnt, 0 ≤ sz → 0 ≤ cnt → 0 ≤ descriptor_bits es sz cnt.
Proof.
  induction es as [|e es IH]; intros sz cnt Hsz Hcnt; cbn; [lia|].
  assert (0 ≤ item_bits (head e) sz cnt) by (unfold item_bits; repeat case_match; nia).
  pose proof (IH _ _ (next_size_range e sz Hsz) (next_count_range e cnt Hcnt)). lia.
Qed.

Lemma run_prefix_layout es : ∀ T sz cnt s, no_push es → 0 ≤ sz → 0 ≤ cnt → inv sz cnt s →
  T + descriptor_bits es sz cnt < 65536 → lstate T s →
  lays (T + descriptor_bits es sz cnt) (run_prefix filter junk es s).
Proof.
  induction es as [|e es IH]; intros T sz cnt s Hes Hsz Hcnt Hs HT Hl; cbn [run_prefix descriptor_bits] in *.
  { apply lays_next. by rewrite Z.add_0_r. }
  apply Forall_cons in Hes as [He Hes].
  pose proof (next_size_range e sz Hsz) as Hsz'. pose proof (next_count_range e cnt Hcnt) as Hcnt'.
  pose proof (descriptor_bits_nonneg es _ _ Hsz' Hcnt') as Hpos.
  destruct (run_entry_safe filter junk e sz cnt s He Hs) as (o & Ho & Hinv). rewrite Ho, res_bind_Ok.
  assert (lays (T + item_bits (head e) sz cnt) (run_entry filter junk e s)) as Hk.
  { unfold run_entry, run_item. apply lays_bind. intros o' Ho'.
    pose proof (do_item_layout T (head e) (data e) sz cnt (advance (entry_len e) s) He Hsz Hcnt) as Hd.
    destruct Hs as [[Hi Hr Hu Hn Hp] Ht].
    specialize (Hd ltac:(by split) ltac:(lia) Hl o' Ho'). destruct o' as [s'|c s'].
    - apply lays_next. unfold reset_usages. by case_match.
    - by intros ? [= <-]. }
  specialize (Hk o Ho). rewrite Z.add_assoc. destruct o as [s'|c s'].
  - apply IH; [done..|lia|done].
  - intros ? [= <-]. destruct Hk as (cur & id & Hk). exists cur, id. eapply laid_mono; [|done]. lia.
Qed.

Lemma start_layout table1 usages size f : lstate 0 (parser_start (F := F) table1 usages size f).
Proof.
  exists zero_table. split; [done|]. split; cbn; try done.
  - intros r x ty b Hx Hb. change (replicate 10 zero_size !! r = Some x) in Hx.
    apply lookup_replicate in Hx as [-> _]. change (replicate 3 0 !! ty = Some b) in Hb.
    apply lookup_replicate in Hb as [-> _]. lia.
  - split; [lia|done].
  - lia.
  - intros _. split_and!; [done|done|]. intros; lia.
  - lia.
  - lia.
Qed.
End Layout.

(** What the parser returns on a descriptor without PUSH. *)
Lemma parse_laid_out {F} (filter : F → HID_ReportItem_t → bool * F) junk table1 usages es f :
  Forall entry_ok es → Z.of_nat (length (entries_bytes es)) < 65536 →
  length usages = HID_USAGE_STACK_DEPTH → no_push es → descriptor_bits es 0 0 < 65536 →
  gives (λ r, shaped_info r.1.2 ∧ laid_out (descriptor_bits es 0 0) r.1.2)
    (USB_ProcessHIDReport filter junk table1 usages (entries_bytes es)
       (Z.of_nat (length (entries_bytes es))) f).
Proof.
  intros He Hlen Hu Hp HT. rewrite parse_descriptor by done.
  set (s0 := parser_start table1 usages (Z.of_nat (length (entries_bytes es))) f).
  pose proof (start_inv table1 usages (Z.of_nat (length (entries_bytes es))) f Hu) as Hinv. fold s0 in Hinv.
  pose proof (start_layout table1 usages (Z.of_nat (length (entries_bytes es))) f) as Hl. fold s0 in Hl.
  destruct (run_prefix_safe filter junk es 0 0 s0 Hp Hinv) as (o & Ho & Hs).
  pose proof (run_prefix_layout filter junk es 0 0 0 s0 Hp ltac:(lia) ltac:(lia) Hinv ltac:(lia) Hl o Ho) as Hk.
  rewrite Z.add_0_l in Hk. rewrite Ho, res_bind_Ok. destruct o as [s|c s]; apply gives_ret; cbn.
  - split; [apply Hs|]. destruct Hk as (t & _ & Hk). by exists (CurrReportIDInfo s), (ReportID t).
  - split; [apply Hs|done].
Qed.

(** ** The sizes of reports *)

Definition bytes_for (bits : Z) : Z := bits / 8 + (if bits `mod` 8 =? 0 then 0 else 1).

Lemma bytes_for_enough bits : 0 ≤ bits → bits ≤ 8 * bytes_for bits.
Proof.
  intros Hb. unfold bytes_for. pose proof (Z.div_mod bits 8 ltac:(lia)) as Hd.
  pose proof (Z.mod_pos_bound bits 8 ltac:(lia)) as Hm. destruct (Z.eqb_spec (bits `mod` 8) 0); lia.
Qed.

Lemma report_size_found l id ty r x b n : ∀ k,
  (k ≤ r < k + n)%nat → l !! r = Some x → SizeReportID x = id → ReportSizeBits x !! ty = Some b →
  (∀ q, (k ≤ q < r)%nat → ∃ y, l !! q = Some y ∧ SizeReportID y ≠ id ∧ is_Some (ReportSizeBits y !! ty)) →
  report_size_loop l id ty n k = Ok (bytes_for b).
Proof.
  induction n as [|n IH]; intros k Hk Hx Hid Hb Hq; [lia|]. cbn [report_size_loop].
  destruct (decide (k = r)) as [->|Hne].
  - unfold load. rewrite Hx, res_bind_Ok, Hb, res_bind_Ok. by rewrite Hid, Z.eqb_refl.
  - destruct (Hq k) as (y & Hy & Hyid & [b' Hb']); [lia|].
    unfold load. rewrite Hy, res_bind_Ok, Hb', res_bind_Ok.
    destruct (Z.eqb_spec (SizeReportID y) id); [done|]. apply IH; try done; [lia|]. intros q Hq'. apply Hq. lia.
Qed.

(** The size of the report of an item. *)
Lemma item_report_size T i a : shaped_info i → laid_out T i → item_inside i a →
  ∃ n, USB_GetHIDReportSize i (ItemReportID a) (ItemType a) = Ok n ∧
       item_end a ≤ 8 * n ∧ item_end a ≤ LargestReportSizeBits i ∧ item_end a ≤ T.
Proof.
  intros [H1 H2 H3 _ _ _ _] (cur & id & Hl) (_ & r & x & b & Hr & Hx & Hxi & Hb & He).
  pose proof (l_bits _ _ _ _ Hl _ _ _ _ Hx Hb) as [Hb0 HbL].
  exists (bytes_for b). pose proof (bytes_for_enough b ltac:(lia)). split; [|lia].
  unfold USB_GetHIDReportSize. eapply (report_size_found _ _ _ r x b); [lia|done|done|done|].
  intros q Hq. destruct (lookup_lt_is_Some_2 (ReportIDSizes i) q) as [y Hy]; [lia|]. exists y. split; [done|].
  split.
  - intros Hyi. assert (q = r); [|lia]. apply (l_inj _ _ _ _ Hl); [lia|lia|]. rewrite Hy, Hx. cbn. congruence.
  - apply lookup_lt_is_Some_2. pose proof (Forall_lookup_1 _ _ _ _ H3 Hy) as Hy3. cbn in Hy3.
    pose proof (Forall_lookup_1 _ _ _ _ H3 Hx) as Hx3. cbn in Hx3. rewrite Hy3, <- Hx3. by eapply lookup_lt_Some.
Qed.

(** C21: The items that the parser stores for a descriptor do not overlap: of
    two items with the same report ID and type the later one starts behind the
    end of the earlier one; this holds for every descriptor of complete items
    without PUSH whose bits fit a 16-bit count (where IDs are used, for the
    items that have one). *)
Theorem hid_items_disjoint {F} (filter : F → HID_ReportItem_t → bool * F) junk table1 usages es f :
  Forall entry_ok es → Z.of_nat (length (entries_bytes es)) < 65536 →
  length usages = HID_USAGE_STACK_DEPTH → no_push es → descriptor_bits es 0 0 < 65536 →
  ∃ code info f',
    USB_ProcessHIDReport filter junk table1 usages (entries_bytes es)
      (Z.of_nat (length (entries_bytes es))) f = Ok (code, info, f') ∧
    ∀ k k' a b, (k < k' < TotalReportItems info)%nat →
      ReportItems info !! k = Some a → ReportItems info !! k' = Some b →
      ItemReportID a = ItemReportID b → ItemType a = ItemType b → names info (ItemReportID a) →
      BitOffset a + BitSize (Attributes a) ≤ BitOffset b.
Proof.
  intros He Hlen Hu Hp HT.
  destruct (parse_laid_out filter junk table1 usages es f He Hlen Hu Hp HT)
    as ([[code info] f'] & Hr & _ & cur & id & Hl).
  exists code, info, f'. split; [done|]. intros k k' a b [Hk Hk']. by apply (l_sorted _ _ _ _ Hl k k' a b).
Qed.

(** C22: Every item that the parser stores can be read from any report of the
    size that USB_GetHIDReportSize gives, with its ID in front where it has
    one: USB_GetHIDReportItemInfo stays inside of the report and returns the
    bits of the item (32 at most) as its value and the old value as the
    previous one. *)
Theorem hid_items_readable {F} (filter : F → HID_ReportItem_t → bool * F) junk table1 usages es f :
  Forall entry_ok es → Z.of_nat (length (entries_bytes es)) < 65536 →
  length usages = HID_USAGE_STACK_DEPTH → no_push es → descriptor_bits es 0 0 < 65536 →
  ∃ code info f',
    USB_ProcessHIDReport filter junk table1 usages (entries_bytes es)
      (Z.of_nat (length (entries_bytes es))) f = Ok (code, info, f') ∧
    ∀ k a, (k < TotalReportItems info)%nat → ReportItems info !! k = Some a →
      names info (ItemReportID a) →
      ∃ n, USB_GetHIDReportSize info (ItemReportID a) (ItemType a) = Ok n ∧
        ∀ body, Forall is_u8 body → Z.of_nat (length body) = n →
          USB_GetHIDReportItemInfo (report_of a body) (Some a) =
            Ok (true, Some (set_values (field body (BitOffset a) (BitSize (Attributes a))) (Value a) a)).
Proof.
  intros He Hlen Hu Hp HT.
  destruct (parse_laid_out filter junk table1 usages es f He Hlen Hu Hp HT)
    as ([[code info] f'] & Hr & Hsh & Hl).
  exists code, info, f'. split; [done|]. intros k a Hk Ha Hname.
  assert (item_inside info a) as Hin by (destruct Hl as (cur & id & Hl); by eapply (l_inside _ _ _ _ Hl)).
  destruct (item_report_size _ _ _ Hsh Hl Hin) as (n & Hn & He1 & _ & He2).
  exists n. split; [done|]. intros body Hb Hbl. destruct Hin as [[H1 H2] _]. unfold item_end in *.
  apply get_item_value; (done || cbn in *; lia).
Qed.

(** A keyboard. *)
Definition keyboard : list entry := of_macro <$> HID_DESCRIPTOR_KEYBOARD 6.

Lemma keyboard_no_push : no_push keyboard.
Proof. repeat (constructor; [vm_compute; congruence|]). constructor. Qed.

Lemma hid_items_disjoint_witness : ∃ code info f',
  USB_ProcessHIDReport (λ (_ : unit) _, (true, tt)) (λ _, (0, 0)) zero_table (replicate 8 0)
    (entries_bytes keyboard) (Z.of_nat (length (entries_bytes keyboard))) tt = Ok (code, info, f') ∧
  ∀ k k' a b, (k < k' < TotalReportItems info)%nat →
    ReportItems info !! k = Some a → ReportItems info !! k' = Some b →
    ItemReportID a = ItemReportID b → ItemType a = ItemType b → names info (ItemReportID a) →
    BitOffset a + BitSize (Attributes a) ≤ BitOffset b.
Proof.
  apply hid_items_disjoint; [apply macros_ok|vm_compute; reflexivity|reflexivity|apply keyboard_no_push|].
  vm_compute. reflexivity.
Defined.

Lemma hid_items_readable_witness : ∃ code info f',
  USB_ProcessHIDReport (λ (_ : unit) _, (true, tt)) (λ _, (0, 0)) zero_table (replicate 8 0)
    (entries_bytes keyboard) (Z.of_nat (length (entries_bytes keyboard))) tt = Ok (code, info, f') ∧
  ∀ k a, (k < TotalReportItems info)%nat → ReportItems info !! k = Some a →
    names info (ItemReportID a) →
    ∃ n, USB_GetHIDReportSize info (ItemReportID a) (ItemType a) = Ok n ∧
      ∀ body, Forall is_u8 body → Z.of_nat (length body) = n →
        USB_GetHIDReportItemInfo (report_of a body) (Some a) =
          Ok (true, Some (set_values (field body (BitOffset a) (BitSize (Attributes a))) (Value a) a)).
Proof.
  apply hid_items_readable; [apply macros_ok|vm_compute; reflexivity|reflexivity|apply keyboard_no_push|].
  vm_compute. reflexivity.
Defined.
