(* ===== verification/HidDevices.v ===== *)
(** * The descriptors of HIDClassCommon.h

    What the report parser makes of the descriptors that the macros of LUFA
    build: all of them are parsed without a fault, and the table of a keyboard
    is the report that the comment at the macro shows. *)

From S2P Require Import Prelude HidParser HidItems HidLayout HidValues HidReports.
Import Hid.
Open Scope Z_scope.

(** An application that keeps every item. *)
Definition accept_all (_ : unit) (_ : HID_ReportItem_t) : bool * unit := (true, tt).

(** Any of the four macros, with any arguments. *)
Inductive class_descriptor : list macro_item → Prop :=
  | d_joystick a b c d e : class_descriptor (HID_DESCRIPTOR_JOYSTICK a b c d e)
  | d_keyboard n : class_descriptor (HID_DESCRIPTOR_KEYBOARD n)
  | d_mouse a b c d e f : class_descriptor (HID_DESCRIPTOR_MOUSE a b c d e f)
  | d_vendor a b c d e : class_descriptor (HID_DESCRIPTOR_VENDOR a b c d e).

Lemma macro_no_push l : Forall (λ m, m.1.1 ≠ PUSH) l → no_push (of_macro <$> l).
Proof.
  intros Hl. unfold no_push. apply Forall_fmap. eapply Forall_impl; [done|].
  intros [[t b] d] Ht. cbn in *. by destruct t, b.
Qed.

Lemma class_descriptor_no_push l : class_descriptor l → no_push (of_macro <$> l).
Proof. intros Hl. apply macro_no_push. destruct Hl; repeat (constructor; [done|]); constructor. Qed.

(** The bytes of a descriptor of the class are parsed with one of the codes. *)
Lemma class_descriptor_parsed {F} (filter : F → HID_ReportItem_t → bool * F) junk table1 usages l f :
  class_descriptor l → length usages = HID_USAGE_STACK_DEPTH →
  gives (λ r, 0 ≤ r.1.1 ≤ 8 ∧ shaped_info r.1.2)
    (USB_ProcessHIDReport filter junk table1 usages (descriptor_bytes l)
       (Z.of_nat (length (descriptor_bytes l))) f).
Proof.
  intros Hl Hu. rewrite descriptor_entries.
  assert (Z.of_nat (length (entries_bytes (of_macro <$> l))) < 65536) as Hlen by (destruct Hl; vm_compute; done).
  rewrite parse_descriptor by (done || apply macros_ok).
  set (size := Z.of_nat _).
  destruct (run_prefix_safe filter junk (of_macro <$> l) 0 0 _ (class_descriptor_no_push l Hl)
    (start_inv table1 usages size f Hu)) as ([s|c s] & -> & Hs); cbn.
  - eexists. split; [done|]. cbn. split; [case_bool_decide; vm_compute; split; congruence|apply Hs].
  - eexists. split; [done|]. cbn. destruct Hs as [Hc Hs]. unfold is_code in Hc. split; [lia|apply Hs].
Qed.

(** ** Collections *)

(** Two collections side by side, each with an item. *)
Definition two_collections : list macro_item :=
  [(USAGE, Bits8, 0x06); (COLLECTION, Bits8, 0x01); (REPORT_SIZE, Bits8, 8); (REPORT_COUNT, Bits8, 1);
   (INPUT, Bits8, data_variable_absolute); (END_COLLECTION, Bits0, 0);
   (USAGE, Bits8, 0x02); (COLLECTION, Bits8, 0x01);
   (INPUT, Bits8, data_variable_absolute); (END_COLLECTION, Bits0, 0)].

(** Collections at the top share the first path: the item of the first one
    points to the usage of the second. *)
Lemma hid_top_collections_share :
  ∃ info, USB_ProcessHIDReport accept_all (λ _, (0, 0)) zero_table (replicate 8 0)
      (descriptor_bytes two_collections) (Z.of_nat (length (descriptor_bytes two_collections))) tt =
    Ok (HID_PARSE_Successful, info, tt) ∧
  CollectionPath <$> take 2 (ReportItems info) = [Some 0%nat; Some 0%nat] ∧
  Usage ∘ PathUsage <$> CollectionPaths info !! 0%nat = Some 0x02.
Proof. eexists. split; [vm_compute; reflexivity|done]. Qed.

(** ** The keyboard *)

(** Type, offset and size of the items of a result. *)
Definition fields_of {F} (r : res (Z * HID_ReportInfo_t * F)) : option (Z * list (nat * Z * Z)) :=
  match r with
  | Ok (code, info, _) =>
      Some (code, (λ a, (ItemType a, BitOffset a, BitSize (Attributes a)))
                    <$> take (TotalReportItems info) (ReportItems info))
  | Err _ => None
  end.

(** [Modifier] as eight bits, five LEDs in the output report, and behind the
    reserved byte the bytes of [KeyCode]. *)
Definition keyboard_fields (keys : Z) : list (nat * Z * Z) :=
  ((λ i, (HID_REPORT_ITEM_In, i, 1)) <$> seqZ 0 8) ++
  ((λ i, (HID_REPORT_ITEM_Out, i, 1)) <$> seqZ 0 5) ++
  ((λ i, (HID_REPORT_ITEM_In, 16 + 8 * i, 8)) <$> seqZ 0 keys).

Definition parse_keyboard junk table1 usages (MaxKeys : Z) :=
  USB_ProcessHIDReport accept_all junk table1 usages
    (descriptor_bytes (HID_DESCRIPTOR_KEYBOARD MaxKeys))
    (Z.of_nat (length (descriptor_bytes (HID_DESCRIPTOR_KEYBOARD MaxKeys)))) tt.

Definition keyboard_result (MaxKeys : Z) : Z * list (nat * Z * Z) :=
  if MaxKeys <=? 7 then (HID_PARSE_Successful, keyboard_fields MaxKeys)
  else (HID_PARSE_InsufficientReportItems, keyboard_fields 7).

(** The descriptor of HID_DESCRIPTOR_KEYBOARD, parsed with every item
    kept, gives the report of the comment at the macro: the modifier bits in
    the first byte, a reserved byte, and one byte per key; with more than
    seven keys the table of items is full and the parser says so. *)
Theorem hid_keyboard_layout junk table1 usages MaxKeys :
  is_u8 MaxKeys → length usages = HID_USAGE_STACK_DEPTH →
  fields_of (parse_keyboard junk table1 usages MaxKeys) = Some (keyboard_result MaxKeys).
Proof.
  intros Hk Hu. do 8 (destruct usages as [|? usages]; [done|]). destruct usages; [|done]. clear Hu.
  assert (MaxKeys ∈ seqZ 0 256) as Hin by (apply elem_of_seqZ; unfold is_u8 in Hk; lia). clear Hk.
  revert MaxKeys Hin. apply Forall_forall.
  change (seqZ 0 256) with (ltac:(let l := eval vm_compute in (seqZ 0 256) in exact l)).
  repeat (apply Forall_cons; split; [vm_compute; reflexivity|]). apply Forall_nil_2.
Qed.

Lemma hid_keyboard_layout_witness :
  fields_of (parse_keyboard (λ _, (0, 0)) zero_table (replicate 8 0) 6) = Some (keyboard_result 6).
Proof. apply hid_keyboard_layout; [unfold is_u8; lia|reflexivity]. Defined.
