(* ===== verification/RingBuffer.v ===== *)
(** * The ring buffer

    LUFA/Drivers/Misc/RingBuffer.h: a queue of bytes between two threads of
    execution, one that inserts and one that removes (the main program and an
    interrupt).  The operations are composed of the accesses at which the other
    thread can run; over every interleaving of these accesses the bytes removed
    are the bytes inserted, in their order ([ring_buffer_fifo]). *)

From S2P Require Import Prelude.

Module Ring.
Open Scope Z_scope.

(** ** The structure *)

(** Pointers are indices into the storage array. *)
Record RingBuffer_t := Ring {
  In : nat;
  Out : nat;
  Start : nat;
  End_ : nat;
  Size : Z;
  Count : Z
}.

(** The structure and the array behind it. *)
Record ring := RB { rb : RingBuffer_t; mem : list Z }.

Definition set_in (p : nat) (b : RingBuffer_t) : RingBuffer_t :=
  Ring p (Out b) (Start b) (End_ b) (Size b) (Count b).
Definition set_out (p : nat) (b : RingBuffer_t) : RingBuffer_t :=
  Ring (In b) p (Start b) (End_ b) (Size b) (Count b).
Definition set_count (c : Z) (b : RingBuffer_t) : RingBuffer_t :=
  Ring (In b) (Out b) (Start b) (End_ b) (Size b) c.
Definition upd (f : RingBuffer_t → RingBuffer_t) (s : ring) : ring := RB (f (rb s)) (mem s).

Definition RingBuffer_InitBuffer (data : list Z) (size : nat) : ring :=
  RB (Ring 0 0 0 size (u16 (Z.of_nat size)) 0) data.

(** ** The accesses *)

(** The count is read and changed with interrupts disabled. *)
Definition RingBuffer_GetCount (s : ring) : Z := Count (rb s).
Definition RingBuffer_GetFreeCount (s : ring) : Z := u16 (Size (rb s) - RingBuffer_GetCount s).
Definition RingBuffer_IsEmpty (s : ring) : bool := RingBuffer_GetCount s =? 0.
Definition RingBuffer_IsFull (s : ring) : bool := RingBuffer_GetCount s =? Size (rb s).

(** [*Buffer->In = Data] *)
Definition put_data (d : Z) (s : ring) : res ring :=
  m ← store (mem s) (In (rb s)) d; mret (RB (rb s) m).
(** [++Buffer->In] *)
Definition next_in (s : ring) : ring := upd (λ b, set_in (S (In b)) b) s.
(** [if (Buffer->In == Buffer->End) Buffer->In = Buffer->Start] *)
Definition wrap_in (s : ring) : ring :=
  upd (λ b, if bool_decide (In b = End_ b) then set_in (Start b) b else b) s.
(** [Buffer->Count++] *)
Definition count_up (s : ring) : ring := upd (λ b, set_count (u16 (Count b + 1)) b) s.

Definition RingBuffer_Insert (d : Z) (s : ring) : res ring :=
  s ← put_data d s; mret (count_up (wrap_in (next_in s))).

(** [*Buffer->Out] *)
Definition get_data (s : ring) : res Z := load (mem s) (Out (rb s)).
(** [++Buffer->Out] *)
Definition next_out (s : ring) : ring := upd (λ b, set_out (S (Out b)) b) s.
(** [if (Buffer->Out == Buffer->End) Buffer->Out = Buffer->Start] *)
Definition wrap_out (s : ring) : ring :=
  upd (λ b, if bool_decide (Out b = End_ b) then set_out (Start b) b else b) s.
(** [Buffer->Count--] *)
Definition count_down (s : ring) : ring := upd (λ b, set_count (u16 (Count b - 1)) b) s.

Definition RingBuffer_Remove (s : ring) : res (Z * ring) :=
  d ← get_data s; mret (d, count_down (wrap_out (next_out s))).

Definition RingBuffer_Peek (s : ring) : res Z := load (mem s) (Out (rb s)).

(** ** Two threads *)

(** Where a thread is inside of its operation, and its local variable. *)
Inductive ppc := PIdle | PPut (d : Z) | PNext (d : Z) | PWrap (d : Z) | PCount (d : Z).
Inductive cpc := CIdle | CGet | CNext (d : Z) | CWrap (d : Z) | CCount (d : Z).

(** [sent] are the bytes whose insertion has ended, [got] the bytes that
    RingBuffer_Remove has returned. *)
Record conf := Conf { ringof : ring; prod : ppc; cons_ : cpc; sent : list Z; got : list Z }.

(** The next access of the producer, which inserts [d] unless the buffer is
    full. *)
Definition producer (d : Z) (c : conf) : res conf :=
  let s := ringof c in
  let to s p snt := mret (Conf s p (cons_ c) snt (got c)) in
  match prod c with
  | PIdle => if RingBuffer_IsFull s then mret c else to s (PPut d) (sent c)
  | PPut d => s ← put_data d s; to s (PNext d) (sent c)
  | PNext d => to (next_in s) (PWrap d) (sent c)
  | PWrap d => to (wrap_in s) (PCount d) (sent c)
  | PCount d => to (count_up s) PIdle (sent c ++ [d])
  end.

(** The next access of the consumer, which removes a byte unless the buffer is
    empty. *)
Definition consumer (c : conf) : res conf :=
  let s := ringof c in
  let to s p g := mret (Conf s (prod c) p (sent c) g) in
  match cons_ c with
  | CIdle => if RingBuffer_IsEmpty s then mret c else to s CGet (got c)
  | CGet => d ← get_data s; to s (CNext d) (got c)
  | CNext d => to (next_out s) (CWrap d) (got c)
  | CWrap d => to (wrap_out s) (CCount d) (got c)
  | CCount d => to (count_down s) CIdle (got c ++ [d])
  end.

(** A schedule says whose access is next. *)
Inductive turn := Producer (d : Z) | Consumer.

Definition step (t : turn) (c : conf) : res conf :=
  match t with Producer d => producer d c | Consumer => consumer c end.

Fixpoint run (l : list turn) (c : conf) : res conf :=
  match l with [] => mret c | t :: l => c ← step t c; run l c end.

Definition start (data : list Z) (size : nat) : conf :=
  Conf (RingBuffer_InitBuffer data size) PIdle CIdle [] [].

(** A thread alone runs the operations of the header. *)
Lemma producer_inserts d c c5 : prod c = PIdle → RingBuffer_IsFull (ringof c) = false →
  run (replicate 5 (Producer d)) c = Ok c5 →
  RingBuffer_Insert d (ringof c) = Ok (ringof c5) ∧ prod c5 = PIdle ∧ sent c5 = sent c ++ [d].
Proof.
  destruct c as [s p q snt g]. cbn. intros -> Hf. unfold producer. cbn. rewrite Hf. cbn.
  unfold RingBuffer_Insert. destruct (put_data d s) as [s'|]; cbn; [|done]. by intros [= <-].
Qed.

Lemma consumer_removes c c5 : cons_ c = CIdle → RingBuffer_IsEmpty (ringof c) = false →
  run (replicate 5 Consumer) c = Ok c5 →
  ∃ d, RingBuffer_Remove (ringof c) = Ok (d, ringof c5) ∧ cons_ c5 = CIdle ∧ got c5 = got c ++ [d].
Proof.
  destruct c as [s p q snt g]. cbn. intros -> He. unfold consumer. cbn. rewrite He. cbn.
  unfold RingBuffer_Remove. destruct (get_data s) as [d|]; cbn; [|done]. intros [= <-]. by exists d.
Qed.

(** ** The invariant *)

(** The index a thread has after [k] operations and at its place in the
    next one. *)
Definition in_at (n k : nat) (p : ppc) : nat :=
  match p with
  | PIdle | PPut _ | PNext _ => k `mod` n
  | PWrap _ => S (k `mod` n)
  | PCount _ => S k `mod` n
  end.

Definition out_at (n k : nat) (p : cpc) : nat :=
  match p with
  | CIdle | CGet | CNext _ => k `mod` n
  | CWrap _ => S (k `mod` n)
  | CCount _ => S k `mod` n
  end.

Record ok (n : nat) (c : conf) : Prop := {
  ok_mem : length (mem (ringof c)) = n;
  ok_start : Start (rb (ringof c)) = 0%nat;
  ok_end : End_ (rb (ringof c)) = n;
  ok_size : Size (rb (ringof c)) = Z.of_nat n;
  ok_count : Count (rb (ringof c)) = Z.of_nat (length (sent c) - length (got c));
  ok_bounds : (length (got c) ≤ length (sent c) ≤ length (got c) + n)%nat;
  ok_in : In (rb (ringof c)) = in_at n (length (sent c)) (prod c);
  ok_out : Out (rb (ringof c)) = out_at n (length (got c)) (cons_ c);
  ok_prod : prod c ≠ PIdle → (length (sent c) < length (got c) + n)%nat;
  ok_cons : cons_ c ≠ CIdle → (length (got c) < length (sent c))%nat;
  ok_data k : (length (got c) ≤ k < length (sent c))%nat → mem (ringof c) !! (k `mod` n)%nat = sent c !! k;
  ok_new : match prod c with
           | PNext d | PWrap d | PCount d => mem (ringof c) !! (length (sent c) `mod` n)%nat = Some d
           | _ => True
           end;
  ok_local : match cons_ c with
             | CNext d | CWrap d | CCount d => sent c !! length (got c) = Some d
             | _ => True
             end;
  ok_prefix : got c `prefix_of` sent c
}.

Section Fifo.
Context (n : nat) (Hn : (0 < n)%nat) (H16 : Z.of_nat n < 65536).

Lemma wrap_mod k : (if bool_decide (S (k `mod` n) = n) then 0 else S (k `mod` n))%nat = (S k `mod` n)%nat.
Proof.
  pose proof (Nat.mod_upper_bound k n ltac:(lia)) as Hk. pose proof (Nat.div_mod k n ltac:(lia)) as Hd.
  case_bool_decide as Hb.
  - symmetry. apply Nat.Div0.mod_divides. exists (S (k / n))%nat. lia.
  - apply (Nat.mod_unique _ _ (k / n)); lia.
Qed.

Lemma mod_lt k : (k `mod` n < n)%nat.
Proof. apply Nat.mod_upper_bound. lia. Qed.

(** Fewer than [n] positions apart, two indices differ. *)
Lemma mod_apart k w : (k < w < k + n)%nat → (k `mod` n ≠ w `mod` n)%nat.
Proof.
  intros Hk He. pose proof (Nat.div_mod k n ltac:(lia)). pose proof (Nat.div_mod w n ltac:(lia)).
  assert (w / n = k / n)%nat by nia. lia.
Qed.

Lemma start_ok data : length data = n → ok n (start data n).
Proof.
  intros Hl. split; cbn; try done; try lia.
  - unfold u16. apply Z.mod_small. lia.
  - by rewrite Nat.Div0.mod_0_l.
  - by rewrite Nat.Div0.mod_0_l.
Qed.

Lemma producer_ok d c : ok n c → ∃ c', producer d c = Ok c' ∧ ok n c'.
Proof.
  intros [Hm Hs He Hsz Hc Hb Hi Ho Hp Hg Hd Hnew Hloc Hpre].
  destruct c as [[b m] p q snt g]; cbn in *. unfold producer; cbn. destruct p as [|x|x|x|x]; cbn in *.
  - unfold RingBuffer_IsFull, RingBuffer_GetCount; cbn. destruct (Z.eqb_spec (Count b) (Size b)) as [Hf|Hf].
    + eexists. split; [done|]. by split.
    + eexists. split; [done|]. split; cbn; try done. intros _. lia.
  - unfold put_data; cbn. rewrite store_Ok by (rewrite Hi, Hm; apply mod_lt). cbn.
    eexists. split; [done|]. specialize (Hp ltac:(done)). split; cbn; try done.
    + by rewrite length_insert.
    + intros k Hk. rewrite list_lookup_insert_ne; [by apply Hd|]. rewrite Hi. intros Hx. symmetry in Hx.
      revert Hx. apply mod_apart. lia.
    + rewrite Hi. apply list_lookup_insert_eq. rewrite Hm. apply mod_lt.
  - specialize (Hp ltac:(done)). eexists. split; [done|]. split; cbn; try done. by rewrite Hi.
  - specialize (Hp ltac:(done)). eexists. split; [done|]. split; cbn; try done; try (by case_bool_decide).
    rewrite Hi, He, Hs, <- wrap_mod. by case_bool_decide.
  - specialize (Hp ltac:(done)). eexists. split; [done|]. split; cbn; rewrite ?length_app; cbn; try done; try lia.
    + rewrite Hc. unfold u16. rewrite Z.mod_small by lia. lia.
    + by rewrite Hi, Nat.add_1_r.
    + intros k Hk. destruct (decide (k < length snt)%nat) as [Hlt|Hge].
      * rewrite lookup_app_l by done. apply Hd. lia.
      * assert (k = length snt) as -> by lia. rewrite Hnew. symmetry. by apply list_lookup_middle.
    + destruct q; try done; by apply lookup_app_l_Some.
    + by apply prefix_app_r.
Qed.

Lemma consumer_ok c : ok n c → ∃ c', consumer c = Ok c' ∧ ok n c'.
Proof.
  intros [Hm Hs He Hsz Hc Hb Hi Ho Hp Hg Hd Hnew Hloc Hpre].
  destruct c as [[b m] p q snt g]; cbn in *. unfold consumer; cbn. destruct q as [| |x|x|x]; cbn in *.
  - unfold RingBuffer_IsEmpty, RingBuffer_GetCount; cbn. destruct (Z.eqb_spec (Count b) 0) as [Hf|Hf].
    + eexists. split; [done|]. by split.
    + eexists. split; [done|]. split; cbn; try done. intros _. lia.
  - specialize (Hg ltac:(done)). unfold get_data; cbn. rewrite Ho.
    destruct (lookup_lt_is_Some_2 snt (length g) Hg) as [x Hx].
    assert (m !! (length g `mod` n)%nat = Some x) as Hmx by (rewrite Hd by lia; done).
    unfold load. rewrite Hmx. cbn. eexists. split; [done|]. by split.
  - specialize (Hg ltac:(done)). eexists. split; [done|]. split; cbn; try done. by rewrite Ho.
  - specialize (Hg ltac:(done)). eexists. split; [done|]. split; cbn; try done; try (by case_bool_decide).
    rewrite Ho, He, Hs, <- wrap_mod. by case_bool_decide.
  - specialize (Hg ltac:(done)). eexists. split; [done|].
    split; cbn; rewrite ?length_app; cbn; try done; try lia.
    + rewrite Hc. unfold u16. rewrite Z.mod_small by lia. lia.
    + by rewrite Ho, Nat.add_1_r.
    + intros k Hk. apply Hd. lia.
    + destruct Hpre as [l ->]. rewrite lookup_app_r, Nat.sub_diag in Hloc by done.
      destruct l as [|y l]; [done|]. injection Hloc as ->. exists l. by rewrite <- (assoc_L (++)).
Qed.

Lemma step_ok t c : ok n c → ∃ c', step t c = Ok c' ∧ ok n c'.
Proof. destruct t; [apply producer_ok|apply consumer_ok]. Qed.

Lemma run_ok l : ∀ c, ok n c → ∃ c', run l c = Ok c' ∧ ok n c'.
Proof.
  induction l as [|t l IH]; intros c Hc; [by exists c|]. cbn.
  destruct (step_ok t c Hc) as (c1 & -> & H1). by apply IH.
Qed.
End Fifo.

(** ** The queue it implements *)

(** A bounded queue of bytes: what goes in and what comes out. *)
Inductive label := Enq (d : Z) | Deq (d : Z).

Inductive qstep (n : nat) : list Z → label → list Z → Prop :=
  | q_enq q d : (length q < n)%nat → qstep n q (Enq d) (q ++ [d])
  | q_deq q d : qstep n (d :: q) (Deq d) q.

Inductive qrun (n : nat) : list Z → list label → list Z → Prop :=
  | q_nil q : qrun n q [] q
  | q_snoc q q1 q2 tr a : qrun n q tr q1 → qstep n q1 a q2 → qrun n q (tr ++ [a]) q2.

Definition ins (tr : list label) : list Z := omap (λ a, match a with Enq d => Some d | _ => None end) tr.
Definition outs (tr : list label) : list Z := omap (λ a, match a with Deq d => Some d | _ => None end) tr.

(** The contents: what was inserted and not yet removed. *)
Definition contents (c : conf) : list Z := drop (length (got c)) (sent c).

(** An access is no step of the queue or one that its history records. *)
Lemma step_refines n t c c' : ok n c → step t c = Ok c' →
  (sent c' = sent c ∧ got c' = got c) ∨
  (∃ d, sent c' = sent c ++ [d] ∧ got c' = got c ∧ qstep n (contents c) (Enq d) (contents c')) ∨
  (∃ d, sent c' = sent c ∧ got c' = got c ++ [d] ∧ qstep n (contents c) (Deq d) (contents c')).
Proof.
  intros Hok Hs. destruct t as [d|]; cbn in Hs.
  - unfold producer in Hs. destruct (prod c) as [|x|x|x|x] eqn:E; cbn in Hs.
    + case_match; injection Hs as <-; by left.
    + apply res_bind_Ok_inv in Hs as (s & _ & [= <-]). by left.
    + injection Hs as <-. by left.
    + injection Hs as <-. by left.
    + injection Hs as <-. right; left. exists x. split_and!; [done|done|]. unfold contents; cbn.
      pose proof (ok_bounds _ _ Hok). rewrite drop_app_le by lia. constructor.
      rewrite length_drop. pose proof (ok_prod _ _ Hok ltac:(by rewrite E)). lia.
  - unfold consumer in Hs. destruct (cons_ c) as [| |x|x|x] eqn:E; cbn in Hs.
    + case_match; injection Hs as <-; by left.
    + apply res_bind_Ok_inv in Hs as (s & _ & [= <-]). by left.
    + injection Hs as <-. by left.
    + injection Hs as <-. by left.
    + injection Hs as <-. right; right. exists x. split_and!; [done|done|]. unfold contents; cbn.
      pose proof (ok_local _ _ Hok) as Hl. rewrite E in Hl. rewrite (drop_S (sent c) x) by done.
      rewrite length_app, Nat.add_1_r. constructor.
Qed.

Lemma run_refines n c0 l : (0 < n)%nat → Z.of_nat n < 65536 → ∀ c c' tr,
  ok n c → qrun n c0 tr (contents c) → ins tr = sent c → outs tr = got c →
  run l c = Ok c' →
  ∃ tr', qrun n c0 tr' (contents c') ∧ ins tr' = sent c' ∧ outs tr' = got c'.
Proof.
  intros Hn H16. induction l as [|t l IH]; intros c c' tr Hok Hq Hi Ho Hr; cbn in Hr.
  { injection Hr as <-. by exists tr. }
  destruct (step_ok n Hn H16 t c Hok) as (c1 & Hs & Hok1). rewrite Hs in Hr.
  destruct (step_refines n t c c1 Hok Hs) as [[H1 H2]|[(d & H1 & H2 & H3)|(d & H1 & H2 & H3)]].
  - apply (IH c1 c' tr); [done| |congruence|congruence|done]. unfold contents. by rewrite H1, H2.
  - apply (IH c1 c' (tr ++ [Enq d])); [done|by econstructor| | |done]; unfold ins, outs in *;
      rewrite omap_app; cbn; rewrite ?app_nil_r; congruence.
  - apply (IH c1 c' (tr ++ [Deq d])); [done|by econstructor| | |done]; unfold ins, outs in *;
      rewrite omap_app; cbn; rewrite ?app_nil_r; congruence.
Qed.

(** ** Draining *)

(** Accesses of the consumer until the buffer is empty. *)
Definition left_to_do (c : conf) : nat :=
  5 * (length (sent c) - length (got c)) -
  match cons_ c with CIdle => 0 | CGet => 1 | CNext _ => 2 | CWrap _ => 3 | CCount _ => 4 end.

Lemma consumer_progress n c c' : ok n c → consumer c = Ok c' →
  sent c' = sent c ∧ (left_to_do c' = left_to_do c - 1)%nat.
Proof.
  intros Hok Hs. pose proof (ok_bounds _ _ Hok) as Hb. pose proof (ok_cons _ _ Hok) as Hg.
  pose proof (ok_count _ _ Hok) as Hc. unfold consumer, left_to_do in *.
  destruct (cons_ c) as [| |x|x|x] eqn:E; cbn in Hs.
  - unfold RingBuffer_IsEmpty, RingBuffer_GetCount in Hs. rewrite Hc in Hs.
    destruct (Z.eqb_spec (Z.of_nat (length (sent c) - length (got c))) 0) as [Hz|Hz]; injection Hs as <-; cbn;
      rewrite ?E; split; try done; lia.
  - apply res_bind_Ok_inv in Hs as (s & _ & [= <-]). cbn. split; [done|lia].
  - injection Hs as <-. cbn. split; [done|lia].
  - injection Hs as <-. cbn. split; [done|lia].
  - injection Hs as <-. cbn. specialize (Hg ltac:(done)). rewrite length_app; cbn. split; [done|lia].
Qed.

Lemma drain n k : (0 < n)%nat → Z.of_nat n < 65536 → ∀ c, ok n c → (left_to_do c ≤ k)%nat →
  ∃ c', run (replicate k Consumer) c = Ok c' ∧ ok n c' ∧ sent c' = sent c ∧ left_to_do c' = 0%nat.
Proof.
  intros Hn H16. induction k as [|k IH]; intros c Hok Hk; [exists c; split_and!; try done; lia|]. cbn.
  destruct (consumer_ok n Hn H16 c Hok) as (c1 & Hs & Hok1). rewrite Hs. cbn.
  destruct (consumer_progress n c c1 Hok Hs) as [H1 H2].
  destruct (IH c1 Hok1 ltac:(lia)) as (c2 & Hr & Hok2 & H3 & H4). exists c2. rewrite Hr.
  split_and!; [done|done|congruence|done].
Qed.

Lemma run_app l1 l2 c : run (l1 ++ l2) c = (run l1 c ≫= run l2).
Proof.
  revert c. induction l1 as [|t l1 IH]; intros c; [done|]. cbn. destruct (step t c); [|done].
  rewrite !res_bind_Ok. apply IH.
Qed.

(** C19: Over every interleaving of the accesses of one thread that inserts and
    one that removes, the ring buffer implements a bounded queue: no access
    leaves the storage, there is a run of the queue with just the insertions
    and removals that have ended, in their order, and RingBuffer_GetCount and
    RingBuffer_GetFreeCount are the length of the queue and the room left. *)
Theorem ring_buffer_fifo n data schedule :
  (0 < n)%nat → Z.of_nat n < 65536 → length data = n →
  ∃ c tr q,
    run schedule (start data n) = Ok c ∧
    qrun n [] tr q ∧ ins tr = sent c ∧ outs tr = got c ∧
    RingBuffer_GetCount (ringof c) = Z.of_nat (length q) ∧
    RingBuffer_GetFreeCount (ringof c) = Z.of_nat n - Z.of_nat (length q).
Proof.
  intros Hn H16 Hl. destruct (run_ok n Hn H16 schedule _ (start_ok n Hn H16 data Hl)) as (c & Hr & Hok).
  destruct (run_refines n [] schedule Hn H16 (start data n) c []) as (tr & Hq & Hi & Ho);
    [by apply start_ok|constructor|done|done|done|].
  exists c, tr, (contents c). split_and!; [done..| |]; unfold RingBuffer_GetFreeCount, RingBuffer_GetCount, contents;
    rewrite (ok_count _ _ Hok), length_drop; [done|].
  rewrite (ok_size _ _ Hok). pose proof (ok_bounds _ _ Hok). unfold u16. apply Z.mod_small. lia.
Qed.

(** C24: Nothing that was inserted stays behind: whatever the two threads have
    done, five accesses of the consumer per place of the buffer deliver every
    byte whose insertion has ended, in order. *)
Theorem ring_buffer_drains n data schedule :
  (0 < n)%nat → Z.of_nat n < 65536 → length data = n →
  ∃ c c',
    run schedule (start data n) = Ok c ∧
    run (schedule ++ replicate (5 * n) Consumer) (start data n) = Ok c' ∧
    sent c' = sent c ∧ got c' = sent c ∧ RingBuffer_IsEmpty (ringof c') = true.
Proof.
  intros Hn H16 Hl. destruct (run_ok n Hn H16 schedule _ (start_ok n Hn H16 data Hl)) as (c & Hr & Hok).
  pose proof (ok_bounds _ _ Hok) as Hb.
  destruct (drain n (5 * n) Hn H16 c Hok) as (c' & Hr' & Hok' & Hs & H0).
  { unfold left_to_do. lia. }
  exists c, c'. rewrite run_app, Hr. split; [done|]. split; [done|]. split; [done|].
  pose proof (ok_bounds _ _ Hok') as Hb'. pose proof (ok_cons _ _ Hok') as Hc'.
  assert (length (got c') = length (sent c')) as Hlen.
  { unfold left_to_do in H0. destruct (cons_ c'); try specialize (Hc' ltac:(done)); lia. }
  split.
  - rewrite <- Hs. destruct (ok_prefix _ _ Hok') as [k Hk]. rewrite Hk in Hlen |- *. rewrite length_app in Hlen.
    destruct k; [by rewrite app_nil_r|cbn in Hlen; lia].
  - unfold RingBuffer_IsEmpty, RingBuffer_GetCount. rewrite (ok_count _ _ Hok'), Hlen, Nat.sub_diag. done.
Qed.

(** A byte is removed while the next one is being inserted. *)
Definition overlapping : list turn :=
  replicate 5 (Producer 72) ++ [Producer 69; Consumer; Producer 69; Consumer; Consumer; Producer 69; Consumer;
    Producer 69; Consumer; Producer 69].

Lemma ring_buffer_fifo_witness : ∃ c tr q,
  run overlapping (start [0; 0] 2) = Ok c ∧ qrun 2 [] tr q ∧ ins tr = sent c ∧ outs tr = got c ∧
  RingBuffer_GetCount (ringof c) = Z.of_nat (length q) ∧
  RingBuffer_GetFreeCount (ringof c) = 2 - Z.of_nat (length q).
Proof. apply (ring_buffer_fifo 2 [0; 0] overlapping); [lia|lia|reflexivity]. Defined.

Lemma ring_buffer_drains_witness : ∃ c c',
  run overlapping (start [0; 0] 2) = Ok c ∧
  run (overlapping ++ replicate 10 Consumer) (start [0; 0] 2) = Ok c' ∧
  sent c' = sent c ∧ got c' = sent c ∧ RingBuffer_IsEmpty (ringof c') = true.
Proof. apply (ring_buffer_drains 2 [0; 0] overlapping); [lia|lia|reflexivity]. Defined.

(** The run: two bytes have gone in, one has come out. *)
Lemma overlapping_run : ∃ c, run overlapping (start [0; 0] 2) = Ok c ∧ sent c = [72; 69] ∧ got c = [72].
Proof. eexists. split; [vm_compute; reflexivity|done]. Qed.

End Ring.
