(* ===== verification/HidClass.v ===== *)
(** * The HID class driver

    HIDClassDevice.c and HIDClassDevice.h of LUFA: a HID interface of a device
    answers the class requests of the host and sends its input report when it
    has changed or the idle period is over.  The interface structure is passed
    to the functions and returned by them; the callbacks of the application are
    parameters and leave the structure as it is, and no interrupt changes it
    while a function runs. *)

From S2P Require Import Prelude Avr UsbRegs UsbEndpoint UsbController UsbStream UsbDescriptors.
From S2P Require Import UsbRequests UsbCdc UsbHw UsbSerial UsbControl.
From stdpp Require Import gmap.

Module HidDevice.

Record USB_ClassInfo_HID_Device_t := mk_hid {
  InterfaceNumber : Z;
  ReportINEndpoint : USB_Endpoint_Table_t;
  PrevReportINBuffer : option (list Z);
  PrevReportINBufferSize : nat;
  UsingReportProtocol : bool;
  PrevFrameNum : Z;
  IdleCount : Z;
  IdleMSRemaining : Z
}.

Definition HID_REQ_GetReport : Z := 0x01.
Definition HID_REQ_GetIdle : Z := 0x02.
Definition HID_REQ_GetProtocol : Z := 0x03.
Definition HID_REQ_SetReport : Z := 0x09.
Definition HID_REQ_SetIdle : Z := 0x0A.
Definition HID_REQ_SetProtocol : Z := 0x0B.
Definition REPORT_ITEM_In : Z := 0.

Abbreviation hid := USB_ClassInfo_HID_Device_t.

Definition with_prev (b : option (list Z)) (h : hid) : hid :=
  mk_hid (InterfaceNumber h) (ReportINEndpoint h) b (PrevReportINBufferSize h)
    (UsingReportProtocol h) (PrevFrameNum h) (IdleCount h) (IdleMSRemaining h).
Definition with_protocol (b : bool) (h : hid) : hid :=
  mk_hid (InterfaceNumber h) (ReportINEndpoint h) (PrevReportINBuffer h) (PrevReportINBufferSize h)
    b (PrevFrameNum h) (IdleCount h) (IdleMSRemaining h).
Definition with_frame (f : Z) (h : hid) : hid :=
  mk_hid (InterfaceNumber h) (ReportINEndpoint h) (PrevReportINBuffer h) (PrevReportINBufferSize h)
    (UsingReportProtocol h) f (IdleCount h) (IdleMSRemaining h).
Definition with_idle (i : Z) (h : hid) : hid :=
  mk_hid (InterfaceNumber h) (ReportINEndpoint h) (PrevReportINBuffer h) (PrevReportINBufferSize h)
    (UsingReportProtocol h) (PrevFrameNum h) i (IdleMSRemaining h).
Definition with_remaining (i : Z) (h : hid) : hid :=
  mk_hid (InterfaceNumber h) (ReportINEndpoint h) (PrevReportINBuffer h) (PrevReportINBufferSize h)
    (UsingReportProtocol h) (PrevFrameNum h) (IdleCount h) i.

(** [memset(&State, 0, ...)] and the defaults. *)
Definition reset_hid (h : hid) : hid :=
  mk_hid (InterfaceNumber h) (with_type EP_TYPE_INTERRUPT (ReportINEndpoint h)) (PrevReportINBuffer h)
    (PrevReportINBufferSize h) true 0 500 0.

(** A report of the application: whether to send it at once, its ID, the buffer
    and the number of bytes. *)
Record created := mk_created { cr_force : bool; cr_id : Z; cr_data : list Z; cr_size : Z }.

(** [CALLBACK_HID_Device_CreateHIDReport], which fills the cleared buffer, and
    [CALLBACK_HID_Device_ProcessHIDReport]. *)
Class HidApp (D : Type) := {
  CreateHIDReport : hid → Z → Z → list Z → IO (ust D) created;
  ProcessHIDReport : hid → Z → Z → list Z → Z → IO (ust D) unit
}.

(** [memcpy(PrevReportINBuffer, ReportData, PrevReportINBufferSize)] *)
Definition copy_report (data : list Z) (h : hid) : res hid :=
  match PrevReportINBuffer h with
  | None => Ok h
  | Some b =>
      let n := PrevReportINBufferSize h in
      if bool_decide (n ≤ length b ∧ n ≤ length data) then Ok (with_prev (Some (write_at b 0 (take n data))) h)
      else Err OutOfBounds
  end.

(** [memcmp(ReportINData, PrevReportINBuffer, ReportINSize) != 0], false
    without a buffer. *)
Definition report_changed (data : list Z) (size : Z) (h : hid) : res bool :=
  match PrevReportINBuffer h with
  | None => Ok false
  | Some b =>
      let n := Z.to_nat size in
      if bool_decide (n ≤ length b ∧ n ≤ length data) then Ok (bool_decide (take n data ≠ take n b))
      else Err OutOfBounds
  end.

Section Code.
Context `{Ucu D, !GenEvents D, !HidApp D} (fuel : nat).
(** The contents of [ReportData] in a SetReport request before it is read. *)
Context (junk : nat → list Z).

Abbreviation St := (ust D).

Definition write_id (id : Z) : IO St unit :=
  if bool_decide (id ≠ 0%Z) then Endpoint_Write_8 id else mret tt.

Definition hid_get_report (r : USB_Request_Header_t) (h : hid) : IO St hid :=
  let ReportID := Z.land (wValue r) 0xFF in
  let ReportType := u8 (Z.shiftr (wValue r) 8 - 1) in
  c ← CreateHIDReport h ReportID ReportType (replicate (PrevReportINBufferSize h) 0%Z);
  h ← pure (copy_report (cr_data c) h);
  Endpoint_SelectEndpoint ENDPOINT_CONTROLEP;;
  Endpoint_ClearSETUP;;
  write_id (cr_id c);;
  Endpoint_Write_Control_Stream_LE fuel (cr_data c) (cr_size c);;
  Endpoint_ClearOUT;;
  mret h.

Definition hid_set_report (r : USB_Request_Header_t) (h : hid) : IO St hid :=
  let ReportSize := wLength r in
  let ReportID := Z.land (wValue r) 0xFF in
  let ReportType := u8 (Z.shiftr (wValue r) 8 - 1) in
  Endpoint_ClearSETUP;;
  '(_, data) ← Endpoint_Read_Control_Stream_LE fuel (junk (Z.to_nat ReportSize)) ReportSize;
  Endpoint_ClearIN;;
  let skip := if bool_decide (ReportID ≠ 0%Z) then 1 else 0 in
  ProcessHIDReport h ReportID ReportType (drop skip data) (u16 (ReportSize - Z.of_nat skip));;
  mret h.

(** One byte for the host. *)
Definition hid_answer (x : Z) (h : hid) : IO St hid :=
  Endpoint_ClearSETUP;;
  wait_in fuel;;
  Endpoint_Write_8 x;;
  Endpoint_ClearIN;;
  Endpoint_ClearStatusStage fuel;;
  mret h.

Definition hid_get_protocol (h : hid) : IO St hid :=
  hid_answer (if UsingReportProtocol h then 1 else 0) h.
Definition hid_get_idle (h : hid) : IO St hid := hid_answer (Z.shiftr (IdleCount h) 2) h.

Definition hid_set_protocol (r : USB_Request_Header_t) (h : hid) : IO St hid :=
  Endpoint_ClearSETUP;;
  Endpoint_ClearStatusStage fuel;;
  mret (with_protocol (bool_decide (Z.land (wValue r) 0xFF ≠ 0%Z)) h).

Definition hid_set_idle (r : USB_Request_Header_t) (h : hid) : IO St hid :=
  Endpoint_ClearSETUP;;
  Endpoint_ClearStatusStage fuel;;
  mret (with_idle (Z.shiftr (Z.land (wValue r) 0xFF00) 6) h).

Definition HID_Device_ProcessControlRequest (h : hid) : IO St hid :=
  b ← Endpoint_IsSETUPReceived;
  if negb b then mret h
  else
    r ← request;
    if bool_decide (wIndex r ≠ InterfaceNumber h) then mret h
    else
      let asks dir := bool_decide (bmRequestType r = reqtype dir REQTYPE_CLASS REQREC_INTERFACE) in
      if bool_decide (bRequest r = HID_REQ_GetReport) then
        if asks REQDIR_DEVICETOHOST then hid_get_report r h else mret h
      else if bool_decide (bRequest r = HID_REQ_SetReport) then
        if asks REQDIR_HOSTTODEVICE then hid_set_report r h else mret h
      else if bool_decide (bRequest r = HID_REQ_GetProtocol) then
        if asks REQDIR_DEVICETOHOST then hid_get_protocol h else mret h
      else if bool_decide (bRequest r = HID_REQ_SetProtocol) then
        if asks REQDIR_HOSTTODEVICE then hid_set_protocol r h else mret h
      else if bool_decide (bRequest r = HID_REQ_SetIdle) then
        if asks REQDIR_HOSTTODEVICE then hid_set_idle r h else mret h
      else if bool_decide (bRequest r = HID_REQ_GetIdle) then
        if asks REQDIR_DEVICETOHOST then hid_get_idle h else mret h
      else mret h.

Definition HID_Device_ConfigureEndpoints (h : hid) : IO St (bool * hid) :=
  let h := reset_hid h in
  ok ← Endpoint_ConfigureEndpointTable fuel [ReportINEndpoint h];
  mret (ok, h).

Definition HID_Device_MillisecondElapsed (h : hid) : hid :=
  if bool_decide (IdleMSRemaining h ≠ 0%Z) then with_remaining (IdleMSRemaining h - 1) h else h.

(** The report goes to the endpoint, which is selected. *)
Definition transmit (c : created) (h : hid) : IO St unit :=
  Endpoint_SelectEndpoint (Address (ReportINEndpoint h));;
  write_id (cr_id c);;
  Endpoint_Write_Stream_LE fuel (cr_data c) (cr_size c) None;;
  Endpoint_ClearIN.

(** The task behind its guards. *)
Definition hid_report (h : hid) : IO St hid :=
  Endpoint_SelectEndpoint (Address (ReportINEndpoint h));;
  rw ← Endpoint_IsReadWriteAllowed;
  if rw : bool then
    c ← CreateHIDReport h 0 REPORT_ITEM_In (replicate (PrevReportINBufferSize h) 0%Z);
    let IdlePeriodElapsed := bool_decide (IdleCount h ≠ 0%Z) && bool_decide (IdleMSRemaining h = 0%Z) in
    StatesChanged ← pure (report_changed (cr_data c) (cr_size c) h);
    h ← pure (copy_report (cr_data c) h);
    h ← (if bool_decide (cr_size c ≠ 0%Z) && (cr_force c || StatesChanged || IdlePeriodElapsed) then
           let h := with_remaining (IdleCount h) h in
           transmit c h;; mret h
         else mret h);
    f ← USB_Device_GetFrameNumber;
    mret (with_frame f h)
  else mret h.

Definition HID_Device_USBTask (h : hid) : IO St hid :=
  st ← read_DeviceState fuel;
  if bool_decide (st ≠ DEVICE_STATE_Configured) then mret h
  else
    f ← USB_Device_GetFrameNumber;
    if bool_decide (PrevFrameNum h = f) && negb (opt USB_DEVICE_OPT_LOWSPEED) then mret h
    else hid_report h.
End Code.

(** ** The settings of the host *)

Section Settings.
Context `{CtrlHw D, !GenEvents D, !HidApp D} (fuel : nat) (junk : nat → list Z).

Ltac next E := rewrite (io_bind_Ok _ _ _ _ _ E); clear E.

(** The stack has received a class request [q] of [type] for the interface. *)
Definition asked (type q : Z) (h : hid) (g : usbg) : Prop :=
  USB_DeviceState g ≠ DEVICE_STATE_Unattached ∧
  let r := USB_ControlRequest g in
  bmRequestType r = type ∧ bRequest r = q ∧ wIndex r = InterfaceNumber h ∧ is_u16 (wValue r).

(** The driver's dispatch of these requests. *)
Definition handlers (h : hid) (g : usbg) : list (Z * Z * IO (ust D) hid) :=
  [(0xA1%Z, HID_REQ_GetProtocol, hid_get_protocol fuel h);
   (0xA1%Z, HID_REQ_GetIdle, hid_get_idle fuel h);
   (0x21%Z, HID_REQ_SetProtocol, hid_set_protocol fuel (USB_ControlRequest g) h);
   (0x21%Z, HID_REQ_SetIdle, hid_set_idle fuel (USB_ControlRequest g) h)].

Lemma hid_dispatch (handler : IO (ust D) hid) (s : ust D) g c h type q :
  at_c s g c → is_setup (c_stage c) = true → asked type q h g →
  (type, q, handler) ∈ handlers h g →
  ∃ s' w, HID_Device_ProcessControlRequest fuel junk h s = handler s' ∧ at_c s' g (c_tick w c).
Proof.
  intros Hs Hst (_ & Ht & Hq & Hi & _) Hin. destruct (c_IsSETUP _ _ _ Hs) as (s1 & w & E1 & _ & Hs1).
  exists s1, w. split; [|done]. unfold HID_Device_ProcessControlRequest. next E1. rewrite Hst. cbn [negb].
  rewrite (io_bind_Ok _ _ _ _ _ (c_request _ _ _ Hs1)). cbn zeta.
  rewrite bool_decide_false by (by intros ?). rewrite Hq, Ht.
  by repeat (apply elem_of_cons in Hin as [[= -> -> ->]|Hin]; [reflexivity|]); apply elem_of_nil in Hin.
Qed.

(** A setting is taken after the status stage. *)
Lemma hid_set_runs (f : hid → hid) (s : ust D) g c h :
  at_c s g c → c_stage c = Setup NoData → USB_DeviceState g ≠ DEVICE_STATE_Unattached →
  bmRequestType (USB_ControlRequest g) = 0x21%Z → clat < fuel →
  ∃ s' w, (Endpoint_ClearSETUP;; Endpoint_ClearStatusStage fuel;; mret (f h)) s = Ok (f h, s') ∧
    at_c s' g (c_move Idle w [] (c_got c) c).
Proof.
  intros Hs Hst Hu Ht Hf.
  destruct (c_ClearSETUP _ _ _ Hs) as (s1 & w1 & Hw1 & E1 & Hs1); [by rewrite Hst|]. next E1.
  unfold c_accept in Hs1. rewrite Hst in Hs1.
  destruct (c_status_in fuel _ _ _ Hs1) as (s2 & w2 & E2 & _ & Hs2);
    [done|by rewrite Ht|done|change (w1 < fuel); lia|]. next E2. by exists s2, w2.
Qed.

(** One byte reaches the host. *)
Lemma hid_answer_runs x (s : ust D) g c h n :
  at_c s g c → c_stage c = Setup (Fetch n) → USB_DeviceState g ≠ DEVICE_STATE_Unattached →
  bmRequestType (USB_ControlRequest g) = 0xA1%Z → clat < fuel → is_u8 x →
  ∃ s' w, hid_answer fuel x h s = Ok (h, s') ∧ at_c s' g (c_move Idle w [] (c_got c ++ [[x]]) c).
Proof.
  intros Hs Hst Hu Ht Hf Hx. unfold hid_answer.
  destruct (c_ClearSETUP _ _ _ Hs) as (s1 & w1 & Hw1 & E1 & Hs1); [by rewrite Hst|]. next E1.
  unfold c_accept in Hs1. rewrite Hst in Hs1.
  destruct (c_wait_in fuel _ _ _ Hs1) as (s2 & E2 & Hs2); [done|cbn [c_move c_wait]; lia|]. next E2.
  destruct (c_Write_8 _ _ _ n x Hs2) as (s3 & E3 & Hs3); [done|done|unfold c_size; cbn; lia|done|]. next E3.
  destruct (c_ClearIN _ _ _ Hs3) as (s4 & w4 & Hw4 & E4 & Hs4); [done|done|]. next E4.
  unfold c_fetch in Hs4. cbn [c_load c_move c_tick c_stage c_bank c_got] in Hs4.
  rewrite decide_True in Hs4 by (left; unfold c_size; cbn; lia).
  destruct (c_status_out_clear fuel _ _ _ Hs4) as (s5 & w5 & E5 & _ & Hs5);
    [done|by rewrite Ht|done|change (w4 < fuel); lia|]. next E5. by exists s5, w5.
Qed.

(** The idle rate is kept in milliseconds, the host counts in units of four. *)
Lemma idle_rate v : is_u16 v → Z.shiftr (Z.land v 0xFF00) 6 = (4 * (v / 256))%Z.
Proof.
  intros Hv. unfold is_u16 in Hv. replace (Z.land v 0xFF00) with (Z.shiftl (Z.shiftr v 8) 8).
  { rewrite Z.shiftr_shiftl_l, Z.shiftr_div_pow2, Z.shiftl_mul_pow2 by lia.
    change (2 ^ (8 - 6))%Z with 4%Z. change (2 ^ 8)%Z with 256%Z. lia. }
  rewrite <- Z.ldiff_ones_r by lia. apply Z.bits_inj'. intros i Hi. rewrite Z.ldiff_spec, Z.land_spec.
  destruct (decide (i < 8)%Z); [|destruct (decide (i < 16)%Z)].
  - rewrite Z.ones_spec_low by lia. change 0xFF00%Z with (Z.shiftl (Z.ones 8) 8).
    by rewrite Z.shiftl_spec_low by lia.
  - rewrite Z.ones_spec_high by lia. change 0xFF00%Z with (Z.shiftl (Z.ones 8) 8).
    by rewrite Z.shiftl_spec, Z.ones_spec_low by lia.
  - by rewrite <- (Z.mod_small v (2 ^ 16)), Z.mod_pow2_bits_high by lia.
Qed.

(** A request that sets, the one that reads back, the interface afterwards and
    the byte of the answer. *)
Definition settings (v : Z) (h : hid) : list (Z * Z * hid * Z) :=
  [(HID_REQ_SetIdle, HID_REQ_GetIdle, with_idle (4 * (v / 256)) h, v / 256);
   (HID_REQ_SetProtocol, HID_REQ_GetProtocol, with_protocol (bool_decide (v `mod` 256 ≠ 0)) h,
    if bool_decide (v `mod` 256 = 0) then 0 else 1)]%Z.

Lemma hid_setting q a h h' x g : asked 0x21 q h g → (q, a, h', x) ∈ settings (wValue (USB_ControlRequest g)) h →
  ∃ fset fget, (0x21%Z, q, fset) ∈ handlers h g ∧ (∀ g2, (0xA1%Z, a, fget) ∈ handlers h' g2) ∧
    fset = (Endpoint_ClearSETUP;; Endpoint_ClearStatusStage fuel;; mret h') ∧
    fget = hid_answer fuel x h' ∧ is_u8 x.
Proof.
  intros (_ & _ & _ & _ & Hv) Hin. set (v := wValue (USB_ControlRequest g)) in *.
  assert (0 ≤ v / 256 < 256)%Z as Hd.
  { unfold is_u16 in Hv. split; [apply Z.div_pos|apply Z.div_lt_upper_bound]; lia. }
  apply elem_of_cons in Hin as [[= -> -> -> ->]|[[= -> -> -> ->]|[]%elem_of_nil]%elem_of_cons].
  - exists (hid_set_idle fuel (USB_ControlRequest g) h), (hid_get_idle fuel (with_idle (4 * (v / 256)) h)).
    do 2 (split; [unfold handlers; set_solver|]). unfold hid_set_idle, hid_get_idle. fold v.
    rewrite idle_rate by done. split; [done|]. split; [|done]. f_equal. cbn [with_idle IdleCount].
    rewrite Z.shiftr_div_pow2, Z.mul_comm by lia. by apply Z.div_mul.
  - exists (hid_set_protocol fuel (USB_ControlRequest g) h), (hid_get_protocol fuel (with_protocol (bool_decide (v `mod` 256 ≠ 0)%Z) h)).
    do 2 (split; [unfold handlers; set_solver|]). unfold hid_set_protocol, hid_get_protocol. fold v.
    change 0xFF%Z with (Z.ones 8). rewrite Z.land_ones by lia. split; [done|].
    cbn [with_protocol UsingReportProtocol]. change (2 ^ 8)%Z with 256%Z. rewrite bool_decide_not.
    split; [by case_bool_decide|]. by case_bool_decide.
Qed.

(** C26: what the host sets it reads back.  A SetIdle or SetProtocol transfer
    changes this one setting of the interface (the idle rate in the high byte
    of [wValue] counts units of four milliseconds) and is acknowledged; a later
    GetIdle or GetProtocol answers with the value that was set, in one byte,
    and changes nothing. *)
Theorem hid_settings_round_trip (s : ust D) g c h q a h' x :
  at_c s g c → c_stage c = Setup NoData → asked 0x21 q h g →
  (q, a, h', x) ∈ settings (wValue (USB_ControlRequest g)) h → clat < fuel →
  (∃ s' w, HID_Device_ProcessControlRequest fuel junk h s = Ok (h', s') ∧
     at_c s' g (c_move Idle w [] (c_got c) c)) ∧
  ∀ (s2 : ust D) g2 c2 n, at_c s2 g2 c2 → c_stage c2 = Setup (Fetch n) → asked 0xA1 a h' g2 →
    ∃ s3 w, HID_Device_ProcessControlRequest fuel junk h' s2 = Ok (h', s3) ∧
      at_c s3 g2 (c_move Idle w [] (c_got c2 ++ [[x]]) c2).
Proof.
  intros Hs Hst Hq Hin Hf. destruct (hid_setting _ _ _ _ _ _ Hq Hin) as (fset & fget & Hset & Hget & Hh & Hans & Hx).
  split.
  - destruct (hid_dispatch _ s g c h 0x21 q Hs ltac:(by rewrite Hst) Hq Hset) as (s1 & w1 & -> & Hs1).
    rewrite Hh. by apply (hid_set_runs (λ _, h') s1 g _ h Hs1); try apply Hq.
  - intros s2 g2 c2 n Hs2 Hst2 Ha.
    destruct (hid_dispatch _ s2 g2 c2 h' 0xA1 a Hs2 ltac:(by rewrite Hst2) Ha (Hget _)) as (s3 & w3 & -> & Hs3).
    rewrite Hans. by apply (hid_answer_runs x s3 g2 _ h' n Hs3); try apply Ha.
Qed.
End Settings.

(** ** The input reports *)

(** The buffer for the previous report has the size that is configured. *)
Definition hid_ok (h : hid) : Prop :=
  ∀ b, PrevReportINBuffer h = Some b → length b = PrevReportINBufferSize h.

(** The application fills the array it is given and stays within it. *)
Definition created_ok (h : hid) (c : created) : Prop :=
  length (cr_data c) = PrevReportINBufferSize h ∧ Forall is_u8 (cr_data c) ∧
  (0 ≤ cr_size c ≤ Z.of_nat (length (cr_data c)))%Z ∧ is_u8 (cr_id c).

(** What goes to the host: the ID, if there is one, and the report. *)
Definition report_bytes (c : created) : list Z :=
  (if bool_decide (cr_id c ≠ 0%Z) then [cr_id c] else []) ++ take (Z.to_nat (cr_size c)) (cr_data c).

Definition differs (h : hid) (c : created) : bool :=
  match PrevReportINBuffer h with
  | Some b => bool_decide (take (Z.to_nat (cr_size c)) (cr_data c) ≠ take (Z.to_nat (cr_size c)) b)
  | None => false
  end.

(** A report is due when the application insists, when it is not the previous
    one, or when the idle period is over. *)
Definition due (h : hid) (c : created) : bool :=
  bool_decide (cr_size c ≠ 0%Z) &&
  (cr_force c || differs h c || (bool_decide (IdleCount h ≠ 0%Z) && bool_decide (IdleMSRemaining h = 0%Z))).

Definition remembered (c : created) (h : hid) : hid :=
  match PrevReportINBuffer h with Some _ => with_prev (Some (cr_data c)) h | None => h end.

Lemma copy_report_runs h c : hid_ok h → created_ok h c → copy_report (cr_data c) h = Ok (remembered c h).
Proof.
  intros Hh (Hl & _). unfold copy_report, remembered. destruct (PrevReportINBuffer h) as [b|] eqn:E; [|done].
  specialize (Hh b E). rewrite bool_decide_true by lia. do 3 f_equal.
  rewrite take_ge by lia. by apply write_at_all; rewrite Hl.
Qed.

Lemma report_changed_runs h c : hid_ok h → created_ok h c →
  report_changed (cr_data c) (cr_size c) h = Ok (differs h c).
Proof.
  intros Hh (Hl & _ & Hz & _). unfold report_changed, differs.
  destruct (PrevReportINBuffer h) as [b|] eqn:E; [|done].
  specialize (Hh b E). by rewrite bool_decide_true by lia.
Qed.

(** The idle period: the milliseconds are counted down to zero and no further. *)
Lemma elapsed_iter k h : (0 ≤ IdleMSRemaining h)%Z →
  Nat.iter k HID_Device_MillisecondElapsed h = with_remaining (0 `max` (IdleMSRemaining h - Z.of_nat k))%Z h.
Proof.
  intros Hr. induction k as [|k IH].
  - rewrite Z.sub_0_r, Z.max_r by done. by destruct h.
  - cbn [Nat.iter nat_rect]. change (nat_rect _ _ _ k) with (Nat.iter k HID_Device_MillisecondElapsed h).
    rewrite IH. unfold HID_Device_MillisecondElapsed. cbn [with_remaining IdleMSRemaining].
    case_bool_decide; unfold with_remaining; cbn [InterfaceNumber ReportINEndpoint PrevReportINBuffer
      PrevReportINBufferSize UsingReportProtocol PrevFrameNum IdleCount IdleMSRemaining]; f_equal; lia.
Qed.

Section Reports.
Context `{UsbHw D, !GenEvents D, !HidApp D} (fuel size : nat).
Hypothesis (Hfuel : ulat < fuel) (Hlat : ulat ≤ 100) (Hsize : 0 < size).

Ltac next E := rewrite (io_bind_Ok _ _ _ _ _ E); clear E.

Definition in_number (h : hid) : Z := Z.land (Address (ReportINEndpoint h)) ENDPOINT_EPNUM_MASK.

Lemma frame_port n (s : ust D) g m e : port n s g m e →
  ∃ s', USB_Device_GetFrameNumber s = Ok ((ucu_read UDFNUM (u_hw s)).1, s') ∧ port n s' g m e.
Proof.
  intros (Hg & Hi & Hm). destruct (ucu_read UDFNUM (u_hw s)) as [x d] eqn:E.
  exists (mk_ust (u_glob s) d). split; [by apply rd_step|]. pose proof (udfnum_read _ _ _ E) as Hd.
  split_and!; [done|..]; cbn [u_hw]; by rewrite Hd.
Qed.

Lemma write_id_step (s : ust D) g v e data c : at_ep s g v e → in_ep size e data →
  ep_wait e = 0 → ep_bank e = [] → is_u8 (cr_id c) →
  ∃ s' e', write_id (cr_id c) s = Ok (tt, s') ∧ at_ep s' g v e' ∧ ep_sent e' = ep_sent e ∧
    in_ep size e' (data ++ if bool_decide (cr_id c ≠ 0%Z) then [cr_id c] else []).
Proof.
  intros Hs He Hw Hb Hid. unfold write_id. case_bool_decide.
  - destruct (Write_8_step size s g v e data (cr_id c)) as (s' & E & Hs' & He');
      [done..|by rewrite Hb|done|]. by exists s', (ep_fill (ep_bank e ++ [cr_id c]) e).
  - exists s, e. by rewrite app_nil_r.
Qed.

(** The packets of a report: full ones and a last one, which is not empty. *)
Definition report_packets (l : list Z) (ps : list (list Z)) : Prop :=
  mjoin ps = l ∧ ∃ full p, ps = full ++ [p] ∧ Forall (λ q, length q = size) full ∧ 0 < length p ≤ size.

Lemma transmit_run (s : ust D) g m e data c h :
  port (in_number h) s g m e → in_ep size e data → ep_wait e = 0 → ep_bank e = [] → configured g →
  created_ok h c → cr_size c ≠ 0%Z → 2 * PrevReportINBufferSize h + 1 < fuel → PrevReportINBufferSize h < 256 →
  ∃ s' e' ps, transmit fuel c h s = Ok (tt, s') ∧ port (in_number h) s' g m e' ∧
    ep_bank e' = [] ∧ ep_sent e' = ep_sent e ++ ps ∧ report_packets (report_bytes c) ps.
Proof.
  intros Hp He Hw Hb Hg (Hl & Hu & Hz & Hid) Hnz Hf H8. unfold transmit.
  destruct (port_select _ _ _ _ _ Hp) as (s1 & v & E1 & Hs1 & Hback). next E1.
  destruct (write_id_step _ _ _ _ _ c Hs1 He Hw Hb Hid) as (s2 & e2 & E2 & Hs2 & Hsent2 & He2). next E2.
  destruct (Write_Stream_in fuel size Hfuel Hlat Hsize _ _ _ _ _ (cr_data c) (Z.to_nat (cr_size c)) Hs2 He2 Hg Hu)
    as (s3 & e3 & E3 & Hs3 & He3 & (full & Hf3 & Hfull) & Hw3 & Hb3); [lia..|].
  rewrite Z2Nat.id in E3 by lia. next E3. specialize (Hb3 ltac:(lia)).
  destruct (ClearIN_step size _ _ _ _ _ Hs3 He3) as (s4 & e4 & E4 & Hs4 & He4 & Hb4 & Hsent4).
  specialize (Hsent4 Hw3). rewrite Hf3, Hsent2, <- app_assoc in Hsent4.
  exists s4, e4, (full ++ [ep_bank e3]). split_and!; [done|by apply Hback|done|exact Hsent4|].
  split.
  - pose proof (in_data _ _ _ He4) as Hd. rewrite Hsent4, Hb4, app_nil_r, join_app, <- app_assoc in Hd.
    rewrite <- (in_data _ _ _ He), Hb, app_nil_r in Hd. by apply app_inv_head in Hd.
  - exists full, (ep_bank e3). split_and!; [done|done|by destruct (ep_bank e3); [|cbn; lia]|by destruct He3].
Qed.

(** The callback makes the report [c] and leaves the controller alone. *)
Definition creates (h : hid) (c : created) (g : usbg) (m : gmap Z ep) (e : ep) : Prop :=
  ∀ s : ust D, port (in_number h) s g m e →
  ∃ s', CreateHIDReport h 0 REPORT_ITEM_In (replicate (PrevReportINBufferSize h) 0%Z) s = Ok (c, s') ∧
    port (in_number h) s' g m e.

(** The interface after a report: sent or not, it is remembered. *)
Definition after_report (f : Z) (c : created) (h : hid) : hid :=
  with_frame f (with_remaining (if due h c then IdleCount h else IdleMSRemaining h) (remembered c h)).

(** What a task sends: the report if it is due, else nothing at all. *)
Definition sends (h : hid) (c : created) (e e' : ep) : Prop :=
  if due h c then ∃ ps, ep_sent e' = ep_sent e ++ ps ∧ report_packets (report_bytes c) ps
  else ep_sent e' = ep_sent e.

(** The endpoint of the interface is idle in a configured device, and the
    application has report [c]. *)
Definition polled (s : ust D) g m e data c h : Prop :=
  port (in_number h) s g m e ∧ in_ep size e data ∧ ep_bank e = [] ∧ configured g ∧
  hid_ok h ∧ created_ok h c ∧ creates h c g m e ∧
  2 * PrevReportINBufferSize h + 1 < fuel ∧ PrevReportINBufferSize h < 256.

Lemma hid_report_run (s : ust D) g m e data c h :
  polled s g m e data c h → ep_wait e = 0 →
  ∃ s' f e', hid_report fuel h s = Ok (after_report f c h, s') ∧ port (in_number h) s' g m e' ∧
    sends h c e e' ∧ ep_bank e' = [].
Proof.
  intros (Hp & He & Hb & Hg & Hh & Hc & Hcr & Hf & H8) Hw. unfold hid_report.
  destruct (port_select _ _ _ _ _ Hp) as (s1 & v & E1 & Hs1 & Hback). next E1.
  destruct (IsReadWriteAllowed_look _ _ _ _ Hs1) as (s2 & w & E2 & Hw2 & Hs2). next E2.
  assert (ep_rwal e = true) as ->.
  { unfold ep_rwal, ep_mine. rewrite (in_dir _ _ _ He), (in_size _ _ _ He), Hb, Hw. cbn. by destruct size; [lia|]. }
  replace (ep_tick w e) with e in Hs2 by (symmetry; replace w with 0 by lia; by apply tick_here).
  destruct (Hcr s2 (Hback _ _ Hs2)) as (s3 & E3 & Hp3). next E3. cbn zeta.
  rewrite (report_changed_runs h c), io_bind_pure, (copy_report_runs h c), io_bind_pure by done.
  change (bool_decide (cr_size c ≠ 0%Z) && _) with (due h c).
  assert (∃ s4 e4, (if due h c then let h := with_remaining (IdleCount (remembered c h)) (remembered c h) in
        transmit fuel c h;; mret h else mret (remembered c h)) s3
      = Ok (with_remaining (if due h c then IdleCount h else IdleMSRemaining h) (remembered c h), s4) ∧
    port (in_number h) s4 g m e4 ∧ sends h c e e4 ∧ ep_bank e4 = []) as (s4 & e4 & E4 & Hp4 & He4 & Hb4).
  { unfold sends. destruct (due h c) eqn:Hdue.
    - apply andb_true_iff in Hdue as [Hnz%bool_decide_eq_true _].
      destruct (transmit_run s3 g m e data c
        (with_remaining (IdleCount (remembered c h)) (remembered c h))) as (s4 & e4 & ps & E4 & Hp4 & Hb4 & Hps);
        try by unfold remembered, in_number in *; destruct (PrevReportINBuffer h).
      exists s4, e4. cbn zeta. next E4. split; [by unfold remembered; destruct (PrevReportINBuffer h)|].
      split_and!; [by unfold remembered, in_number in *; destruct (PrevReportINBuffer h)|by exists ps|done].
    - exists s3, e. split_and!; try done. unfold remembered.
      by destruct h, (PrevReportINBuffer _). }
  next E4. destruct (frame_port _ _ _ _ _ Hp4) as (s5 & E5 & Hp5). next E5. by eexists s5, _, e4.
Qed.

Lemma hid_report_busy (s : ust D) g m e data h :
  port (in_number h) s g m e → in_ep size e data → ep_wait e ≠ 0 →
  ∃ s' w, hid_report fuel h s = Ok (h, s') ∧ port (in_number h) s' g m (ep_tick w e).
Proof.
  intros Hp He Hw. unfold hid_report.
  destruct (port_select _ _ _ _ _ Hp) as (s1 & v & E1 & Hs1 & Hback). next E1.
  destruct (IsReadWriteAllowed_look _ _ _ _ Hs1) as (s2 & w & E2 & Hw2 & Hs2). next E2.
  exists s2, w. split; [|by apply Hback]. unfold ep_rwal, ep_mine. rewrite (in_dir _ _ _ He).
  by replace (ep_wait e =? 0) with false by (symmetry; by apply Nat.eqb_neq).
Qed.

Lemma state_port n (s : ust D) g m e : port n s g m e → configured g →
  ∃ s', read_DeviceState fuel s = Ok (DEVICE_STATE_Configured, s') ∧ u_hw s' = (ucu_irqs (u_hw s)).2 ∧
    port n s' g m e.
Proof.
  intros (Hg & Hi & Hm) Hc. destruct (ucu_irqs (u_hw s)) as [k d] eqn:E.
  destruct (irqs_next _ _ _ E) as [Hk Hd]. unfold next_irqs in Hk, Hd. rewrite Hi in Hk, Hd.
  cbn [fst snd] in Hk, Hd. subst k. exists (mk_ust (u_glob s) d).
  split; [|split; [done|]; split_and!; cbn [u_glob u_hw]; congruence].
  unfold read_DeviceState. rewrite (io_bind_Ok pending _ s 0 (mk_ust (u_glob s) d)).
  - change (Ok (USB_DeviceState (u_glob s), mk_ust (u_glob s) d) = Ok (DEVICE_STATE_Configured, mk_ust (u_glob s) d)).
    by rewrite Hg, Hc.
  - unfold pending. by rewrite E.
Qed.

Definition new_frame (s : ust D) (h : hid) : Prop :=
  PrevFrameNum h ≠ (ucu_read UDFNUM (ucu_irqs (u_hw s)).2).1.

Lemma hid_task_run (s : ust D) g m e data c h :
  polled s g m e data c h →
  ∃ s' h' e', HID_Device_USBTask fuel h s = Ok (h', s') ∧ port (in_number h) s' g m e' ∧ ep_bank e' = [] ∧
    (new_frame s h ∧ ep_wait e = 0 ∧ sends h c e e' ∧ (∃ f, h' = after_report f c h) ∨
     (¬ new_frame s h ∨ ep_wait e ≠ 0) ∧ h' = h ∧ ep_sent e' = ep_sent e).
Proof.
  intros Hpo. pose proof Hpo as (Hp & He & Hb & Hg & _). unfold HID_Device_USBTask, new_frame.
  destruct (state_port _ _ _ _ _ Hp Hg) as (s1 & E1 & Hhw & Hp1). next E1.
  rewrite bool_decide_false by (by intros Hn).
  destruct (frame_port _ _ _ _ _ Hp1) as (s2 & E2 & Hp2). rewrite Hhw in E2. next E2.
  case_bool_decide as Hfr; cbn [andb].
  { exists s2, h, e. split_and!; try done. right. split; [left; by intros Hn|done]. }
  destruct (decide (ep_wait e = 0)) as [Hw|Hw].
  - destruct (hid_report_run s2 g m e data c h) as (s3 & f & e3 & E3 & Hp3 & He3 & Hb3);
      [split; [done|apply Hpo]|done|].
    eexists s3, _, e3. split_and!; [done|done|done|]. left. split_and!; [done|done|done|by exists f].
  - destruct (hid_report_busy s2 g m e data h) as (s3 & w & E3 & Hp3); [done..|].
    exists s3, h, (ep_tick w e). split_and!; [done|done|done|]. right. split; [by right|done].
Qed.

(** C25: the task of the HID driver.  In a new frame, with the endpoint free,
    the report goes to the host, with its ID in front, in full packets and a
    last one that is not empty, exactly when it is due: it has a size, and the
    application insists, or it differs from the previous one, or the idle
    period is over.  Otherwise no packet is sent.  The report is remembered for
    the next comparison, and the idle period starts again when it was sent.
    With the packet before still in the endpoint, or in the same frame, no
    packet is sent and the interface stays as it was. *)
Theorem hid_task_reports (s : ust D) g m e data c h :
  polled s g m e data c h →
  ∃ s' h' e', HID_Device_USBTask fuel h s = Ok (h', s') ∧ port (in_number h) s' g m e' ∧ ep_bank e' = [] ∧
    (new_frame s h ∧ ep_wait e = 0 →
       (if due h c then ∃ ps, ep_sent e' = ep_sent e ++ ps ∧ report_packets (report_bytes c) ps
        else ep_sent e' = ep_sent e) ∧
       ∃ f, h' = after_report f c h) ∧
    (¬ new_frame s h ∨ ep_wait e ≠ 0 → h' = h ∧ ep_sent e' = ep_sent e).
Proof.
  intros Hpo. destruct (hid_task_run _ _ _ _ _ _ _ Hpo) as (s' & h' & e' & E & Hp & Hb & Hc).
  exists s', h', e'. split_and!; [done|done|done|..].
  - intros [Hn Hw]. destruct Hc as [(_ & _ & Hs & Hf)|([?|?] & _)]; done.
  - intros Hn. destruct Hc as [(? & ? & _)|(_ & Hr)]; [by destruct Hn|done].
Qed.

(** The idle condition after [k] milliseconds, for the report that was sent. *)
Lemma due_again k f c c' h :
  due h c = true → (0 ≤ IdleCount h)%Z →
  cr_force c' = false → cr_data c' = cr_data c → cr_size c' = cr_size c →
  due (Nat.iter k HID_Device_MillisecondElapsed (after_report f c h)) c'
  = bool_decide (IdleCount h ≠ 0 ∧ IdleCount h ≤ Z.of_nat k)%Z.
Proof.
  intros Hd Hi Hf Hdat Hz. unfold after_report. rewrite Hd.
  assert (IdleCount (remembered c h) = IdleCount h) as Hir by (unfold remembered; by case_match).
  rewrite elapsed_iter by (cbn [with_frame with_remaining IdleMSRemaining]; done).
  set (h' := with_remaining _ _). assert (differs h' c' = false) as Hsame.
  { unfold differs. replace (PrevReportINBuffer h') with (PrevReportINBuffer (remembered c h)) by done.
    unfold remembered. destruct (PrevReportINBuffer h) as [b|] eqn:E; [|by rewrite E].
    cbn [with_prev PrevReportINBuffer]. rewrite Hdat. by apply bool_decide_false; intros []. }
  unfold due in *. apply andb_true_iff in Hd as [Hs _]. rewrite Hz, Hs, Hf, Hsame. cbn [andb orb].
  subst h'. cbn [with_frame with_remaining IdleCount IdleMSRemaining]. rewrite Hir.
  rewrite <- bool_decide_and. apply bool_decide_ext. lia.
Qed.

(** C27: an unchanged report is repeated once per idle period.  After a run of
    the task that sent a report, [k] calls of [HID_Device_MillisecondElapsed]
    and, with the endpoint free in a new frame, another run of the task with
    the same report: it is sent again when the idle rate is not zero and the
    milliseconds of the idle period have passed, and no packet is sent
    otherwise. *)
Theorem hid_idle_repeats k (s s1 s2 : ust D) g m e data c c' h h1 e1 g2 m2 e2 data2 :
  let h2 := Nat.iter k HID_Device_MillisecondElapsed h1 in
  polled s g m e data c h → (0 ≤ IdleCount h)%Z → HID_Device_USBTask fuel h s = Ok (h1, s1) →
  port (in_number h) s1 g m e1 → ep_sent e1 ≠ ep_sent e →
  polled s2 g2 m2 e2 data2 c' h2 → new_frame s2 h2 → ep_wait e2 = 0 →
  cr_force c' = false → cr_data c' = cr_data c → cr_size c' = cr_size c →
  ∃ s3 h3 e3, HID_Device_USBTask fuel h2 s2 = Ok (h3, s3) ∧ port (in_number h2) s3 g2 m2 e3 ∧
    if decide (IdleCount h ≠ 0 ∧ IdleCount h ≤ Z.of_nat k)%Z
    then ∃ ps, ep_sent e3 = ep_sent e2 ++ ps ∧ report_packets (report_bytes c') ps
    else ep_sent e3 = ep_sent e2.
Proof.
  intros h2 Hpo Hi E1 Hp1 Hne Hpo2 Hn2 Hw2 Hf Hd Hz.
  destruct (hid_task_run _ _ _ _ _ _ _ Hpo) as (s1' & h1' & e1' & E1' & Hp1' & _ & Hc).
  rewrite E1 in E1'. injection E1' as <- <-.
  assert (e1' = e1) as ->.
  { destruct Hp1 as (_ & _ & Hm1), Hp1' as (_ & _ & Hm1'). rewrite Hm1 in Hm1'.
    apply (f_equal (.!! in_number h)) in Hm1'. rewrite !lookup_insert_eq in Hm1'. by injection Hm1'. }
  destruct Hc as [(_ & _ & Hs & f & ->)|(_ & _ & ?)]; [|done].
  unfold sends in Hs. destruct (due h c) eqn:Hdue; [|done].
  destruct (hid_task_run _ _ _ _ _ _ _ Hpo2) as (s3 & h3 & e3 & E3 & Hp3 & _ & Hc3).
  exists s3, h3, e3. split; [done|]. split; [done|].
  destruct Hc3 as [(_ & _ & Hs3 & _)|([?|?] & _)]; [|done..].
  unfold sends in Hs3. unfold h2 in Hs3. rewrite (due_again k f c c' h) in Hs3 by done.
  by destruct (decide _) as [H1'|H1']; [rewrite bool_decide_true in Hs3|rewrite bool_decide_false in Hs3].
Qed.
End Reports.

(** ** The theorems at work *)

(** A keyboard whose application always has the same report. *)
Definition key_table : USB_Endpoint_Table_t := mk_table 0x83 8 EP_TYPE_INTERRUPT 1.
Definition keyboard (prev : list Z) : hid := mk_hid 0 key_table (Some prev) (length prev) true 7 500 500.
Definition key_press : created := mk_created false 0 [0; 0; 4; 0; 0; 0; 0; 0]%Z 8.

Definition quiet_events D : GenEvents D := {|
  EVENT_USB_Device_Connect := USB_Event_Stub; EVENT_USB_Device_Disconnect := USB_Event_Stub;
  EVENT_USB_Device_Suspend := USB_Event_Stub; EVENT_USB_Device_WakeUp := USB_Event_Stub;
  EVENT_USB_Device_Reset := USB_Event_Stub; EVENT_USB_Device_StartOfFrame := USB_Event_Stub |}.
Definition key_app D : HidApp D := {|
  CreateHIDReport _ _ _ _ := mret key_press; ProcessHIDReport _ _ _ _ _ := mret tt |}.

Definition hid_glob (r : USB_Request_Header_t) : usbg :=
  mk_usbg DEVICE_STATE_Configured 1 false false true r initial_interface 0 0.

(** 40 ms are set. *)
Lemma hid_settings_round_trip_witness :
  let r := mk_request 0x21 0x0A 0x0A00 0 0 in
  let s := mk_ust (hid_glob r) (mk_csim (mk_ctrl 0 (Setup NoData) 0 [] [] false 0 []) false) in
  let h := keyboard (replicate 8 0%Z) in
  ∃ s' w, HID_Device_ProcessControlRequest (GenEvents0 := quiet_events csim) (HidApp0 := key_app csim)
            10 (λ n, replicate n 0%Z) h s = Ok (with_idle 40 h, s') ∧
    at_c s' (hid_glob r) (c_move Idle w [] [] (cs_ctrl (u_hw s))).
Proof.
  intros r s h.
  apply (hid_settings_round_trip (GenEvents0 := quiet_events csim) (HidApp0 := key_app csim)
    10 (λ n, replicate n 0%Z) s (hid_glob r) (cs_ctrl (u_hw s)) h 0x0A 0x02 (with_idle 40 h) 10);
    [by split_and!|done|by split_and!|left|apply Nat.ltb_lt; reflexivity].
Defined.

(** The executable controller with a frame number. *)
Record fsim := mk_fsim { fs_usb : usbv; fs_frame : Z }.

#[local] Instance fsim_ucu : Ucu fsim := {|
  ucu_read r d :=
    match r with
    | UDFNUM => (fs_frame d, d)
    | _ => let '(x, v) := ucu_read r (fs_usb d) in (x, mk_fsim v (fs_frame d))
    end;
  ucu_write r x d := mk_fsim (ucu_write r x (fs_usb d)) (fs_frame d);
  ucu_irqs d := let '(n, v) := ucu_irqs (fs_usb d) in (n, mk_fsim v (fs_frame d));
  ucu_signature _ := 0%Z |}.

Lemma fsim_read r d x d' : ucu_read (Ucu := fsim_ucu) r d = (x, d') → r ≠ UDFNUM →
  ucu_read r (fs_usb d) = (x, fs_usb d').
Proof.
  intros E Hr. cbn [ucu_read fsim_ucu] in E. destruct (ucu_read r (fs_usb d)) as [y v] eqn:Er.
  destruct r; try done; by injection E as <- <-.
Qed.

#[local] Program Instance fsim_hw : UsbHw fsim := {| uview := fs_usb; ulat := 2 |}.
Next Obligation. intros d x. exact (@uenum_write usbv usim usim_hw (fs_usb d) x). Qed.
Next Obligation. intros d v d' e Hs E. by apply (@uecfg0_read usbv usim usim_hw (fs_usb d) v (fs_usb d') e Hs), fsim_read. Qed.
Next Obligation. intros d v d' e Hs E. by apply (@ueconx_read usbv usim usim_hw (fs_usb d) v (fs_usb d') e Hs), fsim_read. Qed.
Next Obligation. intros d v d' e Hs E. by apply (@ueintx_read usbv usim usim_hw (fs_usb d) v (fs_usb d') e Hs), fsim_read. Qed.
Next Obligation. intros d x e Hs Hi Ht Hf. by apply (@ueintx_clear_in usbv usim usim_hw (fs_usb d)). Qed.
Next Obligation. intros d x e Hs Hi Hr Ht Hf. by apply (@ueintx_clear_out usbv usim usim_hw (fs_usb d)). Qed.
Next Obligation. intros d x e Hs Hi Hw Hl. by apply (@uedatx_write usbv usim usim_hw (fs_usb d)). Qed.
Next Obligation. intros d v d' e x l Hs Hr Hb E. by apply (@uedatx_read usbv usim usim_hw (fs_usb d) v (fs_usb d') e x l Hs Hr Hb), fsim_read. Qed.
Next Obligation. intros d v d' e Hs Hw E. by apply (@uebclx_read usbv usim usim_hw (fs_usb d) v (fs_usb d') e Hs Hw), fsim_read. Qed.
Next Obligation. intros d v d' e Hs Hw E. by apply (@uebchx_read usbv usim usim_hw (fs_usb d) v (fs_usb d') e Hs Hw), fsim_read. Qed.
Next Obligation. by intros d v d' [= <- <-]. Qed.
Next Obligation.
  intros d n d' E. cbn [ucu_irqs fsim_ucu] in E. destruct (ucu_irqs (fs_usb d)) as [k v] eqn:Ei.
  injection E as <- <-. by apply (@irqs_next usbv usim usim_hw).
Qed.

#[local] Instance key_events : GenEvents fsim := quiet_events fsim.
#[local] Instance key_hid : HidApp fsim := key_app fsim.

Definition key_usb : usbg := hid_glob (mk_request 0 0 0 0 0).
Definition key_ep : ep := mk_ep true 8 false [] 0 false [] [].
Definition key_state (frame : Z) : ust fsim :=
  mk_ust key_usb (mk_fsim (mk_usbv 0 (<[3%Z := key_ep]> ∅) []) frame).

Lemma key_polled f h : ReportINEndpoint h = key_table → PrevReportINBufferSize h = 8 → hid_ok h →
  polled (D := fsim) 100 8 (key_state f) key_usb ∅ key_ep [] key_press h.
Proof.
  intros Ht Hz Hh. unfold polled, in_number, created_ok, creates. rewrite Ht, Hz. split_and!; try done.
  - by split; [..|intros Hn; inversion Hn]; try (simpl; lia).
  - by apply (bool_decide_unpack _).
  - intros s Hs. by exists s.
  - lia.
  - lia.
Defined.

Lemma key_ok prev : hid_ok (keyboard prev).
Proof. by intros b [= <-]. Defined.

Lemma fsim_patience : ulat (D := fsim) < 100.
Proof. simpl. lia. Defined.
Lemma fsim_prompt : ulat (D := fsim) ≤ 100.
Proof. simpl. lia. Defined.

(** A key is pressed: the report differs from the previous one. *)
Lemma hid_task_reports_witness :
  let h := keyboard (replicate 8 0%Z) in
  ∃ s' h' e' ps, HID_Device_USBTask 100 h (key_state 1) = Ok (h', s') ∧ port (in_number h) s' key_usb ∅ e' ∧
    ep_sent e' = ps ∧ report_packets 8 [0; 0; 4; 0; 0; 0; 0; 0]%Z ps ∧ ∃ f, h' = after_report f key_press h.
Proof.
  intros h. destruct (hid_task_reports (D := fsim) 100 8 fsim_patience fsim_prompt (Nat.lt_0_succ 7)
    (key_state 1) key_usb ∅ key_ep [] key_press h) as (s' & h' & e' & E & Hp & _ & Hr & _).
  { apply key_polled; [done|done|apply key_ok]. }
  destruct Hr as [(ps & Hs & Hps) Hf]; [by split|].
  exists s', h', e', ps. exact (conj E (conj Hp (conj Hs (conj Hps Hf)))).
Defined.

(** The interface after the key was reported in frame 1. *)
Definition reported : hid := after_report 1 key_press (keyboard (replicate 8 0%Z)).

Definition sent_ep : ep := mk_ep true 8 false [] 2 false [[0; 0; 4; 0; 0; 0; 0; 0]%Z] [].
Definition sent_state : ust fsim := mk_ust key_usb (mk_fsim (mk_usbv 3 (<[3%Z := sent_ep]> ∅) []) 1).

(** The key is still held in frame 2, after the idle period of 500 ms. *)
Lemma hid_idle_repeats_witness :
  HID_Device_USBTask 100 (keyboard (replicate 8 0%Z)) (key_state 1)
    = Ok (reported, sent_state) ∧
  ∃ s3 h3 e3, HID_Device_USBTask 100 (Nat.iter 500 HID_Device_MillisecondElapsed reported) (key_state 2)
      = Ok (h3, s3) ∧
    port 3 s3 key_usb ∅ e3 ∧
    ∃ ps, ep_sent e3 = [] ++ ps ∧ report_packets 8 (report_bytes key_press) ps.
Proof.
  assert (HID_Device_USBTask 100 (keyboard (replicate 8 0%Z)) (key_state 1)
    = Ok (reported, sent_state)) as E by (by vm_compute).
  split; [exact E|].
  apply (hid_idle_repeats (D := fsim) 100 8 fsim_patience fsim_prompt (Nat.lt_0_succ 7) 500
    (key_state 1) sent_state (key_state 2) key_usb ∅ key_ep [] key_press key_press (keyboard (replicate 8 0%Z)) reported
    sent_ep key_usb ∅ key_ep []).
  - apply key_polled; [done|done|apply key_ok].
  - simpl. lia.
  - exact E.
  - by split_and!.
  - done.
  - rewrite elapsed_iter by (by vm_compute). apply key_polled; [done|done|]. by intros b [= <-].
  - rewrite elapsed_iter by (by vm_compute). done.
  - done.
  - done.
  - done.
  - done.
Defined.
End HidDevice.
